(* ===== verification/_CoqProject ===== *)
-Q . S2P
Prelude.v
Bytes.v
Registers.v
IbVerbs.v
World.v
Wp.v
Cmd.v
CmdSpec.v
Sim.v
CmdTheorems.v
CmdLive.v
CmdOverlap.v
CmdInit.v
CmdInitTheorems.v
Qp.v
QpSpec.v
QpTheorems.v
QpRing.v
QpOverlap.v
Ordering.v
Mr.v
MrTheorems.v
Verbs.v
VerbsTheorems.v
Driver.v
DriverSpec.v
CmdLog.v
DriverTheorems.v
Keep.v
Session.v
Lifecycle.v
Teardown.v
Wire.v
Spare.v
Machine.v
Service.v
Dispatch.v
Threads.v
CmdThreads.v
CmdRace.v
QpThreads.v
Clients.v
ClientsTheorems.v
QpShared.v
Types.v
Printf.v
UserApi.v
UserSpec.v
Tools.v
ToolsSpec.v
UserSim.v
ToolsTheorems.v
DumpTheorems.v
InterposeTheorems.v
