(* ===== verification/Prelude.v ===== *)
(** * Verbifrost ConnectX: a verification development

    The repository is a macOS kernel extension for Mellanox ConnectX network
    cards, with a set of C programs that examine another vendor's InfiniBand
    stack.  This development models all of the driver code, the directory
    [src/kext], and all of the C programs of [src/tools].  It proves what their
    parts promise, what they need from the card, from IOKit and from the
    libraries they call, and where they break.

    ** The program

    The driver
    - [mlx5_cmd.cpp]: the command channel.  One ring of command entries and a
      pool of mailboxes in DMA memory; [mlx5_cmd_init] sets it up,
      [mlx5_cmd_exec] sends one command and polls for the answer,
      [mlx5_cmd_cleanup] releases the memory.
    - [mlx5_verbs.cpp]: the InfiniBand verbs (protection domains, completion
      queues, deregistration, queries), each one a command; and
      [mlx5_ib_init_ops], the table through which they are called.
    - [mlx5_qp.cpp]: queue pairs: creation, the state machine, destruction, and
      the data path (work queue elements, doorbell record, BlueFlame register).
    - [mlx5_mr.cpp]: registration of memory regions.
    - [VerbifrostConnectXRDMA.cpp]: the IOKit service: matching, mapping of the
      BAR, bring-up of the card by commands, teardown.
    - [mlx5_registers.h], [rdma/ib_verbs.h] and one header per source file:
      constants, structs, enums.

    The tools
    - [vfinfo.c]: a report on the devices, with a test of each kind of object.
    - [trace_verbs.c]: a report on the libraries, the symbols and the devices.
    - [dump_ops.c], [dump_cmd.c], [dump_targets.c]: dumps of machine code.
    - [resolve_got.c], [resolve_dispatch.c]: names for addresses.
    - [mach_interpose.c]: a replacement of [mach_msg_overwrite] that logs.

    ** Files of the development

    Foundations
    - [Prelude]: machine integers ([u8] to [u64], [i16], [i32]), generic lemmas,
      tactics and the hint database [vf].
    - [Bytes]: typed loads and stores, byte swaps, memory objects ([buf]), and the
      big-endian fields the firmware reads ([be_at]).
    - [Registers], [IbVerbs]: constants, return codes, structs and enums, with the
      source's names.  A pointer is an address; each struct type has its own
      store, so aliases of one object see the same updates.
    - [World]: the class [Platform], interface to everything outside the
      repository (IOKit and the device, which writes to DMA memory whenever the
      driver reads it or sleeps); the state [world]; the monad [M], in which
      undefined behaviour is the outcome [Fault].
    - [Wp]: weakest preconditions (total: no fault), rules and tactics.

    Components of the driver: one file of definitions, one of specifications where
    these are long, one of theorems
    - [Cmd], [CmdSpec], [CmdTheorems]: [mlx5_cmd_exec]; [CmdLive]: its liveness;
      [CmdOverlap]: two calls of it at once.
    - [CmdInit], [CmdInitTheorems]: [mlx5_cmd_init], [mlx5_cmd_cleanup].
    - [Qp], [QpSpec], [QpTheorems]: [mlx5_qp.cpp]; [QpRing]: the work queues as
      logs; [QpOverlap]: two sends at once.
    - [Ordering]: in what order the stores of commands and sends reach memory.
    - [Mr], [MrTheorems]: [mlx5_mr.cpp].
    - [Verbs], [VerbsTheorems]: [mlx5_verbs.cpp].
    - [Driver], [DriverSpec], [CmdLog], [DriverTheorems]: the service.
    - [Sim]: a concrete platform with scripted firmware, for runs and witnesses.

    The driver as a whole
    - [Keep], [Session]: sequences of verb calls on a device in service, as a step
      relation, and their invariant.
    - [Lifecycle]: [start], then a session, then [stop]; [Teardown]: commands that
      meet a [stop].
    - [Wire]: which command each call sends and how long it may sleep.
    - [Spare]: what no call of the driver, and no device that only reads, changes.
    - [Machine]: the abstract specification of the driver, a machine of queue pairs
      (state, number, logs of what was posted) and memory regions (key, extent),
      and the simulation; [Service]: the same from [start] on.
    - [Dispatch]: clients that call through the function table.
    - [Threads]: functions cut into their accesses to shared memory, pools of
      threads, a rely-guarantee logic; [CmdThreads], [QpThreads], [Clients]: the
      command channel, the data path and the verbs, cut; [ClientsTheorems]: any
      number of clients at once; [QpShared]: one sender and one receiver;
      [CmdRace]: two commands that tear each other.
    - [Types]: every integer fits its C type, as a semantic typing judgement.

    The tools
    - [Printf]: the conversions of [printf] they use, and a reader of hexadecimal.
    - [UserApi], [UserSpec]: the interface they run on: calls, contracts, the
      total-correctness predicate [uwp], and [ustop] for programs that may make
      an undefined call.
    - [UserSim]: execution, the soundness of both, a small system to run them on.
    - [Tools], [ToolsSpec], [ToolsTheorems], [DumpTheorems], [InterposeTheorems]:
      the programs and what holds of them.

    The interface between the command channel and its clients is the class
    [CmdService] of [CmdSpec]: a function that answers commands with
    [exec_reply]s.  [mlx5_cmd_exec] is an instance; the specifications of the
    service's commands are derived from the class.

    ** Correspondence

    A function of the source is the definition of the same name.  Three long
    functions are cut into stages, which a definition with the source's name
    composes: [mlx5_cmd_exec] into [cmd_take_token], [cmd_submit], [cmd_poll] and
    [cmd_finish]; [mlx5_cmd_init] into [cmd_init_params], [cmd_init_ring],
    [cmd_init_entries], [cmd_init_register], [cmd_init_mbox] and
    [cmd_init_doorbells]; [mlx5_ib_create_qp_full] into [alloc_qp_resources],
    [qpc_sizes], [qpc_addresses] and [create_command].  A definition whose name
    ends in [_t] is the function of that name, cut into accesses, and a lemma
    [cut_...] says that, run alone, it is that function.  The building of other
    command inputs is a definition of its own ([mkc_input], [cq_input] and so
    on).
    Integers are [Z] with their wrap-around written at the operations that can
    wrap; a shift by 32 or more faults.  A local array is a [buf], and a pointer
    into it with an offset is a pair.  A log line of the driver is an event with a
    short tag and its numeric arguments.  The service's members are the record
    [driver], its embedded context an entry of [w_ctx].
    The [main] of a tool is the interaction tree named after its file
    ([vfinfo_main] and so on), its value the exit code; the bodies of its loops
    and its sections are definitions of their own.  What a tool prints is the text
    itself.  A variable that may be uninitialised is an option.

    ** What the theorems show

    - Command channel: safety and the time bound whatever the device does; the
      bytes and the order in which a command is published; for firmware that
      respects the owner bit, refinement of the pure function [completion]
      (return code, output buffer, status); for firmware that also makes progress,
      an answer before the time limit; timeouts, counters, tokens; a late answer
      that is mistaken for a success; two overlapping calls that share one answer.
    - Publication: the trace records every store with its bytes, and between two
      barriers the bytes may reach memory in any order.  A device that sees a
      command entry as its own sees the whole command; a device that sees the
      doorbell of a send may still see the old ring.
    - Set-up: the context after success, no leak on any path, the ring pointer
      left dangling by a failure.  The code checks nothing of the geometry the
      card announces but the number of entries: the theorems are about every
      geometry except a ring of one entry of 32 bytes ([geometry_short], shown
      by [short_ring] to be accepted and overrun by the first command), and say
      for which of the others ([geometry_bad]: entries below 32 bytes, a ring of
      2^32 bytes or more) the set-up itself leaves the ring.
    - Queue pairs: the exact bytes of work queue elements and doorbells and their
      order; sequences of posts as a refinement of two logs; the state machine;
      ownership of the rings; the input of CREATE_QP; overlapping sends, of which
      one is lost.
    - Memory regions: the page list covers the region, where 32-bit arithmetic
      breaks it, the fields of the memory key context, every outcome of a
      registration.
    - Verbs: results and effects of the commands, against [exec_reply]; the
      effect of 16-byte reply buffers; leaks; the key of a region from the reply
      at its registration to the command of its deregistration; the table, whose
      stubs keep its clients from queue pairs and regions.
    - Service: [start] brings the card up with the four commands in order, or
      gives everything back, or has undefined behaviour at one of three places,
      each with its cause ([start_fault]: the set-up leaves the ring, because of
      the geometry; the capability exponent is 32 or more; [stop] releases the
      ring that a failed set-up has released); [stop] releases everything once;
      the wait for the firmware; the capability fields, which are not where the
      comments of the source place them.
    - The driver as a whole: any sequence of legal calls from a device in service,
      with the card acting between them, keeps the channel usable and the queue
      pairs well-formed with blocks of their own, and no legal call faults; a
      successful [start] leaves such a device, and [stop] gives back what [start]
      took, whatever the session was, but pulls the memory from under a command
      that meets it; every session, also from [start] on, is a
      run of the abstract machine, with the machine's commands on the wire and a
      bound on the time slept; set-up, clean-up and verbs keep all integers within
      their types.
    - Concurrency, one access to memory at a time: any number of clients with
      scripts of commands, state changes and posts never reach undefined
      behaviour, get one of the results each call may return, and end, under every
      interleaving; one sender and one receiver on a queue pair are as good as
      sequential; but two commands can be torn into one that nobody asked for.
    - Tools: [vfinfo] ends and calls nothing outside its contract on any system
      that keeps the documented contracts; [trace_verbs] ends on any such system
      or uses a missing file name, a missing device name or a null device list
      ([trace_undefined]); the others where the calls whose results they do not
      test succeed; what they leave open (nothing, for
      [vfinfo]; exactly the contexts whose query failed, for [trace_verbs]); a
      dump reads back as the bytes it shows; the interposer is transparent and
      reads at most 64 bytes of a message's body; which uninitialised reads are
      reached, and when.

    ** Bounds and fuel

    The loops of the driver are bounded by the source: [poll_limit] is 6000 polls
    of 10 ms ([MLX5_CMD_TIMEOUT_MS]), [waitForInitializing] polls 1000 times, the
    entry and page loops run over their counts, and the logarithm loop, on a
    32-bit integer, is given 32 iterations, which is as many as it can make.  The
    loops of the tools run over the device list, whose entries end with a null
    pointer, or over constant tables.  All functions are total; theorems stated
    with [wp] include that no fault occurs, those stated with [uwp] that the
    program ends, and [UserSim] derives a fuel with which it runs to its end.

    ** Not modelled

    The Python scripts under [tools] (they print facts about other binaries),
    [IORDMAInterface.h] (an abstract class that nothing uses), the plist and
    Makefile, the documents, and the placeholder directories [kernel] and
    [userspace].
    When the driver runs as one thread, the device acts when the driver reads DMA
    memory or sleeps, not between two stores; what it may see in between is the
    subject of [Ordering], which reads it off the trace.  In [Threads] it acts
    between any two accesses; there every access is atomic and seen at once
    ([memset] and [memcpy] are one access each, and stores are not delayed).
    Calls that allocate or release DMA memory (creation of queue pairs and
    completion queues, destruction of queue pairs, registration, start and stop)
    do not interleave with others, apart from [Teardown].
    Also not modelled are interrupts (the driver uses none) and the text of log
    lines. *)

From stdpp Require Export base tactics numbers list gmap strings.
From Stdlib Require Export ZArith Lia.

#[export] Set Default Goal Selector "!".
Open Scope Z_scope.

(** ** Machine integers

    A [uintN_t] value is a [Z] in [[0, 2^N)]; every arithmetic result is
    reduced explicitly, the way the C++ compiler wraps it. *)

Definition u8 (x : Z) : Z := x mod 2 ^ 8.
Definition u16 (x : Z) : Z := x mod 2 ^ 16.
Definition u32 (x : Z) : Z := x mod 2 ^ 32.
Definition u64 (x : Z) : Z := x mod 2 ^ 64.

(** Conversion of a 16-bit or 32-bit pattern to the signed type of the same width. *)
Definition i16 (x : Z) : Z := (x + 2 ^ 15) mod 2 ^ 16 - 2 ^ 15.
Definition i32 (x : Z) : Z := (x + 2 ^ 31) mod 2 ^ 32 - 2 ^ 31.

Arguments u8 : simpl never.
Arguments u16 : simpl never.
Arguments u32 : simpl never.
Arguments u64 : simpl never.
Arguments i16 : simpl never.
Arguments i32 : simpl never.

Create HintDb vf discriminated.
Create Rewrite HintDb vf.

Lemma u8_range x : 0 <= u8 x < 2 ^ 8.
Proof. apply Z.mod_pos_bound; lia. Qed.
Lemma u16_range x : 0 <= u16 x < 2 ^ 16.
Proof. apply Z.mod_pos_bound; lia. Qed.
Lemma u32_range x : 0 <= u32 x < 2 ^ 32.
Proof. apply Z.mod_pos_bound; lia. Qed.
Lemma u64_range x : 0 <= u64 x < 2 ^ 64.
Proof. apply Z.mod_pos_bound; lia. Qed.

Lemma u8_small x : 0 <= x < 2 ^ 8 -> u8 x = x.
Proof. apply Z.mod_small. Qed.
Lemma u16_small x : 0 <= x < 2 ^ 16 -> u16 x = x.
Proof. apply Z.mod_small. Qed.
Lemma u32_small x : 0 <= x < 2 ^ 32 -> u32 x = x.
Proof. apply Z.mod_small. Qed.
Lemma u64_small x : 0 <= x < 2 ^ 64 -> u64 x = x.
Proof. apply Z.mod_small. Qed.

#[export] Hint Resolve u8_range u16_range u32_range u64_range : vf.

(** The int conversions are inverse to each other on 32-bit patterns. *)
Lemma u32_i32 x : u32 (i32 x) = u32 x.
Proof.
  unfold u32, i32. rewrite Zminus_mod_idemp_l. f_equal. lia.
Qed.

(** ** Bit-field lemmas *)

Lemma land_ones_mod x n : 0 <= n -> Z.land x (Z.ones n) = x mod 2 ^ n.
Proof. apply Z.land_ones. Qed.

(** [(a & m)] for the low-bit masks the driver uses. *)
Lemma land_mask_mod x n m : 0 <= n -> m = Z.ones n -> Z.land x m = x mod 2 ^ n.
Proof. intros ? ->. by apply Z.land_ones. Qed.

(** Two fields that do not overlap: [or] is addition. *)
Lemma testbit_above x n i : 0 <= x < 2 ^ n -> n <= i -> Z.testbit x i = false.
Proof.
  intros Hx Hi. destruct (decide (x = 0)) as [->|]; [apply Z.testbit_0_l|].
  apply Z.bits_above_log2; [lia|]. apply Z.log2_lt_pow2; [lia|].
  eapply Z.lt_le_trans; [apply Hx|]. apply Z.pow_le_mono_r; lia.
Qed.

Lemma land_shiftl_low a b n : 0 <= n -> 0 <= b < 2 ^ n -> Z.land (Z.shiftl a n) b = 0.
Proof.
  intros Hn Hb. apply Z.bits_inj_0. intros i. rewrite Z.land_spec.
  destruct (decide (i < n)).
  - by rewrite Z.shiftl_spec_low by lia.
  - rewrite (testbit_above b n) by lia. apply andb_false_r.
Qed.

Lemma lor_shiftl_add a b n :
  0 <= n -> 0 <= b < 2 ^ n -> Z.lor (Z.shiftl a n) b = a * 2 ^ n + b.
Proof.
  intros Hn Hb. pose proof (land_shiftl_low a b n Hn Hb) as Hl.
  rewrite <- Z.shiftl_mul_pow2 by done.
  by rewrite Z.add_nocarry_lxor, Z.lxor_lor.
Qed.

(** Powers of two as masks: the ring arithmetic [(head + 1) & (cnt - 1)]. *)
Lemma land_pow2_pred x k : 0 <= k -> Z.land x (2 ^ k - 1) = x mod 2 ^ k.
Proof. intros. rewrite <- Z.land_ones by done. by rewrite Z.ones_equiv. Qed.

(** ** List lemmas *)

Lemma nth_map_seq {A} (f : nat -> A) (d : A) n i :
  (i < n)%nat -> nth i (map f (seq 0 n)) d = f i.
Proof.
  intros Hi. rewrite (nth_indep _ d (f 0%nat)) by (rewrite length_map, length_seq; lia).
  rewrite map_nth, seq_nth by done. done.
Qed.

Lemma map_seq_ext {A} (f g : nat -> A) n :
  (forall i, (i < n)%nat -> f i = g i) -> map f (seq 0 n) = map g (seq 0 n).
Proof. intros H. apply map_ext_in. intros i Hi%in_seq. apply H. lia. Qed.

Lemma list_eq_nth {A} (d : A) (l1 l2 : list A) :
  length l1 = length l2 ->
  (forall i, (i < length l1)%nat -> nth i l1 d = nth i l2 d) -> l1 = l2.
Proof. intros. by apply (nth_ext _ _ d d). Qed.

(** [1 << n] on [int], stored in a [uint32_t]. *)
Lemma u32_shl1 n : 0 <= n < 32 -> u32 (i32 (Z.shiftl 1 n)) = 2 ^ n.
Proof.
  intros. rewrite u32_i32, Z.shiftl_1_l. apply u32_small.
  split; [lia|]. apply Z.pow_lt_mono_r; lia.
Qed.
