(* ===== verification/Bytes.v ===== *)
(** * Bytes, byte order and memory buffers

    The driver runs on a little-endian CPU and talks to big-endian hardware:
    it stores [OSSwapIntN(v)] through typed pointers.  This file has the
    little-endian view of a typed load or store ([le_split], [le_combine]),
    the byte swaps of [libkern/OSByteOrder.h] ([OSSwapInt16/32/64]), and the
    type [buf] of a contiguous memory object (a C array, a mailbox, a DMA
    ring), with the lemmas that relate typed stores to the bytes the hardware
    reads. *)

From S2P Require Import Prelude.

(** ** Typed accesses as byte lists *)

Fixpoint le_split (n : nat) (x : Z) : list Z :=
  match n with
  | O => []
  | S n' => x mod 256 :: le_split n' (x / 256)
  end.

Fixpoint le_combine (l : list Z) : Z :=
  match l with
  | [] => 0
  | b :: l' => b + 256 * le_combine l'
  end.

(** The big-endian view: what the firmware reads. *)
Definition be_split (n : nat) (x : Z) : list Z := rev (le_split n x).
Definition be_combine (l : list Z) : Z := le_combine (rev l).

(** [OSSwapIntN]: reverse the bytes of an N-bit integer. *)
Definition bswap (n : nat) (x : Z) : Z := le_combine (rev (le_split n x)).
Definition OSSwapInt16 (x : Z) : Z := bswap 2 x.
Definition OSSwapInt32 (x : Z) : Z := bswap 4 x.
Definition OSSwapInt64 (x : Z) : Z := bswap 8 x.

Arguments le_split : simpl never.
Arguments be_split : simpl never.
Arguments bswap : simpl never.

Definition is_byte (b : Z) : Prop := 0 <= b < 256.

Lemma le_split_S n x : le_split (S n) x = x mod 256 :: le_split n (x / 256).
Proof. done. Qed.

Lemma length_le_split n x : length (le_split n x) = n.
Proof. revert x; induction n; intros; [done|]. rewrite le_split_S. simpl. by f_equal. Qed.

Lemma length_be_split n x : length (be_split n x) = n.
Proof. unfold be_split. by rewrite length_rev, length_le_split. Qed.

Lemma le_split_bytes n x : Forall is_byte (le_split n x).
Proof.
  revert x; induction n; intros; rewrite ?le_split_S; constructor; [|done].
  apply Z.mod_pos_bound. lia.
Qed.

Lemma be_split_bytes n x : Forall is_byte (be_split n x).
Proof. apply Forall_rev, le_split_bytes. Qed.

#[export] Hint Resolve le_split_bytes be_split_bytes : vf.
#[export] Hint Rewrite length_le_split length_be_split : vf.

Lemma le_combine_split n x : le_combine (le_split n x) = x mod 256 ^ Z.of_nat n.
Proof.
  revert x; induction n; intros; [by rewrite Z.mod_1_r|].
  rewrite le_split_S. simpl le_combine. rewrite IHn, Nat2Z.inj_succ, Z.pow_succ_r by lia.
  rewrite Z.rem_mul_r by lia. lia.
Qed.

Lemma le_split_combine l :
  Forall is_byte l -> le_split (length l) (le_combine l) = l.
Proof.
  induction 1 as [|b l Hb _ IH]; [done|]. simpl length. rewrite le_split_S. simpl.
  unfold is_byte in Hb. rewrite (Z.mul_comm 256), Z_mod_plus_full, Z.mod_small by done.
  rewrite Z_div_plus_full, Z.div_small, Z.add_0_l by lia. by f_equal.
Qed.

Lemma le_split_mod n x : le_split n (x mod 256 ^ Z.of_nat n) = le_split n x.
Proof.
  rewrite <- le_combine_split.
  pose proof (le_split_combine (le_split n x) (le_split_bytes n x)) as H.
  by rewrite length_le_split in H.
Qed.

Lemma le_combine_range l :
  Forall is_byte l -> 0 <= le_combine l < 256 ^ Z.of_nat (length l).
Proof.
  induction 1 as [|b l Hb _ IH]; [simpl; lia|].
  simpl le_combine. simpl length. rewrite Nat2Z.inj_succ, Z.pow_succ_r by lia.
  unfold is_byte in Hb. lia.
Qed.

(** A byte-swapped little-endian store is a big-endian store. *)
Lemma le_split_bswap n x : le_split n (bswap n x) = be_split n x.
Proof.
  unfold bswap, be_split.
  pose proof (le_split_combine (rev (le_split n x)) ltac:(apply Forall_rev, le_split_bytes)) as H.
  by rewrite length_rev, length_le_split in H.
Qed.

(** A byte-swapped little-endian load is a big-endian load. *)
Lemma bswap_le_combine l :
  Forall is_byte l -> bswap (length l) (le_combine l) = be_combine l.
Proof. intros. unfold bswap, be_combine. by rewrite le_split_combine. Qed.

Lemma be_combine_split n x : be_combine (be_split n x) = x mod 256 ^ Z.of_nat n.
Proof. unfold be_combine, be_split. rewrite rev_involutive. apply le_combine_split. Qed.

Lemma le_split_swap16 x : le_split 2 (OSSwapInt16 x) = be_split 2 x.
Proof. apply le_split_bswap. Qed.
Lemma le_split_swap32 x : le_split 4 (OSSwapInt32 x) = be_split 4 x.
Proof. apply le_split_bswap. Qed.
Lemma le_split_swap64 x : le_split 8 (OSSwapInt64 x) = be_split 8 x.
Proof. apply le_split_bswap. Qed.

Lemma be_combine_range l :
  Forall is_byte l -> 0 <= be_combine l < 256 ^ Z.of_nat (length l).
Proof.
  intros H%Forall_rev%le_combine_range. by rewrite length_rev in H.
Qed.

Lemma bswap_involutive n x : bswap n (bswap n x) = x mod 256 ^ Z.of_nat n.
Proof.
  unfold bswap at 1. rewrite le_split_bswap. apply be_combine_split.
Qed.

Lemma bswap_range n x : 0 <= bswap n x < 256 ^ Z.of_nat n.
Proof.
  pose proof (le_combine_range (be_split n x) (be_split_bytes n x)) as H.
  by rewrite length_be_split in H.
Qed.

Lemma bswap_inj n x y :
  bswap n x = bswap n y -> x mod 256 ^ Z.of_nat n = y mod 256 ^ Z.of_nat n.
Proof. intros H. by rewrite <- !bswap_involutive, H. Qed.

(** ** Buffers *)

(** A contiguous memory object: its size and its contents.  A cell holds a
    [uint8_t]; [buf_get] reads it. *)
Record buf := Buf { buf_size : Z; buf_data : Z -> Z }.

Definition buf_get (b : buf) (o : Z) : Z := buf_data b o mod 256.

(** [n] bytes from offset [o]. *)
Definition buf_bytes (b : buf) (o : Z) (n : nat) : list Z :=
  map (fun i => buf_get b (o + Z.of_nat i)) (seq 0 n).

(** A freshly zeroed object: [uint8_t b[n] = {0}]. *)
Definition buf_zero (n : Z) : buf := Buf n (fun _ => 0).

(** Store the bytes [bs] from offset [o]. *)
Definition buf_store (b : buf) (o : Z) (bs : list Z) : buf :=
  Buf (buf_size b)
      (fun i => if (o <=? i) && (i <? o + Z.of_nat (length bs))
                then nth (Z.to_nat (i - o)) bs 0 else buf_data b i).

(** [memset(b + o, v, n)]. *)
Definition buf_fill (b : buf) (o n v : Z) : buf :=
  Buf (buf_size b)
      (fun i => if (o <=? i) && (i <? o + n) then v else buf_data b i).

(** [memcpy(dst + o, src + so, n)]. *)
Definition buf_copy (dst : buf) (o : Z) (src : buf) (so n : Z) : buf :=
  Buf (buf_size dst)
      (fun i => if (o <=? i) && (i <? o + n)
                then buf_data src (so + (i - o)) else buf_data dst i).

(** [n] bytes from offset [o] lie inside the object. *)
Definition in_bounds (b : buf) (o n : Z) : bool :=
  (0 <=? o) && (0 <=? n) && (o + n <=? buf_size b).

Lemma in_bounds_spec b o n :
  in_bounds b o n = true <-> 0 <= o /\ 0 <= n /\ o + n <= buf_size b.
Proof. unfold in_bounds. rewrite !andb_true_iff, !Z.leb_le. tauto. Qed.

Lemma buf_get_byte b o : is_byte (buf_get b o).
Proof. apply Z.mod_pos_bound. lia. Qed.

Lemma length_buf_bytes b o n : length (buf_bytes b o n) = n.
Proof. unfold buf_bytes. by rewrite length_map, length_seq. Qed.

Lemma buf_bytes_bytes b o n : Forall is_byte (buf_bytes b o n).
Proof.
  unfold buf_bytes. apply Forall_forall. intros x (i & -> & _)%list_elem_of_fmap.
  apply buf_get_byte.
Qed.

Lemma nth_buf_bytes b o n i :
  (i < n)%nat -> nth i (buf_bytes b o n) 0 = buf_get b (o + Z.of_nat i).
Proof. intros. unfold buf_bytes. by rewrite nth_map_seq. Qed.

#[export] Hint Resolve buf_get_byte buf_bytes_bytes : vf.
#[export] Hint Rewrite length_buf_bytes : vf.

Lemma buf_size_store b o bs : buf_size (buf_store b o bs) = buf_size b.
Proof. done. Qed.
Lemma buf_size_fill b o n v : buf_size (buf_fill b o n v) = buf_size b.
Proof. done. Qed.
Lemma buf_size_copy d o s so n : buf_size (buf_copy d o s so n) = buf_size d.
Proof. done. Qed.

Lemma buf_get_store_in b o bs i :
  Forall is_byte bs -> o <= i < o + Z.of_nat (length bs) ->
  buf_get (buf_store b o bs) i = nth (Z.to_nat (i - o)) bs 0.
Proof.
  intros Hbs Hi. unfold buf_get, buf_store; simpl.
  rewrite (proj2 (Z.leb_le _ _)), (proj2 (Z.ltb_lt _ _)) by lia. simpl.
  apply Z.mod_small. rewrite Forall_forall in Hbs. apply Hbs.
  apply list_elem_of_In, nth_In. lia.
Qed.

Lemma buf_get_store_out b o bs i :
  i < o \/ o + Z.of_nat (length bs) <= i -> buf_get (buf_store b o bs) i = buf_get b i.
Proof.
  intros Hi. unfold buf_get, buf_store; simpl.
  destruct (Z.leb_spec o i), (Z.ltb_spec i (o + Z.of_nat (length bs))); simpl; try done; lia.
Qed.

Lemma buf_get_fill_in b o n v i :
  o <= i < o + n -> buf_get (buf_fill b o n v) i = v mod 256.
Proof.
  intros Hi. unfold buf_get, buf_fill; simpl.
  by rewrite (proj2 (Z.leb_le _ _)), (proj2 (Z.ltb_lt _ _)) by lia.
Qed.

Lemma buf_get_fill_out b o n v i :
  i < o \/ o + n <= i -> buf_get (buf_fill b o n v) i = buf_get b i.
Proof.
  intros Hi. unfold buf_get, buf_fill; simpl.
  destruct (Z.leb_spec o i), (Z.ltb_spec i (o + n)); simpl; try done; lia.
Qed.

Lemma buf_get_copy_in d o s so n i :
  o <= i < o + n -> buf_get (buf_copy d o s so n) i = buf_get s (so + (i - o)).
Proof.
  intros Hi. unfold buf_get, buf_copy; simpl.
  by rewrite (proj2 (Z.leb_le _ _)), (proj2 (Z.ltb_lt _ _)) by lia.
Qed.

Lemma buf_get_copy_out d o s so n i :
  i < o \/ o + n <= i -> buf_get (buf_copy d o s so n) i = buf_get d i.
Proof.
  intros Hi. unfold buf_get, buf_copy; simpl.
  destruct (Z.leb_spec o i), (Z.ltb_spec i (o + n)); simpl; try done; lia.
Qed.

Lemma buf_get_zero n i : buf_get (buf_zero n) i = 0.
Proof. done. Qed.

(** A range of bytes is determined by its cells. *)
Lemma buf_bytes_ext b1 b2 o1 o2 n :
  (forall i, 0 <= i < Z.of_nat n -> buf_get b1 (o1 + i) = buf_get b2 (o2 + i)) ->
  buf_bytes b1 o1 n = buf_bytes b2 o2 n.
Proof. intros H. apply map_seq_ext. intros i Hi. apply H. lia. Qed.

Lemma buf_bytes_store_same b o bs :
  Forall is_byte bs -> buf_bytes (buf_store b o bs) o (length bs) = bs.
Proof.
  intros Hbs. apply (list_eq_nth 0); [apply length_buf_bytes|].
  rewrite length_buf_bytes. intros i Hi. rewrite nth_buf_bytes by done.
  rewrite buf_get_store_in by (done || lia). f_equal. lia.
Qed.

Lemma buf_bytes_store_out b o bs o' n :
  o' + Z.of_nat n <= o \/ o + Z.of_nat (length bs) <= o' ->
  buf_bytes (buf_store b o bs) o' n = buf_bytes b o' n.
Proof. intros H. apply buf_bytes_ext. intros i Hi. apply buf_get_store_out. lia. Qed.

Lemma buf_bytes_fill_in b o n v o' k :
  o <= o' -> o' + Z.of_nat k <= o + n -> buf_bytes (buf_fill b o n v) o' k = repeat (v mod 256) k.
Proof.
  intros H1 H2. apply (list_eq_nth 0); rewrite length_buf_bytes; [by rewrite repeat_length|].
  intros i Hi. rewrite nth_buf_bytes by done. rewrite nth_repeat_lt by done.
  apply buf_get_fill_in. lia.
Qed.

Lemma buf_bytes_fill_out b o n v o' k :
  o' + Z.of_nat k <= o \/ o + n <= o' -> buf_bytes (buf_fill b o n v) o' k = buf_bytes b o' k.
Proof. intros H. apply buf_bytes_ext. intros i Hi. apply buf_get_fill_out. lia. Qed.

Lemma buf_bytes_copy_in d o s so n o' k :
  o <= o' -> o' + Z.of_nat k <= o + n ->
  buf_bytes (buf_copy d o s so n) o' k = buf_bytes s (so + (o' - o)) k.
Proof.
  intros. apply buf_bytes_ext. intros i Hi. rewrite buf_get_copy_in by lia. f_equal. lia.
Qed.

Lemma buf_bytes_copy_out d o s so n o' k :
  o' + Z.of_nat k <= o \/ o + n <= o' -> buf_bytes (buf_copy d o s so n) o' k = buf_bytes d o' k.
Proof. intros H. apply buf_bytes_ext. intros i Hi. apply buf_get_copy_out. lia. Qed.

Lemma buf_bytes_app b o n m :
  buf_bytes b o (n + m) = buf_bytes b o n ++ buf_bytes b (o + Z.of_nat n) m.
Proof.
  apply (list_eq_nth 0); [by rewrite length_app, !length_buf_bytes|].
  rewrite length_buf_bytes. intros i Hi. rewrite nth_buf_bytes by done.
  destruct (decide (i < n)%nat).
  - rewrite app_nth1 by (by rewrite length_buf_bytes). by rewrite nth_buf_bytes.
  - rewrite app_nth2 by (rewrite length_buf_bytes; lia).
    rewrite length_buf_bytes, nth_buf_bytes by lia. f_equal. lia.
Qed.

Lemma buf_bytes_zero n o k : buf_bytes (buf_zero n) o k = repeat 0 k.
Proof.
  apply (list_eq_nth 0); rewrite length_buf_bytes; [by rewrite repeat_length|].
  intros i Hi. by rewrite nth_buf_bytes, nth_repeat_lt.
Qed.

(** Big-endian fields of a buffer, the way the firmware decodes them. *)
Definition be_at (b : buf) (o : Z) (n : nat) : Z := be_combine (buf_bytes b o n).

Lemma be_at_range b o n : 0 <= be_at b o n < 256 ^ Z.of_nat n.
Proof.
  pose proof (be_combine_range (buf_bytes b o n) (buf_bytes_bytes b o n)) as H.
  by rewrite length_buf_bytes in H.
Qed.

Lemma be_at_store_same b o n x :
  be_at (buf_store b o (be_split n x)) o n = x mod 256 ^ Z.of_nat n.
Proof.
  pose proof (buf_bytes_store_same b o (be_split n x) (be_split_bytes n x)) as H.
  rewrite length_be_split in H. unfold be_at. rewrite H. apply be_combine_split.
Qed.

Lemma be_at_store_out b o bs o' n :
  o' + Z.of_nat n <= o \/ o + Z.of_nat (length bs) <= o' ->
  be_at (buf_store b o bs) o' n = be_at b o' n.
Proof. intros. unfold be_at. by rewrite buf_bytes_store_out. Qed.

Lemma be_at_fill_out b o m v o' n :
  o' + Z.of_nat n <= o \/ o + m <= o' -> be_at (buf_fill b o m v) o' n = be_at b o' n.
Proof. intros. unfold be_at. by rewrite buf_bytes_fill_out. Qed.

Lemma be_at_copy_in d o s so n o' k :
  o <= o' -> o' + Z.of_nat k <= o + n ->
  be_at (buf_copy d o s so n) o' k = be_at s (so + (o' - o)) k.
Proof. intros. unfold be_at. by rewrite buf_bytes_copy_in. Qed.

Lemma be_at_copy_out d o s so n o' k :
  o' + Z.of_nat k <= o \/ o + n <= o' -> be_at (buf_copy d o s so n) o' k = be_at d o' k.
Proof. intros. unfold be_at. by rewrite buf_bytes_copy_out. Qed.

(** A typed swapped load of the code is the big-endian field. *)
Lemma bswap_load b o n : bswap n (le_combine (buf_bytes b o n)) = be_at b o n.
Proof.
  pose proof (bswap_le_combine (buf_bytes b o n) (buf_bytes_bytes b o n)) as H.
  by rewrite length_buf_bytes in H.
Qed.

Lemma be_combine_zeros n : be_combine (repeat 0 n) = 0.
Proof.
  unfold be_combine. assert (rev (repeat 0 n) = repeat 0 n) as ->.
  { apply rev_repeat. }
  induction n; simpl; lia.
Qed.

(** ** Equality of buffers: same size, same bytes *)

#[export] Instance buf_equiv : Equiv buf := fun b1 b2 =>
  buf_size b1 = buf_size b2 /\ forall i, buf_get b1 i = buf_get b2 i.

#[export] Instance buf_equivalence : Equivalence (≡@{buf}).
Proof.
  split.
  - by intros b.
  - intros b1 b2 [? H]. by split.
  - intros b1 b2 b3 [? H1] [? H2]. split; [congruence|]. intros. by rewrite H1.
Qed.

#[export] Instance buf_get_proper : Proper ((≡) ==> (=) ==> (=)) buf_get.
Proof. intros b1 b2 [_ H] ? ? ->. apply H. Qed.

#[export] Instance buf_bytes_proper : Proper ((≡) ==> (=) ==> (=) ==> (=)) buf_bytes.
Proof.
  intros b1 b2 Hb o ? <- n ? <-. apply buf_bytes_ext. intros. by rewrite Hb.
Qed.

#[export] Instance be_at_proper : Proper ((≡) ==> (=) ==> (=) ==> (=)) be_at.
Proof. intros b1 b2 Hb o ? <- n ? <-. unfold be_at. by rewrite Hb. Qed.

#[export] Instance buf_store_proper : Proper ((≡) ==> (=) ==> (=) ==> (≡)) buf_store.
Proof.
  intros b1 b2 [Hs Hb] o ? <- bs ? <-. split; [done|]. intros i.
  unfold buf_get, buf_store in *; simpl. by destruct (_ && _).
Qed.
