(* ===== verification/Registers.v ===== *)
(** * Constants of [mlx5_registers.h] and the IOKit return codes

    Register offsets, opcodes, status values and sizes, with the values of
    the header, plus the [IOReturn] codes the driver returns and tests. *)

From S2P Require Import Prelude.

(** ** BAR0 and the initialization segment *)

Definition MLX5_INIT_SEG_OFFSET : Z := 0x1000.
Definition MLX5_ISEG_FW_REV_MAJOR : Z := 0x000.
Definition MLX5_ISEG_FW_REV_MINOR : Z := 0x004.
Definition MLX5_ISEG_FW_REV_SUBMINOR : Z := 0x008.
Definition MLX5_ISEG_CMDIF_REV : Z := 0x00C.
Definition MLX5_ISEG_CMDQ_PARAMS : Z := 0x010.
Definition MLX5_CMDQ_LOG_SIZE_SHIFT : Z := 16.
Definition MLX5_CMDQ_LOG_SIZE_MASK : Z := 0x1F.
Definition MLX5_CMDQ_LOG_STRIDE_SHIFT : Z := 8.
Definition MLX5_CMDQ_LOG_STRIDE_MASK : Z := 0x1F.
Definition MLX5_ISEG_CMDQ_ADDR_L : Z := 0x014.
Definition MLX5_ISEG_CMDQ_ADDR_H : Z := 0x018.
Definition MLX5_ISEG_CMD_DOORBELL : Z := 0x01C.
Definition MLX5_ISEG_BOOT_PAGE_ADDR : Z := 0x020.
Definition MLX5_ISEG_HEALTH_BUFFER : Z := 0x040.
Definition MLX5_ISEG_INITIALIZING : Z := 0x1FC.
Definition MLX5_ISEG_INITIALIZING_BIT : Z := 2 ^ 31.

(** ** Command interface *)

Definition MLX5_CMD_OWNER_SW : Z := 0x0.
Definition MLX5_CMD_OWNER_HW : Z := 0x1.
Definition MLX5_CMD_STATUS_SUCCESS : Z := 0x0.
Definition MLX5_CMD_DELIVERY_STAT_OK : Z := 0x00.
Definition MLX5_CMD_DELIVERY_STAT_FW_ERR : Z := 0x06.
Definition MLX5_CMD_STAT_OK : Z := 0x00.
Definition MLX5_CMD_STAT_INT_ERR : Z := 0x01.
Definition MLX5_CMD_STAT_BAD_OP : Z := 0x02.
Definition MLX5_CMD_STAT_BAD_PARAM : Z := 0x03.
Definition MLX5_CMD_STAT_BAD_SYS_STATE : Z := 0x04.
Definition MLX5_CMD_STAT_RESOURCE_BUSY : Z := 0x06.
Definition MLX5_CMD_ENTRY_SIZE : Z := 64.
Definition MLX5_CMD_MAILBOX_SIZE : Z := 4096.
Definition MLX5_MBOX_OPCODE_OFF : Z := 0x00.
Definition MLX5_MBOX_UID_OFF : Z := 0x02.
Definition MLX5_MBOX_OP_MOD_OFF : Z := 0x06.
Definition MLX5_MBOX_STATUS_OFF : Z := 0x00.
Definition MLX5_MBOX_SYNDROME_OFF : Z := 0x04.
Definition MLX5_CMD_OP_QUERY_HCA_CAP : Z := 0x100.
Definition MLX5_CMD_OP_INIT_HCA : Z := 0x103.
Definition MLX5_CMD_OP_ENABLE_HCA : Z := 0x104.
Definition MLX5_CMD_OP_QUERY_PAGES : Z := 0x107.
Definition MLX5_CMD_OP_CREATE_CQ : Z := 0x400.
Definition MLX5_CMD_OP_CREATE_QP : Z := 0x500.
Definition MLX5_CMD_OP_CREATE_MKEY : Z := 0x200.
Definition MLX5_CMD_UID_DRIVER : Z := 0x0.
Definition MLX5_BOOT_PAGE_SIZE : Z := 64 * 1024.
Definition MLX5_MAX_CMD_ENTRIES : Z := 32.
Definition MLX5_CMD_TIMEOUT_MS : Z := 60000.
Definition MLX5_VENDOR_ID : Z := 0x15B3.
Definition MLX5_DEV_CX6_LX : Z := 0x1015.
Definition MLX5_DEV_CX6 : Z := 0x101B.
Definition MLX5_DEV_CX7 : Z := 0x1021.
Definition MLX5_CMD_OP_DESTROY_MKEY : Z := 0x201.
Definition MLX5_CMD_OP_MODIFY_QP : Z := 0x501.
Definition MLX5_CMD_OP_DESTROY_QP : Z := 0x502.

(** ** IOKit return codes *)

Inductive IOReturn :=
  | kIOReturnSuccess
  | kIOReturnError
  | kIOReturnNoMemory
  | kIOReturnNoResources
  | kIOReturnTimeout
  | kIOReturnNotReady
  | kIOReturnOther (code : Z).

#[export] Instance IOReturn_eq_dec : EqDecision IOReturn.
Proof. solve_decision. Defined.

(** [ret == kIOReturnSuccess] *)
Definition io_ok (r : IOReturn) : bool :=
  match r with kIOReturnSuccess => true | _ => false end.

Lemma io_ok_true r : io_ok r = true <-> r = kIOReturnSuccess.
Proof. by destruct r. Qed.
