(* ===== verification/IbVerbs.v ===== *)
(** * Data of the driver: [rdma/ib_verbs.h] and the provider structs

    The C structs as records, the C enums as inductive types with their
    numeric codes.  A pointer is a [ptr] (an address, [NULL] being 0); the
    world ([World.v]) has one store per struct type, so two pointers to the
    same object see each other's updates.  A struct that starts with another
    one ([mlx5_ib_qp] with its [ib_qp], [mlx5_ib_mr] with its [ib_mr]) is one
    object, which is what the casts [to_mqp] and [to_mmr] rely on. *)

From S2P Require Import Prelude.

Abbreviation ptr := Z (only parsing).
Definition NULL : Z := 0.

(** ** Enumerations *)

Inductive ib_qp_state :=
  | IB_QPS_RESET | IB_QPS_INIT | IB_QPS_RTR | IB_QPS_RTS
  | IB_QPS_SQD | IB_QPS_SQE | IB_QPS_ERR | IB_QPS_UNKNOWN.

#[export] Instance ib_qp_state_eq_dec : EqDecision ib_qp_state.
Proof. solve_decision. Defined.

Definition ib_qp_state_code (s : ib_qp_state) : Z :=
  match s with
  | IB_QPS_RESET => 0 | IB_QPS_INIT => 1 | IB_QPS_RTR => 2 | IB_QPS_RTS => 3
  | IB_QPS_SQD => 4 | IB_QPS_SQE => 5 | IB_QPS_ERR => 6 | IB_QPS_UNKNOWN => 7
  end.

Inductive ib_qp_type :=
  | IB_QPT_SMI | IB_QPT_GSI | IB_QPT_RC | IB_QPT_UC | IB_QPT_UD
  | IB_QPT_RAW_PACKET | IB_QPT_XRC_INI | IB_QPT_XRC_TGT | IB_QPT_MAX.

Definition ib_qp_type_code (t : ib_qp_type) : Z :=
  match t with
  | IB_QPT_SMI => 0 | IB_QPT_GSI => 1 | IB_QPT_RC => 2 | IB_QPT_UC => 3
  | IB_QPT_UD => 4 | IB_QPT_RAW_PACKET => 5 | IB_QPT_XRC_INI => 6
  | IB_QPT_XRC_TGT => 7 | IB_QPT_MAX => 8
  end.

(** [enum ib_port_state], with the values the source writes. *)
Inductive ib_port_state :=
  | IB_PORT_NOP | IB_PORT_DOWN | IB_PORT_INIT | IB_PORT_ARMED | IB_PORT_ACTIVE
  | IB_PORT_ACTIVE_DEFER.

Definition ib_port_state_code (s : ib_port_state) : Z :=
  match s with
  | IB_PORT_NOP => 0 | IB_PORT_DOWN => 1 | IB_PORT_INIT => 2 | IB_PORT_ARMED => 3
  | IB_PORT_ACTIVE => 4 | IB_PORT_ACTIVE_DEFER => 5
  end.

(** [enum ib_wr_opcode]: the enumerators count from 0. *)
Inductive ib_wr_opcode :=
  | IB_WR_RDMA_WRITE | IB_WR_RDMA_WRITE_WITH_IMM | IB_WR_SEND | IB_WR_SEND_WITH_IMM
  | IB_WR_RDMA_READ | IB_WR_ATOMIC_CMP_AND_SWP | IB_WR_ATOMIC_FETCH_AND_ADD
  | IB_WR_LSO | IB_WR_SEND_WITH_INV | IB_WR_RDMA_READ_WITH_INV | IB_WR_LOCAL_INV
  | IB_WR_REG_MR | IB_WR_REG_CQ | IB_WR_REG_MR_EXP | IB_WR_LOCAL_INV_NO_EXEC.

Definition ib_wr_opcode_code (o : ib_wr_opcode) : Z :=
  match o with
  | IB_WR_RDMA_WRITE => 0 | IB_WR_RDMA_WRITE_WITH_IMM => 1 | IB_WR_SEND => 2
  | IB_WR_SEND_WITH_IMM => 3 | IB_WR_RDMA_READ => 4 | IB_WR_ATOMIC_CMP_AND_SWP => 5
  | IB_WR_ATOMIC_FETCH_AND_ADD => 6 | IB_WR_LSO => 7 | IB_WR_SEND_WITH_INV => 8
  | IB_WR_RDMA_READ_WITH_INV => 9 | IB_WR_LOCAL_INV => 10 | IB_WR_REG_MR => 11
  | IB_WR_REG_CQ => 12 | IB_WR_REG_MR_EXP => 13 | IB_WR_LOCAL_INV_NO_EXEC => 14
  end.

(** [enum ib_wc_status]. *)
Inductive ib_wc_status :=
  | IB_WC_SUCCESS | IB_WC_LOC_LEN_ERR | IB_WC_LOC_QP_OP_ERR | IB_WC_LOC_EEC_OP_ERR
  | IB_WC_LOC_PROT_ERR | IB_WC_WR_FLUSH_ERR | IB_WC_MW_BIND_ERR | IB_WC_BAD_RESP_ERR
  | IB_WC_LOC_ACCESS_ERR | IB_WC_REM_INV_REQ_ERR | IB_WC_REM_ACCESS_ERR
  | IB_WC_REM_OP_ERR | IB_WC_RETRY_EXC_ERR | IB_WC_RNR_RETRY_EXC_ERR
  | IB_WC_LOC_RDD_VIOL_ERR | IB_WC_REM_RDD_VIOL_ERR | IB_WC_REM_ABORT_ERR
  | IB_WC_INV_EECN_ERR | IB_WC_INV_EEC_STATE_ERR | IB_WC_FATAL_ERR
  | IB_WC_RESP_TIMEOUT_ERR | IB_WC_GENERAL_ERR.

Definition ib_wc_status_code (s : ib_wc_status) : Z :=
  match s with
  | IB_WC_SUCCESS => 0 | IB_WC_LOC_LEN_ERR => 1 | IB_WC_LOC_QP_OP_ERR => 2
  | IB_WC_LOC_EEC_OP_ERR => 3 | IB_WC_LOC_PROT_ERR => 4 | IB_WC_WR_FLUSH_ERR => 5
  | IB_WC_MW_BIND_ERR => 6 | IB_WC_BAD_RESP_ERR => 7 | IB_WC_LOC_ACCESS_ERR => 8
  | IB_WC_REM_INV_REQ_ERR => 9 | IB_WC_REM_ACCESS_ERR => 10 | IB_WC_REM_OP_ERR => 11
  | IB_WC_RETRY_EXC_ERR => 12 | IB_WC_RNR_RETRY_EXC_ERR => 13
  | IB_WC_LOC_RDD_VIOL_ERR => 14 | IB_WC_REM_RDD_VIOL_ERR => 15
  | IB_WC_REM_ABORT_ERR => 16 | IB_WC_INV_EECN_ERR => 17
  | IB_WC_INV_EEC_STATE_ERR => 18 | IB_WC_FATAL_ERR => 19
  | IB_WC_RESP_TIMEOUT_ERR => 20 | IB_WC_GENERAL_ERR => 21
  end.

(** [enum ib_access_flags] *)
Definition IB_ACCESS_LOCAL_WRITE : Z := 1.
Definition IB_ACCESS_REMOTE_WRITE : Z := Z.shiftl 1 1.
Definition IB_ACCESS_REMOTE_READ : Z := Z.shiftl 1 2.
Definition IB_ACCESS_REMOTE_ATOMIC : Z := Z.shiftl 1 3.
Definition IB_ACCESS_MW_BIND : Z := Z.shiftl 1 4.
Definition IB_ZERO_BASED : Z := Z.shiftl 1 5.
Definition IB_ACCESS_ON_DEMAND : Z := Z.shiftl 1 6.
Definition IB_ACCESS_HUGETLB : Z := Z.shiftl 1 7.
Definition IB_ACCESS_RELAXED_ORDERING : Z := Z.shiftl 1 8.

(** ** Structs *)

(** struct ib_device_attr *)
Record ib_device_attr := Mk_ib_device_attr {
  attr_fw_ver : Z;
  attr_node_guid : Z;
  attr_sys_image_guid : Z;
  attr_max_mr_size : Z;
  attr_page_size_cap : Z;
  attr_vendor_id : Z;
  attr_vendor_part_id : Z;
  attr_hw_rev : Z;
  attr_max_qp : Z;
  attr_max_qp_wr : Z;
  attr_max_sge : Z;
  attr_max_cq : Z;
  attr_max_cqe : Z;
  attr_max_mr : Z;
  attr_max_pd : Z;
  attr_max_qp_init_rd_atom : Z;
  attr_max_qp_rd_atom : Z;
  attr_max_srq : Z;
  attr_max_srq_wr : Z;
  attr_max_srq_sge : Z;
  attr_max_pkeys : Z;
  attr_local_ca_ack_delay : Z;
  attr_phys_port_cnt : Z
}.

(** All bytes zero, as [memset] leaves it. *)
Definition zero_ib_device_attr : ib_device_attr :=
  Mk_ib_device_attr 0 0 0 0 0 0 0 0 0 0 0 0 0 0 0 0 0 0 0 0 0 0 0.

(** struct ib_pd *)
Record ib_pd := Mk_ib_pd {
  pd_device : ptr;
  pd_uobject : ptr;
  pd_local_dma_lkey : Z;
  pd_flags : Z;
  pd_res : Z
}.

(** All bytes zero, as [memset] leaves it. *)
Definition zero_ib_pd : ib_pd :=
  Mk_ib_pd NULL NULL 0 0 0.

Definition set_pd_local_dma_lkey (v : Z) (s : ib_pd) : ib_pd :=
  Mk_ib_pd s.(pd_device) s.(pd_uobject) v s.(pd_flags) s.(pd_res).

(** struct ib_cq; [cq_cqe] is a signed [int] *)
Record ib_cq := Mk_ib_cq {
  cq_device : ptr;
  cq_uobject : ptr;
  cq_comp_handler : ptr;
  cq_event_handler : ptr;
  cq_cq_context : ptr;
  cq_cqe : Z
}.

(** All bytes zero, as [memset] leaves it. *)
Definition zero_ib_cq : ib_cq :=
  Mk_ib_cq NULL NULL NULL NULL NULL 0.

Definition set_cq_cqe (v : Z) (s : ib_cq) : ib_cq :=
  Mk_ib_cq s.(cq_device) s.(cq_uobject) s.(cq_comp_handler)
    s.(cq_event_handler) s.(cq_cq_context) v.

(** struct ib_wc; the union [wr] is one 64-bit word, an identifier or the
    address of a completion queue. *)
Record ib_wc := Mk_ib_wc {
  wc_wr : Z;
  wc_status : ib_wc_status;
  wc_opcode : ib_wr_opcode;
  wc_vendor_err : Z;
  wc_byte_len : Z;
  wc_imm_data : Z;
  wc_qp_num : Z;
  wc_src_qp : Z;
  wc_wc_flags : Z;
  wc_pkey_index : Z;
  wc_slid : Z;
  wc_sl : Z;
  wc_dlid_path_bits : Z
}.

(** struct ib_ah, struct ib_ah_attr ([grh] is 64 bytes) *)
Record ib_ah := Mk_ib_ah {
  ah_device : ptr;
  ah_pd : ptr;
  ah_uobject : ptr
}.

Record ib_ah_attr := Mk_ib_ah_attr {
  ah_grh : list Z;
  ah_dlid : Z;
  ah_port_num : Z;
  ah_static_rate : Z;
  ah_ah_flags : Z;
  ah_sl : Z;
  ah_src_path_bits : Z
}.

(** struct ib_mr *)
Record ib_mr := Mk_ib_mr {
  mr_device : ptr;
  mr_pd : ptr;
  mr_uobject : ptr;
  mr_lkey : Z;
  mr_rkey : Z;
  mr_iova : Z;
  mr_length : Z
}.

(** All bytes zero, as [memset] leaves it. *)
Definition zero_ib_mr : ib_mr :=
  Mk_ib_mr NULL NULL NULL 0 0 0 0.

(** struct ib_qp *)
Record ib_qp := Mk_ib_qp {
  qp_device : ptr;
  qp_pd : ptr;
  qp_send_cq : ptr;
  qp_recv_cq : ptr;
  qp_uobject : ptr;
  qp_qp_context : ptr;
  qp_qp_num : Z;
  qp_max_inline_data : Z;
  qp_state : ib_qp_state;
  qp_qp_type : ib_qp_type
}.

(** All bytes zero, as [memset] leaves it. *)
Definition zero_ib_qp : ib_qp :=
  Mk_ib_qp NULL NULL NULL NULL NULL NULL 0 0 IB_QPS_RESET IB_QPT_SMI.

Definition set_qp_qp_num (v : Z) (s : ib_qp) : ib_qp :=
  Mk_ib_qp s.(qp_device) s.(qp_pd) s.(qp_send_cq) s.(qp_recv_cq)
    s.(qp_uobject) s.(qp_qp_context) v s.(qp_max_inline_data) s.(qp_state)
    s.(qp_qp_type).

Definition set_qp_state (v : ib_qp_state) (s : ib_qp) : ib_qp :=
  Mk_ib_qp s.(qp_device) s.(qp_pd) s.(qp_send_cq) s.(qp_recv_cq)
    s.(qp_uobject) s.(qp_qp_context) s.(qp_qp_num) s.(qp_max_inline_data) v
    s.(qp_qp_type).

(** struct ib_qp_init_attr *)
Record ib_qp_init_attr := Mk_ib_qp_init_attr {
  init_qp_context : ptr;
  init_send_cq : ptr;
  init_recv_cq : ptr;
  init_srq : ptr;
  init_xrcd : ptr;
  init_ib_cq_ex : ptr;
  init_qp_type : ib_qp_type;
  init_sq_sig_type : Z;
  init_cap : Z
}.

(** All bytes zero, as [memset] leaves it. *)
Definition zero_ib_qp_init_attr : ib_qp_init_attr :=
  Mk_ib_qp_init_attr NULL NULL NULL NULL NULL NULL IB_QPT_SMI 0 0.

(** struct mlx5_cmd_context of [mlx5_cmd.h]: the command queue state of a device *)
Record mlx5_cmd_context := Mk_mlx5_cmd_context {
  bar0 : ptr;
  bar0_size : Z;
  iseg : ptr;
  cmd_ring : ptr;
  cmd_ring_md : ptr;
  cmd_ring_dma : Z;
  num_entries : Z;
  entry_stride : Z;
  mbox_pool : ptr;
  mbox_md : ptr;
  mbox_dma_base : Z;
  num_mailboxes : Z;
  next_token : Z;
  total_commands : Z;
  failed_commands : Z
}.

(** All bytes zero, as [memset] leaves it. *)
Definition zero_mlx5_cmd_context : mlx5_cmd_context :=
  Mk_mlx5_cmd_context NULL 0 NULL NULL NULL 0 0 0 NULL NULL 0 0 0 0 0.

Definition set_bar0 (v : ptr) (s : mlx5_cmd_context) : mlx5_cmd_context :=
  Mk_mlx5_cmd_context v s.(bar0_size) s.(iseg) s.(cmd_ring) s.(cmd_ring_md)
    s.(cmd_ring_dma) s.(num_entries) s.(entry_stride) s.(mbox_pool)
    s.(mbox_md) s.(mbox_dma_base) s.(num_mailboxes) s.(next_token)
    s.(total_commands) s.(failed_commands).

Definition set_bar0_size (v : Z) (s : mlx5_cmd_context) : mlx5_cmd_context :=
  Mk_mlx5_cmd_context s.(bar0) v s.(iseg) s.(cmd_ring) s.(cmd_ring_md)
    s.(cmd_ring_dma) s.(num_entries) s.(entry_stride) s.(mbox_pool)
    s.(mbox_md) s.(mbox_dma_base) s.(num_mailboxes) s.(next_token)
    s.(total_commands) s.(failed_commands).

Definition set_iseg (v : ptr) (s : mlx5_cmd_context) : mlx5_cmd_context :=
  Mk_mlx5_cmd_context s.(bar0) s.(bar0_size) v s.(cmd_ring) s.(cmd_ring_md)
    s.(cmd_ring_dma) s.(num_entries) s.(entry_stride) s.(mbox_pool)
    s.(mbox_md) s.(mbox_dma_base) s.(num_mailboxes) s.(next_token)
    s.(total_commands) s.(failed_commands).

Definition set_cmd_ring (v : ptr) (s : mlx5_cmd_context) : mlx5_cmd_context :=
  Mk_mlx5_cmd_context s.(bar0) s.(bar0_size) s.(iseg) v s.(cmd_ring_md)
    s.(cmd_ring_dma) s.(num_entries) s.(entry_stride) s.(mbox_pool)
    s.(mbox_md) s.(mbox_dma_base) s.(num_mailboxes) s.(next_token)
    s.(total_commands) s.(failed_commands).

Definition set_cmd_ring_md (v : ptr) (s : mlx5_cmd_context) : mlx5_cmd_context :=
  Mk_mlx5_cmd_context s.(bar0) s.(bar0_size) s.(iseg) s.(cmd_ring) v
    s.(cmd_ring_dma) s.(num_entries) s.(entry_stride) s.(mbox_pool)
    s.(mbox_md) s.(mbox_dma_base) s.(num_mailboxes) s.(next_token)
    s.(total_commands) s.(failed_commands).

Definition set_cmd_ring_dma (v : Z) (s : mlx5_cmd_context) : mlx5_cmd_context :=
  Mk_mlx5_cmd_context s.(bar0) s.(bar0_size) s.(iseg) s.(cmd_ring)
    s.(cmd_ring_md) v s.(num_entries) s.(entry_stride) s.(mbox_pool)
    s.(mbox_md) s.(mbox_dma_base) s.(num_mailboxes) s.(next_token)
    s.(total_commands) s.(failed_commands).

Definition set_num_entries (v : Z) (s : mlx5_cmd_context) : mlx5_cmd_context :=
  Mk_mlx5_cmd_context s.(bar0) s.(bar0_size) s.(iseg) s.(cmd_ring)
    s.(cmd_ring_md) s.(cmd_ring_dma) v s.(entry_stride) s.(mbox_pool)
    s.(mbox_md) s.(mbox_dma_base) s.(num_mailboxes) s.(next_token)
    s.(total_commands) s.(failed_commands).

Definition set_entry_stride (v : Z) (s : mlx5_cmd_context) : mlx5_cmd_context :=
  Mk_mlx5_cmd_context s.(bar0) s.(bar0_size) s.(iseg) s.(cmd_ring)
    s.(cmd_ring_md) s.(cmd_ring_dma) s.(num_entries) v s.(mbox_pool)
    s.(mbox_md) s.(mbox_dma_base) s.(num_mailboxes) s.(next_token)
    s.(total_commands) s.(failed_commands).

Definition set_mbox_pool (v : ptr) (s : mlx5_cmd_context) : mlx5_cmd_context :=
  Mk_mlx5_cmd_context s.(bar0) s.(bar0_size) s.(iseg) s.(cmd_ring)
    s.(cmd_ring_md) s.(cmd_ring_dma) s.(num_entries) s.(entry_stride) v
    s.(mbox_md) s.(mbox_dma_base) s.(num_mailboxes) s.(next_token)
    s.(total_commands) s.(failed_commands).

Definition set_mbox_md (v : ptr) (s : mlx5_cmd_context) : mlx5_cmd_context :=
  Mk_mlx5_cmd_context s.(bar0) s.(bar0_size) s.(iseg) s.(cmd_ring)
    s.(cmd_ring_md) s.(cmd_ring_dma) s.(num_entries) s.(entry_stride)
    s.(mbox_pool) v s.(mbox_dma_base) s.(num_mailboxes) s.(next_token)
    s.(total_commands) s.(failed_commands).

Definition set_mbox_dma_base (v : Z) (s : mlx5_cmd_context) : mlx5_cmd_context :=
  Mk_mlx5_cmd_context s.(bar0) s.(bar0_size) s.(iseg) s.(cmd_ring)
    s.(cmd_ring_md) s.(cmd_ring_dma) s.(num_entries) s.(entry_stride)
    s.(mbox_pool) s.(mbox_md) v s.(num_mailboxes) s.(next_token)
    s.(total_commands) s.(failed_commands).

Definition set_num_mailboxes (v : Z) (s : mlx5_cmd_context) : mlx5_cmd_context :=
  Mk_mlx5_cmd_context s.(bar0) s.(bar0_size) s.(iseg) s.(cmd_ring)
    s.(cmd_ring_md) s.(cmd_ring_dma) s.(num_entries) s.(entry_stride)
    s.(mbox_pool) s.(mbox_md) s.(mbox_dma_base) v s.(next_token)
    s.(total_commands) s.(failed_commands).

Definition set_next_token (v : Z) (s : mlx5_cmd_context) : mlx5_cmd_context :=
  Mk_mlx5_cmd_context s.(bar0) s.(bar0_size) s.(iseg) s.(cmd_ring)
    s.(cmd_ring_md) s.(cmd_ring_dma) s.(num_entries) s.(entry_stride)
    s.(mbox_pool) s.(mbox_md) s.(mbox_dma_base) s.(num_mailboxes) v
    s.(total_commands) s.(failed_commands).

Definition set_total_commands (v : Z) (s : mlx5_cmd_context) : mlx5_cmd_context :=
  Mk_mlx5_cmd_context s.(bar0) s.(bar0_size) s.(iseg) s.(cmd_ring)
    s.(cmd_ring_md) s.(cmd_ring_dma) s.(num_entries) s.(entry_stride)
    s.(mbox_pool) s.(mbox_md) s.(mbox_dma_base) s.(num_mailboxes)
    s.(next_token) v s.(failed_commands).

Definition set_failed_commands (v : Z) (s : mlx5_cmd_context) : mlx5_cmd_context :=
  Mk_mlx5_cmd_context s.(bar0) s.(bar0_size) s.(iseg) s.(cmd_ring)
    s.(cmd_ring_md) s.(cmd_ring_dma) s.(num_entries) s.(entry_stride)
    s.(mbox_pool) s.(mbox_md) s.(mbox_dma_base) s.(num_mailboxes)
    s.(next_token) s.(total_commands) v.

(** struct mlx5_ib_qp of [mlx5_qp.h] *)
Record mlx5_ib_qp := Mk_mlx5_ib_qp {
  ibqp : ib_qp;
  qpn : Z;
  sq_buf : ptr;
  sq_md : ptr;
  sq_dma : Z;
  sq_wqe_cnt : Z;
  sq_wqe_shift : Z;
  sq_head : Z;
  rq_buf : ptr;
  rq_md : ptr;
  rq_dma : Z;
  rq_wqe_cnt : Z;
  rq_wqe_shift : Z;
  rq_head : Z;
  db_record : ptr;
  db_md : ptr;
  db_dma : Z;
  uar : ptr;
  send_cqn : Z;
  recv_cqn : Z;
  pdn : Z;
  mqp_state : ib_qp_state
}.

(** All bytes zero, as [memset] leaves it. *)
Definition zero_mlx5_ib_qp : mlx5_ib_qp :=
  Mk_mlx5_ib_qp zero_ib_qp 0 NULL NULL 0 0 0 0 NULL NULL 0 0 0 0 NULL NULL 0 NULL 0 0 0 IB_QPS_RESET.

Definition set_ibqp (v : ib_qp) (s : mlx5_ib_qp) : mlx5_ib_qp :=
  Mk_mlx5_ib_qp v s.(qpn) s.(sq_buf) s.(sq_md) s.(sq_dma) s.(sq_wqe_cnt)
    s.(sq_wqe_shift) s.(sq_head) s.(rq_buf) s.(rq_md) s.(rq_dma)
    s.(rq_wqe_cnt) s.(rq_wqe_shift) s.(rq_head) s.(db_record) s.(db_md)
    s.(db_dma) s.(uar) s.(send_cqn) s.(recv_cqn) s.(pdn) s.(mqp_state).

Definition set_qpn (v : Z) (s : mlx5_ib_qp) : mlx5_ib_qp :=
  Mk_mlx5_ib_qp s.(ibqp) v s.(sq_buf) s.(sq_md) s.(sq_dma) s.(sq_wqe_cnt)
    s.(sq_wqe_shift) s.(sq_head) s.(rq_buf) s.(rq_md) s.(rq_dma)
    s.(rq_wqe_cnt) s.(rq_wqe_shift) s.(rq_head) s.(db_record) s.(db_md)
    s.(db_dma) s.(uar) s.(send_cqn) s.(recv_cqn) s.(pdn) s.(mqp_state).

Definition set_sq_buf (v : ptr) (s : mlx5_ib_qp) : mlx5_ib_qp :=
  Mk_mlx5_ib_qp s.(ibqp) s.(qpn) v s.(sq_md) s.(sq_dma) s.(sq_wqe_cnt)
    s.(sq_wqe_shift) s.(sq_head) s.(rq_buf) s.(rq_md) s.(rq_dma)
    s.(rq_wqe_cnt) s.(rq_wqe_shift) s.(rq_head) s.(db_record) s.(db_md)
    s.(db_dma) s.(uar) s.(send_cqn) s.(recv_cqn) s.(pdn) s.(mqp_state).

Definition set_sq_md (v : ptr) (s : mlx5_ib_qp) : mlx5_ib_qp :=
  Mk_mlx5_ib_qp s.(ibqp) s.(qpn) s.(sq_buf) v s.(sq_dma) s.(sq_wqe_cnt)
    s.(sq_wqe_shift) s.(sq_head) s.(rq_buf) s.(rq_md) s.(rq_dma)
    s.(rq_wqe_cnt) s.(rq_wqe_shift) s.(rq_head) s.(db_record) s.(db_md)
    s.(db_dma) s.(uar) s.(send_cqn) s.(recv_cqn) s.(pdn) s.(mqp_state).

Definition set_sq_dma (v : Z) (s : mlx5_ib_qp) : mlx5_ib_qp :=
  Mk_mlx5_ib_qp s.(ibqp) s.(qpn) s.(sq_buf) s.(sq_md) v s.(sq_wqe_cnt)
    s.(sq_wqe_shift) s.(sq_head) s.(rq_buf) s.(rq_md) s.(rq_dma)
    s.(rq_wqe_cnt) s.(rq_wqe_shift) s.(rq_head) s.(db_record) s.(db_md)
    s.(db_dma) s.(uar) s.(send_cqn) s.(recv_cqn) s.(pdn) s.(mqp_state).

Definition set_sq_wqe_cnt (v : Z) (s : mlx5_ib_qp) : mlx5_ib_qp :=
  Mk_mlx5_ib_qp s.(ibqp) s.(qpn) s.(sq_buf) s.(sq_md) s.(sq_dma) v
    s.(sq_wqe_shift) s.(sq_head) s.(rq_buf) s.(rq_md) s.(rq_dma)
    s.(rq_wqe_cnt) s.(rq_wqe_shift) s.(rq_head) s.(db_record) s.(db_md)
    s.(db_dma) s.(uar) s.(send_cqn) s.(recv_cqn) s.(pdn) s.(mqp_state).

Definition set_sq_wqe_shift (v : Z) (s : mlx5_ib_qp) : mlx5_ib_qp :=
  Mk_mlx5_ib_qp s.(ibqp) s.(qpn) s.(sq_buf) s.(sq_md) s.(sq_dma)
    s.(sq_wqe_cnt) v s.(sq_head) s.(rq_buf) s.(rq_md) s.(rq_dma)
    s.(rq_wqe_cnt) s.(rq_wqe_shift) s.(rq_head) s.(db_record) s.(db_md)
    s.(db_dma) s.(uar) s.(send_cqn) s.(recv_cqn) s.(pdn) s.(mqp_state).

Definition set_sq_head (v : Z) (s : mlx5_ib_qp) : mlx5_ib_qp :=
  Mk_mlx5_ib_qp s.(ibqp) s.(qpn) s.(sq_buf) s.(sq_md) s.(sq_dma)
    s.(sq_wqe_cnt) s.(sq_wqe_shift) v s.(rq_buf) s.(rq_md) s.(rq_dma)
    s.(rq_wqe_cnt) s.(rq_wqe_shift) s.(rq_head) s.(db_record) s.(db_md)
    s.(db_dma) s.(uar) s.(send_cqn) s.(recv_cqn) s.(pdn) s.(mqp_state).

Definition set_rq_buf (v : ptr) (s : mlx5_ib_qp) : mlx5_ib_qp :=
  Mk_mlx5_ib_qp s.(ibqp) s.(qpn) s.(sq_buf) s.(sq_md) s.(sq_dma)
    s.(sq_wqe_cnt) s.(sq_wqe_shift) s.(sq_head) v s.(rq_md) s.(rq_dma)
    s.(rq_wqe_cnt) s.(rq_wqe_shift) s.(rq_head) s.(db_record) s.(db_md)
    s.(db_dma) s.(uar) s.(send_cqn) s.(recv_cqn) s.(pdn) s.(mqp_state).

Definition set_rq_md (v : ptr) (s : mlx5_ib_qp) : mlx5_ib_qp :=
  Mk_mlx5_ib_qp s.(ibqp) s.(qpn) s.(sq_buf) s.(sq_md) s.(sq_dma)
    s.(sq_wqe_cnt) s.(sq_wqe_shift) s.(sq_head) s.(rq_buf) v s.(rq_dma)
    s.(rq_wqe_cnt) s.(rq_wqe_shift) s.(rq_head) s.(db_record) s.(db_md)
    s.(db_dma) s.(uar) s.(send_cqn) s.(recv_cqn) s.(pdn) s.(mqp_state).

Definition set_rq_dma (v : Z) (s : mlx5_ib_qp) : mlx5_ib_qp :=
  Mk_mlx5_ib_qp s.(ibqp) s.(qpn) s.(sq_buf) s.(sq_md) s.(sq_dma)
    s.(sq_wqe_cnt) s.(sq_wqe_shift) s.(sq_head) s.(rq_buf) s.(rq_md) v
    s.(rq_wqe_cnt) s.(rq_wqe_shift) s.(rq_head) s.(db_record) s.(db_md)
    s.(db_dma) s.(uar) s.(send_cqn) s.(recv_cqn) s.(pdn) s.(mqp_state).

Definition set_rq_wqe_cnt (v : Z) (s : mlx5_ib_qp) : mlx5_ib_qp :=
  Mk_mlx5_ib_qp s.(ibqp) s.(qpn) s.(sq_buf) s.(sq_md) s.(sq_dma)
    s.(sq_wqe_cnt) s.(sq_wqe_shift) s.(sq_head) s.(rq_buf) s.(rq_md)
    s.(rq_dma) v s.(rq_wqe_shift) s.(rq_head) s.(db_record) s.(db_md)
    s.(db_dma) s.(uar) s.(send_cqn) s.(recv_cqn) s.(pdn) s.(mqp_state).

Definition set_rq_wqe_shift (v : Z) (s : mlx5_ib_qp) : mlx5_ib_qp :=
  Mk_mlx5_ib_qp s.(ibqp) s.(qpn) s.(sq_buf) s.(sq_md) s.(sq_dma)
    s.(sq_wqe_cnt) s.(sq_wqe_shift) s.(sq_head) s.(rq_buf) s.(rq_md)
    s.(rq_dma) s.(rq_wqe_cnt) v s.(rq_head) s.(db_record) s.(db_md) s.(db_dma)
    s.(uar) s.(send_cqn) s.(recv_cqn) s.(pdn) s.(mqp_state).

Definition set_rq_head (v : Z) (s : mlx5_ib_qp) : mlx5_ib_qp :=
  Mk_mlx5_ib_qp s.(ibqp) s.(qpn) s.(sq_buf) s.(sq_md) s.(sq_dma)
    s.(sq_wqe_cnt) s.(sq_wqe_shift) s.(sq_head) s.(rq_buf) s.(rq_md)
    s.(rq_dma) s.(rq_wqe_cnt) s.(rq_wqe_shift) v s.(db_record) s.(db_md)
    s.(db_dma) s.(uar) s.(send_cqn) s.(recv_cqn) s.(pdn) s.(mqp_state).

Definition set_db_record (v : ptr) (s : mlx5_ib_qp) : mlx5_ib_qp :=
  Mk_mlx5_ib_qp s.(ibqp) s.(qpn) s.(sq_buf) s.(sq_md) s.(sq_dma)
    s.(sq_wqe_cnt) s.(sq_wqe_shift) s.(sq_head) s.(rq_buf) s.(rq_md)
    s.(rq_dma) s.(rq_wqe_cnt) s.(rq_wqe_shift) s.(rq_head) v s.(db_md)
    s.(db_dma) s.(uar) s.(send_cqn) s.(recv_cqn) s.(pdn) s.(mqp_state).

Definition set_db_md (v : ptr) (s : mlx5_ib_qp) : mlx5_ib_qp :=
  Mk_mlx5_ib_qp s.(ibqp) s.(qpn) s.(sq_buf) s.(sq_md) s.(sq_dma)
    s.(sq_wqe_cnt) s.(sq_wqe_shift) s.(sq_head) s.(rq_buf) s.(rq_md)
    s.(rq_dma) s.(rq_wqe_cnt) s.(rq_wqe_shift) s.(rq_head) s.(db_record) v
    s.(db_dma) s.(uar) s.(send_cqn) s.(recv_cqn) s.(pdn) s.(mqp_state).

Definition set_db_dma (v : Z) (s : mlx5_ib_qp) : mlx5_ib_qp :=
  Mk_mlx5_ib_qp s.(ibqp) s.(qpn) s.(sq_buf) s.(sq_md) s.(sq_dma)
    s.(sq_wqe_cnt) s.(sq_wqe_shift) s.(sq_head) s.(rq_buf) s.(rq_md)
    s.(rq_dma) s.(rq_wqe_cnt) s.(rq_wqe_shift) s.(rq_head) s.(db_record)
    s.(db_md) v s.(uar) s.(send_cqn) s.(recv_cqn) s.(pdn) s.(mqp_state).

Definition set_uar (v : ptr) (s : mlx5_ib_qp) : mlx5_ib_qp :=
  Mk_mlx5_ib_qp s.(ibqp) s.(qpn) s.(sq_buf) s.(sq_md) s.(sq_dma)
    s.(sq_wqe_cnt) s.(sq_wqe_shift) s.(sq_head) s.(rq_buf) s.(rq_md)
    s.(rq_dma) s.(rq_wqe_cnt) s.(rq_wqe_shift) s.(rq_head) s.(db_record)
    s.(db_md) s.(db_dma) v s.(send_cqn) s.(recv_cqn) s.(pdn) s.(mqp_state).

Definition set_send_cqn (v : Z) (s : mlx5_ib_qp) : mlx5_ib_qp :=
  Mk_mlx5_ib_qp s.(ibqp) s.(qpn) s.(sq_buf) s.(sq_md) s.(sq_dma)
    s.(sq_wqe_cnt) s.(sq_wqe_shift) s.(sq_head) s.(rq_buf) s.(rq_md)
    s.(rq_dma) s.(rq_wqe_cnt) s.(rq_wqe_shift) s.(rq_head) s.(db_record)
    s.(db_md) s.(db_dma) s.(uar) v s.(recv_cqn) s.(pdn) s.(mqp_state).

Definition set_recv_cqn (v : Z) (s : mlx5_ib_qp) : mlx5_ib_qp :=
  Mk_mlx5_ib_qp s.(ibqp) s.(qpn) s.(sq_buf) s.(sq_md) s.(sq_dma)
    s.(sq_wqe_cnt) s.(sq_wqe_shift) s.(sq_head) s.(rq_buf) s.(rq_md)
    s.(rq_dma) s.(rq_wqe_cnt) s.(rq_wqe_shift) s.(rq_head) s.(db_record)
    s.(db_md) s.(db_dma) s.(uar) s.(send_cqn) v s.(pdn) s.(mqp_state).

Definition set_pdn (v : Z) (s : mlx5_ib_qp) : mlx5_ib_qp :=
  Mk_mlx5_ib_qp s.(ibqp) s.(qpn) s.(sq_buf) s.(sq_md) s.(sq_dma)
    s.(sq_wqe_cnt) s.(sq_wqe_shift) s.(sq_head) s.(rq_buf) s.(rq_md)
    s.(rq_dma) s.(rq_wqe_cnt) s.(rq_wqe_shift) s.(rq_head) s.(db_record)
    s.(db_md) s.(db_dma) s.(uar) s.(send_cqn) s.(recv_cqn) v s.(mqp_state).

Definition set_mqp_state (v : ib_qp_state) (s : mlx5_ib_qp) : mlx5_ib_qp :=
  Mk_mlx5_ib_qp s.(ibqp) s.(qpn) s.(sq_buf) s.(sq_md) s.(sq_dma)
    s.(sq_wqe_cnt) s.(sq_wqe_shift) s.(sq_head) s.(rq_buf) s.(rq_md)
    s.(rq_dma) s.(rq_wqe_cnt) s.(rq_wqe_shift) s.(rq_head) s.(db_record)
    s.(db_md) s.(db_dma) s.(uar) s.(send_cqn) s.(recv_cqn) s.(pdn) v.

(** struct mlx5_ib_mr of [mlx5_mr.h] *)
Record mlx5_ib_mr := Mk_mlx5_ib_mr {
  ibmr : ib_mr;
  mkey : Z;
  mtt_level : Z;
  pas : ptr;
  npages : Z;
  pas_md : ptr
}.

(** All bytes zero, as [memset] leaves it. *)
Definition zero_mlx5_ib_mr : mlx5_ib_mr :=
  Mk_mlx5_ib_mr zero_ib_mr 0 0 NULL 0 NULL.


(** ** Function table, device and provider data *)

(** The provider functions that can be stored in [ib_device_ops]. *)
Inductive verb :=
  | V_query_device | V_query_port | V_alloc_pd | V_dealloc_pd
  | V_create_cq | V_destroy_cq | V_poll_cq | V_req_notify_cq
  | V_create_qp | V_modify_qp | V_destroy_qp | V_post_send | V_post_recv
  | V_reg_user_mr | V_dereg_mr | V_create_ah | V_destroy_ah.

#[export] Instance verb_eq_dec : EqDecision verb.
Proof. solve_decision. Defined.

(** [struct ib_device_ops]: one function pointer per operation ([None] is the
    null pointer). *)
Record ib_device_ops := Mk_ib_device_ops {
  op_query_device : option verb;
  op_query_port : option verb;
  op_get_port_immutable : option verb;
  op_get_link_layer : option verb;
  op_modify_device : option verb;
  op_modify_port : option verb;
  op_alloc_pd : option verb;
  op_dealloc_pd : option verb;
  op_create_cq : option verb;
  op_destroy_cq : option verb;
  op_poll_cq : option verb;
  op_req_notify_cq : option verb;
  op_resize_cq : option verb;
  op_create_qp : option verb;
  op_modify_qp : option verb;
  op_destroy_qp : option verb;
  op_query_qp : option verb;
  op_post_send : option verb;
  op_post_recv : option verb;
  op_reg_user_mr : option verb;
  op_dereg_mr : option verb;
  op_map_mr_sg : option verb;
  op_create_ah : option verb;
  op_destroy_ah : option verb;
  op_alloc_ucontext : option verb;
  op_dealloc_ucontext : option verb;
  op_mmap : option verb;
  op_reserved : list ptr          (** 64 pointers *)
}.

Definition zero_ib_device_ops : ib_device_ops :=
  Mk_ib_device_ops None None None None None None None None None None None None
    None None None None None None None None None None None None None None None (repeat NULL 64).

(** [struct ib_device].  [dev_get_port_immutable_fn] is a function pointer that
    nothing sets. *)
Record ib_device := Mk_ib_device {
  dev_name : string;
  dev_ops : ib_device_ops;
  dev_node_guid : Z;
  dev_node_desc : list Z;         (** 8 integers *)
  dev_local_dma_lkey : Z;
  dev_flags : Z;
  dev_num_comp_vectors : Z;
  dev_phys_port_cnt : Z;
  dev_get_port_immutable_fn : ptr;
  dev_core_data : list ptr;       (** 16 pointers *)
  provider_priv : ptr
}.

(** [struct mlx5_ib_dev] of [mlx5_verbs.h]. *)
Record mlx5_ib_dev := Mk_mlx5_ib_dev {
  mdev_ib_dev : ib_device;
  mdev_cmd_ctx : ptr;
  mdev_max_qp : Z;
  mdev_max_cq : Z;
  mdev_max_mr : Z;
  mdev_max_pd : Z;
  mdev_num_ports : Z;
  mdev_node_guid : Z
}.
