(* ===== verification/World.v ===== *)
(** * The world the driver runs in

    [Platform] is the interface to everything that is not in the repository:
    IOKit (allocation of DMA memory, [IODMACommand], PCI configuration space,
    BAR mapping, [IOMalloc]) and the device itself, which answers register
    accesses and writes to DMA memory on its own.  No law is assumed of a
    platform; a theorem that needs one names it.

    [world] is the state a driver function runs on: the platform's state, the
    DMA buffers ([w_heap]), the other reference-counted objects, the mapped
    BARs, one store per C struct type, and the trace of externally visible
    events.  [M] is the state-and-fault monad of the driver's code: undefined
    behaviour (a null or dangling pointer, an access out of bounds, an
    over-wide shift, a register access outside a live mapping) is [Fault].
    [wp] is its weakest precondition, total: a function that faults satisfies
    no [wp]. *)

From S2P Require Import Prelude Bytes Registers IbVerbs.

(** ** DMA memory *)

(** An [IOBufferMemoryDescriptor]: contents, bus address, reference count. *)
Record block := Block { blk_buf : buf; blk_dma : Z; blk_refs : Z }.

Abbreviation heap := (gmap Z block) (only parsing).

(** A write by the device: block, offset, bytes. *)
Definition dma_write : Type := Z * Z * list Z.

Definition map_blk (f : buf -> buf) (b : block) : block :=
  Block (f (blk_buf b)) (blk_dma b) (blk_refs b).

(** A device write takes effect when it lies inside a live block. *)
Definition apply_dma (h : heap) (d : dma_write) : heap :=
  let '(id, o, bs) := d in
  match h !! id with
  | Some b =>
      if (0 <? blk_refs b) && in_bounds (blk_buf b) o (Z.of_nat (length bs))
      then <[id := map_blk (fun u => buf_store u o bs) b]> h else h
  | None => h
  end.

Definition apply_dmas (h : heap) (ds : list dma_write) : heap := foldl apply_dma h ds.

(** A mapping of device memory into the kernel ([IOMemoryMap]). *)
Record iomap := IOMap { map_vaddr : Z; map_len : Z; map_refs : Z }.

(** ** The platform *)

Class Platform := {
  PS : Type;
  (** the device runs for a while: it sees DMA memory and may write to it *)
  p_run : PS -> heap -> PS * list dma_write;
  (** register accesses (a posted write may make the device read memory) *)
  p_mmio_read : PS -> Z -> PS * Z;
  p_mmio_write : PS -> heap -> Z -> Z -> PS;
  (** [IOBufferMemoryDescriptor::inTaskWithPhysicalMask]: bus address and
      initial contents of the memory, or failure *)
  p_alloc : PS -> Z -> PS * option (Z * (Z -> Z));
  (** [IOMalloc] *)
  p_malloc : PS -> Z -> PS * bool;
  (** [IODMACommand] *)
  p_dma_withSpecification : PS -> Z -> PS * bool;
  p_dma_setMemoryDescriptor : PS -> Z -> PS * IOReturn;
  p_dma_gen64IOVMSegments : PS -> Z -> PS * (IOReturn * Z * Z);
  (** [IOService::start], [OSDynamicCast(IOPCIDevice, _)] *)
  p_super_start : PS -> PS * bool;
  p_cast_pci : PS -> PS * bool;
  (** PCI configuration space *)
  p_config_read : PS -> Z -> PS * Z;
  p_config_write : PS -> Z -> Z -> PS;
  (** [getDeviceMemoryWithIndex(0)]: its length, [getPhysicalAddress()], and
      [map()] (the virtual address) *)
  p_bar_memory : PS -> PS * option Z;
  p_bar_physical : PS -> PS * Z;
  p_bar_map : PS -> PS * option Z
}.

(** ** Events *)

Inductive event :=
  | EvLog (tag : string) (args : list Z)
  | EvBarrier
  | EvSleep (ms : Z)
  | EvStore (id o : Z) (bs : list Z)
  | EvMmioRead (addr v : Z)
  | EvMmioWrite (addr v : Z)
  | EvProperty (key : string) (v : Z)
  | EvRegisterService
  | EvSuperStop
  | EvSuperFree.

Inductive fault := BadPointer | UseAfterFree | OutOfBounds | UnmappedMmio | BadShift.

#[export] Instance fault_eq_dec : EqDecision fault.
Proof. solve_decision. Defined.

Section World.
  Context `{P : Platform}.

Record world := Mk_world {
    w_ps : PS;
    w_heap : heap;
    w_next : Z;
    w_objs : gmap Z Z;
    w_maps : gmap Z iomap;
    w_ctx : gmap Z mlx5_cmd_context;
    w_ibdev : gmap Z ib_device;
    w_mdev : gmap Z mlx5_ib_dev;
    w_pd : gmap Z ib_pd;
    w_cq : gmap Z ib_cq;
    w_qp : gmap Z mlx5_ib_qp;
    w_mr : gmap Z mlx5_ib_mr;
    w_trace : list event
  }.

Definition put_ps (v : PS) (w : world) : world :=
    Mk_world v w.(w_heap) w.(w_next) w.(w_objs) w.(w_maps) w.(w_ctx) w.(w_ibdev)
      w.(w_mdev) w.(w_pd) w.(w_cq) w.(w_qp) w.(w_mr) w.(w_trace).
Definition put_heap (v : heap) (w : world) : world :=
    Mk_world w.(w_ps) v w.(w_next) w.(w_objs) w.(w_maps) w.(w_ctx) w.(w_ibdev)
      w.(w_mdev) w.(w_pd) w.(w_cq) w.(w_qp) w.(w_mr) w.(w_trace).
Definition put_next (v : Z) (w : world) : world :=
    Mk_world w.(w_ps) w.(w_heap) v w.(w_objs) w.(w_maps) w.(w_ctx) w.(w_ibdev)
      w.(w_mdev) w.(w_pd) w.(w_cq) w.(w_qp) w.(w_mr) w.(w_trace).
Definition put_objs (v : gmap Z Z) (w : world) : world :=
    Mk_world w.(w_ps) w.(w_heap) w.(w_next) v w.(w_maps) w.(w_ctx) w.(w_ibdev)
      w.(w_mdev) w.(w_pd) w.(w_cq) w.(w_qp) w.(w_mr) w.(w_trace).
Definition put_maps (v : gmap Z iomap) (w : world) : world :=
    Mk_world w.(w_ps) w.(w_heap) w.(w_next) w.(w_objs) v w.(w_ctx) w.(w_ibdev)
      w.(w_mdev) w.(w_pd) w.(w_cq) w.(w_qp) w.(w_mr) w.(w_trace).
Definition put_ctx (v : gmap Z mlx5_cmd_context) (w : world) : world :=
    Mk_world w.(w_ps) w.(w_heap) w.(w_next) w.(w_objs) w.(w_maps) v w.(w_ibdev)
      w.(w_mdev) w.(w_pd) w.(w_cq) w.(w_qp) w.(w_mr) w.(w_trace).
Definition put_ibdev (v : gmap Z ib_device) (w : world) : world :=
    Mk_world w.(w_ps) w.(w_heap) w.(w_next) w.(w_objs) w.(w_maps) w.(w_ctx) v
      w.(w_mdev) w.(w_pd) w.(w_cq) w.(w_qp) w.(w_mr) w.(w_trace).
Definition put_mdev (v : gmap Z mlx5_ib_dev) (w : world) : world :=
    Mk_world w.(w_ps) w.(w_heap) w.(w_next) w.(w_objs) w.(w_maps) w.(w_ctx) w.(w_ibdev)
      v w.(w_pd) w.(w_cq) w.(w_qp) w.(w_mr) w.(w_trace).
Definition put_pd (v : gmap Z ib_pd) (w : world) : world :=
    Mk_world w.(w_ps) w.(w_heap) w.(w_next) w.(w_objs) w.(w_maps) w.(w_ctx) w.(w_ibdev)
      w.(w_mdev) v w.(w_cq) w.(w_qp) w.(w_mr) w.(w_trace).
Definition put_cq (v : gmap Z ib_cq) (w : world) : world :=
    Mk_world w.(w_ps) w.(w_heap) w.(w_next) w.(w_objs) w.(w_maps) w.(w_ctx) w.(w_ibdev)
      w.(w_mdev) w.(w_pd) v w.(w_qp) w.(w_mr) w.(w_trace).
Definition put_qp (v : gmap Z mlx5_ib_qp) (w : world) : world :=
    Mk_world w.(w_ps) w.(w_heap) w.(w_next) w.(w_objs) w.(w_maps) w.(w_ctx) w.(w_ibdev)
      w.(w_mdev) w.(w_pd) w.(w_cq) v w.(w_mr) w.(w_trace).
Definition put_mr (v : gmap Z mlx5_ib_mr) (w : world) : world :=
    Mk_world w.(w_ps) w.(w_heap) w.(w_next) w.(w_objs) w.(w_maps) w.(w_ctx) w.(w_ibdev)
      w.(w_mdev) w.(w_pd) w.(w_cq) w.(w_qp) v w.(w_trace).
Definition put_trace (v : list event) (w : world) : world :=
    Mk_world w.(w_ps) w.(w_heap) w.(w_next) w.(w_objs) w.(w_maps) w.(w_ctx) w.(w_ibdev)
      w.(w_mdev) w.(w_pd) w.(w_cq) w.(w_qp) w.(w_mr) v.

(** ** The monad *)

Inductive outcome (A : Type) :=
    | Done (a : A) (w : world)
    | Fault (f : fault).

End World.

Arguments Done {P A}.
Arguments Fault {P A}.

Definition M `{Platform} (A : Type) : Type := world -> outcome A.

#[export] Instance M_ret `{Platform} : MRet M := fun A a w => Done a w.
#[export] Instance M_bind `{Platform} : MBind M := fun A B k m w =>
  match m w with Done a w' => k a w' | Fault f => Fault f end.

(** ** Stores of C structs, by type *)

Class Cell `{Platform} (T : Type) := {
  cell_get : world -> gmap Z T;
  cell_put : gmap Z T -> world -> world;
  cell_get_put : forall m w, cell_get (cell_put m w) = m;
  cell_put_trace : forall m w, w_trace (cell_put m w) = w_trace w
}.

Section Primitives.
Context `{P : Platform}.

#[global] Instance cell_ctx : Cell mlx5_cmd_context :=
  { cell_get := w_ctx; cell_put := put_ctx; cell_get_put := fun _ _ => eq_refl;
    cell_put_trace := fun _ _ => eq_refl }.
#[global] Instance cell_ibdev : Cell ib_device :=
  { cell_get := w_ibdev; cell_put := put_ibdev; cell_get_put := fun _ _ => eq_refl;
    cell_put_trace := fun _ _ => eq_refl }.
#[global] Instance cell_mdev : Cell mlx5_ib_dev :=
  { cell_get := w_mdev; cell_put := put_mdev; cell_get_put := fun _ _ => eq_refl;
    cell_put_trace := fun _ _ => eq_refl }.
#[global] Instance cell_pd : Cell ib_pd :=
  { cell_get := w_pd; cell_put := put_pd; cell_get_put := fun _ _ => eq_refl;
    cell_put_trace := fun _ _ => eq_refl }.
#[global] Instance cell_cq : Cell ib_cq :=
  { cell_get := w_cq; cell_put := put_cq; cell_get_put := fun _ _ => eq_refl;
    cell_put_trace := fun _ _ => eq_refl }.
#[global] Instance cell_qp : Cell mlx5_ib_qp :=
  { cell_get := w_qp; cell_put := put_qp; cell_get_put := fun _ _ => eq_refl;
    cell_put_trace := fun _ _ => eq_refl }.
#[global] Instance cell_mr : Cell mlx5_ib_mr :=
  { cell_get := w_mr; cell_put := put_mr; cell_get_put := fun _ _ => eq_refl;
    cell_put_trace := fun _ _ => eq_refl }.

Definition fail {A} (f : fault) : M A := fun _ => Fault f.

(** [*p], [*p = x] and [p->field = v]. *)
Definition deref {T} `{!Cell T} (p : ptr) : M T := fun w =>
  match cell_get w !! p with Some x => Done x w | None => Fault BadPointer end.

Definition assign {T} `{!Cell T} (p : ptr) (x : T) : M unit := fun w =>
  match cell_get w !! p with
  | Some _ => Done tt (cell_put (<[p := x]> (cell_get w)) w)
  | None => Fault BadPointer
  end.

Definition modify {T} `{!Cell T} (p : ptr) (f : T -> T) : M unit := fun w =>
  match cell_get w !! p with
  | Some x => Done tt (cell_put (<[p := f x]> (cell_get w)) w)
  | None => Fault BadPointer
  end.

(** ** Output, barriers, time *)

Definition emit (e : event) : M unit := fun w => Done tt (put_trace (e :: w_trace w) w).
Definition IOLog (tag : string) (args : list Z) : M unit := emit (EvLog tag args).
Definition OSSynchronizeIO : M unit := emit EvBarrier.

(** The device runs between two actions of the driver. *)
Definition device_run (w : world) : world :=
  put_heap (apply_dmas (w_heap w) (p_run (w_ps w) (w_heap w)).2)
    (put_ps (p_run (w_ps w) (w_heap w)).1 w).

Definition run_device : M unit := fun w => Done tt (device_run w).

Definition IOSleep (ms : Z) : M unit := emit (EvSleep ms) ;; run_device.

(** ** DMA memory *)

(** A block as the driver may use it. *)
Definition live_buf (h : heap) (p : ptr) : option buf :=
  match h !! p with
  | Some b => if 0 <? blk_refs b then Some (blk_buf b) else None
  | None => None
  end.

Definition dead_fault (h : heap) (p : ptr) : fault :=
  match h !! p with Some _ => UseAfterFree | None => BadPointer end.

Definition upd_buf (p : ptr) (f : buf -> buf) (h : heap) : heap := alter (map_blk f) p h.

(** A store of the [n] bytes [bs]; [f] is its effect on the block. *)
Definition mem_update (p : ptr) (o n : Z) (bs : list Z) (f : buf -> buf) : M unit := fun w =>
  match live_buf (w_heap w) p with
  | Some b =>
      if in_bounds b o n
      then Done tt (put_trace (EvStore p o bs :: w_trace w)
                     (put_heap (upd_buf p f (w_heap w)) w))
      else Fault OutOfBounds
  | None => Fault (dead_fault (w_heap w) p)
  end.

(** [n] times the byte [v]. *)
Definition fill_bytes (n v : Z) : list Z := repeat v (Z.to_nat n).
#[global] Arguments fill_bytes : simpl never.

(** A typed store, [memset] and [memcpy] into DMA memory. *)
Definition mem_store (p : ptr) (o : Z) (bs : list Z) : M unit :=
  mem_update p o (Z.of_nat (length bs)) bs (fun b => buf_store b o bs).
Definition mem_fill (p : ptr) (o n v : Z) : M unit :=
  mem_update p o n (fill_bytes n v) (fun b => buf_fill b o n v).
Definition mem_copy_in (p : ptr) (o : Z) (src : buf) (so n : Z) : M unit :=
  if in_bounds src so n
  then mem_update p o n (buf_bytes src so (Z.to_nat n)) (fun b => buf_copy b o src so n)
  else fail OutOfBounds.

(** Reading DMA memory: the device may have run since the last access. *)
Definition mem_peek (p : ptr) (o n : Z) : M buf := fun w =>
  match live_buf (w_heap w) p with
  | Some b => if in_bounds b o n then Done b w else Fault OutOfBounds
  | None => Fault (dead_fault (w_heap w) p)
  end.

Definition mem_get (p : ptr) (o n : Z) : M buf := run_device ;; mem_peek p o n.

Definition mem_load (p : ptr) (o : Z) (n : nat) : M (list Z) :=
  b ← mem_get p o (Z.of_nat n); mret (buf_bytes b o n).

(** [IOBufferMemoryDescriptor::inTaskWithPhysicalMask] *)
Definition md_alloc (size : Z) : M ptr := fun w =>
  match p_alloc (w_ps w) size with
  | (s, None) => Done NULL (put_ps s w)
  | (s, Some (dma, contents)) =>
      let id := w_next w in
      Done id (put_heap (<[id := Block (Buf size contents) (u64 dma) 1]> (w_heap w))
                (put_next (id + 1) (put_ps s w)))
  end.

(** [md->release()] *)
Definition md_release (p : ptr) : M unit := fun w =>
  match w_heap w !! p with
  | Some b =>
      if 0 <? blk_refs b
      then Done tt (put_heap (<[p := Block (blk_buf b) (blk_dma b) (blk_refs b - 1)]> (w_heap w)) w)
      else Fault UseAfterFree
  | None => Fault BadPointer
  end.

(** [md->getPhysicalAddress()] *)
Definition md_getPhysicalAddress (p : ptr) : M Z := fun w =>
  match w_heap w !! p with
  | Some b => if 0 <? blk_refs b then Done (blk_dma b) w else Fault UseAfterFree
  | None => Fault BadPointer
  end.

(** [md->getBytesNoCopy()]: the memory is addressed through the block itself. *)
Definition md_getBytesNoCopy (p : ptr) : M ptr := fun w =>
  match live_buf (w_heap w) p with
  | Some _ => Done p w
  | None => Fault (dead_fault (w_heap w) p)
  end.

(** ** Local C arrays *)

Definition arr_store (b : buf) (o : Z) (bs : list Z) : M buf :=
  if in_bounds b o (Z.of_nat (length bs)) then mret (buf_store b o bs) else fail OutOfBounds.

Definition arr_load (b : buf) (o : Z) (n : nat) : M (list Z) :=
  if in_bounds b o (Z.of_nat n) then mret (buf_bytes b o n) else fail OutOfBounds.

(** ** Reference-counted objects other than DMA memory *)

Definition obj_new : M ptr := fun w =>
  Done (w_next w) (put_objs (<[w_next w := 1]> (w_objs w)) (put_next (w_next w + 1) w)).

Definition obj_retain (p : ptr) : M unit := fun w =>
  match w_objs w !! p with
  | Some n => if 0 <? n then Done tt (put_objs (<[p := n + 1]> (w_objs w)) w) else Fault UseAfterFree
  | None => Fault BadPointer
  end.

Definition obj_release (p : ptr) : M unit := fun w =>
  match w_objs w !! p with
  | Some n => if 0 <? n then Done tt (put_objs (<[p := n - 1]> (w_objs w)) w) else Fault UseAfterFree
  | None => Fault BadPointer
  end.

(** [IODMACommand] *)
Definition IODMACommand_withSpecification (size : Z) : M ptr := fun w =>
  match p_dma_withSpecification (w_ps w) size with
  | (s, true) => obj_new (put_ps s w)
  | (s, false) => Done NULL (put_ps s w)
  end.
Definition IODMACommand_setMemoryDescriptor (cmd md : ptr) : M IOReturn := fun w =>
  let '(s, r) := p_dma_setMemoryDescriptor (w_ps w) md in Done r (put_ps s w).
Definition IODMACommand_gen64IOVMSegments (cmd md : ptr) : M (IOReturn * Z * Z) := fun w =>
  let '(s, (r, count, addr)) := p_dma_gen64IOVMSegments (w_ps w) md in
  Done (r, u64 count, u64 addr) (put_ps s w).
Definition IODMACommand_clearMemoryDescriptor (cmd : ptr) : M unit := mret tt.

(** [IOMalloc] of a struct: the fresh object, or [NULL]. *)
Definition IOMalloc {T} `{!Cell T} (size : Z) (x : T) : M ptr := fun w =>
  match p_malloc (w_ps w) size with
  | (s, false) => Done NULL (put_ps s w)
  | (s, true) =>
      let w1 := put_next (w_next w + 1) (put_ps s w) in
      Done (w_next w) (cell_put (<[w_next w := x]> (cell_get w1)) w1)
  end.

(** ** Device registers *)

Definition covers (addr n : Z) (m : iomap) : bool :=
  (0 <? map_refs m) && (map_vaddr m <=? addr) && (addr + n <=? map_vaddr m + map_len m).

Definition mmio_mapped (maps : gmap Z iomap) (addr n : Z) : bool :=
  bool_decide (map_Exists (fun _ m => covers addr n m = true) maps).

(** A 32-bit load from device memory (the value as the CPU sees it). *)
Definition mmio_read32 (addr : Z) : M Z := fun w =>
  if mmio_mapped (w_maps w) addr 4 then
    let '(s, v) := p_mmio_read (w_ps w) addr in
    Done (u32 v) (put_trace (EvMmioRead addr (u32 v) :: w_trace w) (put_ps s w))
  else Fault UnmappedMmio.

Definition mmio_write (n addr v : Z) : M unit := fun w =>
  if mmio_mapped (w_maps w) addr n then
    Done tt (put_trace (EvMmioWrite addr v :: w_trace w)
              (put_ps (p_mmio_write (w_ps w) (w_heap w) addr v) w))
  else Fault UnmappedMmio.

Definition mmio_write32 (addr v : Z) : M unit := mmio_write 4 addr (u32 v).
Definition mmio_write64 (addr v : Z) : M unit := mmio_write 8 addr (u64 v).

(** ** Control *)

(** [for (uint32_t i = i0; i < i0 + n; i++) body(i)] *)
Fixpoint for_range (n : nat) (i : Z) (body : Z -> M unit) : M unit :=
  match n with
  | O => mret tt
  | S n' => body i ;; for_range n' (i + 1) body
  end.

(** [x << n] on [uint32_t]: undefined for a shift of 32 or more. *)
Definition shl_u32 (x n : Z) : M Z :=
  if (0 <=? n) && (n <? 32) then mret (u32 (Z.shiftl x n)) else fail BadShift.

(** [1 << n] on [int]. *)
Definition shl_int1 (n : Z) : M Z :=
  if (0 <=? n) && (n <? 32) then mret (i32 (Z.shiftl 1 n)) else fail BadShift.

(** [if (c) m] *)
Definition mwhen (c : bool) (m : M unit) : M unit := if c then m else mret tt.

End Primitives.
