(* ===== verification/Wp.v ===== *)
(** * Weakest preconditions for the driver monad

    [wp m Q w]: [m] run on [w] does not fault, and its result and final world
    satisfy [Q].  One rule per primitive of [World.v], the tactics
    [wp_prim], [wp_step] and [wp_steps] that apply them, and the notion of a
    heap's shape (which blocks exist, their sizes, bus addresses and reference
    counts), which nothing the device does can change. *)

From S2P Require Import Prelude Bytes Registers IbVerbs World.

Section Wp.
Context `{P : Platform}.
Implicit Types w : world.

Definition wp {A} (m : M A) (Q : A -> world -> Prop) (w : world) : Prop :=
  match m w with Done a w' => Q a w' | Fault _ => False end.

Lemma wp_run {A} (m : M A) Q w : wp m Q w -> exists a w', m w = Done a w' /\ Q a w'.
Proof. unfold wp. destruct (m w); [eauto|done]. Qed.

Lemma wp_done {A} (m : M A) Q w a w' : m w = Done a w' -> Q a w' -> wp m Q w.
Proof. unfold wp. by intros ->. Qed.

Lemma wp_mono {A} (m : M A) (Q1 Q2 : A -> world -> Prop) w :
  wp m Q1 w -> (forall a w', Q1 a w' -> Q2 a w') -> wp m Q2 w.
Proof. unfold wp. destruct (m w); eauto. Qed.

Lemma wp_and {A} (m : M A) (Q1 Q2 : A -> world -> Prop) w :
  wp m Q1 w -> wp m Q2 w -> wp m (fun a w' => Q1 a w' /\ Q2 a w') w.
Proof. unfold wp. destruct (m w); eauto. Qed.

Lemma wp_bind {A B} (m : M A) (k : A -> M B) Q w :
  wp m (fun a w' => wp (k a) Q w') w -> wp (m ≫= k) Q w.
Proof. unfold wp, mbind, M_bind. by destruct (m w). Qed.

(** Treat the first two of several steps as one. *)
Lemma wp_bind_bind {A B C} (m : M A) (k1 : A -> M B) (k2 : B -> M C) Q w :
  wp (m ≫= k1) (fun b w' => wp (k2 b) Q w') w -> wp (m ≫= fun a => k1 a ≫= k2) Q w.
Proof. unfold wp, mbind, M_bind. destruct (m w) as [a w1|]; [|done]. by destruct (k1 a w1). Qed.

Lemma wp_ret {A} (a : A) Q w : Q a w -> wp (mret a) Q w.
Proof. done. Qed.

Lemma wp_deref {T} `{!Cell T} p (x : T) Q w :
  cell_get w !! p = Some x -> Q x w -> wp (deref p) Q w.
Proof. unfold wp, deref. by intros ->. Qed.

Lemma wp_assign {T} `{!Cell T} p (x y : T) Q w :
  cell_get w !! p = Some x -> Q tt (cell_put (<[p := y]> (cell_get w)) w) ->
  wp (assign p y) Q w.
Proof. unfold wp, assign. by intros ->. Qed.

Lemma wp_modify {T} `{!Cell T} p (x : T) f Q w :
  cell_get w !! p = Some x -> Q tt (cell_put (<[p := f x]> (cell_get w)) w) ->
  wp (modify p f) Q w.
Proof. unfold wp, modify. by intros ->. Qed.

Lemma wp_emit e Q w : Q tt (put_trace (e :: w_trace w) w) -> wp (emit e) Q w.
Proof. done. Qed.

Lemma wp_log tag args Q w :
  Q tt (put_trace (EvLog tag args :: w_trace w) w) -> wp (IOLog tag args) Q w.
Proof. done. Qed.

Lemma wp_barrier Q w : Q tt (put_trace (EvBarrier :: w_trace w) w) -> wp OSSynchronizeIO Q w.
Proof. done. Qed.

Lemma wp_run_device Q w : Q tt (device_run w) -> wp run_device Q w.
Proof. done. Qed.

Lemma wp_sleep ms Q w :
  Q tt (device_run (put_trace (EvSleep ms :: w_trace w) w)) -> wp (IOSleep ms) Q w.
Proof. done. Qed.

Lemma wp_mem_update p o n bs f b Q w :
  live_buf (w_heap w) p = Some b -> 0 <= o -> 0 <= n -> o + n <= buf_size b ->
  Q tt (put_trace (EvStore p o bs :: w_trace w) (put_heap (upd_buf p f (w_heap w)) w)) ->
  wp (mem_update p o n bs f) Q w.
Proof.
  intros Hb ???. unfold wp, mem_update. rewrite Hb.
  rewrite (proj2 (in_bounds_spec b o n)) by done. done.
Qed.

Lemma wp_mem_peek p o n b Q w :
  live_buf (w_heap w) p = Some b -> 0 <= o -> 0 <= n -> o + n <= buf_size b ->
  Q b w -> wp (mem_peek p o n) Q w.
Proof.
  intros Hb ???. unfold wp, mem_peek. rewrite Hb.
  rewrite (proj2 (in_bounds_spec b o n)) by done. done.
Qed.

Lemma wp_md_release p b Q w :
  w_heap w !! p = Some b -> 0 < blk_refs b ->
  Q tt (put_heap (<[p := Block (blk_buf b) (blk_dma b) (blk_refs b - 1)]> (w_heap w)) w) ->
  wp (md_release p) Q w.
Proof.
  intros Hb Hr. unfold wp, md_release. rewrite Hb.
  by rewrite (proj2 (Z.ltb_lt _ _) Hr).
Qed.

Lemma wp_md_phys p b Q w :
  w_heap w !! p = Some b -> 0 < blk_refs b -> Q (blk_dma b) w ->
  wp (md_getPhysicalAddress p) Q w.
Proof.
  intros Hb Hr. unfold wp, md_getPhysicalAddress. rewrite Hb.
  by rewrite (proj2 (Z.ltb_lt _ _) Hr).
Qed.

Lemma wp_md_bytes p b Q w :
  live_buf (w_heap w) p = Some b -> Q p w -> wp (md_getBytesNoCopy p) Q w.
Proof. intros Hb. unfold wp, md_getBytesNoCopy. by rewrite Hb. Qed.

Lemma wp_arr_store b o bs Q w :
  0 <= o -> o + Z.of_nat (length bs) <= buf_size b ->
  Q (buf_store b o bs) w -> wp (arr_store b o bs) Q w.
Proof.
  intros. unfold arr_store. by rewrite (proj2 (in_bounds_spec b o _)) by lia.
Qed.

Lemma wp_arr_load b o n Q w :
  0 <= o -> o + Z.of_nat n <= buf_size b ->
  Q (buf_bytes b o n) w -> wp (arr_load b o n) Q w.
Proof.
  intros. unfold arr_load. by rewrite (proj2 (in_bounds_spec b o _)) by lia.
Qed.

Lemma wp_mmio_write n addr v Q w :
  mmio_mapped (w_maps w) addr n = true ->
  Q tt (put_trace (EvMmioWrite addr v :: w_trace w)
         (put_ps (p_mmio_write (w_ps w) (w_heap w) addr v) w)) ->
  wp (mmio_write n addr v) Q w.
Proof. intros H. unfold wp, mmio_write. by rewrite H. Qed.

Lemma wp_mmio_read32 addr Q w :
  mmio_mapped (w_maps w) addr 4 = true ->
  (let v := u32 (p_mmio_read (w_ps w) addr).2 in
   Q v (put_trace (EvMmioRead addr v :: w_trace w)
         (put_ps (p_mmio_read (w_ps w) addr).1 w))) ->
  wp (mmio_read32 addr) Q w.
Proof.
  intros H HQ. unfold wp, mmio_read32. rewrite H.
  by destruct (p_mmio_read (w_ps w) addr).
Qed.

Lemma wp_shl_u32 x n Q w :
  0 <= n < 32 -> Q (u32 (Z.shiftl x n)) w -> wp (shl_u32 x n) Q w.
Proof.
  intros Hn. unfold shl_u32.
  by rewrite (proj2 (Z.leb_le 0 n)), (proj2 (Z.ltb_lt n 32)) by lia.
Qed.

Lemma wp_shl_int1 n Q w :
  0 <= n < 32 -> Q (i32 (Z.shiftl 1 n)) w -> wp (shl_int1 n) Q w.
Proof.
  intros Hn. unfold shl_int1.
  by rewrite (proj2 (Z.leb_le 0 n)), (proj2 (Z.ltb_lt n 32)) by lia.
Qed.

Lemma wp_md_alloc size Q w :
  (forall s, Q NULL (put_ps s w)) ->
  (forall s dma contents,
     Q (w_next w)
       (put_heap (<[w_next w := Block (Buf size contents) (u64 dma) 1]> (w_heap w))
         (put_next (w_next w + 1) (put_ps s w)))) ->
  wp (md_alloc size) Q w.
Proof.
  intros H1 H2. unfold wp, md_alloc. destruct (p_alloc _ _) as [s [[dma contents]|]]; auto.
Qed.

Lemma wp_dma_new size Q w :
  (forall s, Q NULL (put_ps s w)) ->
  (forall s, Q (w_next w) (put_objs (<[w_next w := 1]> (w_objs w))
                             (put_next (w_next w + 1) (put_ps s w)))) ->
  wp (IODMACommand_withSpecification size) Q w.
Proof.
  intros H1 H2. unfold wp, IODMACommand_withSpecification.
  destruct (p_dma_withSpecification _ _) as [s []]; [|apply H1]. apply H2.
Qed.

Lemma wp_dma_set cmd md Q w :
  (forall s r, Q r (put_ps s w)) -> wp (IODMACommand_setMemoryDescriptor cmd md) Q w.
Proof.
  intros H. unfold wp, IODMACommand_setMemoryDescriptor.
  destruct (p_dma_setMemoryDescriptor _ _). apply H.
Qed.

Lemma wp_dma_gen cmd md Q w :
  (forall s r count addr, Q (r, u64 count, u64 addr) (put_ps s w)) ->
  wp (IODMACommand_gen64IOVMSegments cmd md) Q w.
Proof.
  intros H. unfold wp, IODMACommand_gen64IOVMSegments.
  destruct (p_dma_gen64IOVMSegments _ _) as [s [[r count] addr]]. apply H.
Qed.

Lemma wp_obj_release p n Q w :
  w_objs w !! p = Some n -> 0 < n ->
  Q tt (put_objs (<[p := n - 1]> (w_objs w)) w) -> wp (obj_release p) Q w.
Proof.
  intros Hp Hn. unfold wp, obj_release. rewrite Hp. by rewrite (proj2 (Z.ltb_lt _ _) Hn).
Qed.

Lemma wp_obj_retain p n Q w :
  w_objs w !! p = Some n -> 0 < n ->
  Q tt (put_objs (<[p := n + 1]> (w_objs w)) w) -> wp (obj_retain p) Q w.
Proof.
  intros Hp Hn. unfold wp, obj_retain. rewrite Hp. by rewrite (proj2 (Z.ltb_lt _ _) Hn).
Qed.

Lemma wp_malloc {T} `{!Cell T} size (x : T) Q w :
  (forall s, Q NULL (put_ps s w)) ->
  (forall s, let w1 := put_next (w_next w + 1) (put_ps s w) in
     Q (w_next w) (cell_put (<[w_next w := x]> (cell_get w1)) w1)) ->
  wp (IOMalloc size x) Q w.
Proof.
  intros H1 H2. unfold wp, IOMalloc. destruct (p_malloc _ _) as [s []]; [apply H2|apply H1].
Qed.

(** The rule of a counted loop, with an invariant indexed by the counter. *)
Lemma wp_for_range n i body (I : Z -> world -> Prop) w :
  I i w ->
  (forall j w', i <= j < i + Z.of_nat n -> I j w' -> wp (body j) (fun _ => I (j + 1)) w') ->
  wp (for_range n i body) (fun _ => I (i + Z.of_nat n)) w.
Proof.
  revert i w; induction n as [|n IH]; intros i w Hi Hstep.
  - apply wp_ret. by rewrite Z.add_0_r.
  - apply wp_bind. eapply wp_mono; [apply Hstep; [lia|done]|].
    intros [] w' Hi'. replace (i + Z.of_nat (S n)) with (i + 1 + Z.of_nat n) by lia.
    apply IH; [done|]. intros; apply Hstep; [lia|done].
Qed.

(** ** Functions that may fault

    [wpf] is [wp] with the set of faults a function may have. *)

Definition wpf {A} (F : fault -> Prop) (m : M A) (Q : A -> world -> Prop) (w : world) : Prop :=
  match m w with Done a w' => Q a w' | Fault f => F f end.

Lemma wpf_wp {A} F (m : M A) Q w : wp m Q w -> wpf F m Q w.
Proof. unfold wp, wpf. by destruct (m w). Qed.

Lemma wpf_bind {A B} F (m : M A) (k : A -> M B) Q w :
  wpf F m (fun a w' => wpf F (k a) Q w') w -> wpf F (m ≫= k) Q w.
Proof. unfold wpf, mbind, M_bind. by destruct (m w). Qed.

Lemma wpf_seq {A B} F (m : M A) (k : A -> M B) Q w :
  wp m (fun a w' => wpf F (k a) Q w') w -> wpf F (m ≫= k) Q w.
Proof. intros. by apply wpf_bind, wpf_wp. Qed.

Lemma wpf_mono {A} (F1 F2 : fault -> Prop) (m : M A) (Q1 Q2 : A -> world -> Prop) w :
  wpf F1 m Q1 w -> (forall f, F1 f -> F2 f) -> (forall a w', Q1 a w' -> Q2 a w') -> wpf F2 m Q2 w.
Proof. unfold wpf. destruct (m w); eauto. Qed.

(** The run itself, next to what holds at its end. *)
Lemma wp_eqn {A} (m : M A) Q w : wp m Q w -> wp m (fun a w' => m w = Done a w' /\ Q a w') w.
Proof. unfold wp. by destruct (m w). Qed.

Lemma wp_along {A} (m : M A) (Q : A -> world -> Prop) w :
  wp m (fun a w' => m w = Done a w' -> Q a w') w -> wp m Q w.
Proof. unfold wp. destruct (m w); auto. Qed.

Lemma wpf_fault {A} (F : fault -> Prop) f (m : M A) Q w : m w = Fault f -> F f -> wpf F m Q w.
Proof. unfold wpf. by intros ->. Qed.

Lemma bind_done {A B} (m : M A) (k : A -> M B) a w w' :
  m w = Done a w' -> (m ≫= k) w = k a w'.
Proof. unfold mbind, M_bind. by intros ->. Qed.

Lemma bind_ext {A B} (m : M A) (k1 k2 : A -> M B) w :
  (forall a w', k1 a w' = k2 a w') -> (m ≫= k1) w = (m ≫= k2) w.
Proof. intros H. unfold mbind, M_bind. by destruct (m w). Qed.

Lemma bind_ret {A B} (a : A) (k : A -> M B) w : (mret a ≫= k) w = k a w.
Proof. done. Qed.

Lemma bind_assoc {A B C} (m : M A) (k1 : A -> M B) (k2 : B -> M C) w :
  ((m ≫= k1) ≫= k2) w = (m ≫= fun a => k1 a ≫= k2) w.
Proof. unfold mbind, M_bind. by destruct (m w). Qed.

Lemma bind_fault {A B} (m : M A) (k : A -> M B) f w : m w = Fault f -> (m ≫= k) w = Fault f.
Proof. unfold mbind, M_bind. by intros ->. Qed.

(** A counted loop one of whose iterations faults, whatever the others did. *)
Lemma for_range_faults n i body (I : world -> Prop) f k w :
  i <= k < i + Z.of_nat n -> I w ->
  (forall j w', I w' -> wpf (eq f) (body j) (fun _ => I) w') ->
  (forall w', I w' -> body k w' = Fault f) ->
  for_range n i body w = Fault f.
Proof.
  revert i w; induction n as [|n IH]; intros i w Hk Hi Hstep Hlast; [lia|]. cbn [for_range].
  destruct (decide (i = k)) as [->|Hne]; [by apply bind_fault, Hlast|].
  specialize (Hstep i w Hi) as Hs. unfold wpf in Hs. destruct (body i w) as [[] w1|f'] eqn:E.
  - rewrite (bind_done _ _ _ _ _ E). apply IH; [lia|done..].
  - subst f'. by apply bind_fault.
Qed.

(** ** Shape of the heap *)

Definition block_shape (b : block) : Z * Z * Z :=
  (buf_size (blk_buf b), blk_dma b, blk_refs b).
Definition heap_shape (h : heap) : gmap Z (Z * Z * Z) := block_shape <$> h.

Lemma heap_shape_lookup h1 h2 id b :
  heap_shape h1 = heap_shape h2 -> h1 !! id = Some b ->
  exists b', h2 !! id = Some b' /\ block_shape b' = block_shape b.
Proof.
  intros H Hb. assert (Hs : heap_shape h1 !! id = Some (block_shape b)).
  { unfold heap_shape. by rewrite lookup_fmap, Hb. }
  rewrite H in Hs. unfold heap_shape in Hs. rewrite lookup_fmap in Hs.
  destruct (h2 !! id) as [b'|]; [|done]. exists b'. split; [done|]. simpl in Hs. congruence.
Qed.

Lemma heap_shape_at h1 h2 p :
  heap_shape h1 = heap_shape h2 -> block_shape <$> h1 !! p = block_shape <$> h2 !! p.
Proof.
  intros H. pose proof (f_equal (fun m => m !! p) H) as E. unfold heap_shape in E.
  by rewrite !lookup_fmap in E.
Qed.

Lemma heap_shape_live h1 h2 id b :
  heap_shape h1 = heap_shape h2 -> live_buf h1 id = Some b ->
  exists b', live_buf h2 id = Some b' /\ buf_size b' = buf_size b.
Proof.
  unfold live_buf. intros H Hl. destruct (h1 !! id) as [c|] eqn:Hc; [|done].
  destruct (heap_shape_lookup _ _ _ _ H Hc) as (c' & -> & Hs).
  unfold block_shape in Hs. simplify_eq.
  destruct (Z.ltb_spec 0 (blk_refs c)); simplify_eq.
  rewrite (proj2 (Z.ltb_lt _ _)) by congruence. eexists. split; [done|congruence].
Qed.

Lemma heap_shape_upd p f h :
  (forall b, buf_size (f b) = buf_size b) -> heap_shape (upd_buf p f h) = heap_shape h.
Proof.
  intros Hf. apply map_eq. intros i. unfold heap_shape, upd_buf.
  rewrite !lookup_fmap, lookup_alter. case_decide as Hd; [subst|done].
  destruct (h !! i) as [b|]; [|done]. simpl. unfold block_shape. simpl. by rewrite Hf.
Qed.

Lemma heap_shape_apply_dma h d : heap_shape (apply_dma h d) = heap_shape h.
Proof.
  destruct d as [[id o] bs]. unfold apply_dma. destruct (h !! id) as [b|] eqn:Hb; [|done].
  destruct (_ && _); [|done]. apply map_eq. intros i. unfold heap_shape.
  rewrite !lookup_fmap, lookup_insert. case_decide as Hd; [subst; by rewrite Hb|done].
Qed.

Lemma heap_shape_apply_dmas h ds : heap_shape (apply_dmas h ds) = heap_shape h.
Proof.
  unfold apply_dmas. revert h; induction ds; intros; [done|]. simpl.
  by rewrite IHds, heap_shape_apply_dma.
Qed.

Lemma heap_shape_device_run w : heap_shape (w_heap (device_run w)) = heap_shape (w_heap w).
Proof. apply heap_shape_apply_dmas. Qed.

Lemma live_buf_upd_eq p f h :
  live_buf (upd_buf p f h) p = f <$> live_buf h p.
Proof.
  unfold live_buf, upd_buf. rewrite lookup_alter_eq.
  destruct (h !! p) as [b|]; [|done]. simpl. by destruct (0 <? blk_refs b).
Qed.

Lemma live_buf_upd_ne p q f h : p <> q -> live_buf (upd_buf p f h) q = live_buf h q.
Proof. intros. unfold live_buf, upd_buf. by rewrite lookup_alter_ne. Qed.

Lemma upd_buf_ne p f h q : q <> p -> upd_buf p f h !! q = h !! q.
Proof. intros. unfold upd_buf. by rewrite lookup_alter_ne. Qed.

Lemma upd_buf_id p h : upd_buf p (fun b => b) h = h.
Proof.
  apply map_eq. intros i. unfold upd_buf. rewrite lookup_alter. case_decide; [|done].
  subst. by destruct (h !! i) as [[]|].
Qed.

Lemma upd_buf_insert p f b h : upd_buf p f (<[p := b]> h) = <[p := map_blk f b]> h.
Proof. apply alter_insert_eq. Qed.

Lemma upd_buf_insert_ne p q f b h :
  p <> q -> upd_buf p f (<[q := b]> h) = <[q := b]> (upd_buf p f h).
Proof. intros. by apply alter_insert_ne. Qed.

Lemma live_buf_insert_eq p b h :
  live_buf (<[p := b]> h) p = if 0 <? blk_refs b then Some (blk_buf b) else None.
Proof. unfold live_buf. by rewrite lookup_insert_eq. Qed.

Lemma live_buf_insert_ne p q b h : p <> q -> live_buf (<[p := b]> h) q = live_buf h q.
Proof. intros. unfold live_buf. by rewrite lookup_insert_ne. Qed.

Lemma live_buf_apply_dma_ne h id o bs p :
  p <> id -> live_buf (apply_dma h (id, o, bs)) p = live_buf h p.
Proof.
  intros. unfold apply_dma. destruct (h !! id); [|done]. destruct (_ && _); [|done].
  unfold live_buf. by rewrite lookup_insert_ne.
Qed.

Lemma live_buf_apply_dma_eq h id o bs b :
  live_buf h id = Some b -> 0 <= o -> o + Z.of_nat (length bs) <= buf_size b ->
  live_buf (apply_dma h (id, o, bs)) id = Some (buf_store b o bs).
Proof.
  unfold live_buf, apply_dma. destruct (h !! id) as [c|]; [|done].
  destruct (0 <? blk_refs c) eqn:E; [|done]. intros [= <-] ??.
  rewrite (proj2 (in_bounds_spec _ _ _)) by lia. simpl. rewrite lookup_insert_eq. simpl.
  by rewrite E.
Qed.

Lemma live_buf_lookup h p b :
  live_buf h p = Some b ->
  exists c, h !! p = Some c /\ blk_buf c = b /\ 0 < blk_refs c.
Proof.
  unfold live_buf. destruct (h !! p) as [c|]; [|done].
  destruct (Z.ltb_spec 0 (blk_refs c)); intros; simplify_eq; eauto.
Qed.

(** Addresses from [w_next] on are free. *)
Definition fresh_ok w : Prop :=
  0 < w_next w /\ forall p b, w_heap w !! p = Some b -> p < w_next w.

Lemma heap_shape_blk h1 h2 id b :
  heap_shape h1 = heap_shape h2 -> h1 !! id = Some b ->
  exists b', h2 !! id = Some b' /\ buf_size (blk_buf b') = buf_size (blk_buf b) /\
    blk_refs b' = blk_refs b.
Proof.
  intros H Hb. destruct (heap_shape_lookup _ _ _ _ H Hb) as (b' & ? & Hs).
  unfold block_shape in Hs. injection Hs as ? ? ?. eauto.
Qed.

Lemma live_of_blk h p b : h !! p = Some b -> 0 < blk_refs b -> live_buf h p = Some (blk_buf b).
Proof. intros Hb Hr. unfold live_buf. by rewrite Hb, (proj2 (Z.ltb_lt _ _) Hr). Qed.

(** ** The mapped BAR *)

Lemma mmio_mapped_intro maps id m addr n :
  maps !! id = Some m -> covers addr n m = true -> mmio_mapped maps addr n = true.
Proof.
  intros. unfold mmio_mapped. apply bool_decide_eq_true. exists id, m. by split.
Qed.

(** ** Derived rules for memory accesses *)

Lemma wp_mem_store p o bs b Q w :
  live_buf (w_heap w) p = Some b -> 0 <= o -> o + Z.of_nat (length bs) <= buf_size b ->
  Q tt (put_trace (EvStore p o bs :: w_trace w)
         (put_heap (upd_buf p (fun b => buf_store b o bs) (w_heap w)) w)) ->
  wp (mem_store p o bs) Q w.
Proof. intros. eapply wp_mem_update; eauto. lia. Qed.

Lemma wp_mem_fill p o n v b Q w :
  live_buf (w_heap w) p = Some b -> 0 <= o -> 0 <= n -> o + n <= buf_size b ->
  Q tt (put_trace (EvStore p o (fill_bytes n v) :: w_trace w)
         (put_heap (upd_buf p (fun b => buf_fill b o n v) (w_heap w)) w)) ->
  wp (mem_fill p o n v) Q w.
Proof. intros. eapply wp_mem_update; eauto. Qed.

Lemma wp_mem_copy_in p o src so n b Q w :
  in_bounds src so n = true ->
  live_buf (w_heap w) p = Some b -> 0 <= o -> 0 <= n -> o + n <= buf_size b ->
  Q tt (put_trace (EvStore p o (buf_bytes src so (Z.to_nat n)) :: w_trace w)
         (put_heap (upd_buf p (fun b => buf_copy b o src so n) (w_heap w)) w)) ->
  wp (mem_copy_in p o src so n) Q w.
Proof. intros Hs ?????. unfold mem_copy_in. rewrite Hs. eapply wp_mem_update; eauto. Qed.

Lemma live_buf_device_run w p b :
  live_buf (w_heap w) p = Some b ->
  exists b', live_buf (w_heap (device_run w)) p = Some b' /\ buf_size b' = buf_size b.
Proof. intros. eapply heap_shape_live; [|done]. by rewrite heap_shape_device_run. Qed.

Lemma wp_mem_get p o n b Q w :
  live_buf (w_heap w) p = Some b -> 0 <= o -> 0 <= n -> o + n <= buf_size b ->
  (forall b', live_buf (w_heap (device_run w)) p = Some b' -> buf_size b' = buf_size b ->
     Q b' (device_run w)) ->
  wp (mem_get p o n) Q w.
Proof.
  intros Hb ??? HQ. apply wp_bind, wp_run_device.
  destruct (live_buf_device_run _ _ _ Hb) as (b' & Hb' & Hs).
  eapply wp_mem_peek; [done..|lia|]. by apply HQ.
Qed.

Lemma wp_mem_load p o n b Q w :
  live_buf (w_heap w) p = Some b -> 0 <= o -> o + Z.of_nat n <= buf_size b ->
  (forall b', live_buf (w_heap (device_run w)) p = Some b' -> buf_size b' = buf_size b ->
     Q (buf_bytes b' o n) (device_run w)) ->
  wp (mem_load p o n) Q w.
Proof.
  intros Hb ?? HQ. apply wp_bind. eapply wp_mem_get; [done..|lia|lia|].
  intros b' ??. apply wp_ret. by apply HQ.
Qed.

(** ** What input/output changes

    [io_frame t w w']: from [w] to [w'] only the platform's state, the
    contents of DMA memory and the trace changed; [t] is the new part of the
    trace (newest event first). *)
Definition io_frame (t : list event) (w w' : world) : Prop :=
  exists s h, w' = put_trace (t ++ w_trace w) (put_heap h (put_ps s w)) /\
              heap_shape h = heap_shape (w_heap w).

Lemma io_frame_intro t w w' :
  w' = put_trace (w_trace w') (put_heap (w_heap w') (put_ps (w_ps w') w)) ->
  w_trace w' = t ++ w_trace w -> heap_shape (w_heap w') = heap_shape (w_heap w) ->
  io_frame t w w'.
Proof. intros Hw Ht ?. exists (w_ps w'), (w_heap w'). by rewrite <- Ht. Qed.

Lemma suffix_nil (l : list event) : l = [] ++ l.
Proof. done. Qed.
Lemma suffix_cons (e : event) l t l0 : l = t ++ l0 -> e :: l = (e :: t) ++ l0.
Proof. by intros ->. Qed.
Lemma suffix_app (a : list event) l t l0 : l = t ++ l0 -> a ++ l = (a ++ t) ++ l0.
Proof. intros ->. apply app_assoc. Qed.

Lemma io_frame_refl w : io_frame [] w w.
Proof. exists (w_ps w), (w_heap w). split; [|done]. by destruct w. Qed.

Lemma io_frame_trans t1 t2 w1 w2 w3 :
  io_frame t1 w1 w2 -> io_frame t2 w2 w3 -> io_frame (t2 ++ t1) w1 w3.
Proof.
  intros (s1 & h1 & -> & H1) (s2 & h2 & -> & H2). exists s2, h2. split.
  - simpl. by rewrite <- app_assoc.
  - simpl in H2. congruence.
Qed.

Lemma io_frame_device_run w : io_frame [] w (device_run w).
Proof.
  eexists _, _. split; [|apply heap_shape_device_run]. by destruct w.
Qed.

Lemma io_frame_emit e w : io_frame [e] w (put_trace (e :: w_trace w) w).
Proof. exists (w_ps w), (w_heap w). split; [|done]. by destruct w. Qed.

Lemma io_frame_emit_l e t w w' :
  io_frame t (put_trace (e :: w_trace w) w) w' -> io_frame (t ++ [e]) w w'.
Proof. apply io_frame_trans, io_frame_emit. Qed.

Lemma io_frame_device_run_l t w w' : io_frame t (device_run w) w' -> io_frame t w w'.
Proof.
  intros H. rewrite <- (app_nil_r t). eapply io_frame_trans; [apply io_frame_device_run|done].
Qed.

Lemma io_frame_live t w w' p b :
  io_frame t w w' -> live_buf (w_heap w) p = Some b ->
  exists b', live_buf (w_heap w') p = Some b' /\ buf_size b' = buf_size b.
Proof. intros (s & h & -> & Hs). simpl. by apply heap_shape_live. Qed.

Lemma io_frame_trace t w w' : io_frame t w w' -> w_trace w' = t ++ w_trace w.
Proof. by intros (s & h & -> & _). Qed.

End Wp.

#[export] Hint Rewrite @buf_size_store @buf_size_fill @buf_size_copy : vf.
#[export] Hint Resolve io_frame_refl io_frame_device_run io_frame_emit : vf.

(** ** Automation *)

Ltac solve_ne := first [assumption | apply not_eq_sym; assumption].

(** Projections of an explicit world. *)
Ltac wproj :=
  cbn [put_ps put_heap put_next put_objs put_maps put_ctx put_ibdev put_mdev put_pd
       put_cq put_qp put_mr put_trace
       w_ps w_heap w_next w_objs w_maps w_ctx w_ibdev w_mdev w_pd w_cq w_qp w_mr w_trace
       cell_get cell_put cell_ctx cell_ibdev cell_mdev cell_pd cell_cq cell_qp cell_mr].

(** The buffer at a live block, through a chain of updates. *)
Ltac solve_live :=
  wproj;
  repeat first
    [ rewrite live_buf_upd_eq
    | rewrite live_buf_insert_eq
    | rewrite live_buf_upd_ne by solve_ne ];
  first [ eassumption
        | reflexivity
        | match goal with H : live_buf _ _ = Some _ |- _ => rewrite H; reflexivity end ].

Ltac solve_len := simpl; autorewrite with vf; simpl; first [lia | done].

(** The record found at a pointer, through a chain of updates of its store. *)
Ltac solve_cell :=
  wproj; rewrite ?lookup_insert_eq; first [eassumption | reflexivity].

(** Open a world, so that its components are variables. *)
Ltac open_world w :=
  destruct w as [ps hp nx objs maps ctxs ibdevs mdevs pds cqs qps mrs tr]; simpl in *.

(** The current world in constructor form. *)
Ltac wnorm :=
  cbv beta zeta;
  lazymatch goal with
  | |- @wp ?p ?A ?m ?Q ?w =>
      let w' := eval cbv beta iota delta
        [put_ps put_heap put_next put_objs put_maps put_ctx put_ibdev put_mdev put_pd
         put_cq put_qp put_mr put_trace
         w_ps w_heap w_next w_objs w_maps w_ctx w_ibdev w_mdev w_pd w_cq w_qp w_mr w_trace
         cell_get cell_put cell_ctx cell_ibdev cell_mdev cell_pd cell_cq cell_qp cell_mr] in w in
      change (@wp p A m Q w')
  | |- _ => wproj
  end.

(** The new part of a trace: [tr' = ?t ++ tr]. *)
Ltac solve_suffix :=
  lazymatch goal with
  | |- ?x :: _ = _ => apply suffix_cons; solve_suffix
  | |- ?a ++ _ = _ => apply suffix_app; solve_suffix
  | |- _ => apply suffix_nil
  end.

(** The shape of the heap after stores. *)
Ltac solve_shape := wproj; rewrite ?heap_shape_upd by done; try done.

(** A live block and its record, through a chain of updates and insertions. *)
Ltac solve_blk :=
  wproj; rewrite ?upd_buf_insert; rewrite ?lookup_insert_eq;
  first [eassumption | reflexivity].

(** One step of symbolic execution, on one path. *)
Ltac wp_prim :=
  lazymatch goal with
  | |- wp (mbind _ _) _ _ => apply wp_bind
  | |- wp (mret _) _ _ => apply wp_ret
  | |- wp (deref _) _ _ => eapply wp_deref; [solve_cell|]
  | |- wp (assign _ _) _ _ => eapply wp_assign; [solve_cell|]
  | |- wp (modify _ _) _ _ => eapply wp_modify; [solve_cell|]
  | |- wp (IOLog _ _) _ _ => apply wp_log
  | |- wp OSSynchronizeIO _ _ => apply wp_barrier
  | |- wp (IOSleep _) _ _ => apply wp_sleep
  | |- wp (emit _) _ _ => apply wp_emit
  | |- wp (mem_store _ _ _) _ _ => eapply wp_mem_store; [solve_live|solve_len|solve_len|]
  | |- wp (mem_fill _ _ _ _) _ _ =>
      eapply wp_mem_fill; [solve_live|solve_len|solve_len|solve_len|]
  | |- wp (arr_store _ _ _) _ _ => apply wp_arr_store; [solve_len|solve_len|]
  | |- wp (arr_load _ _ _) _ _ => apply wp_arr_load; [solve_len|solve_len|]
  | |- wp (md_getBytesNoCopy _) _ _ => eapply wp_md_bytes; [solve_live|]
  | |- wp (md_release _) _ _ => eapply wp_md_release; [solve_blk|solve_len|]
  | |- wp (md_getPhysicalAddress _) _ _ => eapply wp_md_phys; [solve_blk|solve_len|]
  | |- wp (obj_release _) _ _ => eapply wp_obj_release; [solve_cell|solve_len|]
  | |- wp (IODMACommand_setMemoryDescriptor _ _) _ _ =>
      let s := fresh "s" in let r := fresh "ret" in apply wp_dma_set; intros s r
  | |- wp (IODMACommand_gen64IOVMSegments _ _) _ _ =>
      let s := fresh "s" in let r := fresh "ret" in
      let n := fresh "segs" in let a := fresh "addr" in apply wp_dma_gen; intros s r n a
  | |- wp (mwhen true _) _ _ => unfold mwhen
  | |- wp (mwhen false _) _ _ => unfold mwhen
  | |- wp (if true then ?m else _) ?Q ?w => change (wp m Q w)
  | |- wp (if false then _ else ?m) ?Q ?w => change (wp m Q w)
  end; wnorm.

Ltac wp_step :=
  lazymatch goal with
  | |- wp (if ?b then _ else _) _ _ => destruct b eqn:?; wnorm
  | |- _ => wp_prim
  end.

(** As many steps as there are without a case distinction. *)
Ltac wp_steps := repeat wp_prim.
