(* ===== verification/Cmd.v ===== *)
(** * The command channel: [mlx5_cmd_exec] ([mlx5_cmd.cpp], [mlx5_cmd.h])

    A command is a 4 KB input mailbox, a 4 KB output mailbox and a 64-byte
    ring entry that names them.  [mlx5_cmd_exec] fills them, gives the entry
    to the hardware (owner bit), rings the doorbell, polls the entry for at
    most [MLX5_CMD_TIMEOUT_MS] milliseconds and reads the response.  The code
    is one function; here its four stages are [cmd_take_token], [cmd_submit],
    [cmd_poll] and [cmd_finish], composed by [mlx5_cmd_exec]. *)

From S2P Require Import Prelude Bytes Registers IbVerbs World Wp.

(** ** Layout of a ring entry *)

(** [struct mlx5_cmd_prot_block], packed: field names and sizes. *)
Definition mlx5_cmd_prot_block : list (string * Z) :=
  [("status", 1); ("reserved0", 1); ("reserved1", 2); ("in_ptr", 8);
   ("in_len", 4); ("out_ptr", 8); ("out_len", 4); ("token", 4);
   ("signature", 1); ("reserved2", 7); ("reserved3", 24)]%string.

(** Offset of a field of a packed struct, and the size of the struct. *)
Fixpoint packed_offset (fields : list (string * Z)) (name : string) : Z :=
  match fields with
  | [] => 0
  | (n, sz) :: rest => if String.eqb n name then 0 else sz + packed_offset rest name
  end.
Definition packed_size (fields : list (string * Z)) : Z := foldr (fun f s => f.2 + s) 0 fields.

Definition off_status : Z := Eval vm_compute in packed_offset mlx5_cmd_prot_block "status".
Definition off_in_ptr : Z := Eval vm_compute in packed_offset mlx5_cmd_prot_block "in_ptr".
Definition off_in_len : Z := Eval vm_compute in packed_offset mlx5_cmd_prot_block "in_len".
Definition off_out_ptr : Z := Eval vm_compute in packed_offset mlx5_cmd_prot_block "out_ptr".
Definition off_out_len : Z := Eval vm_compute in packed_offset mlx5_cmd_prot_block "out_len".
Definition off_token : Z := Eval vm_compute in packed_offset mlx5_cmd_prot_block "token".
Definition off_signature : Z := Eval vm_compute in packed_offset mlx5_cmd_prot_block "signature".

Section Cmd.
Context `{P : Platform}.

(** ** Typed accesses *)

Definition ld8 (p : ptr) (o : Z) : M Z := l ← mem_load p o 1; mret (le_combine l).
Definition ld32 (p : ptr) (o : Z) : M Z := l ← mem_load p o 4; mret (le_combine l).
Definition st8 (p : ptr) (o v : Z) : M unit := mem_store p o (le_split 1 v).
Definition st16 (p : ptr) (o v : Z) : M unit := mem_store p o (le_split 2 v).
Definition st32 (p : ptr) (o v : Z) : M unit := mem_store p o (le_split 4 v).
Definition st64 (p : ptr) (o v : Z) : M unit := mem_store p o (le_split 8 v).

(** ** Init segment registers *)

Definition iseg_read32 (iseg offset : Z) : M Z :=
  v ← mmio_read32 (iseg + offset); mret (OSSwapInt32 v).

Definition iseg_write32 (iseg offset val : Z) : M unit :=
  mmio_write32 (iseg + offset) (OSSwapInt32 val).

Definition iseg_write64 (iseg offset val : Z) : M unit :=
  iseg_write32 iseg offset (u32 (Z.land val 0xFFFFFFFF)) ;;
  iseg_write32 iseg (offset + 4) (u32 (Z.shiftr val 32)).

(** ** [mlx5_cmd_exec] *)

(** [token = ++ctx->next_token], skipping 0. *)
Definition next_tok (t : Z) : Z :=
  let t1 := u8 (t + 1) in if t1 =? 0 then u8 (t1 + 1) else t1.

Definition cmd_take_token (ctx : ptr) : M Z :=
  c ← deref ctx;
  let token := u8 (next_token c + 1) in
  modify ctx (set_next_token token) ;;
  if token =? 0 then
    c ← deref ctx;
    let token := u8 (next_token c + 1) in
    modify ctx (set_next_token token) ;;
    mret token
  else mret token.

(** Length of the input that is copied: clamped to the mailbox. *)
Definition in_copy_len (in_len : Z) : Z :=
  if MLX5_CMD_MAILBOX_SIZE - 16 <? in_len then MLX5_CMD_MAILBOX_SIZE - 16 else in_len.

Definition out_copy_len (out_len : Z) : Z :=
  if MLX5_CMD_MAILBOX_SIZE - 8 <? out_len then MLX5_CMD_MAILBOX_SIZE - 8 else out_len.

(** Offsets of the entry and of the two mailboxes of a ring slot. *)
Definition slot_entry (c : mlx5_cmd_context) (slot : Z) : Z := u32 (slot * entry_stride c).
Definition slot_in_mbox (slot : Z) : Z := u32 (u32 (slot * 2) * MLX5_CMD_MAILBOX_SIZE).
Definition slot_out_mbox (slot : Z) : Z := u32 (u32 (slot * 2 + 1) * MLX5_CMD_MAILBOX_SIZE).

(** Clear the mailboxes, write the header and the data, fill the ring entry,
    hand it to the hardware and ring the doorbell. *)
Definition cmd_submit (c : mlx5_cmd_context) (slot token opcode op_mod : Z)
    (in_data : option (buf * Z)) (in_len out_len : Z) : M unit :=
  let ring := cmd_ring c in
  let entry := slot_entry c slot in
  let pool := mbox_pool c in
  let in_mbox := slot_in_mbox slot in
  let out_mbox := slot_out_mbox slot in
  let in_dma := u64 (mbox_dma_base c + in_mbox) in
  let out_dma := u64 (mbox_dma_base c + out_mbox) in
  mem_fill pool in_mbox MLX5_CMD_MAILBOX_SIZE 0 ;;
  mem_fill pool out_mbox MLX5_CMD_MAILBOX_SIZE 0 ;;
  st16 pool (in_mbox + MLX5_MBOX_OPCODE_OFF) (OSSwapInt16 opcode) ;;
  st16 pool (in_mbox + MLX5_MBOX_UID_OFF) (OSSwapInt16 MLX5_CMD_UID_DRIVER) ;;
  st16 pool (in_mbox + MLX5_MBOX_OP_MOD_OFF) (OSSwapInt16 op_mod) ;;
  match in_data with
  | Some (src, so) =>
      mwhen (0 <? in_len) (mem_copy_in pool (in_mbox + 16) src so (in_copy_len in_len))
  | None => mret tt
  end ;;
  st64 ring (entry + off_in_ptr) (OSSwapInt64 in_dma) ;;
  st32 ring (entry + off_in_len) (OSSwapInt32 MLX5_CMD_MAILBOX_SIZE) ;;
  st64 ring (entry + off_out_ptr) (OSSwapInt64 out_dma) ;;
  st32 ring (entry + off_out_len)
    (OSSwapInt32 (if 0 <? out_len then out_len else MLX5_CMD_MAILBOX_SIZE)) ;;
  st32 ring (entry + off_token) (OSSwapInt32 token) ;;
  st8 ring (entry + off_signature) 0 ;;
  OSSynchronizeIO ;;
  st8 ring (entry + off_status) MLX5_CMD_OWNER_HW ;;
  OSSynchronizeIO ;;
  iseg_write32 (iseg c) MLX5_ISEG_CMD_DOORBELL (u32 (Z.shiftl 1 slot)) ;;
  IOLog "doorbell" [slot].

(** The two fields of the status byte of a ring entry. *)
Definition status_owner (st : Z) : Z := Z.land st 0x1.
Definition status_delivery (st : Z) : Z := Z.land (Z.shiftr st 1) 0x7F.

(** Number of polls: [MLX5_CMD_TIMEOUT_MS / 10]. *)
Definition poll_limit : nat := Z.to_nat (MLX5_CMD_TIMEOUT_MS / 10).

(** Poll until the owner bit flips back; the delivery status then comes from a
    second read of the status byte.  0 if the limit is reached. *)
Fixpoint cmd_poll (n : nat) (ring : ptr) (entry : Z) : M Z :=
  match n with
  | O => mret 0
  | S n' =>
      OSSynchronizeIO ;;
      st ← ld8 ring (entry + off_status);
      if status_owner st =? MLX5_CMD_OWNER_SW then
        st2 ← ld8 ring (entry + off_status);
        mret (status_delivery st2)
      else
        IOSleep 10 ;;
        cmd_poll n' ring entry
  end.

(** What [mlx5_cmd_exec] gives back: its return value, the caller's output
    buffer and the caller's status byte ([None] for a null pointer). *)
Record exec_result := ExecResult {
  er_ret : IOReturn;
  er_out : option buf;
  er_status : option Z
}.

Definition count_failed (c : mlx5_cmd_context) : mlx5_cmd_context :=
  set_failed_commands (u32 (failed_commands c + 1)) c.
Definition count_total (c : mlx5_cmd_context) : mlx5_cmd_context :=
  set_total_commands (u32 (total_commands c + 1)) c.

(** The copy of the response into the caller's buffer. *)
Definition copy_out (pool : ptr) (out_mbox : Z) (out_data : option buf) (out_len : Z)
    : M (option buf) :=
  match out_data with
  | Some out =>
      if 0 <? out_len then
        let n := out_copy_len out_len in
        mb ← mem_get pool (out_mbox + 8) n;
        if in_bounds out 0 n then mret (Some (buf_copy out 0 mb (out_mbox + 8) n))
        else fail OutOfBounds
      else mret out_data
  | None => mret out_data
  end.

(** Read the response of a delivered command. *)
Definition cmd_read_response (ctx : ptr) (c : mlx5_cmd_context) (slot opcode : Z)
    (out_data : option buf) (out_len : Z) (out_status : option Z) : M exec_result :=
  let pool := mbox_pool c in
  let out_mbox := slot_out_mbox slot in
  fw_status ← ld8 pool (out_mbox + MLX5_MBOX_STATUS_OFF);
  syn ← ld32 pool (out_mbox + MLX5_MBOX_SYNDROME_OFF);
  let fw_syndrome := OSSwapInt32 syn in
  let out_status := (fun _ => fw_status) <$> out_status in
  if negb (fw_status =? MLX5_CMD_STAT_OK) then
    IOLog "ERROR: command fw_status syndrome" [opcode; fw_status; fw_syndrome] ;;
    modify ctx count_failed ;;
    mret (ExecResult kIOReturnError out_data out_status)
  else
    out ← copy_out pool out_mbox out_data out_len;
    IOLog "command succeeded" [opcode] ;;
    mret (ExecResult kIOReturnSuccess out out_status).

(** After polling: timeout, delivery error, or the response. *)
Definition cmd_finish (ctx : ptr) (c : mlx5_cmd_context) (slot opcode delivery_status : Z)
    (out_data : option buf) (out_len : Z) (out_status : option Z) : M exec_result :=
  st ← ld8 (cmd_ring c) (slot_entry c slot + off_status);
  if negb (status_owner st =? MLX5_CMD_OWNER_SW) then
    IOLog "ERROR: command timed out" [opcode] ;;
    modify ctx count_failed ;;
    mret (ExecResult kIOReturnTimeout out_data out_status)
  else
    modify ctx count_total ;;
    if negb (delivery_status =? MLX5_CMD_DELIVERY_STAT_OK) then
      IOLog "ERROR: command delivery status" [opcode; delivery_status] ;;
      modify ctx count_failed ;;
      mret (ExecResult kIOReturnError out_data out_status)
    else cmd_read_response ctx c slot opcode out_data out_len out_status.

Definition mlx5_cmd_exec (ctx : ptr) (opcode op_mod : Z) (in_data : option (buf * Z))
    (in_len : Z) (out_data : option buf) (out_len : Z) (out_status : option Z)
    : M exec_result :=
  let out_status := (fun _ => 0xFF) <$> out_status in
  let slot := 0 in
  token ← cmd_take_token ctx;
  IOLog "cmd_exec" [opcode; op_mod; slot; token] ;;
  c ← deref ctx;
  cmd_submit c slot token opcode op_mod in_data in_len out_len ;;
  delivery_status ← cmd_poll poll_limit (cmd_ring c) (slot_entry c slot);
  cmd_finish ctx c slot opcode delivery_status out_data out_len out_status.

End Cmd.
