(* ===== verification/CmdSpec.v ===== *)
(** * What [mlx5_cmd_exec] promises

    Safety (no fault, heap shape kept), the exact bytes the firmware reads at
    the doorbell, the order of publication, the timeout bound, the counters,
    and, for a firmware that respects the owner bit, the refinement of the
    pure completion function [completion]. *)

From S2P Require Import Prelude Bytes Registers IbVerbs World Wp Cmd.

(** Arithmetic on field offsets. *)
Ltac offs :=
  unfold off_status, off_in_ptr, off_in_len, off_out_ptr, off_out_len, off_token,
    off_signature, MLX5_MBOX_OPCODE_OFF, MLX5_MBOX_UID_OFF, MLX5_MBOX_OP_MOD_OFF,
    MLX5_MBOX_STATUS_OFF, MLX5_MBOX_SYNDROME_OFF, MLX5_CMD_ENTRY_SIZE,
    MLX5_CMD_MAILBOX_SIZE in *;
  autorewrite with vf; simpl; lia.

Section CmdSpec.
Context `{P : Platform}.

(** ** Rules for the typed accesses *)

Lemma u32_bswap x : u32 (OSSwapInt32 x) = OSSwapInt32 x.
Proof. apply u32_small. apply (bswap_range 4). Qed.

Lemma wp_iseg_write32 s o v Q w :
  mmio_mapped (w_maps w) (s + o) 4 = true ->
  Q tt (put_trace (EvMmioWrite (s + o) (OSSwapInt32 v) :: w_trace w)
         (put_ps (p_mmio_write (w_ps w) (w_heap w) (s + o) (OSSwapInt32 v)) w)) ->
  wp (iseg_write32 s o v) Q w.
Proof.
  intros Hm HQ. unfold iseg_write32, mmio_write32. rewrite u32_bswap.
  by apply wp_mmio_write.
Qed.

Lemma wp_ld8 p o b Q w :
  live_buf (w_heap w) p = Some b -> 0 <= o -> o + 1 <= buf_size b ->
  (forall b', live_buf (w_heap (device_run w)) p = Some b' -> buf_size b' = buf_size b ->
     Q (buf_get b' o) (device_run w)) ->
  wp (ld8 p o) Q w.
Proof.
  intros Hb ?? HQ. apply wp_bind. eapply wp_mem_load; [done..|simpl; lia|].
  intros b' ??. apply wp_ret. replace (le_combine _) with (buf_get b' o); [by apply HQ|].
  unfold buf_bytes; simpl. rewrite !Z.add_0_r. done.
Qed.

Lemma wp_ld32 p o b Q w :
  live_buf (w_heap w) p = Some b -> 0 <= o -> o + 4 <= buf_size b ->
  (forall b', live_buf (w_heap (device_run w)) p = Some b' -> buf_size b' = buf_size b ->
     Q (le_combine (buf_bytes b' o 4)) (device_run w)) ->
  wp (ld32 p o) Q w.
Proof.
  intros Hb ?? HQ. apply wp_bind. eapply wp_mem_load; [done..|simpl; lia|].
  intros b' ??. apply wp_ret. by apply HQ.
Qed.

(** ** A context that can run commands *)

Record cmd_ready (ctx : ptr) (c : mlx5_cmd_context) (w : world) : Prop := {
  cr_ctx : w_ctx w !! ctx = Some c;
  cr_ring : exists r, live_buf (w_heap w) (cmd_ring c) = Some r /\ MLX5_CMD_ENTRY_SIZE <= buf_size r;
  cr_mbox : exists m, live_buf (w_heap w) (mbox_pool c) = Some m /\
              2 * MLX5_CMD_MAILBOX_SIZE <= buf_size m;
  cr_ne : cmd_ring c <> mbox_pool c;
  cr_mmio : mmio_mapped (w_maps w) (iseg c + MLX5_ISEG_CMD_DOORBELL) 4 = true
}.

(** A block with one reference. *)
Definition owned (w : world) (p : ptr) : Prop :=
  p <> NULL /\ exists b, w_heap w !! p = Some b /\ blk_refs b = 1.

(** The caller's buffers are large enough for what is copied. *)
Definition input_ok (in_data : option (buf * Z)) (in_len : Z) : Prop :=
  match in_data with
  | Some (src, so) => 0 < in_len -> in_bounds src so (in_copy_len in_len) = true
  | None => True
  end.

Definition output_ok (out_data : option buf) (out_len : Z) : Prop :=
  match out_data with
  | Some out => 0 < out_len -> out_copy_len out_len <= buf_size out
  | None => True
  end.

(** ** The firmware's view of a submitted command *)

(** Bytes of input data in a mailbox. *)
Definition mbox_data : nat := Z.to_nat (MLX5_CMD_MAILBOX_SIZE - 16).

Lemma mbox_data_Z : Z.of_nat mbox_data = 4080.
Proof. done. Qed.

Record descriptor := Descriptor {
  d_owner : Z; d_in_ptr : Z; d_in_len : Z; d_out_ptr : Z; d_out_len : Z; d_token : Z;
  d_opcode : Z; d_uid : Z; d_op_mod : Z; d_input : list Z
}.

(** Big-endian decoding of ring entry 0 and of its input mailbox. *)
Definition fw_decode (ring mb : buf) : descriptor :=
  Descriptor (status_owner (buf_get ring off_status))
    (be_at ring off_in_ptr 8) (be_at ring off_in_len 4)
    (be_at ring off_out_ptr 8) (be_at ring off_out_len 4) (be_at ring off_token 4)
    (be_at mb MLX5_MBOX_OPCODE_OFF 2) (be_at mb MLX5_MBOX_UID_OFF 2)
    (be_at mb MLX5_MBOX_OP_MOD_OFF 2) (buf_bytes mb 16 mbox_data).

(** The 4080 input bytes of a command: the caller's data, then zeros. *)
Definition cmd_input (in_data : option (buf * Z)) (in_len : Z) : list Z :=
  match in_data with
  | Some (src, so) =>
      if 0 <? in_len then
        let n := Z.to_nat (in_copy_len in_len) in
        buf_bytes src so n ++ repeat 0 (mbox_data - n)
      else repeat 0 mbox_data
  | None => repeat 0 mbox_data
  end.

Definition expected (c : mlx5_cmd_context) (token opcode op_mod : Z)
    (in_data : option (buf * Z)) (in_len out_len : Z) : descriptor :=
  Descriptor MLX5_CMD_OWNER_HW
    (u64 (mbox_dma_base c)) MLX5_CMD_MAILBOX_SIZE
    (u64 (mbox_dma_base c + MLX5_CMD_MAILBOX_SIZE))
    (if 0 <? out_len then u32 out_len else MLX5_CMD_MAILBOX_SIZE)
    (u32 token) (u16 opcode) MLX5_CMD_UID_DRIVER (u16 op_mod)
    (cmd_input in_data in_len).

Lemma in_copy_len_range n : 0 <= n -> 0 <= in_copy_len n <= 4080.
Proof. intros. unfold in_copy_len, MLX5_CMD_MAILBOX_SIZE. destruct (Z.ltb_spec (4096 - 16) n); lia. Qed.

Lemma out_copy_len_range n : 0 <= n -> 0 <= out_copy_len n <= 4088.
Proof. intros. unfold out_copy_len, MLX5_CMD_MAILBOX_SIZE. destruct (Z.ltb_spec (4096 - 8) n); lia. Qed.

Lemma slot0_entry c : slot_entry c 0 = 0.
Proof. done. Qed.
Lemma slot0_in : slot_in_mbox 0 = 0.
Proof. done. Qed.
Lemma slot0_out : slot_out_mbox 0 = 4096.
Proof. done. Qed.

(** The stores of a submission, as functions on the two blocks. *)
Definition ring_filled (c : mlx5_cmd_context) (token out_len : Z) (r : buf) : buf :=
  buf_store (buf_store (buf_store (buf_store (buf_store (buf_store (buf_store r
    off_in_ptr (be_split 8 (u64 (mbox_dma_base c))))
    off_in_len (be_split 4 MLX5_CMD_MAILBOX_SIZE))
    off_out_ptr (be_split 8 (u64 (mbox_dma_base c + MLX5_CMD_MAILBOX_SIZE))))
    off_out_len (be_split 4 (if 0 <? out_len then out_len else MLX5_CMD_MAILBOX_SIZE)))
    off_token (be_split 4 token))
    off_signature (le_split 1 0))
    off_status (le_split 1 MLX5_CMD_OWNER_HW).

Definition mbox_header (opcode op_mod : Z) (m : buf) : buf :=
  buf_store (buf_store (buf_store
    (buf_fill (buf_fill m 0 4096 0) 4096 4096 0)
    MLX5_MBOX_OPCODE_OFF (be_split 2 opcode))
    MLX5_MBOX_UID_OFF (be_split 2 MLX5_CMD_UID_DRIVER))
    MLX5_MBOX_OP_MOD_OFF (be_split 2 op_mod).

Definition mbox_filled (opcode op_mod : Z) (in_data : option (buf * Z)) (in_len : Z)
    (m : buf) : buf :=
  match in_data with
  | Some (src, so) =>
      if 0 <? in_len then buf_copy (mbox_header opcode op_mod m) 16 src so (in_copy_len in_len)
      else mbox_header opcode op_mod m
  | None => mbox_header opcode op_mod m
  end.

Lemma size_mbox_header opcode op_mod m : buf_size (mbox_header opcode op_mod m) = buf_size m.
Proof. done. Qed.

Lemma mbox_filled_header opcode op_mod in_data in_len m o n :
  0 <= in_len -> o + Z.of_nat n <= 16 \/ 4096 <= o ->
  buf_bytes (mbox_filled opcode op_mod in_data in_len m) o n =
  buf_bytes (mbox_header opcode op_mod m) o n.
Proof.
  intros Hlen Ho. unfold mbox_filled. destruct in_data as [[src so]|]; [|done].
  destruct (0 <? in_len); [|done]. pose proof (in_copy_len_range in_len Hlen).
  apply buf_bytes_copy_out. lia.
Qed.

Lemma mbox_header_input opcode op_mod m o n :
  16 <= o -> o + Z.of_nat n <= 8192 ->
  buf_bytes (mbox_header opcode op_mod m) o n = repeat 0 n.
Proof.
  intros. unfold mbox_header.
  rewrite !buf_bytes_store_out by offs.
  apply (list_eq_nth 0); rewrite length_buf_bytes; [by rewrite repeat_length|].
  intros i Hi. rewrite nth_buf_bytes, nth_repeat_lt by done.
  destruct (decide (o + Z.of_nat i < 4096)).
  - rewrite buf_get_fill_out, buf_get_fill_in by lia. done.
  - rewrite buf_get_fill_in by lia. done.
Qed.

Lemma mbox_filled_input opcode op_mod in_data in_len m :
  0 <= in_len ->
  buf_bytes (mbox_filled opcode op_mod in_data in_len m) 16 mbox_data = cmd_input in_data in_len.
Proof.
  intros Hlen. unfold mbox_filled, cmd_input. pose proof mbox_data_Z.
  destruct in_data as [[src so]|]; [|apply mbox_header_input; lia].
  destruct (0 <? in_len); [|apply mbox_header_input; lia].
  pose proof (in_copy_len_range in_len Hlen) as Hr. set (n := in_copy_len in_len) in *.
  replace mbox_data with (Z.to_nat n + (mbox_data - Z.to_nat n))%nat at 1 by lia.
  rewrite buf_bytes_app. f_equal.
  - rewrite buf_bytes_copy_in by lia. f_equal. lia.
  - rewrite buf_bytes_copy_out by lia. apply mbox_header_input; lia.
Qed.

Lemma descriptor_ext (d e : descriptor) :
  d_owner d = d_owner e -> d_in_ptr d = d_in_ptr e -> d_in_len d = d_in_len e ->
  d_out_ptr d = d_out_ptr e -> d_out_len d = d_out_len e -> d_token d = d_token e ->
  d_opcode d = d_opcode e -> d_uid d = d_uid e -> d_op_mod d = d_op_mod e ->
  d_input d = d_input e -> d = e.
Proof. destruct d, e; simpl; intros; by subst. Qed.

(** The decoding of what was stored is the command. *)
Lemma decode_filled c token opcode op_mod in_data in_len out_len r m :
  0 <= in_len ->
  fw_decode (ring_filled c token out_len r) (mbox_filled opcode op_mod in_data in_len m) =
  expected c token opcode op_mod in_data in_len out_len.
Proof.
  intros Hlen. apply descriptor_ext; unfold fw_decode, expected; simpl.
  - unfold ring_filled. by rewrite buf_get_store_in by (apply le_split_bytes || offs).
  - unfold ring_filled. do 6 rewrite be_at_store_out by offs.
    rewrite be_at_store_same. apply u64_small, u64_range.
  - unfold ring_filled. do 5 rewrite be_at_store_out by offs.
    by rewrite be_at_store_same.
  - unfold ring_filled. do 4 rewrite be_at_store_out by offs.
    rewrite be_at_store_same. apply u64_small, u64_range.
  - unfold ring_filled. do 3 rewrite be_at_store_out by offs.
    rewrite be_at_store_same. by destruct (0 <? out_len).
  - unfold ring_filled. do 2 rewrite be_at_store_out by offs.
    by rewrite be_at_store_same.
  - unfold be_at. rewrite mbox_filled_header by offs. unfold mbox_header.
    fold (be_at (buf_store (buf_store (buf_store
      (buf_fill (buf_fill m 0 4096 0) 4096 4096 0) MLX5_MBOX_OPCODE_OFF (be_split 2 opcode))
      MLX5_MBOX_UID_OFF (be_split 2 MLX5_CMD_UID_DRIVER))
      MLX5_MBOX_OP_MOD_OFF (be_split 2 op_mod)) MLX5_MBOX_OPCODE_OFF 2).
    do 2 rewrite be_at_store_out by offs.
    by rewrite be_at_store_same.
  - unfold be_at. rewrite mbox_filled_header by offs. done.
  - unfold be_at. rewrite mbox_filled_header by offs. 
    exact (be_at_store_same _ _ 2 op_mod).
  - by apply mbox_filled_input.
Qed.

(** ** Submission *)

(** A store that does not touch the status byte of ring entry 0. *)
Definition fill_store (ring : ptr) (e : event) : Prop :=
  exists id o bs, e = EvStore id o bs /\ (id = ring -> off_status < o).

(** The events of a submission, newest first: everything is stored, then a
    barrier, then the owner bit, then a barrier, then the doorbell. *)
Definition published (c : mlx5_cmd_context) (t : list event) : Prop :=
  exists fills,
    t = EvLog "doorbell" [0]
        :: EvMmioWrite (iseg c + MLX5_ISEG_CMD_DOORBELL) (OSSwapInt32 1)
        :: EvBarrier :: EvStore (cmd_ring c) off_status [MLX5_CMD_OWNER_HW] :: EvBarrier :: fills /\
    Forall (fill_store (cmd_ring c)) fills.

Ltac solve_fills :=
  lazymatch goal with
  | |- Forall _ [] => constructor
  | |- Forall _ (_ :: _) =>
      constructor;
      [eexists _, _, _; split; [reflexivity|];
       first [reflexivity | 
        let He := fresh in intros He;
        match goal with H : _ <> _ |- _ => destruct (H (eq_sym He)) end]|solve_fills]
  | |- Forall _ (_ ++ _) => apply Forall_app; split; [assumption|solve_fills]
  end.

(** The conditional copy of the input. *)
Lemma copy_input_spec c opcode op_mod in_data in_len m Q w :
  0 <= in_len -> input_ok in_data in_len -> 8192 <= buf_size m ->
  live_buf (w_heap w) (mbox_pool c) = Some (mbox_header opcode op_mod m) ->
  cmd_ring c <> mbox_pool c ->
  (forall f t, f (mbox_header opcode op_mod m) = mbox_filled opcode op_mod in_data in_len m ->
     (forall b, buf_size (f b) = buf_size b) -> Forall (fill_store (cmd_ring c)) t ->
     Q tt (put_trace (t ++ w_trace w) (put_heap (upd_buf (mbox_pool c) f (w_heap w)) w))) ->
  wp (match in_data with
      | Some (src, so) =>
          mwhen (0 <? in_len) (mem_copy_in (mbox_pool c) 16 src so (in_copy_len in_len))
      | None => mret tt
      end) Q w.
Proof.
  intros Hlen Hin Hm Hl Hne HQ.
  assert (Hskip : mbox_filled opcode op_mod in_data in_len m = mbox_header opcode op_mod m ->
    Q tt w).
  { intros He. specialize (HQ (fun b => b) []). rewrite He in HQ.
    replace w with (put_trace ([] ++ w_trace w)
      (put_heap (upd_buf (mbox_pool c) (fun b => b) (w_heap w)) w)); [by apply HQ|].
    rewrite upd_buf_id. by destruct w. }
  destruct in_data as [[src so]|]; [|by apply Hskip].
  unfold mwhen. unfold mbox_filled in *. destruct (Z.ltb_spec 0 in_len); [|by apply Hskip].
  pose proof (in_copy_len_range in_len Hlen).
  eapply wp_mem_copy_in; [by apply Hin|done|lia|lia|rewrite size_mbox_header; lia|].
  apply (HQ _ [_]); [done|done|]. repeat constructor. eexists _, _, _. split; [done|congruence].
Qed.

Lemma submit_spec ctx c w token opcode op_mod in_data in_len out_len :
  cmd_ready ctx c w -> 0 <= in_len -> input_ok in_data in_len ->
  wp (cmd_submit c 0 token opcode op_mod in_data in_len out_len)
    (fun _ w' => exists t,
       io_frame t w w' /\ published c t /\
       live_buf (w_heap w') (cmd_ring c) =
         ring_filled c token out_len <$> live_buf (w_heap w) (cmd_ring c) /\
       live_buf (w_heap w') (mbox_pool c) =
         mbox_filled opcode op_mod in_data in_len <$> live_buf (w_heap w) (mbox_pool c) /\
       (forall id, id <> cmd_ring c -> id <> mbox_pool c -> w_heap w' !! id = w_heap w !! id) /\
       (exists h, w_ps w' = p_mmio_write (w_ps w) h (iseg c + MLX5_ISEG_CMD_DOORBELL)
                              (OSSwapInt32 1))) w.
Proof.
  intros [_ (r & Hr & Hrs) (m & Hm & Hms) Hne Hmmio] Hlen Hin.
  unfold MLX5_CMD_ENTRY_SIZE, MLX5_CMD_MAILBOX_SIZE in *. open_world w.
  unfold cmd_submit. rewrite slot0_in, slot0_out, slot0_entry.
  unfold st8, st16, st32, st64, off_status, off_in_ptr, off_in_len, off_out_ptr,
    off_out_len, off_token, off_signature, MLX5_MBOX_OPCODE_OFF, MLX5_MBOX_UID_OFF,
    MLX5_MBOX_OP_MOD_OFF, MLX5_CMD_MAILBOX_SIZE in *.
  cbv zeta. rewrite (Z.add_0_r (mbox_dma_base c)), ?le_split_swap16, ?le_split_swap32, ?le_split_swap64.
  do 11 wp_step.
  apply (copy_input_spec c opcode op_mod in_data in_len m); [done|done|done|solve_live|done|]. intros f tc Hf Hfs Htc.
  do 19 wp_step. apply wp_iseg_write32; [done|]. wnorm. wp_step.
  eexists. split; [|split; [|split; [|split; [|split]]]].
  - apply io_frame_intro; [reflexivity|wproj; solve_suffix|]. wproj. by rewrite !heap_shape_upd by done.
  - eexists. split; [reflexivity|]. solve_fills.
  - wproj. rewrite Hr. solve_live.
  - wproj. rewrite Hm. simpl fmap. rewrite <- Hf. solve_live.
  - intros id H1 H2. wproj. by rewrite !upd_buf_ne by solve_ne.
  - eexists. reflexivity.
Qed.

(** ** The token *)

Lemma next_tok_range t : 0 < next_tok t < 256.
Proof.
  unfold next_tok. destruct (Z.eqb_spec (u8 (t + 1)) 0) as [->|H]; [done|].
  pose proof (u8_range (t + 1)). lia.
Qed.

Lemma token_spec ctx c Q w :
  w_ctx w !! ctx = Some c ->
  Q (next_tok (next_token c))
    (put_ctx (<[ctx := set_next_token (next_tok (next_token c)) c]> (w_ctx w)) w) ->
  wp (cmd_take_token ctx) Q w.
Proof.
  intros Hc. open_world w. unfold next_tok. intros HQ.
  unfold cmd_take_token. do 4 wp_step.
  destruct (u8 (next_token c + 1) =? 0) eqn:E; [|by wp_step].
  do 4 wp_step. wp_step. rewrite insert_insert_eq. apply Z.eqb_eq in E.
  cbn [next_token set_next_token] in *. by rewrite E in *.
Qed.

(** ** Frames of a command *)

(** Only the counters of the command context change, besides what
    input/output changes. *)
Definition cmd_frame (ctx : ptr) (c c' : mlx5_cmd_context) (t : list event)
    (w w' : world) : Prop :=
  w_ctx w !! ctx = Some c /\ heap_shape (w_heap w') = heap_shape (w_heap w) /\
  exists s h,
    w' = put_trace (t ++ w_trace w)
           (put_ctx (<[ctx := c']> (w_ctx w)) (put_heap h (put_ps s w))).

Lemma cmd_frame_trans ctx c1 c2 c3 t1 t2 w1 w2 w3 :
  cmd_frame ctx c1 c2 t1 w1 w2 -> cmd_frame ctx c2 c3 t2 w2 w3 ->
  cmd_frame ctx c1 c3 (t2 ++ t1) w1 w3.
Proof.
  intros (Hc1 & Hs1 & s1 & h1 & ->) (Hc2 & Hs2 & s2 & h2 & ->).
  split; [done|]. split; [congruence|]. exists s2, h2. open_world w1.
  rewrite insert_insert_eq. unfold put_trace; simpl. by rewrite app_assoc.
Qed.

Lemma cmd_frame_io ctx c t w w' :
  w_ctx w !! ctx = Some c -> io_frame t w w' -> cmd_frame ctx c c t w w'.
Proof.
  intros Hc (s & h & -> & Hs). split; [done|]. split; [done|]. exists s, h.
  by rewrite insert_id.
Qed.

Lemma cmd_frame_ctx ctx c c' t w w' : cmd_frame ctx c c' t w w' -> w_ctx w' !! ctx = Some c'.
Proof. intros (_ & _ & s & h & ->). apply lookup_insert_eq. Qed.

Lemma cmd_frame_put ctx c c' w :
  w_ctx w !! ctx = Some c -> cmd_frame ctx c c' [] w (put_ctx (<[ctx := c']> (w_ctx w)) w).
Proof. intros Hc. split; [done|]. split; [done|]. exists (w_ps w), (w_heap w). by destruct w. Qed.

Lemma cmd_frame_emit ctx c e w :
  w_ctx w !! ctx = Some c -> cmd_frame ctx c c [e] w (put_trace (e :: w_trace w) w).
Proof. intros. apply cmd_frame_io; [done|apply io_frame_emit]. Qed.

Lemma cmd_frame_run ctx c w :
  w_ctx w !! ctx = Some c -> cmd_frame ctx c c [] w (device_run w).
Proof. intros. apply cmd_frame_io; [done|apply io_frame_device_run]. Qed.

(** ** Properties of memory that the device respects *)

Definition stable (I : heap -> Prop) : Prop :=
  forall s h, I h -> I (apply_dmas h (p_run s h).2).

Lemma stable_device_run I w : stable I -> I (w_heap w) -> I (w_heap (device_run w)).
Proof. intros HI H. apply (HI (w_ps w) (w_heap w) H). Qed.

(** Contents of the command memory. *)
Definition holds_cmd (ring mbox : ptr) (r m : buf) (h : heap) : Prop :=
  live_buf h ring = Some r /\ live_buf h mbox = Some m.

(** The owner bit: the device leaves the ring entry and the mailboxes alone
    while software owns the entry. *)
Definition owner_protocol (ring mbox : ptr) : Prop :=
  forall r m, status_owner (buf_get r off_status) = MLX5_CMD_OWNER_SW ->
    stable (holds_cmd ring mbox r m).

(** Total time slept in a piece of trace. *)
Fixpoint slept (t : list event) : Z :=
  match t with
  | [] => 0
  | EvSleep ms :: t' => ms + slept t'
  | _ :: t' => slept t'
  end.

Lemma slept_app t1 t2 : slept (t1 ++ t2) = slept t1 + slept t2.
Proof. induction t1 as [|[] t1 IH]; simpl; lia. Qed.

(** ** Polling *)

Lemma status_delivery_range st : 0 <= status_delivery st < 128.
Proof.
  unfold status_delivery. rewrite (land_mask_mod _ 7) by (done || lia).
  apply Z.mod_pos_bound. lia.
Qed.

(** What the poll loop knows when it has seen the entry owned by software. *)
Definition poll_seen (ring mbox : ptr) (d : Z) (w : world) : Prop :=
  0 <= d < 128 /\
  (owner_protocol ring mbox ->
   exists r, live_buf (w_heap w) ring = Some r /\
     status_owner (buf_get r off_status) = MLX5_CMD_OWNER_SW /\
     d = status_delivery (buf_get r off_status)).

Lemma poll_spec I mbox n ring r m w :
  stable I -> I (w_heap w) ->
  live_buf (w_heap w) ring = Some r -> MLX5_CMD_ENTRY_SIZE <= buf_size r ->
  live_buf (w_heap w) mbox = Some m ->
  wp (cmd_poll n ring 0)
    (fun d w' => exists t, io_frame t w w' /\ I (w_heap w') /\
       (d = 0 /\ slept t = 10 * Z.of_nat n \/
        slept t < 10 * Z.of_nat n /\ poll_seen ring mbox d w')) w.
Proof.
  intros HI. revert r m w; induction n as [|n IH]; intros r m w Hw Hr Hrs Hm; simpl cmd_poll.
  { apply wp_ret. exists []. split; [apply io_frame_refl|]. split; [done|]. left. done. }
  unfold MLX5_CMD_ENTRY_SIZE in *. apply wp_bind, wp_barrier, wp_bind.
  eapply wp_ld8; [done|offs..|]. intros r1 Hr1 Hs1. set (w1 := device_run _) in *.
  assert (HI1 : I (w_heap w1)) by (by apply (stable_device_run I _ HI)).
  destruct (status_owner (buf_get r1 (0 + off_status)) =? MLX5_CMD_OWNER_SW) eqn:Eo.
  - apply Z.eqb_eq in Eo. apply wp_bind.
    destruct (live_buf_device_run (put_trace (EvBarrier :: w_trace w) w) mbox m Hm) as (m1 & Hm1 & _).
    fold w1 in Hm1.
    eapply wp_ld8; [done|offs..|]. intros r2 Hr2 Hs2. apply wp_ret.
    exists [EvBarrier]. split.
    { eapply (io_frame_emit_l EvBarrier []). eapply io_frame_device_run_l, io_frame_device_run. }
    split; [by apply (stable_device_run I _ HI)|]. right. split; [simpl; lia|].
    split; [apply status_delivery_range|]. intros Hp. exists r2. split; [done|].
    destruct (stable_device_run _ w1 (Hp r1 m1 Eo) (conj Hr1 Hm1)) as [Hr2' _].
    rewrite Hr2' in Hr2. by simplify_eq.
  - apply wp_bind, wp_sleep.
    destruct (live_buf_device_run (put_trace (EvSleep 10 :: w_trace w1) w1) ring r1 Hr1) as (r2 & Hr2 & Hs2).
    destruct (live_buf_device_run (put_trace (EvBarrier :: w_trace w) w) mbox m Hm) as (m1 & Hm1 & _).
    fold w1 in Hm1.
    destruct (live_buf_device_run (put_trace (EvSleep 10 :: w_trace w1) w1) mbox m1 Hm1) as (m2 & Hm2 & _).
    eapply wp_mono; [eapply IH; [|done|lia|done]|].
    { by apply (stable_device_run I _ HI). }
    intros d w' (t & Ht & HIw & Hd). exists ((t ++ [EvSleep 10]) ++ [EvBarrier]). split.
    { apply (io_frame_trans [EvBarrier] (t ++ [EvSleep 10]) _ w1).
      - apply io_frame_emit_l with (t := []), io_frame_device_run.
      - by apply io_frame_emit_l, io_frame_device_run_l. }
    split; [done|]. rewrite !slept_app. simpl slept.
    destruct Hd as [[-> Hs]|[Hs Hd]]; [left|right]; (split; [done || lia|]); [lia|done].
Qed.

Lemma cmd_frame_refl ctx c w : w_ctx w !! ctx = Some c -> cmd_frame ctx c c [] w w.
Proof. intros. apply cmd_frame_io; [done|apply io_frame_refl]. Qed.

Lemma cmd_frame_emit_r ctx c c' t e w w' :
  cmd_frame ctx c c' t w w' -> cmd_frame ctx c c' (e :: t) w (put_trace (e :: w_trace w') w').
Proof.
  intros F. apply (cmd_frame_trans _ _ _ _ _ [e] _ _ _ F).
  eapply cmd_frame_emit, cmd_frame_ctx, F.
Qed.

Lemma cmd_frame_run_r ctx c c' t w w' :
  cmd_frame ctx c c' t w w' -> cmd_frame ctx c c' t w (device_run w').
Proof.
  intros F. apply (cmd_frame_trans _ _ _ _ _ [] _ _ _ F).
  eapply cmd_frame_run, cmd_frame_ctx, F.
Qed.

Lemma cmd_frame_put_r ctx c c1 c2 t w w' :
  cmd_frame ctx c c1 t w w' ->
  cmd_frame ctx c c2 t w (put_ctx (<[ctx := c2]> (w_ctx w')) w').
Proof.
  intros F. apply (cmd_frame_trans _ _ _ _ _ [] _ _ _ F).
  eapply cmd_frame_put, cmd_frame_ctx, F.
Qed.

(** ** Completion *)

(** The counters after a command. *)
Definition account (r : IOReturn) (c : mlx5_cmd_context) : mlx5_cmd_context :=
  match r with
  | kIOReturnSuccess => count_total c
  | kIOReturnTimeout => count_failed c
  | _ => count_failed (count_total c)
  end.

(** The caller's buffer after the response bytes are copied. *)
Definition copied (mb : buf) (out : option buf) (out_len : Z) : option buf :=
  match out with
  | Some o =>
      if 0 <? out_len then Some (buf_copy o 0 mb (4096 + 8) (out_copy_len out_len)) else out
  | None => out
  end.

(** What a command returns, as a function of the delivery status the poll
    returned, the final status byte and the final mailboxes. *)
Definition completion (d st : Z) (mb : buf) (out : option buf) (out_len : Z)
    (status : option Z) : exec_result :=
  if negb (status_owner st =? MLX5_CMD_OWNER_SW) then ExecResult kIOReturnTimeout out status
  else if negb (d =? MLX5_CMD_DELIVERY_STAT_OK) then ExecResult kIOReturnError out status
  else
    let fw := buf_get mb (4096 + MLX5_MBOX_STATUS_OFF) in
    if negb (fw =? MLX5_CMD_STAT_OK)
    then ExecResult kIOReturnError out ((fun _ => fw) <$> status)
    else ExecResult kIOReturnSuccess (copied mb out out_len) ((fun _ => fw) <$> status).

(** What can be said whatever the device does: the mailbox contents that were
    read were there at some point of the run. *)
Definition result_facts (I : heap -> Prop) (mbox : ptr) (d : Z) (out : option buf) (out_len : Z)
    (status : option Z) (res : exec_result) : Prop :=
  match er_ret res with
  | kIOReturnSuccess =>
      d = 0 /\ er_status res = (fun _ => 0) <$> status /\
      exists h mb, I h /\ live_buf h mbox = Some mb /\ er_out res = copied mb out out_len
  | kIOReturnError =>
      er_out res = out /\
      (d <> 0 /\ er_status res = status \/
       d = 0 /\ exists fw, 0 < fw < 256 /\ er_status res = (fun _ => fw) <$> status)
  | kIOReturnTimeout => er_out res = out /\ er_status res = status
  | _ => False
  end.

(** The post-condition of the stages after the poll, for a delivery status
    [d] and the entry's status byte [st]. *)
Definition finish_post (I : heap -> Prop) (ctx : ptr) (c c0 : mlx5_cmd_context) (d : Z)
    (out : option buf) (out_len : Z) (status : option Z) (w : world)
    (res : exec_result) (w' : world) : Prop :=
  (exists t, cmd_frame ctx c (account (er_ret res) c0) t w w' /\ slept t = 0) /\
  I (w_heap w') /\ result_facts I (mbox_pool c0) d out out_len status res /\
  (owner_protocol (cmd_ring c0) (mbox_pool c0) ->
   exists r m, live_buf (w_heap w') (cmd_ring c0) = Some r /\
     live_buf (w_heap w') (mbox_pool c0) = Some m /\
     res = completion d (buf_get r off_status) m out out_len status).

Lemma copy_out_spec I mbox m out out_len Q w :
  stable I -> I (w_heap w) -> live_buf (w_heap w) mbox = Some m ->
  2 * MLX5_CMD_MAILBOX_SIZE <= buf_size m -> output_ok out out_len ->
  (forall w' m', w' = w \/ w' = device_run w -> I (w_heap w') ->
     live_buf (w_heap w') mbox = Some m' -> Q (copied m' out out_len) w') ->
  wp (copy_out mbox 4096 out out_len) Q w.
Proof.
  intros HI Hw Hm Hs Ho HQ. unfold MLX5_CMD_MAILBOX_SIZE in *. unfold copy_out, copied in *.
  destruct out as [o|]; [|apply wp_ret; by apply (HQ w m); auto].
  destruct (Z.ltb_spec 0 out_len) as [Hl|Hl]; [|apply wp_ret; by apply (HQ w m); auto].
  pose proof (out_copy_len_range out_len). apply wp_bind.
  eapply wp_mem_get; [done|lia..|]. intros m' Hm' Hs'.
  rewrite (proj2 (in_bounds_spec o 0 _)) by (specialize (Ho Hl); lia).
  apply wp_ret. apply (HQ (device_run w) m'); [auto|by apply stable_device_run|done].
Qed.

Lemma response_spec I ctx c opcode out out_len status r m w :
  stable I -> I (w_heap w) -> w_ctx w !! ctx = Some (count_total c) ->
  live_buf (w_heap w) (cmd_ring c) = Some r ->
  status_owner (buf_get r off_status) = MLX5_CMD_OWNER_SW ->
  live_buf (w_heap w) (mbox_pool c) = Some m -> 2 * MLX5_CMD_MAILBOX_SIZE <= buf_size m ->
  output_ok out out_len ->
  wp (cmd_read_response ctx c 0 opcode out out_len status)
    (finish_post I ctx (count_total c) c 0 out out_len status w) w.
Proof.
  intros HI Hw Hc Hr Ho Hm Hms Hout. unfold cmd_read_response. rewrite slot0_out. cbv zeta.
  unfold MLX5_CMD_MAILBOX_SIZE in *.
  apply wp_bind. eapply wp_ld8; [done|offs..|]. intros m1 Hm1 Hs1.
  apply wp_bind. eapply wp_ld32; [done|offs..|]. intros m2 Hm2 Hs2.
  pose proof (cmd_frame_run_r _ _ _ _ _ _ (cmd_frame_run_r _ _ _ _ _ _ (cmd_frame_refl _ _ _ Hc))) as F.
  pose proof (stable_device_run I _ HI (stable_device_run I _ HI Hw)) as Hw2.
  assert (Hp : owner_protocol (cmd_ring c) (mbox_pool c) ->
    m1 = m /\ m2 = m /\ live_buf (w_heap (device_run (device_run w))) (cmd_ring c) = Some r).
  { intros Hp. pose proof (stable_device_run _ w (Hp r m Ho) (conj Hr Hm)) as H1.
    pose proof (stable_device_run _ _ (Hp r m Ho) H1) as [H2r H2m].
    destruct H1 as [_ H1m]. rewrite H1m in Hm1. rewrite H2m in Hm2. by simplify_eq. }
  set (w2 := device_run (device_run w)) in *. clearbody w2.
  set (fw := buf_get m1 _) in *.
  destruct (negb (fw =? MLX5_CMD_STAT_OK)) eqn:Ef.
  - apply wp_bind, wp_log, wp_bind.
    eapply wp_modify; [exact (cmd_frame_ctx _ _ _ _ _ _ F)|]. apply wp_ret.
    split; [|split; [done|split]].
    + eexists; split; [apply cmd_frame_put_r with (c1 := count_total c), cmd_frame_emit_r, F|done].
    + split; [done|]. right. split; [done|]. exists fw. split; [|done].
      pose proof (buf_get_byte m1 (4096 + MLX5_MBOX_STATUS_OFF)) as Hb. unfold is_byte in Hb.
      fold fw in Hb. destruct (Z.eqb_spec fw MLX5_CMD_STAT_OK); [done|].
      unfold MLX5_CMD_STAT_OK in *. lia.
    + intros (-> & -> & Hr2)%Hp. exists r, m. split; [done|]. split; [done|].
      unfold completion. rewrite Ho. cbv zeta. fold fw. by rewrite Ef.
  - apply wp_bind. eapply (copy_out_spec I); [done|done|done|offs|done|].
    intros w3 m3 Hw3 HI3 Hm3. apply wp_bind, wp_log, wp_ret.
    split; [|split; [done|split]].
    + eexists; split; [apply cmd_frame_emit_r|]; [|shelve].
      destruct Hw3 as [->| ->]; [apply F|apply cmd_frame_run_r, F].
    + apply negb_false_iff, Z.eqb_eq in Ef.
      split; [done|]. split; [by rewrite Ef|]. eauto.
    + intros Hpr. destruct (Hp Hpr) as (-> & -> & Hr2). exists r, m.
      assert (H3 : holds_cmd (cmd_ring c) (mbox_pool c) r m (w_heap w3)).
      { destruct Hw3 as [->| ->]; [done|]. apply (stable_device_run _ _ (Hpr r m Ho)). done. }
      destruct H3 as [H3r H3m]. rewrite H3m in Hm3. injection Hm3 as <-.
      split; [done|]. split; [done|]. unfold completion. rewrite Ho. cbv zeta. fold fw. by rewrite Ef.
  Unshelve. done.
Qed.

Lemma finish_spec I ctx c opcode d out out_len status r m w :
  stable I -> I (w_heap w) -> w_ctx w !! ctx = Some c ->
  live_buf (w_heap w) (cmd_ring c) = Some r -> MLX5_CMD_ENTRY_SIZE <= buf_size r ->
  live_buf (w_heap w) (mbox_pool c) = Some m -> 2 * MLX5_CMD_MAILBOX_SIZE <= buf_size m ->
  output_ok out out_len ->
  wp (cmd_finish ctx c 0 opcode d out out_len status)
    (finish_post I ctx c c d out out_len status w) w.
Proof.
  intros HI Hw Hc Hr Hrs Hm Hms Ho. unfold cmd_finish. rewrite slot0_entry.
  cbv zeta. apply wp_bind. unfold MLX5_CMD_ENTRY_SIZE in *.
  eapply wp_ld8; [done|offs..|]. intros r1 Hr1 _.
  destruct (live_buf_device_run w _ m Hm) as (m1 & Hm1 & Hs1).
  pose proof (cmd_frame_run_r _ _ _ _ _ _ (cmd_frame_refl _ _ _ Hc)) as F1.
  pose proof (stable_device_run I _ HI Hw) as Hw1.
  set (w1 := device_run w) in *. clearbody w1. change (0 + off_status) with off_status.
  destruct (negb (status_owner (buf_get r1 off_status) =? MLX5_CMD_OWNER_SW)) eqn:Eo.
  { apply wp_bind, wp_log, wp_bind.
    eapply wp_modify; [exact (cmd_frame_ctx _ _ _ _ _ _ F1)|]. apply wp_ret.
    split; [|split; [done|split; [done|]]].
    - eexists; split; [apply cmd_frame_put_r with (c1 := c), cmd_frame_emit_r, F1|done].
    - intros _. exists r1, m1. split; [done|]. split; [done|].
      unfold completion. by rewrite Eo. }
  apply wp_bind. eapply wp_modify; [exact (cmd_frame_ctx _ _ _ _ _ _ F1)|].
  cbn [cell_get cell_put cell_ctx].
  pose proof (cmd_frame_put_r _ _ _ (count_total c) _ _ _ F1) as F2.
  set (w2 := put_ctx _ w1) in *. change (w_heap w1) with (w_heap w2) in *. clearbody w2.
  destruct (negb (d =? MLX5_CMD_DELIVERY_STAT_OK)) eqn:Ed.
  { apply wp_bind, wp_log, wp_bind.
    eapply wp_modify; [exact (cmd_frame_ctx _ _ _ _ _ _ F2)|]. apply wp_ret.
    split; [|split; [done|split]].
    - eexists; split; [apply cmd_frame_put_r with (c1 := count_total c), cmd_frame_emit_r, F2|done].
    - split; [done|]. left. split; [|done]. intros ->. done.
    - intros _. exists r1, m1. split; [done|]. split; [done|].
      unfold completion. by rewrite Eo, Ed. }
  apply negb_false_iff, Z.eqb_eq in Eo, Ed. unfold MLX5_CMD_DELIVERY_STAT_OK in Ed. subst d.
  pose proof (cmd_frame_ctx _ _ _ _ _ _ F2) as Hc2.
  eapply wp_mono; [by apply (response_spec I ctx c opcode out out_len status r1 m1); try lia|].
  intros res w' ((t & F & Ht) & H). split; [|done].
  exists (t ++ []). split; [by eapply cmd_frame_trans|]. by rewrite app_nil_r.
Qed.

(** ** The whole command *)

(** Memory right after a submission, relative to memory before it. *)
Definition after_submit (c : mlx5_cmd_context) (token opcode op_mod : Z)
    (in_data : option (buf * Z)) (in_len out_len : Z) (h0 h : heap) : Prop :=
  live_buf h (cmd_ring c) = ring_filled c token out_len <$> live_buf h0 (cmd_ring c) /\
  live_buf h (mbox_pool c) =
    mbox_filled opcode op_mod in_data in_len <$> live_buf h0 (mbox_pool c) /\
  (forall id, id <> cmd_ring c -> id <> mbox_pool c -> h !! id = h0 !! id).

(** Time limit of a command, in milliseconds. *)
Lemma poll_limit_ms : 10 * Z.of_nat poll_limit = MLX5_CMD_TIMEOUT_MS.
Proof. done. Qed.

Definition exec_post (I : heap -> Prop) (ctx : ptr) (c : mlx5_cmd_context)
    (out : option buf) (out_len : Z) (status : option Z) (w : world)
    (res : exec_result) (w' : world) : Prop :=
  exists t d,
    cmd_frame ctx c
      (account (er_ret res) (set_next_token (next_tok (next_token c)) c)) t w w' /\
    I (w_heap w') /\
    (d = 0 /\ slept t = MLX5_CMD_TIMEOUT_MS \/ 0 <= d < 128 /\ slept t < MLX5_CMD_TIMEOUT_MS) /\
    result_facts I (mbox_pool c) d out out_len ((fun _ => 0xFF) <$> status) res /\
    (owner_protocol (cmd_ring c) (mbox_pool c) ->
     exists r m, live_buf (w_heap w') (cmd_ring c) = Some r /\
       live_buf (w_heap w') (mbox_pool c) = Some m /\
       res = completion d (buf_get r off_status) m out out_len ((fun _ => 0xFF) <$> status) /\
       (slept t < MLX5_CMD_TIMEOUT_MS ->
          status_owner (buf_get r off_status) = MLX5_CMD_OWNER_SW /\
          d = status_delivery (buf_get r off_status))).

Lemma result_facts_mono (I J : heap -> Prop) mbox d out out_len status res :
  (forall h, I h -> J h) ->
  result_facts I mbox d out out_len status res -> result_facts J mbox d out out_len status res.
Proof.
  intros HIJ. unfold result_facts. destruct (er_ret res); try done.
  intros (? & ? & h & mb & ? & ?). split; [done|]. split; [done|]. exists h, mb. split; [by apply HIJ|done].
Qed.

Lemma published_slept c t : published c t -> slept t = 0.
Proof.
  intros (fills & -> & Hf). simpl. induction Hf as [|e l (id & o & n & -> & _) _ IH]; [done|].
  by simpl.
Qed.

(** A context stays usable. *)
Lemma cmd_ready_same ctx c c' t w w' :
  cmd_ready ctx c w -> cmd_frame ctx c c' t w w' ->
  cmd_ring c' = cmd_ring c -> mbox_pool c' = mbox_pool c -> iseg c' = iseg c ->
  cmd_ready ctx c' w'.
Proof.
  intros [Hc (b & Hb & Hbs) (m & Hm & Hms) Hne Hmm] F Er Em Ei.
  pose proof (cmd_frame_ctx _ _ _ _ _ _ F) as Hc'.
  destruct F as (_ & Hs & s & h & ->). simpl in Hs. symmetry in Hs.
  destruct (heap_shape_live _ _ _ _ Hs Hb) as (b' & Hb' & Hbs').
  destruct (heap_shape_live _ _ _ _ Hs Hm) as (m' & Hm' & Hms').
  split; rewrite ?Er, ?Em, ?Ei; [done| | |done|done]; simpl; eauto with lia.
Qed.

Lemma cmd_ready_frame ctx c r t w w' :
  cmd_ready ctx c w ->
  cmd_frame ctx c (account r (set_next_token (next_tok (next_token c)) c)) t w w' ->
  cmd_ready ctx (account r (set_next_token (next_tok (next_token c)) c)) w'.
Proof. intros Hr F. eapply cmd_ready_same; [exact Hr|exact F|by destruct r..]. Qed.

(** Poll, then finish. *)
Lemma poll_finish_spec I ctx c opcode out out_len status r m w :
  stable I -> I (w_heap w) -> w_ctx w !! ctx = Some c ->
  live_buf (w_heap w) (cmd_ring c) = Some r -> MLX5_CMD_ENTRY_SIZE <= buf_size r ->
  live_buf (w_heap w) (mbox_pool c) = Some m -> 2 * MLX5_CMD_MAILBOX_SIZE <= buf_size m ->
  output_ok out out_len ->
  wp (d ← cmd_poll poll_limit (cmd_ring c) 0; cmd_finish ctx c 0 opcode d out out_len status)
    (fun res w' => exists t d,
      cmd_frame ctx c (account (er_ret res) c) t w w' /\ I (w_heap w') /\
      (d = 0 /\ slept t = MLX5_CMD_TIMEOUT_MS \/ 0 <= d < 128 /\ slept t < MLX5_CMD_TIMEOUT_MS) /\
      result_facts I (mbox_pool c) d out out_len status res /\
      (owner_protocol (cmd_ring c) (mbox_pool c) ->
       exists r m, live_buf (w_heap w') (cmd_ring c) = Some r /\
         live_buf (w_heap w') (mbox_pool c) = Some m /\
         res = completion d (buf_get r off_status) m out out_len status /\
         (slept t < MLX5_CMD_TIMEOUT_MS ->
          status_owner (buf_get r off_status) = MLX5_CMD_OWNER_SW /\
          d = status_delivery (buf_get r off_status)))) w.
Proof.
  intros HI Hw Hc Hr Hrs Hm Hms Ho. apply wp_bind.
  eapply wp_mono; [by apply (poll_spec I (mbox_pool c) poll_limit (cmd_ring c) r m)|].
  intros d w1 (t1 & F1 & Hw1 & Hd). rewrite poll_limit_ms in Hd.
  destruct (io_frame_live _ _ _ _ _ F1 Hr) as (r1 & Hr1 & Hrs1).
  destruct (io_frame_live _ _ _ _ _ F1 Hm) as (m1 & Hm1 & Hms1).
  apply (cmd_frame_io ctx c) in F1; [|done].
  pose proof (cmd_frame_ctx _ _ _ _ _ _ F1) as Hc1.
  set (J := fun h => I h /\ (owner_protocol (cmd_ring c) (mbox_pool c) ->
    status_owner (buf_get r1 off_status) = MLX5_CMD_OWNER_SW ->
    holds_cmd (cmd_ring c) (mbox_pool c) r1 m1 h)).
  eapply wp_mono; [apply (finish_spec J ctx c opcode d out out_len status r1 m1); try done; try lia|].
  { intros s h [Hh Hp]. split; [by apply HI|]. intros Hpr Hs. apply (Hpr r1 m1 Hs s h). auto. }
  intros res w2 ((t2 & F2 & Ht2) & [Hw2 Hh2] & Hf & Hres).
  exists (t2 ++ t1), d. rewrite slept_app, Ht2, Z.add_0_l.
  split; [by eapply cmd_frame_trans|]. split; [done|].
  split; [unfold poll_seen in Hd; tauto|].
  split; [eapply result_facts_mono, Hf; by intros h [? _]|].
  intros Hp. destruct (Hres Hp) as (r2 & m2 & Hr2 & Hm2 & ->).
  exists r2, m2. do 3 (split; [done|]). intros Hlt.
  destruct Hd as [[_ Hs]|(_ & _ & Hseen)]; [lia|].
  destruct (Hseen Hp) as (r' & Hr' & Hsw & ->). rewrite Hr' in Hr1. injection Hr1 as ->.
  destruct (Hh2 Hp Hsw) as [Hr2' _]. rewrite Hr2' in Hr2. by injection Hr2 as ->.
Qed.

(** The part of a call up to the doorbell; it gives the context as the call
    read it. *)
Definition exec_begin (ctx : ptr) (opcode op_mod : Z) (in_data : option (buf * Z))
    (in_len out_len : Z) : M mlx5_cmd_context :=
  token ← cmd_take_token ctx;
  IOLog "cmd_exec" [opcode; op_mod; 0; token] ;;
  c ← deref ctx;
  cmd_submit c 0 token opcode op_mod in_data in_len out_len ;;
  mret c.

(** The part from the first poll on. *)
Definition exec_end (ctx : ptr) (opcode : Z) (out : option buf) (out_len : Z)
    (status : option Z) (c : mlx5_cmd_context) : M exec_result :=
  d ← cmd_poll poll_limit (cmd_ring c) (slot_entry c 0);
  cmd_finish ctx c 0 opcode d out out_len ((fun _ => 0xFF) <$> status).

Lemma exec_split ctx opcode op_mod in_data in_len out out_len status w :
  mlx5_cmd_exec ctx opcode op_mod in_data in_len out out_len status w =
  (c ← exec_begin ctx opcode op_mod in_data in_len out_len;
   exec_end ctx opcode out out_len status c) w.
Proof.
  unfold mlx5_cmd_exec, exec_begin, exec_end, mbind, M_bind, mret, M_ret. cbv zeta.
  by repeat case_match; simplify_eq.
Qed.

Lemma begin_spec ctx c w opcode op_mod in_data in_len out_len :
  cmd_ready ctx c w -> 0 <= in_len -> input_ok in_data in_len ->
  wp (exec_begin ctx opcode op_mod in_data in_len out_len)
    (fun c1 w' => c1 = set_next_token (next_tok (next_token c)) c /\ exists t,
     cmd_frame ctx c c1 t w w' /\ slept t = 0 /\
     after_submit c (next_tok (next_token c)) opcode op_mod in_data in_len out_len
       (w_heap w) (w_heap w') /\
     (exists h, w_ps w' = p_mmio_write (w_ps w) h (iseg c + MLX5_ISEG_CMD_DOORBELL)
                            (OSSwapInt32 1))) w.
Proof.
  intros Hready Hlen Hin. unfold exec_begin.
  pose proof (cr_ctx _ _ _ Hready) as Hc. set (tok := next_tok (next_token c)) in *.
  set (c1 := set_next_token tok c) in *.
  apply wp_bind, (token_spec _ c); [done|]. fold tok. fold c1.
  pose proof (cmd_frame_put ctx c c1 w Hc) as F0. set (w0 := put_ctx _ w) in *.
  apply wp_bind, wp_log.
  apply cmd_frame_emit_r with (e := EvLog "cmd_exec" [opcode; op_mod; 0; tok]) in F0.
  set (w1 := put_trace _ w0) in *.
  apply wp_bind. eapply wp_deref; [exact (cmd_frame_ctx _ _ _ _ _ _ F0)|].
  assert (Hready1 : cmd_ready ctx c1 w1) by (by eapply cmd_ready_same).
  apply wp_bind. eapply wp_mono; [by apply (submit_spec ctx c1)|].
  intros _ w2 (t2 & F2 & Hp2 & H1 & H2 & H3 & H4). apply wp_ret. split; [done|].
  apply (cmd_frame_io ctx c1) in F2; [|apply Hready1].
  eexists. split; [exact (cmd_frame_trans _ _ _ _ _ _ _ _ _ F0 F2)|].
  rewrite !slept_app, (published_slept _ _ Hp2). by repeat (split; [done|]).
Qed.

(** Everything up to the doorbell: it remains to poll and to finish. *)
Lemma exec_reduce ctx c w opcode op_mod in_data in_len out out_len status Q :
  cmd_ready ctx c w -> 0 <= in_len -> input_ok in_data in_len ->
  (forall t w', let c1 := set_next_token (next_tok (next_token c)) c in
     cmd_frame ctx c c1 t w w' -> slept t = 0 ->
     after_submit c (next_tok (next_token c)) opcode op_mod in_data in_len out_len
       (w_heap w) (w_heap w') ->
     (exists h, w_ps w' = p_mmio_write (w_ps w) h (iseg c + MLX5_ISEG_CMD_DOORBELL)
                            (OSSwapInt32 1)) ->
     wp (d ← cmd_poll poll_limit (cmd_ring c) 0;
         cmd_finish ctx c1 0 opcode d out out_len ((fun _ => 0xFF) <$> status)) Q w') ->
  wp (mlx5_cmd_exec ctx opcode op_mod in_data in_len out out_len status) Q w.
Proof.
  intros Hready Hlen Hin HQ. unfold wp. rewrite exec_split. apply wp_bind.
  eapply wp_mono; [by apply (begin_spec ctx c)|].
  intros ? w' (-> & t & F & Ht & Hs & Hps). by apply (HQ t w').
Qed.

Lemma after_submit_live ctx c c1 tok opcode op_mod in_data in_len out_len t w w' :
  cmd_ready ctx c w -> cmd_frame ctx c c1 t w w' ->
  after_submit c tok opcode op_mod in_data in_len out_len (w_heap w) (w_heap w') ->
  exists r m, live_buf (w_heap w') (cmd_ring c) = Some r /\ MLX5_CMD_ENTRY_SIZE <= buf_size r /\
    live_buf (w_heap w') (mbox_pool c) = Some m /\ 2 * MLX5_CMD_MAILBOX_SIZE <= buf_size m.
Proof.
  intros [_ (r & Hr & Hrs) (m & Hm & Hms) _ _] (_ & Hs & _) _. symmetry in Hs.
  destruct (heap_shape_live _ _ _ _ Hs Hr) as (r' & Hr' & Hrs').
  destruct (heap_shape_live _ _ _ _ Hs Hm) as (m' & Hm' & Hms').
  exists r', m'. rewrite Hrs', Hms'. done.
Qed.

Lemma after_submit_owner ctx c w tok opcode op_mod in_data in_len out_len h r :
  cmd_ready ctx c w ->
  after_submit c tok opcode op_mod in_data in_len out_len (w_heap w) h ->
  live_buf h (cmd_ring c) = Some r ->
  status_owner (buf_get r off_status) = MLX5_CMD_OWNER_HW.
Proof.
  intros [_ (r0 & Hr0 & _) _ _ _] (Hs & _) Hr. rewrite Hr, Hr0 in Hs. injection Hs as ->.
  unfold ring_filled. by rewrite buf_get_store_in by (apply le_split_bytes || offs).
Qed.

Lemma after_submit_status ctx c w tok opcode op_mod in_data in_len out_len h m :
  cmd_ready ctx c w -> 0 <= in_len ->
  after_submit c tok opcode op_mod in_data in_len out_len (w_heap w) h ->
  live_buf h (mbox_pool c) = Some m -> buf_get m 4096 = 0.
Proof.
  intros [_ _ (m0 & Hm0 & _) _ _] Hlen (_ & Hs & _) Hm. rewrite Hm, Hm0 in Hs. injection Hs as ->.
  assert (H : buf_bytes (mbox_filled opcode op_mod in_data in_len m0) 4096 1 = [0]).
  { rewrite mbox_filled_header by lia. apply mbox_header_input; simpl; lia. }
  by injection H.
Qed.

Lemma exec_wp I ctx c w opcode op_mod in_data in_len out out_len status :
  cmd_ready ctx c w -> 0 <= in_len -> input_ok in_data in_len -> output_ok out out_len ->
  stable I ->
  (forall h, after_submit c (next_tok (next_token c)) opcode op_mod in_data in_len out_len
               (w_heap w) h -> I h) ->
  wp (mlx5_cmd_exec ctx opcode op_mod in_data in_len out out_len status)
    (exec_post I ctx c out out_len status w) w.
Proof.
  intros Hready Hlen Hin Hout HI Hsub. apply (exec_reduce ctx c); [done..|].
  intros t w2 c1 F Ht Hs _.
  destruct (after_submit_live _ _ _ _ _ _ _ _ _ _ _ _ Hready F Hs) as (r2 & m2 & ? & ? & ? & ?).
  eapply wp_mono; [apply (poll_finish_spec I ctx c1 opcode out out_len _ r2 m2);
    [done|by apply Hsub|exact (cmd_frame_ctx _ _ _ _ _ _ F)|done..]|].
  intros res w3 (t3 & d & F3 & Hw3 & Hd & Hf & Hp).
  exists (t3 ++ t), d. rewrite slept_app, Ht, Z.add_0_r.
  split; [by eapply cmd_frame_trans|]. by repeat (split; [done|]).
Qed.

(** ** The interface to the verbs *)

(** What a caller of [mlx5_cmd_exec] with an output buffer and a status gets:
    one of three codes, a buffer of the same size, a context that is still
    usable, and nothing else of the world changed; with a firmware that
    respects the owner bit, a successful reply is a copy of the mailbox. *)
Record exec_reply (ctx : ptr) (c : mlx5_cmd_context) (out : buf) (out_len : Z) (w : world)
    (res : exec_result) (o : buf) (w' : world) : Prop := {
  ey_ret : er_ret res = kIOReturnSuccess \/ er_ret res = kIOReturnError \/
           er_ret res = kIOReturnTimeout;
  ey_out : er_out res = Some o;
  ey_size : buf_size o = buf_size out;
  ey_fail : er_ret res <> kIOReturnSuccess -> o = out;
  ey_frame : exists c' t, cmd_frame ctx c c' t w w' /\ cmd_ready ctx c' w';
  ey_copy : er_ret res = kIOReturnSuccess -> 0 < out_len ->
    owner_protocol (cmd_ring c) (mbox_pool c) ->
    exists m, live_buf (w_heap w') (mbox_pool c) = Some m /\
      o = buf_copy out 0 m (4096 + 8) (out_copy_len out_len);
  ey_same : forall c', w_ctx w' !! ctx = Some c' ->
    cmd_ring c' = cmd_ring c /\ mbox_pool c' = mbox_pool c /\
    cmd_ring_md c' = cmd_ring_md c /\ mbox_md c' = mbox_md c
}.

Lemma buf_size_copied mb out out_len :
  exists o, copied mb (Some out) out_len = Some o /\ buf_size o = buf_size out.
Proof. unfold copied. destruct (0 <? out_len); eauto. Qed.

Lemma exec_client ctx c w opcode op_mod in_data in_len out out_len status Q :
  cmd_ready ctx c w -> 0 <= in_len -> input_ok in_data in_len -> output_ok (Some out) out_len ->
  (forall res o w', exec_reply ctx c out out_len w res o w' -> Q res w') ->
  wp (mlx5_cmd_exec ctx opcode op_mod in_data in_len (Some out) out_len status) Q w.
Proof.
  intros Hready Hlen Hin Hout HQ.
  eapply wp_mono; [by apply (exec_wp (fun _ => True))|].
  intros res w' (t & d & F & _ & _ & Hf & Hp).
  assert (Hfr : exists c' t, cmd_frame ctx c c' t w w' /\ cmd_ready ctx c' w').
  { eexists _, t. split; [exact F|]. by eapply cmd_ready_frame. }
  assert (Hsame : forall c', w_ctx w' !! ctx = Some c' ->
    cmd_ring c' = cmd_ring c /\ mbox_pool c' = mbox_pool c /\
    cmd_ring_md c' = cmd_ring_md c /\ mbox_md c' = mbox_md c).
  { intros c'. rewrite (cmd_frame_ctx _ _ _ _ _ _ F). intros [= <-]. by destruct (er_ret res). }
  unfold result_facts in Hf. destruct (er_ret res) eqn:Er; try done.
  - destruct Hf as (Hd & Hs & h & mb & _ & _ & Ho).
    destruct (buf_size_copied mb out out_len) as (o & Ho' & Hos). rewrite Ho' in Ho.
    apply (HQ res o). split; try done; [by left|].
    intros _ Hl Hpr. destruct (Hp Hpr) as (r & m & _ & Hm & Hres & _). exists m. split; [done|].
    revert Ho Er. rewrite Hres. unfold completion, copied. rewrite (proj2 (Z.ltb_lt _ _) Hl).
    destruct (negb _); [done|]. destruct (negb _); [done|]. cbv zeta.
    destruct (negb _); [done|]. simpl. congruence.
  - destruct Hf as (Ho & _). apply (HQ res out).
    split; try done; rewrite Er; by auto.
  - destruct Hf as (Ho & _). apply (HQ res out). split; try done; rewrite Er; by auto.
Qed.

(** The promise of the command channel to its clients, as an interface: any
    function that answers commands with [exec_reply]s. *)
Class CmdService (exec : ptr -> Z -> Z -> option (buf * Z) -> Z -> option buf -> Z ->
    option Z -> M exec_result) : Prop := {
  exec_service : forall ctx c w opcode op_mod in_data in_len out out_len status
      (Q : exec_result -> world -> Prop),
    cmd_ready ctx c w -> 0 <= in_len -> input_ok in_data in_len ->
    output_ok (Some out) out_len ->
    (forall res o w', exec_reply ctx c out out_len w res o w' -> Q res w') ->
    wp (exec ctx opcode op_mod in_data in_len (Some out) out_len status) Q w
}.

#[global] Instance mlx5_cmd_service : CmdService mlx5_cmd_exec.
Proof. split. intros. by eapply exec_client. Qed.

(** A command leaves everything but the channel alone. *)
Lemma cmd_frame_rest ctx c c' t w w' :
  cmd_frame ctx c c' t w w' ->
  w_next w' = w_next w /\ w_objs w' = w_objs w /\ w_maps w' = w_maps w /\
  w_ibdev w' = w_ibdev w /\ w_mdev w' = w_mdev w /\ w_pd w' = w_pd w /\ w_cq w' = w_cq w /\
  w_qp w' = w_qp w /\ w_mr w' = w_mr w /\ heap_shape (w_heap w') = heap_shape (w_heap w).
Proof. intros (_ & Hs & s & h & ->). done. Qed.

End CmdSpec.
