(* ===== verification/Sim.v ===== *)
(** * A simulated platform

    A concrete instance of [Platform], used by the witnesses to run the driver:
    a firmware that answers the commands of ring entry 0 from a script, an
    allocator whose failures are scripted, and registers given by a function.
    The firmware keeps the owner-bit protocol and writes at most [out_len]
    response bytes, so the protocol hypotheses of the theorems can hold. *)

From S2P Require Import Prelude Bytes Registers IbVerbs World.

Record sim := Sim {
  sim_delay : nat;                    (* device steps before an answer *)
  sim_wait : nat;                     (* steps left for the current command *)
  sim_script : list (Z * list Z);     (* final status byte, response bytes *)
  sim_allocs : list bool;             (* outcomes of allocations; then success *)
  sim_malloc : bool;
  sim_dma : list bool;                (* outcomes of withSpecification; then success *)
  sim_dma_set : IOReturn;
  sim_regs : Z -> Z;                  (* registers, as the CPU loads them *)
  sim_config : Z -> Z;                (* PCI configuration space *)
  sim_is_pci : bool
}.

Definition sim_set_script (wait : nat) (l : list (Z * list Z)) (s : sim) : sim :=
  Sim s.(sim_delay) wait l s.(sim_allocs) s.(sim_malloc) s.(sim_dma) s.(sim_dma_set)
    s.(sim_regs) s.(sim_config) s.(sim_is_pci).
Definition sim_set_allocs (l : list bool) (s : sim) : sim :=
  Sim s.(sim_delay) s.(sim_wait) s.(sim_script) l s.(sim_malloc) s.(sim_dma) s.(sim_dma_set)
    s.(sim_regs) s.(sim_config) s.(sim_is_pci).
Definition sim_set_dma (l : list bool) (s : sim) : sim :=
  Sim s.(sim_delay) s.(sim_wait) s.(sim_script) s.(sim_allocs) s.(sim_malloc) l s.(sim_dma_set)
    s.(sim_regs) s.(sim_config) s.(sim_is_pci).

Definition sim_set_regs (f : Z -> Z) (s : sim) : sim :=
  Sim s.(sim_delay) s.(sim_wait) s.(sim_script) s.(sim_allocs) s.(sim_malloc) s.(sim_dma)
    s.(sim_dma_set) f s.(sim_config) s.(sim_is_pci).
Definition sim_set_malloc (b : bool) (s : sim) : sim :=
  Sim s.(sim_delay) s.(sim_wait) s.(sim_script) s.(sim_allocs) b s.(sim_dma)
    s.(sim_dma_set) s.(sim_regs) s.(sim_config) s.(sim_is_pci).
Definition sim_set_config (f : Z -> Z) (s : sim) : sim :=
  Sim s.(sim_delay) s.(sim_wait) s.(sim_script) s.(sim_allocs) s.(sim_malloc) s.(sim_dma)
    s.(sim_dma_set) s.(sim_regs) f s.(sim_is_pci).

(** One step of the firmware: it looks at ring entry 0 of block [ring]; if it
    owns the entry it waits or answers through block [mbox]. *)
Definition sim_run (ring mbox : Z) (s : sim) (h : gmap Z block) : sim * list dma_write :=
  match live_buf h ring with
  | Some r =>
      if Z.land (buf_get r 0) 1 =? 0 then (s, [])
      else match sim_wait s, sim_script s with
           | S k, _ => (sim_set_script k (sim_script s) s, [])
           | O, (st, resp) :: rest =>
               (sim_set_script (sim_delay s) rest s,
                [(mbox, 4096, take (Z.to_nat (be_at r 24 4)) resp); (ring, 0, [st])])
           | O, [] => (s, [])
           end
  | None => (s, [])
  end.

Definition sim_alloc (s : sim) (size : Z) : sim * option (Z * (Z -> Z)) :=
  match sim_allocs s with
  | false :: rest => (sim_set_allocs rest s, None)
  | true :: rest => (sim_set_allocs rest s, Some (0x100000, fun _ => 0xA5))
  | [] => (s, Some (0x100000, fun _ => 0xA5))
  end.

Definition sim_with_spec (s : sim) (size : Z) : sim * bool :=
  match sim_dma s with
  | b :: rest => (sim_set_dma rest s, b)
  | [] => (s, true)
  end.

Definition sim_platform (ring mbox : Z) : Platform := {|
  PS := sim;
  p_run := sim_run ring mbox;
  p_mmio_read := fun s a => (s, sim_regs s a);
  p_mmio_write := fun s _ _ _ => s;
  p_alloc := sim_alloc;
  p_malloc := fun s _ => (s, sim_malloc s);
  p_dma_withSpecification := sim_with_spec;
  p_dma_setMemoryDescriptor := fun s _ => (s, sim_dma_set s);
  p_dma_gen64IOVMSegments := fun s md => (s, (kIOReturnSuccess, 1, 0x200000 + 0x10000 * md));
  p_super_start := fun s => (s, true);
  p_cast_pci := fun s => (s, sim_is_pci s);
  p_config_read := fun s r => (s, sim_config s r);
  p_config_write := fun s _ _ => s;
  p_bar_memory := fun s => (s, Some 0x2000000);
  p_bar_physical := fun s => (s, 0xF0000000);
  p_bar_map := fun s => (s, Some 0x40000000)
|}.

(** A simulator that answers each command of [script] after [delay] steps. *)
Definition sim_fw (delay : nat) (script : list (Z * list Z)) : sim :=
  Sim delay delay script [] true [] kIOReturnSuccess (fun _ => 0) (fun _ => 0) true.

(** A command context at address 100 with its ring in block 1 and its
    mailboxes in block 2, and the BAR mapped by map 3 at 0x40000000. *)
Definition sim_ctx : mlx5_cmd_context :=
  Mk_mlx5_cmd_context 0x40000000 0x2000000 0x40001000 1 1 0x210000 1 64 2 2 0x230000 2 0 0 0.

Definition sim_ib_device (name : string) (ports priv : Z) : ib_device :=
  Mk_ib_device name zero_ib_device_ops 0 (repeat 0 8) 0 0 0 ports NULL (repeat NULL 16) priv.

Definition sim_world_on (ring mbox : Z) (s : sim) : @world (sim_platform ring mbox) :=
  @Mk_world (sim_platform ring mbox) s
    (<[1 := Block (buf_zero 64) 0x100000 1]> (<[2 := Block (buf_zero 8192) 0x100000 1]> ∅))
    10 ∅ (<[3 := IOMap 0x40000000 0x2000000 1]> ∅) (<[100 := sim_ctx]> ∅)
    (<[200 := sim_ib_device "mlx5_0" 1 201]> ∅)
    (<[201 := Mk_mlx5_ib_dev (sim_ib_device "" 0 0)
               100 1024 512 256 128 257 0x1122334455667788]> ∅)
    (<[300 := Mk_ib_pd 200 0 77 0 0]> ∅) (<[400 := Mk_ib_cq 200 0 0 0 0 100]> ∅)
    (<[500 := zero_mlx5_ib_qp]> ∅) ∅ [].

Definition sim_world (s : sim) : @world (sim_platform 1 2) := sim_world_on 1 2 s.
