(* ===== verification/CmdTheorems.v ===== *)
(** * Theorems on the command channel

    The properties of [mlx5_cmd_exec] that the rest of the driver and its
    users rely on, each with a run on the simulated platform. *)

From S2P Require Import Prelude Bytes Registers IbVerbs World Wp Cmd CmdSpec Sim.

(** The simulated context is usable. *)
Lemma sim_ready ring mbox s :
  @cmd_ready (sim_platform ring mbox) 100 sim_ctx (sim_world_on ring mbox s).
Proof.
  split; [done|by eexists|by eexists|done|].
  by apply (mmio_mapped_intro _ 3 (IOMap 0x40000000 0x2000000 1)).
Qed.

(** The simulated firmware keeps the owner-bit protocol. *)
Lemma sim_owner_protocol : @owner_protocol (sim_platform 1 2) 1 2.
Proof.
  intros r m Ho s h [Hr Hm]. simpl. unfold sim_run. rewrite Hr.
  unfold status_owner, off_status, MLX5_CMD_OWNER_SW in Ho. by rewrite Ho.
Qed.

(** ** Tokens *)

(** [n] commands' worth of tokens, in order. *)
Fixpoint issue_tokens `{Platform} (n : nat) (ctx : ptr) : M (list Z) :=
  match n with
  | O => mret []
  | S n' => t ← cmd_take_token ctx; ts ← issue_tokens n' ctx; mret (t :: ts)
  end.

Lemma next_tok_closed t : 0 <= t < 256 -> next_tok t = t mod 255 + 1.
Proof.
  intros Ht. unfold next_tok. destruct (decide (t = 255)) as [->|]; [done|].
  rewrite u8_small by lia. destruct (Z.eqb_spec (t + 1) 0); [lia|].
  rewrite Z.mod_small by lia. done.
Qed.

Lemma next_tok_shift t k :
  0 <= t -> 0 <= k -> ((t mod 255 + 1) + k) mod 255 + 1 = (t + (1 + k)) mod 255 + 1.
Proof.
  intros. f_equal. rewrite <- Z.add_assoc. rewrite Zplus_mod_idemp_l. done.
Qed.

Lemma result_facts_ret (I : gmap Z block -> Prop) mbox d out out_len status res :
  result_facts I mbox d out out_len status res ->
  er_ret res ∈ [kIOReturnSuccess; kIOReturnError; kIOReturnTimeout].
Proof.
  unfold result_facts. rewrite !elem_of_cons. destruct (er_ret res); intros; tauto.
Qed.

(** C2. Whatever the device does, [mlx5_cmd_exec] on a usable context and with
    large enough caller buffers terminates without undefined behaviour; it
    returns success, error or timeout, sleeps at most [MLX5_CMD_TIMEOUT_MS],
    leaves the context usable, and changes nothing but the platform's state,
    DMA memory contents, the trace and the context's counters. *)
Theorem exec_safe `{P : Platform} ctx c w opcode op_mod in_data in_len out out_len status :
  cmd_ready ctx c w -> 0 <= in_len -> input_ok in_data in_len -> output_ok out out_len ->
  wp (mlx5_cmd_exec ctx opcode op_mod in_data in_len out out_len status)
    (fun res w' => exists t c',
       er_ret res ∈ [kIOReturnSuccess; kIOReturnError; kIOReturnTimeout] /\
       cmd_frame ctx c c' t w w' /\ cmd_ready ctx c' w' /\
       slept t <= MLX5_CMD_TIMEOUT_MS) w.
Proof.
  intros Hready Hlen Hin Hout.
  eapply wp_mono; [by apply (exec_wp (fun _ => True))|].
  intros res w' (t & d & F & _ & Hd & Hf & _). eexists t, _.
  split; [by eapply result_facts_ret|].
  split; [exact F|]. split; [|lia].
  by eapply cmd_ready_frame.
Qed.

Lemma exec_safe_witness :
  @wp (sim_platform 1 2) _
    (@mlx5_cmd_exec (sim_platform 1 2) 100 0x104 0 None 0 (Some (buf_zero 64)) 64 (Some 0))
    (fun res w' => exists t c',
       er_ret res ∈ [kIOReturnSuccess; kIOReturnError; kIOReturnTimeout] /\
       cmd_frame 100 sim_ctx c' t (sim_world (sim_fw 2 [(0, [0])])) w' /\
       cmd_ready 100 c' w' /\ slept t <= MLX5_CMD_TIMEOUT_MS)
    (sim_world (sim_fw 2 [(0, [0])])).
Proof.
  apply (@exec_safe (sim_platform 1 2)); [apply sim_ready|lia|done|].
  intros _. vm_compute. congruence.
Defined.

(** C10. Submitting a command puts exactly that command in memory: decoding ring
    entry 0 and its input mailbox as the firmware does (big-endian) gives the
    opcode, the op_mod, uid 0, the caller's data at mailbox offset 16 followed by
    zeros, the two mailbox addresses, the lengths and the token, with the entry
    owned by the hardware; the output mailbox is all zeros. *)
Theorem submit_decodes `{P : Platform} ctx c w token opcode op_mod in_data in_len out_len :
  cmd_ready ctx c w -> 0 <= in_len -> input_ok in_data in_len ->
  wp (cmd_submit c 0 token opcode op_mod in_data in_len out_len)
    (fun _ w' => exists r m,
       live_buf (w_heap w') (cmd_ring c) = Some r /\
       live_buf (w_heap w') (mbox_pool c) = Some m /\
       fw_decode r m = expected c token opcode op_mod in_data in_len out_len /\
       buf_bytes m 4096 (Z.to_nat 4096) = repeat 0 (Z.to_nat 4096)) w.
Proof.
  intros Hready Hlen Hin.
  eapply wp_mono; [by apply (submit_spec ctx c)|].
  destruct Hready as [_ (r & Hr & _) (m & Hm & _) _ _].
  intros _ w' (t & _ & _ & Hr' & Hm' & _). rewrite Hr in Hr'. rewrite Hm in Hm'.
  eexists _, _. split; [exact Hr'|]. split; [exact Hm'|].
  split; [by apply decode_filled|].
  rewrite mbox_filled_header by lia. apply mbox_header_input; lia.
Qed.

Lemma submit_decodes_witness :
  @wp (sim_platform 1 2) _
    (@cmd_submit (sim_platform 1 2) sim_ctx 0 1 0x502 0 (Some (buf_zero 16, 0)) 4 16)
    (fun _ w' => exists r m,
       live_buf (w_heap w') (cmd_ring sim_ctx) = Some r /\
       live_buf (w_heap w') (mbox_pool sim_ctx) = Some m /\
       fw_decode r m = expected sim_ctx 1 0x502 0 (Some (buf_zero 16, 0)) 4 16 /\
       buf_bytes m 4096 (Z.to_nat 4096) = repeat 0 (Z.to_nat 4096))
    (sim_world (sim_fw 0 [])).
Proof. by apply (@submit_decodes (sim_platform 1 2) 100); [apply sim_ready| |]. Defined.

(** Publication order: all stores of a submission other than the status byte
    come first, then a barrier, then the store that gives the entry to the
    hardware, then a barrier, then the single doorbell write, which sets bit 0. *)
Theorem submit_order `{P : Platform} ctx c w token opcode op_mod in_data in_len out_len :
  cmd_ready ctx c w -> 0 <= in_len -> input_ok in_data in_len ->
  wp (cmd_submit c 0 token opcode op_mod in_data in_len out_len)
    (fun _ w' => exists fills,
       w_trace w' = EvLog "doorbell" [0]
         :: EvMmioWrite (iseg c + MLX5_ISEG_CMD_DOORBELL) (OSSwapInt32 1)
         :: EvBarrier :: EvStore (cmd_ring c) off_status [MLX5_CMD_OWNER_HW] :: EvBarrier
         :: fills ++ w_trace w /\
       Forall (fill_store (cmd_ring c)) fills) w.
Proof.
  intros Hready Hlen Hin.
  eapply wp_mono; [by apply (submit_spec ctx c)|].
  intros _ w' (t & Hf & (fills & -> & Hfills) & _). exists fills. split; [|done].
  apply io_frame_trace in Hf. by rewrite Hf.
Qed.

Lemma submit_order_witness :
  @wp (sim_platform 1 2) _
    (@cmd_submit (sim_platform 1 2) sim_ctx 0 7 0x104 0 None 0 64)
    (fun _ w' => exists fills,
       w_trace w' = EvLog "doorbell" [0]
         :: EvMmioWrite (iseg sim_ctx + MLX5_ISEG_CMD_DOORBELL) (OSSwapInt32 1)
         :: EvBarrier :: EvStore (cmd_ring sim_ctx) off_status [MLX5_CMD_OWNER_HW] :: EvBarrier
         :: fills ++ w_trace (sim_world (sim_fw 0 [])) /\
       Forall (fill_store (cmd_ring sim_ctx)) fills)
    (sim_world (sim_fw 0 [])).
Proof. by apply (@submit_order (sim_platform 1 2) 100); [apply sim_ready| |]. Defined.

(** C1. Refinement: with a firmware that respects the owner bit, the result of
    [mlx5_cmd_exec] is the pure function [completion] of the final ring entry and
    mailboxes, and the delivery status it uses is the entry's, unless the whole
    time limit was slept. *)
Theorem exec_completion `{P : Platform} ctx c w opcode op_mod in_data in_len out out_len status :
  cmd_ready ctx c w -> 0 <= in_len -> input_ok in_data in_len -> output_ok out out_len ->
  owner_protocol (cmd_ring c) (mbox_pool c) ->
  wp (mlx5_cmd_exec ctx opcode op_mod in_data in_len out out_len status)
    (fun res w' => exists t r m d,
       w_trace w' = t ++ w_trace w /\
       live_buf (w_heap w') (cmd_ring c) = Some r /\
       live_buf (w_heap w') (mbox_pool c) = Some m /\
       res = completion d (buf_get r off_status) m out out_len ((fun _ => 0xFF) <$> status) /\
       (slept t < MLX5_CMD_TIMEOUT_MS -> d = status_delivery (buf_get r off_status))) w.
Proof.
  intros Hready Hlen Hin Hout Hp.
  eapply wp_mono; [by apply (exec_wp (fun _ => True))|].
  intros res w' (t & d & F & _ & _ & _ & Hc). destruct (Hc Hp) as (r & m & Hr & Hm & -> & Hd).
  exists t, r, m, d. split; [by destruct F as (_ & _ & s & h & ->)|].
  do 3 (split; [done|]). intros Ht. apply (Hd Ht).
Qed.

Lemma exec_completion_witness :
  @wp (sim_platform 1 2) _
    (@mlx5_cmd_exec (sim_platform 1 2) 100 0x104 0 None 0 (Some (buf_zero 64)) 64 (Some 0))
    (fun res w' => exists t r m d,
       w_trace w' = t ++ w_trace (sim_world (sim_fw 2 [(0, [0; 0; 0; 0; 0; 0; 0; 0; 5])])) /\
       live_buf (w_heap w') (cmd_ring sim_ctx) = Some r /\
       live_buf (w_heap w') (mbox_pool sim_ctx) = Some m /\
       res = completion d (buf_get r off_status) m (Some (buf_zero 64)) 64 (Some 0xFF) /\
       (slept t < MLX5_CMD_TIMEOUT_MS -> d = status_delivery (buf_get r off_status)))
    (sim_world (sim_fw 2 [(0, [0; 0; 0; 0; 0; 0; 0; 0; 5])])).
Proof.
  apply (@exec_completion (sim_platform 1 2) 100 sim_ctx _ _ _ _ _ _ _ (Some 0));
    [apply sim_ready|lia|done|intros _; vm_compute; congruence|apply sim_owner_protocol].
Defined.

(** ** Tokens over many commands *)

Lemma issue_tokens_spec `{P : Platform} n ctx c w :
  w_ctx w !! ctx = Some c -> 0 <= next_token c < 256 ->
  wp (issue_tokens n ctx)
    (fun ts _ => ts = map (fun i => (next_token c + Z.of_nat i) mod 255 + 1) (seq 0 n)) w.
Proof.
  revert c w; induction n as [|n IH]; intros c w Hc Ht; [done|]. simpl issue_tokens.
  apply wp_bind, (token_spec _ c); [done|]. apply wp_bind.
  pose proof (next_tok_range (next_token c)).
  eapply wp_mono; [apply (IH (set_next_token (next_tok (next_token c)) c));
    [apply lookup_insert_eq|simpl; lia]|].
  intros ts w' ->. apply wp_ret. simpl. rewrite Z.add_0_r. f_equal; [by apply next_tok_closed|].
  rewrite <- seq_shift, map_map. apply map_ext. intros i.
  rewrite next_tok_closed, next_tok_shift by lia. do 2 f_equal. lia.
Qed.

Lemma tokens_nodup t n :
  (n <= 255)%nat -> NoDup (map (fun i => (t + Z.of_nat i) mod 255 + 1) (seq 0 n)).
Proof.
  intros Hn. change (map ?f (seq 0 n)) with (f <$> seq 0 n).
  apply NoDup_fmap_2_strong; [|apply NoDup_seq].
  intros i j Hi%elem_of_seq Hj%elem_of_seq He.
  assert (Hm : (t + Z.of_nat i) mod 255 = (t + Z.of_nat j) mod 255) by lia.
  pose proof (Z.div_mod (t + Z.of_nat i) 255). pose proof (Z.div_mod (t + Z.of_nat j) 255). lia.
Qed.

(** C18. The tokens of consecutive commands: never 0, always a byte, advancing
    through 1..255 cyclically, so that any 255 consecutive commands carry
    pairwise different tokens. *)
Theorem token_sequence `{P : Platform} n ctx c w :
  w_ctx w !! ctx = Some c -> 0 <= next_token c < 256 ->
  wp (issue_tokens n ctx)
    (fun ts _ => ts = map (fun i => (next_token c + Z.of_nat i) mod 255 + 1) (seq 0 n) /\
       Forall (fun t => 0 < t < 256) ts /\ ((n <= 255)%nat -> NoDup ts)) w.
Proof.
  intros Hc Ht. eapply wp_mono; [by apply issue_tokens_spec|]. intros ts w' ->.
  split; [done|]. split; [|apply tokens_nodup].
  apply Forall_forall. intros t (i & -> & _)%list_elem_of_fmap.
  pose proof (Z.mod_pos_bound (next_token c + Z.of_nat i) 255). lia.
Qed.

Lemma token_sequence_witness :
  @wp (sim_platform 1 2) _ (@issue_tokens (sim_platform 1 2) 3 100)
    (fun ts _ => ts = [1; 2; 3] /\ Forall (fun t => 0 < t < 256) ts /\
       ((3 <= 255)%nat -> NoDup ts)) (sim_world (sim_fw 0 [])).
Proof. by apply (@token_sequence (sim_platform 1 2) 3 100 sim_ctx). Defined.

(** C17. Accounting: each command takes the next token; a success counts one
    command, an error counts one command and one failure, and a timeout counts
    one failure but no command. *)
Theorem exec_accounting `{P : Platform} ctx c w opcode op_mod in_data in_len out out_len status :
  cmd_ready ctx c w -> 0 <= in_len -> input_ok in_data in_len -> output_ok out out_len ->
  wp (mlx5_cmd_exec ctx opcode op_mod in_data in_len out out_len status)
    (fun res w' => exists c', w_ctx w' !! ctx = Some c' /\
       next_token c' = next_tok (next_token c) /\
       (total_commands c', failed_commands c') =
         match er_ret res with
         | kIOReturnSuccess => (u32 (total_commands c + 1), failed_commands c)
         | kIOReturnTimeout => (total_commands c, u32 (failed_commands c + 1))
         | _ => (u32 (total_commands c + 1), u32 (failed_commands c + 1))
         end) w.
Proof.
  intros Hready Hlen Hin Hout.
  eapply wp_mono; [by apply (exec_wp (fun _ => True))|].
  intros res w' (t & d & F & _). eexists. split; [eapply cmd_frame_ctx, F|].
  by destruct (er_ret res).
Qed.

Lemma exec_accounting_witness :
  @wp (sim_platform 1 2) _
    (@mlx5_cmd_exec (sim_platform 1 2) 100 0x104 0 None 0 None 0 None)
    (fun res w' => exists c', w_ctx w' !! 100 = Some c' /\
       next_token c' = next_tok (next_token sim_ctx) /\
       (total_commands c', failed_commands c') =
         match er_ret res with
         | kIOReturnSuccess => (u32 (total_commands sim_ctx + 1), failed_commands sim_ctx)
         | kIOReturnTimeout => (total_commands sim_ctx, u32 (failed_commands sim_ctx + 1))
         | _ => (u32 (total_commands sim_ctx + 1), u32 (failed_commands sim_ctx + 1))
         end) (sim_world (sim_fw 2 [(0, [3])])).
Proof. by apply (@exec_accounting (sim_platform 1 2)); [apply sim_ready|lia|..]. Defined.

(** ** Timeout *)

(** The device keeps ring entry 0: whatever it does, the owner bit stays. *)
Definition hw_owned (ring : ptr) (h : gmap Z block) : Prop :=
  exists r, live_buf h ring = Some r /\ MLX5_CMD_ENTRY_SIZE <= buf_size r /\
    status_owner (buf_get r off_status) <> MLX5_CMD_OWNER_SW.

Lemma wp_ld8_owned `{P : Platform} ring Q w :
  stable (hw_owned ring) -> hw_owned ring (w_heap w) ->
  (forall st, status_owner st <> MLX5_CMD_OWNER_SW -> hw_owned ring (w_heap (device_run w)) ->
     Q st (device_run w)) ->
  wp (ld8 ring off_status) Q w.
Proof.
  intros HI Hw HQ. pose proof (stable_device_run _ _ HI Hw) as (r' & Hr' & Hs' & Ho').
  destruct Hw as (r & Hr & Hs & _). unfold MLX5_CMD_ENTRY_SIZE in *.
  eapply wp_ld8; [done|offs..|]. intros b Hb _. rewrite Hr' in Hb. injection Hb as <-.
  apply HQ; [done|]. by exists r'.
Qed.

Lemma poll_never `{P : Platform} n ring w :
  stable (hw_owned ring) -> hw_owned ring (w_heap w) ->
  wp (cmd_poll n ring 0) (fun d w' => exists t, io_frame t w w' /\ hw_owned ring (w_heap w') /\
    d = 0 /\ slept t = 10 * Z.of_nat n) w.
Proof.
  intros HI. revert w; induction n as [|n IH]; intros w Hw; simpl cmd_poll.
  { apply wp_ret. exists []. auto with vf. }
  apply wp_bind, wp_barrier, wp_bind, wp_ld8_owned; [done|done|].
  intros st Hst Hw1. change (0 + off_status) with off_status.
  destruct (Z.eqb_spec (status_owner st) MLX5_CMD_OWNER_SW); [done|].
  apply wp_bind, wp_sleep. eapply wp_mono; [apply IH; by apply (stable_device_run _ _ HI)|].
  intros d w' (t & F & Hw' & -> & Ht). exists ((t ++ [EvSleep 10]) ++ [EvBarrier]).
  split; [by apply io_frame_emit_l, io_frame_device_run_l, io_frame_emit_l, io_frame_device_run_l|].
  split; [done|]. split; [done|]. rewrite !slept_app, Ht. simpl. lia.
Qed.

(** C19. Timeout: if the device never gives the entry back, [mlx5_cmd_exec] sleeps
    exactly [MLX5_CMD_TIMEOUT_MS] and returns [kIOReturnTimeout]; the caller's
    buffer is untouched, the caller's status is 0xFF, the failure is counted
    and the command is not. *)
Theorem exec_timeout `{P : Platform} ctx c w opcode op_mod in_data in_len out out_len status :
  cmd_ready ctx c w -> 0 <= in_len -> input_ok in_data in_len ->
  stable (hw_owned (cmd_ring c)) ->
  wp (mlx5_cmd_exec ctx opcode op_mod in_data in_len out out_len status)
    (fun res w' => exists t,
       res = ExecResult kIOReturnTimeout out ((fun _ => 0xFF) <$> status) /\
       cmd_frame ctx c (count_failed (set_next_token (next_tok (next_token c)) c)) t w w' /\
       slept t = MLX5_CMD_TIMEOUT_MS) w.
Proof.
  intros Hready Hlen Hin HI. apply (exec_reduce ctx c); [done..|].
  intros t w1 c1 F Ht Hs _.
  destruct (after_submit_live _ _ _ _ _ _ _ _ _ _ _ _ Hready F Hs) as (r & m & Hr & Hrs & _).
  assert (Hw1 : hw_owned (cmd_ring c) (w_heap w1)).
  { exists r. split; [done|]. split; [done|].
    by erewrite (after_submit_owner ctx c w) by done. }
  apply wp_bind. eapply wp_mono; [by apply poll_never|].
  intros d w2 (t2 & F2 & Hw2 & -> & Ht2). rewrite poll_limit_ms in Ht2.
  apply (cmd_frame_io ctx c1) in F2; [|exact (cmd_frame_ctx _ _ _ _ _ _ F)].
  pose proof (cmd_frame_trans _ _ _ _ _ _ _ _ _ F F2) as F3.
  unfold cmd_finish. rewrite slot0_entry. apply wp_bind, wp_ld8_owned; [done|done|].
  intros st Hst _. apply cmd_frame_run_r in F3.
  destruct (Z.eqb_spec (status_owner st) MLX5_CMD_OWNER_SW); [done|]. cbn [negb].
  apply wp_bind, wp_log, wp_bind. eapply wp_modify; [exact (cmd_frame_ctx _ _ _ _ _ _ F3)|].
  apply wp_ret. eexists. split; [done|].
  split; [apply cmd_frame_put_r with (c1 := c1), cmd_frame_emit_r, F3|].
  simpl. rewrite slept_app, Ht2, Ht. done.
Qed.

(** A firmware that watches another block never answers. *)
Lemma sim_deaf : @stable (sim_platform 8 9) (hw_owned 1).
Proof.
  intros s h (r & Hr & H). exists r. split; [|done]. simpl. unfold sim_run.
  destruct (live_buf h 8) as [r8|]; [|done]. destruct (_ =? 0); [done|].
  destruct (sim_wait s); [|done]. destruct (sim_script s) as [|[st resp] rest]; [done|].
  unfold apply_dmas. cbn [snd foldl]. by rewrite !live_buf_apply_dma_ne.
Qed.

Lemma exec_timeout_witness :
  @wp (sim_platform 8 9) _
    (@mlx5_cmd_exec (sim_platform 8 9) 100 0x104 0 None 0 None 0 (Some 0))
    (fun res w' => exists t,
       res = ExecResult kIOReturnTimeout None (Some 0xFF) /\
       cmd_frame 100 sim_ctx (count_failed (set_next_token 1 sim_ctx)) t
         (sim_world_on 8 9 (sim_fw 0 [])) w' /\
       slept t = MLX5_CMD_TIMEOUT_MS) (sim_world_on 8 9 (sim_fw 0 [])).
Proof.
  apply (@exec_timeout (sim_platform 8 9) 100 sim_ctx _ _ _ None 0 None 0 (Some 0));
    [apply sim_ready|lia|done|apply sim_deaf].
Defined.

(** ** The response *)

Lemma copied_get mb o out_len :
  0 < out_len ->
  exists o', copied mb (Some o) out_len = Some o' /\
    (forall i, 0 <= i < out_copy_len out_len -> buf_get o' i = buf_get mb (4096 + 8 + i)) /\
    (forall i, out_copy_len out_len <= i -> buf_get o' i = buf_get o i).
Proof.
  intros Hl. unfold copied. rewrite (proj2 (Z.ltb_lt _ _) Hl). eexists. split; [done|].
  pose proof (out_copy_len_range out_len). split; intros i Hi.
  - rewrite buf_get_copy_in by lia. f_equal. lia.
  - apply buf_get_copy_out. lia.
Qed.

(** A successful command with an output buffer has written byte [8 + i] of
    the output mailbox to byte [i] of the buffer, for every [i] below the
    requested length (at most 4088), and nothing past it; the firmware status
    it reports is the mailbox's, and it is 0. *)
Theorem success_output `{P : Platform} ctx c w opcode op_mod in_data in_len out out_len status :
  cmd_ready ctx c w -> 0 <= in_len -> input_ok in_data in_len ->
  0 < out_len -> output_ok (Some out) out_len ->
  owner_protocol (cmd_ring c) (mbox_pool c) ->
  wp (mlx5_cmd_exec ctx opcode op_mod in_data in_len (Some out) out_len (Some status))
    (fun res w' => er_ret res = kIOReturnSuccess ->
       exists m o', live_buf (w_heap w') (mbox_pool c) = Some m /\
         er_out res = Some o' /\ er_status res = Some 0 /\ buf_get m 4096 = 0 /\
         (forall i, 0 <= i < out_copy_len out_len -> buf_get o' i = buf_get m (4096 + 8 + i)) /\
         (forall i, out_copy_len out_len <= i -> buf_get o' i = buf_get out i)) w.
Proof.
  intros Hready Hlen Hin Hl Hout Hp.
  eapply wp_mono; [by apply (exec_wp (fun _ => True))|].
  intros res w' (t & d & _ & _ & _ & _ & Hc) Hs.
  destruct (Hc Hp) as (r & m & _ & Hm & -> & _). exists m. revert Hs. unfold completion.
  destruct (negb _); [done|]. destruct (negb _); [done|]. cbv zeta.
  change (4096 + MLX5_MBOX_STATUS_OFF) with 4096. unfold MLX5_CMD_STAT_OK.
  destruct (Z.eqb_spec (buf_get m 4096) 0) as [He|]; [|done]. intros _. cbn [negb er_out er_status].
  destruct (copied_get m out out_len Hl) as (o' & -> & H1 & H2). exists o'.
  simpl. rewrite He. done.
Qed.

Lemma success_output_witness :
  @wp (sim_platform 1 2) _
    (@mlx5_cmd_exec (sim_platform 1 2) 100 0x107 0 None 0 (Some (buf_zero 16)) 16 (Some 0))
    (fun res w' => er_ret res = kIOReturnSuccess ->
       exists m o', live_buf (w_heap w') (mbox_pool sim_ctx) = Some m /\
         er_out res = Some o' /\ er_status res = Some 0 /\ buf_get m 4096 = 0 /\
         (forall i, 0 <= i < out_copy_len 16 -> buf_get o' i = buf_get m (4096 + 8 + i)) /\
         (forall i, out_copy_len 16 <= i -> buf_get o' i = buf_get (buf_zero 16) i))
    (sim_world (sim_fw 1 [(0, [0; 0; 0; 0; 0; 0; 0; 0; 7])])).
Proof.
  apply (@success_output (sim_platform 1 2));
    [apply sim_ready|lia|done|lia|intros _; vm_compute; congruence|apply sim_owner_protocol].
Defined.

(** ** A completion that arrives after the last poll *)

Lemma sim_run_waits ring mbox s h r k :
  live_buf h ring = Some r -> status_owner (buf_get r off_status) = MLX5_CMD_OWNER_HW ->
  sim_wait s = S k -> sim_run ring mbox s h = (sim_set_script k (sim_script s) s, []).
Proof.
  intros Hr Ho Hk. unfold sim_run. rewrite Hr. unfold status_owner, off_status in Ho.
  by rewrite Ho, Hk.
Qed.

(** A step of the simulator that only counts down. *)
Lemma wp_ld8_waits ring mbox (w : @world (sim_platform ring mbox)) r k Q :
  live_buf (w_heap w) ring = Some r -> MLX5_CMD_ENTRY_SIZE <= buf_size r ->
  status_owner (buf_get r off_status) = MLX5_CMD_OWNER_HW ->
  sim_wait (w_ps w) = S k ->
  Q (buf_get r off_status)
    (put_ps (sim_set_script k (sim_script (w_ps w)) (w_ps w) : @PS (sim_platform ring mbox)) w) ->
  @wp (sim_platform ring mbox) _ (ld8 ring off_status) Q w.
Proof.
  intros Hr Hs Ho Hk HQ. unfold MLX5_CMD_ENTRY_SIZE in *.
  assert (Hrun : @device_run (sim_platform ring mbox) w =
    put_ps (sim_set_script k (sim_script (w_ps w)) (w_ps w) : @PS (sim_platform ring mbox)) w).
  { unfold device_run. simpl. rewrite (sim_run_waits _ _ _ _ r k) by done. by destruct w. }
  eapply wp_ld8; [done|offs..|]. rewrite Hrun. intros b Hb _. simpl in Hb. rewrite Hr in Hb.
  by injection Hb as <-.
Qed.

Lemma poll_waits ring mbox n k (w : @world (sim_platform ring mbox)) r :
  live_buf (w_heap w) ring = Some r -> MLX5_CMD_ENTRY_SIZE <= buf_size r ->
  status_owner (buf_get r off_status) = MLX5_CMD_OWNER_HW ->
  sim_wait (w_ps w) = (2 * n + k)%nat ->
  @wp (sim_platform ring mbox) _ (cmd_poll n ring 0)
    (fun d w' => d = 0 /\ exists tr,
       w' = put_trace tr (put_ps (sim_set_script k (sim_script (w_ps w)) (w_ps w)
                                   : @PS (sim_platform ring mbox)) w)) w.
Proof.
  revert w; induction n as [|n IH]; intros w Hr Hs Ho Hk; simpl cmd_poll.
  { apply wp_ret. split; [done|]. exists (w_trace w). simpl in Hk. rewrite <- Hk.
    destruct w as [[] ? ? ? ? ? ? ? ? ? ? ? ?]. done. }
  apply wp_bind, wp_barrier, wp_bind. change (0 + off_status) with off_status.
  eapply (wp_ld8_waits ring mbox _ r (S (2 * n + k))); [done|done|done|simpl in *; lia|].
  rewrite Ho. cbn [Z.eqb MLX5_CMD_OWNER_HW MLX5_CMD_OWNER_SW].
  apply wp_bind, wp_sleep.
  set (w1 := device_run _).
  assert (H1 : w1 = put_trace (w_trace w1) (put_ps
    (sim_set_script (2 * n + k) (sim_script (w_ps w)) (w_ps w) : @PS (sim_platform ring mbox)) w)).
  { unfold w1, device_run. simpl. rewrite (sim_run_waits _ _ _ _ r (2 * n + k)) by done.
    by destruct w. }
  rewrite H1. clearbody w1. eapply wp_mono; [apply IH; done|].
  intros d w' (-> & tr & ->). split; [done|]. exists tr. by destruct w.
Qed.

(** The step of the simulator that answers with an empty response. *)
Lemma sim_run_answers (w : @world (sim_platform 1 2)) r m st rest :
  live_buf (w_heap w) 1 = Some r -> MLX5_CMD_ENTRY_SIZE <= buf_size r ->
  live_buf (w_heap w) 2 = Some m -> 2 * MLX5_CMD_MAILBOX_SIZE <= buf_size m ->
  status_owner (buf_get r off_status) = MLX5_CMD_OWNER_HW ->
  sim_wait (w_ps w) = O -> sim_script (w_ps w) = (st, []) :: rest ->
  holds_cmd 1 2 (buf_store r 0 [st]) (buf_store m 4096 [])
    (w_heap (@device_run (sim_platform 1 2) w)).
Proof.
  intros Hr Hrs Hm Hms Ho Hk Hs. unfold MLX5_CMD_ENTRY_SIZE, MLX5_CMD_MAILBOX_SIZE in *.
  unfold device_run. cbn [w_heap put_heap p_run sim_platform]. unfold sim_run. rewrite Hr.
  unfold status_owner, off_status in Ho. rewrite Ho, Hk, Hs.
  change (MLX5_CMD_OWNER_HW =? 0) with false. cbn iota. rewrite take_nil.
  unfold apply_dmas. cbn [snd foldl].
  assert (H2 : live_buf (apply_dma (w_heap w) (2, 4096, [])) 2 = Some (buf_store m 4096 []))
    by (apply live_buf_apply_dma_eq; [done|lia|simpl; lia]).
  split.
  - apply live_buf_apply_dma_eq; [|lia|simpl; lia]. by rewrite live_buf_apply_dma_ne.
  - by rewrite live_buf_apply_dma_ne.
Qed.

(** C40. A late answer is taken for a success: when the device gives the entry back
    after the last poll and before the final ownership check, with any delivery
    status, [mlx5_cmd_exec] returns [kIOReturnSuccess].  The delivery status was
    initialised to 0 and is only read inside the polling loop. *)
Theorem late_completion st opcode op_mod :
  0 <= st < 256 -> status_owner st = MLX5_CMD_OWNER_SW ->
  @wp (sim_platform 1 2) _
    (@mlx5_cmd_exec (sim_platform 1 2) 100 opcode op_mod None 0 None 0 None)
    (fun res w' => er_ret res = kIOReturnSuccess /\
       exists r, live_buf (w_heap w') 1 = Some r /\ buf_get r off_status = st)
    (sim_world (sim_fw (2 * poll_limit) [(st, [])])).
Proof.
  intros Hst Ho. pose proof (sim_ready 1 2 (sim_fw (2 * poll_limit) [(st, [])])) as Hready.
  apply (@exec_reduce (sim_platform 1 2) 100 sim_ctx); [done|done|done|].
  intros t w1 c1 F _ Hs (h & Hps).
  destruct (after_submit_live _ _ _ _ _ _ _ _ _ _ _ _ Hready F Hs) as (r & m & Hr & Hrs & Hm & Hms).
  assert (Hor : status_owner (buf_get r off_status) = MLX5_CMD_OWNER_HW).
  { by eapply after_submit_owner. }
  assert (Hom : buf_get (buf_store m 4096 []) 4096 = 0).
  { rewrite buf_get_store_out by (simpl; lia). by eapply after_submit_status. }
  pose proof (cmd_frame_ctx _ _ _ _ _ _ F) as Hc1.
  change (w_ps w1 = sim_fw (2 * poll_limit) [(st, [])]) in Hps.
  apply wp_bind. eapply wp_mono; [apply (poll_waits 1 2 poll_limit 0 w1 r)|]; [done|done|done| |].
  { rewrite Hps. apply plus_n_O. }
  intros d w2 (-> & tr & ->). rewrite Hps. simpl sim_script.
  unfold cmd_finish. rewrite slot0_entry. apply wp_bind. unfold MLX5_CMD_ENTRY_SIZE in *.
  eapply wp_ld8; [done|offs..|]. intros b Hb _.
  set (w3 := device_run _) in *.
  assert (H3 : holds_cmd 1 2 (buf_store r 0 [st]) (buf_store m 4096 []) (w_heap w3))
    by (by eapply sim_run_answers).
  assert (Hc3 : w_ctx w3 !! 100 = Some c1) by done. clearbody w3.
  destruct H3 as [H3r H3m]. simpl in Hb. rewrite H3r in Hb. injection Hb as <-.
  assert (Hst' : buf_get (buf_store r 0 [st]) off_status = st).
  { rewrite buf_get_store_in; [done| |offs]. constructor; [exact Hst|constructor]. }
  change (0 + off_status) with off_status. rewrite Hst', Ho. cbn [Z.eqb MLX5_CMD_OWNER_SW negb].
  apply wp_bind. eapply wp_modify; [exact Hc3|]. cbn [cell_get cell_put cell_ctx].
  set (w4 := put_ctx _ w3).
  eapply wp_mono; [eapply (response_spec (holds_cmd 1 2 (buf_store r 0 [st]) (buf_store m 4096 []))
    100 c1 opcode None 0 None _ _ w4)|].
  - apply sim_owner_protocol. by rewrite Hst'.
  - done.
  - apply lookup_insert_eq.
  - exact H3r.
  - by rewrite Hst'.
  - exact H3m.
  - done.
  - done.
  - intros res w' (_ & [Hr' Hm'] & _ & Hp).
    destruct (Hp sim_owner_protocol) as (r2 & m2 & Hr2 & Hm2 & ->).
    simpl in Hr2, Hm2. rewrite Hr' in Hr2. rewrite Hm' in Hm2. injection Hr2 as <-. injection Hm2 as <-.
    split; [|by eexists]. unfold completion. rewrite Hst', Ho. cbv zeta.
    change (4096 + MLX5_MBOX_STATUS_OFF) with 4096. by rewrite Hom.
Qed.

(** Delivery status 4 and the owner bit back to software: status byte 8. *)
Lemma late_completion_witness :
  @wp (sim_platform 1 2) _
    (@mlx5_cmd_exec (sim_platform 1 2) 100 0x104 0 None 0 None 0 None)
    (fun res w' => er_ret res = kIOReturnSuccess /\
       exists r, live_buf (w_heap w') 1 = Some r /\ buf_get r off_status = 8)
    (sim_world (sim_fw (2 * poll_limit) [(8, [])])).
Proof. apply (late_completion 8 0x104 0); [lia|done]. Defined.
