(* ===== verification/CmdLive.v ===== *)
(** * Liveness of the command channel

    A device that, while it owns the ring entry, comes closer to its answer at
    every step, and is close enough when the doorbell rings, is answered for:
    [mlx5_cmd_exec] does not time out and returns that answer. *)

From S2P Require Import Prelude Bytes Registers IbVerbs World Wp Cmd CmdSpec Sim CmdTheorems.

Section Liveness.
Context `{P : Platform}.

(** The ring entry is back with software. *)
Definition answered (ring : ptr) (h : heap) : Prop :=
  exists r, live_buf h ring = Some r /\
    status_owner (buf_get r off_status) = MLX5_CMD_OWNER_SW.

(** A device that keeps the owner-bit protocol and makes progress: [rank] bounds
    the steps to its answer; what has a rank of [poll_limit] or more may never
    answer. *)
Record responsive (ring mbox : ptr) (rank : PS -> heap -> nat) : Prop := {
  rs_owner : owner_protocol ring mbox;
  rs_progress : forall s h r m, holds_cmd ring mbox r m h -> MLX5_CMD_ENTRY_SIZE <= buf_size r ->
    (rank s h < poll_limit)%nat -> ~ answered ring h ->
    let '(s', ds) := p_run s h in
    answered ring (apply_dmas h ds) \/ (rank s' (apply_dmas h ds) < rank s h)%nat
}.

Section Poll.
Context (ring mbox : ptr) (rank : PS -> heap -> nat) (R : responsive ring mbox rank).

Definition rank_of (w : world) : nat := rank (w_ps w) (w_heap w).

(** Either answered, or answered within less than [n] further steps. *)
Definition due (n : nat) (w : world) : Prop :=
  answered ring (w_heap w) \/ (rank_of w < n <= poll_limit)%nat.

Lemma answered_dec w r :
  live_buf (w_heap w) ring = Some r ->
  answered ring (w_heap w) \/
  status_owner (buf_get r off_status) <> MLX5_CMD_OWNER_SW /\ ~ answered ring (w_heap w).
Proof.
  intros Hr. destruct (decide (status_owner (buf_get r off_status) = MLX5_CMD_OWNER_SW)).
  - left. by exists r.
  - right. split; [done|]. intros (r' & Hr' & ?). congruence.
Qed.

Lemma answered_run w m :
  live_buf (w_heap w) mbox = Some m -> answered ring (w_heap w) ->
  answered ring (w_heap (device_run w)).
Proof.
  intros Hm (r & Hr & Ho). exists r. split; [|done].
  apply (stable_device_run _ w (rs_owner _ _ _ R r m Ho) (conj Hr Hm)).
Qed.

Lemma due_run n w m r :
  live_buf (w_heap w) mbox = Some m -> live_buf (w_heap w) ring = Some r ->
  MLX5_CMD_ENTRY_SIZE <= buf_size r ->
  due (S n) w -> due n (device_run w) \/ answered ring (w_heap (device_run w)).
Proof.
  intros Hm Hr Hrs Hd. destruct (answered_dec w r Hr) as [Ha|[_ Hn]].
  - right. by eapply answered_run.
  - destruct Hd as [?|Hd]; [done|].
    pose proof (rs_progress _ _ _ R (w_ps w) (w_heap w)) as Hp. unfold rank_of in Hd.
    specialize (Hp r m (conj Hr Hm) Hrs ltac:(lia) Hn). unfold device_run, due, rank_of in *.
    destruct (p_run (w_ps w) (w_heap w)) as [s' ds].
    change (w_heap (put_heap ?h _)) with h. change (w_ps (put_heap _ (put_ps ?s _))) with s.
    destruct Hp; [by right|]. left. right. cbn [fst snd]. lia.
Qed.

Lemma due_step n w m r :
  live_buf (w_heap w) mbox = Some m -> live_buf (w_heap w) ring = Some r ->
  MLX5_CMD_ENTRY_SIZE <= buf_size r ->
  due (S n) w -> due (S n) (device_run w).
Proof.
  intros Hm Hr Hrs Hd. destruct (due_run n w m r Hm Hr Hrs Hd) as [[Ha|?]|Ha]; [by left| |by left].
  destruct Hd as [Ha|[_ ?]]; [left; by eapply answered_run|]. right. lia.
Qed.

(** The poll of a device that is due ends in time. *)
Lemma poll_live n r m w :
  live_buf (w_heap w) ring = Some r -> MLX5_CMD_ENTRY_SIZE <= buf_size r ->
  live_buf (w_heap w) mbox = Some m -> (0 < n)%nat -> due n w ->
  wp (cmd_poll n ring 0)
    (fun _ w' => exists t, io_frame t w w' /\ slept t < 10 * Z.of_nat n) w.
Proof.
  unfold MLX5_CMD_ENTRY_SIZE.
  revert r m w; induction n as [|n IH]; intros r m w Hr Hrs Hm Hn Hd; [lia|].
  simpl cmd_poll. apply wp_bind, wp_barrier, wp_bind.
  set (w0 := put_trace _ w). change (due (S n) w0) in Hd.
  change (w_heap w) with (w_heap w0) in Hr, Hm.
  eapply wp_ld8; [done|offs..|]. intros r1 Hr1 Hs1.
  destruct (live_buf_device_run w0 mbox m Hm) as (m1 & Hm1 & _).
  pose proof (due_run n w0 m r Hm Hr Hrs Hd) as Hd1.
  assert (F1 : io_frame [EvBarrier] w (device_run w0)).
  { apply io_frame_emit_l with (t := []), io_frame_device_run. }
  set (w1 := device_run w0) in *. clearbody w1. change (0 + off_status) with off_status.
  destruct (Z.eqb_spec (status_owner (buf_get r1 off_status)) MLX5_CMD_OWNER_SW) as [Ho|Ho].
  - apply wp_bind. eapply wp_ld8; [done|offs..|]. intros r2 Hr2 Hs2. apply wp_ret.
    exists ([] ++ [EvBarrier]).
    split; [eapply io_frame_trans; [done|apply io_frame_device_run]|simpl; lia].
  - assert (Hna : ~ answered ring (w_heap w1)) by (intros (r' & Hr' & ?); congruence).
    destruct Hd1 as [[?|Hlt]|?]; [done| |done]. apply wp_bind, wp_sleep.
    set (w2 := put_trace _ w1). change (w_heap w1) with (w_heap w2) in Hr1, Hm1.
    destruct (live_buf_device_run w2 mbox m1 Hm1) as (m2 & Hm2 & _).
    destruct (live_buf_device_run w2 ring r1 Hr1) as (r2 & Hr2 & Hs2).
    destruct n as [|n']; [lia|].
    eapply wp_mono; [apply (IH r2 m2); [done|lia|done|lia|]|].
    { apply (due_step n' w2 m1 r1 Hm1 Hr1); [unfold MLX5_CMD_ENTRY_SIZE; lia|by right]. }
    intros d w' (t & F & Ht). exists ((t ++ [EvSleep 10]) ++ [EvBarrier]).
    split; [eapply io_frame_trans; [done|]; by apply io_frame_emit_l, io_frame_device_run_l|].
    rewrite !slept_app. simpl slept. lia.
Qed.
End Poll.

(** From a world in which the answer is due, polling and finishing take less
    than the time limit. *)
Lemma finish_in_time ctx c opcode out out_len status rank r m w :
  responsive (cmd_ring c) (mbox_pool c) rank -> due (cmd_ring c) rank poll_limit w ->
  w_ctx w !! ctx = Some c -> output_ok out out_len ->
  live_buf (w_heap w) (cmd_ring c) = Some r -> MLX5_CMD_ENTRY_SIZE <= buf_size r ->
  live_buf (w_heap w) (mbox_pool c) = Some m -> 2 * MLX5_CMD_MAILBOX_SIZE <= buf_size m ->
  wp (d ← cmd_poll poll_limit (cmd_ring c) 0; cmd_finish ctx c 0 opcode d out out_len status)
    (fun _ w' => exists t, w_trace w' = t ++ w_trace w /\ slept t < MLX5_CMD_TIMEOUT_MS) w.
Proof.
  intros R Hd Hc Hout Hr Hrs Hm Hms. apply wp_bind. eapply wp_mono.
  { apply (poll_live _ _ rank R poll_limit r m w); [done..|vm_compute; lia|done]. }
  intros d w2 (t2 & F2 & Ht2). rewrite poll_limit_ms in Ht2.
  destruct (io_frame_live _ _ _ _ _ F2 Hr) as (r2 & Hr2 & Hrs2).
  destruct (io_frame_live _ _ _ _ _ F2 Hm) as (m2 & Hm2 & Hms2).
  apply (cmd_frame_io ctx c) in F2; [|done].
  eapply wp_mono; [apply (finish_spec (fun _ => True) ctx c opcode d out out_len _ r2 m2);
    [done|done|exact (cmd_frame_ctx _ _ _ _ _ _ F2)|done|lia|done|lia|done]|].
  intros res w3 ((t3 & F4 & Ht3) & _).
  destruct (cmd_frame_trans _ _ _ _ _ _ _ _ _ F2 F4) as (_ & _ & s & h3 & ->).
  exists (t3 ++ t2). split; [done|]. rewrite slept_app, Ht3. lia.
Qed.

(** A device that makes progress, started close enough to its answer, is
    answered for before the time limit. *)
Lemma exec_in_time ctx c w opcode op_mod in_data in_len out out_len status rank :
  cmd_ready ctx c w -> 0 <= in_len -> input_ok in_data in_len -> output_ok out out_len ->
  responsive (cmd_ring c) (mbox_pool c) rank ->
  (forall h h', (rank (p_mmio_write (w_ps w) h (iseg c + MLX5_ISEG_CMD_DOORBELL)
                         (OSSwapInt32 1)) h' < poll_limit)%nat) ->
  wp (mlx5_cmd_exec ctx opcode op_mod in_data in_len out out_len status)
    (fun _ w' => exists t, w_trace w' = t ++ w_trace w /\ slept t < MLX5_CMD_TIMEOUT_MS) w.
Proof.
  intros Hready Hlen Hin Hout R Hdb. apply (exec_reduce ctx c); [done..|].
  intros t w1 c1 F Ht Hs (h & Hps).
  destruct (after_submit_live _ _ _ _ _ _ _ _ _ _ _ _ Hready F Hs) as (r & m & Hr & Hrs & Hm & Hms).
  eapply wp_mono; [apply (finish_in_time ctx c1 opcode out out_len _ rank r m w1);
    [exact R| |exact (cmd_frame_ctx _ _ _ _ _ _ F)|done..]|].
  { right. unfold rank_of. rewrite Hps. split; [apply Hdb|done]. }
  intros res w3 (t2 & E & Ht2). exists (t2 ++ t).
  destruct F as (_ & _ & s & h3 & ->). rewrite E. simpl.
  split; [by rewrite app_assoc|]. rewrite slept_app, Ht. lia.
Qed.
End Liveness.

(** C9. Liveness: a device that keeps the owner-bit protocol and comes closer to
    its answer at each step is answered for in time: when it is less than
    [MLX5_CMD_TIMEOUT_MS / 10] steps away at the doorbell, [mlx5_cmd_exec] does
    not time out, and returns what the final ring entry and output mailbox say,
    with the entry's own delivery status. *)
Theorem exec_answered `{P : Platform} ctx c w opcode op_mod in_data in_len out out_len status rank :
  cmd_ready ctx c w -> 0 <= in_len -> input_ok in_data in_len -> output_ok out out_len ->
  responsive (cmd_ring c) (mbox_pool c) rank ->
  (forall h h', (rank (p_mmio_write (w_ps w) h (iseg c + MLX5_ISEG_CMD_DOORBELL)
                         (OSSwapInt32 1)) h' < poll_limit)%nat) ->
  wp (mlx5_cmd_exec ctx opcode op_mod in_data in_len out out_len status)
    (fun res w' => er_ret res <> kIOReturnTimeout /\ answered (cmd_ring c) (w_heap w') /\
       exists t r m, w_trace w' = t ++ w_trace w /\ slept t < MLX5_CMD_TIMEOUT_MS /\
         live_buf (w_heap w') (cmd_ring c) = Some r /\
         live_buf (w_heap w') (mbox_pool c) = Some m /\
         res = completion (status_delivery (buf_get r off_status)) (buf_get r off_status) m
                 out out_len ((fun _ => 0xFF) <$> status)) w.
Proof.
  intros Hready Hlen Hin Hout R Hdb.
  pose proof (exec_in_time ctx c w opcode op_mod in_data in_len out out_len status rank
    Hready Hlen Hin Hout R Hdb) as Hlive.
  pose proof (exec_wp (fun _ => True) ctx c w opcode op_mod in_data in_len out out_len status
    Hready Hlen Hin Hout ltac:(done) ltac:(done)) as Hres.
  eapply wp_mono; [exact (wp_and _ _ _ _ Hlive Hres)|]. clear Hlive Hres.
  intros res w' [(t & Et & Ht) (t' & d & F & _ & _ & _ & Hc)].
  destruct (Hc (rs_owner _ _ _ R)) as (r & m & Hr & Hm & -> & Hd).
  assert (t' = t) as -> by (destruct F as (_ & _ & s & h & ->); by apply app_inv_tail in Et).
  destruct (Hd Ht) as [Hsw ->].
  split; [|split; [by exists r|by exists t, r, m]].
  unfold completion. rewrite Hsw. cbn [Z.eqb negb MLX5_CMD_OWNER_SW]. cbv zeta.
  by repeat case_match.
Qed.

(** The steps the simulated firmware needs, when the head of its script gives
    the entry back. *)
Definition sim_rank (s : sim) (_ : heap) : nat :=
  match sim_script s with
  | (st, _) :: _ => if (0 <=? st) && (st <? 256) && (Z.land st 1 =? 0) then sim_wait s else poll_limit
  | [] => poll_limit
  end.

Lemma sim_responsive : @responsive (sim_platform 1 2) 1 2 sim_rank.
Proof.
  split; [apply sim_owner_protocol|]. intros s h r m [Hr Hm] Hrs Hk Hn.
  cbn [p_run sim_platform]. unfold sim_run. rewrite Hr.
  unfold MLX5_CMD_ENTRY_SIZE in Hrs.
  destruct (Z.eqb_spec (Z.land (buf_get r 0) 1) 0) as [Ho|Ho].
  { destruct Hn. by exists r. }
  unfold sim_rank in *. destruct (sim_script s) as [|[st resp] rest] eqn:El; [lia|].
  destruct (_ && _) eqn:Eb; [|lia]. apply andb_prop in Eb as [Eb Hst%Z.eqb_eq].
  destruct (sim_wait s) as [|k] eqn:Ew; [left|right].
  - unfold apply_dmas. cbn [foldl]. exists (buf_store r 0 [st]). split.
    + apply live_buf_apply_dma_eq; [by rewrite live_buf_apply_dma_ne by done|done|simpl; lia].
    + rewrite buf_get_store_in; [done| |done].
      apply Forall_singleton. unfold is_byte. lia.
  - cbn. rewrite Eb, Hst. cbn. lia.
Qed.

Lemma exec_answered_witness :
  @wp (sim_platform 1 2) _
    (@mlx5_cmd_exec (sim_platform 1 2) 100 0x104 0 None 0 (Some (buf_zero 64)) 64 (Some 0))
    (fun res w' => er_ret res <> kIOReturnTimeout /\ answered (cmd_ring sim_ctx) (w_heap w') /\
       exists t r m, w_trace w' = t ++ w_trace (sim_world (sim_fw 2 [(0, [0; 0; 0; 0; 0; 0; 0; 0; 5])])) /\
         slept t < MLX5_CMD_TIMEOUT_MS /\
         live_buf (w_heap w') (cmd_ring sim_ctx) = Some r /\
         live_buf (w_heap w') (mbox_pool sim_ctx) = Some m /\
         res = completion (status_delivery (buf_get r off_status)) (buf_get r off_status) m
                 (Some (buf_zero 64)) 64 (Some 0xFF))
    (sim_world (sim_fw 2 [(0, [0; 0; 0; 0; 0; 0; 0; 0; 5])])).
Proof.
  apply (@exec_answered (sim_platform 1 2) 100 sim_ctx _ _ _ _ _ _ _ (Some 0) sim_rank);
    [apply sim_ready|lia|done|intros _; vm_compute; congruence|apply sim_responsive|].
  intros h h'. vm_compute. lia.
Defined.
