(* ===== verification/CmdOverlap.v ===== *)
(** * Two commands at once

    The source takes no lock and always uses slot 0.  Here two calls of
    [mlx5_cmd_exec] overlap: both submit, then both wait.  A call is cut at the
    doorbell, into [exec_begin] and [exec_end]; [exec_split] says that nothing is
    lost by the cut. *)

From S2P Require Import Prelude Bytes Registers IbVerbs World Wp Cmd CmdSpec Sim CmdTheorems CmdLive.

(** The arguments of a call, without the context. *)
Record exec_args := ExecArgs {
  ea_opcode : Z; ea_op_mod : Z;
  ea_in : option (buf * Z); ea_in_len : Z;
  ea_out : option buf; ea_out_len : Z;
  ea_status : option Z
}.

Definition args_ok (a : exec_args) : Prop :=
  0 <= ea_in_len a /\ input_ok (ea_in a) (ea_in_len a) /\ output_ok (ea_out a) (ea_out_len a).

(** The command a call asks for, in a ring entry filled for context [c]. *)
Definition args_descriptor (c : mlx5_cmd_context) (token : Z) (a : exec_args) : descriptor :=
  expected c token (ea_opcode a) (ea_op_mod a) (ea_in a) (ea_in_len a) (ea_out_len a).

(** What the entry and the mailboxes answer to the call's buffers. *)
Definition args_completion (st : Z) (m : buf) (a : exec_args) : exec_result :=
  completion (status_delivery st) st m (ea_out a) (ea_out_len a) ((fun _ => 0xFF) <$> ea_status a).

Section Overlap.
Context `{P : Platform}.

Definition call_begin (ctx : ptr) (a : exec_args) : M mlx5_cmd_context :=
  exec_begin ctx (ea_opcode a) (ea_op_mod a) (ea_in a) (ea_in_len a) (ea_out_len a).
Definition call_end (ctx : ptr) (a : exec_args) (c : mlx5_cmd_context) : M exec_result :=
  exec_end ctx (ea_opcode a) (ea_out a) (ea_out_len a) (ea_status a) c.

Definition both_begin (ctx : ptr) (a b : exec_args) : M (mlx5_cmd_context * mlx5_cmd_context) :=
  ca ← call_begin ctx a; cb ← call_begin ctx b; mret (ca, cb).

(** Both submissions, then both waits. *)
Definition exec_overlapped (ctx : ptr) (a b : exec_args) : M (exec_result * exec_result) :=
  cs ← both_begin ctx a b;
  ra ← call_end ctx a cs.1;
  rb ← call_end ctx b cs.2;
  mret (ra, rb).

(** The token of the second of two calls. *)
Definition second_token (c : mlx5_cmd_context) : Z := next_tok (next_tok (next_token c)).

(** Memory after both submissions is what the second one alone leaves. *)
Lemma both_begin_spec ctx c w a b :
  cmd_ready ctx c w -> args_ok a -> args_ok b ->
  wp (both_begin ctx a b)
    (fun cs w' => cs = (set_next_token (next_tok (next_token c)) c, set_next_token (second_token c) c) /\
       cmd_ready ctx cs.2 w' /\
       (exists t, w_trace w' = t ++ w_trace w /\ slept t = 0) /\
       exists r m, live_buf (w_heap w') (cmd_ring c) = Some r /\
         live_buf (w_heap w') (mbox_pool c) = Some m /\
         fw_decode r m = args_descriptor c (second_token c) b) w.
Proof.
  intros Hready (Hla & Hia & _) (Hlb & Hib & _). apply wp_bind.
  eapply wp_mono; [by apply (begin_spec ctx c)|].
  intros ? w1 (-> & t1 & F1 & Ht1 & _). set (ca := set_next_token _ c).
  assert (R1 : cmd_ready ctx ca w1) by (by eapply cmd_ready_same).
  apply wp_bind. eapply wp_mono; [by apply (begin_spec ctx ca)|].
  intros ? w2 (-> & t2 & F2 & Ht2 & (Hr & Hm & _) & _).
  assert (R2 : cmd_ready ctx (set_next_token (second_token c) ca) w2)
    by (by eapply (cmd_ready_same ctx ca)).
  apply wp_ret. split; [done|]. split; [done|]. split.
  - exists (t2 ++ t1). destruct F1 as (_ & _ & s1 & h1 & ->), F2 as (_ & _ & s2 & h2 & ->).
    rewrite slept_app, <- app_assoc. split; [done|lia].
  - destruct R1 as [_ (r & Hr1 & _) (m & Hm1 & _) _ _]. rewrite Hr1 in Hr. rewrite Hm1 in Hm.
    eexists _, _. split; [exact Hr|]. split; [exact Hm|]. by apply (decode_filled ca).
Qed.

(** The wait of a call, with what is known of the command memory. *)
Lemma call_end_spec I ctx c w a :
  cmd_ready ctx c w -> args_ok a -> owner_protocol (cmd_ring c) (mbox_pool c) ->
  stable I -> I (w_heap w) ->
  wp (call_end ctx a c)
    (fun res w' => exists t r m,
       cmd_frame ctx c (account (er_ret res) c) t w w' /\ I (w_heap w') /\
       holds_cmd (cmd_ring c) (mbox_pool c) r m (w_heap w') /\
       (slept t < MLX5_CMD_TIMEOUT_MS ->
          status_owner (buf_get r off_status) = MLX5_CMD_OWNER_SW /\
          res = args_completion (buf_get r off_status) m a)) w.
Proof.
  intros [Hc (r & Hr & Hrs) (m & Hm & Hms) _ _] (_ & _ & Ha) Hp HI Hw.
  unfold call_end, exec_end. rewrite slot0_entry.
  eapply wp_mono; [by apply (poll_finish_spec I ctx c _ _ _ _ r m)|].
  intros res w' (t & d & F & Hw' & _ & _ & H). destruct (H Hp) as (r' & m' & Hr' & Hm' & -> & Hlt).
  exists t, r', m'. split; [done|]. split; [done|]. split; [done|].
  intros Ht. by destruct (Hlt Ht) as [? ->].
Qed.

(** An entry that is already back is seen in time. *)
Lemma call_end_in_time ctx c w a r m :
  cmd_ready ctx c w -> args_ok a -> owner_protocol (cmd_ring c) (mbox_pool c) ->
  holds_cmd (cmd_ring c) (mbox_pool c) r m (w_heap w) ->
  status_owner (buf_get r off_status) = MLX5_CMD_OWNER_SW ->
  wp (call_end ctx a c)
    (fun _ w' => exists t, w_trace w' = t ++ w_trace w /\ slept t < MLX5_CMD_TIMEOUT_MS) w.
Proof.
  intros [Hc (r0 & Hr0 & Hrs) (m0 & Hm0 & Hms) _ _] (_ & _ & Ha) Hp [Hr Hm] Ho.
  rewrite Hr in Hr0. rewrite Hm in Hm0. injection Hr0 as <-. injection Hm0 as <-.
  unfold call_end, exec_end. rewrite slot0_entry.
  apply (finish_in_time ctx c _ _ _ _ (fun _ _ => poll_limit) r m w); [|by left; exists r|done..].
  split; [done|]. intros. lia.
Qed.

Lemma call_end_account ctx a r c : call_end ctx a c = call_end ctx a (account r c).
Proof. by destruct r. Qed.

(** The waits of two calls on the same context. *)
Lemma both_end_spec ctx c w a b :
  cmd_ready ctx c w -> args_ok a -> args_ok b -> owner_protocol (cmd_ring c) (mbox_pool c) ->
  wp (ra ← call_end ctx a c; rb ← call_end ctx b c; mret (ra, rb))
    (fun rs w' => exists ta tb r m, w_trace w' = tb ++ ta ++ w_trace w /\
       holds_cmd (cmd_ring c) (mbox_pool c) r m (w_heap w') /\
       (slept ta < MLX5_CMD_TIMEOUT_MS -> slept tb < MLX5_CMD_TIMEOUT_MS /\
          rs = (args_completion (buf_get r off_status) m a,
                args_completion (buf_get r off_status) m b))) w.
Proof.
  intros Hready Ha Hb Hp. apply wp_bind.
  eapply wp_mono; [by apply (call_end_spec (fun _ => True) ctx c)|].
  intros ra w1 (ta & r & m & F1 & _ & Hh & Hlt).
  assert (R1 : cmd_ready ctx (account (er_ret ra) c) w1)
    by (eapply cmd_ready_same; [exact Hready|exact F1|by destruct (er_ret ra)..]).
  assert (Er : cmd_ring (account (er_ret ra) c) = cmd_ring c) by by destruct (er_ret ra).
  assert (Em : mbox_pool (account (er_ret ra) c) = mbox_pool c) by by destruct (er_ret ra).
  destruct F1 as (_ & _ & s1 & h1 & E1).
  apply wp_bind. rewrite (call_end_account ctx b (er_ret ra)).
  set (c1 := account _ c) in *. clearbody c1.
  destruct (decide (slept ta < MLX5_CMD_TIMEOUT_MS)) as [Hta|Hta].
  - destruct (Hlt Hta) as [Ho ->].
    rewrite <- Er, <- Em in Hh, Hp. pose proof (Hp r m Ho) as HI.
    eapply wp_mono; [exact (wp_and _ _ _ _
      (call_end_in_time ctx c1 w1 b r m R1 Hb Hp Hh Ho)
      (call_end_spec _ ctx c1 w1 b R1 Hb Hp HI Hh))|].
    intros rb w2 [(tb & Et & Htb) (t & r2 & m2 & (_ & _ & s2 & h2 & ->) & [Hr Hm] & [Hr2 Hm2] & Hend)].
    apply app_inv_tail in Et as ->. rewrite Hr in Hr2. rewrite Hm in Hm2.
    injection Hr2 as <-. injection Hm2 as <-.
    apply wp_ret. exists ta, tb, r, m. rewrite E1, <- Er, <- Em.
    split; [done|]. split; [done|]. intros _. by destruct (Hend Htb) as [_ ->].
  - eapply wp_mono; [apply (call_end_spec (fun _ => True) ctx c1); rewrite ?Er, ?Em; done|].
    intros rb w2 (tb & r2 & m2 & (_ & _ & s2 & h2 & ->) & _ & Hh2 & _).
    apply wp_ret. exists ta, tb, r2, m2. rewrite E1. rewrite Er, Em in Hh2.
    split; [done|]. by split.
Qed.
End Overlap.

(** C37. Two calls that overlap share slot 0: when both submit before either
    waits, the ring entry and the mailboxes hold the second command alone, with
    the second token, so the first command is lost; and, with firmware that
    respects the owner bit, unless the first call waits for the whole time limit,
    both calls return what the one final entry and output mailbox say: the first
    caller is given the answer to the second caller's command. *)
Theorem overlap_shares_answer `{P : Platform} ctx c w a b :
  cmd_ready ctx c w -> args_ok a -> args_ok b -> owner_protocol (cmd_ring c) (mbox_pool c) ->
  wp (both_begin ctx a b)
    (fun _ w' => exists r m, holds_cmd (cmd_ring c) (mbox_pool c) r m (w_heap w') /\
       fw_decode r m = args_descriptor c (second_token c) b) w /\
  wp (exec_overlapped ctx a b)
    (fun rs w' => exists ta tb r m, w_trace w' = tb ++ ta ++ w_trace w /\
       holds_cmd (cmd_ring c) (mbox_pool c) r m (w_heap w') /\
       (slept ta < MLX5_CMD_TIMEOUT_MS -> slept tb < MLX5_CMD_TIMEOUT_MS /\
          rs = (args_completion (buf_get r off_status) m a,
                args_completion (buf_get r off_status) m b))) w.
Proof.
  intros Hready Ha Hb Hp. pose proof (both_begin_spec ctx c w a b Hready Ha Hb) as Hbegin.
  split; [eapply wp_mono; [exact Hbegin|]; intros cs w' (_ & _ & _ & r & m & ? & ? & ?); by exists r, m|].
  apply wp_bind. eapply wp_mono; [exact Hbegin|].
  intros ? w1 (-> & R1 & (t & Et & Ht) & _).
  eapply wp_mono; [by apply (both_end_spec ctx (set_next_token (second_token c) c) w1 a b)|].
  intros rs w2 (ta & tb & r & m & Etr & Hh & Hres). exists (ta ++ t), tb, r, m.
  rewrite Etr, Et, !app_assoc. split; [done|]. split; [done|].
  rewrite slept_app, Ht, Z.add_0_r. done.
Qed.

(** ENABLE_HCA, which expects 16 bytes, and QUERY_PAGES, which expects 64. *)
Definition args_enable : exec_args := ExecArgs 0x104 0 None 0 (Some (buf_zero 16)) 16 (Some 0).
Definition args_pages : exec_args := ExecArgs 0x107 1 None 0 (Some (buf_zero 64)) 64 (Some 0).

Lemma overlap_shares_answer_witness :
  let w := sim_world (sim_fw 2 [(0, [0; 0; 0; 0; 0; 0; 0; 0; 5])]) in
  @wp (sim_platform 1 2) _ (@both_begin (sim_platform 1 2) 100 args_enable args_pages)
    (fun _ w' => exists r m, holds_cmd (cmd_ring sim_ctx) (mbox_pool sim_ctx) r m (w_heap w') /\
       fw_decode r m = args_descriptor sim_ctx (second_token sim_ctx) args_pages) w /\
  @wp (sim_platform 1 2) _ (@exec_overlapped (sim_platform 1 2) 100 args_enable args_pages)
    (fun rs w' => exists ta tb r m, w_trace w' = tb ++ ta ++ w_trace w /\
       holds_cmd (cmd_ring sim_ctx) (mbox_pool sim_ctx) r m (w_heap w') /\
       (slept ta < MLX5_CMD_TIMEOUT_MS -> slept tb < MLX5_CMD_TIMEOUT_MS /\
          rs = (args_completion (buf_get r off_status) m args_enable,
                args_completion (buf_get r off_status) m args_pages))) w.
Proof.
  apply (@overlap_shares_answer (sim_platform 1 2) 100 sim_ctx);
    [apply sim_ready|..|apply sim_owner_protocol];
    (split; [vm_compute; congruence|split; [done|intros _; vm_compute; congruence]]).
Defined.

(** The run: both calls report a success, and both output buffers start with the
    byte 5 of the one answer, which is that of QUERY_PAGES. *)
Example overlap_run :
  @wp (sim_platform 1 2) _ (@exec_overlapped (sim_platform 1 2) 100 args_enable args_pages)
    (fun rs w' => er_ret rs.1 = kIOReturnSuccess /\ er_ret rs.2 = kIOReturnSuccess /\
       (fun o => buf_get o 0) <$> er_out rs.1 = Some 5 /\
       (fun o => buf_get o 0) <$> er_out rs.2 = Some 5)
    (sim_world (sim_fw 2 [(0, [0; 0; 0; 0; 0; 0; 0; 0; 5])])).
Proof. vm_compute. by repeat split. Qed.
