(* ===== verification/CmdInit.v ===== *)
(** * Setting up and tearing down the command channel ([mlx5_cmd.cpp])

    [mlx5_cmd_init] reads the queue geometry from the init segment, allocates
    and registers the command ring, allocates the mailbox pool and rings all
    doorbells; [mlx5_cmd_cleanup] releases both allocations.  The one C
    function is cut into its stages, which [mlx5_cmd_init] composes with the
    early returns of the source. *)

From S2P Require Import Prelude Bytes Registers IbVerbs World Wp Cmd CmdSpec.

Section CmdInit.
Context `{P : Platform}.

(** ** Definitions *)

(** Fields of the [CMDQ_PARAMS] register. *)
Definition cmdq_log_size (params : Z) : Z :=
  Z.land (Z.shiftr params MLX5_CMDQ_LOG_SIZE_SHIFT) MLX5_CMDQ_LOG_SIZE_MASK.
Definition cmdq_log_stride (params : Z) : Z :=
  Z.land (Z.shiftr params MLX5_CMDQ_LOG_STRIDE_SHIFT) MLX5_CMDQ_LOG_STRIDE_MASK.

(** Reset the context and read the geometry of the queue. *)
Definition cmd_init_params (ctx : ptr) (bar0 bar0_size : Z) : M unit :=
  assign ctx zero_mlx5_cmd_context ;;
  modify ctx (set_bar0 bar0) ;;
  modify ctx (set_bar0_size bar0_size) ;;
  modify ctx (set_iseg (bar0 + MLX5_INIT_SEG_OFFSET)) ;;
  c ← deref ctx;
  cmdq_params ← iseg_read32 (iseg c) MLX5_ISEG_CMDQ_PARAMS;
  let log_size := cmdq_log_size cmdq_params in
  let log_stride := cmdq_log_stride cmdq_params in
  n ← shl_int1 log_size;
  modify ctx (set_num_entries (u32 n)) ;;
  n ← shl_int1 log_stride;
  modify ctx (set_entry_stride (u32 n)) ;;
  c ← deref ctx;
  IOLog "CmdQ params" [log_size; log_stride; num_entries c; entry_stride c] ;;
  if MLX5_MAX_CMD_ENTRIES <? num_entries c then
    IOLog "WARNING: clamping entries" [num_entries c; MLX5_MAX_CMD_ENTRIES] ;;
    modify ctx (set_num_entries MLX5_MAX_CMD_ENTRIES)
  else mret tt.

Definition ring_bytes (c : mlx5_cmd_context) : Z := u32 (num_entries c * entry_stride c).

(** Allocate the ring and find its bus address. *)
Definition cmd_init_ring (ctx : ptr) : M IOReturn :=
  c ← deref ctx;
  let ring_size := ring_bytes c in
  md ← md_alloc ring_size;
  modify ctx (set_cmd_ring_md md) ;;
  if md =? NULL then
    IOLog "ERROR: failed to allocate command ring" [ring_size] ;;
    mret kIOReturnNoMemory
  else
    p ← md_getBytesNoCopy md;
    mem_fill p 0 ring_size 0 ;;
    p ← md_getBytesNoCopy md;
    modify ctx (set_cmd_ring p) ;;
    dmaCmd ← IODMACommand_withSpecification ring_size;
    if dmaCmd =? NULL then
      md_release md ;;
      mret kIOReturnNoResources
    else
      ret ← IODMACommand_setMemoryDescriptor dmaCmd md;
      if negb (io_ok ret) then
        obj_release dmaCmd ;;
        md_release md ;;
        mret ret
      else
        seg ← IODMACommand_gen64IOVMSegments dmaCmd md;
        let '(ret, segCount, addr) := seg in
        IODMACommand_clearMemoryDescriptor dmaCmd ;;
        obj_release dmaCmd ;;
        if negb (io_ok ret) || (segCount =? 0) then
          md_release md ;;
          mret (if negb (io_ok ret) then ret else kIOReturnError)
        else
          modify ctx (set_cmd_ring_dma addr) ;;
          IOLog "Command ring DMA" [addr; ring_size] ;;
          mret kIOReturnSuccess.

(** All entries owned by software, with an invalid token. *)
Definition cmd_init_entries (c : mlx5_cmd_context) : M unit :=
  for_range (Z.to_nat (num_entries c)) 0 (fun i =>
    let entry := u32 (i * entry_stride c) in
    st8 (cmd_ring c) (entry + off_status) MLX5_CMD_OWNER_SW ;;
    st32 (cmd_ring c) (entry + off_token) 0xFFFFFFFF).

(** The ring's address goes to the init segment. *)
Definition cmd_init_register (c : mlx5_cmd_context) : M unit :=
  iseg_write32 (iseg c) MLX5_ISEG_CMDQ_ADDR_L (u32 (Z.land (cmd_ring_dma c) 0xFFFFFFFF)) ;;
  iseg_write32 (iseg c) MLX5_ISEG_CMDQ_ADDR_H (u32 (Z.shiftr (cmd_ring_dma c) 32)) ;;
  IOLog "CmdQ DMA addr written to init segment" [].

(** The bus address of the mailbox pool; a failure is not reported. *)
Definition cmd_map_mbox (ctx md mbox_pool_size : Z) : M unit :=
  mboxDma ← IODMACommand_withSpecification mbox_pool_size;
  mwhen (negb (mboxDma =? NULL))
    (r ← IODMACommand_setMemoryDescriptor mboxDma md;
     mwhen (io_ok r)
       (seg ← IODMACommand_gen64IOVMSegments mboxDma md;
        let '(r, mcount, addr) := seg in
        mwhen (io_ok r && (0 <? mcount)) (modify ctx (set_mbox_dma_base addr))) ;;
     IODMACommand_clearMemoryDescriptor mboxDma ;;
     obj_release mboxDma).

(** Allocate the mailbox pool. *)
Definition cmd_init_mbox (ctx : ptr) : M IOReturn :=
  c ← deref ctx;
  modify ctx (set_num_mailboxes (u32 (num_entries c * 2))) ;;
  c ← deref ctx;
  let mbox_pool_size := u32 (num_mailboxes c * MLX5_CMD_MAILBOX_SIZE) in
  md ← md_alloc mbox_pool_size;
  modify ctx (set_mbox_md md) ;;
  if md =? NULL then
    IOLog "ERROR: failed to allocate mailbox pool" [mbox_pool_size] ;;
    md_release (cmd_ring_md c) ;;
    mret kIOReturnNoMemory
  else
    p ← md_getBytesNoCopy md;
    mem_fill p 0 mbox_pool_size 0 ;;
    p ← md_getBytesNoCopy md;
    modify ctx (set_mbox_pool p) ;;
    cmd_map_mbox ctx md mbox_pool_size ;;
    c ← deref ctx;
    IOLog "Mailbox pool" [num_mailboxes c; mbox_dma_base c] ;;
    mret kIOReturnSuccess.

(** All doorbells, to tell the firmware that the ring is there. *)
Definition cmd_init_doorbells (c : mlx5_cmd_context) : M IOReturn :=
  iseg_write32 (iseg c) MLX5_ISEG_CMD_DOORBELL 0xFFFFFFFF ;;
  IOSleep 10 ;;
  IOLog "Command queue initialized and registered with firmware" [] ;;
  mret kIOReturnSuccess.

Definition mlx5_cmd_init (ctx : ptr) (bar0 bar0_size : Z) : M IOReturn :=
  cmd_init_params ctx bar0 bar0_size ;;
  ret ← cmd_init_ring ctx;
  if negb (io_ok ret) then mret ret
  else
    c ← deref ctx;
    cmd_init_entries c ;;
    cmd_init_register c ;;
    ret ← cmd_init_mbox ctx;
    if negb (io_ok ret) then mret ret else cmd_init_doorbells c.

Definition mlx5_cmd_cleanup (ctx : ptr) : M unit :=
  c ← deref ctx;
  IOLog "cleanup" [total_commands c; failed_commands c] ;;
  mwhen (negb (mbox_md c =? NULL))
    (md_release (mbox_md c) ;; modify ctx (set_mbox_md NULL)) ;;
  c ← deref ctx;
  mwhen (negb (cmd_ring_md c =? NULL))
    (md_release (cmd_ring_md c) ;; modify ctx (set_cmd_ring_md NULL)).

(** ** The geometry *)

Lemma cmdq_log_size_range params : 0 <= cmdq_log_size params < 32.
Proof.
  unfold cmdq_log_size. rewrite (land_mask_mod _ 5) by (done || lia).
  apply Z.mod_pos_bound. lia.
Qed.

Lemma cmdq_log_stride_range params : 0 <= cmdq_log_stride params < 32.
Proof.
  unfold cmdq_log_stride. rewrite (land_mask_mod _ 5) by (done || lia).
  apply Z.mod_pos_bound. lia.
Qed.

(** The number of entries the driver uses. *)
Definition cmdq_entries (params : Z) : Z :=
  Z.min (2 ^ cmdq_log_size params) MLX5_MAX_CMD_ENTRIES.

(** The context after the first stage. *)
Definition init_ctx (bar0 bar0_size params : Z) : mlx5_cmd_context :=
  set_num_entries (cmdq_entries params) (set_entry_stride (2 ^ cmdq_log_stride params)
    (set_iseg (bar0 + MLX5_INIT_SEG_OFFSET) (set_bar0_size bar0_size
      (set_bar0 bar0 zero_mlx5_cmd_context)))).

(** The value of the [CMDQ_PARAMS] register in a world. *)
Definition cmdq_params_of (bar0 : Z) (w : world) : Z :=
  OSSwapInt32 (u32 (p_mmio_read (w_ps w)
    (bar0 + MLX5_INIT_SEG_OFFSET + MLX5_ISEG_CMDQ_PARAMS)).2).

Lemma params_spec ctx c0 bar0 bar0_size Q w :
  w_ctx w !! ctx = Some c0 ->
  mmio_mapped (w_maps w) (bar0 + MLX5_INIT_SEG_OFFSET + MLX5_ISEG_CMDQ_PARAMS) 4 = true ->
  (forall s t, Q tt (put_trace t (put_ctx (<[ctx := init_ctx bar0 bar0_size (cmdq_params_of bar0 w)]> (w_ctx w))
                      (put_ps s w)))) ->
  wp (cmd_init_params ctx bar0 bar0_size) Q w.
Proof.
  intros Hc Hm HQ. set (params := cmdq_params_of bar0 w) in *.
  pose proof (cmdq_log_size_range params) as Hls. pose proof (cmdq_log_stride_range params) as Hlt.
  open_world w. unfold cmd_init_params. wp_steps. unfold iseg_read32. wp_steps.
  eapply wp_mmio_read32; [done|]. wnorm. wp_steps. fold params.
  change (OSSwapInt32 _) with params. apply wp_shl_int1; [done|]. wp_steps.
  apply wp_shl_int1; [done|]. wp_steps. rewrite !u32_shl1 by done. simpl num_entries.
  assert (Hctx : forall n, n = cmdq_entries params ->
    set_num_entries n (set_entry_stride (2 ^ cmdq_log_stride params)
      (set_num_entries (2 ^ cmdq_log_size params) (set_iseg (bar0 + MLX5_INIT_SEG_OFFSET)
        (set_bar0_size bar0_size (set_bar0 bar0 zero_mlx5_cmd_context))))) =
    init_ctx bar0 bar0_size params) by (by intros ? ->).
  unfold cmdq_entries in Hctx. 
  destruct (Z.ltb_spec MLX5_MAX_CMD_ENTRIES (2 ^ cmdq_log_size params)).
  - wp_steps. rewrite !insert_insert_eq, Hctx by lia. apply HQ.
  - wp_steps. rewrite !insert_insert_eq. specialize (Hctx (2 ^ cmdq_log_size params)).
    rewrite <- Hctx in HQ by lia. apply HQ.
Qed.

(** ** Frames *)

(** Objects created since the counter was [n] have been released. *)
Definition objs_frame (n : Z) (o o' : gmap Z Z) : Prop :=
  forall p, o' !! p = o !! p \/ n <= p /\ o' !! p = Some 0.

Lemma objs_frame_refl n o : objs_frame n o o.
Proof. by left. Qed.

Lemma objs_frame_release n q o : n <= q -> objs_frame n o (<[q := 1 - 1]> (<[q := 1]> o)).
Proof.
  intros Hq p. rewrite insert_insert_eq. destruct (decide (p = q)) as [->|].
  - right. split; [done|]. apply lookup_insert_eq.
  - left. by rewrite lookup_insert_ne.
Qed.

Lemma objs_frame_trans n1 n2 o1 o2 o3 :
  n1 <= n2 -> objs_frame n1 o1 o2 -> objs_frame n2 o2 o3 -> objs_frame n1 o1 o3.
Proof.
  intros Hn H1 H2 p. destruct (H2 p) as [-> | [? ->]]; [apply H1|]. right. split; [lia|done].
Qed.

(** What a stage may change: the platform, DMA memory, the allocation counter,
    the context and the trace; every [IODMACommand] object it created is
    released again, and other objects keep their reference counts. *)
Definition init_frame (ctx : ptr) (w w' : world) : Prop :=
  w_next w <= w_next w' /\ objs_frame (w_next w) (w_objs w) (w_objs w') /\
  exists s h n o c t, w' = put_trace t (put_ctx (<[ctx := c]> (w_ctx w))
    (put_objs o (put_next n (put_heap h (put_ps s w))))).

Lemma init_frame_trans ctx w1 w2 w3 :
  init_frame ctx w1 w2 -> init_frame ctx w2 w3 -> init_frame ctx w1 w3.
Proof.
  intros (Hn1 & Ho1 & s1 & h1 & n1 & o1 & c1 & t1 & ->) (Hn & Ho & s & h & n & o & c & t & ->).
  split; [simpl in *; lia|]. split; [by eapply objs_frame_trans|].
  exists s, h, n, o, c, t. unfold put_ctx; simpl. by rewrite insert_insert_eq.
Qed.

(** Blocks other than the ones of a list are untouched. *)
Definition only_blocks (ids : list Z) (h h' : heap) : Prop :=
  forall p, ~ (p ∈ ids) -> h' !! p = h !! p.

(** A released block. *)
Definition dead (h : heap) (p : ptr) : Prop := exists b, h !! p = Some b /\ blk_refs b = 0.

(** ** The ring *)

Definition ring_result (c : mlx5_cmd_context) (w : world) (ctx : ptr) (r : IOReturn)
    (w' : world) : Prop :=
  let id := w_next w in
  match r with
  | kIOReturnSuccess =>
      exists b addr, w_heap w' !! id = Some b /\ blk_refs b = 1 /\
        buf_size (blk_buf b) = ring_bytes c /\
        w_ctx w' !! ctx =
          Some (set_cmd_ring_dma (u64 addr) (set_cmd_ring id (set_cmd_ring_md id c)))
  | _ =>
      r = kIOReturnNoMemory /\
      w_ctx w' !! ctx = Some (set_cmd_ring_md NULL c) /\ w_heap w' = w_heap w \/
      w_ctx w' !! ctx = Some (set_cmd_ring id (set_cmd_ring_md id c)) /\ dead (w_heap w') id
  end.

Lemma ring_bytes_pos c : 0 <= ring_bytes c.
Proof. apply u32_range. Qed.

Ltac init_frame_tac :=
  split; [simpl in *; lia|];
  split; [first [apply objs_frame_refl|apply objs_frame_release; simpl; lia
               |eapply objs_frame_trans; [|apply objs_frame_refl|eassumption]; simpl; lia]|];
  eexists _, _, _, _, _, _; rewrite ?insert_insert_eq; reflexivity.

Ltac only_blocks_tac :=
  let p := fresh in let Hp := fresh in
  intros p Hp; wproj; rewrite ?upd_buf_insert, ?insert_insert_eq;
  rewrite ?lookup_insert_ne by set_solver; reflexivity.

(** The post-condition of a failure after the allocation. *)
Lemma ring_fail ctx c w w' r b :
  io_ok r = false -> init_frame ctx w w' -> w_next w <= w_next w' ->
  only_blocks [w_next w] (w_heap w) (w_heap w') ->
  w_ctx w' !! ctx = Some (set_cmd_ring (w_next w) (set_cmd_ring_md (w_next w) c)) ->
  w_heap w' !! w_next w = Some b -> blk_refs b = 0 ->
  init_frame ctx w w' /\ w_next w <= w_next w' /\ (r = kIOReturnSuccess -> w_next w < w_next w') /\
  only_blocks [w_next w] (w_heap w) (w_heap w') /\ ring_result c w ctx r w'.
Proof.
  intros Hr ?????. do 2 (split; [done|]). split; [intros ->; done|]. split; [done|].
  unfold ring_result. destruct r; try done; right; split; try done; by exists b.
Qed.

Ltac ring_fail_tac :=
  eapply ring_fail;
  [done|init_frame_tac|simpl; lia|only_blocks_tac|wproj; rewrite ?insert_insert_eq; apply lookup_insert_eq
  |wproj; rewrite ?upd_buf_insert; apply lookup_insert_eq|simpl; lia].

Lemma ring_spec ctx c w :
  w_ctx w !! ctx = Some c -> 0 < w_next w ->
  wp (cmd_init_ring ctx) (fun r w' =>
    init_frame ctx w w' /\ w_next w <= w_next w' /\ (r = kIOReturnSuccess -> w_next w < w_next w') /\
    only_blocks [w_next w] (w_heap w) (w_heap w') /\ ring_result c w ctx r w') w.
Proof.
  intros Hc Hn. pose proof (ring_bytes_pos c). open_world w. unfold cmd_init_ring. wp_steps.
  apply wp_md_alloc; intros s; [|intros dma contents]; wnorm; wp_steps; try change (NULL =? NULL) with true; cbn [w_next]; wnorm.
  { wp_steps. split; [init_frame_tac|]. split; [simpl; lia|]. split; [done|].
    split; [only_blocks_tac|]. left. split; [done|]. split; [apply lookup_insert_eq|done]. }
  rewrite (proj2 (Z.eqb_neq nx NULL)) by (unfold NULL; lia). wp_steps.
  apply wp_dma_new; intros s1; wnorm; wp_steps; try change (NULL =? NULL) with true; cbn [w_next]; wnorm.
  { wp_steps. ring_fail_tac. }
  rewrite (proj2 (Z.eqb_neq (nx + 1) NULL)) by (unfold NULL; lia). wp_steps.
  destruct (io_ok ret) eqn:Eret; cbn [negb]; wnorm; wp_steps; [|ring_fail_tac].
  unfold IODMACommand_clearMemoryDescriptor. wp_steps.
  destruct (io_ok ret0) eqn:Eret0; cbn [negb orb]; wnorm; [|wp_steps; ring_fail_tac].
  destruct (u64 segs =? 0); wnorm; wp_steps; [ring_fail_tac|].
  split; [init_frame_tac|]. do 2 (split; [simpl; lia|]). split; [only_blocks_tac|].
  eexists _, _. wproj. rewrite upd_buf_insert, lookup_insert_eq, !insert_insert_eq, lookup_insert_eq.
  repeat (split; [reflexivity|]). reflexivity.
Qed.

(** ** The entries *)


(** An entry that software owns and that carries no valid token. *)
Definition entry_idle (r : buf) (stride i : Z) : Prop :=
  buf_get r (i * stride + off_status) = MLX5_CMD_OWNER_SW /\
  be_at r (i * stride + off_token) 4 = 0xFFFFFFFF.

(** The two stores of one iteration. *)
Definition idle_store (e : Z) (r : buf) : buf :=
  buf_store (buf_store r (e + off_status) (le_split 1 MLX5_CMD_OWNER_SW))
    (e + off_token) (le_split 4 0xFFFFFFFF).

Lemma idle_store_idle r stride i : entry_idle (idle_store (i * stride) r) stride i.
Proof.
  split; unfold idle_store.
  - rewrite buf_get_store_out by offs. rewrite buf_get_store_in by (apply le_split_bytes || offs).
    by rewrite Z.sub_diag.
  - exact (be_at_store_same _ _ 4 0xFFFFFFFF).
Qed.

Lemma idle_store_other r stride i j :
  off_token + 4 <= stride -> i < j ->
  entry_idle r stride i -> entry_idle (idle_store (j * stride) r) stride i.
Proof.
  intros Hs Hij [H1 H2]. unfold off_token in Hs.
  assert (i * stride + stride <= j * stride) by nia. split; unfold idle_store.
  - by rewrite !buf_get_store_out by offs.
  - by rewrite !be_at_store_out by offs.
Qed.

Definition entries_inv (c : mlx5_cmd_context) (w : world) (j : Z) (w' : world) : Prop :=
  exists t r, io_frame t w w' /\ live_buf (w_heap w') (cmd_ring c) = Some r /\ buf_size r = ring_bytes c /\
    w_ps w' = w_ps w /\ only_blocks [cmd_ring c] (w_heap w) (w_heap w') /\
    forall i, 0 <= i < j -> entry_idle r (entry_stride c) i.

Lemma entries_spec c r w :
  0 <= num_entries c -> off_token + 4 <= entry_stride c ->
  num_entries c * entry_stride c < 2 ^ 32 ->
  live_buf (w_heap w) (cmd_ring c) = Some r -> buf_size r = ring_bytes c ->
  wp (cmd_init_entries c) (fun _ => entries_inv c w (num_entries c)) w.
Proof.
  intros Hn Hst Hov Hr Hrs. unfold cmd_init_entries, off_token in *.
  assert (Hrb : ring_bytes c = num_entries c * entry_stride c) by (apply u32_small; nia).
  eapply wp_mono; [apply (wp_for_range _ 0 _ (entries_inv c w))|
    intros [] w'; by replace (0 + Z.of_nat (Z.to_nat (num_entries c))) with (num_entries c) by lia].
  { exists [], r. split; [apply io_frame_refl|]. repeat (split; [done|]). intros; lia. }
  intros j w' Hj (t & b & F & Hb & Hbs & Hps & Hob & Hidle).
  rewrite u32_small by nia. open_world w'.
  assert (j * entry_stride c + entry_stride c <= num_entries c * entry_stride c) by nia.
  unfold st8, st32, off_status, off_token. apply wp_bind.
  eapply wp_mem_store; [exact Hb|simpl; lia|simpl; lia|]. wnorm.
  eapply wp_mem_store; [solve_live|simpl; lia|simpl; lia|]. wnorm.
  eexists _, (idle_store (j * entry_stride c) b). split.
  { eapply (io_frame_trans _ [EvStore _ _ _; EvStore _ _ _]); [exact F|].
    apply io_frame_intro; [reflexivity|reflexivity|]. solve_shape. }
  split; [solve_live|]. split; [done|]. split; [done|]. split.
  { intros p Hp. wproj. apply not_elem_of_cons in Hp as [Hne _].
    rewrite !upd_buf_ne by done. by apply Hob, not_elem_of_cons; auto using not_elem_of_nil. }
  intros i Hi. destruct (decide (i = j)) as [->|]; [apply idle_store_idle|].
  apply idle_store_other; [done|lia|apply Hidle; lia].
Qed.

(** ** Registration *)

Lemma register_spec c w :
  mmio_mapped (w_maps w) (iseg c + MLX5_ISEG_CMDQ_ADDR_L) 4 = true ->
  mmio_mapped (w_maps w) (iseg c + MLX5_ISEG_CMDQ_ADDR_H) 4 = true ->
  wp (cmd_init_register c) (fun _ w' => w_heap w' = w_heap w /\ io_frame
    [EvLog "CmdQ DMA addr written to init segment" [];
     EvMmioWrite (iseg c + MLX5_ISEG_CMDQ_ADDR_H)
       (OSSwapInt32 (u32 (Z.shiftr (cmd_ring_dma c) 32)));
     EvMmioWrite (iseg c + MLX5_ISEG_CMDQ_ADDR_L)
       (OSSwapInt32 (u32 (Z.land (cmd_ring_dma c) 0xFFFFFFFF)))] w w') w.
Proof.
  intros HL HH. open_world w. unfold cmd_init_register. wp_prim.
  apply wp_iseg_write32; [done|]. wnorm. wp_prim.
  apply wp_iseg_write32; [done|]. wnorm. wp_steps. split; [done|].
  by apply io_frame_intro.
Qed.

(** ** The mailboxes *)

Lemma map_mbox_spec ctx md size c Q w :
  w_ctx w !! ctx = Some c -> 0 < w_next w ->
  (forall s n o base, w_next w <= n -> objs_frame (w_next w) (w_objs w) o ->
     Q tt (put_ctx (<[ctx := set_mbox_dma_base base c]> (w_ctx w))
            (put_objs o (put_next n (put_ps s w))))) ->
  wp (cmd_map_mbox ctx md size) Q w.
Proof.
  intros Hc Hn HQ. open_world w. unfold cmd_map_mbox. wp_prim.
  assert (Hsame : forall s n o, nx <= n -> objs_frame nx objs o ->
    Q tt (Mk_world s hp n o maps ctxs ibdevs mdevs pds cqs qps mrs tr)).
  { intros s n o Hno Ho. specialize (HQ s n o (mbox_dma_base c) Hno Ho).
    replace (set_mbox_dma_base (mbox_dma_base c) c) with c in HQ by (by destruct c).
    rewrite insert_id in HQ by done. exact HQ. }
  apply wp_dma_new; intros s; cbn [w_next]; wnorm.
  { change (NULL =? NULL) with true. wp_steps. apply Hsame; [lia|apply objs_frame_refl]. }
  rewrite (proj2 (Z.eqb_neq nx NULL)) by (unfold NULL; lia). cbn [negb]. wp_steps.
  destruct (io_ok ret); wp_steps; unfold IODMACommand_clearMemoryDescriptor; wp_steps;
    [|apply (Hsame _ (nx + 1)); [lia|apply objs_frame_release; lia]].
  destruct (io_ok ret0 && (0 <? u64 segs)); wp_steps; unfold IODMACommand_clearMemoryDescriptor;
    wp_steps; [apply (HQ _ (nx + 1))|apply (Hsame _ (nx + 1))];
    first [lia|apply objs_frame_release; lia].
Qed.

Definition mbox_bytes (c : mlx5_cmd_context) : Z :=
  u32 (u32 (num_entries c * 2) * MLX5_CMD_MAILBOX_SIZE).

Definition mbox_result (c : mlx5_cmd_context) (ring_b : block) (w : world) (ctx : ptr)
    (r : IOReturn) (w' : world) : Prop :=
  let id := w_next w in
  let c1 := set_num_mailboxes (u32 (num_entries c * 2)) c in
  match r with
  | kIOReturnSuccess =>
      exists b base, w_heap w' !! id = Some b /\ blk_refs b = 1 /\
        buf_size (blk_buf b) = mbox_bytes c /\ w_heap w' !! cmd_ring_md c = Some ring_b /\
        w_ctx w' !! ctx = Some (set_mbox_dma_base base (set_mbox_pool id (set_mbox_md id c1)))
  | _ =>
      w_ctx w' !! ctx = Some (set_mbox_md NULL c1) /\
      w_heap w' = <[cmd_ring_md c := Block (blk_buf ring_b) (blk_dma ring_b) (blk_refs ring_b - 1)]>
                    (w_heap w)
  end.

Lemma mbox_spec ctx c b w :
  w_ctx w !! ctx = Some c -> 0 < w_next w -> w_heap w !! cmd_ring_md c = Some b ->
  0 < blk_refs b -> cmd_ring_md c < w_next w ->
  wp (cmd_init_mbox ctx) (fun r w' =>
    init_frame ctx w w' /\ w_next w <= w_next w' /\
    only_blocks [w_next w; cmd_ring_md c] (w_heap w) (w_heap w') /\
    (r = kIOReturnSuccess \/ r = kIOReturnNoMemory) /\ mbox_result c b w ctx r w') w.
Proof.
  intros Hc Hn Hb Hrefs Hlt. open_world w. unfold cmd_init_mbox.
  assert (0 <= mbox_bytes c) by apply u32_range. wp_steps.
  change (u32 (num_mailboxes _ * MLX5_CMD_MAILBOX_SIZE)) with (mbox_bytes c).
  apply wp_md_alloc; intros s; [|intros dma contents]; cbn [w_next]; wnorm; wp_steps.
  { change (NULL =? NULL) with true. wp_steps.
    split; [init_frame_tac|]. split; [simpl; lia|].
    split; [only_blocks_tac|]. split; [by right|]. split; [|done].
    rewrite insert_insert_eq. apply lookup_insert_eq. }
  rewrite (proj2 (Z.eqb_neq nx NULL)) by (unfold NULL; lia). wp_steps.
  eapply map_mbox_spec; [solve_cell|simpl; lia|]. intros s1 n o base Hno Ho. wnorm. wp_steps.
  split; [init_frame_tac|]. split; [simpl in *; lia|].
  split; [only_blocks_tac|]. split; [by left|].
  eexists _, base. wproj. rewrite upd_buf_insert, lookup_insert_eq, !insert_insert_eq, lookup_insert_eq.
  repeat (split; [reflexivity|]). split; [|reflexivity].
  by rewrite lookup_insert_ne by lia.
Qed.

(** ** The whole initialisation *)

Lemma init_frame_io ctx c t w w' :
  w_ctx w !! ctx = Some c -> io_frame t w w' -> init_frame ctx w w'.
Proof.
  intros Hc (s & h & -> & _). split; [done|]. split; [apply objs_frame_refl|].
  exists s, h, (w_next w), (w_objs w), c, (t ++ w_trace w).
  rewrite insert_id by done. by destruct w.
Qed.

Lemma init_frame_maps ctx w w' : init_frame ctx w w' -> w_maps w' = w_maps w.
Proof. by intros (_ & _ & s & h & n & o & c & t & ->). Qed.

(** The init segment is mapped. *)
Definition iseg_mapped (bar0 : Z) (w : world) : Prop :=
  forall o, 0 <= o <= MLX5_ISEG_INITIALIZING ->
    mmio_mapped (w_maps w) (bar0 + MLX5_INIT_SEG_OFFSET + o) 4 = true.

(** A geometry the driver can handle: the token of an entry, at 28 to 31, is
    within the stride; the ring has room for a whole entry; and its size does
    not overflow.  The source checks none of this. *)
Definition geometry_ok (params : Z) : Prop :=
  5 <= cmdq_log_stride params /\
  MLX5_CMD_ENTRY_SIZE <= cmdq_entries params * 2 ^ cmdq_log_stride params < 2 ^ 32.

(** A geometry with which the initialisation of the entries leaves the ring. *)
Definition geometry_bad (params : Z) : Prop :=
  cmdq_log_stride params < 5 \/ 2 ^ 32 <= cmdq_entries params * 2 ^ cmdq_log_stride params.

(** The one other geometry: a ring of 32 bytes, half an entry. *)
Definition geometry_short (params : Z) : Prop :=
  cmdq_log_stride params = 5 /\ cmdq_entries params = 1.

Lemma cmdq_entries_range params : 1 <= cmdq_entries params <= 32.
Proof.
  unfold cmdq_entries, MLX5_MAX_CMD_ENTRIES.
  pose proof (Z.pow_pos_nonneg 2 (cmdq_log_size params)).
  pose proof (cmdq_log_size_range params). lia.
Qed.

Lemma geometry_stride params :
  geometry_ok params ->
  32 <= 2 ^ cmdq_log_stride params /\ 64 <= cmdq_entries params * 2 ^ cmdq_log_stride params < 2 ^ 32.
Proof.
  intros [H1 H2]. split; [|exact H2]. change 32 with (2 ^ 5). apply Z.pow_le_mono_r; lia.
Qed.

Lemma geometry_cases params : geometry_ok params \/ geometry_bad params \/ geometry_short params.
Proof.
  unfold geometry_ok, geometry_bad, geometry_short, MLX5_CMD_ENTRY_SIZE.
  pose proof (cmdq_entries_range params) as Hn. set (k := cmdq_log_stride params).
  destruct (decide (k < 5)); [by right; left; left|].
  assert (H32 : 2 ^ 5 <= 2 ^ k) by (apply Z.pow_le_mono_r; lia).
  destruct (decide (2 ^ 32 <= cmdq_entries params * 2 ^ k)); [by right; left; right|].
  destruct (decide (64 <= cmdq_entries params * 2 ^ k)); [left; lia|]. right; right.
  assert (Hk : ~ 6 <= k) by (intros Hk; assert (2 ^ 6 <= 2 ^ k) by (apply Z.pow_le_mono_r; lia); nia).
  split; [lia|]. nia.
Qed.

(** The initialised context. *)
Definition ready_ctx (params ring mbox : Z) (c : mlx5_cmd_context) : Prop :=
  num_entries c = cmdq_entries params /\ entry_stride c = 2 ^ cmdq_log_stride params /\
  num_mailboxes c = 2 * cmdq_entries params /\
  cmd_ring c = ring /\ cmd_ring_md c = ring /\ mbox_pool c = mbox /\ mbox_md c = mbox /\
  next_token c = 0 /\ total_commands c = 0 /\ failed_commands c = 0.

(** The two allocations, each with one reference. *)
Definition owns (h : heap) (p size : Z) : Prop :=
  exists b, h !! p = Some b /\ blk_refs b = 1 /\ buf_size (blk_buf b) = size.

(** Initialised for the geometry [params], since [w0]. *)
Definition init_up (params : Z) (w0 : world) (ctx : ptr) (w' : world) : Prop :=
  exists c ring mbox, cmd_ready ctx c w' /\ ready_ctx params ring mbox c /\
    owns (w_heap w') ring (cmdq_entries params * 2 ^ cmdq_log_stride params) /\
    owns (w_heap w') mbox (cmdq_entries params * 8192) /\
    w_next w0 <= ring /\ w_next w0 <= mbox /\
    forall p b, live_buf (w_heap w') p = Some b -> is_Some (w_heap w0 !! p) \/ p = ring \/ p = mbox.

Definition init_done (ctx bar0 : ptr) (w w' : world) : Prop :=
  init_up (cmdq_params_of bar0 w) w ctx w'.

(** After a failure: nothing new is alive, and the context's ring pointer is
    null or dangling. *)
Definition init_failed (ctx : ptr) (w w' : world) (r : IOReturn) : Prop :=
  (forall p b, live_buf (w_heap w') p = Some b -> is_Some (w_heap w !! p)) /\
  exists c, w_ctx w' !! ctx = Some c /\ mbox_md c = NULL /\
    (cmd_ring_md c = NULL /\ r = kIOReturnNoMemory \/
     cmd_ring_md c <> NULL /\ dead (w_heap w') (cmd_ring_md c)).

Definition init_post (ctx bar0 : ptr) (w : world) (r : IOReturn) (w' : world) : Prop :=
  init_frame ctx w w' /\
  match r with kIOReturnSuccess => init_done ctx bar0 w w' | _ => init_failed ctx w w' r end.

Lemma dead_not_live h p b : dead h p -> live_buf h p = Some b -> False.
Proof. intros (c & Hc & Hr) Hl. unfold live_buf in Hl. by rewrite Hc, Hr in Hl. Qed.

Lemma only_blocks_live ids w w' p b :
  only_blocks ids (w_heap w) (w_heap w') ->
  (forall q, q ∈ ids -> is_Some (w_heap w !! q) \/ dead (w_heap w') q) ->
  live_buf (w_heap w') p = Some b -> is_Some (w_heap w !! p).
Proof.
  intros Hob Hids Hl. destruct (decide (p ∈ ids)) as [Hp|Hp].
  - destruct (Hids p Hp) as [|Hd]; [done|]. by destruct (dead_not_live _ _ _ Hd Hl).
  - apply live_buf_lookup in Hl as (c & Hc & _). rewrite (Hob p Hp) in Hc. by eexists.
Qed.

Lemma ring_failed ctx c w w' r :
  r <> kIOReturnSuccess -> fresh_ok w -> mbox_md c = NULL ->
  only_blocks [w_next w] (w_heap w) (w_heap w') ->
  ring_result c w ctx r w' -> init_failed ctx w w' r.
Proof.
  intros Hr Hf Hm Hob Hres. pose proof (proj1 Hf) as Hpos.
  assert (Hcases : r = kIOReturnNoMemory /\
      w_ctx w' !! ctx = Some (set_cmd_ring_md NULL c) /\ w_heap w' = w_heap w \/
      w_ctx w' !! ctx = Some (set_cmd_ring (w_next w) (set_cmd_ring_md (w_next w) c)) /\
      dead (w_heap w') (w_next w)) by (destruct r; done). clear Hres.
  destruct Hcases as [(-> & Hc & Hh)|[Hc Hd]].
  - split; [|eexists; split; [exact Hc|]; split; [done|]; by left].
    intros p b (x & Hx & _)%live_buf_lookup. rewrite Hh in Hx. by eexists.
  - split.
    + intros p b. apply (only_blocks_live [w_next w]); [done|].
      intros q ->%list_elem_of_singleton. by right.
    + eexists. split; [exact Hc|]. split; [done|]. right. split; [|done]. unfold NULL. simpl. lia.
Qed.

(** The stages after the ring was allocated. *)
Lemma owns_shape h h' p n : heap_shape h' = heap_shape h -> owns h p n -> owns h' p n.
Proof.
  intros Hs (b & Hb & Hr & Hn). symmetry in Hs.
  destruct (heap_shape_blk _ _ _ _ Hs Hb) as (b' & Hb' & Hbs & Hbr).
  exists b'. split; [done|]. split; congruence.
Qed.

Lemma owns_live h p n : owns h p n -> exists b, live_buf h p = Some b /\ buf_size b = n.
Proof.
  intros (b & Hb & Hr & Hn). exists (blk_buf b). split; [apply live_of_blk; [done|lia]|done].
Qed.

Lemma doorbells_spec ctx c cw ring mbox params w0 w :
  geometry_ok params -> w_ctx w !! ctx = Some c -> ready_ctx params ring mbox c ->
  iseg cw = iseg c ->
  mmio_mapped (w_maps w) (iseg c + MLX5_ISEG_CMD_DOORBELL) 4 = true ->
  owns (w_heap w) ring (cmdq_entries params * 2 ^ cmdq_log_stride params) ->
  owns (w_heap w) mbox (cmdq_entries params * 8192) ->
  w_next w0 <= ring < mbox ->
  (forall p b, live_buf (w_heap w) p = Some b -> is_Some (w_heap w0 !! p) \/ p = ring \/ p = mbox) ->
  wp (cmd_init_doorbells cw) (fun r w' =>
    r = kIOReturnSuccess /\ init_frame ctx w w' /\ init_up params w0 ctx w') w.
Proof.
  intros Hg Hc Hctx Ecw Hmm Hor Hom Hle Hlive. unfold cmd_init_doorbells. rewrite Ecw.
  apply wp_bind, wp_iseg_write32; [done|]. apply wp_bind, wp_sleep, wp_bind, wp_log, wp_ret.
  match goal with |- context [device_run ?x] => set (w1 := x) end.
  set (w2 := put_trace _ (device_run w1)). split; [done|].
  assert (Hsh : heap_shape (w_heap w2) = heap_shape (w_heap w)) by exact (heap_shape_device_run w1).
  split.
  { eapply (init_frame_io _ _ [_; _; _]); [exact Hc|]. eexists _, _. by split; [reflexivity|]. }
  apply (owns_shape _ (w_heap w2)) in Hor, Hom; [|done..].
  exists c, ring, mbox. split; [|repeat (split; [done || lia|])].
  - pose proof Hctx as (_ & _ & _ & <- & _ & <- & _).
    destruct (owns_live _ _ _ Hor) as (r & Hr & Hrs). destruct (owns_live _ _ _ Hom) as (m & Hm & Hms).
    pose proof (cmdq_entries_range params). pose proof (geometry_stride params Hg).
    split; [done|exists r; split; [done|]|exists m; split; [done|]|lia|done].
    + unfold MLX5_CMD_ENTRY_SIZE. nia.
    + unfold MLX5_CMD_MAILBOX_SIZE. lia.
  - intros p x Hp. destruct (heap_shape_live _ _ _ _ Hsh Hp) as (x' & Hx & _).
    by eapply Hlive.
Qed.

(** What [after_ring] needs of the context: the ring was just allocated. *)
Record ring_ctx (params : Z) (w0 w : world) (ctx : ptr) (c : mlx5_cmd_context) (b : block) : Prop := {
  rc_ctx : w_ctx w !! ctx = Some c;
  rc_new : w_next w0 <= cmd_ring c < w_next w;
  rc_md : cmd_ring_md c = cmd_ring c;
  rc_entries : num_entries c = cmdq_entries params;
  rc_stride : entry_stride c = 2 ^ cmdq_log_stride params;
  rc_counts : next_token c = 0 /\ total_commands c = 0 /\ failed_commands c = 0;
  rc_mmio : forall o, 0 <= o <= MLX5_ISEG_INITIALIZING -> mmio_mapped (w_maps w) (iseg c + o) 4 = true;
  rc_block : w_heap w !! cmd_ring c = Some b;
  rc_refs : blk_refs b = 1;
  rc_size : buf_size (blk_buf b) = ring_bytes c
}.
(** Entries and registration are input and output on the ring. *)
Lemma entries_register_spec ctx c b params w0 w :
  geometry_ok params -> ring_ctx params w0 w ctx c b ->
  wp (cmd_init_entries c ;; cmd_init_register c) (fun _ w' => exists t b',
    io_frame t w w' /\ ring_ctx params w0 w' ctx c b' /\
    only_blocks [cmd_ring c] (w_heap w) (w_heap w')) w.
Proof.
  intros Hg [Hc Hnew Hmd Hne Hst Hcnt Hmm Hb Hrefs Hsz].
  pose proof (cmdq_entries_range params). pose proof (geometry_stride params Hg).
  apply wp_bind. eapply wp_mono.
  { apply (entries_spec c (blk_buf b)); [lia|unfold off_token; lia|rewrite Hne, Hst; lia| |done].
    apply live_of_blk; [done|lia]. }
  intros _ w1 (t1 & r1 & F1 & _ & _ & _ & Hob1 & _).
  assert (Hmm1 : w_maps w1 = w_maps w) by (by destruct F1 as (? & ? & -> & _)).
  eapply wp_mono; [apply register_spec; rewrite Hmm1; by apply Hmm|].
  intros _ w2 (Hh2 & F2). pose proof (io_frame_trans _ _ _ _ _ F1 F2) as F.
  assert (Hsh : heap_shape (w_heap w) = heap_shape (w_heap w2)) by (by destruct F as (? & ? & -> & ?)).
  destruct (heap_shape_blk _ _ _ _ Hsh Hb) as (b2 & Hb2 & Hbs2 & Hrefs2).
  eexists _, b2. split; [exact F|]. split; [|by rewrite Hh2].
  destruct F as (ps2 & h2 & -> & _). by split; try done; congruence.
Qed.

Lemma ring_bytes_exact params c :
  geometry_ok params -> num_entries c = cmdq_entries params ->
  entry_stride c = 2 ^ cmdq_log_stride params ->
  ring_bytes c = cmdq_entries params * 2 ^ cmdq_log_stride params.
Proof.
  intros Hg Hn Hs. pose proof (cmdq_entries_range params). pose proof (geometry_stride params Hg).
  unfold ring_bytes. rewrite Hn, Hs. apply u32_small. nia.
Qed.

Lemma mbox_bytes_exact params c :
  num_entries c = cmdq_entries params -> mbox_bytes c = cmdq_entries params * 8192.
Proof.
  intros Hn. pose proof (cmdq_entries_range params).
  unfold mbox_bytes, MLX5_CMD_MAILBOX_SIZE. rewrite Hn, (u32_small (_ * 2)), u32_small by lia. lia.
Qed.

(** What the mailbox stage leaves, in terms of the two allocations. *)
Lemma mbox_up ctx c b params w0 w w' :
  geometry_ok params -> fresh_ok w0 -> ring_ctx params w0 w ctx c b ->
  only_blocks [cmd_ring c] (w_heap w0) (w_heap w) ->
  only_blocks [w_next w; cmd_ring c] (w_heap w) (w_heap w') ->
  mbox_result c b w ctx kIOReturnSuccess w' ->
  exists c', w_ctx w' !! ctx = Some c' /\ ready_ctx params (cmd_ring c) (w_next w) c' /\
    iseg c = iseg c' /\
    owns (w_heap w') (cmd_ring c) (cmdq_entries params * 2 ^ cmdq_log_stride params) /\
    owns (w_heap w') (w_next w) (cmdq_entries params * 8192) /\
    forall p b, live_buf (w_heap w') p = Some b ->
      is_Some (w_heap w0 !! p) \/ p = cmd_ring c \/ p = w_next w.
Proof.
  intros Hg Hf [Hc Hnew Hmd Hne Hst Hcnt Hmm Hb Hrefs Hsz] Hob Hob' (m & base & Hm & Hmr & Hms & Hring & Hc').
  rewrite Hmd in Hring. pose proof (cmdq_entries_range params).
  eexists. split; [exact Hc'|]. split; [|split; [done|split; [|split]]].
  - unfold ready_ctx. simpl. rewrite Hne, Hst, Hmd, u32_small by lia.
    repeat (split; [first [reflexivity|lia]|]). apply Hcnt.
  - exists b. rewrite Hsz. split; [done|]. split; [done|]. by apply ring_bytes_exact.
  - exists m. split; [done|]. split; [done|]. rewrite Hms. by apply mbox_bytes_exact.
  - intros p x (y & Hy & _)%live_buf_lookup.
    destruct (decide (p = cmd_ring c)) as [->|]; [by right; left|].
    destruct (decide (p = w_next w)) as [->|]; [by right; right|]. left.
    rewrite (Hob' p), (Hob p) in Hy by (rewrite !not_elem_of_cons; auto using not_elem_of_nil).
    by eexists.
Qed.

Lemma mbox_failed ctx c b params w0 w w' :
  fresh_ok w0 -> ring_ctx params w0 w ctx c b ->
  only_blocks [cmd_ring c] (w_heap w0) (w_heap w) ->
  mbox_result c b w ctx kIOReturnNoMemory w' -> init_failed ctx w0 w' kIOReturnNoMemory.
Proof.
  intros [Hpos _] [Hc Hnew Hmd Hne Hst Hcnt Hmm Hb Hrefs Hsz] Hob [Hc' Hh]. rewrite Hmd in Hh.
  assert (Hd : dead (w_heap w') (cmd_ring c)).
  { rewrite Hh. eexists. split; [apply lookup_insert_eq|]. simpl. lia. }
  split.
  - intros p x. apply (only_blocks_live [cmd_ring c]).
    + intros q Hq. pose proof Hq as [Hq' _]%not_elem_of_cons. rewrite Hh, lookup_insert_ne by done.
      by apply Hob.
    + intros q ->%list_elem_of_singleton. by right.
  - eexists. split; [exact Hc'|]. split; [done|]. right. simpl. rewrite Hmd.
    split; [unfold NULL; lia|done].
Qed.

Definition init_result (params : Z) (w0 : world) (ctx : ptr) (r : IOReturn) (w : world) : Prop :=
  match r with kIOReturnSuccess => init_up params w0 ctx w | _ => init_failed ctx w0 w r end.

Lemma after_ring ctx c b w w0 params :
  fresh_ok w0 -> geometry_ok params -> ring_ctx params w0 w ctx c b ->
  only_blocks [cmd_ring c] (w_heap w0) (w_heap w) ->
  wp (cmd_init_entries c ;; cmd_init_register c ;;
      ret ← cmd_init_mbox ctx;
      if negb (io_ok ret) then mret ret else cmd_init_doorbells c)
    (fun r w' => init_frame ctx w w' /\ init_result params w0 ctx r w') w.
Proof.
  intros Hf Hg Hrc Hob0. apply wp_bind_bind.
  eapply wp_mono; [by eapply entries_register_spec|]. intros _ w1 (t & b1 & F1 & Hrc1 & Hob1).
  pose proof (init_frame_io _ _ _ _ _ (rc_ctx _ _ _ _ _ _ Hrc) F1) as G1.
  assert (Hob : only_blocks [cmd_ring c] (w_heap w0) (w_heap w1))
    by (intros p Hp; rewrite (Hob1 p Hp); by apply Hob0).
  pose proof (proj1 Hf) as Hpos. pose proof (rc_new _ _ _ _ _ _ Hrc1) as Hnew.
  pose proof (rc_md _ _ _ _ _ _ Hrc1) as Hmd. pose proof (rc_refs _ _ _ _ _ _ Hrc1) as Hrefs.
  apply wp_bind. eapply wp_mono.
  { apply (mbox_spec ctx c b1); rewrite ?Hmd; [apply Hrc1|lia|apply Hrc1|lia|lia]. }
  intros r w2 (G2 & _ & Hob2 & Hr & Hres). rewrite Hmd in Hob2.
  pose proof (init_frame_trans _ _ _ _ G1 G2) as G.
  destruct Hr as [-> | ->]; cbn [io_ok negb].
  - destruct (mbox_up _ _ _ _ _ _ _ Hg Hf Hrc1 Hob Hob2 Hres)
      as (c2 & Hc2 & Hready & Eiseg & Hor & Hom & Hlive).
    eapply wp_mono.
    { eapply (doorbells_spec ctx c2 c _ _ params w0);
        [done|done|exact Hready|done| |exact Hor|exact Hom|lia|exact Hlive].
      rewrite (init_frame_maps _ _ _ G2), <- Eiseg. by apply (rc_mmio _ _ _ _ _ _ Hrc1). }
    intros r w3 (-> & G3 & Hup). split; [by eapply init_frame_trans|done].
  - apply wp_ret. split; [done|]. by eapply mbox_failed.
Qed.

Lemma init_spec ctx c0 bar0 bar0_size w :
  w_ctx w !! ctx = Some c0 -> fresh_ok w -> iseg_mapped bar0 w ->
  geometry_ok (cmdq_params_of bar0 w) ->
  wp (mlx5_cmd_init ctx bar0 bar0_size) (init_post ctx bar0 w) w.
Proof.
  intros Hc0 Hf Hm Hg. unfold mlx5_cmd_init. set (params := cmdq_params_of bar0 w) in *.
  apply wp_bind. eapply params_spec; [done|by apply Hm|]. fold params. intros s t.
  set (c1 := init_ctx bar0 bar0_size params). set (w1 := put_trace t _).
  apply wp_bind. eapply wp_mono; [apply (ring_spec ctx c1); [apply lookup_insert_eq|apply Hf]|].
  intros r w2 (G2 & Hn2 & Hn2' & Hob2 & Hres).
  assert (G : init_frame ctx w w2).
  { eapply init_frame_trans; [|exact G2]. split; [done|]. split; [apply objs_frame_refl|].
    exists s, (w_heap w), (w_next w), (w_objs w), c1, t.
    by destruct w. }
  assert (Hf1 : fresh_ok w1) by done.
  destruct (io_ok r) eqn:Er; cbn [negb]; last first.
  { apply wp_ret. split; [done|].
    assert (r <> kIOReturnSuccess) by (by intros ->).
    pose proof (ring_failed ctx c1 w1 w2 r H Hf1 eq_refl Hob2 Hres) as Hfail.
    by destruct r. }
  apply io_ok_true in Er as ->. destruct Hres as (b & addr & Hb & Hrefs & Hsz & Hc2).
  apply wp_bind. eapply wp_deref; [exact Hc2|].
  eapply wp_mono; [apply (after_ring ctx _ b w2 w params); [done|done| |exact Hob2]|].
  - split; try done; [split; [reflexivity|by apply Hn2']|].
    rewrite (init_frame_maps _ _ _ G). exact Hm.
  - intros r w3 [G3 H]. split; [by eapply init_frame_trans|]. exact H.
Qed.

(** ** Geometries the driver cannot handle *)

Definition ring_sized (c : mlx5_cmd_context) (n : Z) (w : world) : Prop :=
  exists r, live_buf (w_heap w) (cmd_ring c) = Some r /\ buf_size r = n.

Lemma ring_store c n o bs w :
  ring_sized c n w -> wpf (eq OutOfBounds) (mem_store (cmd_ring c) o bs) (fun _ => ring_sized c n) w.
Proof.
  intros (r & Hr & Hn). unfold wpf, mem_store, mem_update. rewrite Hr.
  destruct (in_bounds r o _); [|done]. exists (buf_store r o bs). split; [|done].
  cbn [w_heap put_trace put_heap]. by rewrite live_buf_upd_eq, Hr.
Qed.

Lemma ring_store_out c n o bs w :
  ring_sized c n w -> n < o + Z.of_nat (length bs) -> mem_store (cmd_ring c) o bs w = Fault OutOfBounds.
Proof.
  intros (r & Hr & Hn) Ho. unfold mem_store, mem_update. rewrite Hr.
  destruct (in_bounds r o _) eqn:E; [|done]. apply in_bounds_spec in E. lia.
Qed.

Lemma cmdq_entries_pow params : exists a, 0 <= a /\ cmdq_entries params = 2 ^ a.
Proof.
  unfold cmdq_entries, MLX5_MAX_CMD_ENTRIES. pose proof (cmdq_log_size_range params).
  destruct (Z.min_spec (2 ^ cmdq_log_size params) 32) as [[_ ->]|[_ ->]];
    [exists (cmdq_log_size params)|exists 5]; (split; [lia|done]).
Qed.

(** A size of 2^32 or more wraps to nothing. *)
Lemma ring_bytes_wraps params :
  2 ^ 32 <= cmdq_entries params * 2 ^ cmdq_log_stride params ->
  u32 (cmdq_entries params * 2 ^ cmdq_log_stride params) = 0.
Proof.
  destruct (cmdq_entries_pow params) as (a & Ha & ->). pose proof (cmdq_log_stride_range params).
  rewrite <- Z.pow_add_r by lia. set (e := a + _). intros He.
  assert (32 <= e) by (apply (Z.pow_le_mono_r_iff 2); lia).
  unfold u32. replace e with ((e - 32) + 32) by lia. rewrite Z.pow_add_r by lia. by apply Z.mod_mul.
Qed.

Lemma entries_fault c params w :
  geometry_bad params -> num_entries c = cmdq_entries params ->
  entry_stride c = 2 ^ cmdq_log_stride params -> ring_sized c (ring_bytes c) w ->
  cmd_init_entries c w = Fault OutOfBounds.
Proof.
  intros Hbad Hn Hst Hr. pose proof (cmdq_entries_range params) as He.
  pose proof (cmdq_log_stride_range params) as Hk.
  assert (Hstep : forall j w', ring_sized c (ring_bytes c) w' ->
    wpf (eq OutOfBounds) (st8 (cmd_ring c) (u32 (j * entry_stride c) + off_status) MLX5_CMD_OWNER_SW ;;
      st32 (cmd_ring c) (u32 (j * entry_stride c) + off_token) 0xFFFFFFFF)
      (fun _ => ring_sized c (ring_bytes c)) w').
  { intros j w' H. apply wpf_bind. eapply wpf_mono; [by apply ring_store|done|].
    intros [] w2 H2. by apply ring_store. }
  unfold cmd_init_entries. destruct Hbad as [Hk5|Hov].
  - assert (2 ^ cmdq_log_stride params <= 2 ^ 4) by (apply Z.pow_le_mono_r; lia).
    pose proof (Z.pow_pos_nonneg 2 (cmdq_log_stride params)).
    assert (Hrb : ring_bytes c = num_entries c * entry_stride c) by (apply u32_small; rewrite Hn, Hst; nia).
    apply (for_range_faults _ _ _ (ring_sized c (ring_bytes c)) _ (num_entries c - 1)); [lia|done|exact Hstep|].
    intros w' Hw'. rewrite u32_small by (rewrite Hst; nia).
    pose proof (ring_store c _ ((num_entries c - 1) * entry_stride c + off_status)
      (le_split 1 MLX5_CMD_OWNER_SW) w' Hw') as Hs.
    unfold wpf in Hs. fold (st8 (cmd_ring c) ((num_entries c - 1) * entry_stride c + off_status) MLX5_CMD_OWNER_SW) in Hs.
    destruct (st8 _ _ _ w') as [[] w1|] eqn:E; [|subst; by apply bind_fault].
    rewrite (bind_done _ _ _ _ _ E). apply (ring_store_out c _ _ _ _ Hs).
    rewrite length_le_split, Hrb, Hst. unfold off_token. simpl Z.of_nat. nia.
  - assert (Hrb : ring_bytes c = 0) by (unfold ring_bytes; rewrite Hn, Hst; by apply ring_bytes_wraps).
    rewrite Hrb in *.
    apply (for_range_faults _ _ _ (ring_sized c 0) _ 0); [lia|done|exact Hstep|].
    intros w' Hw'. apply bind_fault, (ring_store_out c 0); [done|]. by vm_compute.
Qed.

(** [mlx5_cmd_init] allocates the ring and runs out of it while it initialises the
    entries. *)
Definition init_leaves_ring (ctx : ptr) (bar0 bar0_size : Z) (w : world) : Prop :=
  exists w1 w2 c, cmd_init_params ctx bar0 bar0_size w = Done tt w1 /\
    cmd_init_ring ctx w1 = Done kIOReturnSuccess w2 /\ w_ctx w2 !! ctx = Some c /\
    cmd_init_entries c w2 = Fault OutOfBounds.

Lemma init_leaves_ring_faults ctx bar0 bar0_size w :
  init_leaves_ring ctx bar0 bar0_size w -> mlx5_cmd_init ctx bar0 bar0_size w = Fault OutOfBounds.
Proof.
  intros (w1 & w2 & c & E1 & E2 & Hc & E3). unfold mlx5_cmd_init.
  rewrite (bind_done _ _ _ _ _ E1), (bind_done _ _ _ _ _ E2). cbn [io_ok negb].
  rewrite (bind_done _ _ c w2 w2) by (unfold deref; cbn [cell_get cell_ctx]; by rewrite Hc).
  by apply bind_fault.
Qed.

(** With such a geometry [mlx5_cmd_init] fails before it gets to the entries, or
    faults there. *)
Lemma init_bad_spec ctx c0 bar0 bar0_size w :
  w_ctx w !! ctx = Some c0 -> fresh_ok w -> iseg_mapped bar0 w ->
  geometry_bad (cmdq_params_of bar0 w) ->
  wpf (fun f => f = OutOfBounds /\ init_leaves_ring ctx bar0 bar0_size w) (mlx5_cmd_init ctx bar0 bar0_size)
    (fun r w' => init_frame ctx w w' /\ r <> kIOReturnSuccess /\ init_failed ctx w w' r) w.
Proof.
  intros Hc0 Hf Hm Hg. unfold mlx5_cmd_init. set (params := cmdq_params_of bar0 w) in *.
  apply wpf_seq, wp_along. eapply params_spec; [done|by apply Hm|]. fold params. intros s t.
  set (c1 := init_ctx bar0 bar0_size params). set (w1 := put_trace t _). intros E1.
  apply wpf_seq. eapply wp_mono; [apply wp_eqn, (ring_spec ctx c1); [apply lookup_insert_eq|apply Hf]|].
  intros r w2 (E2 & G2 & Hn2 & Hn2' & Hob2 & Hres).
  destruct (io_ok r) eqn:Er; cbn [negb]; last first.
  { apply wpf_wp, wp_ret. assert (Hr : r <> kIOReturnSuccess) by (by intros ->).
    split; [|split; [done|exact (ring_failed ctx c1 w1 w2 r Hr Hf eq_refl Hob2 Hres)]].
    eapply init_frame_trans; [|exact G2]. split; [done|]. split; [apply objs_frame_refl|].
    exists s, (w_heap w), (w_next w), (w_objs w), c1, t. by destruct w. }
  apply io_ok_true in Er as ->. destruct Hres as (b & addr & Hb & Hrefs & Hsz & Hc2).
  apply wpf_seq. eapply wp_deref; [exact Hc2|].
  match type of Hc2 with _ = Some ?c =>
    assert (E3 : cmd_init_entries c w2 = Fault OutOfBounds) end.
  { apply (entries_fault _ params); [done..|].
    exists (blk_buf b). split; [|exact Hsz]. apply live_of_blk; [exact Hb|lia]. }
  eapply wpf_fault; [by apply bind_fault, E3|]. split; [done|].
  by eexists w1, w2, _; split; [|split; [|split; [exact Hc2|exact E3]]].
Qed.

(** ** Cleanup *)

Definition cleaned (c : mlx5_cmd_context) : mlx5_cmd_context :=
  set_cmd_ring_md NULL (set_mbox_md NULL c).

Definition drop_ref (b : block) : block := Block (blk_buf b) (blk_dma b) (blk_refs b - 1).

Lemma cleanup_spec ctx c rb mb w :
  w_ctx w !! ctx = Some c -> mbox_md c <> NULL -> cmd_ring_md c <> NULL ->
  mbox_md c <> cmd_ring_md c ->
  w_heap w !! mbox_md c = Some mb -> 0 < blk_refs mb ->
  w_heap w !! cmd_ring_md c = Some rb -> 0 < blk_refs rb ->
  wp (mlx5_cmd_cleanup ctx) (fun _ w' =>
    w' = put_trace (EvLog "cleanup" [total_commands c; failed_commands c] :: w_trace w)
          (put_ctx (<[ctx := cleaned c]> (w_ctx w))
            (put_heap (<[cmd_ring_md c := drop_ref rb]> (<[mbox_md c := drop_ref mb]> (w_heap w))) w))) w.
Proof.
  intros Hc Hm Hr Hne Hmb Hmr Hrb Hrr. open_world w. unfold mlx5_cmd_cleanup. wp_steps.
  rewrite (proj2 (Z.eqb_neq _ NULL) Hm). cbn [negb]. wp_steps.
  change (cmd_ring_md (set_mbox_md NULL c)) with (cmd_ring_md c).
  rewrite (proj2 (Z.eqb_neq _ NULL) Hr). cbn [negb]. wp_steps.
  eapply wp_md_release; [wproj; rewrite lookup_insert_ne by done; exact Hrb|done|]. wnorm. wp_steps.
  by rewrite insert_insert_eq.
Qed.

(** A context that is already clean: nothing happens but the log line. *)
Lemma cleanup_clean ctx c w :
  w_ctx w !! ctx = Some c -> mbox_md c = NULL -> cmd_ring_md c = NULL ->
  wp (mlx5_cmd_cleanup ctx) (fun _ w' =>
    w' = put_trace (EvLog "cleanup" [total_commands c; failed_commands c] :: w_trace w) w) w.
Proof.
  intros Hc Hm Hr. open_world w. unfold mlx5_cmd_cleanup. wp_steps.
  rewrite Hm. change (NULL =? NULL) with true. cbn [negb]. wp_steps.
  rewrite Hr. change (NULL =? NULL) with true. cbn [negb]. wp_steps. done.
Qed.

(** A context with a dangling ring pointer. *)
Lemma cleanup_dangling ctx c w :
  w_ctx w !! ctx = Some c -> mbox_md c = NULL -> cmd_ring_md c <> NULL ->
  dead (w_heap w) (cmd_ring_md c) ->
  mlx5_cmd_cleanup ctx w = Fault UseAfterFree.
Proof.
  intros Hc Hm Hr (b & Hb & Hrefs). apply Z.eqb_neq in Hr. unfold mlx5_cmd_cleanup, mwhen.
  cbv [mbind M_bind mret M_ret deref cell_get cell_ctx]. rewrite Hc.
  cbv [IOLog emit]. rewrite Hm. cbn [Z.eqb NULL negb w_ctx put_trace]. rewrite Hc, Hr. cbn [negb].
  unfold md_release. cbn [w_heap put_trace]. by rewrite Hb, Hrefs.
Qed.

End CmdInit.
