(* ===== verification/CmdInitTheorems.v ===== *)
(** * Theorems on [mlx5_cmd_init] and [mlx5_cmd_cleanup]

    What a successful initialisation establishes, what a failed one leaves
    behind, and which queue geometries the code can handle. *)

From S2P Require Import Prelude Bytes Registers IbVerbs World Wp Cmd CmdSpec CmdInit Sim.

(** Registers that announce 32 entries of 64 bytes. *)
Definition sim_geometry : sim := sim_set_regs (fun _ => OSSwapInt32 0x50600) (sim_fw 0 []).

Lemma sim_fresh ring mbox s : @fresh_ok (sim_platform ring mbox) (sim_world_on ring mbox s).
Proof.
  split; [simpl; lia|]. intros p b. simpl.
  destruct (decide (p = 1)) as [->|]; [lia|]. rewrite lookup_insert_ne by done.
  destruct (decide (p = 2)) as [->|]; [lia|]. by rewrite lookup_insert_ne.
Qed.

Lemma sim_iseg_mapped ring mbox s :
  @iseg_mapped (sim_platform ring mbox) 0x40000000 (sim_world_on ring mbox s).
Proof.
  intros o Ho. unfold MLX5_ISEG_INITIALIZING, MLX5_INIT_SEG_OFFSET in *.
  apply (mmio_mapped_intro _ 3 (IOMap 0x40000000 0x2000000 1)); [done|].
  unfold covers. simpl.
  by rewrite (proj2 (Z.leb_le _ _)), (proj2 (Z.leb_le _ _)) by lia.
Qed.

Lemma sim_geometry_ok :
  geometry_ok (@cmdq_params_of (sim_platform 8 9) 0x40000000 (sim_world_on 8 9 sim_geometry)).
Proof. repeat split; by vm_compute. Qed.

Lemma sim_not_short : ~ geometry_short (@cmdq_params_of (sim_platform 8 9) 0x40000000 (sim_world_on 8 9 sim_geometry)).
Proof. by intros [H _]; vm_compute in H. Qed.

(** C13. What [mlx5_cmd_init] makes of the geometry the card announces, [min
    (2^log_size) 32] entries of [2^log_stride] bytes, none of which it checks.
    It faults only by a store outside the ring, in the initialisation of the
    entries ([init_leaves_ring]), and only when the stride is below 32 or the
    size of the ring is 2^32 or more.  When it succeeds, neither is the case, and the command context
    is usable: the ring has those entries, there are two mailboxes per entry,
    ring and mailboxes are separate live allocations with one reference each, the
    counters are zero, and nothing else was allocated.  On every return other
    contexts, objects and mappings are untouched.  The one geometry left out is
    a ring of a single entry of 32 bytes (see [short_ring]). *)
Theorem init_ready `{P : Platform} ctx c0 bar0 bar0_size w :
  w_ctx w !! ctx = Some c0 -> fresh_ok w -> iseg_mapped bar0 w ->
  ~ geometry_short (cmdq_params_of bar0 w) ->
  match mlx5_cmd_init ctx bar0 bar0_size w with
  | Done r w' =>
      init_frame ctx w w' /\
      (r = kIOReturnSuccess -> ~ geometry_bad (cmdq_params_of bar0 w) /\ init_done ctx bar0 w w')
  | Fault f =>
      f = OutOfBounds /\ geometry_bad (cmdq_params_of bar0 w) /\
      init_leaves_ring ctx bar0 bar0_size w
  end.
Proof.
  intros Hc Hf Hm Hs.
  destruct (geometry_cases (cmdq_params_of bar0 w)) as [Hg|[Hg|Hg]]; [| |by destruct Hs].
  - destruct (wp_run _ _ _ (init_spec ctx c0 bar0 bar0_size w Hc Hf Hm Hg)) as (r & w' & -> & G & H).
    split; [done|]. intros ->. split; [|done].
    unfold geometry_ok, geometry_bad in *. intros [?|?]; lia.
  - pose proof (init_bad_spec ctx c0 bar0 bar0_size w Hc Hf Hm Hg) as H. unfold wpf in H.
    destruct (mlx5_cmd_init _ _ _ w) as [r w'|f]; [|by destruct H].
    destruct H as (G & Hr & _). split; [done|]. by intros ->.
Qed.

Lemma init_ready_witness :
  let params := @cmdq_params_of (sim_platform 8 9) 0x40000000 (sim_world_on 8 9 sim_geometry) in
  match @mlx5_cmd_init (sim_platform 8 9) 100 0x40000000 0x2000000 (sim_world_on 8 9 sim_geometry) with
  | Done r w' =>
      init_frame 100 (sim_world_on 8 9 sim_geometry) w' /\
      (r = kIOReturnSuccess -> ~ geometry_bad params /\
         init_done 100 0x40000000 (sim_world_on 8 9 sim_geometry) w')
  | Fault f =>
      f = OutOfBounds /\ geometry_bad params /\
      init_leaves_ring 100 0x40000000 0x2000000 (sim_world_on 8 9 sim_geometry)
  end.
Proof.
  apply (@init_ready (sim_platform 8 9) 100 sim_ctx);
    [done|apply sim_fresh|apply sim_iseg_mapped|apply sim_not_short].
Defined.

(** One entry of 32 bytes: [mlx5_cmd_init] succeeds, and the first command stores
    its signature behind the ring. *)
Example short_ring :
  let w := sim_world_on 8 9 (sim_set_regs (fun _ => OSSwapInt32 0x500) (sim_fw 0 [])) in
  match @mlx5_cmd_init (sim_platform 8 9) 100 0x40000000 0x2000000 w with
  | Done r w' => r = kIOReturnSuccess /\
      match @mlx5_cmd_exec (sim_platform 8 9) 100 MLX5_CMD_OP_ENABLE_HCA 0 None 0 None 0 None w' with
      | Done _ _ => False
      | Fault f => f = OutOfBounds
      end
  | Fault _ => False
  end.
Proof. vm_compute. by split. Qed.

(** A failed [mlx5_cmd_init] leaks nothing, but unless the very first
    allocation failed it leaves [cmd_ring_md] pointing at the released ring: a
    following [mlx5_cmd_cleanup] releases it a second time. *)
Theorem init_failure_dangling `{P : Platform} ctx c0 bar0 bar0_size w :
  w_ctx w !! ctx = Some c0 -> fresh_ok w -> iseg_mapped bar0 w ->
  geometry_ok (cmdq_params_of bar0 w) ->
  wp (mlx5_cmd_init ctx bar0 bar0_size)
    (fun r w' => r <> kIOReturnSuccess ->
       (forall p b, live_buf (w_heap w') p = Some b -> p < w_next w) /\
       exists c, w_ctx w' !! ctx = Some c /\ mbox_md c = NULL /\
         (cmd_ring_md c = NULL /\ r = kIOReturnNoMemory \/
          mlx5_cmd_cleanup ctx w' = Fault UseAfterFree)) w.
Proof.
  intros Hc Hf Hm Hg. eapply wp_mono; [by apply (init_spec ctx c0)|].
  intros r w' [_ H] Hr. assert (Hfail : init_failed ctx w w' r) by (by destruct r).
  destruct Hfail as [Hl (c & Hc' & Hmb & Hcases)].
  split; [intros p b [x Hx]%Hl; by eapply Hf|]. exists c.
  split; [done|]. split; [done|]. destruct Hcases as [?|[? ?]]; [by left|right].
  by eapply cleanup_dangling.
Qed.

Lemma init_failure_dangling_witness :
  @wp (sim_platform 8 9) _ (@mlx5_cmd_init (sim_platform 8 9) 100 0x40000000 0x2000000)
    (fun r w' => r <> kIOReturnSuccess ->
       (forall p b, live_buf (w_heap w') p = Some b -> p < 10) /\
       exists c, w_ctx w' !! 100 = Some c /\ mbox_md c = NULL /\
         (cmd_ring_md c = NULL /\ r = kIOReturnNoMemory \/
          mlx5_cmd_cleanup 100 w' = Fault UseAfterFree))
    (sim_world_on 8 9 (sim_set_dma [false] sim_geometry)).
Proof.
  apply (@init_failure_dangling (sim_platform 8 9) 100 sim_ctx);
    [done|apply sim_fresh|apply sim_iseg_mapped|repeat split; by vm_compute].
Defined.

(** Initialisation followed by clean-up returns every allocation, and a second
    clean-up is harmless: at the end no block allocated since the start is
    alive. *)
Theorem init_cleanup `{P : Platform} ctx c0 bar0 bar0_size w :
  w_ctx w !! ctx = Some c0 -> fresh_ok w -> iseg_mapped bar0 w ->
  geometry_ok (cmdq_params_of bar0 w) ->
  wp (r ← mlx5_cmd_init ctx bar0 bar0_size;
      (if io_ok r then mlx5_cmd_cleanup ctx ;; mlx5_cmd_cleanup ctx else mret tt) ;; mret r)
    (fun r w' => (forall p b, live_buf (w_heap w') p = Some b -> p < w_next w) /\
       (r = kIOReturnSuccess ->
        exists c, w_ctx w' !! ctx = Some c /\ cmd_ring_md c = NULL /\ mbox_md c = NULL)) w.
Proof.
  intros Hc Hf Hm Hg. pose proof (proj1 Hf) as Hpos.
  apply wp_bind. eapply wp_mono; [by apply (init_spec ctx c0)|].
  intros r w' [_ H]. destruct (io_ok r) eqn:Er; last first.
  { apply wp_bind, wp_ret, wp_ret. split; [|by intros ->].
    assert (Hfail : init_failed ctx w w' r) by (by destruct r).
    intros p b [x Hx]%(proj1 Hfail). by eapply Hf. }
  apply io_ok_true in Er as ->.
  destruct H as (c & ring & mbox & Hready & Hctx & (rb & Hrb & Hrr & _) & (mb & Hmb & Hmr & _)
    & Hlr & Hlm & Honly).
  destruct Hctx as (_ & _ & _ & Er & Erm & Em & Emm & _). subst ring mbox.
  pose proof (cr_ne _ _ _ Hready) as Hne.
  apply wp_bind, wp_bind. eapply wp_mono.
  { apply (cleanup_spec ctx c rb mb); rewrite ?Emm, ?Erm; unfold NULL;
      solve [apply Hready|lia|done]. }
  intros _ w1 ->. rewrite Emm, Erm.
  eapply wp_mono; [apply (cleanup_clean ctx (cleaned c)); [apply lookup_insert_eq|done|done]|].
  intros _ w2 ->. apply wp_ret. split; [|intros _; eexists; split; [apply lookup_insert_eq|done]].
  cbn [w_heap put_trace put_ctx put_heap]. intros p b Hp.
  destruct (decide (p = cmd_ring c)) as [->|Hp1].
  { rewrite live_buf_insert_eq in Hp. simpl in Hp. by rewrite Hrr in Hp. }
  rewrite live_buf_insert_ne in Hp by done.
  destruct (decide (p = mbox_pool c)) as [->|Hp2].
  { rewrite live_buf_insert_eq in Hp. simpl in Hp. by rewrite Hmr in Hp. }
  rewrite live_buf_insert_ne in Hp by done. destruct (Honly p b Hp) as [[x Hx]|[|]]; [by eapply Hf|done..].
Qed.

Lemma init_cleanup_witness :
  @wp (sim_platform 8 9) _
    (r ← @mlx5_cmd_init (sim_platform 8 9) 100 0x40000000 0x2000000;
      (if io_ok r then mlx5_cmd_cleanup 100 ;; mlx5_cmd_cleanup 100 else mret tt) ;; mret r)
    (fun r w' => (forall p b, live_buf (w_heap w') p = Some b -> p < 10) /\
       (r = kIOReturnSuccess ->
        exists c, w_ctx w' !! 100 = Some c /\ cmd_ring_md c = NULL /\ mbox_md c = NULL))
    (sim_world_on 8 9 sim_geometry).
Proof.
  apply (@init_cleanup (sim_platform 8 9) 100 sim_ctx 0x40000000 0x2000000
    (sim_world_on 8 9 sim_geometry)); [done|apply sim_fresh|apply sim_iseg_mapped|apply sim_geometry_ok].
Defined.

(** ** Geometry *)

(** The context of 32 entries of [2 ^ k] bytes with its ring in block 1. *)
Definition geometry_ctx (k : Z) : mlx5_cmd_context :=
  set_num_entries 32 (set_entry_stride (2 ^ k) (set_cmd_ring 1 zero_mlx5_cmd_context)).

Definition geometry_world (size : Z) : @world (sim_platform 8 9) :=
  put_heap (<[1 := Block (buf_zero size) 0 1]> ∅) (sim_world_on 8 9 sim_geometry).

(** When the stride is at least 32 and the ring's size does not overflow,
    the initialisation loop leaves every entry of the ring owned by software with
    the invalid token 0xFFFFFFFF, and touches no other memory. *)
Theorem init_entries_idle `{P : Platform} c r w :
  0 <= num_entries c -> off_token + 4 <= entry_stride c ->
  num_entries c * entry_stride c < 2 ^ 32 ->
  live_buf (w_heap w) (cmd_ring c) = Some r -> buf_size r = ring_bytes c ->
  wp (cmd_init_entries c) (fun _ w' => exists r',
    live_buf (w_heap w') (cmd_ring c) = Some r' /\
    (forall i, 0 <= i < num_entries c -> entry_idle r' (entry_stride c) i) /\
    only_blocks [cmd_ring c] (w_heap w) (w_heap w')) w.
Proof.
  intros. eapply wp_mono; [by apply (entries_spec c r)|].
  intros _ w' (t & r' & _ & Hr & _ & _ & Hob & Hi). eauto.
Qed.

Lemma init_entries_idle_witness :
  @wp (sim_platform 8 9) _ (@cmd_init_entries (sim_platform 8 9) (geometry_ctx 6)) (fun _ w' => exists r',
    live_buf (w_heap w') 1 = Some r' /\
    (forall i, 0 <= i < 32 -> entry_idle r' 64 i) /\
    only_blocks [1] (w_heap (geometry_world 2048)) (w_heap w')) (geometry_world 2048).
Proof.
  apply (@init_entries_idle (sim_platform 8 9) (geometry_ctx 6) (buf_zero 2048) (geometry_world 2048));
    [simpl; lia|vm_compute; congruence|by vm_compute|done|done].
Defined.

(** The ring size is a 32-bit product that nothing checks: with 32 entries and
    a stride of 2^27 bytes or more it is 0, the driver allocates an empty ring
    and its first store is out of bounds. *)
Theorem init_entries_overflow `{P : Platform} c r k w :
  num_entries c = MLX5_MAX_CMD_ENTRIES -> entry_stride c = 2 ^ k -> 27 <= k ->
  live_buf (w_heap w) (cmd_ring c) = Some r -> buf_size r = ring_bytes c ->
  ring_bytes c = 0 /\ cmd_init_entries c w = Fault OutOfBounds.
Proof.
  intros Hn Hk Hk27 Hr Hs.
  assert (H0 : ring_bytes c = 0).
  { unfold ring_bytes, u32, MLX5_MAX_CMD_ENTRIES in *. rewrite Hn, Hk.
    change 32 with (2 ^ 5). rewrite <- Z.pow_add_r by lia.
    replace (5 + k) with ((k - 27) + 32) by lia. rewrite Z.pow_add_r by lia.
    apply Z.mod_mul. done. }
  split; [done|]. rewrite H0 in Hs. unfold cmd_init_entries. rewrite Hn.
  change (Z.to_nat MLX5_MAX_CMD_ENTRIES) with 32%nat. cbn [for_range].
  cbv [mbind M_bind st8 mem_store mem_update]. rewrite Hr.
  destruct (in_bounds r _ _) eqn:E; [|done]. exfalso.
  apply in_bounds_spec in E. rewrite Hs in E. unfold off_status in E. simpl in E.
  change (u32 0) with 0 in E. lia.
Qed.

Lemma init_entries_overflow_witness :
  @ring_bytes (geometry_ctx 27) = 0 /\
  @cmd_init_entries (sim_platform 8 9) (geometry_ctx 27) (geometry_world 0) = Fault OutOfBounds.
Proof.
  apply (@init_entries_overflow (sim_platform 8 9) _ (buf_zero 0) 27); done || lia.
Defined.

(** ** Addresses *)

Lemma split_address a :
  0 <= a < 2 ^ 64 ->
  u32 (Z.land a 0xFFFFFFFF) + 2 ^ 32 * u32 (Z.shiftr a 32) = a.
Proof.
  intros Ha. rewrite (land_mask_mod a 32), Z.shiftr_div_pow2 by (done || lia).
  unfold u32. rewrite Z.mod_mod by done.
  rewrite (Z.mod_small (a / 2 ^ 32)) by (split; [apply Z.div_pos|apply Z.div_lt_upper_bound]; lia).
  pose proof (Z.div_mod a (2 ^ 32)). lia.
Qed.

(** Registration writes the 64-bit bus address of the ring to the two address
    registers of the init segment, low half first and big-endian: the firmware,
    combining the two values, gets exactly that address. *)
Theorem register_address `{P : Platform} c w :
  0 <= cmd_ring_dma c < 2 ^ 64 ->
  mmio_mapped (w_maps w) (iseg c + MLX5_ISEG_CMDQ_ADDR_L) 4 = true ->
  mmio_mapped (w_maps w) (iseg c + MLX5_ISEG_CMDQ_ADDR_H) 4 = true ->
  wp (cmd_init_register c) (fun _ w' => exists l h e,
    w_trace w' = e :: EvMmioWrite (iseg c + MLX5_ISEG_CMDQ_ADDR_H) h
                   :: EvMmioWrite (iseg c + MLX5_ISEG_CMDQ_ADDR_L) l :: w_trace w /\
    OSSwapInt32 l + 2 ^ 32 * OSSwapInt32 h = cmd_ring_dma c) w.
Proof.
  intros Ha HL HH. eapply wp_mono; [by apply register_spec|].
  intros _ w' [_ F]. apply io_frame_trace in F. rewrite F. eexists _, _, _. split; [reflexivity|].
  unfold OSSwapInt32. rewrite !bswap_involutive. change (256 ^ Z.of_nat 4) with (2 ^ 32).
  rewrite !Z.mod_small by apply u32_range. by apply split_address.
Qed.

Lemma register_address_witness :
  @wp (sim_platform 8 9) _ (@cmd_init_register (sim_platform 8 9) sim_ctx) (fun _ w' => exists l h e,
    w_trace w' = e :: EvMmioWrite 0x40001018 h :: EvMmioWrite 0x40001014 l :: [] /\
    OSSwapInt32 l + 2 ^ 32 * OSSwapInt32 h = 0x210000) (sim_world_on 8 9 sim_geometry).
Proof.
  apply (@register_address (sim_platform 8 9) sim_ctx (sim_world_on 8 9 sim_geometry));
    [simpl; lia|by apply (sim_iseg_mapped 8 9 sim_geometry 0x14)|
     by apply (sim_iseg_mapped 8 9 sim_geometry 0x18)].
Defined.

(** What a run of [mlx5_cmd_init] returns, and the mailbox address it leaves. *)
Definition init_outcome (s : sim) : option (IOReturn * option Z) :=
  match @mlx5_cmd_init (sim_platform 8 9) 100 0x40000000 0x2000000 (sim_world_on 8 9 s) with
  | Done r w' => Some (r, mbox_dma_base <$> w_ctx w' !! 100)
  | Fault _ => None
  end.

(** Initialisation succeeds when nothing fails; it also reports success when the
    mailbox pool cannot be mapped for DMA, leaving 0 as the mailboxes' bus
    address, which every later command hands to the firmware. *)
Theorem init_mbox_unmapped :
  init_outcome sim_geometry = Some (kIOReturnSuccess, Some 0x2C0000) /\
  init_outcome (sim_set_dma [true; false] sim_geometry) = Some (kIOReturnSuccess, Some 0).
Proof. split; vm_compute; reflexivity. Qed.
