(* ===== verification/Qp.v ===== *)
(** * Queue pairs ([mlx5_qp.cpp], [mlx5_qp.h])

    Creation, state changes and destruction of a queue pair through firmware
    commands, and the data path: writing work queue elements (WQEs) to the send
    and receive rings, the doorbell record and the BlueFlame register.

    [to_mqp] is a cast: the [ib_qp] is the first member of the [mlx5_ib_qp], so
    both pointers name the same object of [w_qp]. *)

From S2P Require Import Prelude Bytes Registers IbVerbs World Wp Cmd CmdSpec.

(** ** Constants *)

Definition MLX5_SEND_WQE_BB : Z := 64.
Definition MLX5_SEND_WQE_SHIFT : Z := 6.
Definition MLX5_RECV_WQE_SHIFT : Z := 4.
Definition MLX5_QPC_OFF_STATE : Z := 0x00.
Definition MLX5_QPC_OFF_ST : Z := 0x00.
Definition MLX5_QPC_OFF_PD : Z := 0x0C.
Definition MLX5_QPC_OFF_CQN_SND : Z := 0x30.
Definition MLX5_QPC_OFF_CQN_RCV : Z := 0x34.
Definition MLX5_QPC_OFF_LOG_RQ_SIZE : Z := 0x04.
Definition MLX5_QPC_OFF_LOG_RQ_STRIDE : Z := 0x04.
Definition MLX5_QPC_OFF_LOG_SQ_SIZE : Z := 0x0C.
Definition MLX5_QPC_OFF_LOG_SQ_STRIDE : Z := 0x0C.
Definition MLX5_QPC_QST_RST : Z := 0.
Definition MLX5_QPC_QST_INIT : Z := 1.
Definition MLX5_QPC_QST_RTR : Z := 2.
Definition MLX5_QPC_QST_RTS : Z := 3.
Definition MLX5_QPC_QST_SQER : Z := 4.
Definition MLX5_QPC_QST_SQD : Z := 5.
Definition MLX5_QPC_QST_ERR : Z := 6.
Definition MLX5_OPCODE_RDMA_WRITE : Z := 0x08.
Definition MLX5_OPCODE_SEND : Z := 0x0A.
Definition MLX5_OPCODE_RDMA_READ : Z := 0x09.

(** [struct mlx5_wqe_ctrl_seg] and [struct mlx5_wqe_data_seg]. *)
Definition mlx5_wqe_ctrl_seg : list (string * Z) :=
  [("opmod_idx_opcode", 4); ("qpn_ds", 4); ("flags", 4); ("fm_ce_se", 4)]%string.
Definition mlx5_wqe_data_seg : list (string * Z) :=
  [("byte_count", 4); ("lkey", 4); ("addr", 8)]%string.

Definition off_opmod : Z := Eval vm_compute in packed_offset mlx5_wqe_ctrl_seg "opmod_idx_opcode".
Definition off_qpn_ds : Z := Eval vm_compute in packed_offset mlx5_wqe_ctrl_seg "qpn_ds".
Definition off_flags : Z := Eval vm_compute in packed_offset mlx5_wqe_ctrl_seg "flags".
Definition off_fm_ce_se : Z := Eval vm_compute in packed_offset mlx5_wqe_ctrl_seg "fm_ce_se".
Definition off_byte_count : Z := Eval vm_compute in packed_offset mlx5_wqe_data_seg "byte_count".
Definition off_lkey : Z := Eval vm_compute in packed_offset mlx5_wqe_data_seg "lkey".
Definition off_addr : Z := Eval vm_compute in packed_offset mlx5_wqe_data_seg "addr".

(** [log = 0; while (tmp > 1) { log++; tmp >>= 1; }] on [uint32_t]: 32
    iterations are enough. *)
Fixpoint log2_loop (fuel : nat) (log tmp : Z) : Z :=
  match fuel with
  | O => log
  | S f => if 1 <? tmp then log2_loop f (log + 1) (Z.shiftr tmp 1) else log
  end.
Definition log2_u32 (n : Z) : Z := log2_loop 32 0 n.

Section Qp.
Context `{P : Platform}.

(** ** Resources *)

(** [memset(md->getBytesNoCopy(), 0, size)] *)
Definition md_clear (md : ptr) (size : Z) : M unit :=
  p ← md_getBytesNoCopy md;
  mem_fill p 0 size 0.

Definition alloc_qp_resources (qp : ptr) (sq_cnt sq_shift rq_cnt rq_shift : Z) : M IOReturn :=
  sq_size ← shl_u32 sq_cnt sq_shift;
  sqmd ← md_alloc sq_size;
  modify qp (set_sq_md sqmd) ;;
  if sqmd =? NULL then IOLog "SQ alloc failed" [sq_size] ;; mret kIOReturnNoMemory
  else
    md_clear sqmd sq_size ;;
    p ← md_getBytesNoCopy sqmd;
    modify qp (set_sq_buf p) ;;
    a ← md_getPhysicalAddress sqmd;
    modify qp (set_sq_dma a) ;;
    modify qp (set_sq_wqe_cnt sq_cnt) ;;
    modify qp (set_sq_wqe_shift sq_shift) ;;
    modify qp (set_sq_head 0) ;;
    rq_size ← shl_u32 rq_cnt rq_shift;
    rqmd ← md_alloc rq_size;
    modify qp (set_rq_md rqmd) ;;
    if rqmd =? NULL then
      IOLog "RQ alloc failed" [rq_size] ;;
      md_release sqmd ;;
      mret kIOReturnNoMemory
    else
      md_clear rqmd rq_size ;;
      p ← md_getBytesNoCopy rqmd;
      modify qp (set_rq_buf p) ;;
      a ← md_getPhysicalAddress rqmd;
      modify qp (set_rq_dma a) ;;
      modify qp (set_rq_wqe_cnt rq_cnt) ;;
      modify qp (set_rq_wqe_shift rq_shift) ;;
      modify qp (set_rq_head 0) ;;
      dbmd ← md_alloc 4096;
      modify qp (set_db_md dbmd) ;;
      if dbmd =? NULL then
        IOLog "DB alloc failed" [] ;;
        md_release sqmd ;;
        md_release rqmd ;;
        mret kIOReturnNoMemory
      else
        md_clear dbmd 4096 ;;
        p ← md_getBytesNoCopy dbmd;
        modify qp (set_db_record p) ;;
        a ← md_getPhysicalAddress dbmd;
        modify qp (set_db_dma a) ;;
        q ← deref qp;
        s1 ← shl_int1 sq_shift;
        s2 ← shl_int1 rq_shift;
        IOLog "QP resources" [sq_cnt; s1; sq_dma q; rq_cnt; s2; rq_dma q; db_dma q] ;;
        mret kIOReturnSuccess.

(** ** Creation *)

(** [b[o] |= v] *)
Definition arr_or8 (b : buf) (o v : Z) : M buf :=
  l ← arr_load b o 1;
  arr_store b o (le_split 1 (Z.lor (le_combine l) v)).

(** The first part of the CREATE_QP input: ring sizes. *)
Definition qpc_sizes (in_buf : buf) (sq_cnt rq_cnt rq_shift : Z) : M buf :=
  let log_rq_size := log2_u32 rq_cnt in
  in_buf ← arr_or8 in_buf MLX5_QPC_OFF_LOG_RQ_SIZE (Z.shiftl (Z.land log_rq_size 0x0F) 4);
  let log_rq_stride := u32 (rq_shift - 4) in
  in_buf ← arr_or8 in_buf MLX5_QPC_OFF_LOG_RQ_STRIDE (Z.shiftl (Z.land log_rq_stride 0x0F) 0);
  let log_sq_size := log2_u32 sq_cnt in
  arr_or8 in_buf MLX5_QPC_OFF_LOG_SQ_SIZE (Z.shiftl (Z.land log_sq_size 0x0F) 4).

(** The second part: the addresses of the doorbell record and of the rings. *)
Definition qpc_addresses (in_buf : buf) (mqp : mlx5_ib_qp) : M buf :=
  in_buf ← arr_store in_buf 0x100 (le_split 8 (OSSwapInt64 (db_dma mqp)));
  in_buf ← arr_store in_buf 0x200 (le_split 8 (OSSwapInt64 (sq_dma mqp)));
  arr_store in_buf 0x208 (le_split 8 (OSSwapInt64 (rq_dma mqp))).

(** Send CREATE_QP; on success number the queue pair, on failure give the rings
    back. *)
Definition create_command (qp cmd_ctx : ptr) (in_buf : buf) : M Z :=
  res ← mlx5_cmd_exec cmd_ctx MLX5_CMD_OP_CREATE_QP 0 (Some (in_buf, 0)) 0x210
          (Some (buf_zero 64)) 64 (Some 0xFF);
  if negb (io_ok (er_ret res)) then
    IOLog "CREATE_QP failed" [default 0xFF (er_status res)] ;;
    q ← deref (T := mlx5_ib_qp) qp;
    md_release (sq_md q) ;;
    md_release (rq_md q) ;;
    md_release (db_md q) ;;
    mret (-1)
  else
    l ← arr_load (default (buf_zero 64) (er_out res)) 8 4;
    modify qp (set_qpn (OSSwapInt32 (le_combine l))) ;;
    modify qp (fun q => set_ibqp (set_qp_qp_num (qpn q) (ibqp q)) q) ;;
    modify qp (fun q => set_ibqp (set_qp_state IB_QPS_RESET (ibqp q)) q) ;;
    modify qp (set_mqp_state IB_QPS_RESET) ;;
    q ← deref (T := mlx5_ib_qp) qp;
    IOLog "QP created" [qpn q] ;;
    mret 0.

Definition mlx5_ib_create_qp_full (qp : ptr) (init : ib_qp_init_attr) (cmd_ctx : ptr) : M Z :=
  IOLog "create_qp" [ib_qp_type_code (init_qp_type init); 0; 0] ;;
  assign qp zero_mlx5_ib_qp ;;
  let sq_cnt := 256 in
  let sq_shift := MLX5_SEND_WQE_SHIFT in
  let rq_cnt := 256 in
  let rq_shift := MLX5_RECV_WQE_SHIFT in
  ret ← alloc_qp_resources qp sq_cnt sq_shift rq_cnt rq_shift;
  if negb (io_ok ret) then mret (-1)
  else
    in_buf ← qpc_sizes (buf_zero 1024) sq_cnt rq_cnt rq_shift;
    mwhen (negb (init_send_cq init =? NULL))
      (cq ← deref (T := ib_cq) (init_send_cq init); modify qp (set_send_cqn (u32 (cq_cqe cq)))) ;;
    mwhen (negb (init_recv_cq init =? NULL))
      (cq ← deref (T := ib_cq) (init_recv_cq init); modify qp (set_recv_cqn (u32 (cq_cqe cq)))) ;;
    q ← deref (T := mlx5_ib_qp) qp;
    mwhen (negb (qp_pd (ibqp q) =? NULL))
      (pd ← deref (T := ib_pd) (qp_pd (ibqp q)); modify qp (set_pdn (pd_local_dma_lkey pd))) ;;
    q ← deref (T := mlx5_ib_qp) qp;
    in_buf ← qpc_addresses in_buf q;
    create_command qp cmd_ctx in_buf.

(** ** State changes *)

(** The state a modify moves to; [None] is the error branch. *)
Definition modify_target (s : ib_qp_state) : option Z :=
  match s with
  | IB_QPS_RESET => Some MLX5_QPC_QST_INIT
  | IB_QPS_INIT => Some MLX5_QPC_QST_RTR
  | IB_QPS_RTR => Some MLX5_QPC_QST_RTS
  | _ => None
  end.

(** The input of MODIFY_QP. *)
Definition qpc_state (target_state : Z) : M buf :=
  in_buf ← arr_store (buf_zero 256) 0x00 (le_split 1 (Z.shiftl target_state 4));
  arr_or8 in_buf 0x00 target_state.

Definition mlx5_ib_modify_qp_full (qp : ptr) (attr_mask : Z) (attr cmd_ctx : ptr) : M Z :=
  q ← deref (T := mlx5_ib_qp) qp;
  match modify_target (mqp_state q) with
  | None =>
      IOLog "modify_qp: unexpected state" [ib_qp_state_code (mqp_state q)] ;;
      mret (-1)
  | Some target_state =>
      in_buf ← qpc_state target_state;
      res ← mlx5_cmd_exec cmd_ctx MLX5_CMD_OP_MODIFY_QP 0 (Some (in_buf, 0)) 0x100
              (Some (buf_zero 16)) 16 (Some 0xFF);
      if negb (io_ok (er_ret res)) then
        q ← deref (T := mlx5_ib_qp) qp;
        IOLog "MODIFY_QP failed" [default 0xFF (er_status res);
                                  ib_qp_state_code (mqp_state q); target_state] ;;
        mret (-1)
      else
        let set_state s := 
          modify qp (set_mqp_state s) ;;
          modify qp (fun q => set_ibqp (set_qp_state s (ibqp q)) q) in
        (if target_state =? MLX5_QPC_QST_INIT then set_state IB_QPS_INIT
         else if target_state =? MLX5_QPC_QST_RTR then set_state IB_QPS_RTR
         else if target_state =? MLX5_QPC_QST_RTS then set_state IB_QPS_RTS
         else mret tt) ;;
        q ← deref (T := mlx5_ib_qp) qp;
        IOLog "QP state ->" [qpn q; target_state] ;;
        mret 0
  end.

(** ** Destruction *)

Definition mlx5_ib_destroy_qp_full (qp cmd_ctx : ptr) : M Z :=
  q ← deref (T := mlx5_ib_qp) qp;
  in_buf ← arr_store (buf_zero 16) 0 (le_split 4 (OSSwapInt32 (qpn q)));
  res ← mlx5_cmd_exec cmd_ctx MLX5_CMD_OP_DESTROY_QP 0 (Some (in_buf, 0)) 4
          (Some (buf_zero 16)) 16 (Some 0xFF);
  q ← deref (T := mlx5_ib_qp) qp;
  mwhen (io_ok (er_ret res)) (IOLog "QP destroyed" [qpn q]) ;;
  mwhen (negb (sq_md q =? NULL)) (md_release (sq_md q)) ;;
  mwhen (negb (rq_md q =? NULL)) (md_release (rq_md q)) ;;
  mwhen (negb (db_md q =? NULL)) (md_release (db_md q)) ;;
  mret (if io_ok (er_ret res) then 0 else -1).

(** ** Data path *)

(** The words of the control segment. *)
Definition ctrl_opmod (head : Z) : Z :=
  Z.lor (Z.lor (Z.shiftl MLX5_OPCODE_RDMA_WRITE 24) (Z.shiftl 0 16)) (Z.land head 0xFFFF).
Definition ctrl_qpn_ds (qpn : Z) : Z :=
  Z.lor (u32 (Z.shiftl (Z.land qpn 0xFFFFFF) 8)) 2.

Definition mlx5_ib_post_send_full (qp wr bad_wr : ptr) : M Z :=
  q ← deref (T := mlx5_ib_qp) qp;
  let head := sq_head q in
  wqe_offset ← shl_u32 head (sq_wqe_shift q);
  st32 (sq_buf q) (wqe_offset + off_opmod) (OSSwapInt32 (ctrl_opmod head)) ;;
  st32 (sq_buf q) (wqe_offset + off_qpn_ds) (OSSwapInt32 (ctrl_qpn_ds (qpn q))) ;;
  st32 (sq_buf q) (wqe_offset + off_flags) (OSSwapInt32 (u32 (Z.shiftl 1 31))) ;;
  st32 (sq_buf q) (wqe_offset + off_fm_ce_se) 0 ;;
  modify qp (set_sq_head (Z.land (u32 (head + 1)) (u32 (sq_wqe_cnt q - 1)))) ;;
  q ← deref (T := mlx5_ib_qp) qp;
  db ← shl_u32 (sq_head q) (sq_wqe_shift q);
  st32 (db_record q) 0 (OSSwapInt32 db) ;;
  mwhen (negb (uar q =? NULL))
    (l ← mem_load (sq_buf q) wqe_offset 8;
     mmio_write64 (uar q) (OSSwapInt64 (le_combine l)) ;;
     OSSynchronizeIO) ;;
  OSSynchronizeIO ;;
  IOLog "post_send" [qpn q; head] ;;
  mret 0.

Definition mlx5_ib_post_recv_full (qp wr bad_wr : ptr) : M Z :=
  q ← deref (T := mlx5_ib_qp) qp;
  let head := rq_head q in
  wqe_offset ← shl_u32 head (rq_wqe_shift q);
  st32 (rq_buf q) (wqe_offset + off_byte_count) (OSSwapInt32 4096) ;;
  st32 (rq_buf q) (wqe_offset + off_lkey) 0 ;;
  st64 (rq_buf q) (wqe_offset + off_addr) 0 ;;
  modify qp (set_rq_head (Z.land (u32 (head + 1)) (u32 (rq_wqe_cnt q - 1)))) ;;
  q ← deref (T := mlx5_ib_qp) qp;
  st32 (db_record q) 4 (OSSwapInt32 (Z.land (rq_head q) 0xFFFF)) ;;
  OSSynchronizeIO ;;
  IOLog "post_recv" [qpn q; head] ;;
  mret 0.

End Qp.
