(* ===== verification/QpSpec.v ===== *)
(** * What the queue pair operations promise

    The well-formedness of a queue pair and its preservation, the bytes of the
    work queue elements and doorbells, the state machine, and the ownership of
    the DMA blocks. *)

From S2P Require Import Prelude Bytes Registers IbVerbs World Wp Cmd CmdSpec CmdInit Qp.

Lemma log2_loop_spec fuel log tmp :
  1 <= tmp < 2 ^ Z.of_nat fuel -> log2_loop fuel log tmp = log + Z.log2 tmp.
Proof.
  revert log tmp; induction fuel as [|fuel IH]; intros log tmp Ht; [simpl in Ht; lia|].
  rewrite Nat2Z.inj_succ, Z.pow_succ_r in Ht by lia. simpl log2_loop.
  destruct (Z.ltb_spec 1 tmp); [|replace tmp with 1 by lia; simpl; lia].
  assert (Hs : Z.shiftr tmp 1 = tmp / 2) by (by rewrite Z.shiftr_div_pow2 by lia).
  rewrite IH by (rewrite Hs; split; [apply Z.div_le_lower_bound|apply Z.div_lt_upper_bound]; lia).
  rewrite Z.log2_shiftr by lia.
  pose proof (Z.log2_le_mono 2 tmp). change (Z.log2 2) with 1 in *. lia.
Qed.

Lemma log2_u32_spec n : 1 <= n < 2 ^ 32 -> log2_u32 n = Z.log2 n.
Proof. intros. unfold log2_u32. by rewrite log2_loop_spec. Qed.

(** ** Rings *)

(** A ring of [cnt] elements of [2 ^ shift] bytes. *)
Record ring_wf (h : gmap Z block) (p cnt shift head : Z) : Prop := {
  rw_live : exists b, live_buf h p = Some b /\ buf_size b = cnt * 2 ^ shift;
  rw_cnt : exists k, 0 <= k /\ cnt = 2 ^ k /\ k + shift <= 31;
  rw_shift : 4 <= shift;
  rw_head : 0 <= head < cnt
}.

Definition db_wf (h : gmap Z block) (q : mlx5_ib_qp) : Prop :=
  exists d, live_buf h (db_record q) = Some d /\ 8 <= buf_size d.

Record qp_wf (q : mlx5_ib_qp) (h : gmap Z block) : Prop := {
  qw_sq : ring_wf h (sq_buf q) (sq_wqe_cnt q) (sq_wqe_shift q) (sq_head q);
  qw_rq : ring_wf h (rq_buf q) (rq_wqe_cnt q) (rq_wqe_shift q) (rq_head q);
  qw_db : db_wf h q;
  qw_sq_rq : sq_buf q <> rq_buf q;
  qw_sq_db : sq_buf q <> db_record q;
  qw_rq_db : rq_buf q <> db_record q
}.

Lemma ring_cnt_bound h p cnt shift head :
  ring_wf h p cnt shift head -> 1 <= cnt /\ cnt * 2 ^ shift <= 2 ^ 31.
Proof.
  intros [_ (k & Hk & -> & Hs) Hsh _]. split; [pose proof (Z.pow_pos_nonneg 2 k); lia|].
  rewrite <- Z.pow_add_r by lia. apply Z.pow_le_mono_r; lia.
Qed.

(** The offset of an element of the ring. *)
Lemma ring_offset h p cnt shift head i :
  ring_wf h p cnt shift head -> 0 <= i < cnt ->
  u32 (Z.shiftl i shift) = i * 2 ^ shift /\ 0 <= shift < 32 /\ 0 <= i * 2 ^ shift /\
  i * 2 ^ shift + 16 <= cnt * 2 ^ shift.
Proof.
  intros Hr Hi. pose proof (ring_cnt_bound _ _ _ _ _ Hr) as [H1 H2].
  destruct Hr as [_ (k & Hk & Hc & Hs) Hsh _].
  assert (2 ^ 4 <= 2 ^ shift) by (apply Z.pow_le_mono_r; lia). change (2 ^ 4) with 16 in *.
  rewrite Z.shiftl_mul_pow2 by lia. rewrite u32_small by nia.
  split; [done|]. split; [lia|]. nia.
Qed.

(** The next head. *)
Lemma ring_next h p cnt shift head :
  ring_wf h p cnt shift head ->
  Z.land (u32 (head + 1)) (u32 (cnt - 1)) = (head + 1) mod cnt.
Proof.
  intros Hr. pose proof (ring_cnt_bound _ _ _ _ _ Hr) as [H1 H2].
  destruct Hr as [_ (k & Hk & -> & Hs) Hsh Hh].
  assert (2 ^ k <= 2 ^ 31) by (apply Z.pow_le_mono_r; lia).
  rewrite !u32_small by lia. by apply land_pow2_pred.
Qed.

Lemma ring_wf_step h h' p cnt shift head head' :
  ring_wf h p cnt shift head ->
  (forall b, live_buf h p = Some b -> exists b', live_buf h' p = Some b' /\ buf_size b' = buf_size b) ->
  0 <= head' < cnt -> ring_wf h' p cnt shift head'.
Proof.
  intros [(b & Hb & Hs) ? ? ?] Hsh Hh. destruct (Hsh b Hb) as (b' & Hb' & Hs').
  split; try done. exists b'. split; [done|lia].
Qed.

Lemma next_head_range cnt head : 0 < cnt -> 0 <= (head + 1) mod cnt < cnt.
Proof. apply Z.mod_pos_bound. Qed.

(** Well-formedness only depends on the size of the three blocks. *)
Lemma qp_wf_live q h h' :
  (forall p, p ∈ [sq_buf q; rq_buf q; db_record q] -> forall b, live_buf h p = Some b ->
     exists b', live_buf h' p = Some b' /\ buf_size b' = buf_size b) ->
  qp_wf q h -> qp_wf q h'.
Proof.
  intros Hl [Hsq Hrq (d & Hd & Hds) ? ? ?]. split; try done.
  - eapply ring_wf_step; [exact Hsq|apply Hl; by left|apply Hsq].
  - eapply ring_wf_step; [exact Hrq|apply Hl; by right; left|apply Hrq].
  - destruct (Hl (db_record q) ltac:(by do 2 right; left) _ Hd) as (d' & ? & ?).
    exists d'. split; [done|lia].
Qed.

Lemma qp_wf_shape q h h' : heap_shape h = heap_shape h' -> qp_wf q h -> qp_wf q h'.
Proof. intros Hs. apply qp_wf_live. intros p _ b Hb. by eapply heap_shape_live. Qed.

Lemma qp_wf_sq_head q h :
  qp_wf q h -> qp_wf (set_sq_head ((sq_head q + 1) mod sq_wqe_cnt q) q) h.
Proof.
  intros [Hsq Hrq Hd ? ? ?]. pose proof (ring_cnt_bound _ _ _ _ _ Hsq) as [H1 _].
  split; try done. simpl. eapply ring_wf_step; [exact Hsq|eauto|].
  apply next_head_range. lia.
Qed.

Lemma qp_wf_rq_head q h :
  qp_wf q h -> qp_wf (set_rq_head ((rq_head q + 1) mod rq_wqe_cnt q) q) h.
Proof.
  intros [Hsq Hrq Hd ? ? ?]. pose proof (ring_cnt_bound _ _ _ _ _ Hrq) as [H1 _].
  split; try done. simpl. eapply ring_wf_step; [exact Hrq|eauto|].
  apply next_head_range. lia.
Qed.

(** ** The work queue elements *)

(** The control segment at offset [o], as the device reads it. *)
Record ctrl_seg := CtrlSeg { cs_opmod : Z; cs_qpn_ds : Z; cs_flags : Z; cs_fm_ce_se : Z }.
Definition decode_ctrl (b : buf) (o : Z) : ctrl_seg :=
  CtrlSeg (be_at b (o + off_opmod) 4) (be_at b (o + off_qpn_ds) 4)
    (be_at b (o + off_flags) 4) (be_at b (o + off_fm_ce_se) 4).

Definition sq_stored (q : mlx5_ib_qp) (o : Z) (b : buf) : buf :=
  buf_store (buf_store (buf_store (buf_store b
    (o + off_opmod) (be_split 4 (ctrl_opmod (sq_head q))))
    (o + off_qpn_ds) (be_split 4 (ctrl_qpn_ds (qpn q))))
    (o + off_flags) (be_split 4 (u32 (Z.shiftl 1 31))))
    (o + off_fm_ce_se) (le_split 4 0).

Lemma ctrl_opmod_val head :
  ctrl_opmod head = MLX5_OPCODE_RDMA_WRITE * 2 ^ 24 + head mod 2 ^ 16.
Proof.
  unfold ctrl_opmod, MLX5_OPCODE_RDMA_WRITE. rewrite (land_mask_mod head 16) by (done || lia).
  change (Z.lor (Z.shiftl 8 24) (Z.shiftl 0 16)) with (Z.shiftl 0x800 16).
  rewrite lor_shiftl_add; [done|lia|]. apply Z.mod_pos_bound. lia.
Qed.

Lemma ctrl_qpn_ds_val n : ctrl_qpn_ds n = (n mod 2 ^ 24) * 2 ^ 8 + 2.
Proof.
  unfold ctrl_qpn_ds. rewrite (land_mask_mod n 24) by (done || lia).
  pose proof (Z.mod_pos_bound n (2 ^ 24)). rewrite u32_small.
  - rewrite lor_shiftl_add by lia. done.
  - rewrite Z.shiftl_mul_pow2 by lia. lia.
Qed.

Ltac wqe_offs :=
  unfold off_opmod, off_qpn_ds, off_flags, off_fm_ce_se, off_byte_count, off_lkey, off_addr in *;
  autorewrite with vf; simpl; lia.

Lemma decode_sq_stored q o b :
  decode_ctrl (sq_stored q o b) o =
  CtrlSeg (MLX5_OPCODE_RDMA_WRITE * 2 ^ 24 + sq_head q mod 2 ^ 16)
    ((qpn q mod 2 ^ 24) * 2 ^ 8 + 2) (2 ^ 31) 0.
Proof.
  unfold decode_ctrl, sq_stored. f_equal.
  - do 3 rewrite be_at_store_out by wqe_offs. rewrite be_at_store_same, ctrl_opmod_val.
    apply Z.mod_small. pose proof (Z.mod_pos_bound (sq_head q) (2 ^ 16)).
    unfold MLX5_OPCODE_RDMA_WRITE. simpl. lia.
  - do 2 rewrite be_at_store_out by wqe_offs. rewrite be_at_store_same, ctrl_qpn_ds_val.
    apply Z.mod_small. pose proof (Z.mod_pos_bound (qpn q) (2 ^ 24)). simpl. lia.
  - rewrite be_at_store_out by wqe_offs. by rewrite be_at_store_same.
  - exact (be_at_store_same _ _ 4 0).
Qed.

Lemma sq_stored_out q o b i :
  i < o \/ o + 16 <= i -> buf_get (sq_stored q o b) i = buf_get b i.
Proof. intros. unfold sq_stored. by rewrite !buf_get_store_out by wqe_offs. Qed.

Section QpSpec.
Context `{P : Platform}.

(** ** Posting *)

(** Memory the device only reads. *)
Definition device_readonly (p : ptr) : Prop :=
  forall b, stable (fun h => live_buf h p = Some b).

(** The BlueFlame register is absent, or mapped with rings that the device
    only reads. *)
Definition uar_ok (q : mlx5_ib_qp) (w : world) : Prop :=
  uar q = NULL \/
  mmio_mapped (w_maps w) (uar q) 8 = true /\
  device_readonly (sq_buf q) /\ device_readonly (db_record q).

(** What posting changes. *)
Definition qp_frame (qp : ptr) (q' : mlx5_ib_qp) (t : list event) (w w' : world) : Prop :=
  heap_shape (w_heap w') = heap_shape (w_heap w) /\
  exists s h, w' = put_trace (t ++ w_trace w)
                     (put_qp (<[qp := q']> (w_qp w)) (put_heap h (put_ps s w))).

Definition next_sq (q : mlx5_ib_qp) : mlx5_ib_qp :=
  set_sq_head ((sq_head q + 1) mod sq_wqe_cnt q) q.
Definition next_rq (q : mlx5_ib_qp) : mlx5_ib_qp :=
  set_rq_head ((rq_head q + 1) mod rq_wqe_cnt q) q.

(** The offset of the element being posted. *)
Definition sq_off (q : mlx5_ib_qp) : Z := sq_head q * 2 ^ sq_wqe_shift q.
Definition rq_off (q : mlx5_ib_qp) : Z := rq_head q * 2 ^ rq_wqe_shift q.

Definition sq_db (q : mlx5_ib_qp) (d : buf) : buf :=
  buf_store d 0 (be_split 4 (sq_off (next_sq q))).

(** The doorbell record says where the next element goes. *)
Lemma sq_db_value q d h : qp_wf q h -> be_at (sq_db q d) 0 4 = sq_off (next_sq q).
Proof.
  intros Hwf. pose proof (qp_wf_sq_head _ _ Hwf) as [Hsq _ _ _ _ _].
  pose proof (ring_offset _ _ _ _ _ _ Hsq (rw_head _ _ _ _ _ Hsq)) as (_ & _ & H1 & H2).
  destruct (ring_cnt_bound _ _ _ _ _ Hsq) as [_ H3].
  unfold sq_db. rewrite be_at_store_same. apply Z.mod_small. change (256 ^ Z.of_nat 4) with (2 ^ 32).
  unfold sq_off, next_sq. lia.
Qed.

(** The events of a post, newest first: the element, then the doorbell record,
    then the BlueFlame register if there is one. *)
Definition send_bf (q : mlx5_ib_qp) (b : buf) : list event :=
  if uar q =? NULL then []
  else [EvBarrier; EvMmioWrite (uar q) (be_at (sq_stored q (sq_off q) b) (sq_off q) 8)].
Definition send_wqe (q : mlx5_ib_qp) : list event :=
  [EvStore (sq_buf q) (sq_off q + off_fm_ce_se) (le_split 4 0);
   EvStore (sq_buf q) (sq_off q + off_flags) (be_split 4 (u32 (Z.shiftl 1 31)));
   EvStore (sq_buf q) (sq_off q + off_qpn_ds) (be_split 4 (ctrl_qpn_ds (qpn q)));
   EvStore (sq_buf q) (sq_off q + off_opmod) (be_split 4 (ctrl_opmod (sq_head q)))].
Definition send_events (q : mlx5_ib_qp) (b : buf) : list event :=
  [EvLog "post_send" [qpn q; sq_head q]; EvBarrier] ++ send_bf q b ++
  EvStore (db_record q) 0 (be_split 4 (sq_off (next_sq q))) :: send_wqe q.

Definition send_post (qp : ptr) (q : mlx5_ib_qp) (b d : buf) (w : world) (r : Z) (w' : world) : Prop :=
  r = 0 /\ qp_frame qp (next_sq q) (send_events q b) w w' /\
  live_buf (w_heap w') (sq_buf q) = Some (sq_stored q (sq_off q) b) /\
  live_buf (w_heap w') (db_record q) = Some (sq_db q d) /\
  forall p x, p <> sq_buf q -> p <> db_record q -> uar q = NULL \/ device_readonly p ->
    live_buf (w_heap w) p = Some x -> live_buf (w_heap w') p = Some x.

Lemma u64_bswap x : u64 (OSSwapInt64 x) = OSSwapInt64 x.
Proof. apply u64_small. apply (bswap_range 8). Qed.

Lemma post_send_spec qp q b d wr bad w :
  w_qp w !! qp = Some q -> qp_wf q (w_heap w) -> uar_ok q w ->
  live_buf (w_heap w) (sq_buf q) = Some b -> live_buf (w_heap w) (db_record q) = Some d ->
  wp (mlx5_ib_post_send_full qp wr bad) (send_post qp q b d w) w.
Proof.
  intros Hq Hwf Hu Hb Hd. pose proof Hwf as [Hsq _ (d' & Hd' & Hds) _ Hne _].
  rewrite Hd in Hd'. injection Hd' as <-.
  pose proof (ring_offset _ _ _ _ _ _ Hsq (rw_head _ _ _ _ _ Hsq)) as (Ho & Hsh & Ho0 & Hoe).
  pose proof (ring_next _ _ _ _ _ Hsq) as Hnext.
  destruct (ring_cnt_bound _ _ _ _ _ Hsq) as [Hc _].
  pose proof (ring_offset _ _ _ _ _ _ Hsq (next_head_range (sq_wqe_cnt q) (sq_head q) ltac:(lia))) as (Hn & _ & _ & _).
  destruct (rw_live _ _ _ _ _ Hsq) as (b0 & Hb0 & Hbs). rewrite Hb in Hb0. injection Hb0 as <-.
  open_world w. unfold mlx5_ib_post_send_full. wp_steps. apply wp_shl_u32; [done|].
  rewrite Ho. fold (sq_off q) in *. unfold st32.
  unfold off_opmod, off_qpn_ds, off_flags, off_fm_ce_se. wp_steps.
  cbn [sq_head sq_wqe_shift set_sq_head db_record uar sq_buf qpn]. rewrite Hnext.
  apply wp_shl_u32; [done|]. rewrite Hn. rewrite !le_split_swap32. wp_steps.
  match goal with |- wp _ _ (Mk_world _ ?h _ _ _ _ _ _ _ _ _ _ _) => set (h1 := h) end.
  assert (H1 : live_buf h1 (sq_buf q) = Some (sq_stored q (sq_off q) b)) by (unfold h1; solve_live).
  assert (H2 : live_buf h1 (db_record q) = Some (sq_db q d)) by (unfold h1; solve_live).
  assert (H3 : heap_shape h1 = heap_shape hp) by (unfold h1; solve_shape).
  assert (H4 : forall p, p <> sq_buf q -> p <> db_record q -> live_buf h1 p = live_buf hp p)
    by (intros p H5 H6; unfold h1; by rewrite !live_buf_upd_ne by congruence).
  clearbody h1.
  destruct (Z.eqb_spec (uar q) NULL) as [Hu0|Hu0]; cbn [negb]; wp_steps.
  { split; [done|]. split; [|split; [done|split; [done|]]].
    - split; [done|]. eexists _, _. unfold send_events, send_bf. rewrite Hu0. reflexivity.
    - intros p x H5 H6 _ Hx. simpl. by rewrite H4. }
  destruct Hu as [|(Hm & Hro1 & Hro2)]; [done|].
  eapply wp_mem_load; [exact H1|done|simpl; rewrite Hbs; lia|].
  match goal with |- context [device_run ?x] => set (wb := x) end. intros b' Hb' _.
  pose proof (stable_device_run _ wb (Hro1 _) H1) as H1'. rewrite H1' in Hb'. injection Hb' as <-.
  pose proof (stable_device_run _ wb (Hro2 _) H2) as H2'.
  pose proof (heap_shape_device_run wb) as H3'.
  wp_prim. unfold mmio_write64. rewrite u64_bswap. unfold OSSwapInt64. rewrite bswap_load.
  apply wp_mmio_write; [exact Hm|]. wp_prim. wp_steps.
  split; [done|]. split; [|split; [done|split; [done|]]].
  - split; [exact (eq_trans H3' H3)|].
    eexists _, _. unfold send_events, send_bf. rewrite (proj2 (Z.eqb_neq _ _) Hu0). reflexivity.
  - intros p x H5 H6 [|Hro] Hx; [done|]. apply (stable_device_run _ wb (Hro x)). simpl. by rewrite H4.
Qed.

(** ** Receiving *)

(** The data segment at offset [o], as the device reads it. *)
Record data_seg := DataSeg { ds_byte_count : Z; ds_lkey : Z; ds_addr : Z }.
Definition decode_data (b : buf) (o : Z) : data_seg :=
  DataSeg (be_at b (o + off_byte_count) 4) (be_at b (o + off_lkey) 4) (be_at b (o + off_addr) 8).

Definition rq_stored (o : Z) (b : buf) : buf :=
  buf_store (buf_store (buf_store b
    (o + off_byte_count) (be_split 4 4096))
    (o + off_lkey) (le_split 4 0))
    (o + off_addr) (le_split 8 0).

Lemma decode_rq_stored o b : decode_data (rq_stored o b) o = DataSeg 4096 0 0.
Proof.
  unfold decode_data, rq_stored. f_equal.
  - do 2 rewrite be_at_store_out by wqe_offs. by rewrite be_at_store_same.
  - rewrite be_at_store_out by wqe_offs. exact (be_at_store_same _ _ 4 0).
  - exact (be_at_store_same _ _ 8 0).
Qed.

Lemma rq_stored_out o b i :
  i < o \/ o + 16 <= i -> buf_get (rq_stored o b) i = buf_get b i.
Proof. intros. unfold rq_stored. by rewrite !buf_get_store_out by wqe_offs. Qed.

Definition rq_db (q : mlx5_ib_qp) (d : buf) : buf :=
  buf_store d 4 (be_split 4 (rq_head (next_rq q) mod 2 ^ 16)).

Definition recv_events (q : mlx5_ib_qp) : list event :=
  [EvLog "post_recv" [qpn q; rq_head q]; EvBarrier;
   EvStore (db_record q) 4 (be_split 4 (rq_head (next_rq q) mod 2 ^ 16));
   EvStore (rq_buf q) (rq_off q + off_addr) (le_split 8 0);
   EvStore (rq_buf q) (rq_off q + off_lkey) (le_split 4 0);
   EvStore (rq_buf q) (rq_off q + off_byte_count) (be_split 4 4096)].

Definition recv_post (qp : ptr) (q : mlx5_ib_qp) (b d : buf) (w : world) (r : Z) (w' : world) : Prop :=
  r = 0 /\ qp_frame qp (next_rq q) (recv_events q) w w' /\
  live_buf (w_heap w') (rq_buf q) = Some (rq_stored (rq_off q) b) /\
  live_buf (w_heap w') (db_record q) = Some (rq_db q d) /\
  forall p, p <> rq_buf q -> p <> db_record q -> live_buf (w_heap w') p = live_buf (w_heap w) p.

Lemma post_recv_spec qp q b d wr bad w :
  w_qp w !! qp = Some q -> qp_wf q (w_heap w) ->
  live_buf (w_heap w) (rq_buf q) = Some b -> live_buf (w_heap w) (db_record q) = Some d ->
  wp (mlx5_ib_post_recv_full qp wr bad) (recv_post qp q b d w) w.
Proof.
  intros Hq Hwf Hb Hd. pose proof Hwf as [_ Hrq (d' & Hd' & Hds) _ _ Hne].
  rewrite Hd in Hd'. injection Hd' as <-.
  pose proof (ring_offset _ _ _ _ _ _ Hrq (rw_head _ _ _ _ _ Hrq)) as (Ho & Hsh & Ho0 & Hoe).
  pose proof (ring_next _ _ _ _ _ Hrq) as Hnext.
  destruct (rw_live _ _ _ _ _ Hrq) as (b0 & Hb0 & Hbs). rewrite Hb in Hb0. injection Hb0 as <-.
  open_world w. unfold mlx5_ib_post_recv_full. wp_steps. apply wp_shl_u32; [done|].
  rewrite Ho. fold (rq_off q) in *. unfold st32, st64.
  unfold off_byte_count, off_lkey, off_addr. wp_steps.
  cbn [rq_head set_rq_head db_record rq_buf qpn]. rewrite Hnext, !le_split_swap32.
  rewrite (land_mask_mod _ 16) by (done || lia).
  split; [done|]. split; [|split; [solve_live|split; [solve_live|]]].
  - split; [solve_shape|]. eexists _, _. reflexivity.
  - intros p H1 H2. wproj. by rewrite !live_buf_upd_ne by congruence.
Qed.

(** ** Changing state *)

Definition modify_next (s : ib_qp_state) : option ib_qp_state :=
  match s with
  | IB_QPS_RESET => Some IB_QPS_INIT
  | IB_QPS_INIT => Some IB_QPS_RTR
  | IB_QPS_RTR => Some IB_QPS_RTS
  | _ => None
  end.

Definition in_state (s : ib_qp_state) (q : mlx5_ib_qp) : mlx5_ib_qp :=
  set_ibqp (set_qp_state s (ibqp q)) (set_mqp_state s q).

(** The world around a command: a usable context, only the queue pairs' store
    possibly changed. *)
Definition cmd_client_frame (ctx : ptr) (qps : gmap Z mlx5_ib_qp) (w w' : world) : Prop :=
  exists c' s h t, cmd_ready ctx c' w' /\ heap_shape h = heap_shape (w_heap w) /\
    w' = put_trace t (put_qp qps (put_ctx (<[ctx := c']> (w_ctx w)) (put_heap h (put_ps s w)))).

Lemma client_frame_intro ctx c out out_len w res o w1 :
  exec_reply ctx c out out_len w res o w1 -> forall qps t,
  cmd_client_frame ctx qps w (put_trace t (put_qp qps w1)).
Proof.
  intros [_ _ _ _ (c' & t & F & Hr) _] qps t'. destruct F as (_ & Hs & s & h & ->).
  exists c', s, h, t'. split; [|split; [exact Hs|by destruct w]].
  by destruct Hr as [? ? ? ? ?].
Qed.

Lemma client_frame_same ctx c w t : cmd_ready ctx c w -> cmd_client_frame ctx (w_qp w) w (put_trace t w).
Proof.
  intros Hr. exists c, (w_ps w), (w_heap w), t. split; [by destruct Hr|]. split; [done|].
  rewrite insert_id by apply Hr. by destruct w.
Qed.

Definition modify_post (qp : ptr) (q : mlx5_ib_qp) (ctx : ptr) (w : world) (r : Z) (w' : world) : Prop :=
  r = -1 /\ cmd_client_frame ctx (w_qp w) w w' \/
  exists s, modify_next (mqp_state q) = Some s /\ r = 0 /\
    cmd_client_frame ctx (<[qp := in_state s q]> (w_qp w)) w w'.

Lemma modify_none s : modify_target s = None <-> modify_next s = None.
Proof. by destruct s. Qed.

(** The final switch of the function. *)
Lemma set_state_spec qp q s target Q w :
  w_qp w !! qp = Some q -> modify_target s = Some target ->
  (forall s', modify_next s = Some s' -> Q tt (put_qp (<[qp := in_state s' q]> (w_qp w)) w)) ->
  wp (let set_state s :=
        modify qp (set_mqp_state s) ;; modify qp (fun q => set_ibqp (set_qp_state s (ibqp q)) q) in
      if target =? MLX5_QPC_QST_INIT then set_state IB_QPS_INIT
      else if target =? MLX5_QPC_QST_RTR then set_state IB_QPS_RTR
      else if target =? MLX5_QPC_QST_RTS then set_state IB_QPS_RTS
      else mret tt) Q w.
Proof.
  intros Hq Ht HQ. open_world w.
  destruct s; simpl in Ht; try done; injection Ht as <-; cbn [Z.eqb Pos.eqb MLX5_QPC_QST_INIT
    MLX5_QPC_QST_RTR MLX5_QPC_QST_RTS]; cbv zeta; wp_steps; rewrite insert_insert_eq;
    by apply HQ.
Qed.


Lemma in_bounds_true b o n : 0 <= o -> 0 <= n -> o + n <= buf_size b -> in_bounds b o n = true.
Proof. intros. by apply in_bounds_spec. Qed.

Lemma out_ok out n : 0 < n -> n <= 4088 -> n <= buf_size out -> output_ok (Some out) n.
Proof.
  intros ??? _. unfold out_copy_len, MLX5_CMD_MAILBOX_SIZE. destruct (Z.ltb_spec (4096 - 8) n); lia.
Qed.

Lemma in_ok src n : 0 < n -> n <= 4080 -> n <= buf_size src -> input_ok (Some (src, 0)) n.
Proof.
  intros ??? _. unfold in_copy_len, MLX5_CMD_MAILBOX_SIZE.
  destruct (Z.ltb_spec (4096 - 16) n); apply in_bounds_true; lia.
Qed.

(** The world after a command, when the caller goes on. *)
Lemma exec_reply_qp ctx c out out_len w res o w1 :
  exec_reply ctx c out out_len w res o w1 -> w_qp w1 = w_qp w.
Proof.
  intros [_ _ _ _ (c' & t & F & _) _].
  by destruct (cmd_frame_rest _ _ _ _ _ _ F) as (_ & _ & _ & _ & _ & _ & _ & ? & _).
Qed.

Lemma put_qp_same t (w : world) : put_trace t w = put_trace t (put_qp (w_qp w) w).
Proof. by destruct w. Qed.

Lemma modify_spec qp q mask attr ctx c w :
  w_qp w !! qp = Some q -> cmd_ready ctx c w ->
  wp (mlx5_ib_modify_qp_full qp mask attr ctx) (modify_post qp q ctx w) w.
Proof.
  intros Hq Hr. unfold mlx5_ib_modify_qp_full. apply wp_bind. eapply wp_deref; [exact Hq|].
  destruct (modify_target (mqp_state q)) as [target|] eqn:Et; last first.
  { apply wp_bind, wp_log, wp_ret. left. split; [done|]. by eapply client_frame_same. }
  apply wp_bind. unfold qpc_state, arr_or8. apply wp_bind, wp_arr_store; [lia|done|].
  apply wp_bind, wp_arr_load; [lia|done|]. apply wp_arr_store; [lia|done|]. apply wp_bind.
  apply (exec_client ctx c); [done|lia|apply in_ok; simpl; lia|apply out_ok; simpl; lia|].
  intros res o w1 Hy. pose proof (exec_reply_qp _ _ _ _ _ _ _ _ Hy) as Hqp.
  pose proof (client_frame_intro _ _ _ _ _ _ _ _ Hy) as F.
  assert (Hq1 : w_qp w1 !! qp = Some q) by (by rewrite Hqp). clear Hy.
  destruct (negb (io_ok (er_ret res))).
  - apply wp_bind. eapply wp_deref; [exact Hq1|]. apply wp_bind, wp_log, wp_ret.
    left. split; [done|]. rewrite put_qp_same, Hqp. apply F.
  - apply wp_bind. eapply (set_state_spec qp q (mqp_state q)); [exact Hq1|exact Et|].
    intros s' Hs'. apply wp_bind. eapply wp_deref; [apply lookup_insert_eq|].
    apply wp_bind, wp_log, wp_ret. right. exists s'. split; [done|]. split; [done|].
    rewrite Hqp. apply F.
Qed.

(** ** Releasing the three blocks *)

Definition release3 (h : gmap Z block) (p1 p2 p3 : ptr) (b1 b2 b3 : block) : gmap Z block :=
  <[p3 := drop_ref b3]> (<[p2 := drop_ref b2]> (<[p1 := drop_ref b1]> h)).

(** The three blocks of a queue pair, alive and distinct. *)
Record qp_blocks (q : mlx5_ib_qp) (h : gmap Z block) (b1 b2 b3 : block) : Prop := {
  qb_sq : h !! sq_md q = Some b1 /\ 0 < blk_refs b1;
  qb_rq : h !! rq_md q = Some b2 /\ 0 < blk_refs b2;
  qb_db : h !! db_md q = Some b3 /\ 0 < blk_refs b3;
  qb_nodup : NoDup [sq_md q; rq_md q; db_md q];
  qb_nonnull : sq_md q <> NULL /\ rq_md q <> NULL /\ db_md q <> NULL
}.

Lemma qp_blocks_ne q h b1 b2 b3 :
  qp_blocks q h b1 b2 b3 ->
  sq_md q <> rq_md q /\ sq_md q <> db_md q /\ rq_md q <> db_md q.
Proof.
  intros [_ _ _ Hn _]. rewrite !NoDup_cons, !not_elem_of_cons in Hn. tauto.
Qed.

Lemma release3_spec {A} (k : M A) q b1 b2 b3 Q w :
  qp_blocks q (w_heap w) b1 b2 b3 ->
  wp k Q (put_heap (release3 (w_heap w) (sq_md q) (rq_md q) (db_md q) b1 b2 b3) w) ->
  wp (md_release (sq_md q) ;; md_release (rq_md q) ;; md_release (db_md q) ;; k) Q w.
Proof.
  intros Hb HQ. pose proof (qp_blocks_ne _ _ _ _ _ Hb) as (H1 & H2 & H3).
  destruct Hb as [[Hs1 Hr1] [Hs2 Hr2] [Hs3 Hr3] _ _].
  apply wp_bind. eapply wp_md_release; [exact Hs1|done|].
  apply wp_bind. eapply wp_md_release; [wproj; by rewrite lookup_insert_ne|done|].
  apply wp_bind. eapply wp_md_release; [wproj; by rewrite !lookup_insert_ne|done|].
  by destruct w.
Qed.

Lemma release3_dead q h b1 b2 b3 p :
  qp_blocks q h b1 b2 b3 -> blk_refs b1 = 1 -> blk_refs b2 = 1 -> blk_refs b3 = 1 ->
  p ∈ [sq_md q; rq_md q; db_md q] -> dead (release3 h (sq_md q) (rq_md q) (db_md q) b1 b2 b3) p.
Proof.
  intros Hb H1 H2 H3. pose proof (qp_blocks_ne _ _ _ _ _ Hb) as (? & ? & ?).
  rewrite !elem_of_cons. unfold release3, dead.
  intros [-> |[-> |[-> |[]%not_elem_of_nil]]].
  - rewrite lookup_insert_ne, lookup_insert_ne, lookup_insert_eq by done.
    eexists. split; [done|]. simpl. lia.
  - rewrite lookup_insert_ne, lookup_insert_eq by done. eexists. split; [done|]. simpl. lia.
  - rewrite lookup_insert_eq. eexists. split; [done|]. simpl. lia.
Qed.

Lemma release3_apart h q b1 b2 b3 p :
  ~ (p ∈ [sq_md q; rq_md q; db_md q]) ->
  release3 h (sq_md q) (rq_md q) (db_md q) b1 b2 b3 !! p = h !! p.
Proof.
  rewrite !not_elem_of_cons. intros (? & ? & ? & _). unfold release3.
  by rewrite !lookup_insert_ne.
Qed.

Lemma qp_blocks_shape q h h' b1 b2 b3 :
  heap_shape h = heap_shape h' -> qp_blocks q h b1 b2 b3 ->
  exists b1' b2' b3', qp_blocks q h' b1' b2' b3' /\ blk_refs b1' = blk_refs b1 /\
    blk_refs b2' = blk_refs b2 /\ blk_refs b3' = blk_refs b3.
Proof.
  intros Hs [[H1 ?] [H2 ?] [H3 ?] ? ?].
  destruct (heap_shape_blk _ _ _ _ Hs H1) as (b1' & ? & _ & ?).
  destruct (heap_shape_blk _ _ _ _ Hs H2) as (b2' & ? & _ & ?).
  destruct (heap_shape_blk _ _ _ _ Hs H3) as (b3' & ? & _ & ?).
  exists b1', b2', b3'. split; [|done]. split; try done; split; try done; lia.
Qed.

(** ** Destruction *)

Definition destroy_post (q : mlx5_ib_qp) (ctx : ptr) (c : mlx5_cmd_context) (w : world) (r : Z) (w' : world) : Prop :=
  (r = 0 \/ r = -1) /\ w_qp w' = w_qp w /\
  (exists c' w1, cmd_ready ctx c' w1 /\ cmd_ring c' = cmd_ring c /\ mbox_pool c' = mbox_pool c /\
     w' = put_heap (w_heap w') w1) /\
  exists h b1 b2 b3, heap_shape h = heap_shape (w_heap w) /\ qp_blocks q h b1 b2 b3 /\
    w_heap w' = release3 h (sq_md q) (rq_md q) (db_md q) b1 b2 b3.

Lemma destroy_spec qp q ctx c b1 b2 b3 w :
  w_qp w !! qp = Some q -> cmd_ready ctx c w -> qp_blocks q (w_heap w) b1 b2 b3 ->
  wp (mlx5_ib_destroy_qp_full qp ctx) (destroy_post q ctx c w) w.
Proof.
  intros Hq Hr Hb. unfold mlx5_ib_destroy_qp_full. apply wp_bind. eapply wp_deref; [exact Hq|].
  apply wp_bind, wp_arr_store; [lia|by rewrite length_le_split|]. apply wp_bind.
  apply (exec_client ctx c); [done|lia|apply in_ok; simpl; lia|apply out_ok; simpl; lia|].
  intros res o w1 [_ _ _ _ (c' & t & F & Hr1) _ Hsame].
  destruct (Hsame c' (cr_ctx _ _ _ Hr1)) as (Hsr & Hsm & _).
  destruct (cmd_frame_rest _ _ _ _ _ _ F) as (_ & _ & _ & _ & _ & _ & _ & Hqp & _ & Hs).
  apply wp_bind. eapply wp_deref; [rewrite <- Hqp in Hq; exact Hq|]. apply wp_bind.
  symmetry in Hs. destruct (qp_blocks_shape _ _ _ _ _ _ Hs Hb) as (x1 & x2 & x3 & Hx & _).
  pose proof (qb_nonnull _ _ _ _ _ Hx) as (N1 & N2 & N3).
  assert (HQ : forall t, wp (md_release (sq_md q) ;; md_release (rq_md q) ;; md_release (db_md q) ;;
      mret (if io_ok (er_ret res) then 0 else -1)) (destroy_post q ctx c w) (put_trace t w1)).
  { intros t'. apply (release3_spec _ q x1 x2 x3); [exact Hx|]. apply wp_ret.
    split; [destruct (io_ok _); auto|]. split; [exact Hqp|].
    split; [exists c', (put_trace t' w1); split; [by destruct Hr1|]; split; [done|]; split; [done|];
      by destruct w1|].
    exists (w_heap w1), x1, x2, x3. by rewrite Hs. }
  rewrite (proj2 (Z.eqb_neq _ _) N1), (proj2 (Z.eqb_neq _ _) N2), (proj2 (Z.eqb_neq _ _) N3).
  cbn [negb]. unfold mwhen. destruct (io_ok (er_ret res)); [apply wp_log, HQ|apply wp_ret].
  specialize (HQ (w_trace w1)). by destruct w1.
Qed.


(** ** Allocation *)

(** A fresh block of zeros. *)
Definition zeroed (size : Z) (contents : Z -> Z) (dma : Z) : block :=
  Block (buf_fill (Buf size contents) 0 size 0) (u64 dma) 1.

(** A queue pair whose rings are blocks [n], [n + 1] and [n + 2]. *)
Definition with_rings (n sq_cnt sq_shift rq_cnt rq_shift a1 a2 a3 : Z) (q : mlx5_ib_qp) : mlx5_ib_qp :=
  set_db_dma a3 (set_db_record (n + 2) (set_db_md (n + 2)
    (set_rq_head 0 (set_rq_wqe_shift rq_shift (set_rq_wqe_cnt rq_cnt
      (set_rq_dma a2 (set_rq_buf (n + 1) (set_rq_md (n + 1)
        (set_sq_head 0 (set_sq_wqe_shift sq_shift (set_sq_wqe_cnt sq_cnt
          (set_sq_dma a1 (set_sq_buf n (set_sq_md n q)))))))))))))).

Definition qp_only (qp : ptr) (w w' : world) : Prop :=
  exists s h n t q, w' = put_trace t (put_qp (<[qp := q]> (w_qp w))
    (put_heap h (put_next n (put_ps s w)))).

Definition alloc_done (qp : ptr) (q : mlx5_ib_qp) (sq_cnt sq_shift rq_cnt rq_shift : Z)
    (w w' : world) : Prop :=
  let n := w_next w in
  exists s t c1 c2 c3 d1 d2 d3,
    w' = put_trace t (put_qp (<[qp := with_rings n sq_cnt sq_shift rq_cnt rq_shift
                                      (u64 d1) (u64 d2) (u64 d3) q]> (w_qp w))
          (put_heap (<[n + 2 := zeroed 4096 c3 d3]>
                      (<[n + 1 := zeroed (u32 (Z.shiftl rq_cnt rq_shift)) c2 d2]>
                        (<[n := zeroed (u32 (Z.shiftl sq_cnt sq_shift)) c1 d1]> (w_heap w))))
            (put_next (n + 3) (put_ps s w)))).

(** After a failure every new block is released. *)
Definition alloc_failed (qp : ptr) (w w' : world) : Prop :=
  qp_only qp w w' /\ (forall p b, live_buf (w_heap w') p = Some b -> p < w_next w) /\
  forall p, p < w_next w -> w_heap w' !! p = w_heap w !! p.

Definition alloc_post (qp : ptr) (q : mlx5_ib_qp) (sq_cnt sq_shift rq_cnt rq_shift : Z)
    (w : world) (r : IOReturn) (w' : world) : Prop :=
  r = kIOReturnSuccess /\ alloc_done qp q sq_cnt sq_shift rq_cnt rq_shift w w' \/
  r = kIOReturnNoMemory /\ alloc_failed qp w w'.

Ltac qp_only_tac :=
  eexists _, _, _, _, _; rewrite ?insert_insert_eq; reflexivity.

Ltac dead_live :=
  let p := fresh "p" in let b := fresh "b" in let Hl := fresh "Hl" in
  intros p b Hl; wproj;
  repeat (lazymatch type of Hl with
    | live_buf (<[?i := _]> _) _ = _ =>
        destruct (decide (p = i)) as [->|];
        [rewrite live_buf_insert_eq in Hl; done|rewrite live_buf_insert_ne in Hl by done] end);
  apply live_buf_lookup in Hl as (? & ? & _); eauto.

Ltac old_blocks :=
  let p := fresh "p" in let Hp := fresh "Hp" in
  intros p Hp; wproj; simpl in Hp; by rewrite !lookup_insert_ne by lia.

Lemma alloc_spec qp q sq_cnt sq_shift rq_cnt rq_shift w :
  w_qp w !! qp = Some q -> fresh_ok w -> 0 <= sq_shift < 32 -> 0 <= rq_shift < 32 ->
  wp (alloc_qp_resources qp sq_cnt sq_shift rq_cnt rq_shift)
    (alloc_post qp q sq_cnt sq_shift rq_cnt rq_shift w) w.
Proof.
  intros Hq [Hn Hf] Hs1 Hs2. pose proof (u32_range (Z.shiftl sq_cnt sq_shift)).
  pose proof (u32_range (Z.shiftl rq_cnt rq_shift)).
  open_world w. unfold alloc_qp_resources, md_clear. wp_prim.
  apply wp_shl_u32; [done|]. wnorm. wp_steps.
  apply wp_md_alloc; intros s; [|intros d1 c1]; cbn [w_next]; wnorm; wp_steps.
  { change (NULL =? NULL) with true. wp_steps. right. split; [done|].
    split; [qp_only_tac|]. split; [dead_live|done]. }
  rewrite (proj2 (Z.eqb_neq nx NULL)) by (unfold NULL; lia). wp_steps.
  apply wp_shl_u32; [done|]. wnorm. wp_steps.
  apply wp_md_alloc; intros s1; [|intros d2 c2]; cbn [w_next]; wnorm; wp_steps.
  { change (NULL =? NULL) with true. wp_steps. right. split; [done|].
    split; [qp_only_tac|]. wproj. rewrite ?upd_buf_insert, ?insert_insert_eq.
    split; [dead_live|old_blocks]. }
  rewrite (proj2 (Z.eqb_neq (nx + 1) NULL)) by (unfold NULL; lia). wp_steps.
  rewrite !upd_buf_insert.
  apply wp_md_alloc; intros s2; [|intros d3 c3]; cbn [w_next]; wnorm; wp_steps.
  { change (NULL =? NULL) with true. wp_steps.
    eapply wp_md_release; [wproj; rewrite lookup_insert_ne, lookup_insert_eq by lia; done|done|].
    wnorm. wp_steps.
    eapply wp_md_release; [wproj; rewrite lookup_insert_ne, lookup_insert_eq by lia; done|done|].
    wnorm. wp_steps. right. split; [done|]. split; [qp_only_tac|]. wproj.
    split; [dead_live|old_blocks]. }
  rewrite (proj2 (Z.eqb_neq (nx + 1 + 1) NULL)) by (unfold NULL; lia). wp_steps.
  apply wp_shl_int1; [done|]. wnorm. wp_steps. apply wp_shl_int1; [done|]. wnorm. wp_steps.
  left. split; [done|]. eexists _, _, c1, c2, c3, d1, d2, d3.
  rewrite !upd_buf_insert, !insert_insert_eq. wproj.
  replace (nx + 1 + 1) with (nx + 2) by lia. replace (nx + 2 + 1) with (nx + 3) by lia. reflexivity.
Qed.

(** ** Creation *)

(** The CQ number a queue pair takes from a completion queue. *)
Definition cqn_of (w : world) (p : ptr) : Z :=
  if p =? NULL then 0
  else match w_cq w !! p with Some cq => u32 (cq_cqe cq) | None => 0 end.

Definition cq_valid (w : world) (p : ptr) : Prop := p = NULL \/ exists cq, w_cq w !! p = Some cq.

(** The queue pair before and after the firmware has numbered it. *)
Definition fresh_qp (n scqn rcqn a1 a2 a3 : Z) : mlx5_ib_qp :=
  set_recv_cqn rcqn (set_send_cqn scqn
    (with_rings n 256 MLX5_SEND_WQE_SHIFT 256 MLX5_RECV_WQE_SHIFT a1 a2 a3 zero_mlx5_ib_qp)).

Definition numbered (v : Z) (q : mlx5_ib_qp) : mlx5_ib_qp :=
  set_mqp_state IB_QPS_RESET
    (set_ibqp (set_qp_state IB_QPS_RESET (set_qp_qp_num v (ibqp q))) (set_qpn v q)).

(** Adding fresh blocks and changing a queue pair keeps a channel usable. *)
Lemma cmd_ready_fresh ctx c w s t qps n h :
  fresh_ok w -> cmd_ready ctx c w ->
  (forall p, p < w_next w -> h !! p = w_heap w !! p) ->
  cmd_ready ctx c (put_trace t (put_qp qps (put_heap h (put_next n (put_ps s w))))).
Proof.
  intros [_ Hf] [Hc (r & Hr & Hrs) (m & Hm & Hms) Hne Hmm] Hh. split; [done| | |done|done].
  - exists r. split; [|done]. destruct (live_buf_lookup _ _ _ Hr) as (b & Hb & _).
    simpl. unfold live_buf in *. rewrite Hh by (by eapply Hf). done.
  - exists m. split; [|done]. destruct (live_buf_lookup _ _ _ Hm) as (b & Hb & _).
    simpl. unfold live_buf in *. rewrite Hh by (by eapply Hf). done.
Qed.

Lemma set_send_cqn_id q : send_cqn q = 0 -> set_send_cqn 0 q = q.
Proof. destruct q. simpl. by intros ->. Qed.
Lemma set_recv_cqn_id q : recv_cqn q = 0 -> set_recv_cqn 0 q = q.
Proof. destruct q. simpl. by intros ->. Qed.

(** The two optional CQ numbers. *)
Lemma set_cqn_spec qp p q (f : Z -> mlx5_ib_qp -> mlx5_ib_qp) Q w :
  cq_valid w p -> w_qp w !! qp = Some q -> f 0 q = q ->
  Q tt (put_qp (<[qp := f (cqn_of w p) q]> (w_qp w)) w) ->
  wp (mwhen (negb (p =? NULL))
        (cq ← deref (T := ib_cq) p; modify qp (f (u32 (cq_cqe cq))))) Q w.
Proof.
  intros Hv Hq Hf0 HQ. unfold cqn_of in HQ. unfold mwhen. destruct (Z.eqb_spec p NULL) as [->|Hp]; simpl.
  - apply wp_ret. rewrite Hf0, insert_id in HQ by done. by destruct w.
  - destruct Hv as [|(cq & Hcq)]; [done|]. rewrite Hcq in HQ. apply wp_bind.
    eapply wp_deref; [exact Hcq|]. eapply wp_modify; [exact Hq|]. done.
Qed.

Lemma fresh_qp_wf n scqn rcqn a1 a2 a3 v c1 c2 c3 d1 d2 d3 h :
  qp_wf (numbered v (fresh_qp n scqn rcqn a1 a2 a3))
    (<[n + 2 := zeroed 4096 c3 d3]> (<[n + 1 := zeroed 4096 c2 d2]>
      (<[n := zeroed 16384 c1 d1]> h))).
Proof.
  split; simpl.
  - split; [|exists 8; unfold MLX5_SEND_WQE_SHIFT, MLX5_RECV_WQE_SHIFT; simpl; lia|vm_compute; congruence|lia].
    exists (blk_buf (zeroed 16384 c1 d1)). split; [|done].
    by rewrite !live_buf_insert_ne, live_buf_insert_eq by lia.
  - split; [|exists 8; unfold MLX5_SEND_WQE_SHIFT, MLX5_RECV_WQE_SHIFT; simpl; lia|vm_compute; congruence|lia].
    exists (blk_buf (zeroed 4096 c2 d2)). split; [|done].
    by rewrite live_buf_insert_ne, live_buf_insert_eq by lia.
  - exists (blk_buf (zeroed 4096 c3 d3)). split; [|done]. simpl. by rewrite live_buf_insert_eq.
  - lia.
  - lia.
  - lia.
Qed.

Lemma fresh_qp_blocks n scqn rcqn a1 a2 a3 c1 c2 c3 d1 d2 d3 h :
  0 < n ->
  qp_blocks (fresh_qp n scqn rcqn a1 a2 a3)
    (<[n + 2 := zeroed 4096 c3 d3]> (<[n + 1 := zeroed 4096 c2 d2]>
      (<[n := zeroed 16384 c1 d1]> h)))
    (zeroed 16384 c1 d1) (zeroed 4096 c2 d2) (zeroed 4096 c3 d3).
Proof.
  intros Hn. split; simpl.
  - by rewrite !lookup_insert_ne, lookup_insert_eq by lia.
  - by rewrite lookup_insert_ne, lookup_insert_eq by lia.
  - by rewrite lookup_insert_eq.
  - rewrite !NoDup_cons, !not_elem_of_cons. repeat split; try lia; auto using not_elem_of_nil, NoDup_nil_2.
  - unfold NULL. lia.
Qed.


(** Blocks that existed keep their size and their references. *)
Definition old_shape (w w' : world) : Prop :=
  forall p, p < w_next w -> block_shape <$> w_heap w' !! p = block_shape <$> w_heap w !! p.

(** Nothing allocated since [w] is alive. *)
Definition no_new (w w' : world) : Prop :=
  forall p b, live_buf (w_heap w') p = Some b -> p < w_next w.

Definition create_done (qp : ptr) (init : ib_qp_init_attr) (ctx : ptr) (c : mlx5_cmd_context)
    (w w' : world) : Prop :=
  exists a1 a2 a3 o q b1 b2 b3,
    q = numbered (be_at o 8 4)
          (fresh_qp (w_next w) (cqn_of w (init_send_cq init)) (cqn_of w (init_recv_cq init)) a1 a2 a3) /\
    w_qp w' = <[qp := q]> (w_qp w) /\ qp_wf q (w_heap w') /\
    qp_blocks q (w_heap w') b1 b2 b3 /\ blk_refs b1 = 1 /\ blk_refs b2 = 1 /\ blk_refs b3 = 1 /\
    (exists c', cmd_ready ctx c' w') /\
    (owner_protocol (cmd_ring c) (mbox_pool c) ->
     exists m, live_buf (w_heap w') (mbox_pool c) = Some m /\ be_at o 8 4 = be_at m (4096 + 16) 4).

Definition create_post (qp : ptr) (init : ib_qp_init_attr) (ctx : ptr) (c : mlx5_cmd_context)
    (w : world) (r : Z) (w' : world) : Prop :=
  (r = 0 /\ create_done qp init ctx c w w' \/ r = -1 /\ no_new w w') /\ old_shape w w'.

Lemma wp_arr_or8 b o v Q w :
  0 <= o -> o + 1 <= buf_size b ->
  Q (buf_store b o (le_split 1 (Z.lor (le_combine (buf_bytes b o 1)) v))) w ->
  wp (arr_or8 b o v) Q w.
Proof.
  intros. unfold arr_or8. apply wp_bind, wp_arr_load; [done|simpl; lia|].
  apply wp_arr_store; [done|simpl; lia|done].
Qed.

Lemma qpc_sizes_size b n1 n2 k Q w :
  16 <= buf_size b -> (forall b', buf_size b' = buf_size b -> Q b' w) ->
  wp (qpc_sizes b n1 n2 k) Q w.
Proof.
  intros Hb HQ. unfold qpc_sizes, MLX5_QPC_OFF_LOG_RQ_SIZE, MLX5_QPC_OFF_LOG_RQ_STRIDE,
    MLX5_QPC_OFF_LOG_SQ_SIZE.
  apply wp_bind, wp_arr_or8; [lia|lia|]. apply wp_bind, wp_arr_or8; [lia|simpl; lia|].
  apply wp_arr_or8; [lia|simpl; lia|]. by apply HQ.
Qed.

Lemma qpc_addresses_size b q Q w :
  0x210 <= buf_size b -> (forall b', buf_size b' = buf_size b -> Q b' w) ->
  wp (qpc_addresses b q) Q w.
Proof.
  intros Hb HQ. unfold qpc_addresses.
  apply wp_bind, wp_arr_store; [lia|simpl; lia|]. apply wp_bind, wp_arr_store; [lia|simpl; lia|].
  apply wp_arr_store; [lia|simpl; lia|]. by apply HQ.
Qed.

(** A reply copied from the mailbox. *)
Lemma reply_word out m n o :
  0 <= o -> o + 4 <= n <= 4088 ->
  be_at (buf_copy out 0 m (4096 + 8) (out_copy_len n)) o 4 = be_at m (4096 + 8 + o) 4.
Proof.
  intros. unfold out_copy_len, MLX5_CMD_MAILBOX_SIZE. destruct (Z.ltb_spec (4096 - 8) n); [lia|].
  rewrite be_at_copy_in by (simpl; lia). f_equal. lia.
Qed.

(** From the allocated rings on. *)
Lemma create_tail qp q ctx c b1 b2 b3 in_buf w Q :
  w_qp w !! qp = Some q -> cmd_ready ctx c w -> 0x210 <= buf_size in_buf ->
  qp_blocks q (w_heap w) b1 b2 b3 ->
  (forall o w', heap_shape (w_heap w') = heap_shape (w_heap w) ->
     w_qp w' = <[qp := numbered (be_at o 8 4) q]> (w_qp w) ->
     (exists c', cmd_ready ctx c' w') ->
     (owner_protocol (cmd_ring c) (mbox_pool c) ->
      exists m, live_buf (w_heap w') (mbox_pool c) = Some m /\ be_at o 8 4 = be_at m (4096 + 16) 4) ->
     Q 0 w') ->
  (forall h x1 x2 x3 w', heap_shape h = heap_shape (w_heap w) -> qp_blocks q h x1 x2 x3 ->
     blk_refs x1 = blk_refs b1 -> blk_refs x2 = blk_refs b2 -> blk_refs x3 = blk_refs b3 ->
     w_heap w' = release3 h (sq_md q) (rq_md q) (db_md q) x1 x2 x3 -> Q (-1) w') ->
  wp (create_command qp ctx in_buf) Q w.
Proof.
  intros Hq Hr Hin Hb Hok Hfail. apply wp_bind.
  apply (exec_client ctx c); [done|lia|apply in_ok; lia|apply out_ok; simpl; lia|].
  intros res o w1 Hy. pose proof (exec_reply_qp _ _ _ _ _ _ _ _ Hy) as Hqp.
  destruct Hy as [_ Hout Hsz _ (c' & t & F & Hr1) Hcopy].
  assert (Hs : heap_shape (w_heap w1) = heap_shape (w_heap w)) by apply F.
  assert (Hq1 : w_qp w1 !! qp = Some q) by (by rewrite Hqp).
  destruct (io_ok (er_ret res)) eqn:Er; cbn [negb].
  - apply io_ok_true in Er. rewrite Hout. simpl default.
    apply wp_bind, wp_arr_load; [lia|rewrite Hsz; simpl; lia|].
    unfold OSSwapInt32. rewrite bswap_load. clear F.
    assert (Hr1' : forall t qps, cmd_ready ctx c' (put_trace t (put_qp qps w1)))
      by (intros; by destruct Hr1). specialize (Hcopy Er).
    open_world w1. wp_steps. rewrite !insert_insert_eq, Hqp.
    apply (Hok o); [done|done|by exists c'; apply Hr1'|].
    intros Hp. destruct (Hcopy ltac:(lia) Hp) as (m & Hm & ->). exists m. split; [done|].
    rewrite reply_word by lia. done.
  - apply wp_bind, wp_log, wp_bind. eapply wp_deref; [exact Hq1|]. symmetry in Hs.
    destruct (qp_blocks_shape _ _ _ _ _ _ Hs Hb) as (x1 & x2 & x3 & Hx & ? & ? & ?).
    apply (release3_spec _ q x1 x2 x3); [exact Hx|]. apply wp_ret.
    by eapply (Hfail (w_heap w1)).
Qed.


Lemma fresh_insert3_old n (h : gmap Z block) b1 b2 b3 p :
  p < n -> <[n + 2 := b3]> (<[n + 1 := b2]> (<[n := b1]> h)) !! p = h !! p.
Proof. intros. by rewrite !lookup_insert_ne by lia. Qed.

(** The rings released after a failed command: nothing new is left. *)
Lemma released_no_new n q (h0 h : gmap Z block) b1 b2 b3 x1 x2 x3 :
  (forall p b, h0 !! p = Some b -> p < n) ->
  heap_shape h = heap_shape (<[n + 2 := b3]> (<[n + 1 := b2]> (<[n := b1]> h0))) ->
  sq_md q = n -> rq_md q = n + 1 -> db_md q = n + 2 ->
  qp_blocks q h x1 x2 x3 -> blk_refs x1 = 1 -> blk_refs x2 = 1 -> blk_refs x3 = 1 ->
  forall p b, live_buf (release3 h (sq_md q) (rq_md q) (db_md q) x1 x2 x3) p = Some b -> p < n.
Proof.
  intros Hf Hs E1 E2 E3 Hb R1 R2 R3 p b Hl.
  destruct (decide (p ∈ [sq_md q; rq_md q; db_md q])) as [Hp|Hp].
  - by destruct (dead_not_live _ _ _ (release3_dead _ _ _ _ _ _ Hb R1 R2 R3 Hp) Hl).
  - rewrite !not_elem_of_cons in Hp. destruct Hp as (N1 & N2 & N3 & _).
    unfold release3 in Hl. rewrite !live_buf_insert_ne in Hl by done.
    destruct (heap_shape_live _ _ _ _ Hs Hl) as (b' & Hb' & _).
    rewrite !live_buf_insert_ne in Hb' by congruence.
    apply live_buf_lookup in Hb' as (y & Hy & _). by eapply Hf.
Qed.

Lemma qp_blocks_numbered v q h b1 b2 b3 :
  qp_blocks q h b1 b2 b3 -> qp_blocks (numbered v q) h b1 b2 b3.
Proof. by intros [? ? ? ? ?]. Qed.

(** The world in which CREATE_QP is sent: the rings are the blocks from [w_next w]
    on, and the queue pair points to them. *)
Definition rings_world (qp : ptr) (q : mlx5_ib_qp) (w : world) s t c1 c2 c3 d1 d2 d3 : world :=
  put_trace t (put_qp (<[qp := q]> (w_qp w)) (put_heap
    (<[w_next w + 2 := zeroed 4096 c3 d3]> (<[w_next w + 1 := zeroed 4096 c2 d2]>
      (<[w_next w := zeroed 16384 c1 d1]> (w_heap w)))) (put_next (w_next w + 3) (put_ps s w)))).

Lemma create_command_spec qp init ctx c w s t c1 c2 c3 d1 d2 d3 in_buf :
  fresh_ok w -> cmd_ready ctx c w -> 0x210 <= buf_size in_buf ->
  wp (create_command qp ctx in_buf) (create_post qp init ctx c w)
    (rings_world qp (fresh_qp (w_next w) (cqn_of w (init_send_cq init))
      (cqn_of w (init_recv_cq init)) (u64 d1) (u64 d2) (u64 d3)) w s t c1 c2 c3 d1 d2 d3).
Proof.
  intros [Hn Hfr] Hr Hin. set (q := fresh_qp _ _ _ _ _ _).
  assert (Hb := fresh_qp_blocks (w_next w) (cqn_of w (init_send_cq init))
    (cqn_of w (init_recv_cq init)) (u64 d1) (u64 d2) (u64 d3) c1 c2 c3 d1 d2 d3 (w_heap w) Hn).
  apply (create_tail qp q ctx c (zeroed 16384 c1 d1) (zeroed 4096 c2 d2) (zeroed 4096 c3 d3)).
  - apply lookup_insert_eq.
  - apply cmd_ready_fresh; [by split|done|]. intros p Hp. by apply fresh_insert3_old.
  - done.
  - exact Hb.
  - intros o w' Hs Hqp Hc Hm. symmetry in Hs. split; [left|].
    2: { intros p Hp. rewrite <- (heap_shape_at _ _ p Hs). simpl. by rewrite fresh_insert3_old. }
    split; [done|]. simpl in Hs, Hqp. rewrite insert_insert_eq in Hqp.
    destruct (qp_blocks_shape _ _ _ _ _ _ Hs Hb) as (x1 & x2 & x3 & Hx & ? & ? & ?).
    eexists _, _, _, o, _, x1, x2, x3. split; [reflexivity|]. split; [exact Hqp|].
    split; [eapply qp_wf_shape; [exact Hs|apply fresh_qp_wf]|].
    split; [by apply qp_blocks_numbered|]. done.
  - intros h x1 x2 x3 w' Hs Hx R1 R2 R3 Hw'. split; [right; split; [done|]|].
    2: { intros p Hp. rewrite Hw', release3_apart.
      - rewrite (heap_shape_at _ _ p Hs). simpl. by rewrite fresh_insert3_old.
      - rewrite !not_elem_of_cons. simpl. repeat split; [lia..|apply not_elem_of_nil]. }
    intros p b. rewrite Hw'.
    eapply (released_no_new (w_next w));
      [exact Hfr|exact Hs|done|done|done|exact Hx|exact R1|exact R2|exact R3].
Qed.

Lemma create_spec qp q0 init ctx c w :
  w_qp w !! qp = Some q0 -> fresh_ok w -> cmd_ready ctx c w ->
  cq_valid w (init_send_cq init) -> cq_valid w (init_recv_cq init) ->
  wp (mlx5_ib_create_qp_full qp init ctx) (create_post qp init ctx c w) w.
Proof.
  intros Hq Hf Hr Hv1 Hv2. pose proof Hf as [Hn Hfr]. unfold mlx5_ib_create_qp_full. cbv zeta.
  apply wp_bind, wp_log, wp_bind. eapply wp_assign; [exact Hq|].
  set (w1 := cell_put _ _). assert (Hf1 : fresh_ok w1) by done.
  apply wp_bind. eapply wp_mono; [apply (alloc_spec qp zero_mlx5_ib_qp);
    [apply lookup_insert_eq|done|done|done]|].
  intros r w2 [[-> Hd]|[-> (_ & Hno & Hold)]]; cbn [io_ok negb]; last first.
  { apply wp_ret. split; [right; split; [done|exact Hno]|]. intros p Hp. by rewrite Hold. }
  destruct Hd as (s & t & c1 & c2 & c3 & d1 & d2 & d3 & Hw2).
  change (w_next w1) with (w_next w) in Hw2.
  change (u32 (Z.shiftl 256 MLX5_RECV_WQE_SHIFT)) with 4096 in Hw2.
  change (u32 (Z.shiftl 256 MLX5_SEND_WQE_SHIFT)) with 16384 in Hw2.
  change (w_heap w1) with (w_heap w) in Hw2. change (w_cq w1) with (w_cq w) in Hw2.
  set (q1 := with_rings _ _ _ _ _ _ _ _ _) in Hw2. change (w_qp w1) with (<[qp := zero_mlx5_ib_qp]> (w_qp w)) in Hw2.
  rewrite insert_insert_eq in Hw2.
  assert (Hq2 : w_qp w2 !! qp = Some q1) by (rewrite Hw2; apply lookup_insert_eq).
  apply wp_bind, qpc_sizes_size; [done|]. intros in1 Hin1. apply wp_bind.
  apply (set_cqn_spec qp _ q1 set_send_cqn); [by rewrite Hw2|exact Hq2|by apply set_send_cqn_id|].
  set (w3 := put_qp _ w2).
  apply wp_bind. apply (set_cqn_spec qp _ (set_send_cqn (cqn_of w2 (init_send_cq init)) q1) set_recv_cqn);
    [by unfold w3; rewrite Hw2|apply lookup_insert_eq|by apply set_recv_cqn_id|].
  set (q3 := set_recv_cqn _ _). set (w4 := put_qp _ w3).
  assert (Hq3 : q3 = fresh_qp (w_next w) (cqn_of w (init_send_cq init))
    (cqn_of w (init_recv_cq init)) (u64 d1) (u64 d2) (u64 d3)) by (unfold q3, w3; by rewrite Hw2).
  assert (Hw4 : w4 = put_trace t (put_qp (<[qp := q3]> (w_qp w)) (put_heap
    (<[w_next w + 2 := zeroed 4096 c3 d3]> (<[w_next w + 1 := zeroed 4096 c2 d2]>
      (<[w_next w := zeroed 16384 c1 d1]> (w_heap w)))) (put_next (w_next w + 3) (put_ps s w))))).
  { unfold w4, w3. simpl. rewrite insert_insert_eq, Hw2. simpl. rewrite insert_insert_eq. by destruct w. }
  clearbody w4 q3. clear w3 Hq2 Hw2. subst q3.
  assert (Hq4 : w_qp w4 !! qp = Some (fresh_qp (w_next w) (cqn_of w (init_send_cq init))
    (cqn_of w (init_recv_cq init)) (u64 d1) (u64 d2) (u64 d3))) by (rewrite Hw4; apply lookup_insert_eq).
  apply wp_bind. eapply wp_deref; [exact Hq4|]. unfold mwhen. simpl (negb _). apply wp_bind, wp_ret.
  apply wp_bind. eapply wp_deref; [exact Hq4|].
  apply wp_bind, qpc_addresses_size; [rewrite Hin1; simpl; lia|]. intros in2 Hin2.
  rewrite Hw4. apply create_command_spec; [done|done|]. rewrite Hin2, Hin1. simpl. lia.
Qed.

End QpSpec.
