(* ===== verification/QpTheorems.v ===== *)
(** * Theorems on queue pairs

    The data path (bytes, wrap-around, order, BlueFlame), the state machine,
    creation and destruction, each with a run on the simulated platform. *)

From S2P Require Import Prelude Bytes Registers IbVerbs World Wp Cmd CmdSpec CmdInit Qp QpSpec Sim.
From S2P Require Import CmdTheorems CmdInitTheorems.

(** A simulated world with a queue pair at 500: rings of 256 elements in the
    blocks 4 (send), 5 (receive) and 6 (doorbell record). *)
Definition sim_qp : mlx5_ib_qp := Eval vm_compute in
  set_qpn 0x1234 (set_uar 0x40100000
    (set_db_md 6 (set_db_record 6
      (set_rq_wqe_shift 4 (set_rq_wqe_cnt 256 (set_rq_md 5 (set_rq_buf 5
        (set_sq_head 255 (set_sq_wqe_shift 6 (set_sq_wqe_cnt 256 (set_sq_md 4 (set_sq_buf 4
          zero_mlx5_ib_qp)))))))))))).

Definition sim_qp_heap : gmap Z block :=
  <[4 := Block (buf_zero 16384) 0x300000 1]> (<[5 := Block (buf_zero 4096) 0x310000 1]>
    (<[6 := Block (buf_zero 4096) 0x320000 1]>
      (<[1 := Block (buf_zero 64) 0x100000 1]> (<[2 := Block (buf_zero 8192) 0x100000 1]> ∅)))).

Definition sim_qp_world (s : sim) : @world (sim_platform 1 2) :=
  put_qp (<[500 := sim_qp]> ∅) (put_heap sim_qp_heap (sim_world s)).

Lemma sim_qp_wf : qp_wf sim_qp sim_qp_heap.
Proof.
  split; [| |by exists (buf_zero 4096)|done|done|done].
  - split; [by exists (buf_zero 16384)|by exists 8; vm_compute|done|done].
  - split; [by exists (buf_zero 4096)|by exists 8; vm_compute|done|done].
Qed.

(** The simulated firmware only writes blocks 1 and 2. *)
Lemma sim_readonly p : p <> 1 -> p <> 2 -> @device_readonly (sim_platform 1 2) p.
Proof.
  intros H1 H2 b s h Hb. simpl. unfold sim_run. destruct (live_buf h 1) as [r|]; [|done].
  destruct (_ =? 0); [done|]. destruct (sim_wait s); [|done].
  destruct (sim_script s) as [|[st resp] rest]; [done|].
  unfold apply_dmas. cbn [snd foldl]. by rewrite !live_buf_apply_dma_ne.
Qed.

Lemma sim_uar_ok s : uar_ok sim_qp (sim_qp_world s).
Proof.
  right. split; [|by split; apply sim_readonly].
  by apply (mmio_mapped_intro _ 3 (IOMap 0x40000000 0x2000000 1)).
Qed.

Lemma sim_qp_ready s : @cmd_ready (sim_platform 1 2) 100 sim_ctx (sim_qp_world s).
Proof.
  split; [done|by eexists|by eexists|done|].
  by apply (mmio_mapped_intro _ 3 (IOMap 0x40000000 0x2000000 1)).
Qed.

Lemma qp_wf_frame `{P : Platform} qp q' t w w' :
  qp_frame qp q' t w w' -> qp_wf q' (w_heap w) -> qp_wf q' (w_heap w').
Proof. intros [Hs _]. by apply qp_wf_shape. Qed.

Lemma qp_wf_uar v q h : qp_wf q h -> qp_wf (set_uar v q) h.
Proof. by intros [? ? ? ? ? ?]. Qed.

(** ** The send queue *)

(** C26. Posting a send on a well-formed queue pair succeeds and stays inside the
    ring: the device reads at slot [sq_head] an RDMA WRITE control segment with
    the slot index, the queue pair number and 2 data segments, completion
    requested; no other byte of the ring changes; the head advances modulo the
    ring size; the doorbell record holds the new head's offset; the queue pair
    stays well-formed. *)
Theorem post_send_wqe `{P : Platform} qp q b d wr bad w :
  w_qp w !! qp = Some q -> qp_wf q (w_heap w) -> uar_ok q w ->
  live_buf (w_heap w) (sq_buf q) = Some b -> live_buf (w_heap w) (db_record q) = Some d ->
  wp (mlx5_ib_post_send_full qp wr bad) (fun r w' => exists b' d' q',
    r = 0 /\ w_qp w' !! qp = Some q' /\ qp_wf q' (w_heap w') /\
    sq_head q' = (sq_head q + 1) mod sq_wqe_cnt q /\
    live_buf (w_heap w') (sq_buf q) = Some b' /\ live_buf (w_heap w') (db_record q) = Some d' /\
    decode_ctrl b' (sq_off q) =
      CtrlSeg (MLX5_OPCODE_RDMA_WRITE * 2 ^ 24 + sq_head q mod 2 ^ 16)
        ((qpn q mod 2 ^ 24) * 2 ^ 8 + 2) (2 ^ 31) 0 /\
    (forall i, i < sq_off q \/ sq_off q + 16 <= i -> buf_get b' i = buf_get b i) /\
    be_at d' 0 4 = sq_off q') w.
Proof.
  intros Hq Hwf Hu Hb Hd. eapply wp_mono; [by apply (post_send_spec qp q b d)|].
  intros r w' (-> & F & Hb' & Hd' & _). eexists _, _, (next_sq q). split; [done|].
  split; [destruct F as (_ & s & h & ->); apply lookup_insert_eq|].
  split; [eapply qp_wf_frame; [exact F|by apply qp_wf_sq_head]|].
  split; [done|]. split; [exact Hb'|]. split; [exact Hd'|].
  split; [apply decode_sq_stored|]. split; [intros; by apply sq_stored_out|].
  by eapply sq_db_value.
Qed.

Lemma post_send_wqe_witness :
  @wp (sim_platform 1 2) _ (@mlx5_ib_post_send_full (sim_platform 1 2) 500 0 0) (fun r w' =>
    exists b' d' q',
    r = 0 /\ w_qp w' !! 500 = Some q' /\ qp_wf q' (w_heap w') /\
    sq_head q' = (255 + 1) mod 256 /\
    live_buf (w_heap w') 4 = Some b' /\ live_buf (w_heap w') 6 = Some d' /\
    decode_ctrl b' (sq_off sim_qp) = CtrlSeg (0x8 * 2 ^ 24 + 255) (0x1234 * 2 ^ 8 + 2) (2 ^ 31) 0 /\
    (forall i, i < sq_off sim_qp \/ sq_off sim_qp + 16 <= i -> buf_get b' i = buf_get (buf_zero 16384) i) /\
    be_at d' 0 4 = sq_off q') (sim_qp_world (sim_fw 0 [])).
Proof.
  apply (@post_send_wqe (sim_platform 1 2) 500 sim_qp (buf_zero 16384) (buf_zero 4096) 0 0
    (sim_qp_world (sim_fw 0 []))); [done|apply sim_qp_wf|apply sim_uar_ok|done|done].
Defined.

(** Order of the data path: the work queue element is written first, then the
    doorbell record, then (if there is one) the BlueFlame register followed by a
    barrier; nothing is written after that. *)
Theorem post_send_order `{P : Platform} qp q b d wr bad w :
  w_qp w !! qp = Some q -> qp_wf q (w_heap w) -> uar_ok q w ->
  live_buf (w_heap w) (sq_buf q) = Some b -> live_buf (w_heap w) (db_record q) = Some d ->
  wp (mlx5_ib_post_send_full qp wr bad) (fun _ w' => exists bf wqe,
    w_trace w' = [EvLog "post_send" [qpn q; sq_head q]; EvBarrier] ++ bf ++
                 EvStore (db_record q) 0 (be_split 4 (sq_off (next_sq q))) :: wqe ++ w_trace w /\
    Forall (fun e => exists o bs, e = EvStore (sq_buf q) o bs /\ length bs = 4%nat /\
      sq_off q <= o /\ o + 4 <= sq_off q + 16) wqe /\
    (uar q = NULL /\ bf = [] \/ exists v, bf = [EvBarrier; EvMmioWrite (uar q) v])) w.
Proof.
  intros Hq Hwf Hu Hb Hd. eapply wp_mono; [by apply (post_send_spec qp q b d)|].
  intros r w' (_ & (_ & s & h & ->) & _). cbn [w_trace put_trace]. unfold send_events.
  exists (send_bf q b), (send_wqe q). split; [by rewrite <- !app_assoc|]. split.
  - repeat constructor; eexists _, _; (split; [reflexivity|split; [done|]]);
      unfold off_opmod, off_qpn_ds, off_flags, off_fm_ce_se; lia.
  - unfold send_bf. destruct (Z.eqb_spec (uar q) NULL); [by left|right; by eexists].
Qed.

Lemma post_send_order_witness :
  @wp (sim_platform 1 2) _ (@mlx5_ib_post_send_full (sim_platform 1 2) 500 0 0) (fun _ w' =>
    exists bf wqe,
    w_trace w' = [EvLog "post_send" [0x1234; 255]; EvBarrier] ++ bf ++
                 EvStore 6 0 (be_split 4 (sq_off (next_sq sim_qp))) :: wqe ++ [] /\
    Forall (fun e => exists o bs, e = EvStore 4 o bs /\ length bs = 4%nat /\
      sq_off sim_qp <= o /\ o + 4 <= sq_off sim_qp + 16) wqe /\
    (uar sim_qp = NULL /\ bf = [] \/ exists v, bf = [EvBarrier; EvMmioWrite (uar sim_qp) v]))
    (sim_qp_world (sim_fw 0 [])).
Proof.
  apply (@post_send_order (sim_platform 1 2) 500 sim_qp (buf_zero 16384) (buf_zero 4096) 0 0
    (sim_qp_world (sim_fw 0 []))); [done|apply sim_qp_wf|apply sim_uar_ok|done|done].
Defined.

(** The bytes a 64-bit store of the CPU puts on the bus, lowest address first. *)
Definition bus_bytes (v : Z) : list Z := le_split 8 v.

(** BlueFlame: the register does get the first 8 bytes of the work queue
    element, but in reverse order: the element is already big-endian in memory,
    and the code swaps the 64-bit word once more before it stores it. *)
Theorem blueflame_reversed `{P : Platform} qp q b d wr bad w :
  w_qp w !! qp = Some q -> qp_wf q (w_heap w) -> uar_ok q w -> uar q <> NULL ->
  live_buf (w_heap w) (sq_buf q) = Some b -> live_buf (w_heap w) (db_record q) = Some d ->
  wp (mlx5_ib_post_send_full qp wr bad) (fun _ w' => exists v b' t1 t2,
    w_trace w' = t1 ++ EvMmioWrite (uar q) v :: t2 /\
    live_buf (w_heap w') (sq_buf q) = Some b' /\
    bus_bytes v = rev (buf_bytes b' (sq_off q) 8)) w.
Proof.
  intros Hq Hwf Hu Hun Hb Hd. eapply wp_mono; [by apply (post_send_spec qp q b d)|].
  intros r w' (_ & F & Hb' & _).
  exists (be_at (sq_stored q (sq_off q) b) (sq_off q) 8), (sq_stored q (sq_off q) b),
    [EvLog "post_send" [qpn q; sq_head q]; EvBarrier; EvBarrier],
    (EvStore (db_record q) 0 (be_split 4 (sq_off (next_sq q))) :: send_wqe q ++ w_trace w).
  destruct F as (_ & s & h & Hw). split; [|split; [done|]].
  - rewrite Hw. cbn [w_trace put_trace]. unfold send_events, send_bf.
    by rewrite (proj2 (Z.eqb_neq _ _) Hun).
  - unfold bus_bytes, be_at, be_combine.
    pose proof (buf_bytes_bytes (sq_stored q (sq_off q) b) (sq_off q) 8) as Hl.
    apply Forall_rev in Hl. apply le_split_combine in Hl. by rewrite length_rev in Hl.
Qed.

Lemma blueflame_reversed_witness :
  @wp (sim_platform 1 2) _ (@mlx5_ib_post_send_full (sim_platform 1 2) 500 0 0) (fun _ w' =>
    exists v b' t1 t2,
    w_trace w' = t1 ++ EvMmioWrite 0x40100000 v :: t2 /\
    live_buf (w_heap w') 4 = Some b' /\
    bus_bytes v = rev (buf_bytes b' (sq_off sim_qp) 8)) (sim_qp_world (sim_fw 0 [])).
Proof.
  apply (@blueflame_reversed (sim_platform 1 2) 500 sim_qp (buf_zero 16384) (buf_zero 4096) 0 0
    (sim_qp_world (sim_fw 0 []))); [done|apply sim_qp_wf|apply sim_uar_ok|done|done|done].
Defined.

(** [n] sends in a row: all return values. *)
Fixpoint post_sends `{Platform} (n : nat) (qp : ptr) : M (list Z) :=
  match n with
  | O => mret []
  | S n' => r ← mlx5_ib_post_send_full qp NULL NULL; rs ← post_sends n' qp; mret (r :: rs)
  end.

(** The send queue never reports that it is full: any number of posts in a row
    all return 0 and the head only wraps around, so that after [sq_wqe_cnt]
    posts the oldest element is being overwritten, whether or not the device has
    processed it. *)
Theorem post_sends_wrap `{P : Platform} n qp q w :
  w_qp w !! qp = Some q -> qp_wf q (w_heap w) -> uar q = NULL ->
  wp (post_sends n qp) (fun rs w' => rs = repeat 0 n /\
    exists q', w_qp w' !! qp = Some q' /\ qp_wf q' (w_heap w') /\
      sq_head q' = (sq_head q + Z.of_nat n) mod sq_wqe_cnt q) w.
Proof.
  revert q w; induction n as [|n IH]; intros q w Hq Hwf Hu; simpl post_sends.
  { apply wp_ret. split; [done|]. exists q. split; [done|]. split; [done|].
    rewrite Z.add_0_r, Z.mod_small; [done|]. apply Hwf. }
  destruct (rw_live _ _ _ _ _ (qw_sq _ _ Hwf)) as (b & Hb & _).
  destruct (qw_db _ _ Hwf) as (d & Hd & _).
  apply wp_bind. eapply wp_mono; [apply (post_send_spec qp q b d); try done; by left|].
  intros r w1 (-> & F & _). apply wp_bind. eapply wp_mono; [apply (IH (next_sq q))|].
  - destruct F as (_ & s & h & ->). apply lookup_insert_eq.
  - eapply qp_wf_frame; [exact F|by apply qp_wf_sq_head].
  - done.
  - intros rs w2 (-> & q' & Hq' & Hwf' & Hh). apply wp_ret. split; [done|]. exists q'.
    split; [done|]. split; [done|]. rewrite Hh. simpl.
    rewrite Zplus_mod_idemp_l. f_equal. lia.
Qed.

Lemma post_sends_wrap_witness :
  @wp (sim_platform 1 2) _ (@post_sends (sim_platform 1 2) 3 500) (fun rs w' => rs = repeat 0 3 /\
    exists q', w_qp w' !! 500 = Some q' /\ qp_wf q' (w_heap w') /\
      sq_head q' = (255 + 3) mod 256)
    (put_qp (<[500 := set_uar NULL sim_qp]> ∅) (sim_qp_world (sim_fw 0 []))).
Proof.
  apply (@post_sends_wrap (sim_platform 1 2) 3 500 (set_uar NULL sim_qp)); [done| |done].
  apply qp_wf_uar, sim_qp_wf.
Defined.

(** ** The receive queue *)

(** Posting a receive writes at slot [rq_head] a data segment of 4096 bytes with
    key 0 and address 0 (the placeholders of the source), changes no other byte,
    advances the head modulo the ring size and puts the new head, modulo 2^16,
    in the second word of the doorbell record. *)
Theorem post_recv_wqe `{P : Platform} qp q b d wr bad w :
  w_qp w !! qp = Some q -> qp_wf q (w_heap w) ->
  live_buf (w_heap w) (rq_buf q) = Some b -> live_buf (w_heap w) (db_record q) = Some d ->
  wp (mlx5_ib_post_recv_full qp wr bad) (fun r w' => exists b' d' q',
    r = 0 /\ w_qp w' !! qp = Some q' /\ qp_wf q' (w_heap w') /\
    rq_head q' = (rq_head q + 1) mod rq_wqe_cnt q /\
    live_buf (w_heap w') (rq_buf q) = Some b' /\ live_buf (w_heap w') (db_record q) = Some d' /\
    decode_data b' (rq_off q) = DataSeg 4096 0 0 /\
    (forall i, i < rq_off q \/ rq_off q + 16 <= i -> buf_get b' i = buf_get b i) /\
    be_at d' 4 4 = rq_head q' mod 2 ^ 16 /\ be_at d' 0 4 = be_at d 0 4) w.
Proof.
  intros Hq Hwf Hb Hd. eapply wp_mono; [by apply (post_recv_spec qp q b d)|].
  intros r w' (-> & F & Hb' & Hd' & _). eexists _, _, (next_rq q). split; [done|].
  split; [destruct F as (_ & s & h & ->); apply lookup_insert_eq|].
  split; [eapply qp_wf_frame; [exact F|by apply qp_wf_rq_head]|].
  split; [done|]. split; [exact Hb'|]. split; [exact Hd'|].
  split; [apply decode_rq_stored|]. split; [intros; by apply rq_stored_out|].
  unfold rq_db. split; [|apply be_at_store_out; simpl; lia].
  rewrite be_at_store_same. apply Z.mod_small. change (256 ^ Z.of_nat 4) with (2 ^ 32).
  pose proof (Z.mod_pos_bound (rq_head (next_rq q)) (2 ^ 16)). lia.
Qed.

Lemma post_recv_wqe_witness :
  @wp (sim_platform 1 2) _ (@mlx5_ib_post_recv_full (sim_platform 1 2) 500 0 0) (fun r w' =>
    exists b' d' q',
    r = 0 /\ w_qp w' !! 500 = Some q' /\ qp_wf q' (w_heap w') /\
    rq_head q' = (0 + 1) mod 256 /\
    live_buf (w_heap w') 5 = Some b' /\ live_buf (w_heap w') 6 = Some d' /\
    decode_data b' (rq_off sim_qp) = DataSeg 4096 0 0 /\
    (forall i, i < rq_off sim_qp \/ rq_off sim_qp + 16 <= i -> buf_get b' i = buf_get (buf_zero 4096) i) /\
    be_at d' 4 4 = rq_head q' mod 2 ^ 16 /\ be_at d' 0 4 = be_at (buf_zero 4096) 0 4)
    (sim_qp_world (sim_fw 0 [])).
Proof.
  apply (@post_recv_wqe (sim_platform 1 2) 500 sim_qp (buf_zero 4096) (buf_zero 4096) 0 0
    (sim_qp_world (sim_fw 0 []))); [done|apply sim_qp_wf|done|done].
Defined.

(** ** The state machine *)

(** One successful change of state. *)
Definition qp_step (s s' : ib_qp_state) : Prop := modify_next s = Some s'.

(** Both records of the state agree. *)
Definition state_sync (q : mlx5_ib_qp) : Prop := qp_state (ibqp q) = mqp_state q.

(** [n] calls of [modify_qp] in a row: all return values. *)
Fixpoint modifies `{Platform} (n : nat) (qp ctx : ptr) : M (list Z) :=
  match n with
  | O => mret []
  | S n' => r ← mlx5_ib_modify_qp_full qp 0 NULL ctx; rs ← modifies n' qp ctx; mret (r :: rs)
  end.

Definition successes (rs : list Z) : Z := Z.of_nat (length (filter (.= 0) rs)).

Lemma qp_step_code s s' : qp_step s s' -> ib_qp_state_code s' = ib_qp_state_code s + 1.
Proof. unfold qp_step. destruct s; simpl; intros [= <-]; done. Qed.

(** C30. Sequences of state changes: each call returns 0 or -1; a call that fails
    leaves the state alone; the calls that succeed walk along
    RESET, INIT, RTR, RTS, one step each, and keep both records of the state
    equal; in RTS (or any other state) a further call fails. *)
Theorem modify_walk `{P : Platform} n qp q ctx c w :
  w_qp w !! qp = Some q -> state_sync q -> cmd_ready ctx c w ->
  wp (modifies n qp ctx) (fun rs w' => exists q',
    w_qp w' !! qp = Some q' /\ state_sync q' /\
    rtc qp_step (mqp_state q) (mqp_state q') /\
    ib_qp_state_code (mqp_state q') = ib_qp_state_code (mqp_state q) + successes rs /\
    Forall (fun r => r = 0 \/ r = -1) rs /\ qpn q' = qpn q) w.
Proof.
  revert q c w; induction n as [|n IH]; intros q c w Hq Hs Hr; simpl modifies.
  { apply wp_ret. exists q. unfold successes. simpl. rewrite Z.add_0_r. by repeat (split; [done|]). }
  apply wp_bind. eapply wp_mono; [by apply (modify_spec qp q 0 NULL ctx c)|].
  intros r w1 Hpost.
  assert (Hstep : exists q1 c1, w_qp w1 !! qp = Some q1 /\ state_sync q1 /\ cmd_ready ctx c1 w1 /\
    qpn q1 = qpn q /\
    (r = -1 /\ mqp_state q1 = mqp_state q \/ r = 0 /\ qp_step (mqp_state q) (mqp_state q1))).
  { destruct Hpost as [[-> (c' & s & h & t & Hr1 & _ & ->)]|
      (s' & Hs' & -> & (c' & s & h & t & Hr1 & _ & ->))].
    - exists q, c'. do 4 (split; [done|]). by left.
    - exists (in_state s' q), c'. split; [apply lookup_insert_eq|]. do 3 (split; [done|]). by right. }
  destruct Hstep as (q1 & c1 & Hq1 & Hs1 & Hr1 & Hn1 & Hcase). apply wp_bind.
  eapply wp_mono; [by apply (IH q1 c1)|].
  intros rs w2 (q' & Hq' & Hs' & Hrtc & Hcode & Hall & Hqn). apply wp_ret. exists q'.
  split; [done|]. split; [done|]. unfold successes in *.
  destruct Hcase as [[-> He]|[-> He]].
  - rewrite He in *. split; [done|]. split; [by rewrite filter_cons_False|].
    split; [constructor; auto|congruence].
  - split; [by eapply rtc_l|]. rewrite filter_cons_True by done. simpl.
    apply qp_step_code in He. split; [lia|]. split; [constructor; auto|congruence].
Qed.

Lemma modify_walk_witness :
  @wp (sim_platform 1 2) _ (@modifies (sim_platform 1 2) 4 500 100) (fun rs w' => exists q',
    w_qp w' !! 500 = Some q' /\ state_sync q' /\
    rtc qp_step IB_QPS_RESET (mqp_state q') /\
    ib_qp_state_code (mqp_state q') = 0 + successes rs /\
    Forall (fun r => r = 0 \/ r = -1) rs /\ qpn q' = 0x1234)
    (sim_qp_world (sim_fw 0 [(0, []); (0, []); (0, []); (0, [])])).
Proof.
  apply (@modify_walk (sim_platform 1 2) 4 500 sim_qp 100 sim_ctx); [done|done|apply sim_qp_ready].
Defined.

(** The command MODIFY_QP of the source names its target twice, in the nibble
    for the current and in the nibble for the next state, and no queue pair
    number: all other input bytes are 0. *)
Theorem modify_input `{P : Platform} s target w :
  modify_target s = Some target ->
  wp (qpc_state target)
    (fun b w' => w' = w /\ buf_get b 0 = target * 16 + target /\ forall i, 0 < i -> buf_get b i = 0) w.
Proof.
  intros Ht. apply wp_bind, wp_arr_store; [lia|done|]. apply wp_arr_or8; [lia|done|].
  split; [done|]. split.
  - by destruct s; simpl in Ht; try done; injection Ht as <-.
  - intros i Hi. by rewrite !buf_get_store_out, buf_get_zero by (rewrite length_le_split; simpl; lia).
Qed.

Lemma modify_input_witness :
  @wp (sim_platform 1 2) _
    (@qpc_state (sim_platform 1 2) MLX5_QPC_QST_RTR)
    (fun b w' => w' = sim_world (sim_fw 0 []) /\ buf_get b 0 = 2 * 16 + 2 /\
       forall i, 0 < i -> buf_get b i = 0) (sim_world (sim_fw 0 [])).
Proof. apply (@modify_input (sim_platform 1 2) IB_QPS_INIT). reflexivity. Defined.

(** ** Creation and destruction *)

(** The input of CREATE_QP: ring size 256 (log 8) in the upper nibble of byte 4
    and of byte 12, the bus addresses of the doorbell record and of the two rings
    big-endian at 0x100, 0x200 and 0x208, and zero everywhere else; in
    particular the fields for the protection domain and the completion queues
    stay 0. *)
Theorem create_input `{P : Platform} q w :
  0 <= db_dma q < 2 ^ 64 -> 0 <= sq_dma q < 2 ^ 64 -> 0 <= rq_dma q < 2 ^ 64 ->
  wp (b ← qpc_sizes (buf_zero 1024) 256 256 MLX5_RECV_WQE_SHIFT; qpc_addresses b q)
    (fun b w' => w' = w /\ buf_size b = 1024 /\
       buf_get b MLX5_QPC_OFF_LOG_RQ_SIZE = 0x80 /\ buf_get b MLX5_QPC_OFF_LOG_SQ_SIZE = 0x80 /\
       be_at b 0x100 8 = db_dma q /\ be_at b 0x200 8 = sq_dma q /\ be_at b 0x208 8 = rq_dma q /\
       forall i, i <> 4 -> i <> 12 -> ~ (0x100 <= i < 0x108) -> ~ (0x200 <= i < 0x210) ->
         buf_get b i = 0) w.
Proof.
  intros H1 H2 H3. unfold qpc_sizes, qpc_addresses, MLX5_QPC_OFF_LOG_RQ_SIZE,
    MLX5_QPC_OFF_LOG_RQ_STRIDE, MLX5_QPC_OFF_LOG_SQ_SIZE, MLX5_RECV_WQE_SHIFT.
  apply wp_bind, wp_bind, wp_arr_or8; [lia|done|].
  apply wp_bind, wp_arr_or8; [lia|done|]. apply wp_arr_or8; [lia|done|].
  apply wp_bind, wp_arr_store; [lia|by rewrite length_le_split|].
  apply wp_bind, wp_arr_store; [lia|by rewrite length_le_split|].
  apply wp_arr_store; [lia|by rewrite length_le_split|]. rewrite !le_split_swap64.
  assert (Hl : forall x, Z.of_nat (length (be_split 8 x)) = 8) by (intros; by rewrite length_be_split).
  split; [done|]. split; [done|].
  split; [by rewrite !buf_get_store_out by (rewrite ?Hl; simpl; lia)|].
  split; [by rewrite !buf_get_store_out by (rewrite ?Hl; simpl; lia)|].
  split; [rewrite !be_at_store_out, be_at_store_same by (rewrite ?Hl; simpl; lia); by apply Z.mod_small|].
  split; [rewrite !be_at_store_out, be_at_store_same by (rewrite ?Hl; simpl; lia); by apply Z.mod_small|].
  split; [rewrite be_at_store_same; by apply Z.mod_small|].
  intros i ????. rewrite !buf_get_store_out by (rewrite ?Hl, ?length_le_split; lia).
  apply buf_get_zero.
Qed.

Lemma create_input_witness :
  @wp (sim_platform 1 2) _
    (b ← @qpc_sizes (sim_platform 1 2) (buf_zero 1024) 256 256 MLX5_RECV_WQE_SHIFT;
     qpc_addresses b sim_qp)
    (fun b w' => w' = sim_world (sim_fw 0 []) /\ buf_size b = 1024 /\
       buf_get b MLX5_QPC_OFF_LOG_RQ_SIZE = 0x80 /\ buf_get b MLX5_QPC_OFF_LOG_SQ_SIZE = 0x80 /\
       be_at b 0x100 8 = 0 /\ be_at b 0x200 8 = 0 /\ be_at b 0x208 8 = 0 /\
       forall i, i <> 4 -> i <> 12 -> ~ (0x100 <= i < 0x108) -> ~ (0x200 <= i < 0x210) ->
         buf_get b i = 0) (sim_world (sim_fw 0 [])).
Proof. apply (@create_input (sim_platform 1 2) sim_qp); simpl; lia. Defined.

(** C29. Creating a queue pair returns 0 or -1.  On 0 there is a well-formed queue
    pair with fresh rings of its own, in state RESET, numbered by big-endian
    word 2 of the reply, which the code reads from bytes 16 to 19 of the
    output mailbox; because the object is cleared before its [pd] is read, the
    protection domain number is 0 and [device] and [pd] are null.  On -1 nothing
    allocated on the way is still alive. *)
Theorem create_qp_result `{P : Platform} qp q0 init ctx c w :
  w_qp w !! qp = Some q0 -> fresh_ok w -> cmd_ready ctx c w ->
  owner_protocol (cmd_ring c) (mbox_pool c) ->
  cq_valid w (init_send_cq init) -> cq_valid w (init_recv_cq init) ->
  wp (mlx5_ib_create_qp_full qp init ctx) (fun r w' =>
    r = -1 /\ no_new w w' \/
    r = 0 /\ exists q m,
      w_qp w' !! qp = Some q /\ qp_wf q (w_heap w') /\ (exists c', cmd_ready ctx c' w') /\
      live_buf (w_heap w') (mbox_pool c) = Some m /\ qpn q = be_at m (4096 + 16) 4 /\
      qp_qp_num (ibqp q) = qpn q /\ mqp_state q = IB_QPS_RESET /\ state_sync q /\
      w_next w <= sq_buf q /\ w_next w <= rq_buf q /\ w_next w <= db_record q /\
      pdn q = 0 /\ qp_pd (ibqp q) = NULL /\ qp_device (ibqp q) = NULL /\ uar q = NULL) w.
Proof.
  intros Hq Hf Hr Hp Hv1 Hv2. eapply wp_mono; [by apply (create_spec qp q0 init ctx c)|].
  intros r w' [[[-> Hd]|[-> Hn]] _]; [right|left; done]. split; [done|].
  destruct Hd as (a1 & a2 & a3 & o & q & b1 & b2 & b3 & -> & Hqp & Hwf & _ & _ & _ & _ & Hc & Hm).
  destruct (Hm Hp) as (m & Hm' & Hn). eexists _, m. rewrite Hqp.
  split; [apply lookup_insert_eq|]. split; [done|]. split; [done|]. split; [done|].
  split; [done|]. simpl. do 3 (split; [done|]). do 3 (split; [lia|]). done.
Qed.

Lemma create_qp_result_witness :
  @wp (sim_platform 1 2) _
    (@mlx5_ib_create_qp_full (sim_platform 1 2) 500 zero_ib_qp_init_attr 100) (fun r w' =>
    r = -1 /\ no_new (sim_world (sim_fw 0 [(0, [0])])) w' \/
    r = 0 /\ exists q m,
      w_qp w' !! 500 = Some q /\ qp_wf q (w_heap w') /\ (exists c', cmd_ready 100 c' w') /\
      live_buf (w_heap w') 2 = Some m /\ qpn q = be_at m (4096 + 16) 4 /\
      qp_qp_num (ibqp q) = qpn q /\ mqp_state q = IB_QPS_RESET /\ state_sync q /\
      10 <= sq_buf q /\ 10 <= rq_buf q /\ 10 <= db_record q /\
      pdn q = 0 /\ qp_pd (ibqp q) = NULL /\ qp_device (ibqp q) = NULL /\ uar q = NULL)
    (sim_world (sim_fw 0 [(0, [0])])).
Proof.
  apply (@create_qp_result (sim_platform 1 2) 500 zero_mlx5_ib_qp zero_ib_qp_init_attr 100 sim_ctx
    (sim_world (sim_fw 0 [(0, [0])])));
    [done|apply sim_fresh|apply sim_ready|apply sim_owner_protocol|by left|by left].
Defined.

(** The channel does not live in the queue pair's blocks. *)
Definition channel_apart (c : mlx5_cmd_context) (q : mlx5_ib_qp) : Prop :=
  ~ (cmd_ring c ∈ [sq_md q; rq_md q; db_md q]) /\ ~ (mbox_pool c ∈ [sq_md q; rq_md q; db_md q]).

(** The channel survives the destruction of a queue pair. *)
Lemma destroy_ready `{P : Platform} q ctx c r w w' :
  cmd_ready ctx c w -> channel_apart c q -> destroy_post q ctx c w r w' ->
  exists c', cmd_ready ctx c' w' /\ cmd_ring c' = cmd_ring c /\ mbox_pool c' = mbox_pool c.
Proof.
  intros [_ (x & Hx & Hxs) (m & Hm & Hms) Hne _] [Ha1 Ha2]
    (_ & _ & (c' & w1 & [Hc' _ _ _ Hmm] & Er & Em & Hw') & (h & b1 & b2 & b3 & Hs & _ & Hh)).
  symmetry in Hs. exists c'. split; [|done].
  assert (Hlive : forall p, ~ (p ∈ [sq_md q; rq_md q; db_md q]) ->
    live_buf (w_heap w') p = live_buf h p).
  { intros p Hp. unfold live_buf. by rewrite Hh, release3_apart. }
  destruct (heap_shape_live _ _ _ _ Hs Hx) as (x' & Hx' & Hxs').
  destruct (heap_shape_live _ _ _ _ Hs Hm) as (m' & Hm' & Hms').
  split.
  - rewrite Hw'. exact Hc'.
  - exists x'. rewrite Er, Hlive by done. split; [done|lia].
  - exists m'. rewrite Em, Hlive by done. split; [done|lia].
  - by rewrite Er, Em.
  - rewrite Hw'. exact Hmm.
Qed.

(** A released send ring: destroying the queue pair again is a use after free. *)
Lemma destroy_dead `{P : Platform} qp q ctx c w :
  w_qp w !! qp = Some q -> cmd_ready ctx c w -> sq_md q <> NULL -> dead (w_heap w) (sq_md q) ->
  mlx5_ib_destroy_qp_full qp ctx w = Fault UseAfterFree.
Proof.
  intros Hq Hr Hn (b & Hb & Hrefs).
  assert (Hex : wp (in_buf ← arr_store (buf_zero 16) 0 (le_split 4 (OSSwapInt32 (qpn q)));
    mlx5_cmd_exec ctx MLX5_CMD_OP_DESTROY_QP 0 (Some (in_buf, 0)) 4 (Some (buf_zero 16)) 16 (Some 0xFF))
    (fun _ w1 => w_qp w1 = w_qp w /\ dead (w_heap w1) (sq_md q)) w).
  { apply wp_bind, wp_arr_store; [lia|by rewrite length_le_split|].
    apply (exec_client ctx c); [done|lia|apply in_ok; simpl; lia|apply out_ok; simpl; lia|].
    intros res o w1 [_ _ _ _ (c' & t & F & _) _ _].
    destruct (cmd_frame_rest _ _ _ _ _ _ F) as (_ & _ & _ & _ & _ & _ & _ & Hqp & _ & Hs).
    split; [done|]. symmetry in Hs. destruct (heap_shape_blk _ _ _ _ Hs Hb) as (b' & Hb' & _ & Hr').
    exists b'. split; [done|lia]. }
  unfold mlx5_ib_destroy_qp_full. unfold wp in Hex. revert Hex.
  cbv [mbind M_bind deref cell_get cell_qp]. rewrite Hq.
  destruct (arr_store _ _ _ w) as [in_buf wa|]; [|done].
  destruct (mlx5_cmd_exec _ _ _ _ _ _ _ _ wa) as [res w1|]; [|done].
  intros [Hqp (b' & Hb' & Hr')]. rewrite Hqp, Hq.
  assert (Hlog : forall t, md_release (sq_md q) (put_trace t w1) = Fault UseAfterFree).
  { intros t. unfold md_release. simpl. by rewrite Hb', Hr'. }
  unfold mwhen at 1. rewrite (proj2 (Z.eqb_neq _ _) Hn). cbn [negb]. unfold mwhen at 1.
  destruct (io_ok (er_ret res)).
  - cbv [IOLog emit]. by rewrite Hlog.
  - cbv [mret M_ret]. specialize (Hlog (w_trace w1)).
    replace (put_trace (w_trace w1) w1) with w1 in Hlog by (by destruct w1). by rewrite Hlog.
Qed.

(** Destroying a queue pair frees its three blocks whatever the firmware says:
    the result (0 or -1) only reports the command.  Since the pointers are not
    cleared, a caller that reacts to -1 by destroying again frees twice. *)
Theorem destroy_frees `{P : Platform} qp q ctx c b1 b2 b3 w :
  w_qp w !! qp = Some q -> cmd_ready ctx c w -> channel_apart c q ->
  qp_blocks q (w_heap w) b1 b2 b3 -> blk_refs b1 = 1 -> blk_refs b2 = 1 -> blk_refs b3 = 1 ->
  wp (mlx5_ib_destroy_qp_full qp ctx) (fun r w' =>
    (r = 0 \/ r = -1) /\
    (forall p, p ∈ [sq_md q; rq_md q; db_md q] -> dead (w_heap w') p) /\
    mlx5_ib_destroy_qp_full qp ctx w' = Fault UseAfterFree) w.
Proof.
  intros Hq Hr Ha Hb R1 R2 R3. eapply wp_mono; [by apply (destroy_spec qp q ctx c b1 b2 b3)|].
  intros r w' Hd. destruct (destroy_ready _ _ _ _ _ _ Hr Ha Hd) as (c' & Hr' & _).
  destruct Hd as (Hres & Hqp & _ & (h & x1 & x2 & x3 & Hs & Hx & Hh)). split; [done|].
  assert (Hdead : forall p, p ∈ [sq_md q; rq_md q; db_md q] -> dead (w_heap w') p).
  { intros p Hp. rewrite Hh. symmetry in Hs.
    destruct (qp_blocks_shape _ _ _ _ _ _ Hs Hb) as (y1 & y2 & y3 & Hy & ? & ? & ?).
    pose proof Hx as [[X1 _] [X2 _] [X3 _] _ _]. pose proof Hy as [[Y1 _] [Y2 _] [Y3 _] _ _].
    apply release3_dead; [done|congruence|congruence|congruence|done]. }
  split; [done|]. apply (destroy_dead qp q ctx c'); [by rewrite Hqp|done|apply Hb|].
  apply Hdead, elem_of_cons. by left.
Qed.

Lemma destroy_frees_witness :
  @wp (sim_platform 1 2) _ (@mlx5_ib_destroy_qp_full (sim_platform 1 2) 500 100) (fun r w' =>
    (r = 0 \/ r = -1) /\
    (forall p, p ∈ [4; 5; 6] -> dead (w_heap w') p) /\
    mlx5_ib_destroy_qp_full 500 100 w' = Fault UseAfterFree)
    (sim_qp_world (sim_fw 0 [(0, [1])])).
Proof.
  apply (@destroy_frees (sim_platform 1 2) 500 sim_qp 100 sim_ctx
    (Block (buf_zero 16384) 0x300000 1) (Block (buf_zero 4096) 0x310000 1)
    (Block (buf_zero 4096) 0x320000 1) (sim_qp_world (sim_fw 0 [(0, [1])])));
    [done|apply sim_qp_ready| | |done|done|done].
  - split; simpl; rewrite !not_elem_of_cons; auto using not_elem_of_nil with lia.
  - split; try done. simpl. rewrite !NoDup_cons, !not_elem_of_cons.
    auto 9 using not_elem_of_nil, NoDup_nil_2 with lia.
Defined.
