(* ===== verification/QpRing.v ===== *)
(** * The work queues as logs

    An abstract queue pair is two logs, of the elements sent and of the elements
    received so far; a post appends to one of them.  [represents] relates it to
    memory: slot [(head + k) mod cnt] of a ring holds the [k]-th element, for the
    last [cnt] elements, and the doorbell record says how far the logs go.  The
    two posting functions simulate the abstract posts, in any interleaving. *)

From S2P Require Import Prelude Bytes Registers IbVerbs World Wp Cmd CmdSpec Qp QpSpec Sim QpTheorems.

Inductive work := Send | Recv.

Record logs := Logs { sent : list ctrl_seg; received : list data_seg }.

(** The slot of the [k]-th element after the head was [h0]. *)
Definition slot (h0 cnt : Z) (k : nat) : Z := (h0 + Z.of_nat k) mod cnt.

Definition sent_slot (q0 : mlx5_ib_qp) (k : nat) : Z := slot (sq_head q0) (sq_wqe_cnt q0) k.
Definition recv_slot (q0 : mlx5_ib_qp) (k : nat) : Z := slot (rq_head q0) (rq_wqe_cnt q0) k.

(** An RDMA WRITE of queue pair [q0] at slot [s], and a receive. *)
Definition send_elem (q0 : mlx5_ib_qp) (s : Z) : ctrl_seg :=
  CtrlSeg (MLX5_OPCODE_RDMA_WRITE * 2 ^ 24 + s mod 2 ^ 16) ((qpn q0 mod 2 ^ 24) * 2 ^ 8 + 2) (2 ^ 31) 0.
Definition recv_elem : data_seg := DataSeg 4096 0 0.

(** The abstract post. *)
Definition post_log (q0 : mlx5_ib_qp) (l : logs) (x : work) : logs :=
  match x with
  | Send => Logs (sent l ++ [send_elem q0 (sent_slot q0 (length (sent l)))]) (received l)
  | Recv => Logs (sent l) (received l ++ [recv_elem])
  end.
Definition post_logs (q0 : mlx5_ib_qp) (ops : list work) : logs := foldl (post_log q0) (Logs [] []) ops.

(** A ring, seen through [dec], holds the last [cnt] elements of a log. *)
Definition holds_last {E} (dec : Z -> E) (h0 cnt : Z) (l : list E) : Prop :=
  forall k e, l !! k = Some e -> Z.of_nat (length l) <= Z.of_nat k + cnt -> dec (slot h0 cnt k) = e.

Lemma slot_range h0 cnt k : 0 < cnt -> 0 <= slot h0 cnt k < cnt.
Proof. apply Z.mod_pos_bound. Qed.

Lemma slot_succ h0 cnt k : (slot h0 cnt k + 1) mod cnt = slot h0 cnt (S k).
Proof. unfold slot. rewrite Zplus_mod_idemp_l. f_equal. lia. Qed.

(** Fewer than [cnt] elements apart: different slots. *)
Lemma slot_ne h0 cnt k n :
  (k < n)%nat -> Z.of_nat n < Z.of_nat k + cnt -> slot h0 cnt k <> slot h0 cnt n.
Proof.
  intros Hk Hn E. unfold slot in E. apply (f_equal (fun x => (x - (h0 + Z.of_nat k) mod cnt) mod cnt)) in E.
  rewrite Z.sub_diag, Zmod_0_l, Zminus_mod_idemp_l, Zminus_mod_idemp_r in E.
  rewrite Z.mod_small in E by lia. lia.
Qed.

Lemma holds_last_push {E} (dec dec' : Z -> E) h0 cnt l e :
  0 < cnt -> holds_last dec h0 cnt l ->
  (forall s, 0 <= s < cnt -> s <> slot h0 cnt (length l) -> dec' s = dec s) ->
  dec' (slot h0 cnt (length l)) = e -> holds_last dec' h0 cnt (l ++ [e]).
Proof.
  intros Hc H Hs He k x. rewrite length_app. simpl. intros Hk Hl.
  apply lookup_app_Some in Hk as [Hk|[Hge Hk]].
  - pose proof (lookup_lt_Some _ _ _ Hk). rewrite Hs.
    + apply H; [done|lia].
    + by apply slot_range.
    + apply slot_ne; lia.
  - destruct (k - length l)%nat eqn:Ek; [|done]. injection Hk as <-.
    by replace k with (length l) by lia.
Qed.

(** Elements do not overlap. *)
Lemma slots_apart s s' shift :
  4 <= shift -> s <> s' -> s' * 2 ^ shift + 16 <= s * 2 ^ shift \/ s * 2 ^ shift + 16 <= s' * 2 ^ shift.
Proof.
  intros Hs Hne. assert (2 ^ 4 <= 2 ^ shift) by (apply Z.pow_le_mono_r; lia).
  change (2 ^ 4) with 16 in *. destruct (Z.lt_total s s') as [|[|]]; [right|done|left]; nia.
Qed.

Lemma decode_ctrl_other q o o' b :
  o' + 16 <= o \/ o + 16 <= o' -> decode_ctrl (sq_stored q o b) o' = decode_ctrl b o'.
Proof.
  intros. unfold decode_ctrl, sq_stored. f_equal; by rewrite !be_at_store_out by wqe_offs.
Qed.

Lemma decode_data_other o o' b :
  o' + 16 <= o \/ o + 16 <= o' -> decode_data (rq_stored o b) o' = decode_data b o'.
Proof.
  intros. unfold decode_data, rq_stored. f_equal; by rewrite !be_at_store_out by wqe_offs.
Qed.

Section Ring.
Context `{P : Platform} (qp : ptr) (q0 : mlx5_ib_qp).

(** The queue pair after the posts of [l]. *)
Definition moved (l : logs) : mlx5_ib_qp :=
  set_rq_head (recv_slot q0 (length (received l))) (set_sq_head (sent_slot q0 (length (sent l))) q0).

Definition ring_ctrl (b : buf) (s : Z) : ctrl_seg := decode_ctrl b (s * 2 ^ sq_wqe_shift q0).
Definition ring_data (b : buf) (s : Z) : data_seg := decode_data b (s * 2 ^ rq_wqe_shift q0).

Record represents (l : logs) (w : world) : Prop := {
  rp_qp : w_qp w !! qp = Some (moved l);
  rp_wf : qp_wf (moved l) (w_heap w);
  rp_sq : exists b, live_buf (w_heap w) (sq_buf q0) = Some b /\
    holds_last (ring_ctrl b) (sq_head q0) (sq_wqe_cnt q0) (sent l);
  rp_rq : exists b, live_buf (w_heap w) (rq_buf q0) = Some b /\
    holds_last (ring_data b) (rq_head q0) (rq_wqe_cnt q0) (received l);
  rp_db : exists d, live_buf (w_heap w) (db_record q0) = Some d /\
    (sent l <> [] -> be_at d 0 4 = sent_slot q0 (length (sent l)) * 2 ^ sq_wqe_shift q0) /\
    (received l <> [] -> be_at d 4 4 = recv_slot q0 (length (received l)) mod 2 ^ 16)
}.

(** The BlueFlame register is absent, or mapped with memory that the device only
    reads. *)
Definition rings_ok (w : world) : Prop :=
  uar_ok q0 w /\ (uar q0 = NULL \/ device_readonly (rq_buf q0)).

Definition post_one (x : work) : M Z :=
  match x with
  | Send => mlx5_ib_post_send_full qp NULL NULL
  | Recv => mlx5_ib_post_recv_full qp NULL NULL
  end.

Fixpoint post_all (ops : list work) : M (list Z) :=
  match ops with
  | [] => mret []
  | x :: ops => r ← post_one x; rs ← post_all ops; mret (r :: rs)
  end.

Lemma moved_send l : next_sq (moved l) = moved (post_log q0 l Send).
Proof.
  unfold next_sq, moved, post_log, sent_slot. cbn [sent received]. rewrite length_app, Nat.add_1_r.
  rewrite <- slot_succ. done.
Qed.

Lemma moved_recv l : next_rq (moved l) = moved (post_log q0 l Recv).
Proof.
  unfold next_rq, moved, post_log, recv_slot. cbn [sent received]. rewrite length_app, Nat.add_1_r.
  rewrite <- slot_succ. done.
Qed.

Lemma rings_ok_maps w w' : w_maps w' = w_maps w -> rings_ok w -> rings_ok w'.
Proof. intros E. unfold rings_ok, uar_ok. by rewrite E. Qed.

(** A send simulates the abstract send. *)
Lemma send_simulates l w :
  represents l w -> rings_ok w ->
  wp (mlx5_ib_post_send_full qp NULL NULL) (fun r w' => r = 0 /\ w_maps w' = w_maps w /\
    represents (post_log q0 l Send) w') w.
Proof.
  intros [Hq Hwf (b & Hb & Hsq) (br & Hbr & Hrq) (d & Hd & _ & Hdr)] [Hu Hur].
  pose proof (qw_sq _ _ Hwf) as Hring. pose proof (qw_sq_rq _ _ Hwf) as Hne1.
  pose proof (qw_rq_db _ _ Hwf) as Hne2.
  eapply wp_mono; [by apply (post_send_spec qp (moved l) b d)|].
  intros r w' (-> & F & Hb' & Hd' & Hother). rewrite moved_send in F. split; [done|].
  split; [by destruct F as (_ & s & h & ->)|].
  pose proof (qp_wf_sq_head _ _ Hwf) as Hwf1. fold (next_sq (moved l)) in Hwf1. rewrite moved_send in Hwf1.
  destruct (ring_cnt_bound _ _ _ _ _ Hring) as [Hcnt Hsize].
  split.
  - destruct F as (_ & s & h & ->). apply lookup_insert_eq.
  - by eapply qp_wf_frame.
  - eexists. split; [exact Hb'|]. apply (holds_last_push (ring_ctrl b)); [cbn in Hcnt; lia|done| |].
    + intros s Hs Hne. apply decode_ctrl_other. apply slots_apart; [apply Hring|done].
    + apply decode_sq_stored.
  - exists br. split; [|done]. by apply Hother.
  - eexists. split; [exact Hd'|]. unfold sq_db. rewrite moved_send. split.
    + intros _. rewrite be_at_store_same. apply Z.mod_small. change (256 ^ Z.of_nat 4) with (2 ^ 32).
      pose proof (ring_offset _ _ _ _ _ _ Hring (rw_head _ _ _ _ _ (qw_sq _ _ Hwf1))) as (_ & _ & H1 & H2).
      unfold sq_off. cbn in H1, H2, Hsize |- *. lia.
    + intros Hr. rewrite be_at_store_out by (simpl; lia). by apply Hdr.
Qed.

(** A receive simulates the abstract receive. *)
Lemma recv_simulates l w :
  represents l w ->
  wp (mlx5_ib_post_recv_full qp NULL NULL) (fun r w' => r = 0 /\ w_maps w' = w_maps w /\
    represents (post_log q0 l Recv) w') w.
Proof.
  intros [Hq Hwf (b & Hb & Hsq) (br & Hbr & Hrq) (d & Hd & Hds & _)].
  pose proof (qw_rq _ _ Hwf) as Hring. pose proof (qw_sq_rq _ _ Hwf) as Hne1.
  pose proof (qw_sq_db _ _ Hwf) as Hne2.
  eapply wp_mono; [by apply (post_recv_spec qp (moved l) br d)|].
  intros r w' (-> & F & Hb' & Hd' & Hother). rewrite moved_recv in F. split; [done|].
  split; [by destruct F as (_ & s & h & ->)|].
  pose proof (qp_wf_rq_head _ _ Hwf) as Hwf1. fold (next_rq (moved l)) in Hwf1. rewrite moved_recv in Hwf1.
  destruct (ring_cnt_bound _ _ _ _ _ Hring) as [Hcnt Hsize].
  split.
  - destruct F as (_ & s & h & ->). apply lookup_insert_eq.
  - by eapply qp_wf_frame.
  - exists b. split; [|done]. by rewrite Hother.
  - eexists. split; [exact Hb'|]. apply (holds_last_push (ring_data br)); [cbn in Hcnt; lia|done| |].
    + intros s Hs Hne. apply decode_data_other. apply slots_apart; [apply Hring|done].
    + apply decode_rq_stored.
  - eexists. split; [exact Hd'|]. unfold rq_db. rewrite moved_recv. split.
    + intros Hr. rewrite be_at_store_out by (simpl; lia). by apply Hds.
    + intros _. rewrite be_at_store_same. apply Z.mod_small. change (256 ^ Z.of_nat 4) with (2 ^ 32).
      match goal with |- 0 <= ?x mod _ < _ => pose proof (Z.mod_pos_bound x (2 ^ 16)); lia end.
Qed.

Lemma post_all_simulates ops l w :
  represents l w -> rings_ok w ->
  wp (post_all ops) (fun rs w' => rs = repeat 0 (length ops) /\
    represents (foldl (post_log q0) l ops) w') w.
Proof.
  revert l w; induction ops as [|x ops IH]; intros l w Hl Hok; simpl post_all; [by apply wp_ret|].
  apply wp_bind. eapply wp_mono with (Q1 := fun r w' => r = 0 /\ w_maps w' = w_maps w /\
    represents (post_log q0 l x) w').
  { destruct x; [by apply send_simulates|by apply recv_simulates]. }
  intros r w1 (-> & Em & Hl1). apply wp_bind. eapply wp_mono; [apply (IH _ _ Hl1); by eapply rings_ok_maps|].
  intros rs w2 [-> Hl2]. by apply wp_ret.
Qed.

(** The empty logs represent any well-formed queue pair. *)
Lemma represents_empty w :
  w_qp w !! qp = Some q0 -> qp_wf q0 (w_heap w) -> represents (Logs [] []) w.
Proof.
  intros Hq Hwf. pose proof Hwf as [Hsq Hrq (d & Hd & _) _ _ _].
  assert (E : moved (Logs [] []) = q0).
  { unfold moved, sent_slot, recv_slot, slot. simpl. rewrite !Z.add_0_r.
    rewrite !Z.mod_small by (apply Hsq || apply Hrq). by destruct q0. }
  destruct (rw_live _ _ _ _ _ Hsq) as (b & Hb & _), (rw_live _ _ _ _ _ Hrq) as (br & Hbr & _).
  split; rewrite ?E; [done|done| | |].
  - exists b. split; [done|]. intros k e H. done.
  - exists br. split; [done|]. intros k e H. done.
  - exists d. split; [done|]. by split.
Qed.
End Ring.

(** C22. Refinement of the work queues: any interleaving of posts to the send and
    the receive queue behaves as appending to two logs.  All posts succeed; the
    heads advance with the logs; each ring holds the last elements of its log, as
    many as it has slots, at the slots they were posted to; the two words of the
    doorbell record give the ends of the two logs; and neither queue disturbs the
    other. *)
Theorem posts_refine_logs `{P : Platform} qp q0 ops w :
  w_qp w !! qp = Some q0 -> qp_wf q0 (w_heap w) -> rings_ok q0 w ->
  wp (post_all qp ops) (fun rs w' => rs = repeat 0 (length ops) /\
    represents qp q0 (post_logs q0 ops) w') w.
Proof.
  intros Hq Hwf Hok. apply post_all_simulates; [|done]. by apply represents_empty.
Qed.

Lemma posts_refine_logs_witness :
  @wp (sim_platform 1 2) _ (@post_all (sim_platform 1 2) 500 [Send; Recv; Send]) (fun rs w' =>
    rs = repeat 0 3 /\ represents 500 sim_qp (post_logs sim_qp [Send; Recv; Send]) w')
    (sim_qp_world (sim_fw 0 [])).
Proof.
  apply (@posts_refine_logs (sim_platform 1 2) 500 sim_qp [Send; Recv; Send]);
    [done|apply sim_qp_wf|]. split; [apply sim_uar_ok|]. right. by apply sim_readonly.
Defined.
