(* ===== verification/QpOverlap.v ===== *)
(** * Two sends at once

    [mlx5_ib_post_send_full] reads the head of the ring, fills the slot, and only
    then advances the head; it takes no lock.  The function is cut there, into
    [send_claim] and [send_commit]; [send_split] says that nothing is lost by the
    cut.  Here a second send runs between the two halves of the first. *)

From S2P Require Import Prelude Bytes Registers IbVerbs World Wp Cmd CmdSpec Sim Qp QpSpec QpTheorems.

Section Overlap.
Context `{P : Platform}.

(** Up to the element: the queue pair as it was read, and the offset. *)
Definition send_claim (qp : ptr) : M (mlx5_ib_qp * Z) :=
  q ← deref (T := mlx5_ib_qp) qp;
  let head := sq_head q in
  wqe_offset ← shl_u32 head (sq_wqe_shift q);
  st32 (sq_buf q) (wqe_offset + off_opmod) (OSSwapInt32 (ctrl_opmod head)) ;;
  st32 (sq_buf q) (wqe_offset + off_qpn_ds) (OSSwapInt32 (ctrl_qpn_ds (qpn q))) ;;
  st32 (sq_buf q) (wqe_offset + off_flags) (OSSwapInt32 (u32 (Z.shiftl 1 31))) ;;
  st32 (sq_buf q) (wqe_offset + off_fm_ce_se) 0 ;;
  mret (q, wqe_offset).

(** From the head on. *)
Definition send_commit (qp : ptr) (claim : mlx5_ib_qp * Z) : M Z :=
  let '(q, wqe_offset) := claim in
  let head := sq_head q in
  modify qp (set_sq_head (Z.land (u32 (head + 1)) (u32 (sq_wqe_cnt q - 1)))) ;;
  q ← deref (T := mlx5_ib_qp) qp;
  db ← shl_u32 (sq_head q) (sq_wqe_shift q);
  st32 (db_record q) 0 (OSSwapInt32 db) ;;
  mwhen (negb (uar q =? NULL))
    (l ← mem_load (sq_buf q) wqe_offset 8;
     mmio_write64 (uar q) (OSSwapInt64 (le_combine l)) ;;
     OSSynchronizeIO) ;;
  OSSynchronizeIO ;;
  IOLog "post_send" [qpn q; head] ;;
  mret 0.

Lemma send_split qp wr bad w :
  mlx5_ib_post_send_full qp wr bad w = (c ← send_claim qp; send_commit qp c) w.
Proof.
  unfold mlx5_ib_post_send_full, send_claim, send_commit, mbind, M_bind, mret, M_ret. cbv zeta.
  destruct (deref qp w) as [q w1|]; [|done].
  destruct (shl_u32 _ _ w1) as [off w2|]; [|done].
  do 4 (match goal with |- context [st32 ?a ?b ?c ?w] => destruct (st32 a b c w) as [[] ?|]; [|done] end).
  done.
Qed.

(** A second send while the first one is between its halves; the results of
    both. *)
Definition sends_overlapped (qp wr2 bad2 : ptr) : M (Z * Z) :=
  c ← send_claim qp;
  r2 ← mlx5_ib_post_send_full qp wr2 bad2;
  r1 ← send_commit qp c;
  mret (r1, r2).

Lemma claim_spec qp q b w :
  w_qp w !! qp = Some q -> qp_wf q (w_heap w) -> live_buf (w_heap w) (sq_buf q) = Some b ->
  wp (send_claim qp) (fun c w' => c = (q, sq_off q) /\ w_qp w' = w_qp w /\
    heap_shape (w_heap w') = heap_shape (w_heap w) /\
    live_buf (w_heap w') (sq_buf q) = Some (sq_stored q (sq_off q) b) /\
    forall p, p <> sq_buf q -> live_buf (w_heap w') p = live_buf (w_heap w) p) w.
Proof.
  intros Hq Hwf Hb. pose proof (qw_sq _ _ Hwf) as Hsq.
  pose proof (ring_offset _ _ _ _ _ _ Hsq (rw_head _ _ _ _ _ Hsq)) as (Ho & Hsh & Ho0 & Hoe).
  destruct (rw_live _ _ _ _ _ Hsq) as (b0 & Hb0 & Hbs). rewrite Hb in Hb0. injection Hb0 as <-.
  open_world w. unfold send_claim. wp_steps. apply wp_shl_u32; [done|].
  rewrite Ho. fold (sq_off q) in *. unfold st32, off_opmod, off_qpn_ds, off_flags, off_fm_ce_se. wp_steps.
  rewrite !le_split_swap32. split; [done|]. split; [done|]. split; [solve_shape|].
  split; [solve_live|]. intros p Hp. by rewrite !live_buf_upd_ne by congruence.
Qed.

Lemma commit_spec qp q q1 d w :
  w_qp w !! qp = Some q1 -> next_sq q = set_sq_head (sq_head (next_sq q)) q1 ->
  qp_wf q (w_heap w) -> uar q = NULL -> live_buf (w_heap w) (db_record q) = Some d ->
  wp (send_commit qp (q, sq_off q)) (fun r w' => r = 0 /\ w_qp w' !! qp = Some (next_sq q) /\
    live_buf (w_heap w') (db_record q) = Some (sq_db q d) /\
    forall p, p <> db_record q -> live_buf (w_heap w') p = live_buf (w_heap w) p) w.
Proof.
  intros Hq Hq1 Hwf Hu Hd. pose proof (qw_sq _ _ Hwf) as Hsq.
  destruct (qw_db _ _ Hwf) as (d' & Hd' & Hds). rewrite Hd in Hd'. injection Hd' as <-.
  pose proof (ring_next _ _ _ _ _ Hsq) as Hnext. destruct (ring_cnt_bound _ _ _ _ _ Hsq) as [Hc _].
  pose proof (ring_offset _ _ _ _ _ _ Hsq (next_head_range (sq_wqe_cnt q) (sq_head q) ltac:(lia))) as (Hn & Hsh & _ & _).
  open_world w. unfold send_commit. cbv zeta. rewrite Hnext.
  change ((sq_head q + 1) mod sq_wqe_cnt q) with (sq_head (next_sq q)) in *.
  apply wp_bind. eapply wp_modify; [exact Hq|]. wnorm. rewrite <- Hq1.
  apply wp_bind. eapply wp_deref; [solve_cell|]. apply wp_bind, wp_shl_u32; [done|].
  change (sq_wqe_shift (next_sq q)) with (sq_wqe_shift q). rewrite Hn. unfold st32.
  change (db_record (next_sq q)) with (db_record q). change (uar (next_sq q)) with (uar q).
  rewrite Hu. rewrite !le_split_swap32. wp_steps. change (NULL =? NULL) with true. cbn [negb]. wp_steps.
  split; [done|]. split; [solve_cell|]. split; [solve_live|].
  intros p Hp. by rewrite live_buf_upd_ne by congruence.
Qed.

End Overlap.

(** C25. Two sends on one queue pair that overlap: the second one runs between the
    first one's element and its update of the head.  Both report success, but
    they share a slot: the head moves by one, the doorbell record announces one
    element, and the ring holds one new element, at the old head. *)
Theorem overlap_loses_send `{P : Platform} qp q b d wr2 bad2 w :
  w_qp w !! qp = Some q -> qp_wf q (w_heap w) -> uar q = NULL ->
  live_buf (w_heap w) (sq_buf q) = Some b -> live_buf (w_heap w) (db_record q) = Some d ->
  wp (sends_overlapped qp wr2 bad2) (fun r w' => r = (0, 0) /\ w_qp w' !! qp = Some (next_sq q) /\
    exists b' d', live_buf (w_heap w') (sq_buf q) = Some b' /\
      live_buf (w_heap w') (db_record q) = Some d' /\
      be_at d' 0 4 = sq_off (next_sq q) /\
      decode_ctrl b' (sq_off q) = decode_ctrl (sq_stored q (sq_off q) b) (sq_off q) /\
      forall i, i < sq_off q \/ sq_off q + 16 <= i -> buf_get b' i = buf_get b i) w.
Proof.
  intros Hq Hwf Hu Hb Hd. pose proof (qw_sq_db _ _ Hwf) as Hne. apply wp_bind.
  eapply wp_mono; [by apply (claim_spec qp q b)|].
  intros ? w1 (-> & Eq & Hs1 & Hb1 & Ho1). symmetry in Hs1.
  apply wp_bind. eapply wp_mono; [apply (post_send_spec qp q (sq_stored q (sq_off q) b) d);
    [by rewrite Eq|by eapply qp_wf_shape|by left|done|by rewrite Ho1 by congruence]|].
  intros r2 w2 (-> & (Hs2 & s & h & Hw2) & Hb2 & Hd2 & _). symmetry in Hs2.
  assert (Hwf2 : qp_wf q (w_heap w2)) by (eapply qp_wf_shape; [exact Hs2|by eapply qp_wf_shape]).
  apply wp_bind. eapply wp_mono; [apply (commit_spec qp q (next_sq q) (sq_db q d));
    [rewrite Hw2; apply lookup_insert_eq|done..]|].
  intros r1 w3 (-> & Hq3 & Hd3 & Ho3). apply wp_ret. split; [done|]. split; [done|].
  eexists _, _. split; [by rewrite Ho3, Hb2|]. split; [exact Hd3|]. split; [|split].
  - by eapply sq_db_value.
  - by rewrite !decode_sq_stored.
  - intros i Hi. by rewrite !sq_stored_out.
Qed.

Definition overlap_qp : mlx5_ib_qp := set_uar NULL sim_qp.
Definition overlap_world : @world (sim_platform 1 2) :=
  put_qp (<[500 := overlap_qp]> ∅) (sim_qp_world (sim_fw 0 [])).

Lemma overlap_loses_send_witness :
  wp (sends_overlapped 500 0 0) (fun r w' => r = (0, 0) /\ w_qp w' !! 500 = Some (next_sq overlap_qp) /\
    exists b' d', live_buf (w_heap w') 4 = Some b' /\ live_buf (w_heap w') 6 = Some d' /\
      be_at d' 0 4 = sq_off (next_sq overlap_qp) /\
      decode_ctrl b' (sq_off overlap_qp) =
        decode_ctrl (sq_stored overlap_qp (sq_off overlap_qp) (buf_zero 16384)) (sq_off overlap_qp) /\
      forall i, i < sq_off overlap_qp \/ sq_off overlap_qp + 16 <= i ->
        buf_get b' i = buf_get (buf_zero 16384) i) overlap_world.
Proof.
  apply (@overlap_loses_send (sim_platform 1 2) 500 overlap_qp (buf_zero 16384) (buf_zero 4096) 0 0
    overlap_world); [done|apply (qp_wf_uar NULL), sim_qp_wf|done..].
Defined.
