(* ===== verification/Ordering.v ===== *)
(** * What the device may see between two barriers

    The world of [World.v] performs the stores of the driver one after the
    other.  A processor does not promise that: until a barrier
    ([OSSynchronizeIO]) the stores may reach memory in any order.  This file
    reads the trace of events as a memory model.  [mem_of h t] is the memory
    after the events [t] (newest first, as in [w_trace]) from the memory [h];
    [visible h t h'] says that the device may see [h'] at that moment: each
    byte has the value it had at the last barrier or after some of the stores
    since then, each byte independently of the others.

    The command channel is published safely under this model
    ([submit_publishes]); a work queue element is not
    ([send_doorbell_overtakes]). *)

From S2P Require Import Prelude Bytes Registers IbVerbs World Wp Cmd CmdSpec Sim CmdTheorems Qp QpSpec QpTheorems.

Section Ordering.
Context `{P : Platform}.
Implicit Types h : heap.

(** ** Memory as a function of the trace *)

Definition apply_event (e : event) (h : heap) : heap :=
  match e with EvStore p o bs => upd_buf p (fun b => buf_store b o bs) h | _ => h end.

Definition mem_of (h : heap) (t : list event) : heap := foldr apply_event h t.

(** Number of events since the last barrier. *)
Fixpoint pending (t : list event) : nat :=
  match t with
  | [] => 0
  | EvBarrier :: _ => 0
  | _ :: t' => S (pending t')
  end.

Definition byte_at (h : heap) (p i : Z) : Z :=
  match live_buf h p with Some b => buf_get b i | None => 0 end.

Definition visible (h : heap) (t : list event) (h' : heap) : Prop :=
  heap_shape h' = heap_shape h /\
  forall p i, exists k, (k <= pending t)%nat /\ byte_at h' p i = byte_at (mem_of h (drop k t)) p i.

(** ** Memory up to the representation of its bytes *)

#[global] Instance block_equiv : Equiv block := fun b1 b2 =>
  blk_buf b1 ≡ blk_buf b2 /\ blk_dma b1 = blk_dma b2 /\ blk_refs b1 = blk_refs b2.

#[global] Instance block_equivalence : Equivalence (≡@{block}).
Proof.
  split.
  - by intros b.
  - intros b1 b2 (? & ? & ?). by split.
  - intros b1 b2 b3 (? & ? & ?) (? & ? & ?). split; [by etrans|]. split; congruence.
Qed.

#[global] Instance map_blk_proper : Proper (((≡) ==> (≡)) ==> (≡) ==> (≡)) map_blk.
Proof. intros f g Hf b1 b2 (? & ? & ?). split; [by apply Hf|done]. Qed.

#[global] Instance upd_buf_proper :
  Proper ((=) ==> ((≡) ==> (≡)) ==> (≡) ==> (≡@{heap})) upd_buf.
Proof.
  intros p ? <- f g Hf h1 h2 Hh. unfold upd_buf. apply alter_proper; [|done|done].
  by apply map_blk_proper.
Qed.

#[global] Instance apply_event_proper : Proper ((=) ==> (≡) ==> (≡@{heap})) apply_event.
Proof.
  intros e ? <- h1 h2 Hh. destruct e; simpl; try done.
  apply upd_buf_proper; [done| |done]. intros b1 b2 Hb. by rewrite Hb.
Qed.

#[global] Instance mem_of_proper : Proper ((≡) ==> (=) ==> (≡@{heap})) mem_of.
Proof.
  intros h1 h2 Hh t ? <-. induction t as [|e t IH]; [done|]. simpl. by rewrite IH.
Qed.

#[global] Instance live_buf_proper : Proper ((≡@{heap}) ==> (=) ==> (≡)) live_buf.
Proof.
  intros h1 h2 Hh p ? <-. unfold live_buf. pose proof (Hh p) as Hp.
  destruct Hp as [b1 b2 (Hb & _ & Hr)|]; [|done]. rewrite Hr.
  destruct (0 <? blk_refs b2); by constructor.
Qed.

#[global] Instance byte_at_proper : Proper ((≡@{heap}) ==> (=) ==> (=) ==> (=)) byte_at.
Proof.
  intros h1 h2 Hh p ? <- i ? <-. unfold byte_at.
  pose proof (live_buf_proper h1 h2 Hh p p eq_refl) as Hl. destruct Hl as [b1 b2 Hb|]; [|done].
  by rewrite Hb.
Qed.

(** [memset] and [memcpy] are stores of the bytes that the event names. *)
Lemma buf_fill_store b o n v : buf_fill b o n v ≡ buf_store b o (fill_bytes n v).
Proof.
  split; [done|]. intros i. unfold buf_get, buf_fill, buf_store, fill_bytes; simpl.
  rewrite repeat_length.
  destruct (Z.leb_spec o i), (Z.ltb_spec i (o + n)), (Z.ltb_spec i (o + Z.of_nat (Z.to_nat n)));
    simpl; try done; try lia.
  by rewrite nth_repeat_lt by lia.
Qed.

Lemma buf_copy_store b o src so n :
  buf_copy b o src so n ≡ buf_store b o (buf_bytes src so (Z.to_nat n)).
Proof.
  split; [done|]. intros i. unfold buf_get at 1 2, buf_copy, buf_store; simpl.
  rewrite length_buf_bytes.
  destruct (Z.leb_spec o i), (Z.ltb_spec i (o + n)), (Z.ltb_spec i (o + Z.of_nat (Z.to_nat n)));
    simpl; try done; try lia.
  rewrite nth_buf_bytes by lia. unfold buf_get. rewrite Zmod_mod.
  do 2 f_equal. lia.
Qed.

(** ** The trace tells the memory

    [logged m]: the memory that [m] leaves is the one the new part of the
    trace describes.  It holds of any code in which the device does not run. *)

Definition logged {A} (m : M A) : Prop := forall w a w', m w = Done a w' ->
  exists t, w_trace w' = t ++ w_trace w /\ w_heap w' ≡ mem_of (w_heap w) t.

Lemma logged_ret {A} (a : A) : logged (mret a).
Proof. intros w ? ? [= -> ->]. by exists []. Qed.

Lemma logged_bind {A B} (m : M A) (k : A -> M B) :
  logged m -> (forall a, logged (k a)) -> logged (m ≫= k).
Proof.
  intros Hm Hk w b w' E. unfold mbind, M_bind in E.
  destruct (m w) as [a w1|] eqn:E1; [|done].
  destruct (Hm _ _ _ E1) as (t1 & T1 & H1), (Hk _ _ _ _ E) as (t2 & T2 & H2).
  exists (t2 ++ t1). rewrite T2, T1, app_assoc. split; [done|].
  unfold mem_of. rewrite foldr_app, H2. by apply mem_of_proper.
Qed.

Lemma logged_update p o n bs f :
  (forall b, f b ≡ buf_store b o bs) -> logged (mem_update p o n bs f).
Proof.
  intros Hf w a w' E. unfold mem_update in E. destruct (live_buf _ _); [|done].
  destruct (in_bounds _ _ _); [|done]. injection E as <- <-.
  exists [EvStore p o bs]. split; [done|]. simpl.
  apply upd_buf_proper; [done| |done]. intros b1 b2 Hb. by rewrite Hf, Hb.
Qed.

Lemma logged_store p o bs : logged (mem_store p o bs).
Proof. by apply logged_update. Qed.

Lemma logged_fill p o n v : logged (mem_fill p o n v).
Proof. apply logged_update. intros. apply buf_fill_store. Qed.

Lemma logged_copy_in p o src so n : logged (mem_copy_in p o src so n).
Proof.
  unfold mem_copy_in. destruct (in_bounds _ _ _); [|done].
  apply logged_update. intros. apply buf_copy_store.
Qed.

Lemma logged_emit e : (forall p o bs, e <> EvStore p o bs) -> logged (emit e).
Proof.
  intros He w a w' [= <- <-]. exists [e]. split; [done|]. simpl. destruct e; try done.
  by destruct (He id o bs).
Qed.

Lemma logged_mmio_write n a v : logged (mmio_write n a v).
Proof.
  intros w ? w' E. unfold mmio_write in E. destruct (mmio_mapped _ _ _); [|done].
  injection E as <- <-. by exists [EvMmioWrite a v].
Qed.

Lemma logged_when c m : logged m -> logged (mwhen c m).
Proof. intros. destruct c; [done|apply logged_ret]. Qed.

(** With the frame of a specification, whose trace is the same. *)
Lemma logged_frame {A} (m : M A) w a w' t :
  logged m -> m w = Done a w' -> w_trace w' = t ++ w_trace w ->
  w_heap w' ≡ mem_of (w_heap w) t.
Proof.
  intros Hm E T. destruct (Hm _ _ _ E) as (t' & T' & Hh). rewrite T in T'.
  by apply app_inv_tail in T' as <-.
Qed.

(** ** Bytes that events leave alone *)

Definition leaves (p i : Z) (e : event) : Prop :=
  match e with EvStore q o bs => q = p -> i < o \/ o + Z.of_nat (length bs) <= i | _ => True end.

Lemma byte_at_leaves p i t h :
  Forall (leaves p i) t -> byte_at (mem_of h t) p i = byte_at h p i.
Proof.
  induction 1 as [|e t He _ IH]; [done|]. rewrite <- IH. simpl. fold (mem_of h t).
  destruct e as [| | |q o bs| | | | | |]; try done. simpl in *. unfold byte_at.
  destruct (decide (q = p)) as [->|]; [|by rewrite live_buf_upd_ne].
  rewrite live_buf_upd_eq. destruct (live_buf (mem_of h t) p); [|done]. simpl.
  apply buf_get_store_out. by apply He.
Qed.

Lemma pending_barrier l t : (pending (l ++ EvBarrier :: t) <= length l)%nat.
Proof. induction l as [|[] l IH]; simpl; lia. Qed.

Lemma pending_length t : (pending t <= length t)%nat.
Proof. induction t as [|[] t IH]; simpl; lia. Qed.

(** A byte that the events since the last barrier but [l] leave alone is
    seen as it was before them. *)
Lemma visible_settled h l t h' p i :
  visible h (l ++ EvBarrier :: t) h' -> Forall (leaves p i) l ->
  byte_at h' p i = byte_at (mem_of h t) p i.
Proof.
  intros [_ Hv] Hl. destruct (Hv p i) as (k & Hk & ->).
  pose proof (pending_barrier l t). rewrite drop_app_le by lia.
  unfold mem_of. rewrite foldr_app. fold (mem_of h (EvBarrier :: t)).
  apply byte_at_leaves. by apply Forall_drop.
Qed.

(** A byte that no event touches. *)
Lemma visible_untouched h t h' p i :
  visible h t h' -> Forall (leaves p i) t -> byte_at h' p i = byte_at h p i.
Proof.
  intros [_ Hv] Hl. destruct (Hv p i) as (k & Hk & ->).
  apply byte_at_leaves. by apply Forall_drop.
Qed.

Lemma byte_at_live h p b i : live_buf h p = Some b -> byte_at h p i = buf_get b i.
Proof. unfold byte_at. by intros ->. Qed.

(** ** Publication of a command *)

Lemma logged_barrier : logged OSSynchronizeIO.
Proof. by apply logged_emit. Qed.
Lemma logged_log tag args : logged (IOLog tag args).
Proof. by apply logged_emit. Qed.

Ltac solve_logged :=
  repeat first
    [ apply logged_bind; [|intros] | apply logged_store | apply logged_fill
    | apply logged_copy_in | apply logged_barrier | apply logged_log
    | apply logged_mmio_write | apply logged_when | apply logged_ret ].

Lemma cmd_submit_logged c slot token opcode op_mod in_data in_len out_len :
  logged (cmd_submit c slot token opcode op_mod in_data in_len out_len).
Proof.
  unfold cmd_submit, iseg_write32. cbv zeta.
  destruct in_data as [[src so]|]; solve_logged.
Qed.

(** The command that the device reads is determined by the owner bit and the
    other bytes. *)
Lemma fw_decode_ext r1 r2 m1 m2 :
  status_owner (buf_get r1 off_status) = status_owner (buf_get r2 off_status) ->
  (forall i, off_status < i -> buf_get r1 i = buf_get r2 i) ->
  (forall i, buf_get m1 i = buf_get m2 i) -> fw_decode r1 m1 = fw_decode r2 m2.
Proof.
  intros Ho Hr Hm.
  assert (Er : forall o n, off_status < o -> buf_bytes r1 o n = buf_bytes r2 o n)
    by (intros; apply buf_bytes_ext; intros; apply Hr; lia).
  assert (Em : forall o n, buf_bytes m1 o n = buf_bytes m2 o n)
    by (intros; apply buf_bytes_ext; intros; apply Hm).
  unfold fw_decode, be_at. rewrite Ho, !Em, !Er by done. done.
Qed.

(** The events after the first barrier of a submission, newest first. *)
Definition publish_events (c : mlx5_cmd_context) : list event :=
  [EvLog "doorbell" [0]; EvMmioWrite (iseg c + MLX5_ISEG_CMD_DOORBELL) (OSSwapInt32 1);
   EvBarrier; EvStore (cmd_ring c) off_status [MLX5_CMD_OWNER_HW]].

Lemma published_split c t : published c t ->
  exists fills, t = publish_events c ++ EvBarrier :: fills /\ Forall (fill_store (cmd_ring c)) fills.
Proof. intros (fills & -> & Hf). by exists fills. Qed.

(** Publication leaves everything alone but the status byte. *)
Lemma publish_leaves c p i :
  p <> cmd_ring c \/ off_status < i -> Forall (leaves p i) (publish_events c).
Proof.
  intros Hp. unfold publish_events. rewrite !Forall_cons, Forall_nil. simpl.
  repeat (split; [done|]). split; [|done]. intros <-. destruct Hp; [done|right; lia].
Qed.

(** The stores before the first barrier leave the status byte alone. *)
Lemma fills_leave ring fills :
  Forall (fill_store ring) fills -> Forall (leaves ring off_status) fills.
Proof.
  intros Hf. eapply Forall_impl; [exact Hf|]. intros e (id & o & bs & -> & Ho). simpl. intros E.
  left. by apply Ho.
Qed.

(** Once the first barrier is passed, every byte but the status byte has its
    final value; before it, the status byte has its old one. *)
Lemma publish_dichotomy c fills t1 t2 h h' :
  Forall (fill_store (cmd_ring c)) fills ->
  publish_events c ++ EvBarrier :: fills = t2 ++ t1 -> visible h t1 h' ->
  (forall p i, p <> cmd_ring c \/ off_status < i ->
     byte_at h' p i = byte_at (mem_of h (publish_events c ++ EvBarrier :: fills)) p i) \/
  byte_at h' (cmd_ring c) off_status = byte_at h (cmd_ring c) off_status.
Proof.
  intros Hf Ht Hv. apply app_eq_app in Ht as (l & [[Hl ->]|[Hl Ht]]).
  - left. intros p i Hp. apply (publish_leaves c) in Hp as Hp'.
    rewrite (visible_settled h l fills h' p i Hv).
    + unfold mem_of at 2. rewrite foldr_app. symmetry.
      by apply (byte_at_leaves p i (publish_events c)).
    + rewrite Hl in Hp'. by apply Forall_app in Hp' as [_ ?].
  - destruct l as [|e l]; simpl in Ht.
    + subst t1. left. intros p i Hp. rewrite (visible_settled h [] fills h' p i Hv) by done.
      unfold mem_of at 2. rewrite foldr_app. symmetry.
      apply (byte_at_leaves p i (publish_events c)). by apply publish_leaves.
    + injection Ht as <- ->. right. apply (visible_untouched h t1 h'); [done|].
      apply fills_leave in Hf. by apply Forall_app in Hf as [_ ?].
Qed.

(** At the doorbell everything has reached memory. *)
Lemma doorbell_settled c fills t1 t2 a v h h' p i :
  Forall (fill_store (cmd_ring c)) fills ->
  publish_events c ++ EvBarrier :: fills = t2 ++ EvMmioWrite a v :: t1 -> visible h t1 h' ->
  byte_at h' p i = byte_at (mem_of h (publish_events c ++ EvBarrier :: fills)) p i.
Proof.
  intros Hf Ht Hv. destruct t2 as [|e1 [|e2 t2]]; simpl in Ht; [done| |].
  - injection Ht as _ _ _ <-. exact (visible_settled h [] _ h' p i Hv ltac:(done)).
  - injection Ht as _ _ Ht. exfalso. destruct t2 as [|? [|? [|? t2]]]; simplify_eq/=.
    apply Forall_app in Hf as [_ [(? & ? & ? & ? & _) _]%Forall_cons]. done.
Qed.

(** The device reads the command, and a cleared output mailbox. *)
Definition command_seen (c : mlx5_cmd_context) (token opcode op_mod : Z)
    (in_data : option (buf * Z)) (in_len out_len : Z) (r m : buf) : Prop :=
  fw_decode r m = expected c token opcode op_mod in_data in_len out_len /\
  buf_bytes m 4096 (Z.to_nat 4096) = repeat 0 (Z.to_nat 4096).

Lemma filled_seen c token opcode op_mod in_data in_len out_len r m r0 m0 :
  0 <= in_len -> status_owner (buf_get r off_status) = MLX5_CMD_OWNER_HW ->
  (forall i, off_status < i -> buf_get r i = buf_get (ring_filled c token out_len r0) i) ->
  (forall i, buf_get m i = buf_get (mbox_filled opcode op_mod in_data in_len m0) i) ->
  command_seen c token opcode op_mod in_data in_len out_len r m.
Proof.
  intros Hlen Ho Hr Hm. split.
  - rewrite <- (decode_filled c token opcode op_mod in_data in_len out_len r0 m0 Hlen).
    apply fw_decode_ext; [|done|done]. rewrite Ho. unfold ring_filled.
    by rewrite buf_get_store_in by (apply le_split_bytes || offs).
  - transitivity (buf_bytes (mbox_filled opcode op_mod in_data in_len m0) 4096 (Z.to_nat 4096)).
    + apply buf_bytes_ext. intros. apply Hm.
    + rewrite mbox_filled_header by lia. apply mbox_header_input; lia.
Qed.

End Ordering.

(** C11. Publication: whatever order the stores of a submission reach memory in
    between two barriers, at every moment at which the device can see the ring
    entry as its own it sees the whole command and a cleared output mailbox;
    and when the doorbell is rung it does see that. *)
Theorem submit_publishes `{P : Platform} ctx c w token opcode op_mod in_data in_len out_len r0 :
  cmd_ready ctx c w -> 0 <= in_len -> input_ok in_data in_len ->
  live_buf (w_heap w) (cmd_ring c) = Some r0 ->
  status_owner (buf_get r0 off_status) = MLX5_CMD_OWNER_SW ->
  wp (cmd_submit c 0 token opcode op_mod in_data in_len out_len) (fun _ w' => exists t,
    w_trace w' = t ++ w_trace w /\
    forall t2 t1 h r m, t = t2 ++ t1 -> visible (w_heap w) t1 h ->
      holds_cmd (cmd_ring c) (mbox_pool c) r m h ->
      status_owner (buf_get r off_status) = MLX5_CMD_OWNER_HW \/
        (exists a v t3, t2 = t3 ++ [EvMmioWrite a v]) ->
      command_seen c token opcode op_mod in_data in_len out_len r m) w.
Proof.
  intros Hready Hlen Hin Hr0 Hsw. pose proof Hready as [_ _ (m0 & Hm0 & _) Hne _].
  destruct (wp_run _ _ _ (submit_spec ctx c w token opcode op_mod in_data in_len out_len Hready Hlen Hin))
    as (a & w' & E & t & F & Hp & Hr & Hm & _). apply io_frame_trace in F.
  eapply wp_done; [exact E|]. exists t. split; [done|].
  pose proof (logged_frame _ _ _ _ _ (cmd_submit_logged _ _ _ _ _ _ _ _) E F) as Hh.
  rewrite Hr0 in Hr. rewrite Hm0 in Hm. simpl in Hr, Hm.
  apply published_split in Hp as (fills & -> & Hf).
  intros t2 t1 h r m Ht Hv [Hlr Hlm] Hs.
  (* the final memory, byte by byte *)
  assert (Hfr : forall i, byte_at (mem_of (w_heap w) (publish_events c ++ EvBarrier :: fills))
      (cmd_ring c) i = buf_get (ring_filled c token out_len r0) i)
    by (intros i; rewrite <- Hh; by apply byte_at_live).
  assert (Hfm : forall i, byte_at (mem_of (w_heap w) (publish_events c ++ EvBarrier :: fills))
      (mbox_pool c) i = buf_get (mbox_filled opcode op_mod in_data in_len m0) i)
    by (intros i; rewrite <- Hh; by apply byte_at_live).
  destruct Hs as [Hs|(a' & v & t3 & ->)].
  - destruct (publish_dichotomy c fills t1 t2 _ h Hf Ht Hv) as [Hall|Hold].
    + apply (filled_seen _ _ _ _ _ _ _ r m r0 m0); [done|done| |].
      * intros i Hi. rewrite <- Hfr, <- (Hall (cmd_ring c)) by (by right). symmetry. by apply byte_at_live.
      * intros i. rewrite <- Hfm, <- (Hall (mbox_pool c)) by (left; by apply not_eq_sym). symmetry. by apply byte_at_live.
    + rewrite (byte_at_live _ _ r), (byte_at_live _ _ r0) in Hold by done. by rewrite Hold, Hsw in Hs.
  - rewrite <- app_assoc in Ht. pose proof (doorbell_settled c fills t1 t3 a' v (w_heap w) h) as Hd.
    apply (filled_seen _ _ _ _ _ _ _ r m r0 m0); [done| | |].
    + rewrite <- (byte_at_live h (cmd_ring c)), Hd, Hfr by done. unfold ring_filled.
      by rewrite buf_get_store_in by (apply le_split_bytes || offs).
    + intros i _. by rewrite <- Hfr, <- Hd, (byte_at_live _ _ r).
    + intros i. by rewrite <- Hfm, <- Hd, (byte_at_live _ _ m).
Qed.

Lemma submit_publishes_witness :
  @wp (sim_platform 1 2) _
    (@cmd_submit (sim_platform 1 2) sim_ctx 0 1 0x502 0 (Some (buf_zero 16, 0)) 4 16)
    (fun _ w' => exists t,
    w_trace w' = t ++ w_trace (sim_world (sim_fw 0 [])) /\
    forall t2 t1 h r m, t = t2 ++ t1 -> visible (w_heap (sim_world (sim_fw 0 []))) t1 h ->
      holds_cmd (cmd_ring sim_ctx) (mbox_pool sim_ctx) r m h ->
      status_owner (buf_get r off_status) = MLX5_CMD_OWNER_HW \/
        (exists a v t3, t2 = t3 ++ [EvMmioWrite a v]) ->
      command_seen sim_ctx 1 0x502 0 (Some (buf_zero 16, 0)) 4 16 r m)
    (sim_world (sim_fw 0 [])).
Proof.
  by apply (@submit_publishes (sim_platform 1 2) 100 sim_ctx _ _ _ _ _ _ _ (buf_zero 64));
    [apply sim_ready| | | |].
Defined.

(** ** Publication of a work queue element *)

Section Send.
Context `{P : Platform}.
Implicit Types h : heap.

(** The stores of a send, newest first. *)
Definition send_stores (q : mlx5_ib_qp) : list event :=
  EvStore (db_record q) 0 (be_split 4 (sq_off (next_sq q))) :: send_wqe q.

Lemma send_wqe_elsewhere q h p :
  p <> sq_buf q -> live_buf (mem_of h (send_wqe q)) p = live_buf h p.
Proof. intros. simpl. by rewrite !live_buf_upd_ne by done. Qed.

(** The device may see the new doorbell record with the old rings. *)
Lemma doorbell_first q h :
  sq_buf q <> db_record q ->
  visible h (send_stores q) (upd_buf (db_record q) (sq_db q) h).
Proof.
  intros Hne. split; [by apply heap_shape_upd|]. intros p i. unfold byte_at.
  destruct (decide (p = db_record q)) as [->|Hp].
  - exists 0%nat. split; [lia|]. change (mem_of h (drop 0 (send_stores q)))
      with (upd_buf (db_record q) (sq_db q) (mem_of h (send_wqe q))).
    by rewrite !live_buf_upd_eq, send_wqe_elsewhere.
  - exists 5%nat. split; [done|]. simpl. by rewrite live_buf_upd_ne.
Qed.

(** The memory after the stores. *)
Lemma send_stores_final q b d h :
  sq_buf q <> db_record q ->
  live_buf h (sq_buf q) = Some b -> live_buf h (db_record q) = Some d ->
  live_buf (mem_of h (send_stores q)) (sq_buf q) = Some (sq_stored q (sq_off q) b) /\
  live_buf (mem_of h (send_stores q)) (db_record q) = Some (sq_db q d).
Proof.
  intros Hne Hb Hd. unfold send_stores.
  change (mem_of h (?e :: ?l)) with (apply_event e (mem_of h l)). cbn [apply_event].
  rewrite live_buf_upd_ne by (by apply not_eq_sym).
  rewrite live_buf_upd_eq, (send_wqe_elsewhere q h (db_record q)), Hd by (by apply not_eq_sym).
  split; [|done]. unfold send_wqe. cbn [mem_of foldr apply_event].
  by rewrite !live_buf_upd_eq, Hb.
Qed.

(** After a barrier the device sees what the trace describes. *)
Lemma visible_after_barrier h l t h' p b :
  visible h (l ++ EvBarrier :: t) h' -> (forall i, Forall (leaves p i) l) ->
  live_buf (mem_of h t) p = Some b -> heap_shape (mem_of h t) = heap_shape h ->
  exists b', live_buf h' p = Some b' /\ b' ≡ b.
Proof.
  intros Hv Hl Hb Hs. pose proof Hv as [Hs' _].
  destruct (heap_shape_live (mem_of h t) h' p b ltac:(congruence) Hb) as (b' & Hb' & Hsz).
  exists b'. split; [done|]. split; [done|]. intros i.
  rewrite <- (byte_at_live h' p), (visible_settled h l t h' p i) by done. by apply byte_at_live.
Qed.

Lemma heap_shape_mem_of h t : heap_shape (mem_of h t) = heap_shape h.
Proof.
  induction t as [|e t IH]; [done|]. rewrite <- IH. simpl. fold (mem_of h t).
  destruct e; try done. by apply heap_shape_upd.
Qed.

#[global] Instance decode_ctrl_proper : Proper ((≡) ==> (=) ==> (=)) decode_ctrl.
Proof. intros b1 b2 Hb o ? <-. unfold decode_ctrl. by rewrite !Hb. Qed.

End Send.

(** C24. A send is not published safely: no barrier separates the element from the
    doorbell record and the BlueFlame register, so at the moment of the
    doorbell the device may see the new record with the old contents of the
    whole ring.  Only when the function has returned, after the barrier at its
    end, does the device see the element. *)
Theorem send_doorbell_overtakes `{P : Platform} qp q b d wr bad w :
  w_qp w !! qp = Some q -> qp_wf q (w_heap w) -> uar_ok q w ->
  live_buf (w_heap w) (sq_buf q) = Some b -> live_buf (w_heap w) (db_record q) = Some d ->
  wp (mlx5_ib_post_send_full qp wr bad) (fun _ w' => exists t2 t1,
    w_trace w' = (t2 ++ t1) ++ w_trace w /\
    (uar q <> NULL -> exists t3 v, t2 = t3 ++ [EvMmioWrite (uar q) v]) /\
    (exists h d', visible (w_heap w) t1 h /\ live_buf h (sq_buf q) = Some b /\
       live_buf h (db_record q) = Some d' /\ be_at d' 0 4 = sq_off (next_sq q)) /\
    forall h, visible (w_heap w) (t2 ++ t1) h -> exists b' d',
      live_buf h (sq_buf q) = Some b' /\ live_buf h (db_record q) = Some d' /\
      be_at d' 0 4 = sq_off (next_sq q) /\
      decode_ctrl b' (sq_off q) = decode_ctrl (sq_stored q (sq_off q) b) (sq_off q)) w.
Proof.
  intros Hq Hwf Hu Hb Hd. pose proof (qw_sq_db _ _ Hwf) as Hne.
  pose proof (fun x => sq_db_value q x _ Hwf) as Hdb.
  eapply wp_mono; [by apply (post_send_spec qp q b d)|].
  intros r w' (_ & (_ & s & h & ->) & _). cbn [w_trace put_trace].
  exists ([EvLog "post_send" [qpn q; sq_head q]; EvBarrier] ++ send_bf q b), (send_stores q).
  split; [by unfold send_events; rewrite <- !app_assoc|]. split; [|split].
  - intros Hn. unfold send_bf. rewrite (proj2 (Z.eqb_neq _ _) Hn). by eexists [_; _; _], _.
  - eexists _, (sq_db q d). split; [by apply doorbell_first|].
    rewrite live_buf_upd_ne, live_buf_upd_eq, Hd by done. done.
  - intros h1 Hv. rewrite <- app_assoc in Hv.
    destruct (send_stores_final q b d (w_heap w) Hne Hb Hd) as [Hb1 Hd1].
    assert (E : mem_of (w_heap w) (send_bf q b ++ send_stores q) = mem_of (w_heap w) (send_stores q))
      by (unfold send_bf; by destruct (uar q =? NULL)).
    rewrite <- E in Hb1, Hd1.
    destruct (visible_after_barrier _ [_] _ h1 _ _ Hv (fun i => ltac:(by repeat constructor)) Hb1
      (heap_shape_mem_of _ _)) as (b' & Hb' & Eb).
    destruct (visible_after_barrier _ [_] _ h1 _ _ Hv (fun i => ltac:(by repeat constructor)) Hd1
      (heap_shape_mem_of _ _)) as (d' & Hd' & Ed).
    exists b', d'. split; [done|]. split; [done|]. rewrite Ed, Hdb. split; [done|]. by rewrite Eb.
Qed.

Lemma send_doorbell_overtakes_witness :
  @wp (sim_platform 1 2) _ (@mlx5_ib_post_send_full (sim_platform 1 2) 500 0 0) (fun _ w' => exists t2 t1,
    w_trace w' = (t2 ++ t1) ++ [] /\
    (uar sim_qp <> NULL -> exists t3 v, t2 = t3 ++ [EvMmioWrite (uar sim_qp) v]) /\
    (exists h d', visible sim_qp_heap t1 h /\ live_buf h (sq_buf sim_qp) = Some (buf_zero 16384) /\
       live_buf h (db_record sim_qp) = Some d' /\ be_at d' 0 4 = sq_off (next_sq sim_qp)) /\
    forall h, visible sim_qp_heap (t2 ++ t1) h -> exists b' d',
      live_buf h (sq_buf sim_qp) = Some b' /\ live_buf h (db_record sim_qp) = Some d' /\
      be_at d' 0 4 = sq_off (next_sq sim_qp) /\
      decode_ctrl b' (sq_off sim_qp) =
        decode_ctrl (sq_stored sim_qp (sq_off sim_qp) (buf_zero 16384)) (sq_off sim_qp))
    (sim_qp_world (sim_fw 0 [])).
Proof.
  apply (@send_doorbell_overtakes (sim_platform 1 2) 500 sim_qp (buf_zero 16384) (buf_zero 4096) 0 0
    (sim_qp_world (sim_fw 0 []))); [done|apply sim_qp_wf|apply sim_uar_ok|done|done].
Defined.
