(* ===== verification/Mr.v ===== *)
(** * Memory registration ([mlx5_mr.cpp], [mlx5_mr.h])

    [build_pas_list] lists the pages of a memory region in DMA memory;
    [mlx5_ib_reg_user_mr_full] builds the memory key context, sends CREATE_MKEY
    and returns the new memory region.  [to_mmr] is a cast to the enclosing
    object, as for queue pairs. *)

From S2P Require Import Prelude Bytes Registers IbVerbs World Wp Cmd CmdSpec CmdInit Qp QpSpec.

(** ** Definitions *)

Definition MLX5_MKC_OFF_ACCESS_MODE : Z := 0x00.
Definition MLX5_MKC_ACCESS_MODE_MTT : Z := 1.
Definition MLX5_MKC_OFF_A_FLAGS : Z := 0x04.
Definition MLX5_MKC_OFF_LEN : Z := 0x08.
Definition MLX5_MKC_OFF_IOVA : Z := 0x10.
Definition MLX5_MKC_OFF_PD : Z := 0x40.
Definition MLX5_MKC_OFF_LOG_PAGE_SIZE : Z := 0x58.

(** [sizeof(struct mlx5_ib_mr)] on a 64-bit kernel. *)
Definition sizeof_mlx5_ib_mr : Z := 80.

Definition page_size : Z := 4096.

(** [npages] of [build_pas_list]: [length] is a [uint32_t]. *)
Definition pas_npages (length : Z) : Z :=
  let npages := u32 (u32 (length + page_size) - 1) / page_size in
  if npages =? 0 then 1 else npages.

(** [pas_alloc]: 8 bytes per page, rounded up to a page. *)
Definition pas_alloc_size (npages : Z) : Z :=
  let pas_size := u32 (npages * 8) in
  Z.land (u32 (pas_size + 4095)) 0xFFFFF000.

(** [mlx5_access]: the bits of the memory key for the access flags. *)
Definition mkc_access (access_flags : Z) : Z :=
  let a := 0 in
  let a := if negb (Z.land access_flags IB_ACCESS_LOCAL_WRITE =? 0) then Z.lor a 1 else a in
  let a := if negb (Z.land access_flags IB_ACCESS_REMOTE_WRITE =? 0) then Z.lor a 2 else a in
  if negb (Z.land access_flags IB_ACCESS_REMOTE_READ =? 0) then Z.lor a 4 else a.

Section Mr.
Context `{P : Platform}.

(** The result, the number of pages and the descriptor; [NULL] on failure. *)
Definition build_pas_list (base_addr length : Z) : M (ptr * Z * ptr) :=
  let npages := pas_npages length in
  let pas_alloc := pas_alloc_size npages in
  pas_md ← md_alloc pas_alloc;
  if pas_md =? NULL then
    IOLog "pas alloc failed" [pas_alloc] ;;
    mret (NULL, 0, NULL)
  else
    pas ← md_getBytesNoCopy pas_md;
    mem_fill pas 0 pas_alloc 0 ;;
    for_range (Z.to_nat npages) 0 (fun i =>
      st64 pas (8 * i) (OSSwapInt64 (u64 (base_addr + i * page_size)))) ;;
    mret (pas, npages, pas_md).

(** The memory key context of CREATE_MKEY: [mkc] is [in_buf + 16]. *)
Definition mkc_input (pd : ptr) (length virt_addr access_flags pas_dma : Z) : M buf :=
  let mkc := 16 in
  b ← arr_store (buf_zero 512) (mkc + MLX5_MKC_OFF_ACCESS_MODE) (le_split 1 MLX5_MKC_ACCESS_MODE_MTT);
  b ← arr_store b (mkc + MLX5_MKC_OFF_A_FLAGS) (le_split 4 (OSSwapInt32 (mkc_access access_flags)));
  b ← arr_store b (mkc + MLX5_MKC_OFF_LEN) (le_split 8 (OSSwapInt64 length));
  b ← arr_store b (mkc + MLX5_MKC_OFF_IOVA) (le_split 8 (OSSwapInt64 virt_addr));
  b ← (if negb (pd =? NULL) then
         p ← deref (T := ib_pd) pd;
         arr_store b (mkc + MLX5_MKC_OFF_PD) (le_split 4 (OSSwapInt32 (pd_local_dma_lkey p)))
       else mret b);
  b ← arr_store b (mkc + MLX5_MKC_OFF_LOG_PAGE_SIZE) (le_split 1 12);
  arr_store b 0x100 (le_split 8 (OSSwapInt64 pas_dma)).

(** Fill the new object; [mkey_idx << 8] is a [uint32_t]. *)
Definition fill_mr (mr pd : ptr) (mkey_idx length virt_addr pas npages pas_md : Z) : M unit :=
  assign mr zero_mlx5_ib_mr ;;
  modify mr (fun m => Mk_mlx5_ib_mr (ibmr m) mkey_idx 0 pas npages pas_md) ;;
  p ← deref (T := ib_pd) pd;
  let lkey := u32 (Z.shiftl mkey_idx 8) in
  modify mr (fun m => Mk_mlx5_ib_mr
    (Mk_ib_mr (pd_device p) pd (mr_uobject (ibmr m)) lkey lkey virt_addr length)
    (mkey m) (mtt_level m) (IbVerbs.pas m) (IbVerbs.npages m) (IbVerbs.pas_md m)).

Definition mlx5_ib_reg_user_mr_full (pd : ptr) (start length virt_addr access_flags : Z)
    (cmd_ctx : ptr) : M ptr :=
  IOLog "reg_user_mr" [start; length; virt_addr; access_flags] ;;
  l ← build_pas_list start (u32 length);
  let '(pas, npages, pas_md) := l in
  if pas =? NULL then mret NULL
  else
    pas_dma ← md_getPhysicalAddress pas_md;
    IOLog "pas" [npages; pas_dma] ;;
    in_buf ← mkc_input pd length virt_addr access_flags pas_dma;
    res ← mlx5_cmd_exec cmd_ctx MLX5_CMD_OP_CREATE_MKEY 0 (Some (in_buf, 0)) 0x110
            (Some (buf_zero 64)) 64 (Some 0xFF);
    if negb (io_ok (er_ret res)) then
      IOLog "CREATE_MKEY failed" [default 0xFF (er_status res)] ;;
      md_release pas_md ;;
      mret NULL
    else
      l ← arr_load (default (buf_zero 64) (er_out res)) 8 4;
      let mkey_idx := OSSwapInt32 (le_combine l) in
      mr ← IOMalloc sizeof_mlx5_ib_mr zero_mlx5_ib_mr;
      if mr =? NULL then
        md_release pas_md ;;
        mret NULL
      else
        fill_mr mr pd mkey_idx length virt_addr pas npages pas_md ;;
        IOLog "MR created" [mkey_idx; u32 (Z.shiftl mkey_idx 8); u32 (Z.shiftl mkey_idx 8); npages] ;;
        mret mr.

(** ** The page list *)

Lemma pas_npages_exact length :
  1 <= length <= 2 ^ 32 - 4096 -> pas_npages length = (length + 4095) / 4096.
Proof.
  intros H. unfold pas_npages, page_size.
  destruct (decide (length = 2 ^ 32 - 4096)) as [->|]; [done|].
  rewrite (u32_small (length + 4096)), u32_small by lia.
  replace (length + 4096 - 1) with (length + 4095) by lia.
  destruct (Z.eqb_spec ((length + 4095) / 4096) 0) as [E|]; [|done].
  pose proof (Z.div_le_lower_bound (length + 4095) 4096 1). lia.
Qed.

Lemma pas_npages_range length : 1 <= pas_npages length <= 2 ^ 20.
Proof.
  unfold pas_npages, page_size. pose proof (u32_range (u32 (length + 4096) - 1)) as Hr.
  set (x := u32 _) in *. clearbody x.
  pose proof (Z.div_pos x 4096). pose proof (Z.div_lt_upper_bound x 4096 (2 ^ 20)).
  destruct (Z.eqb_spec (x / 4096) 0); lia.
Qed.

Lemma pas_alloc_fits n : 1 <= n <= 2 ^ 20 -> n * 8 <= pas_alloc_size n.
Proof.
  intros Hn. unfold pas_alloc_size. rewrite (u32_small (n * 8)), u32_small by lia.
  set (x := n * 8 + 4095).
  assert (E : Z.land x 0xFFFFF000 = x - x mod 4096).
  { change 0xFFFFF000 with (Z.ldiff 0xFFFFFFFF 4095).
    assert (Hx : Z.land x 0xFFFFFFFF = x).
    { rewrite (land_mask_mod x 32) by (done || lia). apply Z.mod_small. unfold x. lia. }
    replace (Z.land x (Z.ldiff 0xFFFFFFFF 4095)) with (Z.ldiff (Z.land x 0xFFFFFFFF) 4095).
    2: { rewrite !Z.ldiff_land, Z.land_assoc. done. }
    rewrite Hx. change 4095 with (Z.ones 12). rewrite Z.ldiff_ones_r by lia.
    rewrite Z.shiftl_mul_pow2, Z.shiftr_div_pow2 by lia.
    pose proof (Z.div_mod x (2 ^ 12)). change 4096 with (2 ^ 12). lia. }
  rewrite E. pose proof (Z.mod_pos_bound x 4096). unfold x in *. lia.
Qed.

(** Entry [i] of the list. *)
Definition pas_entry (b : buf) (i : Z) : Z := be_at b (8 * i) 8.

Definition pas_inv (id base : Z) (w : world) (j : Z) (w' : world) : Prop :=
  exists t b b0, io_frame t w w' /\ live_buf (w_heap w') id = Some b /\
    live_buf (w_heap w) id = Some b0 /\ buf_size b = buf_size b0 /\
    only_blocks [id] (w_heap w) (w_heap w') /\
    (forall i, 0 <= i < j -> pas_entry b i = u64 (base + i * page_size)) /\
    (forall i, 8 * j <= i -> buf_get b i = buf_get b0 i).

Lemma pas_loop id base n b0 w :
  live_buf (w_heap w) id = Some b0 -> 0 <= n -> n * 8 <= buf_size b0 ->
  wp (for_range (Z.to_nat n) 0 (fun i =>
        st64 id (8 * i) (OSSwapInt64 (u64 (base + i * page_size)))))
    (fun _ => pas_inv id base w n) w.
Proof.
  intros Hb Hn Hs.
  eapply wp_mono; [apply (wp_for_range _ 0 _ (pas_inv id base w))|
    intros [] w'; by replace (0 + Z.of_nat (Z.to_nat n)) with n by lia].
  { exists [], b0, b0. split; [apply io_frame_refl|]. do 4 (split; [done|]).
    split; [intros; lia|done]. }
  intros j w' Hj (t & b & b0' & F & Hb' & Hb0 & Hsz & Hob & Hent & Hrest).
  rewrite Hb in Hb0. injection Hb0 as <-. open_world w'. unfold st64.
  eapply wp_mem_store; [exact Hb'|lia|rewrite length_le_split; simpl; lia|]. wnorm.
  rewrite le_split_swap64.
  eexists _, (buf_store b (8 * j) (be_split 8 (u64 (base + j * page_size)))), b0. split.
  { eapply (io_frame_trans _ [EvStore _ _ _]); [exact F|].
    apply io_frame_intro; [reflexivity|reflexivity|]. solve_shape. }
  split; [solve_live|]. split; [done|]. split; [done|]. split.
  { intros p Hp. wproj. pose proof Hp as [Hne _]%not_elem_of_cons.
    rewrite upd_buf_ne by done. by apply Hob. }
  split.
  - intros i Hi. unfold pas_entry. destruct (decide (i = j)) as [->|].
    + rewrite be_at_store_same. apply u64_small, u64_range.
    + rewrite be_at_store_out by (rewrite length_be_split; simpl; lia). apply Hent. lia.
  - intros i Hi. rewrite buf_get_store_out by (rewrite length_be_split; simpl; lia).
    apply Hrest. lia.
Qed.

(** [build_pas_list] as a whole. *)
Definition pas_built (base length : Z) (w : world) (w' : world) : Prop :=
  let id := w_next w in
  exists s h t dma b, w' = put_trace t (put_heap h (put_next (id + 1) (put_ps s w))) /\
    h !! id = Some (Block b dma 1) /\ buf_size b = pas_alloc_size (pas_npages length) /\
    only_blocks [id] (w_heap w) h /\
    (forall i, 0 <= i < pas_npages length -> pas_entry b i = u64 (base + i * page_size)).

Lemma build_pas_spec base length Q w :
  0 < w_next w ->
  (forall s t, Q (NULL, 0, NULL) (put_trace t (put_ps s w))) ->
  (forall w', pas_built base length w w' -> Q (w_next w, pas_npages length, w_next w) w') ->
  wp (build_pas_list base length) Q w.
Proof.
  intros Hn Hfail Hok. unfold build_pas_list. pose proof (pas_npages_range length) as Hp.
  set (n := pas_npages length) in *. pose proof (pas_alloc_fits n Hp) as Hfit.
  set (sz := pas_alloc_size n) in *.
  open_world w. wp_prim.
  apply wp_md_alloc; intros s; [|intros dma contents]; cbn [w_next]; wnorm.
  { change (NULL =? NULL) with true. wp_steps. apply Hfail. }
  rewrite (proj2 (Z.eqb_neq nx NULL)) by (unfold NULL; lia). wp_steps. rewrite upd_buf_insert.
  eapply wp_mono; [apply (pas_loop nx base n (buf_fill (Buf sz contents) 0 sz 0));
    [wproj; by rewrite live_buf_insert_eq|lia|simpl; lia]|].
  intros [] w' (t & b & b0 & F & Hb & Hb0 & Hsz & Hob & Hent & _). apply wp_ret. apply Hok.
  destruct F as (s' & h & -> & Hsh). simpl in *.
  rewrite live_buf_insert_eq in Hb0. injection Hb0 as <-.
  symmetry in Hsh. destruct (heap_shape_lookup _ _ _ _ Hsh (lookup_insert_eq _ _ _)) as (b' & Hb' & Hs').
  unfold block_shape in Hs'. simpl in Hs'. injection Hs' as E1 E2 E3.
  assert (Hbb : b = blk_buf b').
  { unfold live_buf in Hb. rewrite Hb', E3 in Hb. by injection Hb. } subst b.
  exists s', h, (t ++ EvStore nx 0 (fill_bytes sz 0) :: tr), (u64 dma), (blk_buf b').
  split; [done|]. split; [simpl; rewrite Hb'; f_equal; destruct b'; simpl in *; congruence|].
  split; [done|]. split; [|done].
  intros p Hp'. rewrite Hob by done. pose proof Hp' as [Hne _]%not_elem_of_cons.
  by rewrite lookup_insert_ne.
Qed.

End Mr.
