(* ===== verification/MrTheorems.v ===== *)
(** * Theorems on memory registration

    The page list and where its length computation breaks down, the memory key
    context the firmware reads, and the result of a registration. *)

From S2P Require Import Prelude Bytes Registers IbVerbs World Wp Cmd CmdSpec CmdInit Qp QpSpec Mr Sim.
From S2P Require Import CmdTheorems CmdInitTheorems.

(** ** The page list *)

(** C32. For a length of at most 2^32 - 4096 bytes the list covers the region:
    on success there is one big-endian entry per page, [ceil(length / 4096)] of
    them, entry [i] being [base + 4096 i], and every byte of the region lies in
    the page of one entry; the list fits in its allocation, and nothing else is
    written. *)
Theorem pas_covers `{P : Platform} base length w :
  fresh_ok w -> 1 <= length <= 2 ^ 32 - 4096 -> 0 <= base -> base + length + 4096 <= 2 ^ 64 ->
  wp (build_pas_list base length) (fun res w' =>
    let '(pas, npages, md) := res in
    pas = NULL /\ no_new w w' \/
    pas = md /\ npages = (length + 4095) / 4096 /\
    only_blocks [pas] (w_heap w) (w_heap w') /\
    exists b, live_buf (w_heap w') pas = Some b /\ 8 * npages <= buf_size b /\
      (forall i, 0 <= i < npages -> pas_entry b i = base + i * 4096) /\
      (forall k, 0 <= k < length ->
         exists i, 0 <= i < npages /\ pas_entry b i <= base + k < pas_entry b i + 4096)) w.
Proof.
  intros [Hn Hf] Hl Hb Hbl. apply build_pas_spec; [done| |].
  - intros s t. left. split; [done|]. intros p b (x & Hx & _)%live_buf_lookup. by eapply Hf.
  - intros w' (s & h & t & dma & b & -> & Hid & Hsz & Hob & Hent). right.
    rewrite (pas_npages_exact length Hl) in *. set (n := (length + 4095) / 4096) in *.
    assert (Hn4 : 4096 * n <= length + 4095 < 4096 * n + 4096).
    { pose proof (Z.div_mod (length + 4095) 4096). pose proof (Z.mod_pos_bound (length + 4095) 4096).
      unfold n. lia. }
    assert (Hent' : forall i, 0 <= i < n -> pas_entry b i = base + i * 4096).
    { intros i Hi. rewrite Hent by done. unfold page_size. apply u64_small. nia. }
    split; [done|]. split; [done|]. split; [done|]. exists b. simpl.
    split; [by rewrite (live_of_blk _ _ _ Hid)|].
    split; [rewrite Hsz; pose proof (pas_alloc_fits n); lia|]. split; [done|].
    intros k Hk. exists (k / 4096). pose proof (Z.div_mod k 4096). pose proof (Z.mod_pos_bound k 4096).
    assert (0 <= k / 4096 < n) by (split; [apply Z.div_pos|apply Z.div_lt_upper_bound]; lia).
    split; [done|]. rewrite Hent' by done. lia.
Qed.

Lemma pas_covers_witness :
  @wp (sim_platform 1 2) _ (@build_pas_list (sim_platform 1 2) 0x10000 5000) (fun res w' =>
    let '(pas, npages, md) := res in
    pas = NULL /\ no_new (sim_world (sim_fw 0 [])) w' \/
    pas = md /\ npages = (5000 + 4095) / 4096 /\
    only_blocks [pas] (w_heap (sim_world (sim_fw 0 []))) (w_heap w') /\
    exists b, live_buf (w_heap w') pas = Some b /\ 8 * npages <= buf_size b /\
      (forall i, 0 <= i < npages -> pas_entry b i = 0x10000 + i * 4096) /\
      (forall k, 0 <= k < 5000 ->
         exists i, 0 <= i < npages /\ pas_entry b i <= 0x10000 + k < pas_entry b i + 4096))
    (sim_world (sim_fw 0 [])).
Proof.
  apply (@pas_covers (sim_platform 1 2) 0x10000 5000 (sim_world (sim_fw 0 [])));
    [apply sim_fresh|lia|lia|lia].
Defined.

(** Lengths are cut to 32 bits and the page count overflows: a region of any
    multiple of 4 GiB, and any region whose length modulo 4 GiB is within 4095
    bytes of the next multiple, is given a single page, although its memory key
    announces the full length. *)
Theorem pas_truncates length :
  0 <= length -> length mod 2 ^ 32 = 0 \/ 2 ^ 32 - 4096 < length mod 2 ^ 32 ->
  pas_npages (u32 length) = 1.
Proof.
  intros Hl Hm. unfold pas_npages, page_size. fold (u32 length) in Hm.
  pose proof (u32_range length) as Hr. set (x := u32 length) in *. clearbody x.
  destruct Hm as [->|Hm]; [done|].
  assert (E : u32 (x + 4096) = x + 4096 - 2 ^ 32).
  { unfold u32. symmetry. apply (Z.mod_unique_pos _ _ 1); lia. }
  rewrite E, u32_small by lia. rewrite Z.div_small by lia. done.
Qed.

(** 4 GiB, and one byte less. *)
Lemma pas_truncates_witness : pas_npages (u32 (2 ^ 32)) = 1 /\ pas_npages (u32 (2 ^ 32 - 1)) = 1.
Proof. split; apply pas_truncates; try lia; [by left|right; by vm_compute]. Defined.

(** ** The memory key context *)

Definition bit_of (flags mask bit : Z) : Z := if Z.land flags mask =? 0 then 0 else bit.

Lemma mkc_access_bits flags :
  mkc_access flags = bit_of flags IB_ACCESS_LOCAL_WRITE 1 + bit_of flags IB_ACCESS_REMOTE_WRITE 2 +
                     bit_of flags IB_ACCESS_REMOTE_READ 4.
Proof.
  unfold mkc_access, bit_of.
  by destruct (Z.land flags IB_ACCESS_LOCAL_WRITE =? 0), (Z.land flags IB_ACCESS_REMOTE_WRITE =? 0),
    (Z.land flags IB_ACCESS_REMOTE_READ =? 0).
Qed.

Lemma mkc_access_range flags : 0 <= mkc_access flags < 8.
Proof.
  rewrite mkc_access_bits. unfold bit_of.
  destruct (_ =? 0), (_ =? 0), (_ =? 0); lia.
Qed.

Ltac mkc_offs :=
  unfold MLX5_MKC_OFF_ACCESS_MODE, MLX5_MKC_OFF_A_FLAGS, MLX5_MKC_OFF_LEN, MLX5_MKC_OFF_IOVA,
    MLX5_MKC_OFF_PD, MLX5_MKC_OFF_LOG_PAGE_SIZE in *;
  rewrite ?length_be_split, ?length_le_split; simpl; lia.

(** The buffer, as a term. *)
Definition mkc_stored (len iova flags pdn dma : Z) : buf :=
  buf_store (buf_store (buf_store (buf_store (buf_store (buf_store (buf_store (buf_zero 512)
    16 (le_split 1 1)) 20 (be_split 4 (mkc_access flags))) 24 (be_split 8 len)) 32 (be_split 8 iova))
    80 (be_split 4 pdn)) 104 (le_split 1 12)) 0x100 (be_split 8 dma).

Lemma mkc_input_spec `{P : Platform} pd p len iova flags dma Q w :
  pd <> NULL -> w_pd w !! pd = Some p ->
  Q (mkc_stored len iova flags (pd_local_dma_lkey p) dma) w ->
  wp (mkc_input pd len iova flags dma) Q w.
Proof.
  intros Hn Hp HQ. unfold mkc_input. cbv zeta.
  do 4 (apply wp_bind, wp_arr_store; [done|by rewrite length_le_split|]).
  rewrite (proj2 (Z.eqb_neq _ _) Hn). cbn [negb]. apply wp_bind, wp_bind.
  eapply wp_deref; [exact Hp|]. apply wp_arr_store; [done|by rewrite length_le_split|].
  apply wp_bind, wp_arr_store; [done|by rewrite length_le_split|].
  apply wp_arr_store; [done|by rewrite length_le_split|].
  rewrite !le_split_swap32, !le_split_swap64. exact HQ.
Qed.

(** The memory key context the firmware reads (at offset 16 of the input): access
    mode MTT, the three access bits, the full 64-bit length and I/O address, the
    number of the protection domain, page size 2^12, and the bus address of the
    page list at input offset 0x100. *)
Theorem mkc_fields `{P : Platform} pd p len iova flags dma w :
  pd <> NULL -> w_pd w !! pd = Some p ->
  0 <= len < 2 ^ 64 -> 0 <= iova < 2 ^ 64 -> 0 <= dma < 2 ^ 64 ->
  0 <= pd_local_dma_lkey p < 2 ^ 32 ->
  wp (mkc_input pd len iova flags dma) (fun b w' => w' = w /\ buf_size b = 512 /\
    buf_get b (16 + MLX5_MKC_OFF_ACCESS_MODE) = MLX5_MKC_ACCESS_MODE_MTT /\
    be_at b (16 + MLX5_MKC_OFF_A_FLAGS) 4 =
      bit_of flags IB_ACCESS_LOCAL_WRITE 1 + bit_of flags IB_ACCESS_REMOTE_WRITE 2 +
      bit_of flags IB_ACCESS_REMOTE_READ 4 /\
    be_at b (16 + MLX5_MKC_OFF_LEN) 8 = len /\ be_at b (16 + MLX5_MKC_OFF_IOVA) 8 = iova /\
    be_at b (16 + MLX5_MKC_OFF_PD) 4 = pd_local_dma_lkey p /\
    buf_get b (16 + MLX5_MKC_OFF_LOG_PAGE_SIZE) = 12 /\ be_at b 0x100 8 = dma) w.
Proof.
  intros Hn Hp Hl Hi Hd Hk. apply (mkc_input_spec pd p); [done|done|]. split; [done|].
  split; [done|]. unfold mkc_stored. rewrite <- mkc_access_bits.
  pose proof (mkc_access_range flags). change (2 ^ 64) with (256 ^ Z.of_nat 8) in *.
  change (2 ^ 32) with (256 ^ Z.of_nat 4) in *.
  split; [by rewrite !buf_get_store_out by mkc_offs|].
  split; [rewrite !be_at_store_out, be_at_store_same by mkc_offs; apply Z.mod_small; simpl; lia|].
  split; [rewrite !be_at_store_out, be_at_store_same by mkc_offs; by apply Z.mod_small|].
  split; [rewrite !be_at_store_out, be_at_store_same by mkc_offs; by apply Z.mod_small|].
  split; [rewrite !be_at_store_out, be_at_store_same by mkc_offs; by apply Z.mod_small|].
  split; [by rewrite !buf_get_store_out by mkc_offs|].
  rewrite be_at_store_same. by apply Z.mod_small.
Qed.

Lemma mkc_fields_witness :
  @wp (sim_platform 1 2) _ (@mkc_input (sim_platform 1 2) 300 0x5000 0x7000 5 0x9000) (fun b w' =>
    w' = sim_world (sim_fw 0 []) /\ buf_size b = 512 /\
    buf_get b (16 + MLX5_MKC_OFF_ACCESS_MODE) = MLX5_MKC_ACCESS_MODE_MTT /\
    be_at b (16 + MLX5_MKC_OFF_A_FLAGS) 4 = 5 /\
    be_at b (16 + MLX5_MKC_OFF_LEN) 8 = 0x5000 /\ be_at b (16 + MLX5_MKC_OFF_IOVA) 8 = 0x7000 /\
    be_at b (16 + MLX5_MKC_OFF_PD) 4 = 77 /\
    buf_get b (16 + MLX5_MKC_OFF_LOG_PAGE_SIZE) = 12 /\ be_at b 0x100 8 = 0x9000)
    (sim_world (sim_fw 0 [])).
Proof.
  apply (@mkc_fields (sim_platform 1 2) 300 (Mk_ib_pd 200 0 77 0 0) 0x5000 0x7000 5 0x9000
    (sim_world (sim_fw 0 []))); done || (simpl; lia).
Defined.

(** ** Registration *)

(** The memory region that is returned. *)
Definition new_mr (pd : ptr) (p : ib_pd) (key len iova id : Z) : mlx5_ib_mr :=
  Mk_mlx5_ib_mr
    (Mk_ib_mr (pd_device p) pd NULL (u32 (Z.shiftl key 8)) (u32 (Z.shiftl key 8)) iova len)
    key 0 id (pas_npages (u32 len)) id.

Section Reg.
Context `{P : Platform}.

Lemma fill_mr_spec mr pd p key len iova id npg x Q w :
  w_pd w !! pd = Some p -> w_mr w !! mr = Some x ->
  Q tt (put_mr (<[mr := Mk_mlx5_ib_mr
    (Mk_ib_mr (pd_device p) pd NULL (u32 (Z.shiftl key 8)) (u32 (Z.shiftl key 8)) iova len)
    key 0 id npg id]> (w_mr w)) w) ->
  wp (fill_mr mr pd key len iova id npg id) Q w.
Proof.
  intros Hp Hm HQ. open_world w. unfold fill_mr. wp_steps. by rewrite !insert_insert_eq.
Qed.

(** A page list that is released again leaves nothing. *)
Lemma pas_released id (h0 h1 h : gmap Z block) b :
  (forall p x, h0 !! p = Some x -> p < id) -> only_blocks [id] h0 h1 ->
  heap_shape h1 = heap_shape h -> h !! id = Some b -> blk_refs b = 1 ->
  forall p x, live_buf (<[id := drop_ref b]> h) p = Some x -> p < id.
Proof.
  intros Hf Hob Hs Hb Hr p x Hl. destruct (decide (p = id)) as [->|Hne].
  - rewrite live_buf_insert_eq in Hl. simpl in Hl. by rewrite Hr in Hl.
  - rewrite live_buf_insert_ne in Hl by done. symmetry in Hs.
    destruct (heap_shape_live _ _ _ _ Hs Hl) as (x' & Hx' & _).
    apply live_buf_lookup in Hx' as (y & Hy & _).
    rewrite Hob in Hy by (rewrite not_elem_of_cons; auto using not_elem_of_nil). by eapply Hf.
Qed.

Definition reg_done (pd : ptr) (p : ib_pd) (len iova : Z) (ctx : ptr) (c : mlx5_cmd_context)
    (w : world) (mr : ptr) (w' : world) : Prop :=
  mr <> NULL /\ w_next w < mr /\ exists o,
    w_mr w' !! mr = Some (new_mr pd p (be_at o 8 4) len iova (w_next w)) /\
    owns (w_heap w') (w_next w) (pas_alloc_size (pas_npages (u32 len))) /\
    (owner_protocol (cmd_ring c) (mbox_pool c) ->
     exists m, live_buf (w_heap w') (mbox_pool c) = Some m /\ be_at o 8 4 = be_at m (4096 + 16) 4).

(** From the reply on. *)
Lemma reg_tail pd p len iova ctx c id b (w w1 : world) res o w2 Q :
  w_pd w1 !! pd = Some p -> 0 < w_next w < w_next w1 -> w_next w = id ->
  w_heap w1 !! id = Some b -> blk_refs b = 1 ->
  buf_size (blk_buf b) = pas_alloc_size (pas_npages (u32 len)) ->
  exec_reply ctx c (buf_zero 64) 64 w1 res o w2 ->
  (forall h x w', heap_shape (w_heap w1) = heap_shape h -> h !! id = Some x -> blk_refs x = 1 ->
     w_heap w' = <[id := drop_ref x]> h -> Q NULL w') ->
  (forall mr w', reg_done pd p len iova ctx c w mr w' -> Q mr w') ->
  wp (if negb (io_ok (er_ret res)) then
        IOLog "CREATE_MKEY failed" [default 0xFF (er_status res)] ;; md_release id ;; mret NULL
      else
        l ← arr_load (default (buf_zero 64) (er_out res)) 8 4;
        let mkey_idx := OSSwapInt32 (le_combine l) in
        mr ← IOMalloc sizeof_mlx5_ib_mr zero_mlx5_ib_mr;
        if mr =? NULL then md_release id ;; mret NULL
        else
          fill_mr mr pd mkey_idx len iova id (pas_npages (u32 len)) id ;;
          IOLog "MR created" [mkey_idx; u32 (Z.shiftl mkey_idx 8); u32 (Z.shiftl mkey_idx 8);
                              pas_npages (u32 len)] ;;
          mret mr) Q w2.
Proof.
  intros Hp Hn Hw Hb Hr Hsz [_ Hout Hos _ (c' & t & F & _) Hcopy _] Hfail Hok.
  destruct (cmd_frame_rest _ _ _ _ _ _ F) as (Hnx & _ & _ & _ & _ & Hpd & _ & _ & _ & Hs).
  symmetry in Hs. destruct (heap_shape_blk _ _ _ _ Hs Hb) as (b2 & Hb2 & Hbs2 & Hr2).
  destruct (io_ok (er_ret res)) eqn:Er; cbn [negb].
  - apply io_ok_true in Er. specialize (Hcopy Er ltac:(lia)). rewrite Hout. simpl default.
    apply wp_bind, wp_arr_load; [lia|rewrite Hos; simpl; lia|].
    unfold OSSwapInt32. rewrite bswap_load. cbv zeta. apply wp_bind, wp_malloc.
    + intros s. change (NULL =? NULL) with true. cbn iota. apply wp_bind.
      eapply wp_md_release; [exact Hb2|lia|]. apply wp_ret.
      eapply (Hfail (w_heap w2)); [exact Hs|exact Hb2|lia|done].
    + intros s w3. rewrite (proj2 (Z.eqb_neq (w_next w2) NULL)) by (unfold NULL; lia).
      apply wp_bind. eapply fill_mr_spec; [simpl; rewrite Hpd; exact Hp|apply lookup_insert_eq|].
      apply wp_bind, wp_log, wp_ret. apply Hok. split; [unfold NULL; lia|]. split; [lia|]. exists o.
      split; [subst id; apply lookup_insert_eq|].
      split; [exists b2; subst id; split; [exact Hb2|split; [lia|congruence]]|].
      intros Hpr. destruct (Hcopy Hpr) as (m & Hm & ->). exists m. split; [done|].
      rewrite reply_word by lia. done.
  - apply wp_bind, wp_log, wp_bind. eapply wp_md_release; [exact Hb2|lia|]. apply wp_ret.
    eapply (Hfail (w_heap w2)); [exact Hs|exact Hb2|lia|done].
Qed.

Lemma reg_spec pd p start len iova flags ctx c w :
  pd <> NULL -> w_pd w !! pd = Some p -> fresh_ok w -> cmd_ready ctx c w ->
  wp (mlx5_ib_reg_user_mr_full pd start len iova flags ctx) (fun mr w' =>
    mr = NULL /\ no_new w w' \/ reg_done pd p len iova ctx c w mr w') w.
Proof.
  intros Hpd Hp Hf Hr. pose proof Hf as [Hn Hfr]. unfold mlx5_ib_reg_user_mr_full.
  apply wp_bind, wp_log, wp_bind, build_pas_spec; [done| |].
  { intros s t. change (NULL =? NULL) with true. cbn iota. apply wp_ret. left. split; [done|].
    intros q b (x & Hx & _)%live_buf_lookup. by eapply Hfr. }
  intros w1 (s & h & t & dma & b & Hw1 & Hid & Hsz & Hob & _). simpl w_next in *.
  rewrite (proj2 (Z.eqb_neq (w_next w) NULL)) by (unfold NULL; lia).
  assert (Hid1 : w_heap w1 !! w_next w = Some (Block b dma 1)) by (by rewrite Hw1).
  apply wp_bind. eapply wp_md_phys; [exact Hid1|done|].
  apply wp_bind, wp_log, wp_bind.
  apply (mkc_input_spec pd p); [done|by rewrite Hw1|]. apply wp_bind.
  apply (exec_client ctx c).
  - rewrite Hw1. pose proof (cmd_ready_fresh ctx c w s (EvLog "pas" [pas_npages (u32 len); dma] :: t)
      (w_qp w) (w_next w + 1) h Hf Hr) as H. destruct w. apply H.
    intros q Hq. apply Hob. rewrite not_elem_of_cons. split; [simpl in *; lia|apply not_elem_of_nil].
  - lia.
  - apply in_ok; simpl; lia.
  - apply out_ok; simpl; lia.
  - intros res o w2 Hy.
    eapply (reg_tail pd p len iova ctx c (w_next w) (Block b dma 1) w); [..|exact Hy| |].
    + by rewrite Hw1.
    + rewrite Hw1. simpl. lia.
    + done.
    + exact Hid1.
    + done.
    + done.
    + intros h2 x w' Hs Hx Hx1 Hw'. left. split; [done|]. intros q y. rewrite Hw'.
      rewrite Hw1 in Hs. by eapply pas_released.
    + intros mr w' Hd. by right.
Qed.

End Reg.

(** C31. Registering memory returns null, with nothing allocated on the way still
    alive, or a memory region that carries the key of the reply (bytes 16 to 19
    of the output mailbox): local and remote key are that key shifted by 8,
    cut to 32 bits; I/O address and length are the caller's; the page list stays
    allocated with one reference. *)
Theorem reg_mr_result `{P : Platform} pd p start len iova flags ctx c w :
  pd <> NULL -> w_pd w !! pd = Some p -> fresh_ok w -> cmd_ready ctx c w ->
  owner_protocol (cmd_ring c) (mbox_pool c) ->
  wp (mlx5_ib_reg_user_mr_full pd start len iova flags ctx) (fun mr w' =>
    mr = NULL /\ no_new w w' \/
    mr <> NULL /\ exists m x, live_buf (w_heap w') (mbox_pool c) = Some m /\
      w_mr w' !! mr = Some x /\ mkey x = be_at m (4096 + 16) 4 /\
      mr_lkey (ibmr x) = u32 (Z.shiftl (mkey x) 8) /\ mr_rkey (ibmr x) = mr_lkey (ibmr x) /\
      mr_iova (ibmr x) = iova /\ mr_length (ibmr x) = len /\ mr_pd (ibmr x) = pd /\
      npages x = pas_npages (u32 len) /\
      owns (w_heap w') (pas_md x) (pas_alloc_size (npages x))) w.
Proof.
  intros Hpd Hp Hf Hr Hpr. eapply wp_mono; [by apply (reg_spec pd p start len iova flags ctx c)|].
  intros mr w' [[-> Hn]|(Hmr & _ & o & Hx & Ho & Hm)]; [by left|right].
  destruct (Hm Hpr) as (m & Hm' & He). split; [done|]. exists m. eexists. split; [done|].
  split; [exact Hx|]. simpl. done.
Qed.

Lemma reg_mr_result_witness :
  @wp (sim_platform 1 2) _
    (@mlx5_ib_reg_user_mr_full (sim_platform 1 2) 300 0x10000 5000 0x7000 7 100) (fun mr w' =>
    mr = NULL /\ no_new (sim_world (sim_fw 0 [(0, [0])])) w' \/
    mr <> NULL /\ exists m x, live_buf (w_heap w') 2 = Some m /\
      w_mr w' !! mr = Some x /\ mkey x = be_at m (4096 + 16) 4 /\
      mr_lkey (ibmr x) = u32 (Z.shiftl (mkey x) 8) /\ mr_rkey (ibmr x) = mr_lkey (ibmr x) /\
      mr_iova (ibmr x) = 0x7000 /\ mr_length (ibmr x) = 5000 /\ mr_pd (ibmr x) = 300 /\
      npages x = pas_npages (u32 5000) /\
      owns (w_heap w') (pas_md x) (pas_alloc_size (npages x))) (sim_world (sim_fw 0 [(0, [0])])).
Proof.
  apply (@reg_mr_result (sim_platform 1 2) 300 (Mk_ib_pd 200 0 77 0 0) 0x10000 5000 0x7000 7 100
    sim_ctx (sim_world (sim_fw 0 [(0, [0])])));
    [done|done|apply sim_fresh|apply sim_ready|apply sim_owner_protocol].
Defined.

(** What a registration on the simulator returns: the region, and the commands
    sent and failed; or the fault. *)
Definition reg_outcome (s : sim) (pd : ptr) : (Z * option (Z * Z)) + fault :=
  match @mlx5_ib_reg_user_mr_full (sim_platform 1 2) pd 0x10000 5000 0x7000 7 100 (sim_world s) with
  | Done mr w' =>
      inl (mr, (fun c => (total_commands c, failed_commands c)) <$> w_ctx w' !! 100)
  | Fault f => inr f
  end.

(** Two error paths of the registration: when [IOMalloc] fails after the firmware
    has created the key, null is returned and no command destroys the key (one
    command was sent and none failed); and a null [pd], which the code guards
    against while building the command, is dereferenced once the key exists. *)
Theorem reg_mr_error_paths :
  reg_outcome (sim_fw 0 [(0, [])]) 300 = inl (11, Some (1, 0)) /\
  reg_outcome (sim_set_malloc false (sim_fw 0 [(0, [])])) 300 = inl (NULL, Some (1, 0)) /\
  reg_outcome (sim_fw 0 [(0, [])]) NULL = inr BadPointer.
Proof. repeat split; vm_compute; reflexivity. Qed.
