(* ===== verification/Verbs.v ===== *)
(** * The verbs layer ([mlx5_verbs.cpp], [mlx5_verbs.h])

    The functions of [ib_device_ops]: protection domains, completion queues,
    deregistration, device queries, the stubs, and [mlx5_ib_init_ops], which
    fills the function table.  [to_mdev] follows [provider_priv]. *)

From S2P Require Import Prelude Bytes Registers IbVerbs World Wp Cmd CmdSpec CmdInit Qp QpSpec.

Definition MLX5_CMD_OP_ALLOC_PD : Z := 0x201.
Definition MLX5_CMD_OP_DEALLOC_PD : Z := 0x203.
Definition MLX5_CMD_OP_DESTROY_CQ : Z := 0x401.

Section Verbs.
Context `{P : Platform}.

(** [to_mdev(dev)->cmd_ctx] *)
Definition to_mdev (ibdev : ptr) : M mlx5_ib_dev :=
  d ← deref (T := ib_device) ibdev;
  deref (T := mlx5_ib_dev) (provider_priv d).

(** ** Protection domains *)

Definition mlx5_ib_alloc_pd (pd udata : ptr) : M Z :=
  p ← deref (T := ib_pd) pd;
  dev ← to_mdev (pd_device p);
  res ← mlx5_cmd_exec (mdev_cmd_ctx dev) MLX5_CMD_OP_CREATE_MKEY 0x01 None 0
          (Some (buf_zero 16)) 16 (Some 0xFF);
  if negb (io_ok (er_ret res)) then
    IOLog "alloc_pd failed" [default 0xFF (er_status res)] ;;
    mret (-1)
  else
    l ← arr_load (default (buf_zero 16) (er_out res)) 8 4;
    let pdn := OSSwapInt32 (le_combine l) in
    modify pd (set_pd_local_dma_lkey pdn) ;;
    IOLog "alloc_pd" [pdn] ;;
    mret 0.

Definition mlx5_ib_dealloc_pd (pd udata : ptr) : M Z :=
  p ← deref (T := ib_pd) pd;
  dev ← to_mdev (pd_device p);
  let pdn := pd_local_dma_lkey p in
  in_buf ← arr_store (buf_zero 16) 0 (le_split 4 (OSSwapInt32 pdn));
  res ← mlx5_cmd_exec (mdev_cmd_ctx dev) MLX5_CMD_OP_DESTROY_MKEY 0x01 (Some (in_buf, 0)) 4
          (Some (buf_zero 16)) 16 (Some 0xFF);
  if negb (io_ok (er_ret res)) then
    IOLog "dealloc_pd failed" [default 0xFF (er_status res)] ;;
    mret (-1)
  else
    IOLog "dealloc_pd" [pdn] ;;
    mret 0.

(** ** Completion queues *)

(** [cq->cqe > 0 ? cq->cqe : 64], as a [uint32_t]. *)
Definition cqe_count (cqe : Z) : Z := u32 (if 0 <? cqe then cqe else 64).
Definition cqe_size : Z := 64.
Definition cq_ring_size (cqe : Z) : Z := u32 (cqe_count cqe * cqe_size).

(** The input of CREATE_CQ. *)
Definition cq_input (cqe cq_dma : Z) : M buf :=
  let log_cq_size := u8 (log2_u32 (cqe_count cqe)) in
  b ← arr_store (buf_zero 256) 0x0C (le_split 1 log_cq_size);
  b ← arr_store b 0x0E (le_split 1 1);
  arr_store b 0x40 (le_split 8 (OSSwapInt64 cq_dma)).

Definition mlx5_ib_create_cq (cq cq_attr udata : ptr) : M Z :=
  q ← deref (T := ib_cq) cq;
  dev ← to_mdev (cq_device q);
  let ring_size := cq_ring_size (cq_cqe q) in
  cqMD ← md_alloc ring_size;
  if cqMD =? NULL then
    IOLog "create_cq: DMA alloc failed" [ring_size] ;;
    mret (-1)
  else
    md_clear cqMD ring_size ;;
    cq_dma ← md_getPhysicalAddress cqMD;
    in_buf ← cq_input (cq_cqe q) cq_dma;
    res ← mlx5_cmd_exec (mdev_cmd_ctx dev) MLX5_CMD_OP_CREATE_CQ 0 (Some (in_buf, 0)) 0x48
            (Some (buf_zero 16)) 16 (Some 0xFF);
    if negb (io_ok (er_ret res)) then
      IOLog "create_cq failed" [default 0xFF (er_status res)] ;;
      md_release cqMD ;;
      mret (-1)
    else
      l ← arr_load (default (buf_zero 16) (er_out res)) 8 4;
      let cqn := OSSwapInt32 (le_combine l) in
      modify cq (set_cq_cqe (i32 cqn)) ;;
      IOLog "create_cq" [cqn; cqe_count (cq_cqe q); cq_dma] ;;
      mret 0.

Definition mlx5_ib_destroy_cq (cq udata : ptr) : M Z :=
  q ← deref (T := ib_cq) cq;
  dev ← to_mdev (cq_device q);
  let cqn := u32 (cq_cqe q) in
  in_buf ← arr_store (buf_zero 16) 0 (le_split 4 (OSSwapInt32 cqn));
  res ← mlx5_cmd_exec (mdev_cmd_ctx dev) MLX5_CMD_OP_DESTROY_CQ 0 (Some (in_buf, 0)) 4
          (Some (buf_zero 16)) 16 (Some 0xFF);
  mwhen (io_ok (er_ret res)) (IOLog "destroy_cq" [cqn]) ;;
  mret (if io_ok (er_ret res) then 0 else -1).

Definition mlx5_ib_poll_cq (cq ne wc : Z) : M Z :=
  IOLog "poll_cq: stub (needs CQ ring access)" [] ;; mret 0.

Definition mlx5_ib_req_notify_cq (cq flags : Z) : M Z :=
  IOLog "req_notify_cq: stub (needs UAR doorbell)" [] ;; mret 0.

(** ** Queue pairs: the registered functions are stubs *)

Definition mlx5_ib_create_qp (qp init udata : ptr) : M Z :=
  IOLog "create_qp: stub (needs QP context setup)" [] ;; mret (-1).
Definition mlx5_ib_modify_qp (qp mask attr udata : Z) : M Z :=
  IOLog "modify_qp: stub" [] ;; mret (-1).
Definition mlx5_ib_destroy_qp (qp udata : ptr) : M Z :=
  IOLog "destroy_qp: stub" [] ;; mret (-1).
Definition mlx5_ib_post_send (qp wr bad_wr : ptr) : M Z :=
  IOLog "post_send: stub (needs WQE ring + BF doorbell)" [] ;; mret (-1).
Definition mlx5_ib_post_recv (qp wr bad_wr : ptr) : M Z :=
  IOLog "post_recv: stub (needs WQE ring)" [] ;; mret (-1).

(** ** Memory regions *)

(** The input of DESTROY_MKEY: the key index is [mr->lkey >> 8]. *)
Definition dereg_input (lkey : Z) : M buf :=
  arr_store (buf_zero 16) 0 (le_split 4 (OSSwapInt32 (Z.shiftr lkey 8))).

Definition mlx5_ib_dereg_mr (mr udata : ptr) : M Z :=
  m ← deref (T := mlx5_ib_mr) mr;
  dev ← to_mdev (mr_device (ibmr m));
  in_buf ← dereg_input (mr_lkey (ibmr m));
  res ← mlx5_cmd_exec (mdev_cmd_ctx dev) MLX5_CMD_OP_DESTROY_MKEY 0 (Some (in_buf, 0)) 4
          (Some (buf_zero 16)) 16 (Some 0xFF);
  mret (if io_ok (er_ret res) then 0 else -1).

Definition mlx5_ib_reg_user_mr (pd start length virt_addr access_flags udata : Z) : M ptr :=
  IOLog "reg_user_mr: stub (needs DMA page mapping + MTT)" [] ;; mret NULL.

(** ** Address handles and queries *)

Definition mlx5_ib_create_ah (ah attr flags udata : Z) : M Z :=
  IOLog "create_ah: software AH (no firmware command)" [] ;; mret 0.
Definition mlx5_ib_destroy_ah (ah flags : Z) : M Z := mret 0.

(** [attr] is the caller's struct, [None] for a null pointer. *)
Definition mlx5_ib_query_device (ibdev : ptr) (attr : option ib_device_attr) (uhw : ptr)
    : M (Z * option ib_device_attr) :=
  dev ← to_mdev ibdev;
  match attr with
  | None => mret (-1, None)
  | Some _ =>
      let a := zero_ib_device_attr in
      let a := Mk_ib_device_attr (attr_fw_ver a) (mdev_node_guid dev) (attr_sys_image_guid a)
        (attr_max_mr_size a) (attr_page_size_cap a) MLX5_VENDOR_ID MLX5_DEV_CX6_LX (attr_hw_rev a)
        (mdev_max_qp dev) (attr_max_qp_wr a) (attr_max_sge a) (mdev_max_cq dev) (attr_max_cqe a)
        (mdev_max_mr dev) (mdev_max_pd dev) (attr_max_qp_init_rd_atom a) (attr_max_qp_rd_atom a)
        (attr_max_srq a) (attr_max_srq_wr a) (attr_max_srq_sge a) (attr_max_pkeys a)
        (attr_local_ca_ack_delay a) (u8 (mdev_num_ports dev)) in
      IOLog "query_device" [attr_max_qp a; attr_max_cq a] ;;
      mret (0, Some a)
  end.

Definition mlx5_ib_query_port (ibdev port props : Z) : M Z :=
  IOLog "query_port: stub" [port] ;; mret 0.

(** ** The function table *)

(** The table that [mlx5_ib_init_ops] leaves in [*ops]. *)
Definition mlx5_ib_init_ops : M ib_device_ops :=
  IOLog "ib_device_ops initialized (14 verbs registered)" [] ;;
  mret {|
    op_query_device := Some V_query_device; op_query_port := Some V_query_port;
    op_get_port_immutable := None; op_get_link_layer := None;
    op_modify_device := None; op_modify_port := None;
    op_alloc_pd := Some V_alloc_pd; op_dealloc_pd := Some V_dealloc_pd;
    op_create_cq := Some V_create_cq; op_destroy_cq := Some V_destroy_cq;
    op_poll_cq := Some V_poll_cq; op_req_notify_cq := Some V_req_notify_cq; op_resize_cq := None;
    op_create_qp := Some V_create_qp; op_modify_qp := Some V_modify_qp;
    op_destroy_qp := Some V_destroy_qp; op_query_qp := None;
    op_post_send := Some V_post_send; op_post_recv := Some V_post_recv;
    op_reg_user_mr := Some V_reg_user_mr; op_dereg_mr := Some V_dereg_mr; op_map_mr_sg := None;
    op_create_ah := Some V_create_ah; op_destroy_ah := Some V_destroy_ah;
    op_alloc_ucontext := None; op_dealloc_ucontext := None; op_mmap := None; op_reserved := repeat NULL 64 |}.

End Verbs.
