(* ===== verification/VerbsTheorems.v ===== *)
(** * Theorems on the verbs layer

    Protection domains and completion queues against the command channel's
    interface, the effect of 16-byte reply buffers, resource leaks, the round
    trip of memory keys and the function table. *)

From S2P Require Import Prelude Bytes Registers IbVerbs World Wp Cmd CmdSpec CmdInit Qp QpSpec Verbs Sim.
From S2P Require Import CmdTheorems CmdInitTheorems Mr MrTheorems.

(** ** Devices *)

Section Verbs.
Context `{P : Platform}.

(** The command context of a device. *)
Definition dev_ctx (w : world) (ibdev ctx : ptr) : Prop :=
  exists d m, w_ibdev w !! ibdev = Some d /\ w_mdev w !! provider_priv d = Some m /\
    mdev_cmd_ctx m = ctx.

Lemma wp_to_mdev ibdev ctx Q w :
  dev_ctx w ibdev ctx -> (forall m, mdev_cmd_ctx m = ctx -> Q m w) -> wp (to_mdev ibdev) Q w.
Proof.
  intros (d & m & Hd & Hm & Hc) HQ. unfold to_mdev. apply wp_bind.
  eapply wp_deref; [exact Hd|]. eapply wp_deref; [exact Hm|]. by apply HQ.
Qed.

(** ** Replies of at most [out_len] bytes *)

(** The output mailbox is empty from byte [n] on, the length the entry allows. *)
Definition out_within (ring mbox n : Z) (h : gmap Z block) : Prop :=
  exists r m, live_buf h ring = Some r /\ be_at r off_out_len 4 = n /\
    live_buf h mbox = Some m /\ forall i, n <= i < 4096 -> buf_get m (4096 + i) = 0.

(** The firmware writes no more than the output length of the entry. *)
Definition out_len_law (ring mbox : ptr) : Prop := forall n, stable (out_within ring mbox n).

Lemma submit_out_within ctx c w tok opcode op_mod in_data in_len n h :
  cmd_ready ctx c w -> 0 <= in_len -> 0 < n < 2 ^ 32 ->
  after_submit c tok opcode op_mod in_data in_len n (w_heap w) h ->
  out_within (cmd_ring c) (mbox_pool c) n h.
Proof.
  intros [_ (r & Hr & _) (m & Hm & _) _ _] Hlen Hn (H1 & H2 & _). rewrite Hr in H1. rewrite Hm in H2.
  eexists _, _. split; [exact H1|]. split; [|split; [exact H2|]].
  - pose proof (f_equal d_out_len (decode_filled c tok opcode op_mod in_data in_len n r m Hlen)) as E.
    cbn [d_out_len fw_decode expected] in E. rewrite (proj2 (Z.ltb_lt 0 n)) in E by lia.
    rewrite u32_small in E by lia. exact E.
  - intros i Hi.
    assert (E : buf_bytes (mbox_filled opcode op_mod in_data in_len m) (4096 + i) 1 = [0]).
    { rewrite mbox_filled_header by lia. apply mbox_header_input; simpl; lia. }
    unfold buf_bytes in E. simpl in E. rewrite Z.add_0_r in E. by injection E.
Qed.

Lemma zero_word m o : (forall i, 0 <= i < 4 -> buf_get m (o + i) = 0) -> be_at m o 4 = 0.
Proof.
  intros H. unfold be_at. rewrite (buf_bytes_ext m (buf_zero 4) o 0), buf_bytes_zero;
    [apply be_combine_zeros|]. intros i Hi. rewrite buf_get_zero. apply H. lia.
Qed.

(** The word a caller with a 16-byte buffer takes for its result. *)
Lemma short_reply_law ctx c w opcode op_mod in_data in_len status :
  cmd_ready ctx c w -> 0 <= in_len -> input_ok in_data in_len ->
  out_len_law (cmd_ring c) (mbox_pool c) ->
  wp (mlx5_cmd_exec ctx opcode op_mod in_data in_len (Some (buf_zero 16)) 16 status)
    (fun res _ => er_ret res = kIOReturnSuccess -> forall o, er_out res = Some o -> be_at o 8 4 = 0) w.
Proof.
  intros Hr Hlen Hin Hlaw.
  eapply wp_mono; [apply (exec_wp (out_within (cmd_ring c) (mbox_pool c) 16) ctx c);
    [done|done|done|by apply out_ok|apply Hlaw|]|].
  - intros h Hs. by eapply submit_out_within.
  - intros res w' (t & d & _ & _ & _ & Hf & _) Hok o Ho. unfold result_facts in Hf. rewrite Hok in Hf.
    destruct Hf as (_ & _ & h & mb & (r & m & _ & _ & Hm & Hz) & Hmb & Hout).
    rewrite Hm in Hmb. injection Hmb as <-. rewrite Ho in Hout. injection Hout as ->.
    rewrite reply_word by lia. apply zero_word. intros i Hi.
    replace (4096 + 8 + 8 + i) with (4096 + (16 + i)) by lia. apply Hz. lia.
Qed.

(** What a caller with a 16-byte buffer knows of the reply. *)
Lemma short_reply ctx c w opcode op_mod in_data in_len status :
  cmd_ready ctx c w -> 0 <= in_len -> input_ok in_data in_len ->
  wp (mlx5_cmd_exec ctx opcode op_mod in_data in_len (Some (buf_zero 16)) 16 status)
    (fun res w' => exists o, exec_reply ctx c (buf_zero 16) 16 w res o w' /\
       (er_ret res = kIOReturnSuccess -> out_len_law (cmd_ring c) (mbox_pool c) ->
        be_at o 8 4 = 0)) w.
Proof.
  intros Hr Hlen Hin.
  assert (Hex : wp (mlx5_cmd_exec ctx opcode op_mod in_data in_len (Some (buf_zero 16)) 16 status)
    (fun res w' => exists o, exec_reply ctx c (buf_zero 16) 16 w res o w') w).
  { apply (exec_service ctx c); [done|done|done|by apply out_ok|eauto]. }
  destruct (wp_run _ _ _ Hex) as (res & w' & He & o & Hy). apply (wp_done _ _ _ _ _ He).
  exists o. split; [done|]. intros Hok Hlaw.
  pose proof (short_reply_law ctx c w opcode op_mod in_data in_len status Hr Hlen Hin Hlaw) as H.
  unfold wp in H. rewrite He in H. by apply H, (ey_out _ _ _ _ _ _ _ _ Hy).
Qed.

(** ** Protection domains *)

Definition pd_post (pd : ptr) (p : ib_pd) (ctx : ptr) (c : mlx5_cmd_context) (w : world)
    (r : Z) (w' : world) : Prop :=
  (exists c', cmd_ready ctx c' w') /\ heap_shape (w_heap w') = heap_shape (w_heap w) /\
  (r = -1 /\ w_pd w' = w_pd w \/
   r = 0 /\ exists o, w_pd w' = <[pd := set_pd_local_dma_lkey (be_at o 8 4) p]> (w_pd w) /\
     (owner_protocol (cmd_ring c) (mbox_pool c) ->
      exists m, live_buf (w_heap w') (mbox_pool c) = Some m /\ be_at o 8 4 = be_at m (4096 + 16) 4) /\
     (out_len_law (cmd_ring c) (mbox_pool c) -> be_at o 8 4 = 0)).

Lemma alloc_pd_spec pd p udata ctx c w :
  w_pd w !! pd = Some p -> dev_ctx w (pd_device p) ctx -> cmd_ready ctx c w ->
  wp (mlx5_ib_alloc_pd pd udata) (pd_post pd p ctx c w) w.
Proof.
  intros Hp Hd Hr. unfold mlx5_ib_alloc_pd. apply wp_bind. eapply wp_deref; [exact Hp|].
  apply wp_bind. apply (wp_to_mdev _ ctx); [done|]. intros dev Hdev. rewrite Hdev. apply wp_bind.
  eapply wp_mono; [apply (short_reply ctx c); [done|lia|done]|].
  intros res w1 (o & [Hret Hout Hsz _ (c' & t & F & Hr1) Hcopy _] & Hz).
  destruct (cmd_frame_rest _ _ _ _ _ _ F) as (_ & _ & _ & _ & _ & Hpd & _ & _ & _ & Hs).
  destruct (io_ok (er_ret res)) eqn:Er; cbn [negb].
  - apply io_ok_true in Er. rewrite Hout. simpl default.
    apply wp_bind, wp_arr_load; [lia|rewrite Hsz; simpl; lia|].
    unfold OSSwapInt32. rewrite bswap_load. apply wp_bind.
    eapply wp_modify; [cbn [cell_get cell_pd]; rewrite Hpd; exact Hp|]. apply wp_bind, wp_log, wp_ret.
    split; [exists c'; by destruct Hr1|]. split; [done|]. right. split; [done|]. exists o.
    split; [by rewrite <- Hpd|]. split; [|intros Hlaw; by apply Hz].
    intros Hp'. destruct (Hcopy Er ltac:(lia) Hp') as (m & Hm & ->). exists m. split; [done|].
    rewrite reply_word by lia. done.
  - apply wp_bind, wp_log, wp_ret. split; [exists c'; by destruct Hr1|]. split; [done|]. by left.
Qed.

(** ** Completion queues *)

Lemma cq_input_size cqe dma Q w :
  (forall b, buf_size b = 256 -> Q b w) -> wp (cq_input cqe dma) Q w.
Proof.
  intros HQ. unfold cq_input. cbv zeta.
  do 2 (apply wp_bind, wp_arr_store; [done|done|]).
  apply wp_arr_store; [done|by rewrite length_le_split|]. by apply HQ.
Qed.

Definition cq_created (cq : ptr) (q : ib_cq) (ctx : ptr) (c : mlx5_cmd_context) (w w' : world) : Prop :=
  exists o, w_cq w' = <[cq := set_cq_cqe (i32 (be_at o 8 4)) q]> (w_cq w) /\
    owns (w_heap w') (w_next w) (cq_ring_size (cq_cqe q)) /\
    (exists c', cmd_ready ctx c' w') /\ w_ibdev w' = w_ibdev w /\ w_mdev w' = w_mdev w /\
    (out_len_law (cmd_ring c) (mbox_pool c) -> be_at o 8 4 = 0).

Lemma create_cq_spec cq q attr udata ctx c w :
  w_cq w !! cq = Some q -> dev_ctx w (cq_device q) ctx -> cmd_ready ctx c w -> fresh_ok w ->
  wp (mlx5_ib_create_cq cq attr udata) (fun r w' =>
    r = -1 /\ no_new w w' /\ w_cq w' = w_cq w \/ r = 0 /\ cq_created cq q ctx c w w') w.
Proof.
  intros Hq Hd Hr Hf. pose proof Hf as [Hn Hfr]. unfold mlx5_ib_create_cq.
  apply wp_bind. eapply wp_deref; [exact Hq|].
  apply wp_bind. apply (wp_to_mdev _ ctx); [done|]. intros dev Hdev. rewrite Hdev. cbv zeta.
  set (sz := cq_ring_size (cq_cqe q)). assert (Hsz : 0 <= sz) by apply u32_range.
  apply wp_bind, wp_md_alloc; intros s; [|intros dma contents].
  { change (NULL =? NULL) with true. cbn iota. apply wp_bind, wp_log, wp_ret. left.
    split; [done|]. split; [|done]. intros p b (x & Hx & _)%live_buf_lookup. by eapply Hfr. }
  rewrite (proj2 (Z.eqb_neq (w_next w) NULL)) by (unfold NULL; lia).
  set (w1 := put_heap _ _). apply wp_bind. unfold md_clear. apply wp_bind.
  assert (Hl1 : live_buf (w_heap w1) (w_next w) = Some (Buf sz contents))
    by (unfold w1; simpl; by rewrite live_buf_insert_eq).
  eapply wp_md_bytes; [exact Hl1|]. eapply wp_mem_fill; [exact Hl1|done|done|simpl; lia|].
  unfold w1. cbn [w_heap put_heap]. rewrite upd_buf_insert. clear Hl1 w1.
  change (map_blk _ _) with (zeroed sz contents dma). set (h1 := <[w_next w := zeroed sz contents dma]> (w_heap w)).
  match goal with |- wp _ _ ?x => set (w1 := x) end.
  assert (Hid : w_heap w1 !! w_next w = Some (zeroed sz contents dma)) by apply lookup_insert_eq.
  apply wp_bind. eapply wp_md_phys; [exact Hid|done|]. apply wp_bind, cq_input_size. intros in_buf Hin.
  assert (Hr1 : cmd_ready ctx c w1).
  { assert (E : w1 = put_trace (EvStore (w_next w) 0 (fill_bytes sz 0) :: w_trace w) (put_qp (w_qp w)
      (put_heap h1 (put_next (w_next w + 1) (put_ps s w))))) by (unfold w1, h1; by destruct w).
    rewrite E. apply cmd_ready_fresh; [done|done|].
    intros p Hp. unfold h1. by rewrite lookup_insert_ne by lia. }
  apply wp_bind. eapply wp_mono; [apply (short_reply ctx c); [done|lia|apply in_ok; lia]|].
  intros res w2 (o & [_ Hout Hos _ (c' & t & F & Hr2) _ _] & Hz).
  destruct (cmd_frame_rest _ _ _ _ _ _ F) as (_ & _ & _ & Hib & Hmd & _ & Hcq & _ & _ & Hs).
  symmetry in Hs. destruct (heap_shape_blk _ _ _ _ Hs Hid) as (b2 & Hb2 & Hbs2 & Hrf2).
  destruct (io_ok (er_ret res)) eqn:Er; cbn [negb].
  - apply io_ok_true in Er. rewrite Hout. simpl default.
    apply wp_bind, wp_arr_load; [lia|rewrite Hos; simpl; lia|].
    unfold OSSwapInt32. rewrite bswap_load. apply wp_bind.
    eapply wp_modify; [cbn [cell_get cell_cq]; rewrite Hcq; exact Hq|]. apply wp_bind, wp_log, wp_ret.
    right. split; [done|]. exists o. change (w_cq w1) with (w_cq w) in Hcq. split; [by rewrite <- Hcq|].
    split; [by exists b2|]. split; [exists c'; by destruct Hr2|]. split; [exact Hib|].
    split; [exact Hmd|]. by apply Hz.
  - apply wp_bind, wp_log, wp_bind. eapply wp_md_release; [exact Hb2|rewrite Hrf2; done|]. apply wp_ret.
    left. split; [done|]. split; [|done]. cbn [w_heap put_heap put_trace].
    intros p x. eapply (pas_released (w_next w) (w_heap w) h1); [exact Hfr| |exact Hs|exact Hb2|exact Hrf2].
    intros p' [Hp' _]%not_elem_of_cons. unfold h1. by rewrite lookup_insert_ne.
Qed.

Lemma destroy_cq_spec cq q udata ctx c w :
  w_cq w !! cq = Some q -> dev_ctx w (cq_device q) ctx -> cmd_ready ctx c w ->
  wp (mlx5_ib_destroy_cq cq udata) (fun r w' => (r = 0 \/ r = -1) /\
    heap_shape (w_heap w') = heap_shape (w_heap w) /\ w_cq w' = w_cq w) w.
Proof.
  intros Hq Hd Hr. unfold mlx5_ib_destroy_cq. apply wp_bind. eapply wp_deref; [exact Hq|].
  apply wp_bind. apply (wp_to_mdev _ ctx); [done|]. intros dev Hdev. rewrite Hdev.
  apply wp_bind, wp_arr_store; [lia|by rewrite length_le_split|]. apply wp_bind.
  apply (exec_service ctx c); [done|lia|apply in_ok; simpl; lia|by apply out_ok|].
  intros res o w1 [_ _ _ _ (c' & t & F & _) _ _].
  destruct (cmd_frame_rest _ _ _ _ _ _ F) as (_ & _ & _ & _ & _ & _ & Hcq & _ & _ & Hs).
  unfold mwhen. destruct (io_ok (er_ret res)); apply wp_bind.
  - apply wp_log, wp_ret. auto.
  - apply wp_ret, wp_ret. auto.
Qed.

(** The verbs that send one command and report its result. *)
Lemma dealloc_pd_spec pd p udata ctx c w :
  w_pd w !! pd = Some p -> dev_ctx w (pd_device p) ctx -> cmd_ready ctx c w ->
  wp (mlx5_ib_dealloc_pd pd udata) (fun r _ => r = 0 \/ r = -1) w.
Proof.
  intros Hp Hd Hr. unfold mlx5_ib_dealloc_pd. apply wp_bind. eapply wp_deref; [exact Hp|].
  apply wp_bind. apply (wp_to_mdev _ ctx); [done|]. intros dev Hdev. rewrite Hdev.
  apply wp_bind, wp_arr_store; [lia|by rewrite length_le_split|]. apply wp_bind.
  apply (exec_service ctx c); [done|lia|apply in_ok; simpl; lia|by apply out_ok|].
  intros res o w1 _. destruct (negb (io_ok (er_ret res))); apply wp_bind, wp_log, wp_ret; auto.
Qed.

Lemma dereg_mr_spec mr m udata ctx c w :
  w_mr w !! mr = Some m -> dev_ctx w (mr_device (ibmr m)) ctx -> cmd_ready ctx c w ->
  wp (mlx5_ib_dereg_mr mr udata) (fun r _ => r = 0 \/ r = -1) w.
Proof.
  intros Hm Hd Hr. unfold mlx5_ib_dereg_mr. apply wp_bind. eapply wp_deref; [exact Hm|].
  apply wp_bind. apply (wp_to_mdev _ ctx); [done|]. intros dev Hdev. rewrite Hdev.
  apply wp_bind, wp_arr_store; [lia|by rewrite length_le_split|]. apply wp_bind.
  apply (exec_service ctx c); [done|lia|apply in_ok; simpl; lia|by apply out_ok|].
  intros res o w1 _. apply wp_ret. destruct (io_ok _); auto.
Qed.

Lemma query_device_spec d attr uhw ctx w :
  dev_ctx w d ctx -> wp (mlx5_ib_query_device d attr uhw) (fun r _ => r.1 = 0 \/ r.1 = -1) w.
Proof.
  intros Hd. unfold mlx5_ib_query_device. apply wp_bind, (wp_to_mdev _ ctx); [done|].
  intros dev _. destruct attr; [apply wp_bind, wp_log|]; apply wp_ret; auto.
Qed.

End Verbs.

(** ** Theorems *)

Lemma sim_dev_ctx s : @dev_ctx (sim_platform 1 2) (sim_world s) 200 100.
Proof. by eexists _, _. Qed.

(** The simulated firmware writes at most [out_len] bytes. *)
Lemma sim_out_len : @out_len_law (sim_platform 1 2) 1 2.
Proof.
  intros n s h (r & m & Hr & Hn & Hm & Hz). simpl. unfold sim_run. rewrite Hr.
  destruct (_ =? 0); [by exists r, m|]. destruct (sim_wait s); [|by exists r, m].
  destruct (sim_script s) as [|[st resp] rest]; [by exists r, m|].
  unfold apply_dmas. cbn [snd foldl].
  set (h1 := apply_dma h _).
  assert (H1 : live_buf h1 1 = Some r) by (unfold h1; by rewrite live_buf_apply_dma_ne).
  assert (H2 : exists m', live_buf h1 2 = Some m' /\ forall i, n <= i < 4096 -> buf_get m' (4096 + i) = 0).
  { unfold off_out_len in Hn. unfold h1, apply_dma. destruct (live_buf_lookup _ _ _ Hm) as (b & Hb & Hbm & Hbr).
    rewrite Hb. destruct (_ && _) eqn:E; [|by exists m].
    eexists. split.
    - rewrite live_buf_insert_eq. simpl. by rewrite (proj2 (Z.ltb_lt _ _) Hbr).
    - intros i Hi. rewrite buf_get_store_out.
      + subst m. by apply Hz.
      + rewrite length_take. pose proof (be_at_range r 24 4). lia. }
  destruct H2 as (m' & Hm' & Hz'). clearbody h1.
  assert (H3 : exists r', live_buf (apply_dma h1 (1, 0, [st])) 1 = Some r' /\ be_at r' off_out_len 4 = n).
  { unfold apply_dma. destruct (live_buf_lookup _ _ _ H1) as (b & Hb & Hbm & Hbr). rewrite Hb.
    destruct (_ && _) eqn:E; [|by exists r]. eexists. split.
    - rewrite live_buf_insert_eq. simpl. by rewrite (proj2 (Z.ltb_lt _ _) Hbr).
    - rewrite be_at_store_out by (simpl; unfold off_out_len; lia). by subst r. }
  destruct H3 as (r' & Hr' & Hn'). exists r', m'. split; [done|]. split; [done|].
  split; [by rewrite live_buf_apply_dma_ne|done].
Qed.

(** Allocating a protection domain returns 0 or -1; -1 leaves the object alone;
    0 stores as its number the big-endian word at bytes 16 to 19 of the output
    mailbox (the source's comment says byte 8), and touches no other object. *)
Theorem alloc_pd_result `{P : Platform} pd p udata ctx c w :
  w_pd w !! pd = Some p -> dev_ctx w (pd_device p) ctx -> cmd_ready ctx c w ->
  owner_protocol (cmd_ring c) (mbox_pool c) ->
  wp (mlx5_ib_alloc_pd pd udata) (fun r w' =>
    (exists c', cmd_ready ctx c' w') /\ heap_shape (w_heap w') = heap_shape (w_heap w) /\
    (r = -1 /\ w_pd w' = w_pd w \/
     r = 0 /\ exists m, live_buf (w_heap w') (mbox_pool c) = Some m /\
       w_pd w' = <[pd := set_pd_local_dma_lkey (be_at m (4096 + 16) 4) p]> (w_pd w))) w.
Proof.
  intros Hp Hd Hr Hpr. eapply wp_mono; [by apply (alloc_pd_spec pd p udata ctx c)|].
  intros r w' (Hc & Hs & H). split; [done|]. split; [done|].
  destruct H as [|(-> & o & Ho & Hm & _)]; [by left|right]. split; [done|].
  destruct (Hm Hpr) as (m & Hm' & E). exists m. split; [done|]. by rewrite <- E.
Qed.

Lemma alloc_pd_result_witness :
  @wp (sim_platform 1 2) _ (@mlx5_ib_alloc_pd (sim_platform 1 2) 300 0) (fun r w' =>
    (exists c', cmd_ready 100 c' w') /\
    heap_shape (w_heap w') = heap_shape (w_heap (sim_world (sim_fw 0 [(0, [0])]))) /\
    (r = -1 /\ w_pd w' = w_pd (sim_world (sim_fw 0 [(0, [0])])) \/
     r = 0 /\ exists m, live_buf (w_heap w') 2 = Some m /\
       w_pd w' = <[300 := set_pd_local_dma_lkey (be_at m (4096 + 16) 4) (Mk_ib_pd 200 0 77 0 0)]>
                   (w_pd (sim_world (sim_fw 0 [(0, [0])])))))
    (sim_world (sim_fw 0 [(0, [0])])).
Proof.
  apply (@alloc_pd_result (sim_platform 1 2) 300 (Mk_ib_pd 200 0 77 0 0) 0 100 sim_ctx
    (sim_world (sim_fw 0 [(0, [0])])));
    [done|apply sim_dev_ctx|apply sim_ready|apply sim_owner_protocol].
Defined.

(** With a firmware that never writes more than the output length it is given,
    every protection domain gets the number 0: the driver allows 16 bytes of
    output, copies from byte 8 on, and then reads the word at byte 8 of the copy,
    which is byte 16 of the output. *)
Theorem alloc_pd_zero `{P : Platform} pd p udata ctx c w :
  w_pd w !! pd = Some p -> dev_ctx w (pd_device p) ctx -> cmd_ready ctx c w ->
  out_len_law (cmd_ring c) (mbox_pool c) ->
  wp (mlx5_ib_alloc_pd pd udata) (fun r w' =>
    r = 0 -> w_pd w' = <[pd := set_pd_local_dma_lkey 0 p]> (w_pd w)) w.
Proof.
  intros Hp Hd Hr Hl. eapply wp_mono; [by apply (alloc_pd_spec pd p udata ctx c)|].
  intros r w' (_ & _ & [[-> _]|(-> & o & Ho & _ & Hz)]); [done|].
  intros _. by rewrite Ho, (Hz Hl).
Qed.

Lemma alloc_pd_zero_witness :
  @wp (sim_platform 1 2) _ (@mlx5_ib_alloc_pd (sim_platform 1 2) 300 0) (fun r w' =>
    r = 0 -> w_pd w' = <[300 := set_pd_local_dma_lkey 0 (Mk_ib_pd 200 0 77 0 0)]>
      (w_pd (sim_world (sim_fw 0 [(0, [0; 0; 0; 0; 0; 0; 0; 0; 0; 0; 0; 0; 0; 0; 0; 0; 0; 0; 0; 9])]))))
    (sim_world (sim_fw 0 [(0, [0; 0; 0; 0; 0; 0; 0; 0; 0; 0; 0; 0; 0; 0; 0; 0; 0; 0; 0; 9])])).
Proof.
  apply (@alloc_pd_zero (sim_platform 1 2) 300 (Mk_ib_pd 200 0 77 0 0) 0 100 sim_ctx);
    [done|apply sim_dev_ctx|apply sim_ready|apply sim_out_len].
Defined.

(** The completion ring is never returned: after a successful create and a
    destroy, whatever the firmware answers to the latter, the ring's block is
    still allocated with one reference, and no object of the driver points to
    it (the completion queue only keeps its number). *)
Theorem cq_ring_leaks `{P : Platform} cq q attr udata ctx c w :
  w_cq w !! cq = Some q -> dev_ctx w (cq_device q) ctx -> cmd_ready ctx c w -> fresh_ok w ->
  wp (r ← mlx5_ib_create_cq cq attr udata;
      (if r =? 0 then mlx5_ib_destroy_cq cq udata else mret 0) ;; mret r)
    (fun r w' => r = -1 /\ no_new w w' \/
       r = 0 /\ owns (w_heap w') (w_next w) (cq_ring_size (cq_cqe q))) w.
Proof.
  intros Hq Hd Hr Hf. apply wp_bind.
  eapply wp_mono; [by apply (create_cq_spec cq q attr udata ctx c)|].
  intros r w1 [(-> & Hn & _)|(-> & o & Hcq & (b & Hb & Hrf & Hsz) & (c' & Hr1) & Hib & Hmd & _)];
    apply wp_bind.
  { apply wp_ret, wp_ret. by left. }
  eapply wp_mono; [apply (destroy_cq_spec cq (set_cq_cqe (i32 (be_at o 8 4)) q) udata ctx c')|].
  - rewrite Hcq. apply lookup_insert_eq.
  - destruct Hd as (d & m & ? & ? & ?). exists d, m. by rewrite Hib, Hmd.
  - done.
  - intros r2 w2 (_ & Hs & _). apply wp_ret. right. split; [done|]. symmetry in Hs.
    destruct (heap_shape_blk _ _ _ _ Hs Hb) as (b2 & Hb2 & Hbs & Hbr). exists b2.
    split; [done|]. split; congruence.
Qed.

Lemma cq_ring_leaks_witness :
  @wp (sim_platform 1 2) _
    (r ← @mlx5_ib_create_cq (sim_platform 1 2) 400 0 0;
      (if r =? 0 then mlx5_ib_destroy_cq 400 0 else mret 0) ;; mret r)
    (fun r w' => r = -1 /\ no_new (sim_world (sim_fw 0 [(0, [0]); (0, [0])])) w' \/
       r = 0 /\ owns (w_heap w') 10 (cq_ring_size 100))
    (sim_world (sim_fw 0 [(0, [0]); (0, [0])])).
Proof.
  apply (@cq_ring_leaks (sim_platform 1 2) 400 (Mk_ib_cq 200 0 0 0 0 100) 0 0 100 sim_ctx
    (sim_world (sim_fw 0 [(0, [0]); (0, [0])])));
    [done|apply sim_dev_ctx|apply sim_ready|apply sim_fresh].
Defined.

(** The completion ring is large enough: the size the firmware is told, 2 to the
    floor of the logarithm of the entry count, needs at most the allocated bytes,
    as long as the 32-bit product does not overflow; for 2^26 entries and above
    it does, the ring of 2^26 entries getting no memory at all. *)
Theorem cq_ring_fits cqe :
  (cqe < 2 ^ 26 -> 2 ^ log2_u32 (cqe_count cqe) * cqe_size <= cq_ring_size cqe) /\
  (cq_ring_size (2 ^ 26) = 0 /\ log2_u32 (cqe_count (2 ^ 26)) = 26).
Proof.
  split; [|done]. intros Hc. unfold cq_ring_size, cqe_count, cqe_size.
  assert (Hn : exists n, (if 0 <? cqe then cqe else 64) = n /\ 1 <= n < 2 ^ 26).
  { destruct (Z.ltb_spec 0 cqe); eexists; split; [reflexivity|lia|reflexivity|lia]. }
  destruct Hn as (n & -> & Hn). rewrite (u32_small n), u32_small by lia.
  rewrite log2_u32_spec by lia. pose proof (Z.log2_spec n). nia.
Qed.

Lemma cq_ring_fits_witness : 2 ^ log2_u32 (cqe_count 100) * cqe_size <= cq_ring_size 100.
Proof. apply (cq_ring_fits 100). lia. Defined.

(** ** The life of a memory key *)

Section Mkey.
Context `{P : Platform}.

Lemma key_shifts key : 0 <= key < 2 ^ 32 -> Z.shiftr (u32 (Z.shiftl key 8)) 8 = key mod 2 ^ 24.
Proof.
  intros Hk. unfold u32. rewrite Z.shiftl_mul_pow2, Z.shiftr_div_pow2 by lia.
  change (2 ^ 32) with (2 ^ 24 * 2 ^ 8). rewrite Z.mul_mod_distr_r by lia.
  by rewrite Z.div_mul.
Qed.

Lemma low_key key : 0 <= key -> key mod 2 ^ 24 = key <-> key < 2 ^ 24.
Proof.
  intros Hk. pose proof (Z.mod_pos_bound key (2 ^ 24)).
  split; [lia|intros; apply Z.mod_small; lia].
Qed.

(** [mlx5_ib_dereg_mr] on [mr] in [w]: at the doorbell the ring entry belongs to
    the firmware, the mailbox says DESTROY_MKEY and its input begins with the
    word [sent]; the rest of the call is the wait for the answer. *)
Definition destroys (mr udata ctx : ptr) (c : mlx5_cmd_context) (w : world) (sent : Z) : Prop :=
  exists w' r m,
    mlx5_ib_dereg_mr mr udata w =
      (res ← exec_end ctx MLX5_CMD_OP_DESTROY_MKEY (Some (buf_zero 16)) 16 (Some 0xFF)
               (set_next_token (next_tok (next_token c)) c);
       mret (if io_ok (er_ret res) then 0 else -1)) w' /\
    live_buf (w_heap w') (cmd_ring c) = Some r /\ live_buf (w_heap w') (mbox_pool c) = Some m /\
    d_owner (fw_decode r m) = MLX5_CMD_OWNER_HW /\
    d_opcode (fw_decode r m) = MLX5_CMD_OP_DESTROY_MKEY /\ be_at m 16 4 = sent.

Lemma to_mdev_runs ibdev ctx w :
  dev_ctx w ibdev ctx -> exists m, to_mdev ibdev w = Done m w /\ mdev_cmd_ctx m = ctx.
Proof.
  intros Hd. assert (H : wp (to_mdev ibdev) (fun m w' => w' = w /\ mdev_cmd_ctx m = ctx) w)
    by (by apply (wp_to_mdev _ ctx)).
  apply wp_run in H as (m & ? & E & -> & Hm). by exists m.
Qed.

(** A deregistration sends the upper 24 bits of the local key. *)
Lemma dereg_sends mr x udata ctx c w :
  w_mr w !! mr = Some x -> dev_ctx w (mr_device (ibmr x)) ctx -> cmd_ready ctx c w ->
  0 <= mr_lkey (ibmr x) < 2 ^ 32 ->
  destroys mr udata ctx c w (Z.shiftr (mr_lkey (ibmr x)) 8).
Proof.
  intros Hx Hd Hr Hk. set (k := Z.shiftr (mr_lkey (ibmr x)) 8).
  assert (Hkr : 0 <= k < 2 ^ 32).
  { unfold k. rewrite Z.shiftr_div_pow2 by lia. split; [apply Z.div_pos; lia|].
    apply Z.div_lt_upper_bound; lia. }
  set (b := buf_store (buf_zero 16) 0 (le_split 4 (OSSwapInt32 k))).
  pose proof (begin_spec ctx c w MLX5_CMD_OP_DESTROY_MKEY 0 (Some (b, 0)) 4 16 Hr ltac:(lia)) as B.
  specialize (B ltac:(apply in_ok; simpl; lia)).
  apply wp_run in B as (c1 & w1 & E & -> & t & F & _ & (H1 & H2 & _) & _).
  destruct (to_mdev_runs _ _ _ Hd) as (dev & Ed & Edev).
  destruct Hr as [_ (r & Hring & _) (m & Hmb & _) _ _]. rewrite Hring in H1. rewrite Hmb in H2.
  pose proof (decode_filled c (next_tok (next_token c)) MLX5_CMD_OP_DESTROY_MKEY 0 (Some (b, 0)) 4 16 r m
    ltac:(lia)) as D.
  eexists w1, _, _. split; [|split; [exact H1|split; [exact H2|split; [by rewrite D|split; [by rewrite D|]]]]].
  - unfold mlx5_ib_dereg_mr.
    rewrite (bind_done (deref mr) _ x w w) by (unfold deref; cbn [cell_get cell_mr]; by rewrite Hx).
    rewrite (bind_done _ _ _ _ _ Ed), (bind_done (dereg_input _) _ b w w) by done. rewrite Edev.
    unfold mbind at 1, M_bind at 1. rewrite exec_split, (bind_done _ _ _ _ _ E). done.
  - unfold mbox_filled. cbn [Z.ltb Z.compare].
    rewrite be_at_copy_in by (vm_compute; intuition discriminate).
    replace (0 + (16 - 16)) with 0 by lia. unfold b. rewrite le_split_swap32, be_at_store_same.
    apply Z.mod_small. exact Hkr.
Qed.

End Mkey.

(** C34. The key of a region, from its registration to its deregistration.  If
    registering memory returns a region, then [mlx5_ib_dereg_mr] on it, at any
    later time before the region is overwritten, sends DESTROY_MKEY with the key
    the firmware gave in its reply to CREATE_MKEY (bytes 16 to 19 of the output
    mailbox at the registration) modulo 2^24: the member [lkey] is the key
    shifted left by 8 and cut to 32 bits, and is shifted back.  This is the key
    of the reply exactly when that is below 2^24. *)
Theorem dereg_key_roundtrip `{P : Platform} pd p start len iova flags ctx c w :
  pd <> NULL -> w_pd w !! pd = Some p -> fresh_ok w -> cmd_ready ctx c w ->
  owner_protocol (cmd_ring c) (mbox_pool c) ->
  wp (mlx5_ib_reg_user_mr_full pd start len iova flags ctx) (fun mr w1 =>
    mr = NULL \/
    exists m, live_buf (w_heap w1) (mbox_pool c) = Some m /\
      let key := be_at m (4096 + 16) 4 in
      forall w2 udata ctx2 c2,
        w_mr w2 !! mr = w_mr w1 !! mr -> dev_ctx w2 (pd_device p) ctx2 -> cmd_ready ctx2 c2 w2 ->
        destroys mr udata ctx2 c2 w2 (key mod 2 ^ 24) /\ (key mod 2 ^ 24 = key <-> key < 2 ^ 24)) w.
Proof.
  intros Hpd Hp Hf Hr Hpr. eapply wp_mono; [by apply (reg_spec pd p start len iova flags ctx c)|].
  intros mr w1 [[-> _]|(_ & _ & o & Hx & _ & Hm)]; [by left|right].
  destruct (Hm Hpr) as (m & Hm' & He). exists m. split; [done|]. intros key w2 udata ctx2 c2 Hmr Hd Hr2.
  rewrite Hx, He in Hmr. fold key in Hmr. assert (Hk : 0 <= key < 2 ^ 32) by apply be_at_range.
  split; [|apply low_key; lia]. rewrite <- (key_shifts key Hk).
  apply (dereg_sends mr _ udata ctx2 c2 w2 Hmr Hd Hr2). apply u32_range.
Qed.

Lemma dereg_key_roundtrip_witness :
  @wp (sim_platform 1 2) _
    (@mlx5_ib_reg_user_mr_full (sim_platform 1 2) 300 0x10000 5000 0x7000 7 100) (fun mr (w1 : @world (sim_platform 1 2)) =>
    mr = NULL \/
    exists m, live_buf (w_heap w1) 2 = Some m /\
      let key := be_at m (4096 + 16) 4 in
      forall (w2 : @world (sim_platform 1 2)) udata ctx2 c2,
        w_mr w2 !! mr = w_mr w1 !! mr -> dev_ctx w2 200 ctx2 -> cmd_ready ctx2 c2 w2 ->
        destroys mr udata ctx2 c2 w2 (key mod 2 ^ 24) /\ (key mod 2 ^ 24 = key <-> key < 2 ^ 24))
    (sim_world (sim_fw 0 [(0, [0])])).
Proof.
  apply (@dereg_key_roundtrip (sim_platform 1 2) 300 (Mk_ib_pd 200 0 77 0 0) 0x10000 5000 0x7000 7 100
    sim_ctx (sim_world (sim_fw 0 [(0, [0])])));
    [done|done|apply sim_fresh|apply sim_ready|apply sim_owner_protocol].
Defined.

(** A registration and a deregistration on the simulator: the key of the first
    reply, the opcode and the key of the second command. *)
Definition mkey_life (key : Z) : option (Z * Z * Z) :=
  let w := sim_world (sim_fw 0 [(0, replicate 16 0 ++ be_split 4 key); (0, [0])]) in
  match @mlx5_ib_reg_user_mr_full (sim_platform 1 2) 300 0x10000 5000 0x7000 7 100 w with
  | Done mr w1 =>
      match mlx5_ib_dereg_mr mr NULL w1 with
      | Done 0 w2 =>
          m1 ← live_buf (w_heap w1) 2;
          m2 ← live_buf (w_heap w2) 2;
          Some (be_at m1 (4096 + 16) 4, be_at m2 MLX5_MBOX_OPCODE_OFF 2, be_at m2 16 4)
      | _ => None
      end
  | Fault _ => None
  end.

Example mkey_life_runs :
  mkey_life 0x5 = Some (0x5, MLX5_CMD_OP_DESTROY_MKEY, 0x5) /\
  mkey_life 0x1000005 = Some (0x1000005, MLX5_CMD_OP_DESTROY_MKEY, 0x5).
Proof. by vm_compute. Qed.

(** All entries of the function table. *)
Definition ops_entries (o : ib_device_ops) : list (option verb) :=
  [op_query_device o; op_query_port o; op_get_port_immutable o; op_get_link_layer o;
   op_modify_device o; op_modify_port o; op_alloc_pd o; op_dealloc_pd o; op_create_cq o;
   op_destroy_cq o; op_poll_cq o; op_req_notify_cq o; op_resize_cq o; op_create_qp o;
   op_modify_qp o; op_destroy_qp o; op_query_qp o; op_post_send o; op_post_recv o;
   op_reg_user_mr o; op_dereg_mr o; op_map_mr_sg o; op_create_ah o; op_destroy_ah o;
   op_alloc_ucontext o; op_dealloc_ucontext o; op_mmap o].

(** The result of calling a verb of the queue pair and registration group
    through the table. *)
Definition call_stub `{Platform} (v : verb) : option (M Z) :=
  match v with
  | V_create_qp => Some (mlx5_ib_create_qp NULL NULL NULL)
  | V_modify_qp => Some (mlx5_ib_modify_qp NULL 0 NULL NULL)
  | V_destroy_qp => Some (mlx5_ib_destroy_qp NULL NULL)
  | V_post_send => Some (mlx5_ib_post_send NULL NULL NULL)
  | V_post_recv => Some (mlx5_ib_post_recv NULL NULL NULL)
  | V_reg_user_mr => Some (mlx5_ib_reg_user_mr NULL 0 0 0 0 NULL)
  | _ => None
  end.

(** The function table: 17 of its 27 entries are set (the log line says 14), each
    to a different function; the five queue pair verbs and the registration of
    user memory are the stubs, which fail without touching anything but the log,
    not the full implementations. *)
Theorem ops_table `{P : Platform} w :
  wp mlx5_ib_init_ops (fun o _ =>
    length (filter (fun e => is_Some e) (ops_entries o)) = 17%nat /\
    NoDup (filter (fun e => is_Some e) (ops_entries o)) /\
    Forall (fun e => exists v m, e = Some v /\ call_stub v = Some m /\
        forall w0, wp m (fun r w1 => (r = -1 \/ r = NULL) /\
          exists l, w1 = put_trace (EvLog l [] :: w_trace w0) w0) w0)
      [op_create_qp o; op_modify_qp o; op_destroy_qp o; op_post_send o; op_post_recv o;
       op_reg_user_mr o]) w.
Proof.
  apply wp_bind, wp_log, wp_ret. split; [by vm_compute|].
  split; [apply (bool_decide_unpack _); by vm_compute|].
  repeat constructor; eexists _, _; (split; [reflexivity|]); (split; [reflexivity|]); intros w0;
    apply wp_bind, wp_log, wp_ret; eauto.
Qed.

(** Device queries report the cached capabilities: vendor and part are constants,
    the four limits and the node GUID those of the device record, the port count
    cut to 8 bits; a null attribute pointer gives -1; nothing else changes. *)
Theorem query_device_attrs `{P : Platform} ibdev d m attr uhw w :
  w_ibdev w !! ibdev = Some d -> w_mdev w !! provider_priv d = Some m ->
  wp (mlx5_ib_query_device ibdev attr uhw) (fun res w' =>
    (exists t, w' = put_trace t w) /\
    match attr, res with
    | None, (r, a) => r = -1 /\ a = None
    | Some _, (r, Some a) => r = 0 /\
        attr_vendor_id a = MLX5_VENDOR_ID /\ attr_vendor_part_id a = MLX5_DEV_CX6_LX /\
        (attr_max_qp a, attr_max_cq a, attr_max_mr a, attr_max_pd a) =
          (mdev_max_qp m, mdev_max_cq m, mdev_max_mr m, mdev_max_pd m) /\
        attr_node_guid a = mdev_node_guid m /\
        attr_phys_port_cnt a = mdev_num_ports m mod 256 /\ attr_max_qp_wr a = 0
    | Some _, (_, None) => False
    end) w.
Proof.
  intros Hd Hm. unfold mlx5_ib_query_device, to_mdev. apply wp_bind, wp_bind.
  eapply wp_deref; [exact Hd|]. eapply wp_deref; [exact Hm|]. destruct attr as [a|].
  - apply wp_bind, wp_log, wp_ret. split; [by eexists|]. done.
  - apply wp_ret. split; [exists (w_trace w); by destruct w|done].
Qed.

Lemma query_device_attrs_witness :
  @wp (sim_platform 1 2) _
    (@mlx5_ib_query_device (sim_platform 1 2) 200 (Some zero_ib_device_attr) 0) (fun res w' =>
    (exists t, w' = put_trace t (sim_world (sim_fw 0 []))) /\
    match res with
    | (r, Some a) => r = 0 /\
        attr_vendor_id a = MLX5_VENDOR_ID /\ attr_vendor_part_id a = MLX5_DEV_CX6_LX /\
        (attr_max_qp a, attr_max_cq a, attr_max_mr a, attr_max_pd a) = (1024, 512, 256, 128) /\
        attr_node_guid a = 0x1122334455667788 /\
        attr_phys_port_cnt a = 257 mod 256 /\ attr_max_qp_wr a = 0
    | (_, None) => False
    end) (sim_world (sim_fw 0 [])).
Proof.
  by apply (@query_device_attrs (sim_platform 1 2) 200 _ _ (Some zero_ib_device_attr) 0
    (sim_world (sim_fw 0 [])) eq_refl eq_refl).
Defined.
