(* ===== verification/Driver.v ===== *)
(** * The IOKit service ([VerbifrostConnectXRDMA.cpp])

    Matching, bring-up of the card and teardown.  The object's pointers are the
    record [driver]; its embedded [fCmdCtx] is the context at address [fCmdCtx]
    of [w_ctx].  IOKit clears an object's memory, so a new driver is
    [new_driver].  Members are updated by returning the new record. *)

From S2P Require Import Prelude Bytes Registers IbVerbs World Wp Cmd CmdInit.

(** ** PCI configuration space (IOPCIDevice.h) *)

Definition kIOPCIConfigVendorID : Z := 0x00.
Definition kIOPCIConfigDeviceID : Z := 0x02.
Definition kIOPCIConfigCommand : Z := 0x04.
Definition kIOPCIConfigRevisionID : Z := 0x08.
Definition kIOPCIConfigSubSystemVendorID : Z := 0x2C.
Definition kIOPCIConfigSubSystemID : Z := 0x2E.
Definition kIOPCICommandMemorySpace : Z := 0x0002.
Definition kIOPCICommandBusMaster : Z := 0x0004.

(** ** The object *)

Record driver := Driver {
  fPCIDevice : ptr;
  fBAR0Map : ptr;
  fBAR0 : ptr;
  fBAR0Size : Z;
  fInitSeg : ptr;
  fCmdCtx : ptr
}.

Definition new_driver (ctx : ptr) : driver := Driver NULL NULL NULL 0 NULL ctx.

(** [chipName] *)
Definition chip_name (deviceID : Z) : string :=
  if deviceID =? MLX5_DEV_CX6_LX then "ConnectX-6 LX"
  else if deviceID =? MLX5_DEV_CX6 then "ConnectX-6"
  else if deviceID =? MLX5_DEV_CX7 then "ConnectX-7"
  else "unknown".

Section Driver.
Context `{P : Platform}.

(** ** IOKit calls of this file *)

Definition IOService_start : M bool := fun w =>
  let '(s, b) := p_super_start (w_ps w) in Done b (put_ps s w).
Definition OSDynamicCast_IOPCIDevice (provider : ptr) : M ptr := fun w =>
  let '(s, b) := p_cast_pci (w_ps w) in Done (if b then provider else NULL) (put_ps s w).
Definition configRead (reg : Z) : M Z := fun w =>
  let '(s, v) := p_config_read (w_ps w) reg in Done v (put_ps s w).
Definition configRead16 (reg : Z) : M Z := v ← configRead reg; mret (u16 v).
Definition configRead8 (reg : Z) : M Z := v ← configRead reg; mret (u8 v).
Definition configWrite16 (reg v : Z) : M unit := fun w =>
  Done tt (put_ps (p_config_write (w_ps w) reg (u16 v)) w).
Definition setProperty (key : string) (v : Z) : M unit := emit (EvProperty key v).

(** [getDeviceMemoryWithIndex(0)]: the length of the BAR, [None] if absent. *)
Definition getDeviceMemory0 : M (option Z) := fun w =>
  let '(s, l) := p_bar_memory (w_ps w) in Done (u64 <$> l) (put_ps s w).

Definition getPhysicalAddress0 : M Z := fun w =>
  let '(s, a) := p_bar_physical (w_ps w) in Done (u64 a) (put_ps s w).

(** [barMD->map()] and [release()] of the map. *)
Definition bar_map (len : Z) : M ptr := fun w =>
  match p_bar_map (w_ps w) with
  | (s, None) => Done NULL (put_ps s w)
  | (s, Some va) =>
      Done (w_next w) (put_maps (<[w_next w := IOMap va len 1]> (w_maps w))
                        (put_next (w_next w + 1) (put_ps s w)))
  end.
Definition map_getVirtualAddress (m : ptr) : M ptr := fun w =>
  match w_maps w !! m with
  | Some x => if 0 <? map_refs x then Done (map_vaddr x) w else Fault UseAfterFree
  | None => Fault BadPointer
  end.
Definition map_release (m : ptr) : M unit := fun w =>
  match w_maps w !! m with
  | Some x =>
      if 0 <? map_refs x
      then Done tt (put_maps (<[m := IOMap (map_vaddr x) (map_len x) (map_refs x - 1)]> (w_maps w)) w)
      else Fault UseAfterFree
  | None => Fault BadPointer
  end.

(** ** Bring-up *)

Definition mapBAR0 (d : driver) : M (IOReturn * driver) :=
  barMD ← getDeviceMemory0;
  match barMD with
  | None =>
      IOLog "BAR0 not found" [] ;;
      mret (kIOReturnNoResources, d)
  | Some len =>
      let d := Driver (fPCIDevice d) (fBAR0Map d) (fBAR0 d) (u32 len) (fInitSeg d) (fCmdCtx d) in
      phys ← getPhysicalAddress0;
      IOLog "BAR0" [phys; fBAR0Size d; fBAR0Size d / (1024 * 1024)] ;;
      map ← bar_map len;
      let d := Driver (fPCIDevice d) map (fBAR0 d) (fBAR0Size d) (fInitSeg d) (fCmdCtx d) in
      if map =? NULL then
        IOLog "Failed to map BAR0" [] ;;
        mret (kIOReturnNoResources, d)
      else
        va ← map_getVirtualAddress map;
        mret (kIOReturnSuccess,
              Driver (fPCIDevice d) map va (fBAR0Size d) (va + MLX5_INIT_SEG_OFFSET) (fCmdCtx d))
  end.

Definition readInitSegment (d : driver) : M IOReturn :=
  if fInitSeg d =? NULL then mret kIOReturnNotReady
  else
    v0 ← mmio_read32 (fInitSeg d + 0);
    v1 ← mmio_read32 (fInitSeg d + 4);
    v2 ← mmio_read32 (fInitSeg d + 8);
    v3 ← mmio_read32 (fInitSeg d + 12);
    v4 ← mmio_read32 (fInitSeg d + 16);
    let cmdq_params := OSSwapInt32 v4 in
    let log_size := cmdq_log_size cmdq_params in
    let log_stride := cmdq_log_stride cmdq_params in
    IOLog "HCA FW version" [OSSwapInt32 v0; OSSwapInt32 v1; OSSwapInt32 v2; OSSwapInt32 v3] ;;
    n ← shl_int1 log_size;
    m ← shl_int1 log_stride;
    IOLog "Command queue" [log_size; log_stride; n; m] ;;
    mret kIOReturnSuccess.

(** The polling loop, [n] iterations left. *)
Fixpoint wait_loop (n : nat) (addr : Z) : M IOReturn :=
  match n with
  | O => mret kIOReturnTimeout
  | S n' =>
      v ← mmio_read32 addr;
      let val := OSSwapInt32 v in
      if Z.land val MLX5_ISEG_INITIALIZING_BIT =? 0 then mret kIOReturnSuccess
      else IOSleep 10 ;; wait_loop n' addr
  end.

Definition waitForInitializing (d : driver) : M IOReturn :=
  wait_loop 1000 (fInitSeg d + MLX5_ISEG_INITIALIZING).

Definition initCmdQueue (d : driver) : M IOReturn :=
  mlx5_cmd_init (fCmdCtx d) (fBAR0 d) (fBAR0Size d).

Definition sendEnableHCA (d : driver) : M IOReturn :=
  res ← mlx5_cmd_exec (fCmdCtx d) MLX5_CMD_OP_ENABLE_HCA 0 (Some (buf_zero 16, 0)) 0
          (Some (buf_zero 64)) 64 (Some 0xFF);
  mwhen (io_ok (er_ret res))
    (l ← arr_load (default (buf_zero 64) (er_out res)) 8 2;
     let func_id := OSSwapInt16 (le_combine l) in
     IOLog "ENABLE_HCA" [func_id] ;;
     setProperty "HCAFunctionID" func_id) ;;
  mret (er_ret res).

(** The result and [*pages_needed]. *)
Definition queryPages (d : driver) (type pages_needed : Z) : M (IOReturn * Z) :=
  res ← mlx5_cmd_exec (fCmdCtx d) MLX5_CMD_OP_QUERY_PAGES type None 0
          (Some (buf_zero 16)) 16 (Some 0xFF);
  if io_ok (er_ret res) then
    l ← arr_load (default (buf_zero 16) (er_out res)) 8 2;
    mret (er_ret res, i16 (OSSwapInt16 (le_combine l)))
  else mret (er_ret res, pages_needed).

(** The capability bytes the driver reads: [cap] is [out_buf + 8]. *)
Definition cap_byte (out : buf) (o : Z) : M Z := l ← arr_load out (8 + o) 1; mret (le_combine l).

Definition queryHcaCap (d : driver) : M IOReturn :=
  res ← mlx5_cmd_exec (fCmdCtx d) MLX5_CMD_OP_QUERY_HCA_CAP 0x00 None 0
          (Some (buf_zero 1024)) 1024 (Some 0xFF);
  if negb (io_ok (er_ret res)) then
    IOLog "QUERY_HCA_CAP failed" [default 0xFF (er_status res)] ;;
    mret (er_ret res)
  else
    let out := default (buf_zero 1024) (er_out res) in
    b1 ← cap_byte out 0x61;
    let num_ports := Z.land b1 0x7 in
    b2 ← cap_byte out 0x18;
    let log_max_qp := Z.land b2 0x3F in
    n ← shl_int1 log_max_qp;
    IOLog "HCA Capabilities" [num_ports; log_max_qp; n] ;;
    setProperty "HCANumPorts" num_ports ;;
    setProperty "HCALogMaxQP" log_max_qp ;;
    n ← shl_int1 log_max_qp;
    setProperty "HCAMaxQPs" (u32 n) ;;
    mret kIOReturnSuccess.

Definition initHca (d : driver) : M IOReturn :=
  res ← mlx5_cmd_exec (fCmdCtx d) MLX5_CMD_OP_INIT_HCA 0 (Some (buf_zero 512, 16)) (512 - 16)
          (Some (buf_zero 16)) 16 (Some 0xFF);
  mwhen (io_ok (er_ret res)) (IOLog "INIT_HCA succeeded" []) ;;
  mret (er_ret res).

(** The bring-up sequence after BAR0 is mapped. *)
Definition init_steps (d : driver) : M bool :=
  ret ← readInitSegment d;
  if negb (io_ok ret) then IOLog "readInitSegment failed" [] ;; mret false else
  ret ← waitForInitializing d;
  if negb (io_ok ret) then IOLog "FW boot timeout" [] ;; mret false else
  IOLog "Firmware boot complete" [] ;;
  ret ← initCmdQueue d;
  if negb (io_ok ret) then IOLog "cmd queue init failed" [] ;; mret false else
  IOLog "Command queue initialized" [] ;;
  ret ← sendEnableHCA d;
  if negb (io_ok ret) then IOLog "ENABLE_HCA failed" [] ;; mret false else
  IOLog "ENABLE_HCA succeeded" [] ;;
  r ← queryPages d 1 0;
  let '(ret, boot_pages) := r in
  if negb (io_ok ret) then IOLog "QUERY_PAGES failed" [] ;; mret false else
  IOLog "Firmware needs boot pages" [boot_pages] ;;
  ret ← queryHcaCap d;
  if negb (io_ok ret) then IOLog "QUERY_HCA_CAP failed" [] ;; mret false else
  ret ← initHca d;
  if negb (io_ok ret) then IOLog "INIT_HCA failed" [] ;; mret false else
  IOLog "HCA fully initialized!" [] ;;
  mret true.

Definition initHardware (d : driver) : M (bool * driver) :=
  r ← mapBAR0 d;
  let '(ret, d) := r in
  if negb (io_ok ret) then IOLog "mapBAR0 failed" [] ;; mret (false, d)
  else b ← init_steps d; mret (b, d).

(** ** Teardown *)

Definition freeHardware (d : driver) : M driver :=
  mlx5_cmd_cleanup (fCmdCtx d) ;;
  mwhen (negb (fBAR0Map d =? NULL)) (map_release (fBAR0Map d)) ;;
  mwhen (negb (fPCIDevice d =? NULL)) (obj_release (fPCIDevice d)) ;;
  mret (Driver NULL NULL (fBAR0 d) (fBAR0Size d) (fInitSeg d) (fCmdCtx d)).

Definition stop (d : driver) (provider : ptr) : M driver :=
  IOLog "stop()" [] ;;
  d ← freeHardware d;
  emit EvSuperStop ;;
  mret d.

Definition free (d : driver) : M unit := emit EvSuperFree.

(** ** start() *)

Definition start (d : driver) (provider : ptr) : M (bool * driver) :=
  IOLog "start()" [] ;;
  b ← IOService_start;
  if negb b then IOLog "super::start() failed" [] ;; mret (false, d) else
  pci ← OSDynamicCast_IOPCIDevice provider;
  let d := Driver pci (fBAR0Map d) (fBAR0 d) (fBAR0Size d) (fInitSeg d) (fCmdCtx d) in
  if pci =? NULL then IOLog "provider is not IOPCIDevice" [] ;; mret (false, d) else
  obj_retain pci ;;
  vendorID ← configRead16 kIOPCIConfigVendorID;
  deviceID ← configRead16 kIOPCIConfigDeviceID;
  subVendor ← configRead16 kIOPCIConfigSubSystemVendorID;
  subDevice ← configRead16 kIOPCIConfigSubSystemID;
  revision ← configRead8 kIOPCIConfigRevisionID;
  IOLog ("PCI Device: " ++ chip_name deviceID) [vendorID; deviceID; subVendor; subDevice; revision] ;;
  cmd ← configRead16 kIOPCIConfigCommand;
  configWrite16 kIOPCIConfigCommand
    (Z.lor (Z.lor cmd kIOPCICommandMemorySpace) kIOPCICommandBusMaster) ;;
  r ← initHardware d;
  let '(ok, d) := r in
  if negb ok then
    IOLog "initHardware() failed" [] ;;
    d ← stop d provider;
    mret (false, d)
  else
    setProperty "VerbifrostRDMA" 1 ;;
    emit (EvProperty "RDMAProvider: VerbifrostConnectX" 0) ;;
    setProperty "VendorID" vendorID ;;
    setProperty "DeviceID" deviceID ;;
    emit EvRegisterService ;;
    IOLog "start() ready" [] ;;
    mret (true, d).

End Driver.
