(* ===== verification/DriverSpec.v ===== *)
(** * Specifications of the IOKit service

    What the service holds while it comes up ([held], [channel_up]), the
    specification of each bring-up step, and of teardown; where [start] can
    fault, and why ([start_fault]). *)

From S2P Require Import Prelude Bytes Registers IbVerbs World Wp Cmd CmdSpec CmdInit Driver.

Section DriverSpec.
Context `{P : Platform}.
Implicit Types (w : world) (d : driver).

(** ** What the service holds *)

(** The provider, retained once more than the [k] references it came with, and
    the BAR mapping, if any. *)
Record held (w0 : world) (k : Z) (d : driver) (w : world) : Prop := {
  hd_pci : fPCIDevice d <> NULL;
  hd_refs : w_objs w !! fPCIDevice d = Some (k + 1);
  hd_old : fPCIDevice d < w_next w;
  hd_map : fBAR0Map d = NULL /\ w_maps w = w_maps w0 \/
           fBAR0Map d <> NULL /\
           exists va len, w_maps w = <[fBAR0Map d := IOMap va len 1]> (w_maps w0)
}.

(** The command channel: not set up; up, with its two allocations; or left
    with a dangling ring pointer by a failed initialisation. *)
Definition nothing_new (w0 w : world) : Prop :=
  forall p b, live_buf (w_heap w) p = Some b -> is_Some (w_heap w0 !! p).

Definition channel_off (w0 : world) (ctx : ptr) (w : world) : Prop :=
  nothing_new w0 w /\
  exists c, w_ctx w !! ctx = Some c /\ mbox_md c = NULL /\ cmd_ring_md c = NULL.

Definition channel_dangling (ctx : ptr) (w : world) : Prop :=
  exists c, w_ctx w !! ctx = Some c /\ mbox_md c = NULL /\ cmd_ring_md c <> NULL /\
    dead (w_heap w) (cmd_ring_md c).

Record channel_up (w0 : world) (ctx : ptr) (c : mlx5_cmd_context) (w : world) : Prop := {
  cu_ready : cmd_ready ctx c w;
  cu_ring : cmd_ring_md c = cmd_ring c;
  cu_mbox : mbox_md c = mbox_pool c;
  cu_ring_owned : owned w (cmd_ring c);
  cu_mbox_owned : owned w (mbox_pool c);
  cu_live : forall p b, live_buf (w_heap w) p = Some b ->
    is_Some (w_heap w0 !! p) \/ p = cmd_ring c \/ p = mbox_pool c
}.

(** Everything acquired since [w0] has been given back. *)
Definition released (w0 : world) (provider k : Z) (w : world) : Prop :=
  nothing_new w0 w /\
  (forall p m, w_maps w !! p = Some m -> 0 < map_refs m -> w_maps w0 !! p = Some m) /\
  w_objs w !! provider = Some k.

(** An event, with a change of the platform. *)
Lemma io_frame_event e s w : io_frame [e] w (put_trace (e :: w_trace w) (put_ps s w)).
Proof. exists s, (w_heap w). split; [|done]. by destruct w. Qed.

Lemma io_frame_ps s w : io_frame [] w (put_ps s w).
Proof. exists s, (w_heap w). split; [|done]. by destruct w. Qed.

(** ** These facts survive input and output *)

Lemma io_live_back t w w' p b :
  io_frame t w w' -> live_buf (w_heap w') p = Some b -> exists b', live_buf (w_heap w) p = Some b'.
Proof.
  intros (s & h & -> & Hs) Hl. destruct (heap_shape_live _ _ _ _ Hs Hl) as (b' & ? & _). eauto.
Qed.

Lemma held_io w0 k d t w w' : io_frame t w w' -> held w0 k d w -> held w0 k d w'.
Proof. intros (s & h & -> & _) []. by split. Qed.

Lemma channel_off_io w0 ctx t w w' :
  io_frame t w w' -> channel_off w0 ctx w -> channel_off w0 ctx w'.
Proof.
  intros F [Hn Hc]. split; [|by destruct F as (s & h & -> & _)].
  intros p b Hl. destruct (io_live_back _ _ _ _ _ F Hl) as [b' Hb']. by eapply Hn.
Qed.

Lemma fresh_io t w w' : io_frame t w w' -> fresh_ok w -> fresh_ok w'.
Proof.
  intros (s & h & -> & Hs) [Hpos Hf]. split; [done|]. intros p b Hp. simpl in *.
  destruct (heap_shape_lookup _ _ _ _ Hs Hp) as (b' & Hb' & _). by eapply Hf.
Qed.

Lemma iseg_mapped_io bar0 t w w' : io_frame t w w' -> iseg_mapped bar0 w -> iseg_mapped bar0 w'.
Proof. by intros (s & h & -> & _). Qed.

(** The same for the effect of a command. *)
Lemma owned_shape w w' p :
  heap_shape (w_heap w') = heap_shape (w_heap w) -> owned w p -> owned w' p.
Proof.
  intros Hs [Hp (b & Hb & Hr)]. split; [done|]. symmetry in Hs.
  destruct (heap_shape_blk _ _ _ _ Hs Hb) as (b' & Hb' & _ & Hr'). exists b'. split; [done|congruence].
Qed.

Lemma held_cmd w0 k d ctx c c' t w w' : cmd_frame ctx c c' t w w' -> held w0 k d w -> held w0 k d w'.
Proof. intros (_ & _ & s & h & ->) []. by split. Qed.

(** ** Running a command on the channel *)

Lemma channel_up_io w0 ctx c t w w' :
  io_frame t w w' -> channel_up w0 ctx c w -> channel_up w0 ctx c w'.
Proof.
  intros F [Hr ? ? Ho1 Ho2 Hl]. pose proof (io_frame_live t w w') as Hlive.
  destruct Hr as [Hc (r & Hrr & ?) (m & Hm & ?) ? ?].
  destruct (Hlive _ _ F Hrr) as (r' & ? & ?). destruct (Hlive _ _ F Hm) as (m' & ? & ?).
  split; try done.
  - destruct F as (s & h & -> & _). split; [done| | |done|done]; eauto with lia.
  - eapply owned_shape; [|done]. by destruct F as (s & h & -> & ?).
  - eapply owned_shape; [|done]. by destruct F as (s & h & -> & ?).
  - intros p b Hb. destruct (io_live_back _ _ _ _ _ F Hb) as [b' Hb']. by eapply Hl.
Qed.

Definition up (w0 : world) (k : Z) (d : driver) (w : world) : Prop :=
  held w0 k d w /\ exists c, channel_up w0 (fCmdCtx d) c w.

Lemma up_io w0 k d t w w' : io_frame t w w' -> up w0 k d w -> up w0 k d w'.
Proof.
  intros F [Hh [c Hc]]. split; [by eapply held_io|]. exists c. by eapply channel_up_io.
Qed.

(** A command keeps the channel up. *)
Lemma up_reply w0 k d c out out_len res o w w' :
  held w0 k d w -> channel_up w0 (fCmdCtx d) c w ->
  exec_reply (fCmdCtx d) c out out_len w res o w' -> up w0 k d w'.
Proof.
  intros Hh [Hr Hring Hmbox Ho1 Ho2 Hl] [_ _ _ _ (c' & t & F & Hr') _ Hsame].
  destruct (Hsame c' (cr_ctx _ _ _ Hr')) as (E1 & E2 & E3 & E4).
  split; [by eapply held_cmd|]. exists c'.
  destruct (cmd_frame_rest _ _ _ _ _ _ F) as (_ & _ & _ & _ & _ & _ & _ & _ & _ & Hs).
  split; [done|congruence|congruence| | |]; rewrite ?E1, ?E2.
  - by eapply owned_shape.
  - by eapply owned_shape.
  - intros p b Hb. destruct (heap_shape_live _ _ _ _ Hs Hb) as (b' & Hb' & _). by eapply Hl.
Qed.

Lemma up_exec w0 k d w opcode op_mod in_data in_len out out_len status Q :
  up w0 k d w -> 0 <= in_len -> input_ok in_data in_len -> output_ok (Some out) out_len ->
  (forall res o w', up w0 k d w' -> er_out res = Some o -> buf_size o = buf_size out -> Q res w') ->
  wp (mlx5_cmd_exec (fCmdCtx d) opcode op_mod in_data in_len (Some out) out_len status) Q w.
Proof.
  intros [Hh [c Hc]] ??? HQ. eapply exec_service; [by apply Hc|done..|].
  intros res o w' R. apply (HQ res o); [by eapply up_reply|apply R..].
Qed.

Lemma up_emit w0 k d e Q w :
  up w0 k d w -> (forall w', up w0 k d w' -> Q tt w') -> wp (emit e) Q w.
Proof. intros Hu HQ. apply wp_emit, HQ. by eapply up_io; [apply io_frame_emit|]. Qed.

(** ** Waiting for the firmware *)

(** The values read from a register in a piece of trace, newest first. *)
Fixpoint reads_of (addr : Z) (t : list event) : list Z :=
  match t with
  | EvMmioRead a v :: t' => if a =? addr then v :: reads_of addr t' else reads_of addr t'
  | _ :: t' => reads_of addr t'
  | [] => []
  end.

Lemma reads_of_app addr t1 t2 : reads_of addr (t1 ++ t2) = reads_of addr t1 ++ reads_of addr t2.
Proof. induction t1 as [|[] t1 IH]; simpl; try done. case_match; simpl; by rewrite IH. Qed.

(** The firmware says it is still initialising. *)
Definition booting (v : Z) : bool := negb (Z.land (OSSwapInt32 v) MLX5_ISEG_INITIALIZING_BIT =? 0).

Lemma wait_loop_spec n addr w :
  mmio_mapped (w_maps w) addr 4 = true ->
  wp (wait_loop n addr) (fun r w' => exists t, io_frame t w w' /\
    (r = kIOReturnSuccess /\ slept t < 10 * Z.of_nat n /\
       (exists v vs, reads_of addr t = v :: vs /\ booting v = false /\
          Forall (fun v => booting v = true) vs) \/
     r = kIOReturnTimeout /\ slept t = 10 * Z.of_nat n /\ length (reads_of addr t) = n /\
       Forall (fun v => booting v = true) (reads_of addr t))) w.
Proof.
  intros Hm. revert w Hm; induction n as [|n IH]; intros w Hm; simpl wait_loop.
  { apply wp_ret. exists []. split; [apply io_frame_refl|]. right. by repeat (split; [done|]). }
  apply wp_bind, wp_mmio_read32; [done|]. cbv zeta. set (v := u32 _). set (w1 := put_trace _ _).
  assert (F1 : io_frame [EvMmioRead addr v] w w1).
  { apply io_frame_event. }
  destruct (Z.land (OSSwapInt32 v) MLX5_ISEG_INITIALIZING_BIT =? 0) eqn:Ev.
  - apply wp_ret. exists [EvMmioRead addr v]. split; [done|]. left. split; [done|].
    split; [simpl; lia|]. exists v, []. simpl. rewrite Z.eqb_refl. split; [done|].
    unfold booting. by rewrite Ev.
  - apply wp_bind, wp_sleep. set (w2 := device_run _).
    assert (F2 : io_frame [EvSleep 10] w1 w2)
      by (apply (io_frame_emit_l _ []), io_frame_device_run).
    eapply wp_mono; [apply IH; destruct F1 as (? & ? & Hw1 & _); destruct F2 as (? & ? & -> & _);
      rewrite Hw1; exact Hm|].
    intros r w3 (t & F3 & H). exists (t ++ [EvSleep 10] ++ [EvMmioRead addr v]).
    split; [eapply io_frame_trans, F3; by eapply (io_frame_trans [EvMmioRead addr v] [EvSleep 10])|].
    rewrite !slept_app, !reads_of_app. simpl. rewrite Z.eqb_refl.
    assert (Hb : booting v = true) by (unfold booting; by rewrite Ev).
    destruct H as [(-> & Hs & v' & vs & -> & Hv & Hvs)|(-> & Hs & Hl & Hall)]; [left|right].
    + split; [done|]. split; [lia|]. exists v', (vs ++ [v]). split; [done|]. split; [done|].
      apply Forall_app. by repeat constructor.
    + split; [done|]. split; [lia|]. split; [rewrite length_app, Hl; simpl; lia|].
      apply Forall_app. by repeat constructor.
Qed.

(** ** The firmware commands of the bring-up *)

Lemma enable_hca_spec w0 k d w :
  up w0 k d w -> wp (sendEnableHCA d) (fun _ w' => up w0 k d w') w.
Proof.
  intros Hu. apply wp_bind. apply (up_exec w0 k d); [done|lia|by simpl|by simpl|].
  intros res o w1 Hu1 Ho Hs. rewrite Ho. cbn [from_option id]. apply wp_bind. unfold mwhen.
  destruct (io_ok (er_ret res)); [|by apply wp_ret, wp_ret].
  apply wp_bind, wp_arr_load; [lia|rewrite Hs; simpl; lia|]. apply wp_bind.
  apply (up_emit w0 k d); [done|]. intros w2 Hu2. apply (up_emit w0 k d); [done|]. by intros.
Qed.

Lemma query_pages_spec w0 k d type n w :
  up w0 k d w -> wp (queryPages d type n) (fun _ w' => up w0 k d w') w.
Proof.
  intros Hu. apply wp_bind. apply (up_exec w0 k d); [done|lia|by simpl|by simpl|].
  intros res o w1 Hu1 Ho Hs. rewrite Ho. cbn [from_option id].
  destruct (io_ok (er_ret res)); [|by apply wp_ret].
  apply wp_bind, wp_arr_load; [lia|rewrite Hs; simpl; lia|]. by apply wp_ret.
Qed.

Lemma init_hca_spec w0 k d w :
  up w0 k d w -> wp (initHca d) (fun _ w' => up w0 k d w') w.
Proof.
  intros Hu. apply wp_bind. apply (up_exec w0 k d); [done|lia|by simpl|by simpl|].
  intros res o w1 Hu1 Ho Hs. apply wp_bind. unfold mwhen.
  destruct (io_ok (er_ret res)); [|by apply wp_ret, wp_ret].
  apply (up_emit w0 k d); [done|]. by intros.
Qed.

(** The reply to QUERY_HCA_CAP is a success whose exponent, as the driver reads
    it, is 32 or more. *)
Definition caps_overflow (d : driver) (w : world) : Prop :=
  exists res w' o, mlx5_cmd_exec (fCmdCtx d) MLX5_CMD_OP_QUERY_HCA_CAP 0x00 None 0
      (Some (buf_zero 1024)) 1024 (Some 0xFF) w = Done res w' /\
    er_ret res = kIOReturnSuccess /\ er_out res = Some o /\ buf_size o = 1024 /\
    32 <= Z.land (buf_get o (8 + 0x18)) 0x3F.

Lemma cap_byte_done o i w :
  0 <= 8 + i < buf_size o -> cap_byte o i w = Done (buf_get o (8 + i)) w.
Proof.
  intros Hi. unfold cap_byte, arr_load. rewrite (proj2 (in_bounds_spec _ _ _)) by lia.
  cbv [mbind M_bind mret M_ret]. f_equal. unfold buf_bytes. simpl. rewrite !Z.add_0_r. lia.
Qed.

Lemma hca_cap_spec w0 k d w :
  up w0 k d w -> wpf (fun f => f = BadShift /\ caps_overflow d w) (queryHcaCap d)
    (fun _ w' => up w0 k d w') w.
Proof.
  intros Hu. apply wpf_seq. eapply wp_mono.
  { apply wp_eqn, (up_exec w0 k d) with (Q := fun res w' => up w0 k d w' /\
      exists o, er_out res = Some o /\ buf_size o = 1024); [done|lia|by simpl|by simpl|].
    intros res o w1 H1 H2 H3. eauto. }
  intros res w1 (E & Hu1 & o & Ho & Hs). rewrite Ho. cbn [from_option id].
  destruct (io_ok (er_ret res)) eqn:Er; cbn [negb]; last first.
  { apply wpf_seq, (up_emit w0 k d); [done|]. intros w2 Hu2. by apply wpf_wp, wp_ret. }
  apply io_ok_true in Er.
  apply wpf_seq. eapply wp_done; [by apply cap_byte_done; lia|].
  apply wpf_seq. eapply wp_done; [by apply cap_byte_done; lia|]. cbv zeta.
  assert (Hov : 32 <= Z.land (buf_get o (8 + 0x18)) 0x3F -> caps_overflow d w)
    by (intros; by exists res, w1, o).
  set (q := Z.land _ 0x3F) in *.
  assert (Hq : 0 <= q) by (apply Z.land_nonneg; right; done).
  destruct (decide (q < 32)) as [Hq32|Hq32]; last first.
  { eapply wpf_fault; [apply bind_fault; unfold shl_int1;
      by rewrite (proj2 (Z.ltb_ge q 32)), andb_false_r by lia|]. split; [done|apply Hov; lia]. }
  apply wpf_seq, wp_shl_int1; [done|].
  apply wpf_seq, (up_emit w0 k d); [done|]. intros w2 Hu2.
  apply wpf_seq, (up_emit w0 k d); [done|]. intros w3 Hu3.
  apply wpf_seq, (up_emit w0 k d); [done|]. intros w4 Hu4.
  apply wpf_seq, wp_shl_int1; [done|]. apply wpf_seq, (up_emit w0 k d); [done|]. intros w5 Hu5.
  by apply wpf_wp, wp_ret.
Qed.

(** ** Before the channel is up *)

(** The BAR is mapped and the context is clean; no DMA memory was allocated. *)
Record coming (w0 : world) (k : Z) (d : driver) (w : world) : Prop := {
  cm_held : held w0 k d w;
  cm_heap : forall p, is_Some (w_heap w !! p) -> is_Some (w_heap w0 !! p);
  cm_ctx : exists c, w_ctx w !! fCmdCtx d = Some c /\ mbox_md c = NULL /\ cmd_ring_md c = NULL;
  cm_fresh : fresh_ok w;
  cm_iseg : iseg_mapped (fBAR0 d) w;
  cm_seg : fInitSeg d = fBAR0 d + MLX5_INIT_SEG_OFFSET
}.

(** The card never announces a ring of half an entry. *)
Definition card_geometry (bar0 : ptr) : Prop :=
  forall s, ~ geometry_short (OSSwapInt32 (u32 (p_mmio_read s
    (bar0 + MLX5_INIT_SEG_OFFSET + MLX5_ISEG_CMDQ_PARAMS)).2)).

Lemma coming_io w0 k d t w w' : io_frame t w w' -> coming w0 k d w -> coming w0 k d w'.
Proof.
  intros F [Hh Hd Hc Hf Hm Hs]. split; [by eapply held_io| | |by eapply fresh_io|by eapply iseg_mapped_io|done].
  - destruct F as (s & h & -> & Hsh). intros p [b Hb]. apply Hd. simpl in Hb.
    destruct (heap_shape_lookup _ _ _ _ Hsh Hb) as (b' & ? & _). by exists b'.
  - by destruct F as (s & h & -> & _).
Qed.

Lemma coming_emit w0 k d e Q w :
  coming w0 k d w -> (forall w', coming w0 k d w' -> Q tt w') -> wp (emit e) Q w.
Proof. intros Hu HQ. apply wp_emit, HQ. by eapply coming_io; [apply io_frame_emit|]. Qed.

Lemma coming_off w0 k d w : coming w0 k d w -> channel_off w0 (fCmdCtx d) w.
Proof.
  intros []. split; [|done]. intros p b (x & Hx & _)%live_buf_lookup. by eauto.
Qed.

Lemma coming_read w0 k d o Q w :
  coming w0 k d w -> 0 <= o <= MLX5_ISEG_INITIALIZING ->
  (forall v w', coming w0 k d w' -> Q v w') -> wp (mmio_read32 (fInitSeg d + o)) Q w.
Proof.
  intros Hc Ho HQ. apply wp_mmio_read32; [rewrite (cm_seg _ _ _ _ Hc); by apply Hc|].
  cbv zeta. apply HQ. eapply coming_io; [apply io_frame_event|done].
Qed.

Lemma read_init_segment_spec w0 k d w :
  coming w0 k d w -> wp (readInitSegment d) (fun _ w' => coming w0 k d w') w.
Proof.
  intros Hc. unfold readInitSegment. destruct (fInitSeg d =? NULL); [by apply wp_ret|].
  apply wp_bind, (coming_read w0 k d); [done|by vm_compute|]. intros v0 w1 H1.
  apply wp_bind, (coming_read w0 k d); [done|by vm_compute|]. intros v1 w2 H2.
  apply wp_bind, (coming_read w0 k d); [done|by vm_compute|]. intros v2 w3 H3.
  apply wp_bind, (coming_read w0 k d); [done|by vm_compute|]. intros v3 w4 H4.
  apply wp_bind, (coming_read w0 k d); [done|by vm_compute|]. intros v4 w5 H5. cbv zeta.
  apply wp_bind, (coming_emit w0 k d); [done|]. intros w6 H6.
  apply wp_bind, wp_shl_int1; [apply cmdq_log_size_range|].
  apply wp_bind, wp_shl_int1; [apply cmdq_log_stride_range|].
  apply wp_bind, (coming_emit w0 k d); [done|]. intros w7 H7. by apply wp_ret.
Qed.

Lemma wait_spec w0 k d w :
  coming w0 k d w -> wp (waitForInitializing d) (fun _ w' => coming w0 k d w') w.
Proof.
  intros Hc. eapply wp_mono; [apply wait_loop_spec; rewrite (cm_seg _ _ _ _ Hc); by apply Hc|].
  intros r w' (t & F & _). by eapply coming_io.
Qed.

(** ** Setting the channel up *)

Lemma held_init w0 k d ctx w w' : init_frame ctx w w' -> held w0 k d w -> held w0 k d w'.
Proof.
  intros (Hn & Ho & s & h & n & o & c & t & ->) [H1 H2 H3 H4]. simpl in *. split; simpl; try done; [|lia].
  destruct (Ho (fPCIDevice d)) as [-> | [? _]]; [done|lia].
Qed.

Lemma init_done_up w0 k d w w' :
  coming w0 k d w -> init_done (fCmdCtx d) (fBAR0 d) w w' ->
  exists c, channel_up w0 (fCmdCtx d) c w'.
Proof.
  intros Hc (c & ring & mbox & Hr & (_ & _ & _ & <- & Erm & <- & Emm & _) & (b1 & Hb1 & Hr1 & _)
    & (b2 & Hb2 & Hr2 & _) & Hlr & Hlm & Honly).
  pose proof (proj1 (cm_fresh _ _ _ _ Hc)) as Hpos. exists c.
  split; [done|done|done| | |].
  - split; [unfold NULL; lia|eauto].
  - split; [unfold NULL; lia|eauto].
  - intros p b Hl. destruct (Honly p b Hl) as [|]; [|by right]. left. by eapply cm_heap.
Qed.

(** After [mlx5_cmd_init]: up, untouched, or dangling. *)
Definition after_init (w0 : world) (k : Z) (d : driver) (r : IOReturn) (w : world) : Prop :=
  held w0 k d w /\
  match r with
  | kIOReturnSuccess => exists c, channel_up w0 (fCmdCtx d) c w
  | _ => channel_off w0 (fCmdCtx d) w \/ channel_dangling (fCmdCtx d) w
  end.

Lemma failed_channel w0 k d w w' r :
  coming w0 k d w -> init_failed (fCmdCtx d) w w' r ->
  channel_off w0 (fCmdCtx d) w' \/ channel_dangling (fCmdCtx d) w'.
Proof.
  intros Hc [Hn (c & Hcc & Hm & Hcases)].
  assert (Hnew : nothing_new w0 w') by (intros p b Hl%Hn; by eapply cm_heap).
  destruct Hcases as [[? _]|[? ?]]; [left; split; [done|eauto]|right; exists c; eauto].
Qed.

Lemma init_cmd_queue_spec w0 k d w :
  coming w0 k d w -> card_geometry (fBAR0 d) ->
  wpf (fun f => f = OutOfBounds /\ geometry_bad (cmdq_params_of (fBAR0 d) w) /\
                init_leaves_ring (fCmdCtx d) (fBAR0 d) (fBAR0Size d) w)
    (initCmdQueue d) (after_init w0 k d) w.
Proof.
  intros Hc Hg. destruct (cm_ctx _ _ _ _ Hc) as (c0 & Hc0 & _).
  destruct (geometry_cases (cmdq_params_of (fBAR0 d) w)) as [Hok|[Hbad|Hs]]; last by destruct (Hg _ Hs).
  - apply wpf_wp. eapply wp_mono; [apply (init_spec _ c0); [done|apply Hc|apply Hc|done]|].
    intros r w' [G H]. split; [eapply held_init; [done|apply Hc]|].
    destruct r; [by eapply init_done_up|by eapply failed_channel..].
  - eapply wpf_mono; [apply (init_bad_spec _ c0); [done|apply Hc|apply Hc|done]|by intros f [-> ?]|].
    intros r w' (G & Hr & H). split; [eapply held_init; [done|apply Hc]|].
    pose proof (failed_channel w0 k d w w' r Hc H). by destruct r.
Qed.

(** ** The bring-up sequence

    [init_steps], cut where it calls what may fault. *)

(** Two functions that make the same calls, differently bracketed. *)
Ltac solve_split :=
  repeat first
    [reflexivity
    |rewrite bind_assoc
    |rewrite bind_ret; cbv beta iota
    |apply bind_ext; intros ? ?
    |match goal with
     | |- context [(if ?b then _ else _) _ = _] => destruct b
     | |- context [((if ?b then _ else _) ≫= _) _] => destruct b
     | |- context [match ?x with pair _ _ => _ end] => destruct x
     end].

(** Up to [initCmdQueue]; false if it does not get there. *)
Definition reach_cmd_init (d : driver) : M bool :=
  ret ← readInitSegment d;
  if negb (io_ok ret) then IOLog "readInitSegment failed" [] ;; mret false else
  ret ← waitForInitializing d;
  if negb (io_ok ret) then IOLog "FW boot timeout" [] ;; mret false else
  IOLog "Firmware boot complete" [] ;;
  mret true.

(** From there up to [queryHcaCap]. *)
Definition reach_caps (d : driver) : M bool :=
  IOLog "Command queue initialized" [] ;;
  ret ← sendEnableHCA d;
  if negb (io_ok ret) then IOLog "ENABLE_HCA failed" [] ;; mret false else
  IOLog "ENABLE_HCA succeeded" [] ;;
  r ← queryPages d 1 0;
  let '(ret, boot_pages) := r in
  if negb (io_ok ret) then IOLog "QUERY_PAGES failed" [] ;; mret false else
  IOLog "Firmware needs boot pages" [boot_pages] ;;
  mret true.

Definition after_caps (d : driver) (ret : IOReturn) : M bool :=
  if negb (io_ok ret) then IOLog "QUERY_HCA_CAP failed" [] ;; mret false else
  ret ← initHca d;
  if negb (io_ok ret) then IOLog "INIT_HCA failed" [] ;; mret false else
  IOLog "HCA fully initialized!" [] ;;
  mret true.

Definition after_cmd_init (d : driver) (ret : IOReturn) : M bool :=
  if negb (io_ok ret) then IOLog "cmd queue init failed" [] ;; mret false else
  b ← reach_caps d;
  if (b : bool) then ret ← queryHcaCap d; after_caps d ret else mret false.

Definition init_steps_cut (d : driver) : M bool :=
  b ← reach_cmd_init d;
  if (b : bool) then ret ← initCmdQueue d; after_cmd_init d ret else mret false.

Lemma init_steps_split d w : init_steps d w = init_steps_cut d w.
Proof.
  unfold init_steps, init_steps_cut, reach_cmd_init, after_cmd_init, reach_caps, after_caps. solve_split.
Qed.

(** The faults of [init_steps], with the point of the run and the cause:
    [mlx5_cmd_init] leaves the ring because of the geometry, or [queryHcaCap]
    shifts by the exponent of its reply. *)
Definition steps_fault (d : driver) (w : world) (f : fault) : Prop :=
  exists w1, reach_cmd_init d w = Done true w1 /\
    (f = OutOfBounds /\ geometry_bad (cmdq_params_of (fBAR0 d) w1) /\
       init_leaves_ring (fCmdCtx d) (fBAR0 d) (fBAR0Size d) w1 \/
     f = BadShift /\ exists w2 w3, initCmdQueue d w1 = Done kIOReturnSuccess w2 /\
       reach_caps d w2 = Done true w3 /\ caps_overflow d w3).

(** It gives up because [mlx5_cmd_init] failed and left the ring dangling. *)
Definition init_dangles (d : driver) (w : world) : Prop :=
  exists w1 r w2, reach_cmd_init d w = Done true w1 /\ initCmdQueue d w1 = Done r w2 /\
    r <> kIOReturnSuccess /\ channel_dangling (fCmdCtx d) w2.

(** Where [init_steps] can leave the channel; [D] is what is known when the ring
    dangles. *)
Definition channel_any (w0 : world) (ctx : ptr) (D : Prop) (w : world) : Prop :=
  (exists c, channel_up w0 ctx c w) \/ channel_off w0 ctx w \/ channel_dangling ctx w /\ D.

Definition steps_post (w0 : world) (k : Z) (d : driver) (D : Prop) (b : bool) (w : world) : Prop :=
  held w0 k d w /\
  if b then exists c, channel_up w0 (fCmdCtx d) c w else channel_any w0 (fCmdCtx d) D w.

Lemma channel_any_log w0 ctx D e w :
  channel_any w0 ctx D w -> channel_any w0 ctx D (put_trace (e :: w_trace w) w).
Proof.
  pose proof (io_frame_emit e w) as F. intros [[c Hc]|[?|?]]; [left; exists c|right; left|by right; right].
  - by eapply channel_up_io.
  - by eapply channel_off_io.
Qed.

Lemma steps_fail w0 k d D tag w :
  held w0 k d w -> channel_any w0 (fCmdCtx d) D w ->
  wp (IOLog tag [] ;; mret false) (steps_post w0 k d D) w.
Proof.
  intros Hh Hc. apply wp_bind, wp_log, wp_ret. split; [|by apply channel_any_log].
  eapply held_io; [apply io_frame_emit|done].
Qed.

Lemma up_fail w0 k d D tag w :
  up w0 k d w -> wp (IOLog tag [] ;; mret false) (steps_post w0 k d D) w.
Proof. intros [Hh Hc]. apply steps_fail; [done|]. by left. Qed.

Lemma reach_cmd_init_spec w0 k d w :
  coming w0 k d w -> wp (reach_cmd_init d) (fun _ w' => coming w0 k d w') w.
Proof.
  intros Hc. unfold reach_cmd_init.
  assert (Hfail : forall tag (b : bool) w', coming w0 k d w' ->
    wp (IOLog tag [] ;; mret b) (fun _ w' => coming w0 k d w') w').
  { intros tag b w' H. apply wp_bind, (coming_emit w0 k d); [done|]. intros w1 H1. by apply wp_ret. }
  apply wp_bind. eapply wp_mono; [by apply (read_init_segment_spec w0 k)|]. intros r1 w1 H1.
  destruct (io_ok r1); cbn [negb]; [|by apply Hfail].
  apply wp_bind. eapply wp_mono; [by apply (wait_spec w0 k)|]. intros r2 w2 H2.
  destruct (io_ok r2); cbn [negb]; by apply Hfail.
Qed.

Lemma reach_caps_spec w0 k d w :
  up w0 k d w -> wp (reach_caps d) (fun _ w' => up w0 k d w') w.
Proof.
  intros Hu. unfold reach_caps.
  assert (Hend : forall tag args (b : bool) w', up w0 k d w' ->
    wp (IOLog tag args ;; mret b) (fun _ w' => up w0 k d w') w').
  { intros tag args b w' H. apply wp_bind, (up_emit w0 k d); [done|]. intros w1 H1. by apply wp_ret. }
  apply wp_bind, (up_emit w0 k d); [done|]. intros w5 H5.
  apply wp_bind. eapply wp_mono; [by apply (enable_hca_spec w0 k)|]. intros r6 w6 H6.
  destruct (io_ok r6); cbn [negb]; [|by apply Hend].
  apply wp_bind, (up_emit w0 k d); [done|]. intros w7 H7.
  apply wp_bind. eapply wp_mono; [by apply (query_pages_spec w0 k)|]. intros [r8 n] w8 H8.
  destruct (io_ok r8); cbn [negb]; by apply Hend.
Qed.

Lemma after_caps_spec w0 k d D r w :
  up w0 k d w -> wp (after_caps d r) (steps_post w0 k d D) w.
Proof.
  intros Hu. unfold after_caps. destruct (io_ok r); cbn [negb]; [|by apply up_fail].
  apply wp_bind. eapply wp_mono; [by apply (init_hca_spec w0 k)|]. intros r11 w11 H11.
  destruct (io_ok r11); cbn [negb]; [|by apply up_fail].
  apply wp_bind, (up_emit w0 k d); [done|]. intros w12 [Hh12 H12]. by apply wp_ret.
Qed.

Lemma init_steps_spec w0 k d w :
  coming w0 k d w -> card_geometry (fBAR0 d) ->
  wpf (steps_fault d w) (init_steps d) (steps_post w0 k d (init_dangles d w)) w.
Proof.
  intros Hc Hg. unfold wpf. rewrite init_steps_split. unfold init_steps_cut. apply wpf_seq.
  eapply wp_mono; [by apply wp_eqn, (reach_cmd_init_spec w0 k)|]. intros b w1 [E1 H1].
  destruct b; [|apply wpf_wp, wp_ret; split; [apply H1|]; right; left; by eapply coming_off].
  apply wpf_bind. pose proof (init_cmd_queue_spec w0 k d w1 H1 Hg) as Hq. unfold wpf in Hq |- *.
  destruct (initCmdQueue d w1) as [r w2|f] eqn:E2; last first.
  { destruct Hq as [-> [Hb Hl]]. exists w1. split; [done|]. by left. }
  destruct Hq as [Hh2 H2]. unfold after_cmd_init.
  destruct (io_ok r) eqn:Er; cbn [negb]; last first.
  { apply wpf_wp, steps_fail; [done|]. right.
    assert (Hr : r <> kIOReturnSuccess) by (by intros ->).
    assert (Hd : channel_off w0 (fCmdCtx d) w2 \/ channel_dangling (fCmdCtx d) w2) by (by destruct r).
    destruct Hd as [Hd|Hd]; [by left|right]. split; [done|]. by exists w1, r, w2. }
  apply io_ok_true in Er as ->. apply wpf_seq.
  eapply wp_mono; [apply wp_eqn, (reach_caps_spec w0 k); by split|]. intros b w3 [E3 H3].
  destruct b; [|apply wpf_wp, wp_ret; split; [apply H3|left; apply H3]].
  apply wpf_bind. eapply wpf_mono; [by apply (hca_cap_spec w0 k)| |].
  - intros f [-> Ho]. exists w1. split; [done|]. right. split; [done|]. by exists w2, w3.
  - intros r4 w4 H4. by apply wpf_wp, after_caps_spec.
Qed.

(** Conversely, from each cause the fault follows. *)
Lemma caps_overflow_faults d w : caps_overflow d w -> queryHcaCap d w = Fault BadShift.
Proof.
  intros (res & w' & o & E & Er & Ho & Hs & Hq). unfold queryHcaCap. rewrite (bind_done _ _ _ _ _ E).
  rewrite Er, Ho. cbn [io_ok negb from_option id].
  rewrite (bind_done _ _ _ _ _ (cap_byte_done o 0x61 w' ltac:(lia))).
  rewrite (bind_done _ _ _ _ _ (cap_byte_done o 0x18 w' ltac:(lia))). apply bind_fault.
  unfold shl_int1. by rewrite (proj2 (Z.ltb_ge _ 32)), andb_false_r by lia.
Qed.

Lemma steps_fault_faults d w f : steps_fault d w f -> init_steps d w = Fault f.
Proof.
  intros (w1 & E1 & [(-> & _ & E2)|(-> & w2 & w3 & E2 & E3 & Ho)]);
    rewrite init_steps_split; unfold init_steps_cut; rewrite (bind_done _ _ _ _ _ E1);
    [by apply bind_fault, init_leaves_ring_faults|].
  rewrite (bind_done _ _ _ _ _ E2). unfold after_cmd_init. cbn [io_ok negb].
  rewrite (bind_done _ _ _ _ _ E3). by apply bind_fault, caps_overflow_faults.
Qed.

(** ** Teardown *)

Lemma wp_map_release m va len Q w :
  w_maps w !! m = Some (IOMap va len 1) ->
  Q tt (put_maps (<[m := IOMap va len 0]> (w_maps w)) w) -> wp (map_release m) Q w.
Proof. intros H. unfold wp, map_release. by rewrite H. Qed.

(** What [freeHardware] does after [mlx5_cmd_cleanup]. *)
Lemma free_rest w0 k d w :
  held w0 k d w -> nothing_new w0 w -> 0 <= k ->
  wp (mwhen (negb (fBAR0Map d =? NULL)) (map_release (fBAR0Map d)) ;;
      mwhen (negb (fPCIDevice d =? NULL)) (obj_release (fPCIDevice d)) ;;
      mret (Driver NULL NULL (fBAR0 d) (fBAR0Size d) (fInitSeg d) (fCmdCtx d)))
    (fun d' w' => d' = Driver NULL NULL (fBAR0 d) (fBAR0Size d) (fInitSeg d) (fCmdCtx d) /\
       released w0 (fPCIDevice d) k w' /\ w_ctx w' = w_ctx w) w.
Proof.
  intros [Hp Hr _ Hm] Hn Hk.
  rewrite (proj2 (Z.eqb_neq _ NULL) Hp). cbn [negb]. unfold mwhen.
  destruct Hm as [[-> Hm]|[Hmn (va & len & Hm)]].
  - change (NULL =? NULL) with true. cbn [negb]. apply wp_bind, wp_ret, wp_bind.
    apply (wp_obj_release _ (k + 1)); [done|lia|]. apply wp_ret. split; [done|]. split; [|done].
    split; [done|]. split; [simpl; rewrite Hm; by intros|]. simpl. rewrite lookup_insert_eq. f_equal. lia.
  - rewrite (proj2 (Z.eqb_neq _ NULL) Hmn). cbn [negb]. apply wp_bind.
    apply (wp_map_release _ va len); [rewrite Hm; apply lookup_insert_eq|]. apply wp_bind.
    apply (wp_obj_release _ (k + 1)); [done|lia|]. apply wp_ret. split; [done|]. split; [|done].
    split; [done|]. split; [|simpl; rewrite lookup_insert_eq; f_equal; lia].
    simpl. rewrite Hm, insert_insert_eq. intros p m. destruct (decide (p = fBAR0Map d)) as [->|].
    + rewrite lookup_insert_eq. intros [= <-]. simpl. lia.
    + by rewrite lookup_insert_ne.
Qed.

Lemma up_cleanup w0 ctx c w :
  channel_up w0 ctx c w ->
  wp (mlx5_cmd_cleanup ctx) (fun _ w' => nothing_new w0 w' /\ w_ctx w' !! ctx = Some (cleaned c) /\
    w_objs w' = w_objs w /\ w_maps w' = w_maps w /\ w_next w' = w_next w) w.
Proof.
  intros [Hr E1 E2 [N1 (b1 & Hb1 & R1)] [N2 (b2 & Hb2 & R2)] Hl].
  pose proof (cr_ne _ _ _ Hr) as Hne.
  eapply wp_mono; [apply (cleanup_spec ctx c b1 b2); rewrite ?E1, ?E2;
    first [done|by apply not_eq_sym|lia|apply Hr]|].
  intros _ w' ->. split; [|split; [apply lookup_insert_eq|done]].
  rewrite E1, E2. intros p b. cbn [w_heap put_trace put_ctx put_heap]. intros Hp.
  destruct (decide (p = cmd_ring c)) as [->|]; [rewrite live_buf_insert_eq in Hp; simpl in Hp; by rewrite R1 in Hp|].
  rewrite live_buf_insert_ne in Hp by done.
  destruct (decide (p = mbox_pool c)) as [->|]; [rewrite live_buf_insert_eq in Hp; simpl in Hp; by rewrite R2 in Hp|].
  rewrite live_buf_insert_ne in Hp by done. by destruct (Hl p b Hp) as [|[|]].
Qed.

Lemma off_cleanup w0 ctx w :
  channel_off w0 ctx w ->
  wp (mlx5_cmd_cleanup ctx) (fun _ w' => (nothing_new w0 w' /\ w_ctx w' = w_ctx w) /\
    w_objs w' = w_objs w /\ w_maps w' = w_maps w /\ w_next w' = w_next w) w.
Proof.
  intros [Hn (c & Hc & H1 & H2)]. eapply wp_mono; [by apply (cleanup_clean ctx c)|].
  by intros _ w' ->.
Qed.

(** The members after [freeHardware]. *)
Definition torn (d : driver) : driver :=
  Driver NULL NULL (fBAR0 d) (fBAR0Size d) (fInitSeg d) (fCmdCtx d).

Definition freed (w0 : world) (k : Z) (d d' : driver) (w : world) : Prop :=
  d' = torn d /\ released w0 (fPCIDevice d) k w /\
  exists c, w_ctx w !! fCmdCtx d = Some c /\ mbox_md c = NULL /\ cmd_ring_md c = NULL.

Lemma held_eq w0 k d w w' :
  w_objs w' = w_objs w -> w_maps w' = w_maps w -> w_next w' = w_next w ->
  held w0 k d w -> held w0 k d w'.
Proof. intros E1 E2 E3 []. split; rewrite ?E1, ?E2, ?E3; done. Qed.

Lemma free_spec w0 k d w :
  held w0 k d w -> (exists c, channel_up w0 (fCmdCtx d) c w) \/ channel_off w0 (fCmdCtx d) w ->
  0 <= k -> wp (freeHardware d) (freed w0 k d) w.
Proof.
  intros Hh Hc Hk. apply wp_bind. eapply wp_mono with (Q1 := fun _ w' => held w0 k d w' /\
    nothing_new w0 w' /\ exists c, w_ctx w' !! fCmdCtx d = Some c /\ mbox_md c = NULL /\
      cmd_ring_md c = NULL).
  - destruct Hc as [[c Hc]|Hc].
    + eapply wp_mono; [by eapply up_cleanup|]. intros _ w' (Hn & Hc' & E1 & E2 & E3).
      split; [by apply (held_eq w0 k d w)|]. split; [done|]. by exists (cleaned c).
    + eapply wp_mono; [by eapply off_cleanup|]. intros _ w' ((Hn & Hc') & E1 & E2 & E3).
      split; [by apply (held_eq w0 k d w)|]. split; [done|]. rewrite Hc'. apply Hc.
  - intros _ w' (Hh' & Hn & Hx). eapply wp_mono; [by apply (free_rest w0 k d)|].
    intros d' w2 (-> & Hr & Hctx). split; [done|]. split; [done|]. by rewrite Hctx.
Qed.

(** A second call finds nothing to release. *)
Lemma free_torn d c w :
  fBAR0Map d = NULL -> fPCIDevice d = NULL ->
  w_ctx w !! fCmdCtx d = Some c -> mbox_md c = NULL -> cmd_ring_md c = NULL ->
  wp (freeHardware d) (fun d' w' => d' = torn d /\
    w' = put_trace (EvLog "cleanup" [total_commands c; failed_commands c] :: w_trace w) w) w.
Proof.
  intros Hm Hp Hc H1 H2. apply wp_bind. eapply wp_mono; [by apply (cleanup_clean _ c)|].
  intros _ w' ->. rewrite Hm, Hp. change (NULL =? NULL) with true. by apply wp_bind, wp_ret, wp_bind, wp_ret, wp_ret.
Qed.

Lemma free_dangling d w : channel_dangling (fCmdCtx d) w -> freeHardware d w = Fault UseAfterFree.
Proof.
  intros (c & Hc & H1 & H2 & H3). unfold freeHardware. cbv [mbind M_bind].
  by rewrite (cleanup_dangling _ c).
Qed.

Lemma stop_spec w0 k d provider D w :
  held w0 k d w -> channel_any w0 (fCmdCtx d) D w -> 0 <= k ->
  wpf (fun f => f = UseAfterFree /\ D) (stop d provider) (freed w0 k d) w.
Proof.
  intros Hh Hc Hk. apply wpf_seq, wp_log. pose proof (io_frame_emit (EvLog "stop()" []) w) as F.
  pose proof (held_io _ _ _ _ _ _ F Hh) as Hh1.
  pose proof (channel_any_log _ _ _ (EvLog "stop()" []) _ Hc) as Hc1. clear F Hh Hc.
  destruct Hc1 as [Hc|[Hc|[Hc HD]]].
  3: { eapply wpf_fault; [by apply bind_fault, free_dangling|done]. }
  all: apply wpf_seq; eapply wp_mono; [apply (free_spec w0 k d); by auto|].
  all: intros d' w' H; by apply wpf_seq, wp_emit, wpf_wp, wp_ret.
Qed.

Lemma dangling_log ctx e w : channel_dangling ctx w -> channel_dangling ctx (put_trace (e :: w_trace w) w).
Proof. done. Qed.

Lemma stop_dangling d provider w : channel_dangling (fCmdCtx d) w -> stop d provider w = Fault UseAfterFree.
Proof. intros Hc. unfold stop. cbv [IOLog emit]. cbv [mbind M_bind]. by rewrite free_dangling. Qed.

(** ** Mapping the BAR *)

Record idle (w0 : world) (k : Z) (d : driver) (w : world) : Prop := {
  id_held : held w0 k d w;
  id_map : fBAR0Map d = NULL;
  id_heap : forall p, is_Some (w_heap w !! p) -> is_Some (w_heap w0 !! p);
  id_ctx : exists c, w_ctx w !! fCmdCtx d = Some c /\ mbox_md c = NULL /\ cmd_ring_md c = NULL;
  id_fresh : fresh_ok w
}.

Lemma idle_io w0 k d t w w' : io_frame t w w' -> idle w0 k d w -> idle w0 k d w'.
Proof.
  intros F [Hh Hm Hd Hc Hf]. split; [by eapply held_io|done| | |by eapply fresh_io].
  - destruct F as (s & h & -> & Hsh). intros p [b Hb]. apply Hd. simpl in Hb.
    destruct (heap_shape_lookup _ _ _ _ Hsh Hb) as (b' & ? & _). by exists b'.
  - by destruct F as (s & h & -> & _).
Qed.

Lemma idle_off w0 k d w : idle w0 k d w -> channel_off w0 (fCmdCtx d) w.
Proof.
  intros []. split; [|done]. intros p b (x & Hx & _)%live_buf_lookup. by eauto.
Qed.

(** What is assumed of the card: the BAR covers the init segment, and the queue
    geometry is one the driver can handle. *)
Record card_ok : Prop := {
  card_bar : forall s len, (p_bar_memory s).2 = Some len ->
    MLX5_INIT_SEG_OFFSET + MLX5_ISEG_INITIALIZING + 4 <= u64 len;
  card_map : forall s va, (p_bar_map s).2 = Some va -> card_geometry va
}.

Definition mapped_post (w0 : world) (k : Z) (d : driver) (rd : IOReturn * driver) (w : world) : Prop :=
  fPCIDevice rd.2 = fPCIDevice d /\ fCmdCtx rd.2 = fCmdCtx d /\
  if io_ok rd.1 then coming w0 k rd.2 w /\ card_geometry (fBAR0 rd.2) else idle w0 k rd.2 w.

Lemma idle_bar_size w0 k d n w :
  idle w0 k d w -> idle w0 k (Driver (fPCIDevice d) NULL (fBAR0 d) n (fInitSeg d) (fCmdCtx d)) w.
Proof.
  intros [[H1 H2 H3 [[_ H4]|[? _]]] Hm]; [|done]. split; [|done..]. split; [done..|]. by left.
Qed.

Lemma mapped_coming w0 k d va len s w :
  idle w0 k d w -> MLX5_INIT_SEG_OFFSET + MLX5_ISEG_INITIALIZING + 4 <= len ->
  coming w0 k (Driver (fPCIDevice d) (w_next w) va (u32 len) (va + MLX5_INIT_SEG_OFFSET) (fCmdCtx d))
    (put_maps (<[w_next w := IOMap va len 1]> (w_maps w)) (put_next (w_next w + 1) (put_ps s w))).
Proof.
  intros [[H1 H2 H3 H4] Hm Hd Hc [Hpos Hf]] Hlen. split; [|done|done| | |done].
  - split; [done|done|simpl in *; lia|]. right. simpl. split; [unfold NULL; lia|].
    destruct H4 as [[_ ->]|[? _]]; [by eauto|done].
  - split; [simpl; lia|]. intros p b Hb. simpl in *. specialize (Hf p b Hb). lia.
  - intros o Ho. apply (mmio_mapped_intro _ (w_next w) (IOMap va len 1)); [apply lookup_insert_eq|].
    unfold covers, MLX5_INIT_SEG_OFFSET, MLX5_ISEG_INITIALIZING in *. simpl.
    by rewrite (proj2 (Z.leb_le _ _)), (proj2 (Z.leb_le _ _)) by lia.
Qed.

Lemma wp_bar_memory Q w :
  (forall s l, (p_bar_memory (w_ps w)).2 = l -> Q (u64 <$> l) (put_ps s w)) ->
  wp getDeviceMemory0 Q w.
Proof. intros H. unfold wp, getDeviceMemory0. destruct (p_bar_memory _) as [s l]. by apply H. Qed.

Lemma wp_bar_physical Q w : (forall s a, Q a (put_ps s w)) -> wp getPhysicalAddress0 Q w.
Proof. intros H. unfold wp, getPhysicalAddress0. destruct (p_bar_physical _) as [s a]. by apply H. Qed.

Lemma wp_bar_map len Q w :
  (forall s, Q NULL (put_ps s w)) ->
  (forall s va, (p_bar_map (w_ps w)).2 = Some va ->
     Q (w_next w) (put_maps (<[w_next w := IOMap va len 1]> (w_maps w))
                    (put_next (w_next w + 1) (put_ps s w)))) ->
  wp (bar_map len) Q w.
Proof. intros H1 H2. unfold wp, bar_map. destruct (p_bar_map _) as [s [va|]]; [by apply H2|by apply H1]. Qed.

Lemma map_bar0_spec w0 k d w :
  card_ok -> idle w0 k d w -> wp (mapBAR0 d) (mapped_post w0 k d) w.
Proof.
  intros Hcard Hi. apply wp_bind, wp_bar_memory. intros s l Hl.
  pose proof (idle_io _ _ _ _ _ _ (io_frame_ps s w) Hi) as H1.
  destruct l as [len|]; simpl fmap; last first.
  { apply wp_bind, wp_log, wp_ret. split; [done|]. split; [done|].
    eapply idle_io; [apply io_frame_emit|done]. }
  cbv zeta. apply wp_bind, wp_bar_physical. intros s' phys. apply wp_bind, wp_log, wp_bind.
  match goal with |- wp _ _ ?x => set (w1 := x) end.
  assert (H2 : idle w0 k d w1)
    by (eapply idle_io; [apply io_frame_emit|eapply idle_io; [apply io_frame_ps|done]]). clearbody w1.
  apply wp_bar_map.
  - intros s1. change (NULL =? NULL) with true. apply wp_bind, wp_log, wp_ret.
    split; [done|]. split; [done|]. eapply idle_io; [apply io_frame_emit|].
    eapply idle_io; [apply io_frame_ps|]. simpl. by apply idle_bar_size.
  - intros s1 va Hva. pose proof (proj1 (id_fresh _ _ _ _ H2)) as Hpos.
    rewrite (proj2 (Z.eqb_neq _ NULL)) by (unfold NULL; lia).
    apply wp_bind. unfold wp, map_getVirtualAddress. cbn [w_maps put_maps].
    rewrite lookup_insert_eq. simpl. split; [done|]. split; [done|]. simpl. split.
    + apply mapped_coming; [done|]. exact (card_bar Hcard _ _ Hl).
    + exact (card_map Hcard _ _ Hva).
Qed.

(** The faults of [initHardware]: those of [init_steps], once the BAR is mapped. *)
Definition mapped_at (d : driver) (w : world) (d1 : driver) (w1 : world) : Prop :=
  mapBAR0 d w = Done (kIOReturnSuccess, d1) w1.

Definition hardware_post (w0 : world) (k : Z) (d : driver) (D : Prop) (rd : bool * driver) (w : world) : Prop :=
  fPCIDevice rd.2 = fPCIDevice d /\ fCmdCtx rd.2 = fCmdCtx d /\ steps_post w0 k rd.2 D rd.1 w.

Lemma init_hardware_spec w0 k d w :
  card_ok -> idle w0 k d w ->
  wpf (fun f => exists d1 w1, mapped_at d w d1 w1 /\ steps_fault d1 w1 f) (initHardware d)
    (hardware_post w0 k d (exists d1 w1, mapped_at d w d1 w1 /\ init_dangles d1 w1)) w.
Proof.
  intros Hcard Hi. apply wpf_seq. eapply wp_mono; [by apply wp_eqn, (map_bar0_spec w0 k)|].
  intros [r d1] w1 (E & E1 & E2 & H). simpl in E1, E2, H. destruct (io_ok r) eqn:Er; cbn [negb].
  - apply io_ok_true in Er as ->. destruct H as [Hc Hg].
    apply wpf_bind. eapply wpf_mono; [by apply (init_steps_spec w0 k)|by intros f Hf; exists d1, w1|].
    intros b w2 [Hh H2]. apply wpf_wp, wp_ret. split; [done|]. split; [done|]. split; [done|]. destruct b; [done|].
    destruct H2 as [?|[?|[? ?]]]; [by left|by right; left|right; right]. split; [done|]. by exists d1, w1.
  - pose proof (idle_io _ _ _ _ _ _ (io_frame_emit (EvLog "mapBAR0 failed" []) w1) H) as H1.
    apply wpf_wp, wp_bind, wp_log, wp_ret. split; [done|]. split; [done|]. split; [apply H1|].
    right; left. by eapply idle_off.
Qed.

(** ** The whole of [start] *)

Lemma idle_config w0 k d reg Q w :
  idle w0 k d w -> (forall v w', idle w0 k d w' -> Q v w') -> wp (configRead reg) Q w.
Proof.
  intros Hi HQ. unfold wp, configRead. destruct (p_config_read _ _) as [s v].
  apply HQ. eapply idle_io; [apply io_frame_ps|done].
Qed.

Lemma idle_config16 w0 k d reg Q w :
  idle w0 k d w -> (forall v w', idle w0 k d w' -> Q v w') -> wp (configRead16 reg) Q w.
Proof. intros Hi HQ. apply wp_bind. eapply idle_config; [done|]. intros v w' H. by apply wp_ret, HQ. Qed.

Lemma idle_config8 w0 k d reg Q w :
  idle w0 k d w -> (forall v w', idle w0 k d w' -> Q v w') -> wp (configRead8 reg) Q w.
Proof. intros Hi HQ. apply wp_bind. eapply idle_config; [done|]. intros v w' H. by apply wp_ret, HQ. Qed.

Lemma idle_config_write w0 k d reg v Q w :
  idle w0 k d w -> (forall w', idle w0 k d w' -> Q tt w') -> wp (configWrite16 reg v) Q w.
Proof. intros Hi HQ. apply HQ. eapply idle_io; [apply io_frame_ps|done]. Qed.

Lemma idle_emit w0 k d e Q w :
  idle w0 k d w -> (forall w', idle w0 k d w' -> Q tt w') -> wp (emit e) Q w.
Proof. intros Hi HQ. apply wp_emit, HQ. eapply idle_io; [apply io_frame_emit|done]. Qed.

(** After [start]: the service is published with everything it needs, or it
    holds nothing. *)
Definition start_post (w0 : world) (provider k ctx : Z) (rd : bool * driver) (w : world) : Prop :=
  if rd.1 then
    fPCIDevice rd.2 = provider /\ fCmdCtx rd.2 = ctx /\ up w0 k rd.2 w /\
    exists vid did t, w_trace w = EvLog "start() ready" [] :: EvRegisterService ::
      EvProperty "DeviceID" did :: EvProperty "VendorID" vid :: t
  else released w0 provider k w.

Lemma released_io w0 provider k t w :
  io_frame t w0 w -> w_objs w0 !! provider = Some k -> released w0 provider k w.
Proof.
  intros F Ho. split; [|by destruct F as (s & h & -> & _)].
  intros p b Hl. destruct (io_live_back _ _ _ _ _ F Hl) as [b' (x & Hx & _)%live_buf_lookup]. by exists x.
Qed.

(** [start], cut at [initHardware]: the object and the two identifiers it will
    publish, or nothing when it gives up before. *)
Definition reach_hardware (d : driver) (provider : ptr) : M (driver * option (Z * Z)) :=
  IOLog "start()" [] ;;
  b ← IOService_start;
  if negb b then IOLog "super::start() failed" [] ;; mret (d, None) else
  pci ← OSDynamicCast_IOPCIDevice provider;
  let d := Driver pci (fBAR0Map d) (fBAR0 d) (fBAR0Size d) (fInitSeg d) (fCmdCtx d) in
  if pci =? NULL then IOLog "provider is not IOPCIDevice" [] ;; mret (d, None) else
  obj_retain pci ;;
  vendorID ← configRead16 kIOPCIConfigVendorID;
  deviceID ← configRead16 kIOPCIConfigDeviceID;
  subVendor ← configRead16 kIOPCIConfigSubSystemVendorID;
  subDevice ← configRead16 kIOPCIConfigSubSystemID;
  revision ← configRead8 kIOPCIConfigRevisionID;
  IOLog ("PCI Device: " ++ chip_name deviceID) [vendorID; deviceID; subVendor; subDevice; revision] ;;
  cmd ← configRead16 kIOPCIConfigCommand;
  configWrite16 kIOPCIConfigCommand
    (Z.lor (Z.lor cmd kIOPCICommandMemorySpace) kIOPCICommandBusMaster) ;;
  mret (d, Some (vendorID, deviceID)).

Definition after_hardware (provider : ptr) (ids : Z * Z) (r : bool * driver) : M (bool * driver) :=
  let '(ok, d) := r in
  if negb ok then
    IOLog "initHardware() failed" [] ;;
    d ← stop d provider;
    mret (false, d)
  else
    setProperty "VerbifrostRDMA" 1 ;;
    emit (EvProperty "RDMAProvider: VerbifrostConnectX" 0) ;;
    setProperty "VendorID" ids.1 ;;
    setProperty "DeviceID" ids.2 ;;
    emit EvRegisterService ;;
    IOLog "start() ready" [] ;;
    mret (true, d).

Definition start_cut (d : driver) (provider : ptr) : M (bool * driver) :=
  x ← reach_hardware d provider;
  match x with
  | (d, None) => mret (false, d)
  | (d, Some ids) => r ← initHardware d; after_hardware provider ids r
  end.

Lemma start_split d provider w : start d provider w = start_cut d provider w.
Proof.
  unfold start, start_cut, reach_hardware, after_hardware. cbv zeta. solve_split.
Qed.

(** [start] calls [initHardware] for [d] in [w1]. *)
Definition start_reaches (ctx provider : ptr) (w : world) (d : driver) (w1 : world) : Prop :=
  exists ids, reach_hardware (new_driver ctx) provider w = Done (d, Some ids) w1.

(** The faults of [start], each with its cause: the two of [init_steps], and the
    second release of the ring, by [stop], after a failed [mlx5_cmd_init]. *)
Definition start_fault (ctx provider : ptr) (w : world) (f : fault) : Prop :=
  exists d w1 d2 w2, start_reaches ctx provider w d w1 /\ mapped_at d w1 d2 w2 /\
    (steps_fault d2 w2 f \/ f = UseAfterFree /\ init_dangles d2 w2).

(** From the retained provider on. *)
Lemma after_hardware_spec w0 k d provider ids D r w :
  hardware_post w0 k d D r w -> 0 <= k ->
  wpf (fun f => f = UseAfterFree /\ D) (after_hardware provider ids r)
    (start_post w0 (fPCIDevice d) k (fCmdCtx d)) w.
Proof.
  intros (E1 & E2 & Hh & Hc) Hk. destruct r as [ok d1]. simpl in E1, E2, Hh, Hc. unfold after_hardware.
  destruct ok; cbn [negb].
  - assert (Hu : up w0 k d1 w) by (by split).
    do 2 (apply wpf_seq, (up_emit w0 k d1); [done|]; clear Hu; intros ? Hu).
    match type of Hu with up _ _ _ ?x => set (w4 := x) in * end.
    apply wpf_wp, wp_bind, wp_emit, wp_bind, wp_emit, wp_bind, wp_emit, wp_bind, wp_log, wp_ret.
    split; [done|]. split; [done|]. split; [|by eexists _, _, _].
    do 4 (eapply up_io; [apply io_frame_emit|]). exact Hu.
  - apply wpf_seq, wp_log. apply wpf_bind.
    eapply wpf_mono; [apply (stop_spec w0 k d1 provider D)|done|].
    + eapply held_io; [apply io_frame_emit|done].
    + by apply channel_any_log.
    + done.
    + intros d2 w2 (_ & Hr & _). apply wpf_wp, wp_ret. rewrite <- E1. exact Hr.
Qed.

Lemma wp_super_start Q w :
  (forall s (b : bool), Q b (put_ps s w)) -> wp IOService_start Q w.
Proof. intros H. unfold wp, IOService_start. destruct (p_super_start _). apply H. Qed.

Lemma wp_cast provider Q w :
  (forall s (b : bool), Q (if b then provider else NULL) (put_ps s w)) ->
  wp (OSDynamicCast_IOPCIDevice provider) Q w.
Proof. intros H. unfold wp, OSDynamicCast_IOPCIDevice. destruct (p_cast_pci _). apply H. Qed.

(** The provider is retained and the card's memory enabled, or [start] has given
    up and holds nothing. *)
Lemma reach_hardware_spec ctx c provider k w :
  fresh_ok w -> w_ctx w !! ctx = Some c -> mbox_md c = NULL -> cmd_ring_md c = NULL ->
  provider <> NULL -> provider < w_next w -> w_objs w !! provider = Some k -> 0 < k ->
  wp (reach_hardware (new_driver ctx) provider) (fun x w' =>
    match x.2 with
    | None => released w provider k w'
    | Some _ => fPCIDevice x.1 = provider /\ fCmdCtx x.1 = ctx /\ idle w k x.1 w'
    end) w.
Proof.
  intros Hf Hc Hm Hr Hp0 Hpn Hp Hk. unfold reach_hardware.
  apply wp_bind, wp_log. apply wp_bind, wp_super_start. intros s []; cbn [negb]; last first.
  { apply wp_bind, wp_log, wp_ret. eapply released_io; [|done].
    eapply io_frame_trans; [apply io_frame_event|apply io_frame_emit]. }
  apply wp_bind, wp_cast. intros s1 b.
  match goal with |- wp _ _ ?x => set (w1 := x) end.
  assert (F : io_frame [EvLog "start()" []] w w1).
  { eapply (io_frame_trans [_] []); [apply io_frame_event|apply io_frame_ps]. }
  clearbody w1. destruct b; last first.
  { change (NULL =? NULL) with true. apply wp_bind, wp_log, wp_ret.
    eapply released_io; [|done]. eapply io_frame_trans; [exact F|apply io_frame_emit]. }
  rewrite (proj2 (Z.eqb_neq _ NULL) Hp0). apply wp_bind.
  set (d := Driver _ _ _ _ _ _).
  assert (Hi : idle w k d (put_objs (<[provider := k + 1]> (w_objs w1)) w1)).
  { pose proof (fresh_io _ _ _ F Hf) as Hf1.
    destruct F as (s2 & h & -> & Hsh). split; [split|done| |by exists c|done].
    - done.
    - simpl. apply lookup_insert_eq.
    - done.
    - by left.
    - intros p [x Hx]. simpl in Hx.
      destruct (heap_shape_lookup _ _ _ _ Hsh Hx) as (y & ? & _). by exists y. }
  apply (wp_obj_retain _ k); [by destruct F as (? & ? & -> & _)|done|].
  match goal with |- wp _ _ ?x => set (w2 := x) in * end. clearbody w2.
  apply wp_bind, (idle_config16 w k d); [done|]. intros v1 w3 H3.
  apply wp_bind, (idle_config16 w k d); [done|]. intros v2 w4 H4.
  apply wp_bind, (idle_config16 w k d); [done|]. intros v3 w5 H5.
  apply wp_bind, (idle_config16 w k d); [done|]. intros v4 w6 H6.
  apply wp_bind, (idle_config8 w k d); [done|]. intros v5 w7 H7.
  apply wp_bind, (idle_emit w k d); [done|]. intros w8 H8.
  apply wp_bind, (idle_config16 w k d); [done|]. intros v6 w9 H9.
  apply wp_bind, (idle_config_write w k d); [done|]. intros w10 H10. by apply wp_ret.
Qed.

(** Any run of [start]. *)
Lemma start_spec ctx c provider k w :
  card_ok -> fresh_ok w -> w_ctx w !! ctx = Some c -> mbox_md c = NULL -> cmd_ring_md c = NULL ->
  provider <> NULL -> provider < w_next w -> w_objs w !! provider = Some k -> 0 < k ->
  match start (new_driver ctx) provider w with
  | Done rd w' => start_post w provider k ctx rd w'
  | Fault f => start_fault ctx provider w f
  end.
Proof.
  intros Hcard Hf Hc Hm Hr Hp0 Hpn Hp Hk. rewrite start_split.
  change (wpf (start_fault ctx provider w) (start_cut (new_driver ctx) provider)
    (start_post w provider k ctx) w).
  apply wpf_seq. eapply wp_mono; [by apply wp_eqn, (reach_hardware_spec ctx c provider k)|].
  intros [d [ids|]] w1 [E H]; simpl in H; [|by apply wpf_wp, wp_ret].
  destruct H as (<- & <- & Hi). apply wpf_bind.
  eapply wpf_mono; [by apply (init_hardware_spec w k)| |].
  - intros f (d2 & w2 & Hm2 & Hf2). exists d, w1, d2, w2. split; [by exists ids|]. split; [done|]. by left.
  - intros r w3 H3. eapply wpf_mono; [apply (after_hardware_spec w k d _ ids _ r w3 H3); lia| |done].
    intros f (-> & d2 & w2 & Hm2 & Hd). exists d, w1, d2, w2. split; [by exists ids|].
    split; [done|]. by right.
Qed.

(** And each cause makes [start] fault. *)
Lemma start_fault_faults ctx provider w f :
  start_fault ctx provider w f -> start (new_driver ctx) provider w = Fault f.
Proof.
  intros (d & w1 & d2 & w2 & [ids E1] & E2 & H). unfold mapped_at in E2.
  rewrite start_split. unfold start_cut. rewrite (bind_done _ _ _ _ _ E1).
  destruct H as [H|(-> & w3 & r & w4 & E3 & E4 & Hr & Hd)].
  - apply bind_fault. unfold initHardware. rewrite (bind_done _ _ _ _ _ E2). cbn [io_ok negb].
    by apply bind_fault, steps_fault_faults.
  - assert (Hs : init_steps d2 w2 = Done false (put_trace (EvLog "cmd queue init failed" [] :: w_trace w4) w4)).
    { rewrite init_steps_split. unfold init_steps_cut. rewrite (bind_done _ _ _ _ _ E3), (bind_done _ _ _ _ _ E4).
      unfold after_cmd_init. by destruct r. }
    assert (Hh : initHardware d w1 = Done (false, d2) (put_trace (EvLog "cmd queue init failed" [] :: w_trace w4) w4)).
    { unfold initHardware. rewrite (bind_done _ _ _ _ _ E2). cbn [io_ok negb]. by rewrite (bind_done _ _ _ _ _ Hs). }
    rewrite (bind_done _ _ _ _ _ Hh). unfold after_hardware. cbn [negb].
    cbv [IOLog emit]. cbv [mbind M_bind]. by rewrite stop_dangling.
Qed.

End DriverSpec.
