(* ===== verification/CmdLog.v ===== *)
(** * The commands a function issues, and the time it sleeps

    [issues m L]: when [m] completes, the opcodes it gave to [mlx5_cmd_exec], in
    order, are a list [l] and the time it slept is [ms] milliseconds, with
    [L l ms].  A function that issues no command and does not sleep is [quiet];
    the hint database [quiet] derives this for any function of the driver from
    its primitives.  The opcodes are read off the log line at the head of
    [mlx5_cmd_exec]. *)

From S2P Require Import Prelude Bytes Registers IbVerbs World Wp Cmd CmdSpec CmdInit Qp Mr Verbs Driver.

(** The opcodes in a trace (newest event first), oldest command first. *)
Fixpoint commands (t : list event) : list Z :=
  match t with
  | EvLog tag (op :: _) :: t' =>
      if String.eqb tag "cmd_exec" then commands t' ++ [op] else commands t'
  | _ :: t' => commands t'
  | [] => []
  end.

Create HintDb quiet.

Section Issues.
Context `{P : Platform}.

(** What the trace says of both. *)
Definition log_of (w : world) : list Z * Z := (commands (w_trace w), slept (w_trace w)).

Definition issues {A} (m : M A) (L : A -> list Z -> Z -> Prop) : Prop :=
  forall w, match m w with
            | Done a w' => exists l ms,
                log_of w' = (commands (w_trace w) ++ l, slept (w_trace w) + ms) /\ L a l ms
            | Fault _ => True
            end.

Definition quiet {A} (m : M A) : Prop :=
  forall w, match m w with
            | Done a w' => log_of w' = log_of w
            | Fault _ => True
            end.

Lemma issues_quiet {A} (m : M A) : quiet m -> issues m (fun _ l ms => l = [] /\ ms = 0).
Proof.
  intros H w. specialize (H w). destruct (m w); [|done]. exists [], 0.
  by rewrite app_nil_r, Z.add_0_r.
Qed.

Lemma issues_ret {A} (a : A) (L : A -> list Z -> Z -> Prop) : L a [] 0 -> issues (mret a) L.
Proof. intros H w. exists [], 0. by rewrite app_nil_r, Z.add_0_r. Qed.

Lemma issues_bind {A B} (m : M A) (k : A -> M B) L1 L2 :
  issues m L1 ->
  (forall a l1 t1, L1 a l1 t1 -> issues (k a) (fun b l2 t2 => L2 b (l1 ++ l2) (t1 + t2))) ->
  issues (m ≫= k) L2.
Proof.
  intros H1 H2 w. specialize (H1 w). cbv [mbind M_bind]. destruct (m w) as [a w1|]; [|done].
  destruct H1 as (l1 & t1 & E1 & HL). specialize (H2 a l1 t1 HL w1). destruct (k a w1) as [b w2|]; [|done].
  destruct H2 as (l2 & t2 & E2 & HL2). exists (l1 ++ l2), (t1 + t2). split; [|done].
  unfold log_of in *. injection E1 as E1 T1. by rewrite E2, E1, T1, app_assoc, Z.add_assoc.
Qed.

(** A quiet prefix. *)
Lemma issues_after {A B} (m : M A) (k : A -> M B) L :
  quiet m -> (forall a, issues (k a) L) -> issues (m ≫= k) L.
Proof.
  intros H1 H2. eapply issues_bind; [by apply issues_quiet|]. intros a ? ? [-> ->]. apply H2.
Qed.

Lemma issues_mono {A} (m : M A) (L1 L2 : A -> list Z -> Z -> Prop) :
  issues m L1 -> (forall a l t, L1 a l t -> L2 a l t) -> issues m L2.
Proof.
  intros H HL w. specialize (H w). destruct (m w); [|done]. destruct H as (l & t & E & H). eauto.
Qed.

(** No command, and at most [b] milliseconds. *)
Definition rests {A} (b : Z) (m : M A) : Prop := issues m (fun _ l t => l = [] /\ t <= b).

Lemma rests_quiet {A} (m : M A) : quiet m -> rests 0 m.
Proof. intros H. eapply issues_mono; [by apply issues_quiet|]. intros a l t [-> ->]. done. Qed.

Lemma rests_bind {A B} b1 b2 (m : M A) (k : A -> M B) :
  rests b1 m -> (forall a, rests b2 (k a)) -> rests (b1 + b2) (m ≫= k).
Proof.
  intros H1 H2. eapply issues_bind; [exact H1|]. intros a l1 t1 [-> ?].
  eapply issues_mono; [apply H2|]. intros b l2 t2 [-> ?]. split; [done|lia].
Qed.

Lemma rests_weaken {A} b1 b2 (m : M A) : rests b1 m -> b1 <= b2 -> rests b2 m.
Proof. intros H Hb. eapply issues_mono; [exact H|]. intros a l t [-> ?]. split; [done|lia]. Qed.

Lemma rests_after {A B} b (m : M A) (k : A -> M B) :
  quiet m -> (forall a, rests b (k a)) -> rests b (m ≫= k).
Proof. apply issues_after. Qed.

Lemma rests_sleep ms : rests ms (IOSleep ms).
Proof. intros w. exists [], ms. rewrite app_nil_r. split; [|done]. unfold log_of. simpl. f_equal. lia. Qed.

(** ** Quiet functions *)

Lemma quiet_ret {A} (a : A) : quiet (mret a).
Proof. done. Qed.
Lemma quiet_bind {A B} (m : M A) (k : A -> M B) : quiet m -> (forall a, quiet (k a)) -> quiet (m ≫= k).
Proof.
  intros H1 H2 w. specialize (H1 w). cbv [mbind M_bind]. destruct (m w) as [a w1|]; [|done].
  specialize (H2 a w1). destruct (k a w1); [|done]. by etrans.
Qed.
Lemma quiet_fail {A} f : quiet (@fail P A f).
Proof. done. Qed.
Lemma quiet_deref {T} `{!Cell T} p : quiet (deref p).
Proof. intros w. unfold deref. by destruct (_ !! _). Qed.
Lemma quiet_assign {T} `{!Cell T} p (x : T) : quiet (assign p x).
Proof. intros w. unfold assign. destruct (_ !! _); [|done]. unfold log_of. by rewrite cell_put_trace. Qed.
Lemma quiet_modify {T} `{!Cell T} p (f : T -> T) : quiet (modify p f).
Proof. intros w. unfold modify. destruct (_ !! _); [|done]. unfold log_of. by rewrite cell_put_trace. Qed.
Lemma quiet_emit e : commands [e] = [] -> slept [e] = 0 -> quiet (emit e).
Proof.
  intros H Ht w. unfold emit, log_of. cbn [w_trace put_trace].
  destruct e as [tag [|op args]| |ms| | | | | | |]; try done; simpl in *.
  - by destruct (String.eqb tag "cmd_exec").
  - f_equal. lia.
Qed.
Lemma quiet_log tag args : String.eqb tag "cmd_exec" = false -> quiet (IOLog tag args).
Proof. intros H. apply quiet_emit; [|done]. simpl. rewrite H. by destruct args. Qed.
Lemma quiet_barrier : quiet OSSynchronizeIO.
Proof. by apply quiet_emit. Qed.
Lemma quiet_run_device : quiet run_device.
Proof. done. Qed.
Lemma quiet_mem_update p o n bs f : quiet (mem_update p o n bs f).
Proof. intros w. unfold mem_update. destruct (live_buf _ _); [|done]. by destruct (in_bounds _ _ _). Qed.
Lemma quiet_mem_copy_in p o src so n : quiet (mem_copy_in p o src so n).
Proof. unfold mem_copy_in. destruct (in_bounds _ _ _); [apply quiet_mem_update|done]. Qed.
Lemma quiet_mem_peek p o n : quiet (mem_peek p o n).
Proof. intros w. unfold mem_peek. destruct (live_buf _ _); [|done]. by destruct (in_bounds _ _ _). Qed.
Lemma quiet_mem_get p o n : quiet (mem_get p o n).
Proof. apply quiet_bind; [done|]. intros _. apply quiet_mem_peek. Qed.
Lemma quiet_mem_load p o n : quiet (mem_load p o n).
Proof. by apply quiet_bind; [apply quiet_mem_get|]. Qed.
Lemma quiet_md_alloc n : quiet (md_alloc n).
Proof. intros w. unfold md_alloc. by destruct (p_alloc _ _) as [? [[]|]]. Qed.
Lemma quiet_md_release p : quiet (md_release p).
Proof. intros w. unfold md_release. destruct (_ !! _); [|done]. by destruct (0 <? _). Qed.
Lemma quiet_md_bytes p : quiet (md_getBytesNoCopy p).
Proof. intros w. unfold md_getBytesNoCopy. by destruct (live_buf _ _). Qed.
Lemma quiet_arr_load b o n : quiet (arr_load b o n).
Proof. unfold arr_load. by destruct (in_bounds _ _ _). Qed.
Lemma quiet_arr_store b o bs : quiet (arr_store b o bs).
Proof. unfold arr_store. by destruct (in_bounds _ _ _). Qed.
Lemma quiet_obj_retain p : quiet (obj_retain p).
Proof. intros w. unfold obj_retain. destruct (_ !! _); [|done]. by destruct (0 <? _). Qed.
Lemma quiet_obj_release p : quiet (obj_release p).
Proof. intros w. unfold obj_release. destruct (_ !! _); [|done]. by destruct (0 <? _). Qed.
Lemma quiet_dma_new n : quiet (IODMACommand_withSpecification n).
Proof. intros w. unfold IODMACommand_withSpecification. by destruct (p_dma_withSpecification _ _) as [? []]. Qed.
Lemma quiet_dma_set a b : quiet (IODMACommand_setMemoryDescriptor a b).
Proof. intros w. unfold IODMACommand_setMemoryDescriptor. by destruct (p_dma_setMemoryDescriptor _ _). Qed.
Lemma quiet_dma_gen a b : quiet (IODMACommand_gen64IOVMSegments a b).
Proof. intros w. unfold IODMACommand_gen64IOVMSegments. by destruct (p_dma_gen64IOVMSegments _ _) as [? [[]]]. Qed.
Lemma quiet_mmio_read32 a : quiet (mmio_read32 a).
Proof. intros w. unfold mmio_read32. destruct (mmio_mapped _ _ _); [|done]. by destruct (p_mmio_read _ _). Qed.
Lemma quiet_mmio_write n a v : quiet (mmio_write n a v).
Proof. intros w. unfold mmio_write. by destruct (mmio_mapped _ _ _). Qed.
Lemma quiet_shl_int1 n : quiet (shl_int1 n).
Proof. unfold shl_int1. by destruct (_ && _). Qed.
Lemma quiet_shl_u32 x n : quiet (shl_u32 x n).
Proof. unfold shl_u32. by destruct (_ && _). Qed.
Lemma quiet_md_phys p : quiet (md_getPhysicalAddress p).
Proof. intros w. unfold md_getPhysicalAddress. destruct (_ !! _); [|done]. by destruct (0 <? _). Qed.
Lemma quiet_malloc {T} `{!Cell T} n (x : T) : quiet (IOMalloc n x).
Proof.
  intros w. unfold IOMalloc. destruct (p_malloc _ _) as [s []]; [|done].
  unfold log_of. by rewrite cell_put_trace.
Qed.
Lemma quiet_mwhen c m : quiet m -> quiet (mwhen c m).
Proof. by destruct c. Qed.
Lemma quiet_for_range n i body : (forall j, quiet (body j)) -> quiet (for_range n i body).
Proof. intros H. revert i; induction n; intros; [done|]. by apply quiet_bind. Qed.

(** IOKit calls of the service. *)
Lemma quiet_super_start : quiet IOService_start.
Proof. intros w. unfold IOService_start. by destruct (p_super_start _). Qed.
Lemma quiet_cast p : quiet (OSDynamicCast_IOPCIDevice p).
Proof. intros w. unfold OSDynamicCast_IOPCIDevice. by destruct (p_cast_pci _). Qed.
Lemma quiet_config r : quiet (configRead r).
Proof. intros w. unfold configRead. by destruct (p_config_read _ _). Qed.
Lemma quiet_config_write r v : quiet (configWrite16 r v).
Proof. done. Qed.
Lemma quiet_bar_memory : quiet getDeviceMemory0.
Proof. intros w. unfold getDeviceMemory0. by destruct (p_bar_memory _). Qed.
Lemma quiet_bar_physical : quiet getPhysicalAddress0.
Proof. intros w. unfold getPhysicalAddress0. by destruct (p_bar_physical _). Qed.
Lemma quiet_bar_map n : quiet (bar_map n).
Proof. intros w. unfold bar_map. by destruct (p_bar_map _) as [? []]. Qed.
Lemma quiet_map_va m : quiet (map_getVirtualAddress m).
Proof. intros w. unfold map_getVirtualAddress. destruct (_ !! _); [|done]. by destruct (0 <? _). Qed.
Lemma quiet_map_release m : quiet (map_release m).
Proof. intros w. unfold map_release. destruct (_ !! _); [|done]. by destruct (0 <? _). Qed.

End Issues.

#[export] Hint Resolve quiet_ret quiet_fail quiet_deref quiet_assign quiet_modify quiet_barrier
  quiet_run_device quiet_mem_update quiet_mem_copy_in quiet_mem_peek quiet_mem_get
  quiet_mem_load quiet_md_alloc quiet_md_release quiet_md_bytes quiet_arr_load quiet_arr_store
  quiet_obj_retain quiet_obj_release quiet_dma_new quiet_dma_set quiet_dma_gen quiet_mmio_read32
  quiet_mmio_write quiet_shl_int1 quiet_shl_u32 quiet_md_phys quiet_malloc quiet_super_start quiet_cast quiet_config quiet_config_write
  quiet_bar_memory quiet_bar_physical quiet_bar_map quiet_map_va quiet_map_release : quiet.

(** Derive [quiet] of a function by walking over it. *)
Ltac quiet_step :=
  lazymatch goal with
  | |- forall _, _ => intro
  | |- quiet (mbind _ _) => apply quiet_bind
  | |- quiet (IOLog _ _) => apply quiet_log; reflexivity
  | |- quiet (emit _) => apply quiet_emit; reflexivity
  | |- quiet (mwhen _ _) => apply quiet_mwhen
  | |- quiet (for_range _ _ _) => apply quiet_for_range
  | |- quiet (let '_ := ?x in _) => destruct x
  | |- quiet (if ?b then _ else _) => destruct b
  | |- quiet (match ?x with _ => _ end) => destruct x
  | |- quiet _ => first [solve [auto with quiet] | progress cbv zeta]
  end.
Ltac solve_quiet := repeat quiet_step.

(** ** The driver's functions *)

Section Functions.
Context `{P : Platform}.

Lemma quiet_iseg_read32 s o : quiet (iseg_read32 s o).
Proof. unfold iseg_read32. solve_quiet. Qed.
Lemma quiet_iseg_write32 s o v : quiet (iseg_write32 s o v).
Proof. unfold iseg_write32, mmio_write32. solve_quiet. Qed.
#[local] Hint Resolve quiet_iseg_read32 quiet_iseg_write32 : quiet.

Lemma quiet_take_token ctx : quiet (cmd_take_token ctx).
Proof. unfold cmd_take_token. solve_quiet. Qed.

Lemma quiet_submit c slot token opcode op_mod in_data in_len out_len :
  quiet (cmd_submit c slot token opcode op_mod in_data in_len out_len).
Proof.
  unfold cmd_submit, st8, st16, st32, st64, mem_store, mem_fill. cbv zeta. solve_quiet.
Qed.

Lemma rests_poll n ring entry : rests (10 * Z.of_nat n) (cmd_poll n ring entry).
Proof.
  induction n as [|n IH]; simpl cmd_poll; [by apply rests_quiet, quiet_ret|].
  apply rests_after; [apply quiet_barrier|]. intros _.
  apply rests_after; [unfold ld8; solve_quiet|]. intros st.
  destruct (_ =? _).
  - eapply rests_weaken; [apply rests_quiet; unfold ld8; solve_quiet|lia].
  - apply (rests_weaken (10 + 10 * Z.of_nat n)); [|lia].
    apply rests_bind; [apply rests_sleep|done].
Qed.

Lemma quiet_finish ctx c slot opcode d out out_len status :
  quiet (cmd_finish ctx c slot opcode d out out_len status).
Proof. unfold cmd_finish, cmd_read_response, copy_out, ld8, ld32. cbv zeta. solve_quiet. Qed.

(** One command, and at most the time limit. *)
Definition one_command (opcode : Z) (l : list Z) (ms : Z) : Prop :=
  l = [opcode] /\ ms <= MLX5_CMD_TIMEOUT_MS.

(** [mlx5_cmd_exec] issues its opcode. *)
Lemma issues_exec ctx opcode op_mod in_data in_len out out_len status :
  issues (mlx5_cmd_exec ctx opcode op_mod in_data in_len out out_len status)
    (fun _ => one_command opcode).
Proof.
  apply issues_after; [apply quiet_take_token|]. intros token.
  eapply issues_bind with (L1 := fun _ l t => l = [opcode] /\ t = 0).
  { intros w. exists [opcode], 0. by rewrite Z.add_0_r. }
  intros _ l1 t1 [-> ->]. apply issues_mono with (L1 := fun _ l t => l = [] /\ t <= MLX5_CMD_TIMEOUT_MS).
  - apply rests_after; [apply quiet_deref|]. intros c.
    apply rests_after; [apply quiet_submit|]. intros _.
    apply (rests_bind MLX5_CMD_TIMEOUT_MS 0); [apply (rests_poll poll_limit)|].
    intros d. apply rests_quiet, quiet_finish.
  - intros a l t [-> ?]. by split.
Qed.

(** A function that runs one command and then reports. *)
Lemma issues_exec_then {B} ctx opcode op_mod in_data in_len out out_len status (k : _ -> M B) :
  (forall res, quiet (k res)) ->
  issues (mlx5_cmd_exec ctx opcode op_mod in_data in_len out out_len status ≫= k)
    (fun _ => one_command opcode).
Proof.
  intros Hk. eapply issues_bind; [apply issues_exec|]. intros res l1 t1 [-> ?].
  eapply issues_mono; [by apply issues_quiet|]. intros a l t [-> ->]. split; [done|lia].
Qed.

Lemma quiet_init_params ctx bar0 size : quiet (cmd_init_params ctx bar0 size).
Proof. unfold cmd_init_params. cbv zeta. solve_quiet. Qed.
Lemma quiet_init_ring ctx : quiet (cmd_init_ring ctx).
Proof. unfold cmd_init_ring, IODMACommand_clearMemoryDescriptor, mem_fill. cbv zeta. solve_quiet. Qed.
Lemma quiet_init_entries c : quiet (cmd_init_entries c).
Proof. unfold cmd_init_entries, st8, st32, mem_store. cbv zeta. solve_quiet. Qed.
Lemma quiet_init_register c : quiet (cmd_init_register c).
Proof. unfold cmd_init_register. solve_quiet. Qed.
Lemma quiet_init_mbox ctx : quiet (cmd_init_mbox ctx).
Proof.
  unfold cmd_init_mbox, cmd_map_mbox, IODMACommand_clearMemoryDescriptor, mem_fill. cbv zeta. solve_quiet.
Qed.

Lemma rests_cmd_init ctx bar0 size : rests 10 (mlx5_cmd_init ctx bar0 size).
Proof.
  assert (Hret : forall r : IOReturn, rests 10 (mret r)).
  { intros r. by apply (rests_weaken 0); [apply rests_quiet, quiet_ret|]. }
  apply rests_after; [apply quiet_init_params|]. intros _.
  apply rests_after; [apply quiet_init_ring|]. intros r1. destruct (negb _); [done|].
  apply rests_after; [apply quiet_deref|]. intros c.
  apply rests_after; [apply quiet_init_entries|]. intros _.
  apply rests_after; [apply quiet_init_register|]. intros _.
  apply rests_after; [apply quiet_init_mbox|]. intros r2. destruct (negb _); [done|].
  apply rests_after; [apply quiet_iseg_write32|]. intros _.
  apply (rests_bind 10 0); [apply rests_sleep|]. intros _. apply rests_quiet. solve_quiet.
Qed.

Lemma quiet_cleanup ctx : quiet (mlx5_cmd_cleanup ctx).
Proof. unfold mlx5_cmd_cleanup. solve_quiet. Qed.

Lemma quiet_stop d provider : quiet (stop d provider).
Proof.
  unfold stop, freeHardware. repeat (apply quiet_bind; [first [apply quiet_cleanup|solve_quiet]|intros ?]).
  all: solve_quiet.
Qed.

Lemma quiet_map_bar0 d : quiet (mapBAR0 d).
Proof. unfold mapBAR0. solve_quiet. Qed.
Lemma quiet_read_init_segment d : quiet (readInitSegment d).
Proof. unfold readInitSegment. solve_quiet. Qed.
Lemma rests_wait d : rests 10000 (waitForInitializing d).
Proof.
  assert (H : forall n addr, rests (10 * Z.of_nat n) (wait_loop n addr)); [|by apply (H 1000%nat)].
  intros n addr. induction n as [|n IH]; simpl wait_loop; [by apply rests_quiet, quiet_ret|].
  apply rests_after; [apply quiet_mmio_read32|]. intros v. cbv zeta. destruct (_ =? 0).
  - eapply rests_weaken; [apply rests_quiet, quiet_ret|lia].
  - apply (rests_weaken (10 + 10 * Z.of_nat n)); [|lia].
    apply rests_bind; [apply rests_sleep|done].
Qed.

Lemma issues_enable_hca d : issues (sendEnableHCA d) (fun _ => one_command MLX5_CMD_OP_ENABLE_HCA).
Proof. apply issues_exec_then. unfold setProperty. solve_quiet. Qed.
Lemma issues_query_pages d t n : issues (queryPages d t n) (fun _ => one_command MLX5_CMD_OP_QUERY_PAGES).
Proof. apply issues_exec_then. solve_quiet. Qed.
Lemma issues_hca_cap d : issues (queryHcaCap d) (fun _ => one_command MLX5_CMD_OP_QUERY_HCA_CAP).
Proof. apply issues_exec_then. unfold setProperty, cap_byte. solve_quiet. Qed.
Lemma issues_init_hca d : issues (initHca d) (fun _ => one_command MLX5_CMD_OP_INIT_HCA).
Proof. apply issues_exec_then. solve_quiet. Qed.

(** ** The bring-up protocol *)

Definition bring_up : list Z :=
  [MLX5_CMD_OP_ENABLE_HCA; MLX5_CMD_OP_QUERY_PAGES; MLX5_CMD_OP_QUERY_HCA_CAP; MLX5_CMD_OP_INIT_HCA].

(** The time the bring-up may take: the set-up of the queue, the wait for the
    firmware, and the time limit of each command. *)
Definition bring_up_time (l : list Z) : Z := 10 + 10000 + MLX5_CMD_TIMEOUT_MS * Z.of_nat (length l).

(** All of it on success, a prefix otherwise. *)
Definition follows (b : bool) (l : list Z) (ms : Z) : Prop :=
  (if b then l = bring_up else l `prefix_of` bring_up) /\ ms <= bring_up_time l.

(** The rest of a bring-up, after the commands [l0] and [t0] milliseconds. *)
Definition remains (l0 : list Z) (t0 : Z) (m : M bool) : Prop :=
  issues m (fun b l t => follows b (l0 ++ l) (t0 + t)).

Lemma remains_after {A} l0 t0 (m : M A) (k : A -> M bool) :
  quiet m -> (forall a, remains l0 t0 (k a)) -> remains l0 t0 (m ≫= k).
Proof. apply issues_after. Qed.

Lemma remains_bind {A} l0 t0 (m : M A) (k : A -> M bool) L :
  issues m L -> (forall a l t, L a l t -> remains (l0 ++ l) (t0 + t) (k a)) ->
  remains l0 t0 (m ≫= k).
Proof.
  intros H1 H2. eapply issues_bind; [exact H1|]. intros a l1 t1 HL.
  eapply issues_mono; [exact (H2 a l1 t1 HL)|]. cbv beta. intros b l2 t2. by rewrite <- app_assoc, Z.add_assoc.
Qed.

Lemma remains_ret l0 t0 b : follows b l0 t0 -> remains l0 t0 (mret b).
Proof. intros H. apply issues_ret. by rewrite app_nil_r, Z.add_0_r. Qed.

(** A step that failed. *)
Lemma remains_fail n l0 t0 tag :
  l0 = take n bring_up -> t0 <= bring_up_time l0 -> String.eqb tag "cmd_exec" = false ->
  remains l0 t0 (IOLog tag [] ;; mret false).
Proof.
  intros -> Ht E. apply remains_after; [by apply quiet_log|]. intros _. apply remains_ret.
  split; [|done]. eexists. symmetry. apply take_drop.
Qed.

Ltac time_bound := unfold bring_up_time, MLX5_CMD_TIMEOUT_MS in *; simpl; lia.

(** The test of a step's result, with the number of commands so far. *)
Ltac remains_test r n :=
  destruct (io_ok r); cbn [negb]; [|by apply (remains_fail n); [|time_bound|]].

Lemma remains_init_steps d : remains [] 0 (init_steps d).
Proof.
  unfold init_steps. apply remains_after; [apply quiet_read_init_segment|]. intros r1.
  remains_test r1 0%nat. eapply remains_bind; [apply rests_wait|]. intros r2 l2 t2 [-> ?].
  remains_test r2 0%nat. apply remains_after; [by apply quiet_log|]. intros _.
  eapply remains_bind; [apply rests_cmd_init|]. intros r3 l3 t3 [-> ?].
  remains_test r3 0%nat. apply remains_after; [by apply quiet_log|]. intros _.
  eapply remains_bind; [apply issues_enable_hca|]. intros r4 l4 t4 [-> ?].
  remains_test r4 1%nat. apply remains_after; [by apply quiet_log|]. intros _.
  eapply remains_bind; [apply issues_query_pages|]. intros [r5 n] l5 t5 [-> ?].
  remains_test r5 2%nat. apply remains_after; [by apply quiet_log|]. intros _.
  eapply remains_bind; [apply issues_hca_cap|]. intros r6 l6 t6 [-> ?].
  remains_test r6 3%nat. eapply remains_bind; [apply issues_init_hca|]. intros r7 l7 t7 [-> ?].
  remains_test r7 4%nat. apply remains_after; [by apply quiet_log|]. intros _.
  apply remains_ret. split; [done|time_bound].
Qed.

Lemma issues_init_steps d : issues (init_steps d) follows.
Proof. exact (remains_init_steps d). Qed.

Lemma issues_init_hardware d : issues (initHardware d) (fun r => follows r.1).
Proof.
  apply issues_after; [apply quiet_map_bar0|]. intros [ret d1].
  destruct (io_ok ret); cbn [negb].
  - eapply issues_bind; [apply issues_init_steps|]. intros b l t Hl. apply issues_ret.
    by rewrite app_nil_r, Z.add_0_r.
  - apply issues_after; [by apply quiet_log|]. intros _. apply issues_ret. split; [apply prefix_nil|done].
Qed.

Lemma issues_start d provider : issues (start d provider) (fun r => follows r.1).
Proof.
  assert (Hno : follows false [] 0) by (split; [apply prefix_nil|done]).
  unfold start, configRead16, configRead8.
  repeat (apply issues_after; [solve [solve_quiet]|intros ?]).
  destruct (negb _).
  { apply issues_after; [solve [solve_quiet]|]. intros _. by apply issues_ret. }
  apply issues_after; [solve [solve_quiet]|]. intros pci. cbv zeta. destruct (pci =? NULL).
  { apply issues_after; [solve [solve_quiet]|]. intros _. by apply issues_ret. }
  repeat (apply issues_after; [solve [solve_quiet]|intros ?]).
  eapply issues_bind; [apply issues_init_hardware|]. intros [ok d1] l t Hl.
  cbn [fst] in Hl. destruct ok; cbn [negb].
  - unfold setProperty. repeat (apply issues_after; [solve [solve_quiet]|intros ?]).
    apply issues_ret. by rewrite app_nil_r, Z.add_0_r.
  - apply issues_after; [solve [solve_quiet]|]. intros _.
    apply issues_after; [apply quiet_stop|]. intros d2. apply issues_ret. by rewrite app_nil_r, Z.add_0_r.
Qed.

End Functions.
