(* ===== verification/DriverTheorems.v ===== *)
(** * Theorems on the IOKit service

    The wait for the firmware, the parsing of capabilities, teardown, and whole
    runs of [start] and [stop] on the simulated platform. *)

From S2P Require Import Prelude Bytes Registers IbVerbs World Wp Cmd CmdSpec CmdInit Qp QpSpec Driver DriverSpec CmdLog Sim.
From S2P Require Import CmdTheorems CmdInitTheorems.

(** ** Waiting for the firmware *)

(** C35. [waitForInitializing] returns success exactly when a read of the register
    shows the initialising bit clear, at its first such read; otherwise it gives
    up after 1000 reads, all with the bit set, and 10 seconds of sleep. *)
Theorem wait_firmware `{P : Platform} d w :
  mmio_mapped (w_maps w) (fInitSeg d + MLX5_ISEG_INITIALIZING) 4 = true ->
  wp (waitForInitializing d) (fun r w' => exists t, io_frame t w w' /\
    let vs := reads_of (fInitSeg d + MLX5_ISEG_INITIALIZING) t in
    (r = kIOReturnSuccess /\ slept t < 10000 /\
       (exists v vs', vs = v :: vs' /\ booting v = false /\ Forall (fun v => booting v = true) vs') \/
     r = kIOReturnTimeout /\ slept t = 10000 /\ length vs = 1000%nat /\
       Forall (fun v => booting v = true) vs)) w.
Proof.
  intros Hm. eapply wp_mono; [by apply wait_loop_spec|].
  intros r w' (t & F & H). exists t. split; [done|]. exact H.
Qed.

Lemma wait_firmware_witness :
  @wp (sim_platform 8 9) _
    (@waitForInitializing (sim_platform 8 9) (Driver 600 3 0x40000000 0x2000000 0x40001000 100))
    (fun r w' => exists t, io_frame t (sim_world_on 8 9 sim_geometry) w' /\
    let vs := reads_of 0x400011FC t in
    (r = kIOReturnSuccess /\ slept t < 10000 /\
       (exists v vs', vs = v :: vs' /\ booting v = false /\ Forall (fun v => booting v = true) vs') \/
     r = kIOReturnTimeout /\ slept t = 10000 /\ length vs = 1000%nat /\
       Forall (fun v => booting v = true) vs)) (sim_world_on 8 9 sim_geometry).
Proof.
  apply (@wait_firmware (sim_platform 8 9) (Driver 600 3 0x40000000 0x2000000 0x40001000 100)).
  by apply (sim_iseg_mapped 8 9 sim_geometry 0x1FC).
Defined.

(** ** Capabilities *)

(** Byte [i] of the capability structure where the comments of [queryHcaCap] put
    it: from offset 8 of the output mailbox on, which is the second half of the
    block of the mailboxes. *)
Definition cap_at (mb : buf) (i : Z) : Z := buf_get mb (4096 + 8 + i).

(** The two fields at the offsets the comments give, 0x61 and 0x18. *)
Definition documented_ports (mb : buf) : Z := Z.land (cap_at mb 0x61) 0x7.
Definition documented_log_max_qp (mb : buf) : Z := Z.land (cap_at mb 0x18) 0x3F.

(** What the driver takes for them.  [mlx5_cmd_exec] has already skipped the 8
    bytes of the mailbox header, and [out_buf + 8] skips 8 bytes more: these are
    bytes 0x69 and 0x20 of the structure. *)
Definition taken_ports (mb : buf) : Z := Z.land (cap_at mb (8 + 0x61)) 0x7.
Definition taken_log_max_qp (mb : buf) : Z := Z.land (cap_at mb (8 + 0x18)) 0x3F.

Lemma cap_byte_reply `{P : Platform} mb i w :
  0 <= i < 1000 ->
  cap_byte (buf_copy (buf_zero 1024) 0 mb (4096 + 8) (out_copy_len 1024)) i w =
    Done (cap_at mb (8 + i)) w.
Proof.
  intros Hi. unfold cap_at, cap_byte, arr_load.
  rewrite (proj2 (in_bounds_spec _ _ _)) by (simpl; lia). cbv [mbind M_bind mret M_ret].
  f_equal. unfold buf_bytes. simpl. rewrite buf_get_copy_in by (change (out_copy_len 1024) with 1024; lia).
  rewrite Z.add_0_r. f_equal. lia.
Qed.

Lemma u32_i32_pow q : 0 <= q < 32 -> u32 (i32 (Z.shiftl 1 q)) = 2 ^ q.
Proof.
  intros Hq. assert (q ∈ seqZ 0 32) as H by (apply elem_of_seqZ; lia). revert H.
  apply (proj1 (Forall_forall (fun q => u32 (i32 (Z.shiftl 1 q)) = 2 ^ q) _)).
  by repeat (constructor; [by vm_compute|]).
Qed.

(** C36. What [queryHcaCap] publishes as the port count and the queue-pair limits
    are the low bits of bytes 0x69 and 0x20 of the capability structure in the
    firmware's reply, not of bytes 0x61 and 0x18, where its comments place the
    two fields: [out_buf + 8] skips the 8 bytes of the mailbox header a second
    time.  The exponent so taken has 6 bits and is used as a shift without a
    check: a fault is an undefined shift, after a command that succeeded with a
    reply whose byte 0x20 holds 32 or more, and no result is published from
    such a reply. *)
Theorem hca_cap `{P : Platform} d c w :
  cmd_ready (fCmdCtx d) c w -> owner_protocol (cmd_ring c) (mbox_pool c) ->
  match queryHcaCap d w with
  | Done r w' =>
      r = kIOReturnSuccess ->
      exists mb t, live_buf (w_heap w') (mbox_pool c) = Some mb /\ taken_log_max_qp mb < 32 /\
        w_trace w' = EvProperty "HCAMaxQPs" (2 ^ taken_log_max_qp mb)
          :: EvProperty "HCALogMaxQP" (taken_log_max_qp mb)
          :: EvProperty "HCANumPorts" (taken_ports mb) :: t
  | Fault f =>
      f = BadShift /\ exists res w' mb,
        mlx5_cmd_exec (fCmdCtx d) MLX5_CMD_OP_QUERY_HCA_CAP 0 None 0
          (Some (buf_zero 1024)) 1024 (Some 0xFF) w = Done res w' /\
        er_ret res = kIOReturnSuccess /\ live_buf (w_heap w') (mbox_pool c) = Some mb /\
        32 <= taken_log_max_qp mb
  end.
Proof.
  intros Hr Hp.
  assert (Hx : wp (mlx5_cmd_exec (fCmdCtx d) MLX5_CMD_OP_QUERY_HCA_CAP 0 None 0
      (Some (buf_zero 1024)) 1024 (Some 0xFF))
    (fun res w' => exists o, exec_reply (fCmdCtx d) c (buf_zero 1024) 1024 w res o w') w)
    by (apply (exec_client _ c); [done|lia|done|by simpl|by eauto]).
  apply wp_run in Hx as (res & w1 & E & o & R).
  unfold queryHcaCap. cbv [mbind M_bind]. rewrite E.
  destruct (io_ok (er_ret res)) eqn:Eok; cbn [negb]; last first.
  { cbv [IOLog emit mret M_ret]. intros Hret. by rewrite Hret in Eok. }
  apply io_ok_true in Eok. rewrite (ey_out _ _ _ _ _ _ _ _ R). cbn [from_option id].
  destruct (ey_copy _ _ _ _ _ _ _ _ R Eok ltac:(lia) Hp) as (mb & Hmb & ->).
  rewrite !(cap_byte_reply mb _ w1) by lia. cbv beta iota zeta.
  fold (taken_ports mb). fold (taken_log_max_qp mb).
  assert (Hq : 0 <= taken_log_max_qp mb) by (apply Z.land_nonneg; by right).
  unfold shl_int1. rewrite (proj2 (Z.leb_le _ _) Hq). cbn [andb].
  destruct (Z.ltb_spec (taken_log_max_qp mb) 32) as [H|H].
  - cbv [IOLog setProperty emit mret M_ret]. intros _. exists mb. eexists.
    split; [exact Hmb|]. split; [done|]. cbn [w_trace put_trace]. f_equal. f_equal.
    by apply u32_i32_pow.
  - cbv [fail]. split; [done|]. by exists res, w1, mb.
Qed.

(** A driver whose context is the one of [sim_world], before the channel is
    used; the reply carries 18 as the exponent. *)
Definition sim_driver : driver := Driver 600 3 0x40000000 0x2000000 0x40001000 100.
Definition sim_caps (q : Z) : sim := sim_fw 0 [(0, replicate 40 0 ++ [q])].

Lemma hca_cap_witness :
  match @queryHcaCap (sim_platform 1 2) sim_driver (sim_world (sim_caps 18)) with
  | Done r w' =>
      r = kIOReturnSuccess ->
      exists mb t, live_buf (w_heap w') 2 = Some mb /\ taken_log_max_qp mb < 32 /\
        w_trace w' = EvProperty "HCAMaxQPs" (2 ^ taken_log_max_qp mb)
          :: EvProperty "HCALogMaxQP" (taken_log_max_qp mb)
          :: EvProperty "HCANumPorts" (taken_ports mb) :: t
  | Fault f =>
      f = BadShift /\ exists res w' mb,
        @mlx5_cmd_exec (sim_platform 1 2) 100 MLX5_CMD_OP_QUERY_HCA_CAP 0 None 0
          (Some (buf_zero 1024)) 1024 (Some 0xFF) (sim_world (sim_caps 18)) = Done res w' /\
        er_ret res = kIOReturnSuccess /\ live_buf (w_heap w') 2 = Some mb /\
        32 <= taken_log_max_qp mb
  end.
Proof.
  apply (@hca_cap (sim_platform 1 2) sim_driver sim_ctx (sim_world (sim_caps 18)));
    [apply sim_ready|apply sim_owner_protocol].
Defined.

(** The fault is reachable: a reply with 33 at byte 0x20. *)
Definition fault_of `{P : Platform} {A} (o : outcome A) : option fault :=
  match o with Done _ _ => None | Fault f => Some f end.

Example hca_cap_bad :
  fault_of (@queryHcaCap (sim_platform 1 2) sim_driver (sim_world (sim_caps 33))) = Some BadShift.
Proof. by vm_compute. Qed.

(** A reply whose documented fields are 1 port and exponent 17, next to other
    bytes [p] and [q] where the driver reads. *)
Definition sim_caps_at (p q : Z) : sim :=
  sim_fw 0 [(0, replicate 32 0 ++ [17] ++ replicate 7 0 ++ [q]
                  ++ replicate 64 0 ++ [1] ++ replicate 7 0 ++ [p])].

(** The documented port count, its exponent, and what was published. *)
Definition published (p q : Z) : option (Z * Z * list event) :=
  match @queryHcaCap (sim_platform 1 2) sim_driver (sim_world (sim_caps_at p q)) with
  | Done _ w => mb ← live_buf (w_heap w) 2;
      Some (documented_ports mb, documented_log_max_qp mb, take 3 (w_trace w))
  | Fault _ => None
  end.

Example hca_cap_misplaced :
  published 2 5 = Some (1, 17, [EvProperty "HCAMaxQPs" 32; EvProperty "HCALogMaxQP" 5;
                                EvProperty "HCANumPorts" 2]) /\
  published 0 0 = Some (1, 17, [EvProperty "HCAMaxQPs" 1; EvProperty "HCALogMaxQP" 0;
                                EvProperty "HCANumPorts" 0]) /\
  published 2 33 = None.
Proof. by vm_compute. Qed.

(** ** Bring-up and teardown *)

(** C12. [start], on any platform whose BAR covers the init segment, and for every
    queue geometry the card may announce but one (a ring of a single entry of 32
    bytes), ends in one of three ways.  It returns true with the command channel
    up, the BAR mapped, the provider retained once, and the service registered
    last.  It returns false and has given back everything: DMA memory, the
    mapping, the provider.  Or it has undefined behaviour at one of three places,
    each with its cause ([start_fault]):
    - [mlx5_cmd_init], reached with the BAR mapped and the firmware booted,
      stores outside the ring while it initialises the entries
      ([init_leaves_ring]), and the announced geometry is bad: entries of fewer
      than 32 bytes, or a ring size that does not fit 32 bits;
    - [queryHcaCap], reached after a successful [initCmdQueue], ENABLE_HCA and
      QUERY_PAGES, shifts by the exponent of a successful reply, which is 32 or
      more;
    - [initCmdQueue] returned an error and left a released ring in the context,
      which the [stop] on the error path of [start] releases again.
    Conversely each of these causes makes [start] fault, so there is no other
    undefined behaviour and these are not assumed away. *)
Theorem start_outcome `{P : Platform} ctx c provider k w :
  card_ok -> fresh_ok w -> w_ctx w !! ctx = Some c -> mbox_md c = NULL -> cmd_ring_md c = NULL ->
  provider <> NULL -> provider < w_next w -> w_objs w !! provider = Some k -> 0 < k ->
  match start (new_driver ctx) provider w with
  | Done rd w' => start_post w provider k ctx rd w'
  | Fault f => start_fault ctx provider w f
  end /\
  (forall f, start_fault ctx provider w f -> start (new_driver ctx) provider w = Fault f).
Proof. intros. split; [by apply (start_spec ctx c)|apply start_fault_faults]. Qed.

(** A card whose registers announce 32 entries of 64 bytes and whose firmware
    has booted; the driver's blocks get the addresses 10 (the mapping), 11 (the
    ring), 12, 13 (the mailboxes), 14. *)
Definition sim_card : Platform := {|
  PS := sim;
  p_run := sim_run 11 13;
  p_mmio_read := fun s _ => (s, OSSwapInt32 0x50600);
  p_mmio_write := fun s _ _ _ => s;
  p_alloc := sim_alloc;
  p_malloc := fun s _ => (s, sim_malloc s);
  p_dma_withSpecification := sim_with_spec;
  p_dma_setMemoryDescriptor := fun s _ => (s, sim_dma_set s);
  p_dma_gen64IOVMSegments := fun s md => (s, (kIOReturnSuccess, 1, 0x200000 + 0x10000 * md));
  p_super_start := fun s => (s, true);
  p_cast_pci := fun s => (s, sim_is_pci s);
  p_config_read := fun s r => (s, sim_config s r);
  p_config_write := fun s _ _ => s;
  p_bar_memory := fun s => (s, Some 0x2000000);
  p_bar_physical := fun s => (s, 0xF0000000);
  p_bar_map := fun s => (s, Some 0x40000000)
|}.

Lemma sim_card_ok : @card_ok sim_card.
Proof.
  split.
  - intros s len [= <-]. by vm_compute.
  - intros s va [= <-] s' [_ H]. by vm_compute in H.
Qed.

(** The provider at address 5, the context at address 6. *)
Definition card_world (s : sim) : @world sim_card :=
  @Mk_world sim_card s ∅ 10 (<[5 := 1]> ∅) ∅ (<[6 := zero_mlx5_cmd_context]> ∅)
    ∅ ∅ ∅ ∅ ∅ ∅ [].

Lemma start_outcome_witness :
  match @start sim_card (new_driver 6) 5 (card_world (sim_fw 0 [])) with
  | Done rd w' => start_post (card_world (sim_fw 0 [])) 5 1 6 rd w'
  | Fault f => start_fault 6 5 (card_world (sim_fw 0 [])) f
  end /\
  (forall f, @start_fault sim_card 6 5 (card_world (sim_fw 0 [])) f ->
     @start sim_card (new_driver 6) 5 (card_world (sim_fw 0 [])) = Fault f).
Proof.
  apply (@start_outcome sim_card 6 zero_mlx5_cmd_context 5 1 (card_world (sim_fw 0 [])));
    [apply sim_card_ok|split; [done|]|done..].
  intros p b. simpl. by rewrite lookup_empty.
Defined.

(** C16. The commands [start] issues are ENABLE_HCA, QUERY_PAGES, QUERY_HCA_CAP and
    INIT_HCA, in this order and once each; when it returns false they are a
    prefix of this sequence, so no command follows a failed one.  All in all
    [start] sleeps at most 10 ms (the set-up of the queue), 10 s (the wait for
    the firmware) and 60 s for each command. *)
Theorem bring_up_order `{P : Platform} d provider w :
  match start d provider w with
  | Done (b, _) w' =>
      exists l, commands (w_trace w') = commands (w_trace w) ++ l /\
        (if b then l = bring_up else l `prefix_of` bring_up) /\
        slept (w_trace w') <= slept (w_trace w) + bring_up_time l
  | Fault _ => True
  end.
Proof.
  pose proof (issues_start d provider w) as H. destruct (start d provider w) as [[b d'] w'|]; [|done].
  destruct H as (l & ms & [= -> ->] & Hl & Ht). exists l. split; [done|]. split; [done|]. lia.
Qed.

(** C21. Teardown.  With the channel up, or never set up, [stop] gives back the
    command memory, the mapping and the provider, clears the members that
    pointed to them, and a further [freeHardware] does nothing; if an earlier
    [mlx5_cmd_init] failed after allocating the ring, [stop] releases the ring a
    second time. *)
Theorem stop_releases `{P : Platform} w0 k d provider w :
  held w0 k d w -> 0 <= k ->
  ((exists c, channel_up w0 (fCmdCtx d) c w) \/ channel_off w0 (fCmdCtx d) w ->
   wp (d' ← stop d provider; d'' ← freeHardware d'; mret (d', d''))
     (fun r w' => r = (torn d, torn d) /\ released w0 (fPCIDevice d) k w') w) /\
  (channel_dangling (fCmdCtx d) w -> stop d provider w = Fault UseAfterFree).
Proof.
  intros Hh Hk. split.
  - intros Hc. pose proof (io_frame_emit (EvLog "stop()" []) w) as F.
    apply wp_bind, wp_bind, wp_log, wp_bind. eapply wp_mono.
    { apply (free_spec w0 k d); [by eapply held_io| |done].
      destruct Hc as [[c Hc]|Hc]; [left; exists c; by eapply channel_up_io|right; by eapply channel_off_io]. }
    intros d' w1 (-> & Hr & c & Hc1 & Hm & Hg). apply wp_bind, wp_emit, wp_ret, wp_bind.
    eapply wp_mono; [apply (free_torn _ c); done|]. intros d' w2 (-> & ->). by apply wp_ret.
  - intros Hc. unfold stop. cbv [mbind M_bind IOLog emit].
    by rewrite free_dangling.
Qed.

(** The world after a successful start, for the witness. *)
Definition sim_held : @world (sim_platform 8 9) :=
  put_objs (<[600 := 2]> ∅) (put_next 700 (sim_world_on 8 9 sim_geometry)).
Definition sim_held0 : @world (sim_platform 8 9) :=
  put_maps ∅ (put_heap ∅ sim_held).

Lemma sim_held_up : @channel_up (sim_platform 8 9) sim_held0 100 sim_ctx sim_held.
Proof.
  destruct (sim_ready 8 9 sim_geometry) as [Hc Hr Hm Hne Hmm].
  split; [by split|done|done| | |].
  - split; [done|]. eexists. split; [apply lookup_insert_eq|done].
  - split; [done|]. exists (Block (buf_zero 8192) 0x100000 1). split; [|done].
    cbn [w_heap sim_held put_objs put_next sim_world_on].
    rewrite lookup_insert_ne by done. apply lookup_insert_eq.
  - intros p b (x & Hx & _)%live_buf_lookup. right. simpl in Hx |- *.
    destruct (decide (p = 1)) as [->|]; [by left|]. destruct (decide (p = 2)) as [->|]; [by right|].
    by rewrite !lookup_insert_ne, lookup_empty in Hx by done.
Qed.

Lemma stop_releases_witness :
  wp (d' ← stop sim_driver 600; d'' ← freeHardware d'; mret (d', d''))
    (fun r w' => r = (torn sim_driver, torn sim_driver) /\ released sim_held0 600 1 w') sim_held.
Proof.
  apply (@stop_releases (sim_platform 8 9) sim_held0 1 sim_driver 600 sim_held); [|done|].
  - split; [done|done|done|]. right. split; [done|]. by exists 0x40000000, 0x2000000.
  - left. exists sim_ctx. apply sim_held_up.
Defined.

(** What a run of [start], then [stop] if it succeeded, leaves: the result of
    [start], the commands issued, the reference counts of the command ring,
    the mailboxes, the mapping and the provider. *)
Definition run_summary (s : sim) : option (bool * list Z * list (option Z)) :=
  match @start sim_card (new_driver 6) 5 (card_world s) with
  | Done (b, d) w =>
      let refs w := [blk_refs <$> w_heap w !! 11; blk_refs <$> w_heap w !! 13;
                     map_refs <$> w_maps w !! 10; w_objs w !! 5] in
      match (if b then stop d 5 else mret d) w with
      | Done _ w' => Some (b, commands (w_trace w'), refs w ++ refs w')
      | Fault _ => None
      end
  | Fault _ => None
  end.

Example run_good :
  run_summary (sim_fw 1 [(0, []); (0, []); (0, []); (0, [])]) =
    Some (true, bring_up, [Some 1; Some 1; Some 1; Some 2; Some 0; Some 0; Some 0; Some 1]).
Proof. by vm_compute. Qed.

Example run_refused :
  run_summary (sim_fw 1 [(0, []); (0, [5])]) =
    Some (false, take 2 bring_up,
          [Some 0; Some 0; Some 0; Some 1; Some 0; Some 0; Some 0; Some 1]).
Proof. by vm_compute. Qed.

(** If the creation of the ring's [IODMACommand] fails, [start] itself runs into
    the second release: its error path calls [stop], and [stop] calls
    [mlx5_cmd_cleanup] on the context the failed [mlx5_cmd_init] left behind.
    The same happens when the allocation of the mailboxes fails. *)
Theorem start_double_release :
  fault_of (@start sim_card (new_driver 6) 5 (card_world (sim_set_dma [false] (sim_fw 0 [])))) =
    Some UseAfterFree /\
  fault_of (@start sim_card (new_driver 6) 5 (card_world (sim_set_allocs [true; false] (sim_fw 0 [])))) =
    Some UseAfterFree.
Proof. by vm_compute. Qed.
