(* ===== verification/Keep.v ===== *)
(** * What a function leaves alone

    [gentle m]: whatever the world, when [m] completes, the mapped BARs, the
    device structs and everything of the command contexts but their counters
    are as before, the protection domains and completion queues still belong to
    the same devices, and

    - the DMA blocks in [K], which existed before, keep their size and their
      reference count (only their contents may change);
    - the queue pairs outside [U] are untouched;
    - memory regions older than the address [n] are untouched.

    The judgement is about effects only and says nothing of faults; it is derived
    from a function's primitives, with the tactic [solve_gentle], and complements
    the specifications of the components, which show that there is no fault. *)

From S2P Require Import Prelude Bytes Registers IbVerbs World Wp Cmd CmdSpec Qp Mr Verbs.

(** A command context without what commands change. *)
Definition geometry (c : mlx5_cmd_context) : mlx5_cmd_context :=
  set_failed_commands 0 (set_total_commands 0 (set_next_token 0 c)).

Create HintDb gentle.

Section Keep.
Context `{P : Platform} (K U : ptr -> Prop) (n : Z).

Definition mr_fresh (w : world) : Prop := forall p, is_Some (w_mr w !! p) -> p < w_next w.

Record keeps (w w' : world) : Prop := {
  k_next : w_next w <= w_next w';
  k_fresh : fresh_ok w -> fresh_ok w';
  k_blocks : forall p, K p -> block_shape <$> w_heap w' !! p = block_shape <$> w_heap w !! p;
  k_maps : w_maps w' = w_maps w;
  k_objs : w_objs w' = w_objs w;
  k_ibdev : w_ibdev w' = w_ibdev w;
  k_mdev : w_mdev w' = w_mdev w;
  k_ctx : geometry <$> w_ctx w' = geometry <$> w_ctx w;
  k_pd : pd_device <$> w_pd w' = pd_device <$> w_pd w;
  k_cq : cq_device <$> w_cq w' = cq_device <$> w_cq w;
  k_qp : forall p, ~ U p -> w_qp w' !! p = w_qp w !! p;
  k_qps : dom (w_qp w') = dom (w_qp w);
  k_mr : forall p, p < n -> w_mr w' !! p = w_mr w !! p;
  k_mrs : mr_fresh w -> mr_fresh w'
}.

#[global] Instance keeps_preorder : PreOrder keeps.
Proof.
  split.
  - intros w. by split.
  - intros w1 w2 w3 H1 H2.
    split; first
      [ pose proof (k_next _ _ H1); pose proof (k_next _ _ H2); lia
      | intros Hf; apply H2, H1, Hf
      | intros p Hp; etrans; [by apply H2|by apply H1]
      | etrans; [apply H2|apply H1] ].
Qed.

Definition guar {A} (m : M A) (w : world) : Prop :=
  match m w with Done _ w' => keeps w w' | Fault _ => True end.

Definition gentle {A} (m : M A) : Prop := forall w, n <= w_next w -> guar m w.

Lemma guar_done {A} (m : M A) w a w' : guar m w -> m w = Done a w' -> keeps w w'.
Proof. unfold guar. intros H E. by rewrite E in H. Qed.

Lemma guar_bind {A B} (m : M A) (k : A -> M B) w :
  n <= w_next w -> guar m w ->
  (forall a w1, m w = Done a w1 -> n <= w_next w1 -> guar (k a) w1) -> guar (m ≫= k) w.
Proof.
  unfold guar. intros Hn Hm Hk. cbv [mbind M_bind]. destruct (m w) as [a w1|] eqn:E; [|done].
  specialize (Hk a w1 eq_refl). pose proof (k_next _ _ Hm).
  destruct (k a w1); [|done]. etrans; [exact Hm|]. apply Hk. lia.
Qed.

Lemma gentle_ret {A} (a : A) : gentle (mret a).
Proof. by intros w _. Qed.

Lemma gentle_bind {A B} (m : M A) (k : A -> M B) :
  gentle m -> (forall a, gentle (k a)) -> gentle (m ≫= k).
Proof. intros H1 H2 w Hn. apply guar_bind; [done|by apply H1|]. intros a w1 _ Hn1. by apply H2. Qed.

Lemma gentle_assoc {A B C} (m : M A) (f : A -> M B) (k : B -> M C) :
  gentle (m ≫= fun a => f a ≫= k) -> gentle ((m ≫= f) ≫= k).
Proof.
  intros H w Hn. specialize (H w Hn). unfold guar in *. cbv [mbind M_bind] in *.
  by destruct (m w).
Qed.

(** ** Primitives *)

Lemma keeps_io t w w' : io_frame t w w' -> keeps w w'.
Proof.
  intros (s & h & -> & Hs). split; simpl; try done.
  - intros [H1 H2]. split; [done|]. intros p b Hb. simpl in Hb.
    destruct (heap_shape_lookup _ _ _ _ Hs Hb) as (b' & Hb' & _). by eapply H2.
  - intros p _. by apply heap_shape_at.
Qed.

(** An action that only does input/output. *)
Lemma gentle_io {A} (m : M A) :
  (forall w, match m w with Done _ w' => exists t, io_frame t w w' | Fault _ => True end) ->
  gentle m.
Proof.
  intros H w _. specialize (H w). unfold guar. destruct (m w); [|done].
  destruct H as (t & H). by eapply keeps_io.
Qed.

Lemma io_put_ps (s : PS) w : exists t, io_frame t w (put_ps s w).
Proof. exists [], s, (w_heap w). by destruct w. Qed.
Lemma io_put_ps_event (s : PS) e w : exists t, io_frame t w (put_trace (e :: w_trace w) (put_ps s w)).
Proof. exists [e], s, (w_heap w). by destruct w. Qed.
Lemma io_refl w : exists t, io_frame t w w.
Proof. exists []. apply io_frame_refl. Qed.
#[local] Hint Resolve io_put_ps io_put_ps_event io_refl : core.

Lemma gentle_fail {A} f : gentle (@fail P A f).
Proof. done. Qed.
Lemma gentle_deref {T} `{!Cell T} p : gentle (deref p).
Proof. apply gentle_io. intros w. unfold deref. by destruct (_ !! _). Qed.
Lemma gentle_emit e : gentle (emit e).
Proof. apply gentle_io. intros w. eexists. apply io_frame_emit. Qed.
Lemma gentle_run_device : gentle run_device.
Proof. apply gentle_io. intros w. eexists. apply io_frame_device_run. Qed.
Lemma gentle_sleep ms : gentle (IOSleep ms).
Proof. apply gentle_bind; [apply gentle_emit|]. intros _. apply gentle_run_device. Qed.
Lemma gentle_mem_update p o k bs f :
  (forall b, buf_size (f b) = buf_size b) -> gentle (mem_update p o k bs f).
Proof.
  intros Hf. apply gentle_io. intros w. unfold mem_update.
  destruct (live_buf _ _); [|done]. destruct (in_bounds _ _ _); [|done].
  exists [EvStore p o bs], (w_ps w), (upd_buf p f (w_heap w)).
  split; [by destruct w|by apply heap_shape_upd].
Qed.
Lemma gentle_mem_peek p o k : gentle (mem_peek p o k).
Proof.
  apply gentle_io. intros w. unfold mem_peek. destruct (live_buf _ _); [|done].
  by destruct (in_bounds _ _ _).
Qed.
Lemma gentle_mem_get p o k : gentle (mem_get p o k).
Proof. apply gentle_bind; [apply gentle_run_device|]. intros _. apply gentle_mem_peek. Qed.
Lemma gentle_mem_load p o k : gentle (mem_load p o k).
Proof. apply gentle_bind; [apply gentle_mem_get|]. intros b. apply gentle_ret. Qed.
Lemma gentle_mem_copy_in p o src so k : gentle (mem_copy_in p o src so k).
Proof.
  unfold mem_copy_in. destruct (in_bounds _ _ _); [by apply gentle_mem_update|apply gentle_fail].
Qed.
Lemma gentle_md_bytes p : gentle (md_getBytesNoCopy p).
Proof. apply gentle_io. intros w. unfold md_getBytesNoCopy. by destruct (live_buf _ _). Qed.
Lemma gentle_md_phys p : gentle (md_getPhysicalAddress p).
Proof.
  apply gentle_io. intros w. unfold md_getPhysicalAddress. destruct (_ !! _); [|done].
  by destruct (0 <? _).
Qed.
Lemma gentle_arr_load b o k : gentle (arr_load b o k).
Proof. apply gentle_io. intros w. unfold arr_load. destruct (in_bounds _ _ _); [apply io_refl|done]. Qed.
Lemma gentle_arr_store b o bs : gentle (arr_store b o bs).
Proof. apply gentle_io. intros w. unfold arr_store. destruct (in_bounds _ _ _); [apply io_refl|done]. Qed.
Lemma gentle_mmio_write k a v : gentle (mmio_write k a v).
Proof. apply gentle_io. intros w. unfold mmio_write. by destruct (mmio_mapped _ _ _). Qed.
Lemma gentle_shl_u32 x k : gentle (shl_u32 x k).
Proof. apply gentle_io. intros w. unfold shl_u32. destruct (_ && _); [apply io_refl|done]. Qed.
Lemma gentle_shl_int1 k : gentle (shl_int1 k).
Proof. apply gentle_io. intros w. unfold shl_int1. destruct (_ && _); [apply io_refl|done]. Qed.
Lemma gentle_mwhen c m : gentle m -> gentle (mwhen c m).
Proof. destruct c; [done|]. intros _. apply gentle_ret. Qed.
Lemma gentle_for_range k i body : (forall j, gentle (body j)) -> gentle (for_range k i body).
Proof.
  intros H. revert i; induction k; intros; [apply gentle_ret|]. by apply gentle_bind.
Qed.

(** Stores of structs. *)
Lemma fmap_insert_same {A B} (f : A -> B) (m : gmap Z A) p x y :
  m !! p = Some x -> f y = f x -> f <$> <[p := y]> m = f <$> m.
Proof.
  intros Hx Hf. rewrite fmap_insert, Hf. apply insert_id. by rewrite lookup_fmap, Hx.
Qed.

Lemma gentle_modify_ctx p (f : mlx5_cmd_context -> mlx5_cmd_context) :
  (forall c, geometry (f c) = geometry c) -> gentle (modify p f).
Proof.
  intros Hf w _. unfold guar, modify. cbn. destruct (w_ctx w !! p) as [c|] eqn:Hc; [|done].
  split; try done. simpl. eapply fmap_insert_same; [exact Hc|apply Hf].
Qed.
Lemma gentle_modify_pd p (f : ib_pd -> ib_pd) :
  (forall x, pd_device (f x) = pd_device x) -> gentle (modify p f).
Proof.
  intros Hf w _. unfold guar, modify. cbn. destruct (w_pd w !! p) as [x|] eqn:Hx; [|done].
  split; try done. simpl. eapply fmap_insert_same; [exact Hx|apply Hf].
Qed.
Lemma gentle_modify_cq p (f : ib_cq -> ib_cq) :
  (forall x, cq_device (f x) = cq_device x) -> gentle (modify p f).
Proof.
  intros Hf w _. unfold guar, modify. cbn. destruct (w_cq w !! p) as [x|] eqn:Hx; [|done].
  split; try done. simpl. eapply fmap_insert_same; [exact Hx|apply Hf].
Qed.
Lemma keeps_put_qp p x y w : U p -> w_qp w !! p = Some x -> keeps w (put_qp (<[p := y]> (w_qp w)) w).
Proof.
  intros Hp Hx. split; try done; simpl.
  - intros q Hq. rewrite lookup_insert_ne; [done|]. by intros ->.
  - apply dom_insert_lookup_L. by exists x.
Qed.
Lemma gentle_modify_qp p (f : mlx5_ib_qp -> mlx5_ib_qp) : U p -> gentle (modify p f).
Proof.
  intros Hp w _. unfold guar, modify. cbn. destruct (w_qp w !! p) as [x|] eqn:Hx; [|done].
  by eapply keeps_put_qp.
Qed.
Lemma gentle_assign_qp p (x : mlx5_ib_qp) : U p -> gentle (assign p x).
Proof.
  intros Hp w _. unfold guar, assign. cbn. destruct (w_qp w !! p) as [y|] eqn:Hy; [|done].
  by eapply keeps_put_qp.
Qed.
Lemma keeps_put_mr p x y w :
  n <= p -> w_mr w !! p = Some x -> keeps w (put_mr (<[p := y]> (w_mr w)) w).
Proof.
  intros Hp Hx. split; try done; simpl.
  - intros q Hq. rewrite lookup_insert_ne by lia. done.
  - intros Hf q Hq. apply Hf. simpl in Hq. destruct (decide (q = p)) as [->|]; [by exists x|].
    by rewrite lookup_insert_ne in Hq.
Qed.
Lemma gentle_modify_mr p (f : mlx5_ib_mr -> mlx5_ib_mr) : n <= p -> gentle (modify p f).
Proof.
  intros Hp w _. unfold guar, modify. cbn. destruct (w_mr w !! p) as [x|] eqn:Hx; [|done].
  by eapply keeps_put_mr.
Qed.
Lemma gentle_assign_mr p (x : mlx5_ib_mr) : n <= p -> gentle (assign p x).
Proof.
  intros Hp w _. unfold guar, assign. cbn. destruct (w_mr w !! p) as [y|] eqn:Hy; [|done].
  by eapply keeps_put_mr.
Qed.

(** Allocation: what it returns is not among the blocks that are kept. *)
Context (HK : forall p, K p -> p < n).

Lemma gentle_md_alloc {B} size (k : ptr -> M B) :
  (forall p, p = NULL \/ n <= p -> gentle (k p)) -> gentle (md_alloc size ≫= k).
Proof.
  intros Hk w Hn. apply guar_bind; [done| |].
  - unfold guar, md_alloc. destruct (p_alloc _ _) as [s [[dma contents]|]].
    + split; try done; simpl; [lia| | |].
      * intros [H1 H2]. split; simpl; [lia|]. intros p b Hb. simpl in Hb.
        destruct (decide (p = w_next w)) as [->|]; [lia|].
        rewrite lookup_insert_ne in Hb by done. apply H2 in Hb. lia.
      * intros p Hp. apply HK in Hp. by rewrite lookup_insert_ne by lia.
      * intros H p Hp. apply H in Hp. simpl. lia.
    + destruct (io_put_ps s w) as (t & F). by eapply keeps_io.
  - intros p w1 E Hn1. apply Hk; [|done]. unfold md_alloc in E.
    destruct (p_alloc _ _) as [s [[]|]]; simplify_eq; auto.
Qed.

Lemma gentle_malloc_mr {B} size (x : mlx5_ib_mr) (k : ptr -> M B) :
  (forall p, p = NULL \/ n <= p -> gentle (k p)) -> gentle (IOMalloc size x ≫= k).
Proof.
  intros Hk w Hn. apply guar_bind; [done| |].
  - unfold guar, IOMalloc. destruct (p_malloc _ _) as [s []].
    + split; try done; simpl; [lia| | |].
      * intros [H1 H2]. split; simpl; [lia|]. intros p b Hb. apply H2 in Hb. lia.
      * intros p Hp. by rewrite lookup_insert_ne by lia.
      * intros H p Hp. simpl in *. destruct (decide (p = w_next w)) as [->|]; [lia|].
        rewrite lookup_insert_ne in Hp by done. apply H in Hp. lia.
    + destruct (io_put_ps s w) as (t & F). by eapply keeps_io.
  - intros p w1 E Hn1. apply Hk; [|done]. unfold IOMalloc in E.
    destruct (p_malloc _ _) as [s []]; simplify_eq; auto.
Qed.

Lemma gentle_md_release p : ~ K p -> gentle (md_release p).
Proof.
  intros Hp w _. unfold guar, md_release. destruct (w_heap w !! p) as [b|] eqn:Hb; [|done].
  destruct (0 <? _); [|done]. split; try done; simpl.
  - intros [H1 H2]. split; [done|]. intros q x Hx. simpl in *.
    destruct (decide (q = p)) as [->|]; [by eapply H2|].
    rewrite lookup_insert_ne in Hx by done. by eapply H2.
  - intros q Hq. rewrite lookup_insert_ne; [done|]. by intros ->.
Qed.
End Keep.

#[export] Hint Resolve gentle_ret gentle_fail gentle_deref gentle_emit gentle_run_device
  gentle_sleep gentle_mem_peek gentle_mem_get gentle_mem_load gentle_mem_copy_in gentle_md_bytes
  gentle_md_phys gentle_arr_load gentle_arr_store gentle_mmio_write gentle_shl_u32
  gentle_shl_int1 gentle_modify_qp gentle_assign_qp gentle_modify_mr gentle_assign_mr
  gentle_md_release : gentle.

(** Derive [gentle] of a function by walking over it; the pointer of an
    allocation is null or new. *)
Ltac gentle_step :=
  lazymatch goal with
  | |- forall _, _ => intro
  | |- gentle _ _ _ (mbind _ (md_alloc _)) =>
      apply gentle_md_alloc; [assumption|]; intros ? [->|?]; [change (NULL =? NULL) with true; cbv iota|]
  | |- gentle _ _ _ (mbind _ (IOMalloc _ _)) =>
      apply gentle_malloc_mr; intros ? [->|?]; [change (NULL =? NULL) with true; cbv iota|]
  | |- gentle _ _ _ (mbind _ _) => apply gentle_bind
  | |- gentle _ _ _ (IOLog _ _) => apply gentle_emit
  | |- gentle _ _ _ OSSynchronizeIO => apply gentle_emit
  | |- gentle _ _ _ (mem_store _ _ _) => by apply gentle_mem_update
  | |- gentle _ _ _ (mem_fill _ _ _ _) => by apply gentle_mem_update
  | |- gentle _ _ _ (mwhen _ _) => apply gentle_mwhen
  | |- gentle _ _ _ (for_range _ _ _) => apply gentle_for_range
  | |- gentle _ _ _ (modify (T := mlx5_cmd_context) _ _) => by apply gentle_modify_ctx
  | |- gentle _ _ _ (modify (T := ib_pd) _ _) => by apply gentle_modify_pd
  | |- gentle _ _ _ (modify (T := ib_cq) _ _) => by apply gentle_modify_cq
  | |- gentle _ _ _ (let '_ := ?x in _) => destruct x
  | |- gentle _ _ _ (if ?b then _ else _) => destruct b
  | |- gentle _ _ _ (match ?x with _ => _ end) => destruct x
  | |- gentle _ _ _ _ => first [solve [eauto with gentle] | progress cbv zeta]
  end.
Ltac solve_gentle := repeat gentle_step.

(** ** The verbs *)

Section Functions.
Context `{P : Platform} (K U : ptr -> Prop) (n : Z) (HK : forall p, K p -> p < n).

Lemma not_kept p : n <= p -> ~ K p.
Proof. intros Hp H%HK. lia. Qed.
#[local] Hint Resolve not_kept : gentle.

#[local] Abbreviation gentle := (gentle K U n).

Lemma gentle_take_token ctx : gentle (cmd_take_token ctx).
Proof. unfold cmd_take_token. solve_gentle. Qed.

Lemma gentle_submit c slot token opcode op_mod in_data in_len out_len :
  gentle (cmd_submit c slot token opcode op_mod in_data in_len out_len).
Proof.
  unfold cmd_submit, st8, st16, st32, st64, iseg_write32, mmio_write32. cbv zeta. solve_gentle.
Qed.

Lemma gentle_poll k ring entry : gentle (cmd_poll k ring entry).
Proof. induction k as [|k IH]; simpl; unfold ld8; solve_gentle. Qed.

Lemma gentle_finish ctx c slot opcode d out out_len status :
  gentle (cmd_finish ctx c slot opcode d out out_len status).
Proof. unfold cmd_finish, cmd_read_response, copy_out, ld8, ld32. cbv zeta. solve_gentle. Qed.
#[local] Hint Resolve gentle_take_token gentle_submit gentle_poll gentle_finish : gentle.

Lemma gentle_exec ctx opcode op_mod in_data in_len out out_len status :
  gentle (mlx5_cmd_exec ctx opcode op_mod in_data in_len out out_len status).
Proof. unfold mlx5_cmd_exec. cbv zeta. solve_gentle. Qed.

Lemma gentle_to_mdev d : gentle (to_mdev d).
Proof. unfold to_mdev. solve_gentle. Qed.
#[local] Hint Resolve gentle_exec gentle_to_mdev : gentle.

Lemma gentle_alloc_pd pd udata : gentle (mlx5_ib_alloc_pd pd udata).
Proof. unfold mlx5_ib_alloc_pd. solve_gentle. Qed.
Lemma gentle_dealloc_pd pd udata : gentle (mlx5_ib_dealloc_pd pd udata).
Proof. unfold mlx5_ib_dealloc_pd. solve_gentle. Qed.
Lemma gentle_create_cq cq attr udata : gentle (mlx5_ib_create_cq cq attr udata).
Proof. unfold mlx5_ib_create_cq, md_clear, cq_input. solve_gentle. Qed.
Lemma gentle_destroy_cq cq udata : gentle (mlx5_ib_destroy_cq cq udata).
Proof. unfold mlx5_ib_destroy_cq. solve_gentle. Qed.
Lemma gentle_dereg_mr mr udata : gentle (mlx5_ib_dereg_mr mr udata).
Proof. unfold mlx5_ib_dereg_mr, dereg_input. solve_gentle. Qed.
Lemma gentle_query_device dev attr uhw : gentle (mlx5_ib_query_device dev attr uhw).
Proof. unfold mlx5_ib_query_device. solve_gentle. Qed.

(** The page list that is returned is null or new. *)
Lemma gentle_build_pas {B} base len (k : _ -> M B) :
  (forall pas npages md, pas = NULL \/ n <= md -> gentle (k (pas, npages, md))) ->
  gentle (build_pas_list base len ≫= k).
Proof.
  intros Hk. unfold build_pas_list. cbv zeta. apply gentle_assoc, gentle_md_alloc; [done|].
  intros p Hp. destruct (Z.eqb_spec p NULL).
  - apply gentle_assoc, gentle_bind; [solve_gentle|]. intros _. apply Hk. by left.
  - apply gentle_assoc, gentle_bind; [solve_gentle|]. intros q.
    apply gentle_assoc, gentle_bind; [solve_gentle|]. intros _.
    apply gentle_assoc, gentle_bind; [unfold st64; solve_gentle|]. intros _.
    apply Hk. tauto.
Qed.

Lemma gentle_reg_mr pd start length virt_addr flags ctx :
  gentle (mlx5_ib_reg_user_mr_full pd start length virt_addr flags ctx).
Proof.
  unfold mlx5_ib_reg_user_mr_full. apply gentle_bind; [solve_gentle|]. intros _.
  apply gentle_build_pas. intros pas npages md [->|Hmd];
    [change (NULL =? NULL) with true; cbv iota|]; unfold mkc_input, fill_mr; solve_gentle.
Qed.

Lemma gentle_modify_qp_full qp mask attr ctx : U qp -> gentle (mlx5_ib_modify_qp_full qp mask attr ctx).
Proof. intros HU. unfold mlx5_ib_modify_qp_full, qpc_state, arr_or8. solve_gentle. Qed.
Lemma gentle_post_send qp wr bad : U qp -> gentle (mlx5_ib_post_send_full qp wr bad).
Proof. intros HU. unfold mlx5_ib_post_send_full, st32, mmio_write64. solve_gentle. Qed.
Lemma gentle_post_recv qp wr bad : U qp -> gentle (mlx5_ib_post_recv_full qp wr bad).
Proof. intros HU. unfold mlx5_ib_post_recv_full, st32, st64. solve_gentle. Qed.
Lemma gentle_alloc_qp qp a b c d : U qp -> gentle (alloc_qp_resources qp a b c d).
Proof. intros HU. unfold alloc_qp_resources, md_clear. solve_gentle. Qed.
End Functions.

(** The two functions that release blocks they did not allocate themselves: no
    claim about blocks. *)
Section Releasing.
Context `{P : Platform} (U : ptr -> Prop) (n : Z).

#[local] Abbreviation gentle := (gentle (fun _ => False) U n).

Lemma gentle_release_any p : gentle (md_release p).
Proof. apply gentle_md_release. by intros []. Qed.
Lemma gentle_exec_any ctx opcode op_mod in_data in_len out out_len status :
  gentle (mlx5_cmd_exec ctx opcode op_mod in_data in_len out out_len status).
Proof. by apply gentle_exec. Qed.
#[local] Hint Resolve gentle_release_any gentle_exec_any : gentle.

Lemma gentle_destroy_qp qp ctx : gentle (mlx5_ib_destroy_qp_full qp ctx).
Proof. unfold mlx5_ib_destroy_qp_full. solve_gentle. Qed.

Lemma gentle_create_qp qp init ctx : U qp -> gentle (mlx5_ib_create_qp_full qp init ctx).
Proof.
  intros HU. unfold mlx5_ib_create_qp_full. cbv zeta.
  apply gentle_bind; [solve_gentle|]. intros _. apply gentle_bind; [solve_gentle|]. intros _.
  apply gentle_bind; [by apply gentle_alloc_qp|]. intros r.
  unfold create_command, qpc_sizes, qpc_addresses, arr_or8. solve_gentle.
Qed.
End Releasing.

Lemma wp_keeps `{P : Platform} {A} K U (m : M A) (Q : A -> world -> Prop) w :
  wp m Q w -> gentle K U (w_next w) m ->
  wp m (fun a w' => Q a w' /\ keeps K U (w_next w) w w') w.
Proof.
  intros HQ Hm. destruct (wp_run _ _ _ HQ) as (a & w' & E & Ha). apply (wp_done _ _ _ _ _ E).
  split; [done|]. eapply guar_done; [by apply Hm|exact E].
Qed.

(** What is kept, read off blocks and contexts. *)
Lemma shape_at_live (h h' : gmap Z block) p b :
  block_shape <$> h' !! p = block_shape <$> h !! p -> live_buf h p = Some b ->
  exists b', live_buf h' p = Some b' /\ buf_size b' = buf_size b.
Proof.
  intros H Hb. destruct (live_buf_lookup _ _ _ Hb) as (x & Hx & <- & Hr). rewrite Hx in H.
  destruct (h' !! p) as [y|] eqn:Hy; [|done]. simpl in H. injection H as E1 _ E3.
  exists (blk_buf y). split; [|done]. unfold live_buf. rewrite Hy, E3.
  by rewrite (proj2 (Z.ltb_lt _ _) Hr).
Qed.

Lemma shape_at_blk (h h' : gmap Z block) p b :
  block_shape <$> h' !! p = block_shape <$> h !! p -> h !! p = Some b ->
  exists b', h' !! p = Some b' /\ blk_refs b' = blk_refs b.
Proof.
  intros H Hb. rewrite Hb in H. destruct (h' !! p) as [y|]; [|done]. simpl in H.
  injection H as _ _ E3. by exists y.
Qed.

Lemma cmd_ready_keeps `{P : Platform} K U n ctx c w w' :
  keeps K U n w w' -> cmd_ready ctx c w ->
  (forall p, p ∈ [cmd_ring c; mbox_pool c] ->
     block_shape <$> w_heap w' !! p = block_shape <$> w_heap w !! p) ->
  exists c', cmd_ready ctx c' w' /\ geometry c' = geometry c.
Proof.
  intros Hk [Hc (r & Hr & Hrs) (m & Hm & Hms) Hne Hmm] Hh.
  pose proof (f_equal (fun m => m !! ctx) (k_ctx _ _ _ _ _ Hk)) as E.
  rewrite !lookup_fmap, Hc in E. destruct (w_ctx w' !! ctx) as [c'|] eqn:Hc'; [|done].
  simpl in E. assert (G : geometry c' = geometry c) by congruence. clear E.
  assert (Er : cmd_ring c' = cmd_ring c) by exact (f_equal cmd_ring G).
  assert (Em : mbox_pool c' = mbox_pool c) by exact (f_equal mbox_pool G).
  assert (Ei : iseg c' = iseg c) by exact (f_equal iseg G).
  destruct (shape_at_live _ (w_heap w') _ _ (Hh (cmd_ring c) ltac:(set_solver)) Hr) as (r' & Hr' & Hrs').
  destruct (shape_at_live _ (w_heap w') _ _ (Hh (mbox_pool c) ltac:(set_solver)) Hm) as (m' & Hm' & Hms').
  exists c'. split; [|done].
  split; [done|exists r'; rewrite Er; split; [done|lia]|exists m'; rewrite Em; split; [done|lia]| |].
  - by rewrite Er, Em.
  - by rewrite Ei, (k_maps _ _ _ _ _ Hk).
Qed.
