(* ===== verification/Session.v ===== *)
(** * The device in service

    The components together: a device whose verbs are called in any order, with
    the card acting between the calls.  [vstep] is one step of such a session;
    [in_service] is its invariant, over the whole state: the command channel,
    the objects of the clients, the open queue pairs with their rings, and who
    owns which DMA block. *)

From S2P Require Import Prelude Bytes Registers IbVerbs World Wp Cmd CmdSpec CmdInit Qp QpSpec Mr Verbs Sim CmdTheorems CmdInitTheorems QpTheorems MrTheorems VerbsTheorems Keep.

(** A call of a client. *)
Inductive vcall :=
  | AllocPd (pd : ptr)
  | DeallocPd (pd : ptr)
  | CreateCq (cq : ptr)
  | DestroyCq (cq : ptr)
  | CreateQp (qp : ptr) (init : ib_qp_init_attr)
  | ModifyQp (qp : ptr) (attr_mask : Z)
  | PostSend (qp wr : ptr)
  | PostRecv (qp wr : ptr)
  | DestroyQp (qp : ptr)
  | RegMr (pd : ptr) (start length virt_addr access_flags : Z)
  | DeregMr (mr : ptr)
  | QueryDevice (ibdev : ptr) (attr : option ib_device_attr).

(** The three blocks of a queue pair. *)
Definition mds (q : mlx5_ib_qp) : list ptr := [sq_md q; rq_md q; db_md q].

Section Session.
Context `{P : Platform} (ctx : ptr).

Definition run_call (c : vcall) : M Z :=
  match c with
  | AllocPd pd => mlx5_ib_alloc_pd pd NULL
  | DeallocPd pd => mlx5_ib_dealloc_pd pd NULL
  | CreateCq cq => mlx5_ib_create_cq cq NULL NULL
  | DestroyCq cq => mlx5_ib_destroy_cq cq NULL
  | CreateQp qp init => mlx5_ib_create_qp_full qp init ctx
  | ModifyQp qp mask => mlx5_ib_modify_qp_full qp mask NULL ctx
  | PostSend qp wr => mlx5_ib_post_send_full qp wr NULL
  | PostRecv qp wr => mlx5_ib_post_recv_full qp wr NULL
  | DestroyQp qp => mlx5_ib_destroy_qp_full qp ctx
  | RegMr pd start len va flags => mlx5_ib_reg_user_mr_full pd start len va flags ctx
  | DeregMr mr => mlx5_ib_dereg_mr mr NULL
  | QueryDevice d attr => r ← mlx5_ib_query_device d attr NULL; mret r.1
  end.

(** What the clients hold: the open queue pairs and the registered regions. *)
Record held := Held { h_qps : gset ptr; h_mrs : gset ptr }.

Definition after_call (c : vcall) (r : Z) (s : held) : held :=
  match c with
  | CreateQp qp _ => if r =? 0 then Held ({[qp]} ∪ h_qps s) (h_mrs s) else s
  | DestroyQp qp => Held (h_qps s ∖ {[qp]}) (h_mrs s)
  | RegMr _ _ _ _ _ => if r =? NULL then s else Held (h_qps s) ({[r]} ∪ h_mrs s)
  | _ => s
  end.

(** The discipline of the callers: objects exist, and a queue pair is used
    between its creation and its destruction. *)
Definition legal (s : held) (w : world) (c : vcall) : Prop :=
  match c with
  | AllocPd pd | DeallocPd pd => is_Some (w_pd w !! pd)
  | CreateCq cq | DestroyCq cq => is_Some (w_cq w !! cq)
  | CreateQp qp init =>
      ~ (qp ∈ h_qps s) /\ is_Some (w_qp w !! qp) /\
      cq_valid w (init_send_cq init) /\ cq_valid w (init_recv_cq init)
  | ModifyQp qp _ | PostSend qp _ | PostRecv qp _ | DestroyQp qp => qp ∈ h_qps s
  | RegMr pd _ _ _ _ => pd <> NULL /\ is_Some (w_pd w !! pd)
  | DeregMr mr => mr ∈ h_mrs s
  | QueryDevice d _ => dev_ctx w d ctx
  end.

Inductive vstep : held * world -> held * world -> Prop :=
  | vstep_call s w c r w' :
      legal s w c -> run_call c w = Done r w' -> vstep (s, w) (after_call c r s, w')
  | vstep_device s w : vstep (s, w) (s, device_run w).

(** ** The invariant *)

Record qp_open (q : mlx5_ib_qp) (h : gmap Z block) : Prop := {
  qo_wf : qp_wf q h;
  qo_blocks : exists b1 b2 b3, qp_blocks q h b1 b2 b3 /\
    blk_refs b1 = 1 /\ blk_refs b2 = 1 /\ blk_refs b3 = 1;
  qo_bufs : [sq_buf q; rq_buf q; db_record q] = mds q;
  qo_uar : uar q = NULL;
  qo_sync : state_sync q
}.

(** Everything but the queue pairs. *)
Record base (mrs : gset ptr) (w : world) : Prop := {
  b_fresh : fresh_ok w;
  b_mr_fresh : mr_fresh w;
  b_pd : map_Forall (fun _ p => dev_ctx w (pd_device p) ctx) (w_pd w);
  b_cq : map_Forall (fun _ q => dev_ctx w (cq_device q) ctx) (w_cq w);
  b_mr : forall mr, mr ∈ mrs -> exists m, w_mr w !! mr = Some m /\ dev_ctx w (mr_device (ibmr m)) ctx
}.

(** The open queue pairs are well-formed; their blocks and those of the channel
    are pairwise different. *)
Record qps_ok (qps : gset ptr) (chan : list ptr) (w : world) : Prop := {
  q_open : forall p, p ∈ qps -> exists q, w_qp w !! p = Some q /\ qp_open q (w_heap w);
  q_chan : forall p q b, p ∈ qps -> w_qp w !! p = Some q -> b ∈ mds q -> ~ (b ∈ chan);
  q_apart : forall p1 p2 q1 q2 b, p1 ∈ qps -> p2 ∈ qps -> p1 <> p2 ->
    w_qp w !! p1 = Some q1 -> w_qp w !! p2 = Some q2 -> b ∈ mds q1 -> ~ (b ∈ mds q2)
}.

Definition chan (c : mlx5_cmd_context) : list ptr := [cmd_ring c; mbox_pool c].

(** The command channel, and its two allocations. *)
Record channel (c : mlx5_cmd_context) (w : world) : Prop := {
  ch_ready : cmd_ready ctx c w;
  ch_ring : cmd_ring_md c = cmd_ring c;
  ch_mbox : mbox_md c = mbox_pool c;
  ch_owned : forall p, p ∈ chan c -> owned w p
}.

Definition in_service (s : held) (w : world) : Prop :=
  base (h_mrs s) w /\ exists c, channel c w /\ qps_ok (h_qps s) (chan c) w.

(** ** What keeps it *)

Lemma dev_ctx_keeps K U n w w' d : keeps K U n w w' -> dev_ctx w d ctx -> dev_ctx w' d ctx.
Proof.
  intros Hk (x & m & H1 & H2 & H3). exists x, m.
  by rewrite (k_ibdev _ _ _ _ _ Hk), (k_mdev _ _ _ _ _ Hk).
Qed.

(** Objects of another store with the same devices. *)
Lemma map_Forall_fmap_eq {A} (f : A -> ptr) (Q : ptr -> Prop) (m m' : gmap Z A) :
  f <$> m' = f <$> m -> map_Forall (fun _ x => Q (f x)) m -> map_Forall (fun _ x => Q (f x)) m'.
Proof.
  intros E H i x Hx. assert (Ei : (f <$> m') !! i = (f <$> m) !! i) by (by rewrite E).
  rewrite !lookup_fmap, Hx in Ei. destruct (m !! i) as [y|] eqn:Hy; [|done].
  simpl in Ei. injection Ei as ->. by apply (H i y).
Qed.

Lemma base_keeps K U mrs w w' : keeps K U (w_next w) w w' -> base mrs w -> base mrs w'.
Proof.
  intros Hk [Hf Hmf Hpd Hcq Hmr]. pose proof (dev_ctx_keeps K U (w_next w) w w') as Hd. split.
  - by apply Hk.
  - by apply Hk.
  - apply (map_Forall_fmap_eq pd_device (fun d => dev_ctx w' d ctx) (w_pd w)); [apply Hk|].
    intros i x Hx. apply Hd; [done|]. by eapply Hpd.
  - apply (map_Forall_fmap_eq cq_device (fun d => dev_ctx w' d ctx) (w_cq w)); [apply Hk|].
    intros i x Hx. apply Hd; [done|]. by eapply Hcq.
  - intros mr Hin. destruct (Hmr mr Hin) as (m & Hm & Hdm). exists m. split; [|by apply Hd].
    rewrite (k_mr _ _ _ _ _ Hk); [done|]. apply Hmf. by exists m.
Qed.

Lemma qp_open_keeps q h h' :
  (forall b, b ∈ mds q -> block_shape <$> h' !! b = block_shape <$> h !! b) ->
  qp_open q h -> qp_open q h'.
Proof.
  intros Hs [Hwf (b1 & b2 & b3 & [[H1 R1] [H2 R2] [H3 R3] Hnd Hnn] & E1 & E2 & E3) Hb ? ?].
  split; [| |done..].
  - eapply qp_wf_live; [|exact Hwf]. rewrite Hb. intros p Hp b. by apply shape_at_live, Hs.
  - unfold mds in Hs.
    destruct (shape_at_blk _ h' _ _ (Hs (sq_md q) ltac:(by left)) H1) as (x1 & ? & ?).
    destruct (shape_at_blk _ h' _ _ (Hs (rq_md q) ltac:(by right; left)) H2) as (x2 & ? & ?).
    destruct (shape_at_blk _ h' _ _ (Hs (db_md q) ltac:(by do 2 right; left)) H3) as (x3 & ? & ?).
    exists x1, x2, x3. split; [|lia]. split; (done || split; (done || lia)).
Qed.

Lemma qps_keeps K U n qps ch w w' :
  keeps K U n w w' -> (forall p, p ∈ qps -> ~ U p) ->
  (forall p q b, p ∈ qps -> w_qp w !! p = Some q -> b ∈ mds q ->
     block_shape <$> w_heap w' !! b = block_shape <$> w_heap w !! b) ->
  qps_ok qps ch w -> qps_ok qps ch w'.
Proof.
  intros Hk HU Hs [Ho Hc Ha].
  assert (E : forall p, p ∈ qps -> w_qp w' !! p = w_qp w !! p).
  { intros p Hp. by apply (k_qp _ _ _ _ _ Hk), HU. }
  split.
  - intros p Hp. destruct (Ho p Hp) as (q & Hq & Hqo). exists q. rewrite E by done.
    split; [done|]. eapply qp_open_keeps; [|exact Hqo]. intros b Hb. by eapply Hs.
  - intros p q b Hp Hq. rewrite E in Hq by done. by apply (Hc p).
  - intros p1 p2 q1 q2 b H1 H2 Hne Hq1 Hq2. rewrite E in Hq1, Hq2 by done. by apply (Ha p1 p2).
Qed.

Lemma qps_subset qps qps' ch w : qps' ⊆ qps -> qps_ok qps ch w -> qps_ok qps' ch w.
Proof. intros Hs [Ho Hc Ha]. split; eauto. Qed.

Lemma qps_add qps ch qp q w :
  qps_ok qps ch w -> w_qp w !! qp = Some q -> qp_open q (w_heap w) ->
  (forall b, b ∈ mds q -> ~ (b ∈ ch)) ->
  (forall p q2 b, p ∈ qps -> p <> qp -> w_qp w !! p = Some q2 -> b ∈ mds q -> ~ (b ∈ mds q2)) ->
  qps_ok ({[qp]} ∪ qps) ch w.
Proof.
  intros [Ho Hc Ha] Hq Hqo Hch Hap. split.
  - intros p [->%elem_of_singleton|Hp]%elem_of_union; [by exists q|by apply Ho].
  - intros p q' b [->%elem_of_singleton|Hp]%elem_of_union Hq'; [|by apply (Hc p)].
    rewrite Hq in Hq'. injection Hq' as <-. apply Hch.
  - intros p1 p2 q1 q2 b Hp1 Hp2 Hne Hq1 Hq2.
    apply elem_of_union in Hp1 as [->%elem_of_singleton|Hp1];
      apply elem_of_union in Hp2 as [->%elem_of_singleton|Hp2].
    + done.
    + rewrite Hq in Hq1. injection Hq1 as <-. by apply (Hap p2).
    + rewrite Hq in Hq2. injection Hq2 as <-. intros H1 H2. by apply (Hap p1 q1 b).
    + by apply (Ha p1 p2).
Qed.

(** Blocks in use are not new. *)
Lemma open_old q h n b :
  (forall p x, h !! p = Some x -> p < n) -> qp_open q h -> b ∈ mds q -> b < n.
Proof.
  intros Hf [_ (b1 & b2 & b3 & [[H1 _] [H2 _] [H3 _] _ _] & _) _ _ _].
  unfold mds. rewrite !elem_of_cons. intros [->|[->|[->|[]%not_elem_of_nil]]]; by eapply Hf.
Qed.

Lemma chan_old c w p : fresh_ok w -> cmd_ready ctx c w -> p ∈ chan c -> p < w_next w.
Proof.
  intros [_ Hf] [_ (r & Hr & _) (m & Hm & _) _ _]. unfold chan. rewrite !elem_of_cons.
  apply live_buf_lookup in Hr as (x & Hx & _), Hm as (y & Hy & _).
  intros [->|[->|[]%not_elem_of_nil]]; by eapply Hf.
Qed.

(** All blocks that exist. *)
Definition olds (w : world) : ptr -> Prop := fun p => p < w_next w.

Lemma olds_bound w p : olds w p -> p < w_next w.
Proof. done. Qed.

(** What keeps the blocks of the channel keeps the channel. *)
Lemma channel_keeps K U n c w w' :
  keeps K U n w w' -> channel c w ->
  (forall p, p ∈ chan c -> block_shape <$> w_heap w' !! p = block_shape <$> w_heap w !! p) ->
  exists c', channel c' w' /\ chan c' = chan c.
Proof.
  intros Hk [Hr E1 E2 Ho] Hs. destruct (cmd_ready_keeps _ _ _ ctx c w w' Hk Hr Hs) as (c' & Hr' & G).
  assert (Er : cmd_ring c' = cmd_ring c) by exact (f_equal cmd_ring G).
  assert (Em : mbox_pool c' = mbox_pool c) by exact (f_equal mbox_pool G).
  assert (Ec : chan c' = chan c) by (unfold chan; by rewrite Er, Em).
  exists c'. split; [|done]. split; [done| | |].
  - rewrite Er, <- E1. exact (f_equal cmd_ring_md G).
  - rewrite Em, <- E2. exact (f_equal mbox_md G).
  - rewrite Ec. intros p Hp. destruct (Ho p Hp) as [Hn (b & Hb & Hrefs)]. split; [done|].
    destruct (shape_at_blk _ (w_heap w') _ _ (Hs p Hp) Hb) as (b' & Hb' & Hrefs').
    exists b'. split; [done|congruence].
Qed.

Lemma chan_keeps U n c w w' :
  keeps (olds w) U n w w' -> fresh_ok w -> channel c w ->
  exists c', channel c' w' /\ chan c' = chan c.
Proof.
  intros Hk Hf Hr. apply (channel_keeps _ _ _ _ _ _ Hk Hr).
  intros p Hp. apply Hk. eapply chan_old; [done|by apply Hr|done].
Qed.

(** A step that keeps all blocks and all open queue pairs. *)
Lemma service_keeps s w w' :
  keeps (olds w) (fun _ => False) (w_next w) w w' -> in_service s w -> in_service s w'.
Proof.
  intros Hk (Hb & c & Hr & Hq). pose proof (b_fresh _ _ Hb) as Hf.
  split; [by eapply base_keeps|]. destruct (chan_keeps _ _ c w w' Hk Hf Hr) as (c' & Hr' & Ec).
  exists c'. split; [done|]. rewrite Ec. eapply qps_keeps; [exact Hk|by intros ? ? []| |exact Hq].
  intros p q b Hp Hpq Hbq. apply Hk. destruct (q_open _ _ _ Hq p Hp) as (q' & Hq' & Ho).
  rewrite Hpq in Hq'. injection Hq' as <-. eapply open_old; [|exact Ho|exact Hbq]. apply Hf.
Qed.

Definition no_qp : ptr -> Prop := fun _ => False.

(** A verb whose effect on the clients' objects is covered by its frame. *)
Lemma simple_call {A} (m : M A) Q s w :
  in_service s w -> wp m Q w -> gentle (olds w) no_qp (w_next w) m ->
  wp m (fun r w' => Q r w' /\ in_service s w') w.
Proof.
  intros Hs HQ Hg. eapply wp_mono; [by apply (wp_keeps (olds w) no_qp)|].
  intros r w' [Hr Hk]. split; [done|]. by eapply service_keeps.
Qed.

Lemma reg_call pd start len va flags s w :
  in_service s w -> pd <> NULL -> is_Some (w_pd w !! pd) ->
  wp (mlx5_ib_reg_user_mr_full pd start len va flags ctx)
    (fun r w' => in_service (after_call (RegMr pd start len va flags) r s) w') w.
Proof.
  intros Hs Hn [p Hp]. pose proof Hs as ([Hf _ Hpd _ _] & c & [Hr _ _ _] & _).
  eapply wp_mono; [apply (wp_keeps (olds w) no_qp _ _ w (reg_spec pd p start len va flags ctx c w Hn Hp Hf Hr));
    by apply gentle_reg_mr|].
  intros mr w' [Hres Hk]. pose proof (service_keeps s w w' Hk Hs) as Hs'.
  simpl. destruct (Z.eqb_spec mr NULL) as [|Hmr]; [done|].
  destruct Hres as [[-> _]|(_ & _ & o & Hm & _)]; [done|].
  destruct Hs' as ([Hf' Hmf' Hpd' Hcq' Hmr'] & Hq'). split; [|done].
  split; [done..|]. intros x [->%elem_of_singleton|Hx]%elem_of_union; [|by apply Hmr'].
  eexists. split; [exact Hm|]. eapply dev_ctx_keeps; [exact Hk|]. by eapply Hpd.
Qed.

(** ** Queue pairs *)

Lemma open_at s w qp :
  in_service s w -> qp ∈ h_qps s -> exists q, w_qp w !! qp = Some q /\ qp_open q (w_heap w).
Proof. intros (_ & c & _ & Hq) Hin. by apply (q_open _ _ _ Hq). Qed.

(** A call that changes one open queue pair, which keeps its blocks. *)
Lemma qp_call {A} (m : M A) Q s qp q w :
  in_service s w -> qp ∈ h_qps s -> w_qp w !! qp = Some q -> qp_open q (w_heap w) ->
  wp m Q w -> gentle (olds w) (eq qp) (w_next w) m ->
  (forall r w', Q r w' -> exists q', w_qp w' !! qp = Some q' /\ mds q' = mds q /\
     qp_open q' (w_heap w')) ->
  wp m (fun _ w' => in_service s w') w.
Proof.
  intros (Hb & c & Hr & Hqs) Hin Hq Ho HQ Hg Hpost. pose proof (b_fresh _ _ Hb) as Hf.
  eapply wp_mono; [by apply (wp_keeps (olds w) (eq qp))|]. intros r w' [Hr' Hk].
  destruct (Hpost r w' Hr') as (q' & Hq' & Em & Ho').
  split; [by eapply base_keeps|]. destruct (chan_keeps _ _ c w w' Hk Hf Hr) as (c' & Hc' & Ec).
  exists c'. split; [done|]. rewrite Ec, (union_difference_singleton_L qp (h_qps s)) by done.
  apply (qps_add _ _ _ q'); [|done|done| |].
  - eapply qps_keeps; [exact Hk| | |eapply qps_subset, Hqs; apply subseteq_difference_l; done].
    + intros p [_ Hne%not_elem_of_singleton]%elem_of_difference. congruence.
    + intros p x b [Hp _]%elem_of_difference Hx Hbx. apply Hk.
      destruct (q_open _ _ _ Hqs p Hp) as (x' & Hx' & Hox). rewrite Hx in Hx'. injection Hx' as <-.
      eapply open_old; [|exact Hox|exact Hbx]. apply Hf.
  - rewrite Em. intros b. by apply (q_chan _ _ _ Hqs qp).
  - rewrite Em. intros p x b [Hp _]%elem_of_difference Hne Hx.
    rewrite (k_qp _ _ _ _ _ Hk) in Hx by congruence. by apply (q_apart _ _ _ Hqs qp p q x).
Qed.

Lemma qp_open_sync q q' h h' :
  heap_shape h' = heap_shape h -> qp_open q h -> qp_wf q' h -> mds q' = mds q ->
  [sq_buf q'; rq_buf q'; db_record q'] = [sq_buf q; rq_buf q; db_record q] ->
  uar q' = uar q -> state_sync q' -> qp_open q' h'.
Proof.
  intros Hs Ho Hwf Em Eb Eu Hy. apply (qp_open_keeps q' h).
  { intros b _. by apply heap_shape_at. }
  destruct Ho as [_ (b1 & b2 & b3 & [H1 H2 H3 Hnd Hnn] & ?) Hb Hu _].
  unfold mds in *. injection Em as E1 E2 E3. injection Hb as F1 F2 F3.
  injection Eb as G1 G2 G3.
  split; [done| |unfold mds; congruence|congruence|done].
  exists b1, b2, b3. split; [|done]. split; rewrite ?E1, ?E2, ?E3; done.
Qed.

Lemma modify_call qp mask s w :
  in_service s w -> qp ∈ h_qps s ->
  wp (mlx5_ib_modify_qp_full qp mask NULL ctx) (fun _ w' => in_service s w') w.
Proof.
  intros Hs Hin. destruct (open_at s w qp Hs Hin) as (q & Hq & Ho).
  pose proof Hs as (_ & c & [Hr _ _ _] & _).
  eapply (qp_call _ _ s qp q); [done..|by apply (modify_spec qp q mask NULL ctx c)| |].
  { by apply gentle_modify_qp_full. }
  intros r w' [[_ (c' & ps & h & t & _ & Hh & ->)]|(st & _ & _ & (c' & ps & h & t & _ & Hh & ->))].
  - exists q. split; [done|]. split; [done|]. apply (qp_open_sync q q (w_heap w)); try done; apply Ho.
  - exists (in_state st q). split; [apply lookup_insert_eq|]. split; [done|].
    apply (qp_open_sync q (in_state st q) (w_heap w)); try done.
    destruct (qo_wf _ _ Ho). by split.
Qed.

Lemma send_call qp wr s w :
  in_service s w -> qp ∈ h_qps s ->
  wp (mlx5_ib_post_send_full qp wr NULL) (fun _ w' => in_service s w') w.
Proof.
  intros Hs Hin. destruct (open_at s w qp Hs Hin) as (q & Hq & Ho).
  pose proof (qo_wf _ _ Ho) as Hwf.
  destruct (rw_live _ _ _ _ _ (qw_sq _ _ Hwf)) as (b & Hb & _).
  destruct (qw_db _ _ Hwf) as (d & Hd & _).
  eapply (qp_call _ _ s qp q); [done..| | |].
  { apply (post_send_spec qp q b d wr NULL); [done|done|left; apply Ho|done|done]. }
  { by apply gentle_post_send. }
  intros r w' (_ & (Hh & ps & h & ->) & _). exists (next_sq q).
  split; [apply lookup_insert_eq|]. split; [done|].
  apply (qp_open_sync q (next_sq q) (w_heap w)); try done; [by apply qp_wf_sq_head|apply Ho].
Qed.

Lemma recv_call qp wr s w :
  in_service s w -> qp ∈ h_qps s ->
  wp (mlx5_ib_post_recv_full qp wr NULL) (fun _ w' => in_service s w') w.
Proof.
  intros Hs Hin. destruct (open_at s w qp Hs Hin) as (q & Hq & Ho).
  pose proof (qo_wf _ _ Ho) as Hwf.
  destruct (rw_live _ _ _ _ _ (qw_rq _ _ Hwf)) as (b & Hb & _).
  destruct (qw_db _ _ Hwf) as (d & Hd & _).
  eapply (qp_call _ _ s qp q); [done..| | |].
  { by apply (post_recv_spec qp q b d wr NULL). }
  { by apply gentle_post_recv. }
  intros r w' (_ & (Hh & ps & h & ->) & _). exists (next_rq q).
  split; [apply lookup_insert_eq|]. split; [done|].
  apply (qp_open_sync q (next_rq q) (w_heap w)); try done; [by apply qp_wf_rq_head|apply Ho].
Qed.

Lemma destroy_call qp s w :
  in_service s w -> qp ∈ h_qps s ->
  wp (mlx5_ib_destroy_qp_full qp ctx)
    (fun r w' => in_service (after_call (DestroyQp qp) r s) w') w.
Proof.
  intros (Hb & c & Hr & Hqs) Hin. destruct (q_open _ _ _ Hqs qp Hin) as (q & Hq & Ho).
  destruct (qo_blocks _ _ Ho) as (b1 & b2 & b3 & Hbl & _).
  eapply wp_mono; [apply (wp_keeps no_qp no_qp _ _ w (destroy_spec qp q ctx c b1 b2 b3 w Hq (ch_ready _ _ Hr) Hbl));
    apply gentle_destroy_qp|].
  intros r w' [(_ & _ & _ & (h & x1 & x2 & x3 & Hs & _ & Hh)) Hk].
  assert (Hshape : forall p, ~ (p ∈ mds q) ->
    block_shape <$> w_heap w' !! p = block_shape <$> w_heap w !! p).
  { intros p Hp. rewrite Hh, release3_apart by done. by apply heap_shape_at. }
  split; [by eapply base_keeps|].
  destruct (channel_keeps _ _ _ c w w' Hk Hr) as (c' & Hr' & Ec).
  { intros p Hp. apply Hshape. intros Hpq. by eapply (q_chan _ _ _ Hqs qp). }
  exists c'. split; [done|]. rewrite Ec.
  eapply qps_keeps; [exact Hk|by intros ? ? []| |eapply qps_subset, Hqs; apply subseteq_difference_l; done].
  intros p x b [Hp Hne%not_elem_of_singleton]%elem_of_difference Hx Hbx.
  apply Hshape. by apply (q_apart _ _ _ Hqs p qp x q).
Qed.

(** The rings of a new queue pair are new. *)
Lemma create_open qp init c w w' :
  create_done qp init ctx c w w' ->
  exists q, w_qp w' !! qp = Some q /\ qp_open q (w_heap w') /\
    forall b, b ∈ mds q -> w_next w <= b.
Proof.
  intros (a1 & a2 & a3 & o & q & b1 & b2 & b3 & -> & Hqp & Hwf & Hbl & R1 & R2 & R3 & _).
  eexists. split; [rewrite Hqp; apply lookup_insert_eq|]. split.
  - split; [exact Hwf| |done|done|done]. by exists b1, b2, b3.
  - unfold mds. cbn. intros b. rewrite !elem_of_cons.
    intros [->|[->|[->|[]%not_elem_of_nil]]]; lia.
Qed.

Lemma create_call qp init s w :
  in_service s w -> legal s w (CreateQp qp init) ->
  wp (mlx5_ib_create_qp_full qp init ctx)
    (fun r w' => in_service (after_call (CreateQp qp init) r s) w') w.
Proof.
  intros (Hb & c & Hr & Hqs) (Hnin & [q0 Hq0] & Hv1 & Hv2). pose proof (b_fresh _ _ Hb) as Hf.
  eapply wp_mono; [apply (wp_keeps no_qp (eq qp) _ _ w
    (create_spec qp q0 init ctx c w Hq0 Hf (ch_ready _ _ Hr) Hv1 Hv2)); by apply gentle_create_qp|].
  intros r w' [[Hres Hold] Hk].
  assert (Hqs' : qps_ok (h_qps s) (chan c) w').
  { eapply qps_keeps; [exact Hk|by intros p Hp <-| |exact Hqs].
    intros p x b Hp Hx Hbx. apply Hold. destruct (q_open _ _ _ Hqs p Hp) as (x' & Hx' & Hox).
    rewrite Hx in Hx'. injection Hx' as <-. eapply open_old; [|exact Hox|exact Hbx]. apply Hf. }
  destruct (channel_keeps _ _ _ c w w' Hk Hr) as (c' & Hr' & Ec).
  { intros p Hp. apply Hold. by eapply chan_old; [|apply Hr|]. }
  pose proof (base_keeps _ _ _ _ _ Hk Hb) as Hb'. simpl.
  destruct Hres as [[-> Hd]|[-> _]]; simpl; (split; [done|exists c'; split; [done|rewrite Ec]]); [|done].
  destruct (create_open qp init c w w' Hd) as (q & Hq & Ho & Hnew).
  apply (qps_add _ _ _ q); [done|done|done| |].
  - intros b Hbq Hbc. pose proof (chan_old c w b Hf (ch_ready _ _ Hr) Hbc). specialize (Hnew b Hbq). lia.
  - intros p x b Hp Hne Hx Hbq Hbx. specialize (Hnew b Hbq).
    rewrite (k_qp _ _ _ _ _ Hk) in Hx by congruence.
    destruct (q_open _ _ _ Hqs p Hp) as (x' & Hx' & Hox). rewrite Hx in Hx'. injection Hx' as <-.
    pose proof (open_old x (w_heap w) (w_next w) b (proj2 Hf) Hox Hbx). lia.
Qed.

(** ** One step *)

Lemma call_ok c s w :
  in_service s w -> legal s w c ->
  wp (run_call c) (fun r w' => in_service (after_call c r s) w') w.
Proof.
  intros Hs Hl. pose proof Hs as ([Hf Hmf Hpd Hcq Hmr] & x & [Hr _ _ _] & _).
  assert (Hsimple : forall m : M Z, (exists Q, wp m Q w) -> gentle (olds w) no_qp (w_next w) m ->
    wp m (fun _ w' => in_service s w') w).
  { intros m [Q HQ] Hg. eapply wp_mono; [by apply (simple_call m Q s w)|]. by intros ? ? []. }
  destruct c as [pd|pd|cq|cq|qp init|qp mask|qp wr|qp wr|qp|pd start len va flags|mr|d attr];
    cbn [run_call legal after_call] in *.
  - destruct Hl as [p Hp]. apply Hsimple; [|by apply gentle_alloc_pd].
    eexists. apply (alloc_pd_spec pd p NULL ctx x); [done|by eapply Hpd|done].
  - destruct Hl as [p Hp]. apply Hsimple; [|by apply gentle_dealloc_pd].
    eexists. apply (dealloc_pd_spec pd p NULL ctx x); [done|by eapply Hpd|done].
  - destruct Hl as [q Hq]. apply Hsimple; [|by apply gentle_create_cq].
    eexists. apply (create_cq_spec cq q NULL NULL ctx x); [done|by eapply Hcq|done|done].
  - destruct Hl as [q Hq]. apply Hsimple; [|by apply gentle_destroy_cq].
    eexists. apply (destroy_cq_spec cq q NULL ctx x); [done|by eapply Hcq|done].
  - by apply (create_call qp init).
  - by apply modify_call.
  - by apply send_call.
  - by apply recv_call.
  - by apply (destroy_call qp).
  - destruct Hl as [Hn Hp]. by apply (reg_call pd start len va flags).
  - destruct (Hmr mr Hl) as (m & Hm & Hd). apply Hsimple; [|by apply gentle_dereg_mr].
    eexists. by apply (dereg_mr_spec mr m NULL ctx x).
  - apply Hsimple.
    + eexists. apply wp_bind. eapply wp_mono; [by apply (query_device_spec d attr NULL ctx)|].
      intros r w' _. by apply wp_ret with (Q := fun _ _ => True).
    + apply gentle_bind; [by apply gentle_query_device|]. intros r. apply gentle_ret.
Qed.

Lemma vstep_keeps st st' :
  vstep st st' -> in_service st.1 st.2 -> in_service st'.1 st'.2.
Proof.
  intros [s w c r w' Hl E|s w] Hs; cbn [fst snd] in *.
  - pose proof (call_ok c s w Hs Hl) as H. unfold wp in H. by rewrite E in H.
  - eapply service_keeps; [|exact Hs]. eapply keeps_io, io_frame_device_run.
Qed.

Lemma vsteps_keep st st' :
  rtc vstep st st' -> in_service st.1 st.2 -> in_service st'.1 st'.2.
Proof. induction 1 as [|x y z Hstep _ IH]; [done|]. intros Hs. by apply IH, (vstep_keeps x). Qed.

(** What the service itself holds is not touched by its clients. *)
Record holds (w w' : world) : Prop := {
  ho_next : w_next w <= w_next w';
  ho_maps : w_maps w' = w_maps w;
  ho_objs : w_objs w' = w_objs w
}.

#[global] Instance holds_preorder : PreOrder holds.
Proof.
  split; [by intros w; split|]. intros w1 w2 w3 [] []. split; [lia|congruence..].
Qed.

Lemma call_gentle c n : gentle no_qp (fun _ => True) n (run_call c).
Proof.
  destruct c; cbn [run_call].
  - by apply gentle_alloc_pd.
  - by apply gentle_dealloc_pd.
  - by apply gentle_create_cq.
  - by apply gentle_destroy_cq.
  - by apply gentle_create_qp.
  - by apply gentle_modify_qp_full.
  - by apply gentle_post_send.
  - by apply gentle_post_recv.
  - by apply gentle_destroy_qp.
  - by apply gentle_reg_mr.
  - by apply gentle_dereg_mr.
  - apply gentle_bind; [by apply gentle_query_device|]. intros r. apply gentle_ret.
Qed.

Lemma vstep_holds st st' : vstep st st' -> holds st.2 st'.2.
Proof.
  intros [s w c r w' _ E|s w]; cbn [snd].
  - pose proof (guar_done _ _ _ _ _ _ _ (call_gentle c (w_next w) w (Z.le_refl _)) E) as Hk.
    split; apply Hk.
  - destruct (io_frame_device_run w) as (x & h & -> & _). by split.
Qed.

Lemma vsteps_hold st st' : rtc vstep st st' -> holds st.2 st'.2.
Proof. induction 1 as [|x y z Hstep _ IH]; [done|]. etrans; [by apply vstep_holds|done]. Qed.

(** The executor of a call that does not fault. *)
Definition stepped (c : vcall) (st : held * world) : held * world :=
  match run_call c st.2 with
  | Done r w' => (after_call c r st.1, w')
  | Fault _ => st
  end.

Lemma stepped_vstep c st :
  in_service st.1 st.2 -> legal st.1 st.2 c -> vstep st (stepped c st).
Proof.
  intros Hs Hl. destruct st as [s w]. destruct (wp_run _ _ _ (call_ok c s w Hs Hl)) as (r & w' & E & _).
  unfold stepped. cbn [fst snd]. rewrite E. by constructor.
Qed.

(** A card that has been brought up, before its first client. *)
Lemma service_starts c w :
  channel c w -> fresh_ok w -> mr_fresh w ->
  map_Forall (fun _ p => dev_ctx w (pd_device p) ctx) (w_pd w) ->
  map_Forall (fun _ q => dev_ctx w (cq_device q) ctx) (w_cq w) ->
  in_service (Held ∅ ∅) w.
Proof.
  intros Hr Hf Hm Hpd Hcq. split; [split; try done|exists c; split; [done|split]].
  all: intros p; set_solver.
Qed.

End Session.

(** ** Sessions *)

(** C4. A device in service stays in service: from a state that satisfies the
    invariant, after any number of calls in any order, with the card acting as it
    likes between and during them, the channel is usable, every open queue pair is
    well-formed with three blocks of its own that hold one reference each, no
    block is shared with another queue pair or with the channel, and every object
    still belongs to a device that is served; and then every call that respects
    the discipline of [legal] completes without undefined behaviour. *)
Theorem session_safe `{P : Platform} ctx s w s' w' :
  in_service ctx s w -> rtc (vstep ctx) (s, w) (s', w') ->
  in_service ctx s' w' /\
  forall c, legal ctx s' w' c -> exists r w'', run_call ctx c w' = Done r w''.
Proof.
  intros Hs Hsteps.
  pose proof (vsteps_keep ctx _ _ Hsteps Hs) as Hs'. cbn [fst snd] in Hs'.
  split; [done|]. intros c Hl.
  destruct (wp_run _ _ _ (call_ok ctx c s' w' Hs' Hl)) as (r & w'' & E & _). by exists r, w''.
Qed.

(** Two calls on the simulated card: a queue pair is created and used. *)
Definition demo_world : @world (sim_platform 1 2) := sim_world (sim_fw 1 [(0, [0]); (0, [0])]).
Definition demo_init : ib_qp_init_attr := zero_ib_qp_init_attr.
Definition demo_state : held * @world (sim_platform 1 2) :=
  @stepped (sim_platform 1 2) 100 (PostSend 500 0)
    (@stepped (sim_platform 1 2) 100 (CreateQp 500 demo_init) (Held ∅ ∅, demo_world)).

Lemma sim_channel s : @channel (sim_platform 1 2) 100 sim_ctx (sim_world s).
Proof.
  split; [apply sim_ready|done|done|]. intros p. unfold chan. rewrite !elem_of_cons.
  intros [->|[->|[]%not_elem_of_nil]]; (split; [done|by eexists]).
Qed.

Lemma demo_in_service : @in_service (sim_platform 1 2) 100 (Held ∅ ∅) demo_world.
Proof.
  apply (@service_starts (sim_platform 1 2) 100 sim_ctx).
  - apply sim_channel.
  - apply sim_fresh.
  - intros p [x Hx]. done.
  - apply map_Forall_insert_2; [apply sim_dev_ctx|apply map_Forall_empty].
  - apply map_Forall_insert_2; [apply sim_dev_ctx|apply map_Forall_empty].
Qed.

Lemma demo_legal1 : @legal (sim_platform 1 2) 100 (Held ∅ ∅) demo_world (CreateQp 500 demo_init).
Proof. split; [set_solver|]. split; [by eexists|]. split; by left. Qed.

Lemma demo_steps : rtc (@vstep (sim_platform 1 2) 100) (Held ∅ ∅, demo_world) demo_state.
Proof.
  pose proof (stepped_vstep 100 (CreateQp 500 demo_init) (Held ∅ ∅, demo_world)
    demo_in_service demo_legal1) as H1.
  eapply rtc_l; [exact H1|]. apply rtc_once. unfold demo_state. apply stepped_vstep.
  - exact (vstep_keeps 100 _ _ H1 demo_in_service).
  - cbn [legal]. apply (bool_decide_unpack _). vm_compute. exact I.
Qed.

Lemma session_safe_witness :
  @in_service (sim_platform 1 2) 100 demo_state.1 demo_state.2 /\
  forall c, legal 100 demo_state.1 demo_state.2 c ->
    exists r w'', run_call 100 c demo_state.2 = Done r w''.
Proof.
  apply (@session_safe (sim_platform 1 2) 100 (Held ∅ ∅) demo_world demo_state.1 demo_state.2
    demo_in_service).
  rewrite <- (surjective_pairing demo_state). exact demo_steps.
Defined.
