(* ===== verification/Lifecycle.v ===== *)
(** * From [start] to [stop]

    [start] establishes the invariant of [Session]: the command channel it leaves
    is usable, and it does not touch what belongs to the clients (the judgement
    [aside], derived from the primitives as [gentle] is).  Sessions do not touch
    what the service holds, so [stop] gives it back: [life_cycle]. *)

From S2P Require Import Prelude Bytes Registers IbVerbs World Wp Sim Cmd CmdSpec CmdInit Verbs VerbsTheorems Driver DriverSpec DriverTheorems Keep Session.

(** The structs of the clients' objects are as before, up to the members that
    verbs change; the allocator stays sound. *)
Record stays `{P : Platform} (w w' : world) : Prop := {
  st_next : w_next w <= w_next w';
  st_fresh : fresh_ok w -> fresh_ok w';
  st_ibdev : w_ibdev w' = w_ibdev w;
  st_mdev : w_mdev w' = w_mdev w;
  st_ctx : dom (w_ctx w') = dom (w_ctx w);
  st_pd : pd_device <$> w_pd w' = pd_device <$> w_pd w;
  st_cq : cq_device <$> w_cq w' = cq_device <$> w_cq w;
  st_mrs : mr_fresh w -> mr_fresh w'
}.

Create HintDb aside discriminated.

Section Aside.
Context `{P : Platform}.

#[global] Instance stays_preorder : PreOrder stays.
Proof.
  split.
  - intros w. by split.
  - intros w1 w2 w3 H1 H2. split; first
      [ pose proof (st_next _ _ H1); pose proof (st_next _ _ H2); lia
      | intros Hf; apply H2, H1, Hf
      | etrans; [apply H2|apply H1] ].
Qed.

Lemma keeps_stays K U n w w' : keeps K U n w w' -> stays w w'.
Proof.
  intros H. split; try apply H. pose proof (f_equal dom (k_ctx _ _ _ _ _ H)) as E.
  by rewrite !dom_fmap_L in E.
Qed.

Definition aside {A} (m : M A) : Prop :=
  forall w, match m w with Done _ w' => stays w w' | Fault _ => True end.

(** What is gentle to everything is aside. *)
Lemma aside_gentle {A} (m : M A) :
  (forall n, gentle (fun _ => False) (fun _ => False) n m) -> aside m.
Proof.
  intros H w. specialize (H (w_next w) w (Z.le_refl _)). unfold guar in H.
  destruct (m w); [by eapply keeps_stays|done].
Qed.

Lemma aside_ret {A} (a : A) : aside (mret a).
Proof. by intros w. Qed.
Lemma aside_bind {A B} (m : M A) (k : A -> M B) : aside m -> (forall a, aside (k a)) -> aside (m ≫= k).
Proof.
  intros H1 H2 w. specialize (H1 w). cbv [mbind M_bind]. destruct (m w) as [a w1|]; [|done].
  specialize (H2 a w1). destruct (k a w1); [|done]. by etrans.
Qed.
Lemma aside_mwhen c m : aside m -> aside (mwhen c m).
Proof. by destruct c. Qed.
Lemma aside_for_range k i body : (forall j, aside (body j)) -> aside (for_range k i body).
Proof. intros H. revert i; induction k; intros; [done|]. by apply aside_bind. Qed.

(** ** Primitives of set-up, bring-up and teardown *)

(** What changes only the platform, reference counts of objects, mappings or
    command contexts. *)
Lemma stays_same w w' :
  w_next w <= w_next w' -> w_heap w' = w_heap w -> w_ibdev w' = w_ibdev w -> w_mdev w' = w_mdev w ->
  dom (w_ctx w') = dom (w_ctx w) ->
  w_pd w' = w_pd w -> w_cq w' = w_cq w -> w_mr w' = w_mr w -> stays w w'.
Proof.
  intros Hn Eh E1 E2 Ec E3 E4 E5. split; rewrite ?E3, ?E4; try done.
  - intros [H1 H2]. split; [lia|]. intros p b Hb. rewrite Eh in Hb. apply H2 in Hb. lia.
  - intros H p Hp. rewrite E5 in Hp. apply H in Hp. lia.
Qed.

#[local] Hint Extern 1 (stays _ _) => apply stays_same; simpl; (done || lia) : core.

Lemma aside_md_alloc size : aside (md_alloc size).
Proof.
  assert (H : forall n, gentle (fun _ => False) (fun _ => False) n (md_alloc size ≫= mret)).
  { intros n. apply gentle_md_alloc; [by intros p []|]. intros p _. apply gentle_ret. }
  intros w. pose proof (aside_gentle _ H w) as Hw. cbv [mbind M_bind] in Hw.
  by destruct (md_alloc size w).
Qed.
Lemma aside_md_release p : aside (md_release p).
Proof. apply aside_gentle. intros n. apply gentle_release_any. Qed.
Lemma aside_modify_ctx p (f : mlx5_cmd_context -> mlx5_cmd_context) : aside (modify p f).
Proof.
  intros w. unfold modify. destruct (_ !! _) as [c|] eqn:Hc; [|done].
  apply stays_same; try done. simpl. apply dom_insert_lookup_L. by exists c.
Qed.
Lemma aside_obj_retain p : aside (obj_retain p).
Proof. intros w. unfold obj_retain. destruct (_ !! _); [|done]. destruct (0 <? _); auto. Qed.
Lemma aside_obj_release p : aside (obj_release p).
Proof. intros w. unfold obj_release. destruct (_ !! _); [|done]. destruct (0 <? _); auto. Qed.
Lemma aside_dma_new n : aside (IODMACommand_withSpecification n).
Proof. intros w. unfold IODMACommand_withSpecification, obj_new. destruct (p_dma_withSpecification _ _) as [? []]; auto. Qed.
Lemma aside_dma_set a b : aside (IODMACommand_setMemoryDescriptor a b).
Proof. intros w. unfold IODMACommand_setMemoryDescriptor. destruct (p_dma_setMemoryDescriptor _ _); auto. Qed.
Lemma aside_dma_gen a b : aside (IODMACommand_gen64IOVMSegments a b).
Proof. intros w. unfold IODMACommand_gen64IOVMSegments. destruct (p_dma_gen64IOVMSegments _ _) as [? [[]]]; auto. Qed.
Lemma aside_mmio_read32 a : aside (mmio_read32 a).
Proof. intros w. unfold mmio_read32. destruct (mmio_mapped _ _ _); [|done]. destruct (p_mmio_read _ _); auto. Qed.
Lemma aside_super_start : aside IOService_start.
Proof. intros w. unfold IOService_start. destruct (p_super_start _); auto. Qed.
Lemma aside_cast p : aside (OSDynamicCast_IOPCIDevice p).
Proof. intros w. unfold OSDynamicCast_IOPCIDevice. destruct (p_cast_pci _); auto. Qed.
Lemma aside_config r : aside (configRead r).
Proof. intros w. unfold configRead. destruct (p_config_read _ _); auto. Qed.
Lemma aside_config_write r v : aside (configWrite16 r v).
Proof. intros w. unfold configWrite16. auto. Qed.
Lemma aside_bar_memory : aside getDeviceMemory0.
Proof. intros w. unfold getDeviceMemory0. destruct (p_bar_memory _); auto. Qed.
Lemma aside_bar_physical : aside getPhysicalAddress0.
Proof. intros w. unfold getPhysicalAddress0. destruct (p_bar_physical _); auto. Qed.
Lemma aside_bar_map n : aside (bar_map n).
Proof. intros w. unfold bar_map. destruct (p_bar_map _) as [? []]; auto. Qed.
Lemma aside_map_va m : aside (map_getVirtualAddress m).
Proof. intros w. unfold map_getVirtualAddress. destruct (_ !! _); [|done]. by destruct (0 <? _). Qed.
Lemma aside_map_release m : aside (map_release m).
Proof. intros w. unfold map_release. destruct (_ !! _); [|done]. destruct (0 <? _); auto. Qed.
Lemma aside_exec ctx opcode op_mod in_data in_len out out_len status :
  aside (mlx5_cmd_exec ctx opcode op_mod in_data in_len out out_len status).
Proof. apply aside_gentle. intros n. apply gentle_exec_any. Qed.
End Aside.

#[export] Hint Resolve aside_ret aside_md_alloc aside_md_release aside_modify_ctx aside_obj_retain
  aside_obj_release aside_dma_new aside_dma_set aside_dma_gen aside_mmio_read32 aside_super_start
  aside_cast aside_config aside_config_write aside_bar_memory aside_bar_physical aside_bar_map aside_map_va
  aside_map_release aside_exec : aside.

(** Derive [aside] of a function by walking over it; what has no rule of its own
    is gentle. *)
Ltac aside_step :=
  lazymatch goal with
  | |- forall _, _ => intro
  | |- aside (mbind _ _) => apply aside_bind
  | |- aside (mwhen _ _) => apply aside_mwhen
  | |- aside (for_range _ _ _) => apply aside_for_range
  | |- aside (let '_ := ?x in _) => destruct x
  | |- aside (if ?b then _ else _) => destruct b
  | |- aside (match ?x with _ => _ end) => destruct x
  | |- aside _ =>
      first [ solve [eauto with aside] | progress cbv zeta
            | apply aside_gentle; intros; gentle_step ]
  end.
Ltac solve_aside := repeat aside_step.

Section Functions.
Context `{P : Platform}.

Lemma aside_cmd_init ctx bar0 size : aside (mlx5_cmd_init ctx bar0 size).
Proof.
  unfold mlx5_cmd_init, cmd_init_params, cmd_init_ring, cmd_init_entries, cmd_init_register,
    cmd_init_mbox, cmd_init_doorbells, cmd_map_mbox, IODMACommand_clearMemoryDescriptor,
    iseg_read32, iseg_write32, mmio_write32, st8, st32.
  cbv zeta. solve_aside.
Qed.

Lemma aside_stop d provider : aside (stop d provider).
Proof. unfold stop, freeHardware, mlx5_cmd_cleanup. solve_aside. Qed.

Lemma aside_wait d : aside (waitForInitializing d).
Proof.
  unfold waitForInitializing. generalize 1000%nat. intros n. induction n as [|n IH]; simpl; solve_aside.
Qed.
#[local] Hint Resolve aside_cmd_init aside_stop aside_wait : aside.

Lemma aside_init_steps d : aside (init_steps d).
Proof.
  unfold init_steps, readInitSegment, initCmdQueue, sendEnableHCA, queryPages, queryHcaCap, initHca,
    setProperty, cap_byte.
  solve_aside.
Qed.
#[local] Hint Resolve aside_init_steps : aside.

Lemma aside_start d provider : aside (start d provider).
Proof. unfold start, initHardware, mapBAR0, configRead16, configRead8, setProperty. solve_aside. Qed.
End Functions.

(** The protection domains and completion queues belong to devices whose verbs
    use the context [ctx]. *)
Definition clients_of `{P : Platform} (ctx : ptr) (w : world) : Prop :=
  mr_fresh w /\ map_Forall (fun _ p => dev_ctx w (pd_device p) ctx) (w_pd w) /\
  map_Forall (fun _ q => dev_ctx w (cq_device q) ctx) (w_cq w).

Section Service.
Context `{P : Platform}.

Lemma dev_ctx_stays ctx w w' d : stays w w' -> dev_ctx w d ctx -> dev_ctx w' d ctx.
Proof.
  intros Hs (x & m & H1 & H2 & H3). exists x, m. by rewrite (st_ibdev _ _ Hs), (st_mdev _ _ Hs).
Qed.

Lemma clients_stay ctx w w' : stays w w' -> clients_of ctx w -> clients_of ctx w'.
Proof.
  intros Hs (Hm & Hpd & Hcq). pose proof (dev_ctx_stays ctx w w') as Hd.
  split; [by apply Hs|]. split.
  - apply (map_Forall_fmap_eq pd_device (fun d => dev_ctx w' d ctx) (w_pd w)); [apply Hs|].
    intros i x Hx. apply Hd; [done|]. by eapply Hpd.
  - apply (map_Forall_fmap_eq cq_device (fun d => dev_ctx w' d ctx) (w_cq w)); [apply Hs|].
    intros i x Hx. apply Hd; [done|]. by eapply Hcq.
Qed.

Context (ctx : ptr) (c : mlx5_cmd_context) (provider k : Z) (w : world).

(** What [start] finds: a clean context and a provider with [k] references. *)
Record startable : Prop := {
  sb_card : card_ok;
  sb_fresh : fresh_ok w;
  sb_ctx : w_ctx w !! ctx = Some c;
  sb_mbox : mbox_md c = NULL;
  sb_ring : cmd_ring_md c = NULL;
  sb_null : provider <> NULL;
  sb_old : provider < w_next w;
  sb_refs : w_objs w !! provider = Some k;
  sb_pos : 0 < k;
  sb_clients : clients_of ctx w
}.

(** A successful [start] leaves a device in service. *)
Lemma start_serves d w1 :
  startable -> start (new_driver ctx) provider w = Done (true, d) w1 ->
  in_service ctx (Held ∅ ∅) w1 /\ DriverSpec.held w k d w1 /\ fPCIDevice d = provider /\ fCmdCtx d = ctx.
Proof.
  intros [Hcard Hf Hc Hm Hr Hp0 Hpn Hp Hk Hcl] E.
  pose proof (start_spec ctx c provider k w Hcard Hf Hc Hm Hr Hp0 Hpn Hp Hk) as Hs.
  rewrite E in Hs. destruct Hs as (Hpci & Hctx & [Hh [c1 Hup]] & _). cbn [snd] in *.
  split; [|done]. pose proof (aside_start (new_driver ctx) provider w) as Ha. rewrite E in Ha.
  destruct (clients_stay ctx _ _ Ha Hcl) as (? & ? & ?).
  apply (service_starts ctx c1); [|by apply Ha|done..]. rewrite <- Hctx.
  destruct Hup as [? ? ? ? ? _]. split; [done..|].
  intros p. unfold chan. rewrite !elem_of_cons. by intros [->|[->|[]%not_elem_of_nil]].
Qed.

(** The world without what the service holds. *)
Definition without (ch : list ptr) (w' : world) : world :=
  put_maps (w_maps w) (put_heap (foldr delete (w_heap w') ch) w').

(** A service that is stopped gives back what it holds. *)
Lemma stop_channel cx d w' :
  0 < k -> channel (fCmdCtx d) cx w' -> DriverSpec.held w k d w' ->
  wp (stop d (fPCIDevice d))
    (fun d' w'' => d' = torn d /\ released (without (chan cx) w') (fPCIDevice d) k w'') w'.
Proof.
  intros Hk [Hr E1 E2 Ho] Hh.
  set (w0 := without (chan cx) w').
  assert (Hup : channel_up w0 (fCmdCtx d) cx w').
  { split; [done|done|done|apply Ho; by left|apply Ho; by right; left|].
    intros p b (x & Hx & _)%live_buf_lookup.
    destruct (decide (p = cmd_ring cx)); [by auto|]. destruct (decide (p = mbox_pool cx)); [by auto|].
    left. exists x. simpl. by rewrite !lookup_delete_ne by done. }
  pose proof (io_frame_emit (EvLog "stop()" []) w') as F.
  apply wp_bind, wp_log, wp_bind. eapply wp_mono.
  { apply (free_spec w0 k d); [|left; exists cx; by eapply channel_up_io|lia].
    eapply held_io; [exact F|]. destruct Hh as [? ? ? Hm]. by split. }
  intros d' w2 (-> & Hrel & _). apply wp_bind, wp_emit, wp_ret. by split.
Qed.

Lemma stop_serves s d w' :
  0 < k -> in_service (fCmdCtx d) s w' -> DriverSpec.held w k d w' ->
  exists ch, (exists cx, w_ctx w' !! fCmdCtx d = Some cx /\ ch = chan cx) /\
    wp (stop d (fPCIDevice d))
      (fun d' w'' => d' = torn d /\ released (without ch w') (fPCIDevice d) k w'') w'.
Proof.
  intros Hk (_ & cx & Hch & _) Hh. exists (chan cx).
  split; [exists cx; split; [apply Hch|done]|by apply stop_channel].
Qed.
End Service.

(** C5. The whole life of a device.  When [start] succeeds, whatever clients
    exist already, then after any sequence of verb calls in any order, with the
    card acting in between, every call that respects the discipline of [legal]
    completes without undefined behaviour; and [stop] completes and gives back
    what [start] took: of the blocks that are live then, the ring and the
    mailboxes are gone and no other is new, no mapping is left that was not
    there before [start], and the provider has as many references as it had. *)
Theorem life_cycle `{P : Platform} ctx c provider k w d w1 s' w' :
  startable ctx c provider k w -> start (new_driver ctx) provider w = Done (true, d) w1 ->
  rtc (vstep ctx) (Held ∅ ∅, w1) (s', w') ->
  (forall v, legal ctx s' w' v -> exists r w'', run_call ctx v w' = Done r w'') /\
  exists cx, w_ctx w' !! ctx = Some cx /\
    wp (stop d provider) (fun d' w'' => d' = torn d /\
      (forall p b, live_buf (w_heap w'') p = Some b ->
         p <> cmd_ring cx /\ p <> mbox_pool cx /\ is_Some (w_heap w' !! p)) /\
      (forall p m, w_maps w'' !! p = Some m -> 0 < map_refs m -> w_maps w !! p = Some m) /\
      w_objs w'' !! provider = Some k) w'.
Proof.
  intros Hsb E Hsteps. destruct (start_serves ctx c provider k w d w1 Hsb E) as (H1 & Hh & <- & <-).
  pose proof (vsteps_keep _ _ _ Hsteps H1) as H2. cbn [fst snd] in H2. split.
  { intros v Hl. destruct (wp_run _ _ _ (call_ok _ v s' w' H2 Hl)) as (r & w'' & Er & _). by exists r, w''. }
  destruct (vsteps_hold _ _ _ Hsteps) as [Hn Em Eo]. cbn [snd] in *.
  assert (Hh' : DriverSpec.held w k d w')
    by (destruct Hh; split; rewrite ?Em, ?Eo; (done || lia)).
  destruct (stop_serves k w s' d w' (sb_pos _ _ _ _ _ Hsb) H2 Hh') as (ch & (cx & Hcx & ->) & Hstop).
  exists cx. split; [done|]. eapply wp_mono; [exact Hstop|].
  intros d' w2 (-> & Hnew & Hmaps & Hobjs). split; [done|]. split; [|by split].
  intros p b Hb. destruct (Hnew p b Hb) as [x Hx]. simpl in Hx.
  apply lookup_delete_Some in Hx as [? [? Hx]%lookup_delete_Some]. split; [done|]. split; [done|by exists x].
Qed.

(** A card with a client: a device at 7 and 8 over the context at 6, and a
    protection domain at 9; the firmware answers the four commands of [start]
    and one more. *)
Definition client_world : @world sim_card :=
  @Mk_world sim_card (sim_fw 1 (repeat (0, []) 5)) ∅ 10 (<[5 := 1]> ∅) ∅
    (<[6 := zero_mlx5_cmd_context]> ∅)
    (<[7 := sim_ib_device "mlx5_0" 1 8]> ∅)
    (<[8 := Mk_mlx5_ib_dev (sim_ib_device "" 0 0) 6 0 0 0 0 0 0]> ∅)
    (<[9 := Mk_ib_pd 7 0 77 0 0]> ∅) ∅ ∅ ∅ [].

(** After [start], and after a protection domain has been allocated. *)
Definition started : driver * world :=
  match start (new_driver 6) 5 client_world with
  | Done (_, d) w => (d, w)
  | Fault _ => (new_driver 6, client_world)
  end.
Definition served : Session.held * @world sim_card := stepped 6 (AllocPd 9) (Held ∅ ∅, started.2).

Lemma started_eq : start (new_driver 6) 5 client_world = Done (true, started.1) started.2.
Proof.
  assert (H : match start (new_driver 6) 5 client_world with Done (b, _) _ => b | Fault _ => false end = true)
    by (vm_compute; reflexivity).
  unfold started. by destruct (start _ _ _) as [[[] d] w|].
Qed.

Lemma client_fresh : fresh_ok client_world.
Proof. split; [done|]. intros p b. simpl. by rewrite lookup_empty. Qed.

Lemma client_clients : clients_of 6 client_world.
Proof.
  split; [intros p [x Hx]; simpl in Hx; by rewrite lookup_empty in Hx|].
  split; [|apply map_Forall_empty].
  apply map_Forall_insert_2; [by eexists _, _|apply map_Forall_empty].
Qed.

Lemma client_startable : startable 6 zero_mlx5_cmd_context 5 1 client_world.
Proof.
  split; [apply sim_card_ok|apply client_fresh|reflexivity|reflexivity|reflexivity|done|done
    |reflexivity|done|apply client_clients].
Qed.

Lemma stepped_once `{P : Platform} ctx c s w :
  in_service ctx s w -> legal ctx s w c -> rtc (vstep ctx) (s, w) (stepped ctx c (s, w)).
Proof. intros Hs Hl. by apply rtc_once, stepped_vstep. Qed.

Lemma served_steps : rtc (vstep 6) (Held ∅ ∅, started.2) served.
Proof.
  unfold served. apply stepped_once; [exact (proj1 (start_serves _ _ _ _ _ _ _ client_startable started_eq))|].
  cbn [legal]. apply (bool_decide_unpack _). vm_compute. exact I.
Qed.

Lemma life_cycle_witness :
  (forall v, legal 6 served.1 served.2 v -> exists r w'', run_call 6 v served.2 = Done r w'') /\
  exists cx, w_ctx served.2 !! 6 = Some cx /\
    wp (stop started.1 5) (fun d' w'' => d' = torn started.1 /\
      (forall p b, live_buf (w_heap w'') p = Some b ->
         p <> cmd_ring cx /\ p <> mbox_pool cx /\ is_Some (w_heap served.2 !! p)) /\
      (forall p m, w_maps w'' !! p = Some m -> 0 < map_refs m -> w_maps client_world !! p = Some m) /\
      w_objs w'' !! 5 = Some 1) served.2.
Proof.
  apply (@life_cycle sim_card 6 zero_mlx5_cmd_context 5 1 client_world started.1 started.2
           served.1 served.2); [exact client_startable|exact started_eq|].
  rewrite <- (surjective_pairing served). exact served_steps.
Defined.
