(* ===== verification/Teardown.v ===== *)
(** * Commands that meet [stop]

    [stop] does not wait for a command that is under way and does not tell the
    verbs that the channel is gone: [mlx5_cmd_cleanup] clears the descriptors but
    not the pointers to the ring and the mailboxes.  Here a call of
    [mlx5_cmd_exec] meets a [stop], before or after it.  A call is cut at the
    doorbell, as in [CmdOverlap]. *)

From S2P Require Import Prelude Bytes Registers IbVerbs World Wp Sim Cmd CmdSpec CmdTheorems CmdOverlap CmdInit Verbs VerbsTheorems Driver DriverSpec DriverTheorems Keep Session Lifecycle.

(** A released block: its address is known, its memory is gone. *)
Definition gone (h : heap) (p : ptr) : Prop := exists b, h !! p = Some b /\ blk_refs b = 0.

Lemma gone_live h p : gone h p -> live_buf h p = None /\ dead_fault h p = UseAfterFree.
Proof. intros (b & Hb & Hr). unfold live_buf, dead_fault. rewrite Hb, Hr. done. Qed.

Lemma gone_shape h h' p : heap_shape h' = heap_shape h -> gone h p -> gone h' p.
Proof.
  intros Hs (b & Hb & Hr). symmetry in Hs.
  destruct (heap_shape_blk _ _ _ _ Hs Hb) as (b' & Hb' & _ & Hr'). exists b'. by rewrite Hr', Hr.
Qed.

Section Teardown.
Context `{P : Platform}.

(** A sequence whose second part faults. *)
Lemma fault_after {A B} (m : M A) (k : A -> M B) a f w w' :
  m w = Done a w' -> k a w' = Fault f -> (m ≫= k) w = Fault f.
Proof. intros E. by rewrite (bind_done _ _ _ _ _ E). Qed.

(** The mailboxes are the first memory a submission writes, the ring entry the
    first that a wait reads. *)
Lemma submit_gone c slot tok opcode op_mod in_data in_len out_len w :
  gone (w_heap w) (mbox_pool c) ->
  cmd_submit c slot tok opcode op_mod in_data in_len out_len w = Fault UseAfterFree.
Proof.
  intros [Hl Hd]%gone_live. unfold cmd_submit. cbv zeta. apply bind_fault.
  unfold mem_fill, mem_update. by rewrite Hl, Hd.
Qed.

Lemma poll_gone n ring entry w :
  gone (w_heap w) ring -> cmd_poll (S n) ring entry w = Fault UseAfterFree.
Proof.
  intros Hg. cbn [cmd_poll]. eapply fault_after; [reflexivity|]. apply bind_fault.
  set (w1 := put_trace _ w).
  assert (Hg1 : gone (w_heap (device_run w1)) ring) by (eapply gone_shape; [apply heap_shape_device_run|done]).
  apply gone_live in Hg1 as [Hl Hd]. unfold ld8. apply bind_fault, bind_fault.
  eapply fault_after; [reflexivity|]. unfold mem_peek. by rewrite Hl, Hd.
Qed.

Lemma call_end_gone ctx a c w :
  gone (w_heap w) (cmd_ring c) -> call_end ctx a c w = Fault UseAfterFree.
Proof.
  intros Hg. unfold call_end, exec_end. apply bind_fault.
  destruct poll_limit as [|n] eqn:E; [by vm_compute in E|]. by apply poll_gone.
Qed.

Lemma exec_gone ctx c opcode op_mod in_data in_len out out_len status w :
  w_ctx w !! ctx = Some c -> gone (w_heap w) (mbox_pool c) ->
  mlx5_cmd_exec ctx opcode op_mod in_data in_len out out_len status w = Fault UseAfterFree.
Proof.
  intros Hc Hg. set (c1 := set_next_token (next_tok (next_token c)) c).
  destruct (wp_run _ _ _ (token_spec ctx c (fun _ w' => w' = put_ctx (<[ctx := c1]> (w_ctx w)) w)
    w Hc eq_refl)) as (tok & w1 & E & ->).
  unfold mlx5_cmd_exec. cbv zeta. eapply fault_after; [exact E|].
  eapply fault_after; [reflexivity|].
  eapply fault_after; [unfold deref; cbn; rewrite lookup_insert_eq; reflexivity|].
  apply bind_fault, submit_gone. exact Hg.
Qed.

(** ** What [stop] leaves *)

(** Memory and contexts are as before. *)
Definition apart {A} (m : M A) : Prop := forall w,
  match m w with Done _ w' => w_heap w' = w_heap w /\ w_ctx w' = w_ctx w | Fault _ => True end.

Lemma apart_ret {A} (a : A) : apart (mret a).
Proof. by intros w. Qed.
Lemma apart_bind {A B} (m : M A) (k : A -> M B) : apart m -> (forall a, apart (k a)) -> apart (m ≫= k).
Proof.
  intros H1 H2 w. specialize (H1 w). cbv [mbind M_bind]. destruct (m w) as [a w1|]; [|done].
  specialize (H2 a w1). destruct (k a w1); [|done]. destruct H1, H2. split; congruence.
Qed.
Lemma apart_mwhen b m : apart m -> apart (mwhen b m).
Proof. by destruct b. Qed.
Lemma apart_obj_release p : apart (obj_release p).
Proof. intros w. unfold obj_release. destruct (_ !! _); [|done]. by destruct (0 <? _). Qed.
Lemma apart_map_release p : apart (map_release p).
Proof. intros w. unfold map_release. destruct (_ !! _); [|done]. by destruct (0 <? _). Qed.
Lemma apart_emit e : apart (emit e).
Proof. by intros w. Qed.

(** After [stop] the context still has the addresses of the memory that was
    released. *)
Lemma stop_leaves d provider c w d' w' :
  channel (fCmdCtx d) c w -> stop d provider w = Done d' w' ->
  w_ctx w' !! fCmdCtx d = Some (cleaned c) /\
  gone (w_heap w') (cmd_ring c) /\ gone (w_heap w') (mbox_pool c).
Proof.
  intros [Hready Er Em Ho] E.
  destruct (Ho (cmd_ring c)) as (Hr0 & rb & Hrb & Hrr); [by left|].
  destruct (Ho (mbox_pool c)) as (Hm0 & mb & Hmb & Hmr); [by right; left|].
  pose proof (cr_ne _ _ _ Hready) as Hne.
  unfold stop in E. erewrite bind_done in E by reflexivity. set (w1 := put_trace _ w) in E.
  destruct (wp_run _ _ _ (cleanup_spec (fCmdCtx d) c rb mb w1 (cr_ctx _ _ _ Hready)
    ltac:(by rewrite Em) ltac:(by rewrite Er) ltac:(rewrite Em, Er; congruence)
    ltac:(by rewrite Em) ltac:(lia) ltac:(by rewrite Er) ltac:(lia))) as ([] & w2 & E2 & Hw2).
  assert (Hrest : forall w3 d3, freeHardware d w1 = Done d3 w3 -> w_heap w3 = w_heap w2 /\ w_ctx w3 = w_ctx w2).
  { intros w3 d3 E3. unfold freeHardware in E3. rewrite (bind_done _ _ _ _ _ E2) in E3.
    match type of E3 with ?m w2 = _ => assert (Ha : apart m) end.
    { repeat first [apply apart_ret | apply apart_mwhen | apply apart_obj_release
        | apply apart_map_release | apply apart_bind; [|intros]]. }
    specialize (Ha w2). by rewrite E3 in Ha. }
  destruct (freeHardware d w1) as [d3 w3|] eqn:E3; [|by rewrite (bind_fault _ _ _ _ E3) in E].
  rewrite (bind_done _ _ _ _ _ E3) in E. injection E as <- <-.
  destruct (Hrest w3 d3 eq_refl) as [Eh Ec]. cbn [w_ctx w_heap put_trace]. rewrite Ec, Eh, Hw2.
  cbn [w_ctx w_heap put_trace put_ctx put_heap]. rewrite Er, Em.
  split; [apply lookup_insert_eq|]. split.
  - exists (drop_ref rb). rewrite lookup_insert_eq. split; [done|]. simpl. lia.
  - exists (drop_ref mb). rewrite lookup_insert_ne, lookup_insert_eq by done. split; [done|]. simpl. lia.
Qed.

(** ** What [stop] tells the card *)

(** No register is written. *)
Definition mute {A} (m : M A) : Prop := forall w,
  match m w with
  | Done _ w' => exists t, w_trace w' = t ++ w_trace w /\ forall a v, EvMmioWrite a v ∉ t
  | Fault _ => True
  end.

Lemma mute_bind {A B} (m : M A) (k : A -> M B) : mute m -> (forall a, mute (k a)) -> mute (m ≫= k).
Proof.
  intros H1 H2 w. specialize (H1 w). cbv [mbind M_bind]. destruct (m w) as [a w1|]; [|done].
  specialize (H2 a w1). destruct (k a w1) as [b w2|]; [|done].
  destruct H1 as (t1 & E1 & N1), H2 as (t2 & E2 & N2). exists (t2 ++ t1).
  rewrite E2, E1, app_assoc. split; [done|]. intros x v [?|?]%elem_of_app; [by eapply N2|by eapply N1].
Qed.
Lemma mute_same {A} (m : M A) :
  (forall w, match m w with Done _ w' => w_trace w' = w_trace w | Fault _ => True end) -> mute m.
Proof.
  intros H w. specialize (H w). destruct (m w); [|done]. exists []. split; [done|].
  intros x v. apply not_elem_of_nil.
Qed.
Lemma mute_ret {A} (a : A) : mute (mret a).
Proof. by apply mute_same. Qed.
Lemma mute_emit e : (forall a v, e <> EvMmioWrite a v) -> mute (emit e).
Proof.
  intros He w. exists [e]. split; [done|]. intros a v Hin%list_elem_of_singleton. by apply (He a v).
Qed.
Lemma mute_mwhen b m : mute m -> mute (mwhen b m).
Proof. destruct b; [done|]. intros _. apply mute_ret. Qed.
Lemma mute_deref {T} `{!Cell T} p : mute (deref (T := T) p).
Proof. apply mute_same. intros w. unfold deref. by destruct (_ !! _). Qed.
Lemma mute_modify_ctx p (f : mlx5_cmd_context -> mlx5_cmd_context) : mute (modify p f).
Proof. apply mute_same. intros w. unfold modify. by destruct (_ !! _). Qed.
Lemma mute_md_release p : mute (md_release p).
Proof. apply mute_same. intros w. unfold md_release. destruct (_ !! _); [|done]. by destruct (0 <? _). Qed.
Lemma mute_obj_release p : mute (obj_release p).
Proof. apply mute_same. intros w. unfold obj_release. destruct (_ !! _); [|done]. by destruct (0 <? _). Qed.
Lemma mute_map_release p : mute (map_release p).
Proof. apply mute_same. intros w. unfold map_release. destruct (_ !! _); [|done]. by destruct (0 <? _). Qed.

Lemma mute_stop d provider : mute (stop d provider).
Proof.
  unfold stop, freeHardware, mlx5_cmd_cleanup, IOLog.
  repeat first [apply mute_ret | apply mute_emit; done | apply mute_mwhen | apply mute_deref
    | apply mute_modify_ctx | apply mute_md_release | apply mute_obj_release | apply mute_map_release
    | apply mute_bind; [|intros]].
Qed.

(** ** A call and a [stop] *)

Definition stop_during (ctx : ptr) (a : exec_args) (d : driver) (provider : ptr) : M exec_result :=
  c ← call_begin ctx a;
  stop d provider ;;
  call_end ctx a c.

Definition stop_before (ctx : ptr) (a : exec_args) (d : driver) (provider : ptr) : M exec_result :=
  stop d provider ;;
  mlx5_cmd_exec ctx (ea_opcode a) (ea_op_mod a) (ea_in a) (ea_in_len a) (ea_out a) (ea_out_len a)
    (ea_status a).

Lemma begin_channel ctx c a w :
  channel ctx c w -> args_ok a ->
  wp (call_begin ctx a) (fun c1 w' => channel ctx c1 w' /\
    (cmd_ring c1 = cmd_ring c /\ mbox_pool c1 = mbox_pool c) /\
    (w_objs w' = w_objs w /\ w_maps w' = w_maps w /\ w_next w' = w_next w)) w.
Proof.
  intros [Hready Er Em Ho] (Hl & Hi & _). eapply wp_mono; [by apply (begin_spec ctx c)|].
  intros ? w1 (-> & t & F & _). split; [|by destruct F as (_ & _ & s & h & ->)].
  split; [by eapply cmd_ready_same|done|done|].
  intros p Hp. destruct (Ho p Hp) as (Hn & b & Hb & Hrf). split; [done|].
  destruct F as (_ & Hs & _). symmetry in Hs.
  destruct (heap_shape_blk _ _ _ _ Hs Hb) as (b' & Hb' & _ & Hr'). exists b'. by rewrite Hr'.
Qed.

Lemma stop_run w0 k c d w :
  0 < k -> channel (fCmdCtx d) c w -> DriverSpec.held w0 k d w ->
  exists d' w', stop d (fPCIDevice d) w = Done d' w' /\
    w_ctx w' !! fCmdCtx d = Some (cleaned c) /\
    gone (w_heap w') (cmd_ring c) /\ gone (w_heap w') (mbox_pool c).
Proof.
  intros Hk Hch Hh. destruct (wp_run _ _ _ (stop_channel k w0 c d w Hk Hch Hh)) as (d' & w' & E & _).
  exists d', w'. split; [done|]. by apply (stop_leaves d (fPCIDevice d) c w d').
Qed.

Lemma stop_during_faults w0 k c d a w :
  0 < k -> channel (fCmdCtx d) c w -> DriverSpec.held w0 k d w -> args_ok a ->
  stop_during (fCmdCtx d) a d (fPCIDevice d) w = Fault UseAfterFree.
Proof.
  intros Hk Hch Hh Ha.
  destruct (wp_run _ _ _ (begin_channel _ c a w Hch Ha)) as (c1 & w1 & E & Hch1 & [Er _] & E1 & E2 & E3).
  eapply fault_after; [exact E|].
  destruct (stop_run w0 k c1 d w1 Hk Hch1 (held_eq w0 k d w w1 E1 E2 E3 Hh)) as (d' & w2 & Es & _ & Hg & _).
  eapply fault_after; [exact Es|]. by apply call_end_gone.
Qed.

Lemma stop_before_faults w0 k c d a w :
  0 < k -> channel (fCmdCtx d) c w -> DriverSpec.held w0 k d w ->
  stop_before (fCmdCtx d) a d (fPCIDevice d) w = Fault UseAfterFree.
Proof.
  intros Hk Hch Hh. destruct (stop_run w0 k c d w Hk Hch Hh) as (d' & w1 & Es & Hc & _ & Hg).
  eapply fault_after; [exact Es|]. by apply (exec_gone _ (cleaned c)).
Qed.
End Teardown.

(** C39. A command that meets [stop].  After a successful [start] and any session,
    a call of [mlx5_cmd_exec] that has rung the doorbell when [stop] runs reads
    the released ring at its next poll, and a call made after [stop] writes to
    the released mailboxes: [stop] neither waits for the command nor clears the
    pointers.  Nor is the card told: [stop] writes no register, although the card
    still has the address of the ring that it frees.  (Without such a call [stop] is safe: [Lifecycle.life_cycle].) *)
Theorem stop_races_command `{P : Platform} ctx c provider k w d w1 s' w' a :
  startable ctx c provider k w -> start (new_driver ctx) provider w = Done (true, d) w1 ->
  rtc (vstep ctx) (Held ∅ ∅, w1) (s', w') -> args_ok a ->
  stop_during ctx a d provider w' = Fault UseAfterFree /\
  stop_before ctx a d provider w' = Fault UseAfterFree /\
  exists d' w'' t, stop d provider w' = Done d' w'' /\ w_trace w'' = t ++ w_trace w' /\
    (forall x v, EvMmioWrite x v ∉ t) /\
    exists cx, w_ctx w' !! ctx = Some cx /\ live_buf (w_heap w'') (cmd_ring cx) = None.
Proof.
  intros Hsb E Hsteps Ha. destruct (start_serves ctx c provider k w d w1 Hsb E) as (H1 & Hh & <- & <-).
  destruct (vsteps_keep _ _ _ Hsteps H1) as (_ & cx & Hch & _). cbn [snd] in Hch.
  destruct (vsteps_hold _ _ _ Hsteps) as [Hn Em Eo]. cbn [snd] in *.
  assert (Hh' : DriverSpec.held w k d w') by (destruct Hh; split; rewrite ?Em, ?Eo; (done || lia)).
  pose proof (sb_pos _ _ _ _ _ Hsb) as Hk. split; [by eapply stop_during_faults|].
  split; [by eapply stop_before_faults|].
  destruct (stop_run w k cx d w' Hk Hch Hh') as (d' & w2 & Es & _ & Hg & _).
  pose proof (mute_stop d (fPCIDevice d) w') as Hmute. rewrite Es in Hmute. destruct Hmute as (t & Et & Hno).
  exists d', w2, t. split; [done|]. split; [done|]. split; [done|]. exists cx.
  split; [apply Hch|]. by apply gone_live.
Qed.

Lemma stop_races_command_witness :
  stop_during 6 args_enable started.1 5 served.2 = Fault UseAfterFree /\
  stop_before 6 args_enable started.1 5 served.2 = Fault UseAfterFree /\
  exists d' w'' t, stop started.1 5 served.2 = Done d' w'' /\ w_trace w'' = t ++ w_trace served.2 /\
    (forall x v, EvMmioWrite x v ∉ t) /\
    exists cx, w_ctx served.2 !! 6 = Some cx /\ live_buf (w_heap w'') (cmd_ring cx) = None.
Proof.
  apply (@stop_races_command sim_card 6 zero_mlx5_cmd_context 5 1 client_world started.1 started.2
           served.1 served.2); [exact client_startable|exact started_eq| |].
  - rewrite <- (surjective_pairing served). exact served_steps.
  - split; [vm_compute; congruence|split; [done|intros _; vm_compute; congruence]].
Defined.
