(* ===== verification/Wire.v ===== *)
(** * What the verbs put on the wire

    Each call of a client is at most one command: [call_opcode] gives its
    opcode, and [issues_call] shows that a call that succeeds issues exactly
    that command (the data path and the device query issue none), that one that
    fails issues at most it, and that no call sleeps longer than the time limit
    of the commands it issues. *)

From S2P Require Import Prelude Bytes Registers IbVerbs World Wp Cmd CmdSpec CmdInit Qp Mr Verbs CmdLog Session.

(** The command of a call. *)
Definition call_opcode (c : vcall) : option Z :=
  match c with
  | AllocPd _ => Some MLX5_CMD_OP_CREATE_MKEY
  | DeallocPd _ => Some MLX5_CMD_OP_DESTROY_MKEY
  | CreateCq _ => Some MLX5_CMD_OP_CREATE_CQ
  | DestroyCq _ => Some MLX5_CMD_OP_DESTROY_CQ
  | CreateQp _ _ => Some MLX5_CMD_OP_CREATE_QP
  | ModifyQp _ _ => Some MLX5_CMD_OP_MODIFY_QP
  | DestroyQp _ => Some MLX5_CMD_OP_DESTROY_QP
  | RegMr _ _ _ _ _ => Some MLX5_CMD_OP_CREATE_MKEY
  | DeregMr _ => Some MLX5_CMD_OP_DESTROY_MKEY
  | PostSend _ _ | PostRecv _ _ | QueryDevice _ _ => None
  end.

(** A region is returned as a pointer, everything else is a code. *)
Definition succeeded (c : vcall) (r : Z) : bool :=
  match c with RegMr _ _ _ _ _ => negb (r =? NULL) | _ => r =? 0 end.

(** The opcodes [l] of a call with result [r]. *)
Definition wire (c : vcall) (r : Z) (l : list Z) : Prop :=
  l = option_list (call_opcode c) \/ succeeded c r = false /\ l = [].

(** The time limit of [l]. *)
Definition time_limit (l : list Z) : Z := MLX5_CMD_TIMEOUT_MS * Z.of_nat (length l).

Section Wire.
Context `{P : Platform} (ctx : ptr).

Definition wired (c : vcall) (m : M Z) : Prop :=
  issues m (fun r l ms => wire c r l /\ ms <= time_limit l).

Lemma wired_after {A} c (m : M A) (k : A -> M Z) :
  quiet m -> (forall a, wired c (k a)) -> wired c (m ≫= k).
Proof. apply issues_after. Qed.

(** A call that runs its command. *)
Lemma wired_exec c op x op_mod in_data in_len out out_len status (k : exec_result -> M Z) :
  call_opcode c = Some op -> (forall res, quiet (k res)) ->
  wired c (mlx5_cmd_exec x op op_mod in_data in_len out out_len status ≫= k).
Proof.
  intros Hop Hk. eapply issues_mono; [by apply issues_exec_then|]. intros r l ms [-> Ht].
  split; [left; by rewrite Hop|]. unfold time_limit. simpl. lia.
Qed.

(** A call that fails without a command. *)
Lemma wired_fail c r : succeeded c r = false -> wired c (mret r).
Proof. intros H. apply issues_ret. split; [by right|done]. Qed.

(** A call that has no command. *)
Lemma wired_none c m : call_opcode c = None -> quiet m -> wired c m.
Proof.
  intros Hc Hm. eapply issues_mono; [by apply issues_quiet|]. intros r l ms [-> ->].
  split; [left; by rewrite Hc|done].
Qed.

Lemma quiet_to_mdev d : quiet (to_mdev d).
Proof. unfold to_mdev. solve_quiet. Qed.
#[local] Hint Resolve quiet_to_mdev : quiet.

(** Walk to the command of a call. *)
Ltac solve_wired :=
  repeat first
    [ apply wired_exec; [reflexivity|intros ?; cbv zeta; solve_quiet]
    | apply wired_fail; reflexivity
    | apply wired_after; [solve [solve_quiet]|intros ?]
    | lazymatch goal with
      | |- wired _ (let '_ := ?x in _) => destruct x
      | |- wired _ (if ?b then _ else _) => destruct b
      | |- wired _ (match ?x with _ => _ end) => destruct x
      end ].

Lemma quiet_build_pas base len : quiet (build_pas_list base len).
Proof. unfold build_pas_list, mem_fill, st64, mem_store. cbv zeta. solve_quiet. Qed.
Lemma quiet_mkc_input pd a b c d : quiet (mkc_input pd a b c d).
Proof. unfold mkc_input. cbv zeta. solve_quiet. Qed.
Lemma quiet_fill_mr mr pd a b c d e f : quiet (fill_mr mr pd a b c d e f).
Proof. unfold fill_mr. cbv zeta. solve_quiet. Qed.
Lemma quiet_alloc_qp qp a b c d : quiet (alloc_qp_resources qp a b c d).
Proof. unfold alloc_qp_resources, md_clear, mem_fill. solve_quiet. Qed.
Lemma quiet_arr_or8 b o v : quiet (arr_or8 b o v).
Proof. unfold arr_or8. solve_quiet. Qed.
#[local] Hint Resolve quiet_build_pas quiet_mkc_input quiet_fill_mr quiet_alloc_qp quiet_arr_or8 : quiet.

Lemma wired_create_qp qp init : wired (CreateQp qp init) (mlx5_ib_create_qp_full qp init ctx).
Proof.
  unfold mlx5_ib_create_qp_full, create_command, qpc_sizes, qpc_addresses. cbv zeta. solve_wired.
Qed.

Lemma issues_call c : wired c (run_call ctx c).
Proof.
  destruct c as [pd|pd|cq|cq|qp init|qp mask|qp wr|qp wr|qp|pd start len va flags|mr|d attr];
    cbn [run_call].
  - unfold mlx5_ib_alloc_pd. solve_wired.
  - unfold mlx5_ib_dealloc_pd. cbv zeta. solve_wired.
  - unfold mlx5_ib_create_cq, md_clear, mem_fill, cq_input. cbv zeta. solve_wired.
  - unfold mlx5_ib_destroy_cq. cbv zeta. solve_wired.
  - apply wired_create_qp.
  - unfold mlx5_ib_modify_qp_full, qpc_state. solve_wired.
  - apply wired_none; [done|]. unfold mlx5_ib_post_send_full, st32, mem_store, mmio_write64. cbv zeta. solve_quiet.
  - apply wired_none; [done|]. unfold mlx5_ib_post_recv_full, st32, st64, mem_store. cbv zeta. solve_quiet.
  - unfold mlx5_ib_destroy_qp_full. solve_wired.
  - unfold mlx5_ib_reg_user_mr_full. solve_wired.
  - unfold mlx5_ib_dereg_mr, dereg_input. solve_wired.
  - apply wired_none; [done|]. unfold mlx5_ib_query_device. cbv zeta. solve_quiet.
Qed.

End Wire.
