(* ===== verification/Spare.v ===== *)
(** * Memory that a call leaves as it is

    [spares m]: the contents of the blocks in [R] survive [m], if the device
    only reads these blocks, no command channel uses them, and none of the queue
    pairs in [T] (those [m] works on) does.  Like [gentle] of [Keep], which is
    about the sizes and counts of blocks, the judgement is derived from a
    function's primitives and says nothing of faults. *)

From S2P Require Import Prelude Bytes Registers IbVerbs World Wp Cmd CmdSpec Qp QpSpec Mr Verbs Keep Session.

Create HintDb spares.

Section Spare.
Context `{P : Platform} (R T : ptr -> Prop) (B : ptr -> buf) (n : Z).
Context (HR : forall p, R p -> device_readonly p /\ p <> NULL /\ p < n).

(** A queue pair that does not use the blocks. *)
Definition clear (q : mlx5_ib_qp) : Prop :=
  (~ R (sq_md q) /\ ~ R (rq_md q) /\ ~ R (db_md q)) /\
  ~ R (sq_buf q) /\ ~ R (rq_buf q) /\ ~ R (db_record q).

Record undisturbed (w : world) : Prop := {
  un_next : n <= w_next w;
  un_data : forall p, R p -> live_buf (w_heap w) p = Some (B p);
  un_chan : forall x c, w_ctx w !! x = Some c -> ~ R (cmd_ring c) /\ ~ R (mbox_pool c);
  un_qp : forall p q, T p -> w_qp w !! p = Some q -> clear q
}.

Definition spares {A} (m : M A) : Prop := forall w, undisturbed w ->
  match m w with Done _ w' => undisturbed w' | Fault _ => True end.

Lemma spares_ret {A} (a : A) : spares (mret a).
Proof. by intros w. Qed.
Lemma spares_bind {A B'} (m : M A) (k : A -> M B') :
  spares m -> (forall a, spares (k a)) -> spares (m ≫= k).
Proof.
  intros H1 H2 w Hw. specialize (H1 w Hw). cbv [mbind M_bind]. destruct (m w) as [a w1|]; [|done].
  by apply H2.
Qed.
Lemma spares_ret_bind {A B'} (a : A) (k : A -> M B') : spares (k a) -> spares (mret a ≫= k).
Proof. done. Qed.
Lemma spares_assoc {A B' C} (m : M A) (f : A -> M B') (k : B' -> M C) :
  spares (m ≫= fun a => f a ≫= k) -> spares ((m ≫= f) ≫= k).
Proof. intros H w Hw. specialize (H w Hw). cbv [mbind M_bind] in *. by destruct (m w). Qed.

(** What changes neither memory, contexts nor queue pairs. *)
Lemma undisturbed_same w w' :
  w_next w <= w_next w' -> w_heap w' = w_heap w -> w_ctx w' = w_ctx w -> w_qp w' = w_qp w ->
  undisturbed w -> undisturbed w'.
Proof. intros Hn Eh Ec Eq [? ? ? ?]. split; rewrite ?Eh, ?Ec, ?Eq; (done || lia). Qed.

#[local] Hint Extern 1 (undisturbed _) =>
  eapply undisturbed_same; [| | | |eassumption]; simpl; (done || lia) : core.

Lemma spares_fail {A} f : spares (@fail P A f).
Proof. done. Qed.
Lemma spares_deref {C} `{!Cell C} p : spares (deref p).
Proof. intros w Hw. unfold deref. by destruct (_ !! _). Qed.
Lemma spares_emit e : spares (emit e).
Proof. intros w Hw. simpl. auto. Qed.
Lemma spares_run_device : spares run_device.
Proof.
  intros w [Hn Hd Hc Hq]. simpl. split; simpl; try done.
  intros p Hp. destruct (HR p Hp) as (Hro & _). by apply (stable_device_run _ w (Hro (B p))), Hd.
Qed.
Lemma spares_sleep ms : spares (IOSleep ms).
Proof. apply spares_bind; [apply spares_emit|]. intros _. apply spares_run_device. Qed.
Lemma spares_mem_update p o k bs f : ~ R p -> spares (mem_update p o k bs f).
Proof.
  intros Hp w [Hn Hd Hc Hq]. unfold mem_update. destruct (live_buf _ _); [|done].
  destruct (in_bounds _ _ _); [|done]. split; simpl; try done.
  intros p' Hp'. rewrite live_buf_upd_ne; [by apply Hd|by intros ->].
Qed.
Lemma spares_mem_copy_in p o src so k : ~ R p -> spares (mem_copy_in p o src so k).
Proof. intros. unfold mem_copy_in. destruct (in_bounds _ _ _); [by apply spares_mem_update|done]. Qed.
Lemma spares_mem_peek p o k : spares (mem_peek p o k).
Proof. intros w Hw. unfold mem_peek. destruct (live_buf _ _); [|done]. by destruct (in_bounds _ _ _). Qed.
Lemma spares_mem_get p o k : spares (mem_get p o k).
Proof. apply spares_bind; [apply spares_run_device|]. intros _. apply spares_mem_peek. Qed.
Lemma spares_mem_load p o k : spares (mem_load p o k).
Proof. apply spares_bind; [apply spares_mem_get|]. intros b. apply spares_ret. Qed.
Lemma spares_md_phys p : spares (md_getPhysicalAddress p).
Proof. intros w Hw. unfold md_getPhysicalAddress. destruct (_ !! _); [|done]. by destruct (0 <? _). Qed.
Lemma spares_md_bytes {C} p (k : ptr -> M C) : spares (k p) -> spares (md_getBytesNoCopy p ≫= k).
Proof.
  intros Hk w Hw. cbv [mbind M_bind md_getBytesNoCopy]. destruct (live_buf _ _); [|done]. by apply Hk.
Qed.
Lemma spares_arr_load b o k : spares (arr_load b o k).
Proof. unfold arr_load. destruct (in_bounds _ _ _); [apply spares_ret|done]. Qed.
Lemma spares_arr_store b o bs : spares (arr_store b o bs).
Proof. unfold arr_store. destruct (in_bounds _ _ _); [apply spares_ret|done]. Qed.
Lemma spares_mmio_write k a v : spares (mmio_write k a v).
Proof. intros w Hw. unfold mmio_write. destruct (mmio_mapped _ _ _); [|done]. auto. Qed.
Lemma spares_shl_u32 x k : spares (shl_u32 x k).
Proof. unfold shl_u32. destruct (_ && _); [apply spares_ret|done]. Qed.
Lemma spares_shl_int1 k : spares (shl_int1 k).
Proof. unfold shl_int1. destruct (_ && _); [apply spares_ret|done]. Qed.
Lemma spares_mwhen c m : spares m -> spares (mwhen c m).
Proof. destruct c; [done|]. intros _. apply spares_ret. Qed.
Lemma spares_for_range k i body : (forall j, spares (body j)) -> spares (for_range k i body).
Proof. intros H. revert i; induction k; intros; [apply spares_ret|]. by apply spares_bind. Qed.

Lemma spares_modify_ctx p (f : mlx5_cmd_context -> mlx5_cmd_context) :
  (forall c, geometry (f c) = geometry c) -> spares (modify p f).
Proof.
  intros Hf w [Hn Hd Hc Hq]. unfold modify. cbn. destruct (w_ctx w !! p) as [c|] eqn:E; [|done].
  split; simpl; try done. intros x c' Hx. destruct (decide (x = p)) as [->|].
  - rewrite lookup_insert_eq in Hx. injection Hx as <-.
    rewrite (f_equal cmd_ring (Hf c) : cmd_ring (f c) = cmd_ring c).
    rewrite (f_equal mbox_pool (Hf c) : mbox_pool (f c) = mbox_pool c). by apply (Hc p).
  - rewrite lookup_insert_ne in Hx by done. by apply (Hc x).
Qed.
Lemma spares_modify_pd p (f : ib_pd -> ib_pd) : spares (modify p f).
Proof. intros w Hw. unfold modify. cbn. destruct (_ !! _); auto. Qed.
Lemma spares_modify_cq p (f : ib_cq -> ib_cq) : spares (modify p f).
Proof. intros w Hw. unfold modify. cbn. destruct (_ !! _); auto. Qed.
Lemma spares_modify_mr p (f : mlx5_ib_mr -> mlx5_ib_mr) : spares (modify p f).
Proof. intros w Hw. unfold modify. cbn. destruct (_ !! _); auto. Qed.
Lemma spares_assign_mr p (x : mlx5_ib_mr) : spares (assign p x).
Proof. intros w Hw. unfold assign. cbn. destruct (_ !! _); auto. Qed.
Lemma spares_malloc_mr k (x : mlx5_ib_mr) : spares (IOMalloc k x).
Proof. intros w Hw. unfold IOMalloc. destruct (p_malloc _ _) as [s []]; auto. Qed.

Lemma undisturbed_put_qp p x w :
  (T p -> clear x) -> undisturbed w -> undisturbed (put_qp (<[p := x]> (w_qp w)) w).
Proof.
  intros Hx [Hn Hd Hc Hq]. split; simpl; try done. intros p' q Hp'.
  destruct (decide (p' = p)) as [->|].
  - rewrite lookup_insert_eq. intros [= <-]. by apply Hx.
  - rewrite lookup_insert_ne by done. by apply Hq.
Qed.
Lemma spares_modify_qp p (f : mlx5_ib_qp -> mlx5_ib_qp) :
  (forall q, T p -> clear q -> clear (f q)) -> spares (modify p f).
Proof.
  intros Hf w Hw. unfold modify. cbn. destruct (w_qp w !! p) as [x|] eqn:Hx; [|done].
  apply undisturbed_put_qp; [|done]. intros Hp. apply Hf; [done|]. by eapply un_qp.
Qed.
(** A context and a queue pair, as they are read. *)
Lemma spares_deref_ctx {C} p (k : mlx5_cmd_context -> M C) :
  (forall c, ~ R (cmd_ring c) -> ~ R (mbox_pool c) -> spares (k c)) -> spares (deref p ≫= k).
Proof.
  intros Hk w Hw. cbv [mbind M_bind deref]. cbn. destruct (w_ctx w !! p) as [c|] eqn:Hc; [|done].
  destruct (un_chan _ Hw p c Hc). by apply Hk.
Qed.
Lemma spares_deref_qp {C} p (k : mlx5_ib_qp -> M C) :
  T p -> (forall q, clear q -> spares (k q)) -> spares (deref p ≫= k).
Proof.
  intros Hp Hk w Hw. cbv [mbind M_bind deref]. cbn. destruct (w_qp w !! p) as [q|] eqn:Hq; [|done].
  apply Hk; [|done]. by eapply un_qp.
Qed.

(** Allocation and release. *)
Lemma new_spared p : n <= p -> ~ R p.
Proof. intros Hp (_ & _ & ?)%HR. lia. Qed.
Lemma null_spared : ~ R NULL.
Proof. by intros (_ & ? & _)%HR. Qed.

Lemma spares_md_alloc {C} size (k : ptr -> M C) :
  (forall p, p = NULL \/ n <= p -> spares (k p)) -> spares (md_alloc size ≫= k).
Proof.
  intros Hk w Hw. pose proof Hw as [Hn Hd Hc Hq]. cbv [mbind M_bind md_alloc].
  destruct (p_alloc _ _) as [s [[dma contents]|]].
  - apply Hk; [by right|]. split; simpl; try done; [lia|]. intros p Hp.
    destruct (HR p Hp) as (_ & _ & ?). rewrite live_buf_insert_ne by lia. by apply Hd.
  - apply Hk; [by left|]. auto.
Qed.
Lemma spares_md_release p : ~ R p -> spares (md_release p).
Proof.
  intros Hp w [Hn Hd Hc Hq]. unfold md_release. destruct (w_heap w !! p) as [b|]; [|done].
  destruct (0 <? _); [|done]. split; simpl; try done.
  intros p' Hp'. rewrite live_buf_insert_ne; [by apply Hd|by intros ->].
Qed.

End Spare.

#[export] Hint Resolve spares_ret spares_fail spares_deref spares_emit spares_run_device
  spares_sleep spares_mem_update spares_mem_copy_in spares_mem_peek spares_mem_get spares_mem_load
  spares_md_phys spares_arr_load spares_arr_store spares_mmio_write spares_shl_u32 spares_shl_int1
  spares_modify_pd spares_modify_cq spares_modify_mr spares_assign_mr spares_malloc_mr
  spares_md_release new_spared null_spared : spares.

(** A queue pair whose new pointers are spared. *)
Ltac solve_clear :=
  unfold clear in *; simpl; repeat match goal with H : _ /\ _ |- _ => destruct H end;
  repeat split; solve [assumption | eauto with spares].

(** A pointer that is new, null, or of a queue pair or a channel that is clear. *)
Ltac solve_spared :=
  first [ solve [eauto with spares]
        | repeat match goal with H : clear _ _ |- _ => unfold clear in H end; simpl; tauto ].

(** Derive [spares] of a function by walking over it. *)
Ltac spares_step :=
  lazymatch goal with
  | |- forall _, _ => intro
  | |- spares _ _ _ _ (mbind _ (deref (T := mlx5_cmd_context) _)) => apply spares_deref_ctx
  | |- spares _ _ _ _ (mbind _ (deref (T := mlx5_ib_qp) _)) =>
      first [apply spares_deref_qp; [assumption|] | apply spares_bind]
  | |- spares _ _ _ _ (mbind _ (md_alloc _)) =>
      apply spares_md_alloc; [assumption|]; intros ? [->|?]; [change (NULL =? NULL) with true; cbv iota|]
  | |- spares _ _ _ _ (mbind _ (md_getBytesNoCopy _)) => apply spares_md_bytes
  | |- spares _ _ _ _ (mbind _ _) => apply spares_bind
  | |- spares _ _ _ _ (IOLog _ _) => apply spares_emit
  | |- spares _ _ _ _ OSSynchronizeIO => apply spares_emit
  | |- spares _ _ _ _ (mem_store _ _ _) => apply spares_mem_update; solve_spared
  | |- spares _ _ _ _ (mem_fill _ _ _ _) => apply spares_mem_update; solve_spared
  | |- spares _ _ _ _ (md_release _) => apply spares_md_release; solve_spared
  | |- spares _ _ _ _ (mwhen _ _) => apply spares_mwhen
  | |- spares _ _ _ _ (for_range _ _ _) => apply spares_for_range
  | |- spares _ _ _ _ (modify (T := mlx5_cmd_context) _ _) => by apply spares_modify_ctx
  | |- spares _ _ _ _ (modify (T := mlx5_ib_qp) _ _) =>
      apply spares_modify_qp; intros; solve_clear
  | |- spares _ _ _ _ (let '_ := ?x in _) => destruct x
  | |- spares _ _ _ _ (if ?b then _ else _) => destruct b
  | |- spares _ _ _ _ (match ?x with _ => _ end) => destruct x
  | |- spares _ _ _ _ _ => first [solve [eauto with spares] | progress cbv zeta]
  end.
Ltac solve_spares := repeat spares_step.

(** ** The verbs *)

Section Functions.
Context `{P : Platform} (R T : ptr -> Prop) (B : ptr -> buf) (n : Z).
Context (HR : forall p, R p -> device_readonly p /\ p <> NULL /\ p < n).

#[local] Abbreviation spares := (spares R T B n).

Lemma spares_take_token ctx : spares (cmd_take_token ctx).
Proof. unfold cmd_take_token. solve_spares. Qed.

Lemma spares_submit c slot token opcode op_mod in_data in_len out_len :
  ~ R (cmd_ring c) -> ~ R (mbox_pool c) ->
  spares (cmd_submit c slot token opcode op_mod in_data in_len out_len).
Proof.
  intros. unfold cmd_submit, st8, st16, st32, st64, iseg_write32, mmio_write32. cbv zeta. solve_spares.
Qed.

Lemma spares_poll k ring entry : spares (cmd_poll k ring entry).
Proof. induction k as [|k IH]; simpl; unfold ld8; solve_spares. Qed.

Lemma spares_finish ctx c slot opcode d out out_len status :
  spares (cmd_finish ctx c slot opcode d out out_len status).
Proof. unfold cmd_finish, cmd_read_response, copy_out, ld8, ld32. cbv zeta. solve_spares. Qed.
#[local] Hint Resolve spares_take_token spares_submit spares_poll spares_finish : spares.

Lemma spares_exec ctx opcode op_mod in_data in_len out out_len status :
  spares (mlx5_cmd_exec ctx opcode op_mod in_data in_len out out_len status).
Proof. unfold mlx5_cmd_exec. cbv zeta. solve_spares. Qed.

Lemma spares_to_mdev d : spares (to_mdev d).
Proof. unfold to_mdev. solve_spares. Qed.
#[local] Hint Resolve spares_exec spares_to_mdev : spares.

Lemma spares_build_pas base len : spares (build_pas_list base len).
Proof. unfold build_pas_list, st64. cbv zeta. solve_spares. Qed.
Lemma spares_mkc_input pd a b c d : spares (mkc_input pd a b c d).
Proof. unfold mkc_input. cbv zeta. solve_spares. Qed.
Lemma spares_fill_mr mr pd a b c d e f : spares (fill_mr mr pd a b c d e f).
Proof. unfold fill_mr. cbv zeta. solve_spares. Qed.
#[local] Hint Resolve spares_mkc_input spares_fill_mr : spares.

(** The page list is in a new block. *)
Lemma spares_reg_mr pd start length va flags ctx :
  spares (mlx5_ib_reg_user_mr_full pd start length va flags ctx).
Proof.
  unfold mlx5_ib_reg_user_mr_full, build_pas_list, st64. cbv zeta.
  apply spares_bind; [solve_spares|]. intros _. apply spares_assoc, spares_md_alloc; [done|].
  intros p Hp. destruct (Z.eqb_spec p NULL).
  - apply spares_assoc, spares_bind; [solve_spares|]. intros _. apply spares_ret_bind. subst p. solve_spares.
  - destruct Hp as [|Hp]; [done|]. apply spares_assoc, spares_md_bytes.
    do 2 (apply spares_assoc, spares_bind; [solve_spares|]; intros _).
    apply spares_ret_bind. solve_spares.
Qed.

Lemma spares_alloc_qp qp a b c d : T qp -> spares (alloc_qp_resources qp a b c d).
Proof. intros HT. unfold alloc_qp_resources, md_clear. solve_spares. Qed.
Lemma spares_arr_or8 b o v : spares (arr_or8 b o v).
Proof. unfold arr_or8. solve_spares. Qed.
#[local] Hint Resolve spares_alloc_qp spares_arr_or8 : spares.

(** The rest of the creation, when the struct has been cleared. *)
Lemma spares_create_rest qp init ctx :
  T qp ->
  spares (ret ← alloc_qp_resources qp 256 MLX5_SEND_WQE_SHIFT 256 MLX5_RECV_WQE_SHIFT;
    if negb (io_ok ret) then mret (-1)
    else
      in_buf ← qpc_sizes (buf_zero 1024) 256 256 MLX5_RECV_WQE_SHIFT;
      mwhen (negb (init_send_cq init =? NULL))
        (cq ← deref (T := ib_cq) (init_send_cq init); modify qp (set_send_cqn (u32 (cq_cqe cq)))) ;;
      mwhen (negb (init_recv_cq init =? NULL))
        (cq ← deref (T := ib_cq) (init_recv_cq init); modify qp (set_recv_cqn (u32 (cq_cqe cq)))) ;;
      q ← deref (T := mlx5_ib_qp) qp;
      mwhen (negb (qp_pd (ibqp q) =? NULL))
        (pd ← deref (T := ib_pd) (qp_pd (ibqp q)); modify qp (set_pdn (pd_local_dma_lkey pd))) ;;
      q ← deref (T := mlx5_ib_qp) qp;
      in_buf ← qpc_addresses in_buf q;
      create_command qp ctx in_buf).
Proof. intros HT. unfold create_command, qpc_sizes, qpc_addresses. solve_spares. Qed.

(** The queue pair whose memory a call uses. *)
Definition call_uses (c : vcall) : option ptr :=
  match c with PostSend qp _ | PostRecv qp _ | DestroyQp qp => Some qp | _ => None end.

Definition creates (c : vcall) : bool := if c is CreateQp _ _ then true else false.

Lemma spares_call ctx c :
  creates c = false -> (forall qp, call_uses c = Some qp -> T qp) -> spares (run_call ctx c).
Proof.
  intros Hc HT. destruct c as [pd|pd|cq|cq|qp init|qp mask|qp wr|qp wr|qp|pd start len va flags|mr|d attr];
    cbn [run_call call_uses] in *; try specialize (HT _ eq_refl).
  - unfold mlx5_ib_alloc_pd. solve_spares.
  - unfold mlx5_ib_dealloc_pd. solve_spares.
  - unfold mlx5_ib_create_cq, md_clear, cq_input. solve_spares.
  - unfold mlx5_ib_destroy_cq. solve_spares.
  - done.
  - unfold mlx5_ib_modify_qp_full, qpc_state. solve_spares.
  - unfold mlx5_ib_post_send_full, st32, mmio_write64. solve_spares.
  - unfold mlx5_ib_post_recv_full, st32, st64. solve_spares.
  - unfold mlx5_ib_destroy_qp_full. solve_spares.
  - apply spares_reg_mr.
  - unfold mlx5_ib_dereg_mr, dereg_input. solve_spares.
  - unfold mlx5_ib_query_device. solve_spares.
Qed.
End Functions.

(** Creation: whatever the struct held before. *)
Lemma create_spares `{P : Platform} R B n qp init ctx w :
  (forall p, R p -> device_readonly p /\ p <> NULL /\ p < n) ->
  undisturbed R (fun _ => False) B n w ->
  match mlx5_ib_create_qp_full qp init ctx w with
  | Done _ w' => undisturbed R (fun _ => False) B n w'
  | Fault _ => True
  end.
Proof.
  intros HR Hw. unfold mlx5_ib_create_qp_full. cbv zeta. cbv [mbind M_bind IOLog emit assign]. cbn [cell_get cell_qp].
  destruct (w_qp _ !! qp) as [x|]; [|done].
  set (w1 := cell_put _ _).
  assert (Hw1 : undisturbed R (eq qp) B n w1).
  { destruct Hw as [Hn Hd Hc _]. split; [done..|]. intros p q <-. unfold w1. simpl.
    rewrite lookup_insert_eq. intros [= <-]. pose proof (null_spared R n HR).
    split; [split; [|split]|split; [|split]]; done. }
  pose proof (spares_create_rest R (eq qp) B n HR qp init ctx eq_refl w1 Hw1) as H.
  cbv [mbind M_bind] in H. match goal with |- match ?a with _ => _ end => destruct a as [r w'|] end; [|done].
  by destruct H as [? ? ? _].
Qed.
