(* ===== verification/Machine.v ===== *)
(** * The driver as an abstract machine

    What the clients of the verbs may rely on, without memory, commands or
    pointers into rings: a [machine] is a map of the open queue pairs, each with
    its state, its number and the logs of the elements posted to it, and a map
    of the registered regions.  [mstep] says which calls may return what and how
    they change it.  [implements] relates a machine to the state of the driver;
    [session_refines] shows that every session of the driver, with the card
    acting in between, is a run of the machine. *)

From S2P Require Import Prelude Bytes Registers IbVerbs World Wp Cmd CmdSpec CmdInit Qp QpSpec Mr Verbs Sim CmdTheorems CmdInitTheorems QpTheorems QpRing MrTheorems VerbsTheorems CmdLog Keep Session Wire Spare.

(** ** The machine *)

Record queues := Queues { qs_state : ib_qp_state; qs_number : Z; qs_logs : logs }.
Record region := Region { rg_key : Z; rg_length : Z; rg_iova : Z }.
Record machine := Machine { m_qps : gmap ptr queues; m_mrs : gmap ptr region }.

(** The slots of a new queue pair's rings. *)
Definition ring_slots : Z := 256.

(** The [k]-th element sent by queue pair number [n]: an RDMA WRITE with a
    completion, at slot [k] of the ring. *)
Definition kth_send (n : Z) (k : nat) : ctrl_seg :=
  CtrlSeg (MLX5_OPCODE_RDMA_WRITE * 2 ^ 24 + Z.of_nat k mod ring_slots) ((n mod 2 ^ 24) * 2 ^ 8 + 2) (2 ^ 31) 0.

Definition push (x : work) (a : queues) : queues :=
  let l := qs_logs a in
  Queues (qs_state a) (qs_number a)
    match x with
    | Send => Logs (sent l ++ [kth_send (qs_number a) (length (sent l))]) (received l)
    | Recv => Logs (sent l) (received l ++ [recv_elem])
    end.

Definition set_queues (qp : ptr) (a : queues) (m : machine) : machine :=
  Machine (<[qp := a]> (m_qps m)) (m_mrs m).

(** The code of a call that fails. *)
Definition failure (c : vcall) : Z := if c is RegMr _ _ _ _ _ then NULL else -1.

(** Calls that cannot fail, or act even when they fail. *)
Definition posts (c : vcall) : bool :=
  match c with PostSend _ _ | PostRecv _ _ | DestroyQp _ => true | _ => false end.

(** Calls that change neither queue pairs nor the set of regions. *)
Definition neutral (c : vcall) : bool :=
  match c with
  | AllocPd _ | DeallocPd _ | CreateCq _ | DestroyCq _ | DeregMr _ | QueryDevice _ _ => true
  | _ => false
  end.

Inductive mstep (m : machine) : vcall -> Z -> machine -> Prop :=
  | m_create qp init n :
      m_qps m !! qp = None ->
      mstep m (CreateQp qp init) 0 (set_queues qp (Queues IB_QPS_RESET n (Logs [] [])) m)
  | m_modify qp mask a s :
      m_qps m !! qp = Some a -> modify_next (qs_state a) = Some s ->
      mstep m (ModifyQp qp mask) 0 (set_queues qp (Queues s (qs_number a) (qs_logs a)) m)
  | m_send qp wr a :
      m_qps m !! qp = Some a -> mstep m (PostSend qp wr) 0 (set_queues qp (push Send a) m)
  | m_recv qp wr a :
      m_qps m !! qp = Some a -> mstep m (PostRecv qp wr) 0 (set_queues qp (push Recv a) m)
  | m_destroy qp r :
      is_Some (m_qps m !! qp) -> r = 0 \/ r = -1 ->
      mstep m (DestroyQp qp) r (Machine (delete qp (m_qps m)) (m_mrs m))
  | m_reg pd start len va flags mr key :
      mr <> NULL -> m_mrs m !! mr = None ->
      mstep m (RegMr pd start len va flags) mr (Machine (m_qps m) (<[mr := Region key len va]> (m_mrs m)))
  | m_neutral c : neutral c = true -> mstep m c 0 m
  | m_fail c : posts c = false -> mstep m c (failure c) m.

(** A run: the calls with their results, and the commands on the wire. *)
Inductive mrun : machine -> list (vcall * Z) -> list Z -> machine -> Prop :=
  | mrun_nil m : mrun m [] [] m
  | mrun_call m c r ops m1 l ops' m2 :
      mstep m c r m1 -> wire c r ops -> mrun m1 l ops' m2 -> mrun m ((c, r) :: l) (ops ++ ops') m2.

(** ** Its implementation *)

Section Machine.
Context `{P : Platform} (ctx : ptr).

(** Sessions with their calls. *)
Inductive session : held * world -> list (vcall * Z) -> held * world -> Prop :=
  | session_nil st : session st [] st
  | session_call s w c r w' l st :
      legal ctx s w c -> run_call ctx c w = Done r w' ->
      session (after_call c r s, w') l st -> session (s, w) ((c, r) :: l) st
  | session_device s w l st : session (s, device_run w) l st -> session (s, w) l st.

(** A queue pair as it was created, but for its state. *)
Record as_created (q : mlx5_ib_qp) (a : queues) : Prop := {
  ac_sq_head : sq_head q = 0;
  ac_rq_head : rq_head q = 0;
  ac_sq_cnt : sq_wqe_cnt q = ring_slots;
  ac_rq_cnt : rq_wqe_cnt q = ring_slots;
  ac_sq_shift : sq_wqe_shift q = MLX5_SEND_WQE_SHIFT;
  ac_rq_shift : rq_wqe_shift q = MLX5_RECV_WQE_SHIFT;
  ac_number : qpn q = qs_number a;
  ac_state : mqp_state q = qs_state a
}.

(** The queue pair at [p] is [a]: its heads are the ends of the logs; and if the
    device only reads its memory, the rings and the doorbell record are as
    [represents] says. *)
Definition queues_at (p : ptr) (a : queues) (w : world) : Prop :=
  exists q, as_created q a /\ w_qp w !! p = Some (moved q (qs_logs a)) /\
    ((forall b, b ∈ mds q -> device_readonly b) -> represents p q (qs_logs a) w).

Definition region_at (p : ptr) (g : region) (w : world) : Prop :=
  exists x, w_mr w !! p = Some x /\ mkey x = rg_key g /\
    mr_lkey (ibmr x) = u32 (Z.shiftl (rg_key g) 8) /\ mr_rkey (ibmr x) = mr_lkey (ibmr x) /\
    mr_length (ibmr x) = rg_length g /\ mr_iova (ibmr x) = rg_iova g.

Record implements (m : machine) (s : held) (w : world) : Prop := {
  im_service : in_service ctx s w;
  im_one : forall x, is_Some (w_ctx w !! x) -> x = ctx;
  im_qps : dom (m_qps m) = h_qps s;
  im_mrs : dom (m_mrs m) = h_mrs s;
  im_queues : forall p a, m_qps m !! p = Some a -> queues_at p a w;
  im_regions : forall p g, m_mrs m !! p = Some g -> region_at p g w
}.

(** ** What a step does not touch *)

Lemma mds_moved q l : mds (moved q l) = mds q.
Proof. done. Qed.

Lemma geometry_dom (m m' : gmap Z mlx5_cmd_context) x :
  geometry <$> m' = geometry <$> m -> is_Some (m' !! x) -> is_Some (m !! x).
Proof.
  intros E [c Hc]. pose proof (f_equal (fun m => m !! x) E) as H. cbv beta in H.
  rewrite !lookup_fmap, Hc in H. destruct (m !! x); [by eexists|done].
Qed.

(** A queue pair in another state [st], its memory as before. *)
Lemma queues_at_state p a st q w w' :
  as_created q a -> w_qp w' !! p = Some (moved (in_state st q) (qs_logs a)) ->
  qp_wf (moved (in_state st q) (qs_logs a)) (w_heap w') ->
  (forall b x, b ∈ mds q -> device_readonly b -> live_buf (w_heap w) b = Some x ->
     live_buf (w_heap w') b = Some x) ->
  [sq_buf q; rq_buf q; db_record q] = mds q ->
  ((forall b, b ∈ mds q -> device_readonly b) -> represents p q (qs_logs a) w) ->
  queues_at p (Queues st (qs_number a) (qs_logs a)) w'.
Proof.
  intros Ha Hq Hwf Hd Hb Hr. exists (in_state st q).
  split; [destruct Ha; by split|]. split; [done|]. intros Hro.
  destruct (Hr Hro) as [_ _ (b1 & H1 & R1) (b2 & H2 & R2) (b3 & H3 & R3)].
  assert (Hk : forall b x, b ∈ mds q -> live_buf (w_heap w) b = Some x -> live_buf (w_heap w') b = Some x)
    by (intros b x Hin; apply Hd; [done|by apply Hro]).
  rewrite <- Hb in Hk. split; [done|done| | |].
  - exists b1. split; [|done]. apply Hk; [by left|done].
  - exists b2. split; [|done]. apply Hk; [by right; left|done].
  - exists b3. split; [|done]. apply Hk; [by do 2 right; left|done].
Qed.

Lemma in_state_same q : state_sync q -> in_state (mqp_state q) q = q.
Proof. destruct q as [q0]. destruct q0. unfold state_sync, in_state. simpl. by intros ->. Qed.

(** A queue pair that is as before. *)
Lemma queues_at_same p a q w w' :
  as_created q a -> state_sync q -> w_qp w' !! p = Some (moved q (qs_logs a)) ->
  qp_wf (moved q (qs_logs a)) (w_heap w') ->
  (forall b x, b ∈ mds q -> device_readonly b -> live_buf (w_heap w) b = Some x ->
     live_buf (w_heap w') b = Some x) ->
  [sq_buf q; rq_buf q; db_record q] = mds q ->
  ((forall b, b ∈ mds q -> device_readonly b) -> represents p q (qs_logs a) w) ->
  queues_at p a w'.
Proof.
  intros Ha Hy. rewrite <- (in_state_same q Hy) at 1 2. rewrite (ac_state _ _ Ha). intros.
  destruct a as [st n l]. by apply (queues_at_state p (Queues st n l) st q w w').
Qed.

(** The abstract post is the one of the logs. *)
Lemma push_log q a x : as_created q a -> qs_logs (push x a) = post_log q (qs_logs a) x.
Proof.
  intros [H1 _ H3 _ _ _ H7 _]. destruct x; simpl; [|done]. do 3 f_equal.
  unfold kth_send, send_elem, sent_slot, slot. rewrite H1, H3, H7, Z.add_0_l.
  rewrite (Z.mod_small (_ mod ring_slots) (2 ^ 16)); [done|].
  pose proof (Z.mod_pos_bound (Z.of_nat (length (sent (qs_logs a)))) ring_slots ltac:(done)).
  unfold ring_slots in *. lia.
Qed.

Lemma created_push q a x : as_created q a -> as_created q (push x a).
Proof. intros []. by split. Qed.

(** The queue pair a call may change. *)
Definition call_qp (c : vcall) : option ptr :=
  match c with
  | CreateQp qp _ | ModifyQp qp _ | PostSend qp _ | PostRecv qp _ | DestroyQp qp => Some qp
  | _ => None
  end.

Lemma call_touches c n : gentle no_qp (fun p => call_qp c = Some p) n (run_call ctx c).
Proof.
  destruct c; cbn [run_call call_qp].
  - by apply gentle_alloc_pd.
  - by apply gentle_dealloc_pd.
  - by apply gentle_create_cq.
  - by apply gentle_destroy_cq.
  - by apply gentle_create_qp.
  - by apply gentle_modify_qp_full.
  - by apply gentle_post_send.
  - by apply gentle_post_recv.
  - by apply gentle_destroy_qp.
  - by apply gentle_reg_mr.
  - by apply gentle_dereg_mr.
  - apply gentle_bind; [by apply gentle_query_device|]. intros r. apply gentle_ret.
Qed.

Context (s : held) (w : world) (c : vcall) (r : Z) (w' : world).
Context (Hs : in_service ctx s w) (Hone : forall x, is_Some (w_ctx w !! x) -> x = ctx).
Context (Hl : legal ctx s w c) (E : run_call ctx c w = Done r w').

Lemma step_service : in_service ctx (after_call c r s) w'.
Proof. pose proof (call_ok ctx c s w Hs Hl) as H. unfold wp in H. by rewrite E in H. Qed.

Lemma step_keeps : keeps no_qp (fun p => call_qp c = Some p) (w_next w) w w'.
Proof. exact (guar_done _ _ _ _ _ _ _ (call_touches c (w_next w) w (Z.le_refl _)) E). Qed.

Lemma step_one x : is_Some (w_ctx w' !! x) -> x = ctx.
Proof. intros H. apply Hone. eapply geometry_dom; [apply (k_ctx _ _ _ _ _ step_keeps)|done]. Qed.

(** A block of an open queue pair that the call does not work on. *)
Lemma step_spares p q b x :
  p ∈ h_qps s -> w_qp w !! p = Some q -> b ∈ mds q -> device_readonly b ->
  call_uses c <> Some p -> live_buf (w_heap w) b = Some x -> live_buf (w_heap w') b = Some x.
Proof.
  intros Hp Hq Hb Hro Hu Hx. pose proof Hs as (Hbase & cx & Hch & Hqs).
  destruct (q_open _ _ _ Hqs p Hp) as (q' & Hq' & Ho). rewrite Hq in Hq'. injection Hq' as <-.
  assert (HR : forall p', b = p' -> device_readonly p' /\ p' <> NULL /\ p' < w_next w).
  { intros ? <-. split; [done|]. split; [|eapply open_old; [apply (b_fresh _ _ _ Hbase)|exact Ho|done]].
    destruct (qo_blocks _ _ Ho) as (b1 & b2 & b3 & [_ _ _ _ (N1 & N2 & N3)] & _).
    unfold mds in Hb. rewrite !elem_of_cons in Hb. by destruct Hb as [->|[->|[->|[]%not_elem_of_nil]]]. }
  assert (Hund : forall T : ptr -> Prop, (forall qp y, T qp -> w_qp w !! qp = Some y -> clear (eq b) y) ->
    undisturbed (eq b) T (fun _ => x) (w_next w) w).
  { intros T HT. split; [lia|by intros ? <-| |exact HT]. intros z cz Hz.
    rewrite (Hone z) in Hz by (by eexists). rewrite (cr_ctx _ _ _ (ch_ready _ _ _ Hch)) in Hz.
    injection Hz as <-. pose proof (q_chan _ _ _ Hqs p q b Hp Hq Hb) as Hnc. unfold chan in Hnc.
    rewrite !elem_of_cons in Hnc. split; intros Eb; apply Hnc; auto. }
  destruct (creates c) eqn:Ec.
  - destruct c; try done. cbn [run_call] in E.
    pose proof (create_spares (eq b) (fun _ => x) (w_next w) qp init ctx w HR (Hund (fun _ => False) ltac:(by intros ? ? []))) as H.
    rewrite E in H. by apply H.
  - pose proof (spares_call (eq b) (fun qp => call_uses c = Some qp) (fun _ => x) (w_next w) HR ctx c Ec
      ltac:(done) w) as H. rewrite E in H. apply H; [|done]. apply Hund.
    intros qp y Hqp Hy. assert (Hin : qp ∈ h_qps s) by (destruct c; simplify_eq/=; done).
    destruct (q_open _ _ _ Hqs qp Hin) as (y' & Hy' & Hoy). rewrite Hy in Hy'. injection Hy' as <-.
    pose proof (q_apart _ _ _ Hqs p qp q y b Hp Hin ltac:(congruence) Hq Hy Hb) as Hnm.
    pose proof (qo_bufs _ _ Hoy) as Hbf. unfold mds in *. injection Hbf as E1 E2 E3.
    unfold clear. rewrite E1, E2, E3. rewrite !elem_of_cons in Hnm.
    repeat split; intros Eb; apply Hnm; auto.
Qed.

(** A queue pair that the call does not touch. *)
Lemma step_other p a :
  p ∈ h_qps s -> call_qp c <> Some p -> queues_at p a w -> queues_at p a w'.
Proof.
  intros Hp Hc (q & Ha & Hq & Hr). pose proof step_service as (_ & cx & _ & Hqs).
  pose proof (k_qp _ _ _ _ _ step_keeps p Hc) as Eq.
  assert (Hp' : p ∈ h_qps (after_call c r s)).
  { destruct c; simpl; try destruct (_ =? _); try done; [by apply elem_of_union_r|].
    apply elem_of_difference. split; [done|]. intros ->%elem_of_singleton. done. }
  destruct (q_open _ _ _ Hqs p Hp') as (q' & Hq' & Ho). rewrite Eq, Hq in Hq'. injection Hq' as <-.
  apply (queues_at_same p a q w w'); [done|apply Ho|congruence|by apply Ho| |apply Ho|done].
  intros b x Hb Hro. apply (step_spares p (moved q (qs_logs a))); [done|done|done|done|].
  intros Hu. apply Hc. by destruct c.
Qed.

(** ** The queue pair that a call works on *)

Lemma open_queue p a q :
  p ∈ h_qps s -> w_qp w !! p = Some (moved q (qs_logs a)) -> qp_open (moved q (qs_logs a)) (w_heap w).
Proof.
  intros Hp Hq. destruct Hs as (_ & cx & _ & Hqs). destruct (q_open _ _ _ Hqs p Hp) as (q' & Hq' & Ho).
  rewrite Hq in Hq'. by injection Hq' as <-.
Qed.

(** The result of a specification of the call. *)
Lemma step_result (Q : Z -> world -> Prop) : wp (run_call ctx c) Q w -> Q r w'.
Proof. unfold wp. by rewrite E. Qed.

Lemma step_channel : exists cx, cmd_ready ctx cx w.
Proof. destruct Hs as (_ & cx & Hch & _). exists cx. apply Hch. Qed.

Lemma step_modify p mask a :
  c = ModifyQp p mask -> p ∈ h_qps s -> queues_at p a w ->
  r = -1 /\ queues_at p a w' \/
  exists st, modify_next (qs_state a) = Some st /\ r = 0 /\
    queues_at p (Queues st (qs_number a) (qs_logs a)) w'.
Proof.
  intros Ec Hp (q & Ha & Hq & Hr). pose proof (open_queue p a q Hp Hq) as Ho.
  destruct step_channel as (cx & Hcx).
  assert (Hd : forall b x, b ∈ mds q -> device_readonly b -> live_buf (w_heap w) b = Some x ->
    live_buf (w_heap w') b = Some x).
  { intros b x Hb Hro. apply (step_spares p (moved q (qs_logs a))); try done. by rewrite Ec. }
  pose proof (step_result (modify_post p (moved q (qs_logs a)) ctx w)) as Hpost. rewrite Ec in Hpost.
  specialize (Hpost (modify_spec p _ mask NULL ctx cx w Hq Hcx)).
  destruct Hpost as [[-> F]|(st & Hst & -> & F)];
    destruct F as (c' & ps & h & t & _ & Hh & Ew); symmetry in Hh.
  - left. split; [done|].
    apply (queues_at_same p a q w w'); [done|apply Ho|by rewrite Ew| |done|apply Ho|done].
    rewrite Ew. eapply (qp_wf_shape _ (w_heap w)); [exact Hh|apply Ho].
  - right. exists st. split; [by rewrite <- (ac_state _ _ Ha)|]. split; [done|].
    apply (queues_at_state p a st q w w'); [done| | |done|apply Ho|done].
    + rewrite Ew. apply lookup_insert_eq.
    + rewrite Ew. eapply (qp_wf_shape _ (w_heap w)); [exact Hh|]. destruct (qo_wf _ _ Ho). by split.
Qed.

(** What is left to show of a post. *)
Lemma step_post p a x q :
  as_created q a -> w_qp w' !! p = Some (moved q (post_log q (qs_logs a) x)) ->
  (represents p q (qs_logs a) w -> represents p q (post_log q (qs_logs a) x) w') ->
  ((forall b, b ∈ mds q -> device_readonly b) -> represents p q (qs_logs a) w) ->
  queues_at p (push x a) w'.
Proof.
  intros Ha Hq Hx Hr. exists q. rewrite (push_log q a x Ha).
  split; [by apply created_push|]. split; [done|]. intros Hro. by apply Hx, Hr.
Qed.

Lemma step_send p wr a :
  c = PostSend p wr -> p ∈ h_qps s -> queues_at p a w -> r = 0 /\ queues_at p (push Send a) w'.
Proof.
  intros Ec Hp (q & Ha & Hq & Hr). pose proof (open_queue p a q Hp Hq) as Ho.
  pose proof (qo_wf _ _ Ho) as Hwf. pose proof (qo_uar _ _ Ho) as Hu. pose proof step_result as Hres.
  rewrite Ec in Hres. cbn [run_call] in Hres.
  destruct (rw_live _ _ _ _ _ (qw_sq _ _ Hwf)) as (b & Hb & _), (qw_db _ _ Hwf) as (d & Hd & _).
  destruct (Hres _ (post_send_spec p _ b d wr NULL w Hq Hwf (or_introl Hu) Hb Hd)) as (-> & F & _).
  split; [done|]. apply (step_post p a Send q); [done| | |done].
  - destruct F as (_ & ps & h & ->). rewrite <- moved_send. apply lookup_insert_eq.
  - intros Hrep. by apply (Hres _ (send_simulates p q (qs_logs a) w Hrep (conj (or_introl Hu) (or_introl Hu)))).
Qed.

Lemma step_recv p wr a :
  c = PostRecv p wr -> p ∈ h_qps s -> queues_at p a w -> r = 0 /\ queues_at p (push Recv a) w'.
Proof.
  intros Ec Hp (q & Ha & Hq & Hr). pose proof (open_queue p a q Hp Hq) as Ho.
  pose proof (qo_wf _ _ Ho) as Hwf. pose proof step_result as Hres.
  rewrite Ec in Hres. cbn [run_call] in Hres.
  destruct (rw_live _ _ _ _ _ (qw_rq _ _ Hwf)) as (b & Hb & _), (qw_db _ _ Hwf) as (d & Hd & _).
  destruct (Hres _ (post_recv_spec p _ b d wr NULL w Hq Hwf Hb Hd)) as (-> & F & _).
  split; [done|]. apply (step_post p a Recv q); [done| | |done].
  - destruct F as (_ & ps & h & ->). rewrite <- moved_recv. apply lookup_insert_eq.
  - intros Hrep. by apply (Hres _ (recv_simulates p q (qs_logs a) w Hrep)).
Qed.

Lemma step_create p init :
  c = CreateQp p init ->
  r = -1 \/ r = 0 /\ exists n, queues_at p (Queues IB_QPS_RESET n (Logs [] [])) w'.
Proof.
  intros Ec. pose proof step_result as Hres. pose proof Hl as Hl'. rewrite Ec in Hres, Hl'.
  destruct Hl' as (_ & [q0 Hq0] & Hv1 & Hv2). destruct step_channel as (cx & Hcx).
  destruct Hs as ([Hf _ _ _ _] & _).
  destruct (Hres _ (create_spec p q0 init ctx cx w Hq0 Hf Hcx Hv1 Hv2)) as [[[-> Hd]|[-> _]] _]; [right|by left].
  split; [done|]. destruct Hd as (a1 & a2 & a3 & o & q & b1 & b2 & b3 & Eq & Hqp & Hwf & _).
  exists (be_at o 8 4), q. assert (Hq : w_qp w' !! p = Some q) by (rewrite Hqp; apply lookup_insert_eq).
  pose proof (represents_empty p q w' Hq Hwf) as Hrep.
  split; [subst q; by split|]. split; [apply Hrep|done].
Qed.

(** ** One call *)

Lemma step_region p g : region_at p g w -> region_at p g w'.
Proof.
  intros (x & Hx & Hg). exists x. split; [|done]. destruct Hs as ([_ Hf _ _ _] & _).
  rewrite (k_mr _ _ _ _ _ step_keeps); [done|]. apply Hf. by exists x.
Qed.

(** The machine after a call, from the queue pair and the region it is about. *)
Lemma step_implements m m' :
  implements m s w ->
  dom (m_qps m') = h_qps (after_call c r s) -> dom (m_mrs m') = h_mrs (after_call c r s) ->
  (forall p a, call_qp c <> Some p -> m_qps m' !! p = Some a -> m_qps m !! p = Some a) ->
  (forall p a, call_qp c = Some p -> m_qps m' !! p = Some a -> queues_at p a w') ->
  (forall p g, m_mrs m' !! p = Some g -> m_mrs m !! p = Some g \/ region_at p g w') ->
  implements m' (after_call c r s) w'.
Proof.
  intros [_ _ Hq Hm Hqs Hms] Eq Em Ho Hc Hr. split; [apply step_service|apply step_one|done|done| |].
  - intros p a Hp. destruct (decide (call_qp c = Some p)) as [Ec|Ec]; [by apply Hc|].
    apply Ho in Hp; [|done]. apply step_other; [|done|by apply Hqs].
    rewrite <- Hq. by eapply elem_of_dom_2.
  - intros p g Hp. apply Hr in Hp as [Hp|Hp]; [|done]. by apply step_region, Hms.
Qed.

(** A call that leaves the machine as it is. *)
Lemma step_idle m :
  implements m s w -> after_call c r s = s ->
  (forall p a, call_qp c = Some p -> m_qps m !! p = Some a -> queues_at p a w') ->
  implements m (after_call c r s) w'.
Proof.
  intros Hm Ha Hc. apply (step_implements m m); rewrite ?Ha; try done; try apply Hm.
  intros p g. by left.
Qed.

(** A call that gives the queue pair [p] the queues [a]. *)
Lemma step_set m p a :
  implements m s w -> call_qp c = Some p -> queues_at p a w' ->
  {[p]} ∪ h_qps s = h_qps (after_call c r s) -> h_mrs (after_call c r s) = h_mrs s ->
  implements (set_queues p a m) (after_call c r s) w'.
Proof.
  intros Hm Hc Ha Eq Em. apply (step_implements m); [done| | | | |].
  - simpl. by rewrite dom_insert_L, (im_qps _ _ _ Hm), Eq.
  - simpl. by rewrite Em, (im_mrs _ _ _ Hm).
  - simpl. intros p' x Hne. rewrite lookup_insert_ne by congruence. done.
  - simpl. intros p' x Hp'. replace p' with p by congruence. rewrite lookup_insert_eq. by intros [= <-].
  - intros p' g. by left.
Qed.

Lemma known m p : implements m s w -> p ∈ h_qps s -> exists a, m_qps m !! p = Some a /\ queues_at p a w.
Proof.
  intros Hm Hp. rewrite <- (im_qps _ _ _ Hm) in Hp. apply elem_of_dom in Hp as [a Ha].
  exists a. split; [done|]. by apply (im_queues _ _ _ Hm).
Qed.

(** The codes of the other verbs. *)
Lemma step_neutral : neutral c = true -> r = 0 \/ r = -1.
Proof.
  intros Hc. destruct step_channel as (cx & Hcx). pose proof step_result as Hres. pose proof Hl as Hl'.
  pose proof Hs as ([Hf _ Hpd Hcq Hmr] & _).
  assert (Ec : exists c', c = c') by eauto. destruct Ec as [c' Ec]. rewrite Ec in Hres, Hl', Hc. clear Ec.
  destruct c' as [pd|pd|cq|cq|qp init|qp mask|qp wr|qp wr|qp|pd start len va flags|mr|d attr];
    try discriminate Hc; cbn [run_call legal] in Hres, Hl'.
  - destruct Hl' as [x Hx].
    destruct (Hres _ (alloc_pd_spec pd x NULL ctx cx w Hx (Hpd _ _ Hx) Hcx)) as (_ & _ & [[-> _]|[-> _]]); auto.
  - destruct Hl' as [x Hx]. exact (Hres _ (dealloc_pd_spec pd x NULL ctx cx w Hx (Hpd _ _ Hx) Hcx)).
  - destruct Hl' as [x Hx].
    destruct (Hres _ (create_cq_spec cq x NULL NULL ctx cx w Hx (Hcq _ _ Hx) Hcx Hf)) as [(-> & _)|(-> & _)]; auto.
  - destruct Hl' as [x Hx]. by destruct (Hres _ (destroy_cq_spec cq x NULL ctx cx w Hx (Hcq _ _ Hx) Hcx)).
  - destruct (Hmr mr Hl') as (x & Hx & Hd). exact (Hres _ (dereg_mr_spec mr x NULL ctx cx w Hx Hd Hcx)).
  - apply (Hres (fun r _ => r = 0 \/ r = -1)). apply wp_bind.
    eapply wp_mono; [by apply (query_device_spec d attr NULL ctx)|]. intros x w1 Hx. by apply wp_ret.
Qed.

(** A call on no queue pair that leaves the clients' objects as they are. *)
Lemma step_plain m :
  implements m s w -> call_qp c = None -> after_call c r s = s -> implements m (after_call c r s) w'.
Proof. intros Hm Hq Ha. apply step_idle; [done|done|]. by rewrite Hq. Qed.

(** Registration. *)
Lemma step_reg m pd start len va flags :
  implements m s w -> c = RegMr pd start len va flags ->
  exists m', mstep m c r m' /\ implements m' (after_call c r s) w'.
Proof.
  intros Hm Ec. destruct step_channel as (cx & Hcx). pose proof step_result as Hres. pose proof Hl as Hl'.
  pose proof Hs as ([Hf Hmf _ _ _] & _). rewrite Ec in Hres, Hl'. destruct Hl' as [Hn [x Hx]].
  destruct (Hres _ (reg_spec pd x start len va flags ctx cx w Hn Hx Hf Hcx)) as [[Hr _]|(Hr & Hnew & o & Ho & _)].
  - exists m. rewrite Ec, Hr. split; [by apply (m_fail m (RegMr pd start len va flags))|].
    rewrite <- Ec, <- Hr. apply step_plain; [done|by rewrite Ec|by rewrite Ec, Hr].
  - exists (Machine (m_qps m) (<[r := Region (be_at o 8 4) len va]> (m_mrs m))).
    assert (Ha : after_call c r s = Held (h_qps s) ({[r]} ∪ h_mrs s))
      by (rewrite Ec; simpl; by rewrite (proj2 (Z.eqb_neq _ _) Hr)).
    split.
    + rewrite Ec. apply m_reg; [done|]. apply not_elem_of_dom. rewrite (im_mrs _ _ _ Hm). intros Hin.
      destruct Hs as ([_ _ _ _ Hmr] & _). destruct (Hmr r Hin) as (y & Hy & _).
      pose proof (Hmf r ltac:(by exists y)). lia.
    + apply (step_implements m); rewrite ?Ha; try done; try apply Hm.
      * simpl. by rewrite dom_insert_L, (im_mrs _ _ _ Hm).
      * intros p a Hp. by rewrite Ec in Hp.
      * simpl. intros p g Hp. apply lookup_insert_Some in Hp as [[<- <-]|[_ Hp]]; [right|by left].
        eexists. split; [exact Ho|]. done.
Qed.

(** A call that changes the queues of an open queue pair. *)
Lemma step_update m p a :
  implements m s w -> call_qp c = Some p -> p ∈ h_qps s -> after_call c r s = s ->
  queues_at p a w' -> implements (set_queues p a m) (after_call c r s) w'.
Proof.
  intros Hm Hc Hp Ea Ha. apply step_set; rewrite ?Ea; try done.
  by apply subseteq_union_1_L, singleton_subseteq_l.
Qed.

(** Creation and destruction. *)
Lemma step_new m qp init :
  implements m s w -> c = CreateQp qp init ->
  exists m', mstep m c r m' /\ implements m' (after_call c r s) w'.
Proof.
  intros Hm Ec. pose proof Hl as Hl'. rewrite Ec in Hl'. destruct Hl' as [Hnin _].
  rewrite <- (im_qps _ _ _ Hm) in Hnin. destruct (step_create qp init Ec) as [Hr|(Hr & n & Hn)].
  - exists m. split; [rewrite Ec, Hr; by apply (m_fail m (CreateQp qp init))|].
    apply step_idle; [done|by rewrite Ec, Hr|]. rewrite Ec. intros p a [= <-] Hp.
    by apply elem_of_dom_2 in Hp.
  - exists (set_queues qp (Queues IB_QPS_RESET n (Logs [] [])) m). split.
    + rewrite Ec, Hr. by apply m_create, not_elem_of_dom.
    + apply step_set; [done|by rewrite Ec|done|by rewrite Ec, Hr|by rewrite Ec, Hr].
Qed.

Lemma step_gone m qp :
  implements m s w -> c = DestroyQp qp ->
  exists m', mstep m c r m' /\ implements m' (after_call c r s) w'.
Proof.
  intros Hm Ec. pose proof Hl as Hl'. pose proof step_result as Hres. rewrite Ec in Hl', Hres.
  destruct step_channel as (cx & Hcx). destruct (known m qp Hm Hl') as (a & Ha & q & _ & Hq & _).
  destruct (qo_blocks _ _ (open_queue qp a q Hl' Hq)) as (b1 & b2 & b3 & Hb & _).
  destruct (Hres _ (destroy_spec qp _ ctx cx b1 b2 b3 w Hq Hcx Hb)) as [Hr _].
  exists (Machine (delete qp (m_qps m)) (m_mrs m)). split.
  - rewrite Ec. by apply m_destroy; [exists a|].
  - apply (step_implements m); [done| | | | |by left].
    + rewrite Ec. simpl. by rewrite dom_delete_L, (im_qps _ _ _ Hm).
    + rewrite Ec. apply (im_mrs _ _ _ Hm).
    + intros p x _ Hp. simpl in Hp. by apply lookup_delete_Some in Hp as [_ Hp].
    + rewrite Ec. intros p x [= <-] Hp. simpl in Hp. by rewrite lookup_delete_eq in Hp.
Qed.

(** State changes. *)
Lemma step_moves m qp mask :
  implements m s w -> c = ModifyQp qp mask ->
  exists m', mstep m c r m' /\ implements m' (after_call c r s) w'.
Proof.
  intros Hm Ec. pose proof Hl as Hl'. rewrite Ec in Hl'. destruct (known m qp Hm Hl') as (a & Ha & Hq).
  destruct (step_modify qp mask a Ec Hl' Hq) as [[Hr Hq']|(st & Hst & Hr & Hq')].
  - exists m. split; [rewrite Ec, Hr; by apply (m_fail m (ModifyQp qp mask))|].
    apply step_idle; [done|by rewrite Ec|]. rewrite Ec. intros p x [= <-] Hp. congruence.
  - eexists. split; [rewrite Ec, Hr; by eapply m_modify|]. by apply step_update; rewrite ?Ec.
Qed.

(** Every call is a step of the machine. *)
Lemma step_refines m :
  implements m s w -> exists m', mstep m c r m' /\ implements m' (after_call c r s) w'.
Proof.
  intros Hm. pose proof Hl as Hl'.
  assert (Ec : exists c', c = c') by eauto. destruct Ec as [c' Ec]. rewrite Ec in Hl'.
  assert (Hneutral : neutral c = true -> call_qp c = None -> after_call c r s = s ->
    exists m', mstep m c r m' /\ implements m' (after_call c r s) w').
  { intros Hn Hq Ha. exists m. split; [|by apply step_plain].
    destruct (step_neutral Hn) as [->| ->]; [by apply m_neutral|].
    assert (Hf : failure c = -1 /\ posts c = false) by (by rewrite Ec in *; destruct c').
    destruct Hf as [<- ?]. by apply m_fail. }
  destruct c' as [pd|pd|cq|cq|qp init|qp mask|qp wr|qp wr|qp|pd start len va flags|mr|d attr];
    try (apply Hneutral; by rewrite Ec).
  - by apply (step_new m qp init).
  - by apply (step_moves m qp mask).
  - destruct (known m qp Hm Hl') as (a & Ha & Hq). destruct (step_send qp wr a Ec Hl' Hq) as [Hr Hq'].
    eexists. split; [rewrite Ec, Hr; by apply m_send|]. by apply step_update; rewrite ?Ec.
  - destruct (known m qp Hm Hl') as (a & Ha & Hq). destruct (step_recv qp wr a Ec Hl' Hq) as [Hr Hq'].
    eexists. split; [rewrite Ec, Hr; by apply m_recv|]. by apply step_update; rewrite ?Ec.
  - by apply (step_gone m qp).
  - by apply (step_reg m pd start len va flags).
Qed.

End Machine.

(** ** Sessions *)

Section Refinement.
Context `{P : Platform} (ctx : ptr).

Lemma implements_device m s w : implements ctx m s w -> implements ctx m s (device_run w).
Proof.
  intros [Hs Hone Hq Hm Hqs Hms].
  pose proof (vstep_keeps ctx _ _ (vstep_device ctx s w) Hs) as Hs'. cbn [fst snd] in Hs'.
  destruct (io_frame_device_run w) as (ps & h & Ew & Hh).
  assert (Eq : w_qp (device_run w) = w_qp w) by done.
  split; [done|done|done|done| |done].
  intros p a Ha. destruct (Hqs p a Ha) as (q & Hac & Hwq & Hr).
  assert (Hp : p ∈ h_qps s) by (rewrite <- Hq; by eapply elem_of_dom_2).
  destruct Hs' as (_ & cx & _ & Hqs'). destruct (q_open _ _ _ Hqs' p Hp) as (q' & Hq' & Ho).
  rewrite Eq, Hwq in Hq'. injection Hq' as <-.
  apply (queues_at_same p a q w); [done|apply Ho|done|apply Ho| |apply Ho|done].
  intros b x _ Hro. by apply (stable_device_run _ w (Hro x)).
Qed.

Lemma session_simulates m s w l s' w' :
  session ctx (s, w) l (s', w') -> implements ctx m s w ->
  exists ops m', mrun m l ops m' /\ implements ctx m' s' w' /\
    commands (w_trace w') = commands (w_trace w) ++ ops /\
    slept (w_trace w') <= slept (w_trace w) + time_limit ops.
Proof.
  intros Hses. remember (s, w) as st. remember (s', w') as st'. revert m s w Heqst.
  induction Hses as [st|s0 w0 c r w1 l st Hl E _ IH|s0 w0 l st _ IH]; intros m s w Est Hm; subst; simplify_eq.
  - exists [], m. split; [constructor|]. split; [done|]. rewrite app_nil_r. split; [done|].
    unfold time_limit. simpl. lia.
  - destruct (step_refines ctx s w c r w1 (im_service _ _ _ _ Hm) (im_one _ _ _ _ Hm) Hl E m Hm) as (m1 & Hstep & Hm1).
    pose proof (issues_call ctx c w) as Hw. rewrite E in Hw. destruct Hw as (ops1 & ms & Elog & Hwire & Hms).
    injection Elog as Ec Et.
    destruct (IH eq_refl m1 _ _ eq_refl Hm1) as (ops2 & m2 & Hrun & Hm2 & Ec2 & Et2).
    exists (ops1 ++ ops2), m2. split; [by eapply mrun_call|]. split; [done|].
    rewrite Ec2, Ec, app_assoc. split; [done|].
    unfold time_limit in *. rewrite length_app. lia.
  - destruct (IH eq_refl m s _ eq_refl (implements_device m s w Hm)) as (ops & m' & Hrun & Hm' & Ec & Et).
    exists ops, m'. by repeat (split; [done|]).
Qed.

(** A device before its first client implements the empty machine. *)
Lemma implements_empty w :
  in_service ctx (Held ∅ ∅) w -> (forall x, is_Some (w_ctx w !! x) -> x = ctx) ->
  implements ctx (Machine ∅ ∅) (Held ∅ ∅) w.
Proof. intros. by split. Qed.

(** A session by execution. *)
Lemma session_stepped s w c r l st' :
  legal ctx s w c ->
  match run_call ctx c w with Done r' _ => r' = r | Fault _ => False end ->
  session ctx (stepped ctx c (s, w)) l st' -> session ctx (s, w) ((c, r) :: l) st'.
Proof.
  intros Hl. unfold stepped. cbn [fst snd].
  destruct (run_call ctx c w) as [r' w'|] eqn:E; [|done]. intros <-. by apply session_call.
Qed.
End Refinement.

(** C3. Refinement: every session of the driver is a run of the abstract machine.
    Whatever the calls and whatever the card does in between, the results are
    ones the machine allows, and the new state implements the machine's: the
    open queue pairs are those it has, each in its state, with heads at the ends
    of its logs and, for memory that the device only reads, rings and doorbell
    records that hold the logs; the regions carry their keys and extents.  The
    commands sent are those of the calls, in order, and the driver slept no
    longer than their time limits. *)
Theorem session_refines `{P : Platform} ctx m s w l s' w' :
  implements ctx m s w -> session ctx (s, w) l (s', w') ->
  exists ops m', mrun m l ops m' /\ implements ctx m' s' w' /\
    commands (w_trace w') = commands (w_trace w) ++ ops /\
    slept (w_trace w') <= slept (w_trace w) + time_limit ops.
Proof. intros Hm Hses. by apply (session_simulates ctx m s w l s' w' Hses). Qed.

Definition demo_calls : list (vcall * Z) := [(CreateQp 500 demo_init, 0); (PostSend 500 0, 0)].

Lemma demo_session :
  session 100 (Held ∅ ∅, demo_world) demo_calls demo_state.
Proof.
  apply session_stepped; [exact demo_legal1|vm_compute; reflexivity|].
  rewrite (surjective_pairing (stepped 100 (CreateQp 500 demo_init) (Held ∅ ∅, demo_world))).
  apply session_stepped; [| |rewrite <- surjective_pairing; apply session_nil].
  - cbn [legal]. apply (bool_decide_unpack _). vm_compute. exact I.
  - vm_compute. reflexivity.
Qed.

Lemma demo_one x : is_Some (w_ctx demo_world !! x) -> x = 100.
Proof.
  intros [c Hc]. simpl in Hc. apply lookup_insert_Some in Hc as [[<- _]|[_ Hc]]; [done|].
  by rewrite lookup_empty in Hc.
Qed.

Lemma session_refines_witness :
  exists ops m', mrun (Machine ∅ ∅) demo_calls ops m' /\
    implements 100 m' demo_state.1 demo_state.2 /\
    commands (w_trace demo_state.2) = commands (w_trace demo_world) ++ ops /\
    slept (w_trace demo_state.2) <= slept (w_trace demo_world) + time_limit ops.
Proof.
  apply (@session_refines (sim_platform 1 2) 100 (Machine ∅ ∅) (Held ∅ ∅) demo_world demo_calls
    demo_state.1 demo_state.2).
  - apply implements_empty; [exact demo_in_service|exact demo_one].
  - rewrite <- (surjective_pairing demo_state). exact demo_session.
Defined.
