(* ===== verification/Service.v ===== *)
(** * A device from [start] on, as an abstract machine

    [Lifecycle] shows that a successful [start] leaves a device in service, and
    [Machine] that sessions of a device in service are runs of the abstract
    machine.  Together: everything a device does after [start], seen by its
    clients and on the wire. *)

From S2P Require Import Prelude Bytes Registers IbVerbs World Wp Sim Cmd CmdSpec CmdInit Qp Verbs VerbsTheorems Driver DriverSpec DriverTheorems CmdLog Keep Session Lifecycle Wire Machine.

Section Service.
Context `{P : Platform}.

(** [start] adds no command context. *)
Lemma start_one ctx c provider k w d w1 :
  startable ctx c provider k w -> (forall x, is_Some (w_ctx w !! x) -> x = ctx) ->
  start (new_driver ctx) provider w = Done (true, d) w1 ->
  forall x, is_Some (w_ctx w1 !! x) -> x = ctx.
Proof.
  intros Hsb Hone E x Hx. pose proof (aside_start (new_driver ctx) provider w) as Ha. rewrite E in Ha.
  apply Hone. rewrite <- elem_of_dom in Hx |- *. by rewrite <- (st_ctx _ _ Ha).
Qed.

Lemma start_wire d provider w d' w1 :
  start d provider w = Done (true, d') w1 ->
  commands (w_trace w1) = commands (w_trace w) ++ bring_up /\
  slept (w_trace w1) <= slept (w_trace w) + bring_up_time bring_up.
Proof.
  intros E. pose proof (issues_start d provider w) as H. rewrite E in H.
  destruct H as (l & ms & Elog & Hl & Ht). injection Elog as -> ->. simpl in Hl. subst l.
  split; [done|lia].
Qed.
End Service.

(** C8. A device from [start] on is a run of the abstract machine that begins empty.
    After a successful [start], whatever the session, its calls return what the
    machine allows and the driver implements the machine's state; the commands
    on the wire are the four of the bring-up and then those of the calls, in
    order; and the driver has slept no longer than the bring-up may take and
    the time limits of the calls' commands. *)
Theorem device_refines `{P : Platform} ctx c provider k w d w1 l s' w' :
  startable ctx c provider k w -> (forall x, is_Some (w_ctx w !! x) -> x = ctx) ->
  start (new_driver ctx) provider w = Done (true, d) w1 ->
  session ctx (Held ∅ ∅, w1) l (s', w') ->
  exists ops m', mrun (Machine ∅ ∅) l ops m' /\ implements ctx m' s' w' /\
    commands (w_trace w') = commands (w_trace w) ++ bring_up ++ ops /\
    slept (w_trace w') <= slept (w_trace w) + bring_up_time bring_up + time_limit ops.
Proof.
  intros Hsb Hone E Hses. destruct (start_serves ctx c provider k w d w1 Hsb E) as (Hs & _).
  destruct (start_wire _ _ _ _ _ E) as [Ec Et].
  pose proof (implements_empty ctx w1 Hs (start_one ctx c provider k w d w1 Hsb Hone E)) as Hm.
  destruct (session_simulates ctx _ _ _ l s' w' Hses Hm) as (ops & m' & Hrun & Hm' & Ec' & Et').
  exists ops, m'. split; [done|]. split; [done|]. rewrite Ec', Ec, <- app_assoc. split; [done|lia].
Qed.

Lemma client_one x : is_Some (w_ctx client_world !! x) -> x = 6.
Proof.
  intros [c Hc]. simpl in Hc. apply lookup_insert_Some in Hc as [[<- _]|[_ Hc]]; [done|].
  by rewrite lookup_empty in Hc.
Qed.

Lemma served_session : session 6 (Held ∅ ∅, started.2) [(AllocPd 9, 0)] served.
Proof.
  unfold served. apply session_stepped; [| |apply session_nil].
  - cbn [legal]. apply (bool_decide_unpack _). vm_compute. exact I.
  - vm_compute. reflexivity.
Qed.

Lemma device_refines_witness :
  exists ops m', mrun (Machine ∅ ∅) [(AllocPd 9, 0)] ops m' /\
    implements 6 m' served.1 served.2 /\
    commands (w_trace served.2) = commands (w_trace client_world) ++ bring_up ++ ops /\
    slept (w_trace served.2) <= slept (w_trace client_world) + bring_up_time bring_up + time_limit ops.
Proof.
  apply (@device_refines sim_card 6 zero_mlx5_cmd_context 5 1 client_world started.1 started.2
    [(AllocPd 9, 0)] served.1 served.2);
    [exact client_startable|exact client_one|exact started_eq|].
  rewrite <- (surjective_pairing served). exact served_session.
Defined.
