(* ===== verification/Dispatch.v ===== *)
(** * The verbs through the function table

    A client of the driver does not call the verbs by name but through the
    [ib_device_ops] that [mlx5_ib_init_ops] fills.  [tcall] is a call of a table
    entry with its arguments, [dispatch] makes it.  The table has the stubs of
    [mlx5_verbs.cpp] for queue pairs and registration, not the full functions of
    [mlx5_qp.cpp] and [mlx5_mr.cpp]: [table_idle] shows what that means for a
    client. *)

From S2P Require Import Prelude Bytes Registers IbVerbs World Wp Cmd CmdSpec CmdInit Qp QpSpec Mr Verbs Sim CmdTheorems VerbsTheorems CmdLog Keep Session Wire Spare Machine.

(** One constructor for each member of [struct ib_device_ops]. *)
Inductive tcall :=
  | T_query_device (dev : ptr) (attr : option ib_device_attr)
  | T_query_port (dev : ptr) (port : Z)
  | T_get_port_immutable | T_get_link_layer | T_modify_device | T_modify_port
  | T_alloc_pd (pd : ptr)
  | T_dealloc_pd (pd : ptr)
  | T_create_cq (cq : ptr)
  | T_destroy_cq (cq : ptr)
  | T_poll_cq (cq : ptr) (ne : Z)
  | T_req_notify_cq (cq : ptr) (flags : Z)
  | T_resize_cq
  | T_create_qp (qp init : ptr)
  | T_modify_qp (qp : ptr) (mask : Z)
  | T_destroy_qp (qp : ptr)
  | T_query_qp
  | T_post_send (qp wr : ptr)
  | T_post_recv (qp wr : ptr)
  | T_reg_user_mr (pd : ptr) (start length virt_addr access_flags : Z)
  | T_dereg_mr (mr : ptr)
  | T_map_mr_sg
  | T_create_ah (ah : ptr) (flags : Z)
  | T_destroy_ah (ah : ptr) (flags : Z)
  | T_alloc_ucontext | T_dealloc_ucontext | T_mmap.

Definition entry (o : ib_device_ops) (c : tcall) : option verb :=
  match c with
  | T_query_device _ _ => op_query_device o
  | T_query_port _ _ => op_query_port o
  | T_get_port_immutable => op_get_port_immutable o
  | T_get_link_layer => op_get_link_layer o
  | T_modify_device => op_modify_device o
  | T_modify_port => op_modify_port o
  | T_alloc_pd _ => op_alloc_pd o
  | T_dealloc_pd _ => op_dealloc_pd o
  | T_create_cq _ => op_create_cq o
  | T_destroy_cq _ => op_destroy_cq o
  | T_poll_cq _ _ => op_poll_cq o
  | T_req_notify_cq _ _ => op_req_notify_cq o
  | T_resize_cq => op_resize_cq o
  | T_create_qp _ _ => op_create_qp o
  | T_modify_qp _ _ => op_modify_qp o
  | T_destroy_qp _ => op_destroy_qp o
  | T_query_qp => op_query_qp o
  | T_post_send _ _ => op_post_send o
  | T_post_recv _ _ => op_post_recv o
  | T_reg_user_mr _ _ _ _ _ => op_reg_user_mr o
  | T_dereg_mr _ => op_dereg_mr o
  | T_map_mr_sg => op_map_mr_sg o
  | T_create_ah _ _ => op_create_ah o
  | T_destroy_ah _ _ => op_destroy_ah o
  | T_alloc_ucontext => op_alloc_ucontext o
  | T_dealloc_ucontext => op_dealloc_ucontext o
  | T_mmap => op_mmap o
  end.

(** The calls of [Session] among them. *)
Definition named (c : tcall) : option vcall :=
  match c with
  | T_query_device dev attr => Some (QueryDevice dev attr)
  | T_alloc_pd pd => Some (AllocPd pd)
  | T_dealloc_pd pd => Some (DeallocPd pd)
  | T_create_cq cq => Some (CreateCq cq)
  | T_destroy_cq cq => Some (DestroyCq cq)
  | T_dereg_mr mr => Some (DeregMr mr)
  | _ => None
  end.

(** What the stubs return: an error for queue pairs and registration, success,
    with nothing done, for the rest. *)
Definition stub_result (c : tcall) : Z :=
  match c with
  | T_create_qp _ _ | T_modify_qp _ _ | T_destroy_qp _ | T_post_send _ _ | T_post_recv _ _ => -1
  | T_reg_user_mr _ _ _ _ _ => NULL
  | _ => 0
  end.

Section Dispatch.
Context `{P : Platform} (ctx : ptr).

(** The function [v] on the arguments of [c]; a type-correct table has no other
    combinations. *)
Definition run_verb (v : verb) (c : tcall) : M Z :=
  match v, c with
  | V_query_device, T_query_device dev attr => r ← mlx5_ib_query_device dev attr NULL; mret r.1
  | V_query_port, T_query_port dev port => mlx5_ib_query_port dev port NULL
  | V_alloc_pd, T_alloc_pd pd => mlx5_ib_alloc_pd pd NULL
  | V_dealloc_pd, T_dealloc_pd pd => mlx5_ib_dealloc_pd pd NULL
  | V_create_cq, T_create_cq cq => mlx5_ib_create_cq cq NULL NULL
  | V_destroy_cq, T_destroy_cq cq => mlx5_ib_destroy_cq cq NULL
  | V_poll_cq, T_poll_cq cq ne => mlx5_ib_poll_cq cq ne NULL
  | V_req_notify_cq, T_req_notify_cq cq flags => mlx5_ib_req_notify_cq cq flags
  | V_create_qp, T_create_qp qp init => mlx5_ib_create_qp qp init NULL
  | V_modify_qp, T_modify_qp qp mask => mlx5_ib_modify_qp qp mask NULL NULL
  | V_destroy_qp, T_destroy_qp qp => mlx5_ib_destroy_qp qp NULL
  | V_post_send, T_post_send qp wr => mlx5_ib_post_send qp wr NULL
  | V_post_recv, T_post_recv qp wr => mlx5_ib_post_recv qp wr NULL
  | V_reg_user_mr, T_reg_user_mr pd start len va flags => mlx5_ib_reg_user_mr pd start len va flags NULL
  | V_dereg_mr, T_dereg_mr mr => mlx5_ib_dereg_mr mr NULL
  | V_create_ah, T_create_ah ah flags => mlx5_ib_create_ah ah NULL flags NULL
  | V_destroy_ah, T_destroy_ah ah flags => mlx5_ib_destroy_ah ah flags
  | _, _ => fail BadPointer
  end.

(** [(o.entry)(args)]; a call through a null pointer. *)
Definition dispatch (o : ib_device_ops) (c : tcall) : M Z :=
  match entry o c with Some v => run_verb v c | None => fail BadPointer end.

(** The discipline of the callers. *)
Definition tlegal (s : held) (w : world) (c : tcall) : Prop :=
  match named c with Some v => legal ctx s w v | None => True end.

(** A session through the table [o]. *)
Inductive tstep (o : ib_device_ops) (s : held) : world -> world -> Prop :=
  | tstep_call w c r w' : tlegal s w c -> dispatch o c w = Done r w' -> tstep o s w w'
  | tstep_device w : tstep o s w (device_run w).

(** A function that at most writes a log line, other than that of a command. *)
Definition only_logs (r : Z) (m : M Z) : Prop := quiet m /\ forall w, exists t, m w = Done r (put_trace t w).

Lemma logs_ret r : only_logs r (mret r).
Proof. split; [apply quiet_ret|]. intros w. exists (w_trace w). by destruct w. Qed.
Lemma logs_line r tag args :
  String.eqb tag "cmd_exec" = false -> only_logs r (IOLog tag args ;; mret r).
Proof.
  intros Ht. split; [|by eexists]. apply quiet_bind; [by apply quiet_log|]. intros _. apply quiet_ret.
Qed.

(** Every entry of the table is a verb of [Session] that leaves queue pairs and
    regions alone, or a stub. *)
Definition idle_table (o : ib_device_ops) : Prop := forall c v, entry o c = Some v ->
  match named c with
  | Some u => neutral u = true /\ run_verb v c = run_call ctx u
  | None => only_logs (stub_result c) (run_verb v c)
  end.

Lemma init_ops_idle w : wp mlx5_ib_init_ops (fun o _ => idle_table o) w.
Proof.
  apply wp_bind, wp_log, wp_ret. intros c v.
  destruct c; simpl; intros [= <-]; simpl; first [done|apply logs_ret|by apply logs_line].
Qed.

Lemma implements_trace m s w t : implements ctx m s w -> implements ctx m s (put_trace t w).
Proof.
  intros [Hs Hone Hq Hm Hqs Hms]. split; [|done|done|done| |done].
  - eapply (service_keeps ctx s w); [|exact Hs]. split; try done.
  - intros p a Hp. destruct (Hqs p a Hp) as (q & Ha & Hwq & Hr). exists q. split; [done|].
    split; [done|]. intros Hro. destruct (Hr Hro). by split.
Qed.

Lemma neutral_after u r s : neutral u = true -> after_call u r s = s /\ call_qp u = None.
Proof. by destruct u. Qed.

Lemma dispatch_idle o m s w c v :
  idle_table o -> implements ctx m s w -> tlegal s w c -> entry o c = Some v ->
  wp (dispatch o c) (fun r w' => implements ctx m s w' /\
    (named c = None -> r = stub_result c /\ commands (w_trace w') = commands (w_trace w))) w.
Proof.
  intros Ho Hm Hl Hv. specialize (Ho c v Hv). unfold dispatch. rewrite Hv. unfold tlegal in Hl.
  destruct (named c) as [u|].
  - destruct Ho as [Hn ->]. pose proof (im_service _ _ _ _ Hm) as Hs.
    destruct (wp_run _ _ _ (call_ok ctx u s w Hs Hl)) as (r & w' & E & _).
    apply (wp_done _ _ _ _ _ E). split; [|done]. destruct (neutral_after u r s Hn) as [Ea Eq].
    pose proof (step_plain ctx s w u r w' Hs (im_one _ _ _ _ Hm) Hl E m Hm Eq Ea) as H. by rewrite Ea in H.
  - destruct Ho as [Hq Hlog]. destruct (Hlog w) as (t & E). apply (wp_done _ _ _ _ _ E).
    split; [by apply implements_trace|]. intros _. split; [done|].
    specialize (Hq w). rewrite E in Hq. unfold log_of in Hq. congruence.
Qed.

Lemma tsteps_idle o m s w w' :
  idle_table o -> rtc (tstep o s) w w' -> implements ctx m s w -> implements ctx m s w'.
Proof.
  intros Ho. induction 1 as [|w w1 w2 Hstep _ IH]; [done|]. intros Hm. apply IH.
  destruct Hstep as [w c r w1 Hl E|w]; [|by apply implements_device].
  destruct (entry o c) as [v|] eqn:Hv; [|unfold dispatch in E; by rewrite Hv in E].
  pose proof (dispatch_idle o m s w c v Ho Hm Hl Hv) as H. unfold wp in H. rewrite E in H. apply H.
Qed.

End Dispatch.

(** C33. Clients of the function table.  After [mlx5_ib_init_ops], whatever is called
    through the table and whatever the card does, the abstract machine stays
    where it is: no queue pair is created, moved, posted to or destroyed and no
    region is registered.  A call of an entry that is set completes without
    undefined behaviour; if it is a stub it sends no command and returns its
    fixed result, an error for queue pairs and registration and success for the
    others; a call of an entry that is not set goes through a null pointer. *)
Theorem table_idle `{P : Platform} ctx w0 :
  wp mlx5_ib_init_ops (fun o _ => forall m s w w',
    implements ctx m s w -> rtc (tstep ctx o s) w w' ->
    implements ctx m s w' /\
    forall c, tlegal ctx s w' c ->
      match entry o c with
      | Some _ => exists r w'', dispatch o c w' = Done r w'' /\
          (named c = None -> r = stub_result c /\ commands (w_trace w'') = commands (w_trace w'))
      | None => dispatch o c w' = Fault BadPointer
      end) w0.
Proof.
  eapply wp_mono; [apply (init_ops_idle ctx)|]. intros o w1 Ho m s w w' Hm Hsteps.
  pose proof (tsteps_idle ctx o m s w w' Ho Hsteps Hm) as Hm'. split; [done|]. intros c Hl.
  destruct (entry o c) as [v|] eqn:Hv; [|unfold dispatch; by rewrite Hv].
  destruct (wp_run _ _ _ (dispatch_idle ctx o m s w' c v Ho Hm' Hl Hv)) as (r & w'' & E & _ & Hstub).
  by exists r, w''.
Qed.

(** Through the table of the simulated card: a protection domain is allocated,
    a queue pair is not created, and [resize_cq] is a null pointer. *)
Definition table_demo : option (Z * Z * bool) :=
  match @mlx5_ib_init_ops (sim_platform 1 2) demo_world with
  | Done o _ =>
      match dispatch o (T_alloc_pd 300) demo_world with
      | Done r1 w1 =>
          match dispatch o (T_create_qp 500 0) w1 with
          | Done r2 w2 =>
              Some (r1, r2, match dispatch o T_resize_cq w2 with Fault BadPointer => true | _ => false end)
          | Fault _ => None
          end
      | Fault _ => None
      end
  | Fault _ => None
  end.

Example table_demo_eq : table_demo = Some (0, -1, true).
Proof. vm_compute. reflexivity. Qed.

Lemma table_idle_witness :
  @implements (sim_platform 1 2) 100 (Machine ∅ ∅) (Held ∅ ∅) demo_world /\
  wp (@mlx5_ib_init_ops (sim_platform 1 2)) (fun o _ => forall m s (w w' : @world (sim_platform 1 2)),
    implements 100 m s w -> rtc (tstep 100 o s) w w' ->
    implements 100 m s w' /\
    forall c, tlegal 100 s w' c ->
      match entry o c with
      | Some _ => exists r w'', dispatch o c w' = Done r w'' /\
          (named c = None -> r = stub_result c /\ commands (w_trace w'') = commands (w_trace w'))
      | None => dispatch o c w' = Fault BadPointer
      end) demo_world.
Proof.
  split; [apply implements_empty; [exact demo_in_service|exact demo_one]|].
  exact (@table_idle (sim_platform 1 2) 100 demo_world).
Defined.
