(* ===== verification/Threads.v ===== *)
(** * Threads

    The functions of the driver are programs of the monad [M], which runs them to
    the end.  Here a function is cut into its atomic actions, one for each access
    to shared memory, so that several calls can run at once: a [proc] is a tree
    of actions, a pool is a list of procs over one world, and in each step of a
    pool one thread makes one action, or the device runs.

    [cut p m] says that [p] is [m], cut.  The logic is rely-guarantee: [rg R G p Q]
    says that [p], while the others change the world by [R], makes actions that
    do not fault and change it by [G], and ends in [Q]. *)

From S2P Require Import Prelude Bytes Registers IbVerbs World Wp.

Inductive proc `{P : Platform} (A : Type) : Type :=
  | PRet (a : A)
  | PAct (X : Type) (m : M X) (k : X -> proc A).
Arguments PRet {P A} a.
Arguments PAct {P A X} m k.

Section Procs.
Context `{P : Platform}.

(** One atomic action. *)
Definition act {A} (m : M A) : proc A := PAct m PRet.

Fixpoint proc_then {A B} (k : A -> proc B) (p : proc A) : proc B :=
  match p with PRet a => k a | PAct m j => PAct m (fun x => proc_then k (j x)) end.

#[global] Instance proc_ret : MRet proc := fun A a => PRet a.
#[global] Instance proc_bind : MBind proc := fun A B k p => proc_then k p.

(** Without other threads. *)
Fixpoint run {A} (p : proc A) : M A :=
  match p with PRet a => mret a | PAct m k => m ≫= fun x => run (k x) end.

(** ** Cutting a function into actions *)

Definition cut {A} (p : proc A) (m : M A) : Prop := forall w, run p w = m w.

Lemma cut_ret {A} (a : A) : cut (mret a) (mret a).
Proof. done. Qed.

Lemma cut_act {A} (m : M A) : cut (act m) m.
Proof. intros w. unfold act, run, mbind, M_bind. by destruct (m w). Qed.

Lemma wp_cut {A} (p : proc A) m Q w : cut p m -> wp m Q w -> wp (run p) Q w.
Proof. intros H Hm. unfold wp. by rewrite H. Qed.

Lemma run_bind {A B} (p : proc A) (k : A -> proc B) w :
  run (p ≫= k) w = (run p ≫= fun a => run (k a)) w.
Proof.
  revert w. induction p as [a|X m j IH]; intros w; [done|].
  change (run (PAct m j ≫= k) w) with (match m w with Done x w' => run (j x ≫= k) w' | Fault f => Fault f end).
  cbv [mbind M_bind run]. fold (@run A). destruct (m w); [|done]. by rewrite IH.
Qed.

Lemma cut_bind {A B} (p : proc A) (k : A -> proc B) m j :
  cut p m -> (forall a, cut (k a) (j a)) -> cut (p ≫= k) (m ≫= j).
Proof.
  intros Hp Hk w. rewrite run_bind. cbv [mbind M_bind]. rewrite Hp. destruct (m w); [|done]. apply Hk.
Qed.

(** A conditional call without result. *)
Definition pwhen (b : bool) (p : proc unit) : proc unit := if b then p else mret tt.

Lemma cut_when b p m : cut p m -> cut (pwhen b p) (mwhen b m).
Proof. by destruct b. Qed.

(** Reading a field and writing it back: two actions. *)
Lemma cut_update {T} `{!Cell T} p (f : T -> T) (g : T -> T -> T) :
  (forall x, g x x = f x) -> cut (x ← act (deref p); act (modify p (g x))) (modify p f).
Proof.
  intros Hg w. cbv [mbind M_bind proc_bind proc_then act run deref modify mret M_ret].
  destruct (cell_get w !! p) as [x|] eqn:E; [|done]. by rewrite E, Hg.
Qed.
End Procs.

Create HintDb cut discriminated.
#[export] Hint Resolve cut_ret cut_act cut_when : cut.

(** Derive [cut] by walking over two functions of the same form. *)
Ltac cut_step :=
  lazymatch goal with
  | |- forall _, _ => intro
  | |- cut (mbind _ _) (modify _ _) => apply cut_update; reflexivity
  | |- cut (mbind _ _) (mbind _ _) => apply cut_bind
  | |- cut (pwhen _ _) _ => apply cut_when
  | |- cut (if ?b then _ else _) _ => destruct b
  | |- cut (match ?x with _ => _ end) _ => destruct x
  | |- cut _ _ => first [solve [eauto with cut] | progress cbv zeta]
  end.
Ltac solve_cut := repeat cut_step.

(** ** Pools *)

Section Pools.
Context `{P : Platform} {A : Type}.

(** The next action, of a thread that is not at its end. *)
Definition step_of (p : proc A) (w : world) : option (outcome (proc A)) :=
  match p with
  | PRet _ => None
  | PAct m k => Some (match m w with Done x w' => Done (k x) w' | Fault f => Fault f end)
  end.

Definition pool : Type := list (proc A) * world.

(** One action of one thread. *)
Inductive thread_step : pool -> pool -> Prop :=
  | thread_act i ps p p' w w' :
      ps !! i = Some p -> step_of p w = Some (Done p' w') ->
      thread_step (ps, w) (<[i := p']> ps, w').

Inductive device_step : pool -> pool -> Prop :=
  | device_act ps w : device_step (ps, w) (ps, device_run w).

Definition pool_step (c c' : pool) : Prop := thread_step c c' \/ device_step c c'.

(** The next action of some thread is undefined. *)
Definition thread_faults (c : pool) : Prop :=
  exists (i : nat) p f, c.1 !! i = Some p /\ step_of p c.2 = Some (Fault f).

Definition finished (c : pool) : Prop := forall i p, c.1 !! i = Some p -> exists a, p = PRet a.

(** A turn: the device runs any number of times, then a thread makes an action. *)
Definition turn (c c' : pool) : Prop := exists c1, rtc device_step c c1 /\ thread_step c1 c'.

Lemma device_steps_threads c c' : rtc device_step c c' -> c'.1 = c.1.
Proof. induction 1 as [|c1 c2 c3 [ps w] _ IH]; [done|exact IH]. Qed.

(** ** Every run ends

    A proc is a well-founded tree, and every action of a thread goes down in its
    tree; so no run has infinitely many turns. *)

Definition child (p' p : proc A) : Prop :=
  match p with PRet _ => False | PAct m k => exists x, p' = k x end.

Lemma child_wf : well_founded child.
Proof. intros p. induction p as [a|X m k IH]; constructor; intros p'; [done|]. intros [x ->]. apply IH. Qed.

Lemma step_child p w p' w' : step_of p w = Some (Done p' w') -> child p' p.
Proof.
  destruct p as [a|X m k]; [done|]. simpl. destruct (m w) as [x w1|]; [|done]. intros [= <- <-]. by exists x.
Qed.

(** One of the procs of a list goes down. *)
Definition descend (ps' ps : list (proc A)) : Prop :=
  exists i p p', ps !! i = Some p /\ child p' p /\ ps' = <[i := p']> ps.

Lemma descend_cons p ps ps' :
  descend ps' (p :: ps) -> (exists p', child p' p /\ ps' = p' :: ps) \/
                           (exists ps1, descend ps1 ps /\ ps' = p :: ps1).
Proof.
  intros ([|i] & q & q' & Hi & Hc & ->); simpl in Hi.
  - injection Hi as <-. left. by exists q'.
  - right. exists (<[i := q']> ps). split; [by exists i, q, q'|done].
Qed.

Lemma descend_wf : well_founded descend.
Proof.
  intros ps. induction ps as [|p ps IH]; [constructor; by intros ps' (i & q & q' & Hi & _)|].
  revert p. induction IH as [ps _ IHps]. intros p.
  induction (child_wf p) as [p _ IHp]. constructor. intros ps' [(p' & Hc & ->)|(ps1 & Hd & ->)]%descend_cons.
  - by apply IHp.
  - by apply IHps.
Qed.

Lemma turns_end (c : pool) : Acc (flip turn) c.
Proof.
  destruct c as [ps w]. revert w. induction (descend_wf ps) as [ps _ IH]. intros w. constructor.
  intros [ps' w'] ([ps1 w1] & Hd & Ht). pose proof (device_steps_threads _ _ Hd) as E. simpl in E. subst ps1.
  inversion Ht as [i ? p p' ? ? Hi Hs]; subst. apply IH. exists i, p, p'.
  split; [done|]. split; [|done]. by eapply step_child.
Qed.

(** A pool that has not finished has a thread to run. *)
Lemma unfinished_steps ps w :
  finished (ps, w) \/ thread_faults (ps, w) \/ exists c', thread_step (ps, w) c'.
Proof.
  assert (H : forall l j, ps = take j ps ++ l -> length (take j ps) = j ->
    (forall i p, l !! i = Some p -> exists a, p = PRet a) \/
    exists i p o, ps !! i = Some p /\ step_of p w = Some o).
  { induction l as [|p l IH]; intros j E Hj; [left; by intros i p|].
    assert (Hp : ps !! j = Some p).
    { rewrite E, lookup_app_r by lia. by rewrite Hj, Nat.sub_diag. }
    destruct p as [a|X m k]; [|right; by eexists j, _, _].
    destruct (IH (S j)) as [H|H]; [| |left|by right].
    - by rewrite (take_S_r _ _ _ Hp), <- app_assoc.
    - rewrite (take_S_r _ _ _ Hp), length_app, Hj. simpl. lia.
    - intros [|i] q Hq; [injection Hq as <-; by exists a|by eapply H]. }
  destruct (H ps 0%nat) as [Hf|(i & p & o & Hi & Ho)]; [done|done|by left|right].
  destruct o as [p' w'|f]; [right|left].
  - eexists. by econstructor.
  - by exists i, p, f.
Qed.

(** From a pool in which no run faults, some run finishes all threads. *)
Lemma can_finish (c : pool) :
  (forall c', rtc thread_step c c' -> ~ thread_faults c') ->
  exists c', rtc thread_step c c' /\ finished c'.
Proof.
  intros Hsafe. induction (turns_end c) as [c _ IH]. destruct c as [ps w].
  destruct (unfinished_steps ps w) as [Hf|[Hf|[c' Hs]]].
  - by exists (ps, w).
  - by destruct (Hsafe (ps, w)).
  - destruct (IH c') as (c2 & H1 & H2); [by exists (ps, w)| |].
    + intros c2 H. apply Hsafe. by eapply rtc_l.
    + exists c2. split; [by eapply rtc_l|done].
Qed.

Lemma thread_steps_pool c c' : rtc thread_step c c' -> rtc pool_step c c'.
Proof. induction 1; [done|]. eapply rtc_l; [by left|done]. Qed.

(** No thread is made or lost. *)
Lemma pool_steps_length c c' : rtc pool_step c c' -> length c'.1 = length c.1.
Proof.
  induction 1 as [|c1 c2 c3 Hst _ IH]; [done|]. rewrite IH.
  destruct Hst as [[]|[]]; simpl; [apply length_insert|done].
Qed.

(** A run by a list of thread numbers, without the device. *)
Fixpoint schedule (order : list nat) (c : pool) : option pool :=
  match order with
  | [] => Some c
  | i :: order =>
      match c.1 !! i with
      | Some p =>
          match step_of p c.2 with
          | Some (Done p' w') => schedule order (<[i := p']> c.1, w')
          | _ => None
          end
      | None => None
      end
  end.

Lemma schedule_threads order c c' : schedule order c = Some c' -> rtc thread_step c c'.
Proof.
  revert c. induction order as [|i order IH]; intros [ps w] E; simpl in E; [by injection E as <-|].
  destruct (ps !! i) as [p|] eqn:Hi; [|done].
  destruct (step_of p w) as [[p' w'|]|] eqn:Hs; [|done..].
  eapply rtc_l; [by econstructor|]. by apply IH.
Qed.

Lemma schedule_steps order c c' : schedule order c = Some c' -> rtc pool_step c c'.
Proof. intros E. by eapply thread_steps_pool, schedule_threads. Qed.

(** One thread makes the actions of [q], the others none. *)
Lemma run_alone {B} i (q : proc B) (k : B -> proc A) ps w b w' :
  ps !! i = Some (q ≫= k) -> run q w = Done b w' -> rtc thread_step (ps, w) (<[i := k b]> ps, w').
Proof.
  revert ps w. induction q as [b1|X m j IH]; intros ps w Hi Hr.
  - injection Hr as <- <-. by rewrite list_insert_id.
  - cbv [mbind M_bind run] in Hr. fold (@run _ B) in Hr. destruct (m w) as [x w1|] eqn:Hm; [|done].
    eapply rtc_l.
    + apply (thread_act i ps _ (j x ≫= k) w w1 Hi). simpl. by rewrite Hm.
    + rewrite <- (list_insert_insert_eq ps i (k b) (j x ≫= k)). apply (IH x); [|done].
      apply list_lookup_insert_eq. by eapply lookup_lt_Some.
Qed.
End Pools.
Arguments pool {P} A.

(** ** Rely and guarantee *)

Section Logic.
Context `{P : Platform}.

Fixpoint rg {A} (R G : relation world) (p : proc A) (Q : A -> world -> Prop) (w : world) : Prop :=
  match p with
  | PRet a => forall w', R w w' -> Q a w'
  | PAct m k => forall w', R w w' -> wp m (fun x w'' => G w' w'' /\ rg R G (k x) Q w'') w'
  end.

(** Stability under the others is built in. *)
Lemma rg_stable {A} R G (p : proc A) Q w w' :
  Transitive R -> R w w' -> rg R G p Q w -> rg R G p Q w'.
Proof. intros HT HR. destruct p; simpl; intros H w'' HR'; apply H; by etrans. Qed.

Lemma rg_now {A} R G (a : A) Q w : Reflexive R -> rg R G (PRet a) Q w -> Q a w.
Proof. intros HR H. by apply H. Qed.

Definition preserved (I : world -> Prop) (R : relation world) : Prop := forall w w', R w w' -> I w -> I w'.

Lemma rg_mono {A} R G (p : proc A) (Q1 Q2 : A -> world -> Prop) w :
  (forall a w', Q1 a w' -> Q2 a w') -> rg R G p Q1 w -> rg R G p Q2 w.
Proof.
  intros HQ. revert w. induction p as [a|X m k IH]; intros w H w' HR; [by apply HQ, H|].
  eapply wp_mono; [by apply H|]. intros x w'' [HG Hk]. split; [done|]. by apply IH.
Qed.

Lemma rg_bind {A B} R G (p : proc A) (k : A -> proc B) Q w :
  Reflexive R -> rg R G p (fun a w' => rg R G (k a) Q w') w -> rg R G (p ≫= k) Q w.
Proof.
  intros HR. revert w. induction p as [a|X m j IH]; intros w H.
  - apply H. reflexivity.
  - intros w' HRw. eapply wp_mono; [by apply H|]. intros x w'' [HG Hk]. split; [done|]. by apply IH.
Qed.

(** A Hoare triple; assertions must not depend on what the others change. *)
Definition triple {A} R G (I : world -> Prop) (p : proc A) (J : A -> world -> Prop) : Prop :=
  forall w, I w -> rg R G p J w.

Lemma triple_ret {A} R G (a : A) (J : A -> world -> Prop) : preserved (J a) R -> triple R G (J a) (mret a) J.
Proof. intros HJ w Hw w' HR. by eapply HJ. Qed.

Lemma triple_act {A} R G (m : M A) (I : world -> Prop) J :
  preserved I R -> (forall x, preserved (J x) R) ->
  (forall w, I w -> wp m (fun x w' => G w w' /\ J x w') w) -> triple R G I (act m) J.
Proof.
  intros HI HJ Hm w Hw w1 HR. eapply wp_mono; [apply Hm; by eapply HI|].
  intros x w2 [Hg Hx]. split; [done|]. intros w3 HR'. by eapply HJ.
Qed.

Lemma triple_bind {A B} R G `{!Reflexive R} (p : proc A) (k : A -> proc B) I J Q :
  triple R G I p J -> (forall a, triple R G (J a) (k a) Q) -> triple R G I (p ≫= k) Q.
Proof.
  intros Hp Hk w Hw. apply rg_bind; [done|]. eapply rg_mono; [|by apply Hp]. intros a w'. apply Hk.
Qed.

Lemma triple_mono {A} R G (p : proc A) (I I' : world -> Prop) (J J' : A -> world -> Prop) :
  (forall w, I' w -> I w) -> (forall a w, J a w -> J' a w) -> triple R G I p J -> triple R G I' p J'.
Proof. intros HI HJ Hp w Hw. eapply rg_mono; [exact HJ|]. by apply Hp, HI. Qed.

(** Soundness: threads whose guarantees are among the others' relies. *)
Section Sound.
Context {A : Type} (R G : nat -> relation world) (Q : nat -> A -> world -> Prop).
Context {HR : forall i, PreOrder (R i)}.
Context (HG : forall i j w w', i <> j -> G i w w' -> R j w w').
Context (HD : forall i w, R i w (device_run w)).

Definition pool_ok (c : pool A) : Prop := forall i p, c.1 !! i = Some p -> rg (R i) (G i) p (Q i) c.2.

Lemma step_ok i p w p' w' :
  rg (R i) (G i) p (Q i) w -> step_of p w = Some (Done p' w') ->
  G i w w' /\ rg (R i) (G i) p' (Q i) w'.
Proof.
  destruct p as [a|X m k]; [done|]. simpl. intros H E. specialize (H w (reflexivity w)). unfold wp in H.
  destruct (m w) as [x w1|]; [|done]. by injection E as <- <-.
Qed.

Lemma pool_step_ok c c' : pool_step c c' -> pool_ok c -> pool_ok c'.
Proof.
  intros [[i ps p p' w w' Hi Hs]|[ps w]] Hok j q Hj; simpl in *.
  - destruct (step_ok i p w p' w' (Hok i p Hi) Hs) as [Hg Hp].
    destruct (decide (i = j)) as [<-|Hne].
    + rewrite list_lookup_insert_eq in Hj by (by eapply lookup_lt_Some). by injection Hj as <-.
    + rewrite list_lookup_insert_ne in Hj by done.
      eapply rg_stable; [apply _|by eapply HG|by apply Hok].
  - eapply rg_stable; [apply _|apply HD|by apply Hok].
Qed.

Lemma pool_ok_safe c : pool_ok c -> ~ thread_faults c.
Proof.
  intros Hok (i & p & f & Hi & Hs). specialize (Hok i p Hi). destruct p as [a|X m k]; [done|].
  simpl in *. specialize (Hok c.2 (reflexivity _)). unfold wp in Hok. by destruct (m c.2).
Qed.

Theorem pool_sound c c' :
  pool_ok c -> rtc pool_step c c' ->
  ~ thread_faults c' /\ forall i a, c'.1 !! i = Some (PRet a) -> Q i a c'.2.
Proof.
  intros Hok Hsteps.
  assert (H : pool_ok c') by (induction Hsteps; eauto using pool_step_ok).
  split; [by apply pool_ok_safe|]. intros i a Hi. specialize (H i _ Hi).
  by apply (rg_now (R i) (G i) a (Q i)); [apply _|].
Qed.
End Sound.
End Logic.

(** The pool after a schedule, as a constant. *)
Definition scheduled `{P : Platform} {A} (order : list nat) (c : pool A) : pool A :=
  default c (schedule order c).

Lemma scheduled_steps `{P : Platform} {A} (order : list nat) (c : pool A) :
  bool_decide (is_Some (schedule order c)) = true -> rtc pool_step c (scheduled order c).
Proof.
  intros [c' E]%bool_decide_eq_true. unfold scheduled. rewrite E. by apply (schedule_steps order).
Qed.

(** What the threads have returned, if they have. *)
Definition result_of `{P : Platform} {A} (p : proc A) : option A :=
  match p with PRet a => Some a | PAct _ _ => None end.

Lemma results_ret `{P : Platform} {A} (ps : list (proc A)) (rs : list A) :
  result_of <$> ps = Some <$> rs -> ps = PRet <$> rs.
Proof.
  revert rs. induction ps as [|p ps IH]; intros [|r rs] E; try done.
  injection E as E1 E2. rewrite (IH rs E2). destruct p; [|done]. by injection E1 as ->.
Qed.
