(* ===== verification/CmdThreads.v ===== *)
(** * The command channel, one access at a time

    [mlx5_cmd_exec] cut into its accesses to shared memory: every load and store
    of the context, the ring and the mailboxes is an action of its own ([++x] is
    a load and a store; [memset] and [memcpy] are one).  [cut_exec] says that
    nothing is lost.  What interleavings of such calls do is the subject of
    [ClientsTheorems] and [CmdRace]. *)

From S2P Require Import Prelude Bytes Registers IbVerbs World Wp Cmd CmdSpec CmdTheorems CmdOverlap Threads.

Section Cut.
Context `{P : Platform}.

Definition take_token_t (ctx : ptr) : proc Z :=
  c ← act (deref ctx);
  let token := u8 (next_token c + 1) in
  act (modify ctx (set_next_token token)) ;;
  if token =? 0 then
    c ← act (deref ctx);
    let token := u8 (next_token c + 1) in
    act (modify ctx (set_next_token token)) ;;
    mret token
  else mret token.

Definition submit_t (c : mlx5_cmd_context) (slot token opcode op_mod : Z)
    (in_data : option (buf * Z)) (in_len out_len : Z) : proc unit :=
  let ring := cmd_ring c in
  let entry := slot_entry c slot in
  let pool := mbox_pool c in
  let in_mbox := slot_in_mbox slot in
  let out_mbox := slot_out_mbox slot in
  let in_dma := u64 (mbox_dma_base c + in_mbox) in
  let out_dma := u64 (mbox_dma_base c + out_mbox) in
  act (mem_fill pool in_mbox MLX5_CMD_MAILBOX_SIZE 0) ;;
  act (mem_fill pool out_mbox MLX5_CMD_MAILBOX_SIZE 0) ;;
  act (st16 pool (in_mbox + MLX5_MBOX_OPCODE_OFF) (OSSwapInt16 opcode)) ;;
  act (st16 pool (in_mbox + MLX5_MBOX_UID_OFF) (OSSwapInt16 MLX5_CMD_UID_DRIVER)) ;;
  act (st16 pool (in_mbox + MLX5_MBOX_OP_MOD_OFF) (OSSwapInt16 op_mod)) ;;
  match in_data with
  | Some (src, so) =>
      pwhen (0 <? in_len) (act (mem_copy_in pool (in_mbox + 16) src so (in_copy_len in_len)))
  | None => mret tt
  end ;;
  act (st64 ring (entry + off_in_ptr) (OSSwapInt64 in_dma)) ;;
  act (st32 ring (entry + off_in_len) (OSSwapInt32 MLX5_CMD_MAILBOX_SIZE)) ;;
  act (st64 ring (entry + off_out_ptr) (OSSwapInt64 out_dma)) ;;
  act (st32 ring (entry + off_out_len)
    (OSSwapInt32 (if 0 <? out_len then out_len else MLX5_CMD_MAILBOX_SIZE))) ;;
  act (st32 ring (entry + off_token) (OSSwapInt32 token)) ;;
  act (st8 ring (entry + off_signature) 0) ;;
  act OSSynchronizeIO ;;
  act (st8 ring (entry + off_status) MLX5_CMD_OWNER_HW) ;;
  act OSSynchronizeIO ;;
  act (iseg_write32 (iseg c) MLX5_ISEG_CMD_DOORBELL (u32 (Z.shiftl 1 slot))) ;;
  act (IOLog "doorbell" [slot]).

Fixpoint poll_t (n : nat) (ring : ptr) (entry : Z) : proc Z :=
  match n with
  | O => mret 0
  | S n' =>
      act OSSynchronizeIO ;;
      st ← act (ld8 ring (entry + off_status));
      if status_owner st =? MLX5_CMD_OWNER_SW then
        st2 ← act (ld8 ring (entry + off_status));
        mret (status_delivery st2)
      else
        act (IOSleep 10) ;;
        poll_t n' ring entry
  end.

(** [ctx->failed_commands++] and [ctx->total_commands++] *)
Definition count_failed_t (ctx : ptr) : proc unit :=
  c ← act (deref ctx); act (modify ctx (set_failed_commands (u32 (failed_commands c + 1)))).
Definition count_total_t (ctx : ptr) : proc unit :=
  c ← act (deref ctx); act (modify ctx (set_total_commands (u32 (total_commands c + 1)))).

Definition read_response_t (ctx : ptr) (c : mlx5_cmd_context) (slot opcode : Z)
    (out_data : option buf) (out_len : Z) (out_status : option Z) : proc exec_result :=
  let pool := mbox_pool c in
  let out_mbox := slot_out_mbox slot in
  fw_status ← act (ld8 pool (out_mbox + MLX5_MBOX_STATUS_OFF));
  syn ← act (ld32 pool (out_mbox + MLX5_MBOX_SYNDROME_OFF));
  let fw_syndrome := OSSwapInt32 syn in
  let out_status := (fun _ => fw_status) <$> out_status in
  if negb (fw_status =? MLX5_CMD_STAT_OK) then
    act (IOLog "ERROR: command fw_status syndrome" [opcode; fw_status; fw_syndrome]) ;;
    count_failed_t ctx ;;
    mret (ExecResult kIOReturnError out_data out_status)
  else
    out ← act (copy_out pool out_mbox out_data out_len);
    act (IOLog "command succeeded" [opcode]) ;;
    mret (ExecResult kIOReturnSuccess out out_status).

Definition finish_t (ctx : ptr) (c : mlx5_cmd_context) (slot opcode delivery_status : Z)
    (out_data : option buf) (out_len : Z) (out_status : option Z) : proc exec_result :=
  st ← act (ld8 (cmd_ring c) (slot_entry c slot + off_status));
  if negb (status_owner st =? MLX5_CMD_OWNER_SW) then
    act (IOLog "ERROR: command timed out" [opcode]) ;;
    count_failed_t ctx ;;
    mret (ExecResult kIOReturnTimeout out_data out_status)
  else
    count_total_t ctx ;;
    if negb (delivery_status =? MLX5_CMD_DELIVERY_STAT_OK) then
      act (IOLog "ERROR: command delivery status" [opcode; delivery_status]) ;;
      count_failed_t ctx ;;
      mret (ExecResult kIOReturnError out_data out_status)
    else read_response_t ctx c slot opcode out_data out_len out_status.

Definition exec_t (ctx : ptr) (a : exec_args) : proc exec_result :=
  let slot := 0 in
  token ← take_token_t ctx;
  act (IOLog "cmd_exec" [ea_opcode a; ea_op_mod a; slot; token]) ;;
  c ← act (deref ctx);
  submit_t c slot token (ea_opcode a) (ea_op_mod a) (ea_in a) (ea_in_len a) (ea_out_len a) ;;
  delivery_status ← poll_t poll_limit (cmd_ring c) (slot_entry c slot);
  finish_t ctx c slot (ea_opcode a) delivery_status (ea_out a) (ea_out_len a)
    ((fun _ => 0xFF) <$> ea_status a).

Lemma cut_take_token ctx : cut (take_token_t ctx) (cmd_take_token ctx).
Proof. unfold take_token_t, cmd_take_token. solve_cut. Qed.

Lemma cut_submit c slot token opcode op_mod in_data in_len out_len :
  cut (submit_t c slot token opcode op_mod in_data in_len out_len)
    (cmd_submit c slot token opcode op_mod in_data in_len out_len).
Proof. unfold submit_t, cmd_submit. cbv zeta. solve_cut. Qed.

Lemma cut_poll n ring entry : cut (poll_t n ring entry) (cmd_poll n ring entry).
Proof. induction n as [|n IH]; cbn [poll_t cmd_poll]; solve_cut. Qed.

Lemma cut_failed ctx : cut (count_failed_t ctx) (modify ctx count_failed).
Proof. by apply cut_update. Qed.
Lemma cut_total ctx : cut (count_total_t ctx) (modify ctx count_total).
Proof. by apply cut_update. Qed.
#[local] Hint Resolve cut_take_token cut_submit cut_poll cut_failed cut_total : cut.

Lemma cut_finish ctx c slot opcode d out out_len status :
  cut (finish_t ctx c slot opcode d out out_len status) (cmd_finish ctx c slot opcode d out out_len status).
Proof.
  unfold finish_t, cmd_finish, read_response_t, cmd_read_response. cbv zeta. solve_cut.
Qed.
#[local] Hint Resolve cut_finish : cut.

(** A call without others is [mlx5_cmd_exec]. *)
Lemma cut_exec ctx a :
  cut (exec_t ctx a) (mlx5_cmd_exec ctx (ea_opcode a) (ea_op_mod a) (ea_in a) (ea_in_len a)
    (ea_out a) (ea_out_len a) (ea_status a)).
Proof. unfold exec_t, mlx5_cmd_exec. cbv zeta. solve_cut. Qed.
End Cut.
