(* ===== verification/CmdRace.v ===== *)
(** * Two commands at once, access by access

    [CmdOverlap] lets two calls overlap at the doorbell.  Here their accesses
    interleave: nothing in [mlx5_cmd_exec] keeps another call from the token
    counter, the ring entry and the mailbox while one is being filled. *)

From S2P Require Import Prelude Bytes Registers IbVerbs World Wp Cmd CmdSpec Sim CmdTheorems CmdOverlap Threads CmdThreads.

Section Race.
Context `{P : Platform}.

(** A call in four parts: its token; up to the opcode; up to the doorbell; the
    wait. *)
Definition opening_t (ctx : ptr) (token : Z) (a : exec_args) : proc mlx5_cmd_context :=
  act (IOLog "cmd_exec" [ea_opcode a; ea_op_mod a; 0; token]) ;;
  c ← act (deref ctx);
  act (mem_fill (mbox_pool c) (slot_in_mbox 0) MLX5_CMD_MAILBOX_SIZE 0) ;;
  act (mem_fill (mbox_pool c) (slot_out_mbox 0) MLX5_CMD_MAILBOX_SIZE 0) ;;
  act (st16 (mbox_pool c) (slot_in_mbox 0 + MLX5_MBOX_OPCODE_OFF) (OSSwapInt16 (ea_opcode a))) ;;
  mret c.

Definition closing_t (token : Z) (a : exec_args) (c : mlx5_cmd_context) : proc unit :=
  let ring := cmd_ring c in
  let pool := mbox_pool c in
  let entry := slot_entry c 0 in
  let in_mbox := slot_in_mbox 0 in
  act (st16 pool (in_mbox + MLX5_MBOX_UID_OFF) (OSSwapInt16 MLX5_CMD_UID_DRIVER)) ;;
  act (st16 pool (in_mbox + MLX5_MBOX_OP_MOD_OFF) (OSSwapInt16 (ea_op_mod a))) ;;
  match ea_in a with
  | Some (src, so) =>
      pwhen (0 <? ea_in_len a) (act (mem_copy_in pool (in_mbox + 16) src so (in_copy_len (ea_in_len a))))
  | None => mret tt
  end ;;
  act (st64 ring (entry + off_in_ptr) (OSSwapInt64 (u64 (mbox_dma_base c + in_mbox)))) ;;
  act (st32 ring (entry + off_in_len) (OSSwapInt32 MLX5_CMD_MAILBOX_SIZE)) ;;
  act (st64 ring (entry + off_out_ptr) (OSSwapInt64 (u64 (mbox_dma_base c + slot_out_mbox 0)))) ;;
  act (st32 ring (entry + off_out_len)
    (OSSwapInt32 (if 0 <? ea_out_len a then ea_out_len a else MLX5_CMD_MAILBOX_SIZE))) ;;
  act (st32 ring (entry + off_token) (OSSwapInt32 token)) ;;
  act (st8 ring (entry + off_signature) 0) ;;
  act OSSynchronizeIO ;;
  act (st8 ring (entry + off_status) MLX5_CMD_OWNER_HW) ;;
  act OSSynchronizeIO ;;
  act (iseg_write32 (iseg c) MLX5_ISEG_CMD_DOORBELL (u32 (Z.shiftl 1 0))) ;;
  act (IOLog "doorbell" [0]).

Definition waiting_t (ctx : ptr) (a : exec_args) (c : mlx5_cmd_context) : proc exec_result :=
  d ← poll_t poll_limit (cmd_ring c) (slot_entry c 0);
  finish_t ctx c 0 (ea_opcode a) d (ea_out a) (ea_out_len a) ((fun _ => 0xFF) <$> ea_status a).

Lemma exec_parts ctx a :
  exec_t ctx a = take_token_t ctx ≫= fun token =>
    opening_t ctx token a ≫= fun c => closing_t token a c ≫= fun _ => waiting_t ctx a c.
Proof. reflexivity. Qed.

(** Both calls read the counter before either writes it. *)
Lemma tokens_collide ctx c w (ka kb : Z -> proc exec_result) :
  w_ctx w !! ctx = Some c ->
  rtc thread_step ([take_token_t ctx ≫= ka; take_token_t ctx ≫= kb], w)
    ([ka (next_tok (next_token c)); kb (next_tok (next_token c))],
     put_ctx (<[ctx := set_next_token (next_tok (next_token c)) c]> (w_ctx w)) w).
Proof.
  intros Hc. set (tick c0 := put_ctx (<[ctx := c0]> (w_ctx w)) w).
  assert (Hw : w = tick c) by (unfold tick; rewrite insert_id by done; by destruct w).
  assert (Hd : forall c0, deref ctx (tick c0) = Done c0 (tick c0)).
  { intros c0. unfold deref, tick. simpl. by rewrite lookup_insert_eq. }
  assert (Hm : forall c0 f, modify ctx f (tick c0) = Done tt (tick (f c0))).
  { intros c0 f. unfold modify, tick. simpl. by rewrite lookup_insert_eq, insert_insert_eq. }
  change (put_ctx _ w) with (tick (set_next_token (next_tok (next_token c)) c)). rewrite Hw at 1. clearbody tick.
  unfold next_tok. destruct (u8 (next_token c + 1) =? 0) eqn:E.
  - apply (schedule_threads [0; 1; 0; 1; 0; 1; 0; 1]%nat). simpl.
    rewrite !Hd. simpl. rewrite !Hm. simpl. rewrite E. simpl. rewrite !Hd. simpl. rewrite !Hm. simpl.
    apply Z.eqb_eq in E. by rewrite E.
  - apply (schedule_threads [0; 1; 0; 1]%nat). simpl. rewrite !Hd. simpl. rewrite !Hm. simpl. by rewrite E.
Qed.

(** Opcode of one call, the rest of the other. *)
Definition torn (a b : exec_args) : exec_args :=
  ExecArgs (ea_opcode a) (ea_op_mod b) (ea_in b) (ea_in_len b) (ea_out b) (ea_out_len b) (ea_status b).

Lemma cut_torn ctx token a b :
  cut (opening_t ctx token a ≫= closing_t token b)
    (IOLog "cmd_exec" [ea_opcode a; ea_op_mod a; 0; token] ;;
     c ← deref ctx;
     cmd_submit c 0 token (ea_opcode a) (ea_op_mod b) (ea_in b) (ea_in_len b) (ea_out_len b)).
Proof.
  exact (cut_bind _ _ _ _ (cut_act _) (fun _ =>
    cut_bind _ _ _ _ (cut_act _) (fun c => cut_submit c 0 token _ _ _ _ _))).
Qed.

Definition opening (ctx : ptr) (token : Z) (a : exec_args) : M mlx5_cmd_context :=
  IOLog "cmd_exec" [ea_opcode a; ea_op_mod a; 0; token] ;;
  c ← deref ctx;
  mem_fill (mbox_pool c) (slot_in_mbox 0) MLX5_CMD_MAILBOX_SIZE 0 ;;
  mem_fill (mbox_pool c) (slot_out_mbox 0) MLX5_CMD_MAILBOX_SIZE 0 ;;
  st16 (mbox_pool c) (slot_in_mbox 0 + MLX5_MBOX_OPCODE_OFF) (OSSwapInt16 (ea_opcode a)) ;;
  mret c.

Lemma opening_spec ctx c w token a :
  cmd_ready ctx c w ->
  wp (run (opening_t ctx token a)) (fun c' w' => c' = c /\ cmd_ready ctx c w') w.
Proof.
  intros Hready. pose proof Hready as [Hc (r & Hr & Hrs) (m & Hm & Hms) Hne _].
  unfold MLX5_CMD_ENTRY_SIZE, MLX5_CMD_MAILBOX_SIZE in *.
  apply (wp_cut _ (opening ctx token a)); [unfold opening_t, opening; solve_cut|].
  open_world w. unfold opening.
  rewrite slot0_in, slot0_out. unfold st16, MLX5_CMD_MAILBOX_SIZE, MLX5_MBOX_OPCODE_OFF. 
  do 11 wp_step. split; [done|].
  eapply cmd_ready_same; [exact Hready|apply cmd_frame_io; [done|]|done..].
  apply io_frame_intro; [reflexivity|wproj; solve_suffix|]. wproj. by rewrite !heap_shape_upd by done.
Qed.

(** What a device sees after the opening of [a] and the closing of [b]. *)
Definition rung (ctx : ptr) (c : mlx5_cmd_context) (d : descriptor) (w : world) : Prop :=
  cmd_ready ctx c w /\
  (exists t, w_trace w = EvLog "doorbell" [0]
     :: EvMmioWrite (iseg c + MLX5_ISEG_CMD_DOORBELL) (OSSwapInt32 1) :: t) /\
  exists r m, holds_cmd (cmd_ring c) (mbox_pool c) r m (w_heap w) /\ fw_decode r m = d.

Lemma torn_spec ctx c w token a b :
  cmd_ready ctx c w -> args_ok b ->
  wp (run (opening_t ctx token a ≫= closing_t token b))
    (fun _ => rung ctx c (args_descriptor c token (torn a b))) w.
Proof.
  intros Hready (Hl & Hi & _). unfold wp. rewrite cut_torn.
  apply wp_bind, wp_log.
  pose proof (cmd_frame_emit ctx c (EvLog "cmd_exec" [ea_opcode a; ea_op_mod a; 0; token]) w (cr_ctx _ _ _ Hready)) as F.
  assert (R : cmd_ready ctx c (put_trace (EvLog "cmd_exec" [ea_opcode a; ea_op_mod a; 0; token] :: w_trace w) w))
    by (by eapply cmd_ready_same).
  set (w1 := put_trace _ w) in *.
  apply wp_bind. eapply wp_deref; [apply R|].
  eapply wp_mono; [by apply (submit_spec ctx c)|].
  intros _ w2 (t & F2 & (fills & -> & _) & Hr & Hm & _).
  pose proof R as [_ (r & Hr1 & _) (m & Hm1 & _) _ _]. rewrite Hr1 in Hr. rewrite Hm1 in Hm.
  pose proof F2 as (s2 & h2 & E2 & _). split; [|split].
  - eapply (cmd_ready_same ctx c c); [exact R|by apply cmd_frame_io; [apply R|]|done..].
  - rewrite E2. eexists. reflexivity.
  - eexists _, _. split; [split; [exact Hr|exact Hm]|]. by apply (decode_filled c).
Qed.
(** The two threads: both take the same token, [b] stores its opcode, [a] stores
    its own, [b] submits. *)
Lemma torn_steps ctx c w a b :
  cmd_ready ctx c w -> args_ok b ->
  let token := next_tok (next_token c) in
  let c1 := set_next_token token c in
  exists w', rtc thread_step ([exec_t ctx a; exec_t ctx b], w)
      ([closing_t token a c1 ≫= fun _ => waiting_t ctx a c1; waiting_t ctx b c1], w') /\
    rung ctx c1 (args_descriptor c1 token (torn a b)) w'.
Proof.
  intros Hready Hb token c1. pose proof (cr_ctx _ _ _ Hready) as Hc.
  set (w1 := put_ctx (<[ctx := c1]> (w_ctx w)) w).
  assert (R1 : cmd_ready ctx c1 w1) by (eapply cmd_ready_same; [exact Hready|by apply cmd_frame_put|done..]).
  destruct (wp_run _ _ _ (opening_spec ctx c1 w1 token b R1)) as (? & w2 & E2 & -> & R2).
  destruct (wp_run _ _ _ (torn_spec ctx c1 w2 token a b R2 Hb)) as ([] & w4 & E & Hrung).
  destruct (wp_run _ _ _ (opening_spec ctx c1 w2 token a R2)) as (? & w3 & E3 & -> & _).
  rewrite run_bind in E. cbv [mbind M_bind] in E. rewrite E3 in E.
  exists w4. split; [|exact Hrung]. rewrite !exec_parts.
  etrans; [exact (tokens_collide ctx c w _ _ Hc)|]. fold token c1 w1.
  etrans; [by eapply (run_alone 1 (opening_t ctx token b)); [reflexivity|]|]. simpl.
  etrans; [by eapply (run_alone 0 (opening_t ctx token a)); [reflexivity|]|]. simpl.
  by eapply (run_alone 1 (closing_t token b c1) (fun _ => waiting_t ctx b c1)); [reflexivity|].
Qed.
End Race.

(** C38. Two calls that run at once can tear a command: accesses of the two can
    interleave so that both take the same token and [b] rings the doorbell while
    the ring entry and the mailbox are a command with the opcode of [a] and all
    the rest of [b].  When the two differ in opcode and modifier, that command is
    neither of the two, under any token; both calls then wait for its answer, [a]
    after it has filled the slot again. *)
Theorem torn_command `{P : Platform} ctx c w a b :
  cmd_ready ctx c w -> args_ok b ->
  let token := next_tok (next_token c) in
  let c1 := set_next_token token c in
  exists w' r m,
    rtc pool_step ([exec_t ctx a; exec_t ctx b], w)
      ([closing_t token a c1 ≫= fun _ => waiting_t ctx a c1; waiting_t ctx b c1], w') /\
    (exists t, w_trace w' = EvLog "doorbell" [0]
       :: EvMmioWrite (iseg c + MLX5_ISEG_CMD_DOORBELL) (OSSwapInt32 1) :: t) /\
    holds_cmd (cmd_ring c) (mbox_pool c) r m (w_heap w') /\
    fw_decode r m = expected c token (ea_opcode a) (ea_op_mod b) (ea_in b) (ea_in_len b) (ea_out_len b) /\
    (u16 (ea_opcode a) <> u16 (ea_opcode b) -> u16 (ea_op_mod a) <> u16 (ea_op_mod b) ->
     forall t x, x = a \/ x = b -> fw_decode r m <> args_descriptor c t x).
Proof.
  intros Hready Hb token c1.
  destruct (torn_steps ctx c w a b Hready Hb) as (w' & Hs & _ & Ht & r & m & Hh & Hd).
  exists w', r, m. split; [by apply thread_steps_pool|]. split; [exact Ht|]. split; [exact Hh|].
  split; [exact Hd|]. rewrite Hd. intros Ho Hm t x [->| ->] E; injection E; congruence.
Qed.

Lemma torn_command_witness :
  let c1 := set_next_token 1 sim_ctx in
  exists w' r m,
    @rtc (@pool (sim_platform 1 2) _) pool_step
      ([@exec_t (sim_platform 1 2) 100 args_enable; exec_t 100 args_pages], sim_world (sim_fw 0 []))
      ([closing_t 1 args_enable c1 ≫= fun _ => waiting_t 100 args_enable c1; waiting_t 100 args_pages c1], w') /\
    (exists t, w_trace w' = EvLog "doorbell" [0]
       :: EvMmioWrite (iseg sim_ctx + MLX5_ISEG_CMD_DOORBELL) (OSSwapInt32 1) :: t) /\
    holds_cmd (cmd_ring sim_ctx) (mbox_pool sim_ctx) r m (w_heap w') /\
    fw_decode r m = expected sim_ctx 1 0x104 1 None 0 64 /\
    (u16 0x104 <> u16 0x107 -> u16 0 <> u16 1 ->
     forall t x, x = args_enable \/ x = args_pages -> fw_decode r m <> args_descriptor sim_ctx t x).
Proof.
  apply (@torn_command (sim_platform 1 2) 100 sim_ctx (sim_world (sim_fw 0 [])) args_enable args_pages);
    [apply sim_ready|..];
    (split; [vm_compute; congruence|split; [done|intros _; vm_compute; congruence]]).
Defined.
