(* ===== verification/QpThreads.v ===== *)
(** * The data path, one access at a time

    Posting to a queue pair, cut into its accesses to shared memory. *)

From S2P Require Import Prelude Bytes Registers IbVerbs World Wp Cmd Qp Threads.

Section Cut.
Context `{P : Platform}.

Definition post_send_t (qp wr bad_wr : ptr) : proc Z :=
  q ← act (deref (T := mlx5_ib_qp) qp);
  let head := sq_head q in
  wqe_offset ← act (shl_u32 head (sq_wqe_shift q));
  act (st32 (sq_buf q) (wqe_offset + off_opmod) (OSSwapInt32 (ctrl_opmod head))) ;;
  act (st32 (sq_buf q) (wqe_offset + off_qpn_ds) (OSSwapInt32 (ctrl_qpn_ds (qpn q)))) ;;
  act (st32 (sq_buf q) (wqe_offset + off_flags) (OSSwapInt32 (u32 (Z.shiftl 1 31)))) ;;
  act (st32 (sq_buf q) (wqe_offset + off_fm_ce_se) 0) ;;
  act (modify qp (set_sq_head (Z.land (u32 (head + 1)) (u32 (sq_wqe_cnt q - 1))))) ;;
  q ← act (deref (T := mlx5_ib_qp) qp);
  db ← act (shl_u32 (sq_head q) (sq_wqe_shift q));
  act (st32 (db_record q) 0 (OSSwapInt32 db)) ;;
  pwhen (negb (uar q =? NULL))
    (l ← act (mem_load (sq_buf q) wqe_offset 8);
     act (mmio_write64 (uar q) (OSSwapInt64 (le_combine l))) ;;
     act OSSynchronizeIO) ;;
  act OSSynchronizeIO ;;
  act (IOLog "post_send" [qpn q; head]) ;;
  mret 0.

Definition post_recv_t (qp wr bad_wr : ptr) : proc Z :=
  q ← act (deref (T := mlx5_ib_qp) qp);
  let head := rq_head q in
  wqe_offset ← act (shl_u32 head (rq_wqe_shift q));
  act (st32 (rq_buf q) (wqe_offset + off_byte_count) (OSSwapInt32 4096)) ;;
  act (st32 (rq_buf q) (wqe_offset + off_lkey) 0) ;;
  act (st64 (rq_buf q) (wqe_offset + off_addr) 0) ;;
  act (modify qp (set_rq_head (Z.land (u32 (head + 1)) (u32 (rq_wqe_cnt q - 1))))) ;;
  q ← act (deref (T := mlx5_ib_qp) qp);
  act (st32 (db_record q) 4 (OSSwapInt32 (Z.land (rq_head q) 0xFFFF))) ;;
  act OSSynchronizeIO ;;
  act (IOLog "post_recv" [qpn q; head]) ;;
  mret 0.

Lemma cut_post_send qp wr bad : cut (post_send_t qp wr bad) (mlx5_ib_post_send_full qp wr bad).
Proof. unfold post_send_t, mlx5_ib_post_send_full. cbv zeta. solve_cut. Qed.

Lemma cut_post_recv qp wr bad : cut (post_recv_t qp wr bad) (mlx5_ib_post_recv_full qp wr bad).
Proof. unfold post_recv_t, mlx5_ib_post_recv_full. cbv zeta. solve_cut. Qed.
End Cut.
