(* ===== verification/Clients.v ===== *)
(** * Clients that run at once

    Any number of clients use a device in service, each with a script of calls,
    and nothing is known of how their accesses to memory interleave.  The calls
    are those that neither allocate nor release DMA memory: commands, the state
    machine of the queue pairs, and the data path.  [shared] is what every
    access keeps, whichever thread makes it. *)

From S2P Require Import Prelude Bytes Registers IbVerbs World Wp Cmd CmdSpec CmdTheorems CmdOverlap Qp QpSpec Mr Verbs VerbsTheorems Keep Session Threads CmdThreads QpThreads Sim.

(** ** The calls, cut *)

Inductive ccall :=
  | CAllocPd (pd : ptr)
  | CDeallocPd (pd : ptr)
  | CDestroyCq (cq : ptr)
  | CDeregMr (mr : ptr)
  | CQueryDevice (ibdev : ptr) (attr : option ib_device_attr)
  | CModifyQp (qp : ptr) (attr_mask : Z)
  | CPostSend (qp wr : ptr)
  | CPostRecv (qp wr : ptr).

Definition as_vcall (c : ccall) : vcall :=
  match c with
  | CAllocPd pd => AllocPd pd
  | CDeallocPd pd => DeallocPd pd
  | CDestroyCq cq => DestroyCq cq
  | CDeregMr mr => DeregMr mr
  | CQueryDevice d attr => QueryDevice d attr
  | CModifyQp qp mask => ModifyQp qp mask
  | CPostSend qp wr => PostSend qp wr
  | CPostRecv qp wr => PostRecv qp wr
  end.

Section Calls.
Context `{P : Platform}.

Definition to_mdev_t (ibdev : ptr) : proc mlx5_ib_dev :=
  d ← act (deref (T := ib_device) ibdev);
  act (deref (T := mlx5_ib_dev) (provider_priv d)).

(** A command with [in_len] bytes of input and 16 bytes of output. *)
Definition small_command (opcode op_mod : Z) (in_buf : option buf) (in_len : Z) : exec_args :=
  ExecArgs opcode op_mod ((fun b => (b, 0)) <$> in_buf) in_len (Some (buf_zero 16)) 16 (Some 0xFF).

Definition alloc_pd_t (pd udata : ptr) : proc Z :=
  p ← act (deref (T := ib_pd) pd);
  dev ← to_mdev_t (pd_device p);
  res ← exec_t (mdev_cmd_ctx dev) (small_command MLX5_CMD_OP_CREATE_MKEY 0x01 None 0);
  if negb (io_ok (er_ret res)) then
    act (IOLog "alloc_pd failed" [default 0xFF (er_status res)]) ;;
    mret (-1)
  else
    l ← act (arr_load (default (buf_zero 16) (er_out res)) 8 4);
    let pdn := OSSwapInt32 (le_combine l) in
    act (modify pd (set_pd_local_dma_lkey pdn)) ;;
    act (IOLog "alloc_pd" [pdn]) ;;
    mret 0.

Definition dealloc_pd_t (pd udata : ptr) : proc Z :=
  p ← act (deref (T := ib_pd) pd);
  dev ← to_mdev_t (pd_device p);
  let pdn := pd_local_dma_lkey p in
  in_buf ← act (arr_store (buf_zero 16) 0 (le_split 4 (OSSwapInt32 pdn)));
  res ← exec_t (mdev_cmd_ctx dev) (small_command MLX5_CMD_OP_DESTROY_MKEY 0x01 (Some in_buf) 4);
  if negb (io_ok (er_ret res)) then
    act (IOLog "dealloc_pd failed" [default 0xFF (er_status res)]) ;;
    mret (-1)
  else
    act (IOLog "dealloc_pd" [pdn]) ;;
    mret 0.

Definition destroy_cq_t (cq udata : ptr) : proc Z :=
  q ← act (deref (T := ib_cq) cq);
  dev ← to_mdev_t (cq_device q);
  let cqn := u32 (cq_cqe q) in
  in_buf ← act (arr_store (buf_zero 16) 0 (le_split 4 (OSSwapInt32 cqn)));
  res ← exec_t (mdev_cmd_ctx dev) (small_command MLX5_CMD_OP_DESTROY_CQ 0 (Some in_buf) 4);
  pwhen (io_ok (er_ret res)) (act (IOLog "destroy_cq" [cqn])) ;;
  mret (if io_ok (er_ret res) then 0 else -1).

Definition dereg_mr_t (mr udata : ptr) : proc Z :=
  m ← act (deref (T := mlx5_ib_mr) mr);
  dev ← to_mdev_t (mr_device (ibmr m));
  in_buf ← act (dereg_input (mr_lkey (ibmr m)));
  res ← exec_t (mdev_cmd_ctx dev) (small_command MLX5_CMD_OP_DESTROY_MKEY 0 (Some in_buf) 4);
  mret (if io_ok (er_ret res) then 0 else -1).

Definition query_device_t (ibdev : ptr) (attr : option ib_device_attr) (uhw : ptr)
    : proc (Z * option ib_device_attr) :=
  dev ← to_mdev_t ibdev;
  match attr with
  | None => mret (-1, None)
  | Some _ =>
      let a := zero_ib_device_attr in
      let a := Mk_ib_device_attr (attr_fw_ver a) (mdev_node_guid dev) (attr_sys_image_guid a)
        (attr_max_mr_size a) (attr_page_size_cap a) MLX5_VENDOR_ID MLX5_DEV_CX6_LX (attr_hw_rev a)
        (mdev_max_qp dev) (attr_max_qp_wr a) (attr_max_sge a) (mdev_max_cq dev) (attr_max_cqe a)
        (mdev_max_mr dev) (mdev_max_pd dev) (attr_max_qp_init_rd_atom a) (attr_max_qp_rd_atom a)
        (attr_max_srq a) (attr_max_srq_wr a) (attr_max_srq_sge a) (attr_max_pkeys a)
        (attr_local_ca_ack_delay a) (u8 (mdev_num_ports dev)) in
      act (IOLog "query_device" [attr_max_qp a; attr_max_cq a]) ;;
      mret (0, Some a)
  end.

Definition modify_qp_t (qp : ptr) (attr_mask : Z) (attr cmd_ctx : ptr) : proc Z :=
  q ← act (deref (T := mlx5_ib_qp) qp);
  match modify_target (mqp_state q) with
  | None =>
      act (IOLog "modify_qp: unexpected state" [ib_qp_state_code (mqp_state q)]) ;;
      mret (-1)
  | Some target_state =>
      in_buf ← act (qpc_state target_state);
      res ← exec_t cmd_ctx (small_command MLX5_CMD_OP_MODIFY_QP 0 (Some in_buf) 0x100);
      if negb (io_ok (er_ret res)) then
        q ← act (deref (T := mlx5_ib_qp) qp);
        act (IOLog "MODIFY_QP failed" [default 0xFF (er_status res);
                                       ib_qp_state_code (mqp_state q); target_state]) ;;
        mret (-1)
      else
        let set_state s :=
          act (modify qp (set_mqp_state s)) ;;
          act (modify qp (fun q => set_ibqp (set_qp_state s (ibqp q)) q)) in
        (if target_state =? MLX5_QPC_QST_INIT then set_state IB_QPS_INIT
         else if target_state =? MLX5_QPC_QST_RTR then set_state IB_QPS_RTR
         else if target_state =? MLX5_QPC_QST_RTS then set_state IB_QPS_RTS
         else mret tt) ;;
        q ← act (deref (T := mlx5_ib_qp) qp);
        act (IOLog "QP state ->" [qpn q; target_state]) ;;
        mret 0
  end.

Definition call_t (ctx : ptr) (c : ccall) : proc Z :=
  match c with
  | CAllocPd pd => alloc_pd_t pd NULL
  | CDeallocPd pd => dealloc_pd_t pd NULL
  | CDestroyCq cq => destroy_cq_t cq NULL
  | CDeregMr mr => dereg_mr_t mr NULL
  | CQueryDevice d attr => r ← query_device_t d attr NULL; mret r.1
  | CModifyQp qp mask => modify_qp_t qp mask NULL ctx
  | CPostSend qp wr => post_send_t qp wr NULL
  | CPostRecv qp wr => post_recv_t qp wr NULL
  end.

(** A script: its calls one after the other, and their results. *)
Fixpoint client (ctx : ptr) (script : list ccall) : proc (list Z) :=
  match script with
  | [] => mret []
  | c :: script => r ← call_t ctx c; rs ← client ctx script; mret (r :: rs)
  end.

#[local] Hint Extern 1 (cut (exec_t _ _) _) => apply cut_exec : cut.
#[local] Hint Resolve cut_post_send cut_post_recv : cut.

Lemma cut_to_mdev d : cut (to_mdev_t d) (to_mdev d).
Proof. unfold to_mdev_t, to_mdev. solve_cut. Qed.
#[local] Hint Resolve cut_to_mdev : cut.

Lemma cut_query_device d attr uhw : cut (query_device_t d attr uhw) (mlx5_ib_query_device d attr uhw).
Proof. unfold query_device_t, mlx5_ib_query_device. solve_cut. Qed.
#[local] Hint Resolve cut_query_device : cut.

(** A call without others is that of [Session]. *)
Lemma cut_call ctx c : cut (call_t ctx c) (run_call ctx (as_vcall c)).
Proof.
  destruct c; unfold call_t, as_vcall, run_call, alloc_pd_t, dealloc_pd_t, destroy_cq_t, dereg_mr_t,
    modify_qp_t, mlx5_ib_alloc_pd, mlx5_ib_dealloc_pd, mlx5_ib_destroy_cq, mlx5_ib_dereg_mr,
    mlx5_ib_modify_qp_full; solve_cut.
Qed.
End Calls.

(** ** What every access keeps *)

Section Shared.
Context `{P : Platform} (ctx : ptr) (s : held) (g : mlx5_cmd_context) (w0 : world).

(** What the calls do not change of a queue pair: its rings and its registers. *)
Definition rings (q : mlx5_ib_qp) :=
  (sq_buf q, sq_wqe_cnt q, sq_wqe_shift q, rq_buf q, rq_wqe_cnt q, rq_wqe_shift q, db_record q, uar q).

(** Relative to the world [w0] in which the clients begin. *)
Record shared (w : world) : Prop := {
  sh_base : base ctx (h_mrs s) w;
  sh_chan : exists c, channel ctx c w /\ geometry c = g;
  sh_qps : forall p, p ∈ h_qps s -> exists q, w_qp w !! p = Some q /\ qp_wf q (w_heap w) /\
    uar q = NULL /\ rings <$> w_qp w0 !! p = Some (rings q);
  sh_pds : dom (w_pd w) = dom (w_pd w0);
  sh_cqs : dom (w_cq w) = dom (w_cq w0);
  sh_ibdev : w_ibdev w = w_ibdev w0;
  sh_mdev : w_mdev w = w_mdev w0
}.

Lemma wf_old q w p : fresh_ok w -> qp_wf q (w_heap w) -> p ∈ [sq_buf q; rq_buf q; db_record q] -> p < w_next w.
Proof.
  intros [_ Hf] Hwf Hp. destruct (rw_live _ _ _ _ _ (qw_sq _ _ Hwf)) as (b1 & (x1 & H1 & _)%live_buf_lookup & _).
  destruct (rw_live _ _ _ _ _ (qw_rq _ _ Hwf)) as (b2 & (x2 & H2 & _)%live_buf_lookup & _).
  destruct (qw_db _ _ Hwf) as (b3 & (x3 & H3 & _)%live_buf_lookup & _).
  rewrite !elem_of_cons in Hp. destruct Hp as [->|[->|[->|[]%not_elem_of_nil]]]; by eapply Hf.
Qed.

Lemma qp_wf_keeps U n q w w' :
  keeps (olds w) U n w w' -> fresh_ok w -> qp_wf q (w_heap w) -> qp_wf q (w_heap w').
Proof.
  intros Hk Hf Hwf. eapply qp_wf_live; [|exact Hwf]. intros p Hp b.
  apply shape_at_live, Hk. by eapply wf_old.
Qed.

(** A step that keeps the blocks that exist, and the queue pairs but those in
    [U]. *)
Lemma shared_frame U w w' :
  keeps (olds w) U (w_next w) w w' -> shared w ->
  (forall p q, U p -> p ∈ h_qps s -> w_qp w !! p = Some q -> qp_wf q (w_heap w) ->
     exists q', w_qp w' !! p = Some q' /\ qp_wf q' (w_heap w') /\ rings q' = rings q) ->
  (forall p, U p \/ ~ U p) -> shared w'.
Proof.
  intros Hk [Hb (c & Hc & Hg) Hq Hpd Hcq Hib Hmd] HU Hdec. pose proof (b_fresh _ _ _ Hb) as Hf. split.
  - by eapply base_keeps.
  - destruct (chan_keeps ctx U _ c w w' Hk Hf Hc) as (c' & Hc' & _). exists c'. split; [done|].
    pose proof (k_ctx _ _ _ _ _ Hk) as E. apply (f_equal (fun m => m !! ctx)) in E.
    rewrite !lookup_fmap, (cr_ctx _ _ _ (ch_ready _ _ _ Hc)), (cr_ctx _ _ _ (ch_ready _ _ _ Hc')) in E.
    apply (inj Some) in E. by rewrite E.
  - intros p Hp. destruct (Hq p Hp) as (q & Hpq & Hwf & Hu & Hr). destruct (Hdec p) as [H|H].
    { destruct (HU p q H Hp Hpq Hwf) as (q' & ? & ? & Er). exists q'. rewrite Er. split; [done|]. split; [done|].
      split; [|done]. injection Er. congruence. }
    exists q. rewrite (k_qp _ _ _ _ _ Hk) by done. split; [done|]. split; [by eapply qp_wf_keeps|done].
  - pose proof (f_equal dom (k_pd _ _ _ _ _ Hk)) as E. rewrite !dom_fmap_L in E. congruence.
  - pose proof (f_equal dom (k_cq _ _ _ _ _ Hk)) as E. rewrite !dom_fmap_L in E. congruence.
  - by rewrite (k_ibdev _ _ _ _ _ Hk).
  - by rewrite (k_mdev _ _ _ _ _ Hk).
Qed.

Lemma shared_keeps w w' : keeps (olds w) no_qp (w_next w) w w' -> shared w -> shared w'.
Proof. intros Hk Hs. apply (shared_frame _ w w' Hk Hs); [by intros ? ? []|intros p; right; by intros []]. Qed.

Lemma shared_qp p q q' w :
  shared w -> w_qp w !! p = Some q ->
  (qp_wf q (w_heap w) -> qp_wf q' (w_heap w)) -> rings q' = rings q ->
  shared (put_qp (<[p := q']> (w_qp w)) w).
Proof.
  intros Hs Hq Hq' Hr. apply (shared_frame (eq p) w); [by apply (keeps_put_qp _ (eq p) _ p q)|done| |].
  - intros ? q0 <- _ Hq0 Hwf. rewrite Hq in Hq0. injection Hq0 as <-.
    exists q'. split; [apply lookup_insert_eq|]. split; [by apply Hq'|done].
  - intros p'. destruct (decide (p = p')); auto.
Qed.

Lemma shared_device w : shared w -> shared (device_run w).
Proof.
  apply shared_keeps. pose proof (gentle_run_device (olds w) no_qp (w_next w) w (Z.le_refl _)) as H. exact H.
Qed.

(** ** Code that keeps it *)

Definition unharmed (w w' : world) : Prop := shared w -> shared w'.

#[global] Instance unharmed_preorder : PreOrder unharmed.
Proof. split; [by intros w H|]. intros w1 w2 w3 H1 H2 H. by apply H2, H1. Qed.

(** [p] does not fault, keeps [shared], and its result satisfies [φ], while the
    others keep [shared]. *)
Definition safe {A} (p : proc A) (φ : A -> Prop) : Prop :=
  triple unharmed unharmed shared p (fun a w => shared w /\ φ a).

Lemma safe_ret {A} (a : A) (φ : A -> Prop) : φ a -> safe (mret a) φ.
Proof. intros Ha w Hw w' HR. split; [by apply HR|done]. Qed.

Lemma safe_mono {A} (p : proc A) (φ ψ : A -> Prop) : safe p φ -> (forall a, φ a -> ψ a) -> safe p ψ.
Proof. intros Hp H. apply (triple_mono _ _ p shared shared (fun a w => shared w /\ φ a)); [done| |exact Hp].
  intros a w []. split; auto. Qed.

Lemma safe_bind {A B} (p : proc A) (k : A -> proc B) φ ψ :
  safe p φ -> (forall a, φ a -> safe (k a) ψ) -> safe (p ≫= k) ψ.
Proof.
  intros Hp Hk. apply (triple_bind _ _ p k shared (fun a w => shared w /\ φ a)); [exact Hp|].
  intros a w [Hw Ha]. by apply Hk.
Qed.

Lemma safe_act {A} (m : M A) φ :
  (forall w, shared w -> wp m (fun x w' => shared w' /\ φ x) w) -> safe (act m) φ.
Proof.
  intros H. apply triple_act.
  - by intros w w' HR Hw; apply HR.
  - intros x w w' HR [Hw Hx]. split; [by apply HR|done].
  - intros w Hw. eapply wp_mono; [by apply H|]. intros x w' [Hw' Hx]. split; [by intros _|done].
Qed.

Lemma safe_gentle {A} (m : M A) φ :
  (forall w, gentle (olds w) no_qp (w_next w) m) ->
  (forall w, shared w -> wp m (fun x _ => φ x) w) -> safe (act m) φ.
Proof.
  intros Hg Hm. apply safe_act. intros w Hw.
  eapply wp_mono; [apply (wp_keeps (olds w) no_qp _ _ w (Hm w Hw)), Hg|].
  intros x w' [Hx Hk]. split; [by eapply shared_keeps|done].
Qed.

Lemma safe_when b p (φ : unit -> Prop) : φ tt -> safe p φ -> safe (pwhen b p) φ.
Proof. intros Ht Hp. destruct b; [done|]. by apply safe_ret. Qed.

Lemma safe_log tag args : safe (act (IOLog tag args)) (fun _ => True).
Proof. apply safe_gentle; [intros; apply gentle_emit|done]. Qed.
Lemma safe_barrier : safe (act OSSynchronizeIO) (fun _ => True).
Proof. apply safe_gentle; [intros; apply gentle_emit|done]. Qed.
Lemma safe_sleep ms : safe (act (IOSleep ms)) (fun _ => True).
Proof. apply safe_gentle; [intros; apply gentle_sleep|done]. Qed.

Lemma safe_update ctx' (f : mlx5_cmd_context -> mlx5_cmd_context) :
  ctx' = ctx -> (forall c, geometry (f c) = geometry c) -> safe (act (modify ctx' f)) (fun _ => True).
Proof.
  intros -> Hf. apply safe_gentle; [intros; by apply gentle_modify_ctx|].
  intros w Hw. destruct (sh_chan _ Hw) as (c & Hc & _). by eapply wp_modify; [apply Hc|].
Qed.

Lemma safe_context : safe (act (deref ctx)) (fun c => geometry c = g).
Proof.
  apply safe_gentle; [intros; apply gentle_deref|].
  intros w Hw. destruct (sh_chan _ Hw) as (c & Hc & Hg). by eapply wp_deref; [apply Hc|].
Qed.

(** An open queue pair, as a client reads it. *)
Definition open_as (p : ptr) (q : mlx5_ib_qp) : Prop :=
  rings <$> w_qp w0 !! p = Some (rings q) /\ uar q = NULL /\ exists h, qp_wf q h.

Lemma safe_qp p : p ∈ h_qps s -> safe (act (deref p)) (open_as p).
Proof.
  intros Hp. apply safe_gentle; [intros; apply gentle_deref|].
  intros w Hw. destruct (sh_qps _ Hw p Hp) as (q & Hq & Hwf & Hu & Hr).
  eapply wp_deref; [exact Hq|]. split; [done|]. split; [done|]. by exists (w_heap w).
Qed.

Lemma safe_modify_qp p q0 (f : mlx5_ib_qp -> mlx5_ib_qp) :
  p ∈ h_qps s -> open_as p q0 ->
  (forall q h, rings q = rings q0 -> qp_wf q h -> qp_wf (f q) h /\ rings (f q) = rings q) ->
  safe (act (modify p f)) (fun _ => True).
Proof.
  intros Hp (Hr0 & _) Hf. apply safe_act. intros w Hw. destruct (sh_qps _ Hw p Hp) as (q & Hq & Hwf & _ & Hr).
  rewrite Hr0 in Hr. apply (inj Some) in Hr. destruct (Hf q (w_heap w) (eq_sym Hr) Hwf) as [Hwf' Hr'].
  eapply wp_modify; [exact Hq|]. split; [|done]. by apply (shared_qp p q).
Qed.
End Shared.
