(* ===== verification/ClientsTheorems.v ===== *)
(** * Concurrent clients are safe

    No access of a concurrent client faults, every call returns, and what the
    calls return is what they may return alone. *)

From S2P Require Import Prelude Bytes Registers IbVerbs World Wp Cmd CmdSpec CmdTheorems CmdOverlap Qp QpSpec Mr Verbs VerbsTheorems Keep Session Threads CmdThreads QpThreads Clients Sim.

Section Exec.
Context `{P : Platform} (ctx : ptr) (s : held) (g : mlx5_cmd_context) (w0 : world).

#[local] Abbreviation shared := (shared ctx s g w0).
#[local] Abbreviation safe := (safe ctx s g w0).

(** A block with room for [n] bytes, at all times. *)
Definition roomy (p : ptr) (n : Z) : Prop :=
  forall w, shared w -> exists b, live_buf (w_heap w) p = Some b /\ n <= buf_size b.

Lemma roomy_ring c : geometry c = g -> roomy (cmd_ring c) 64.
Proof.
  intros Hg w Hw. destruct (sh_chan _ _ _ _ _ Hw) as (c' & [[_ Hr _ _ _] _ _ _] & Hg').
  rewrite (f_equal cmd_ring (eq_trans Hg (eq_sym Hg')) : cmd_ring c = cmd_ring c'). exact Hr.
Qed.

Lemma roomy_pool c : geometry c = g -> roomy (mbox_pool c) 8192.
Proof.
  intros Hg w Hw. destruct (sh_chan _ _ _ _ _ Hw) as (c' & [[_ _ Hm _ _] _ _ _] & Hg').
  rewrite (f_equal mbox_pool (eq_trans Hg (eq_sym Hg')) : mbox_pool c = mbox_pool c'). exact Hm.
Qed.

Lemma safe_write p k o n bs f :
  roomy p k -> 0 <= o -> 0 <= n -> o + n <= k -> (forall b, buf_size (f b) = buf_size b) ->
  safe (act (mem_update p o n bs f)) (fun _ => True).
Proof.
  intros Hp ??? Hf. apply safe_gentle; [intros w; by apply gentle_mem_update|].
  intros w Hw. destruct (Hp w Hw) as (b & Hb & Hs). eapply wp_mem_update; [exact Hb|lia..|done].
Qed.

Lemma safe_store p k o bs :
  roomy p k -> 0 <= o -> o + Z.of_nat (length bs) <= k -> safe (act (mem_store p o bs)) (fun _ => True).
Proof. intros. eapply safe_write; [done..|lia|done|by intros]. Qed.

Lemma safe_fill p k o n v :
  roomy p k -> 0 <= o -> 0 <= n -> o + n <= k -> safe (act (mem_fill p o n v)) (fun _ => True).
Proof. intros. by eapply safe_write. Qed.

Lemma safe_copy_in p k o src so n :
  roomy p k -> in_bounds src so n = true -> 0 <= o -> 0 <= n -> o + n <= k ->
  safe (act (mem_copy_in p o src so n)) (fun _ => True).
Proof. intros ? E ???. unfold mem_copy_in. rewrite E. by eapply safe_write. Qed.

Lemma safe_load p k o n :
  roomy p k -> 0 <= o -> o + Z.of_nat n <= k -> safe (act (mem_load p o n)) (fun _ => True).
Proof.
  intros Hp ??. apply safe_gentle; [intros w; apply gentle_mem_load|].
  intros w Hw. destruct (Hp w Hw) as (b & Hb & Hs). eapply wp_mem_load; [exact Hb|lia..|done].
Qed.

Lemma safe_ld8 p k o : roomy p k -> 0 <= o -> o + 1 <= k -> safe (act (ld8 p o)) (fun _ => True).
Proof.
  intros Hp ??. apply safe_gentle; [intros w; unfold ld8; solve_gentle|].
  intros w Hw. destruct (Hp w Hw) as (b & Hb & Hs). apply wp_bind. eapply wp_mem_load; [exact Hb|lia..|done].
Qed.
Lemma safe_ld32 p k o : roomy p k -> 0 <= o -> o + 4 <= k -> safe (act (ld32 p o)) (fun _ => True).
Proof.
  intros Hp ??. apply safe_gentle; [intros w; unfold ld32; solve_gentle|].
  intros w Hw. destruct (Hp w Hw) as (b & Hb & Hs). apply wp_bind. eapply wp_mem_load; [exact Hb|lia..|done].
Qed.

(** Side conditions on offsets. *)
Ltac offsets :=
  rewrite ?slot0_entry, ?slot0_in, ?slot0_out, ?length_le_split;
  unfold off_status, off_in_ptr, off_in_len, off_out_ptr, off_out_len, off_token, off_signature,
    MLX5_MBOX_OPCODE_OFF, MLX5_MBOX_UID_OFF, MLX5_MBOX_OP_MOD_OFF, MLX5_MBOX_STATUS_OFF,
    MLX5_MBOX_SYNDROME_OFF, MLX5_CMD_MAILBOX_SIZE in *; lia.

(** Walk over a proc; [a] of the result is forgotten. *)
Ltac safe_step :=
  lazymatch goal with
  | |- safe (mbind _ (act (IOLog _ _))) _ => eapply safe_bind; [apply safe_log|intros _ _]
  | |- safe (mbind _ (act OSSynchronizeIO)) _ => eapply safe_bind; [apply safe_barrier|intros _ _]
  | |- safe (mbind _ (act (IOSleep _))) _ => eapply safe_bind; [apply safe_sleep|intros _ _]
  | |- safe (mbind _ (act (mem_fill _ _ _ _))) _ =>
      eapply safe_bind; [eapply safe_fill; [eassumption|offsets..]|intros _ _]
  | |- safe (mbind _ (act (mem_store _ _ _))) _ =>
      eapply safe_bind; [eapply safe_store; [eassumption|offsets..]|intros _ _]
  | |- safe (mbind _ (act (ld8 _ _))) _ =>
      eapply safe_bind; [eapply safe_ld8; [eassumption|offsets..]|intros ? _]
  | |- safe (mbind _ (act (ld32 _ _))) _ =>
      eapply safe_bind; [eapply safe_ld32; [eassumption|offsets..]|intros ? _]
  | |- safe (mbind _ (act (deref ctx))) _ => eapply safe_bind; [apply safe_context|intros ? ?]
  | |- safe (mbind _ (act (modify ctx _))) _ =>
      eapply safe_bind; [apply safe_update; [done|by intros]|intros _ _]
  | |- safe (act (IOLog _ _)) _ => eapply safe_mono; [apply safe_log|]
  | |- safe (if ?b then _ else _) _ => destruct b eqn:?
  | |- safe (mret _) _ => apply safe_ret
  end.

Lemma safe_take_token : safe (take_token_t ctx) (fun _ => True).
Proof. unfold take_token_t. cbv zeta. by repeat safe_step. Qed.

Lemma safe_doorbell c o v :
  geometry c = g -> o = MLX5_ISEG_CMD_DOORBELL -> safe (act (iseg_write32 (iseg c) o v)) (fun _ => True).
Proof.
  intros Hg ->. apply safe_gentle.
  - intros w. unfold iseg_write32, mmio_write32. apply gentle_mmio_write.
  - intros w Hw. destruct (sh_chan _ _ _ _ _ Hw) as (c' & [[_ _ _ _ Hm] _ _ _] & Hg').
    apply wp_mmio_write; [|done].
    by rewrite (f_equal iseg (eq_trans Hg (eq_sym Hg')) : iseg c = iseg c').
Qed.

Lemma safe_submit c token a :
  geometry c = g -> args_ok a ->
  safe (submit_t c 0 token (ea_opcode a) (ea_op_mod a) (ea_in a) (ea_in_len a) (ea_out_len a))
    (fun _ => True).
Proof.
  intros Hg (Hl & Hi & _). pose proof (roomy_ring c Hg). pose proof (roomy_pool c Hg).
  unfold submit_t, st8, st16, st32, st64. cbv zeta. repeat safe_step.
  eapply safe_bind with (φ := fun _ => True).
  { destruct (ea_in a) as [[src so]|]; [|by apply safe_ret]. simpl in Hi.
    destruct (Z.ltb_spec 0 (ea_in_len a)) as [H1|]; [|by apply safe_ret]. simpl.
    pose proof (in_copy_len_range (ea_in_len a) ltac:(lia)).
    eapply safe_copy_in; [eassumption|by apply Hi|offsets..]. }
  intros _ _. repeat safe_step. eapply safe_bind; [by apply safe_doorbell|]. intros _ _. by safe_step.
Qed.

Lemma safe_poll n c : geometry c = g -> safe (poll_t n (cmd_ring c) (slot_entry c 0)) (fun _ => True).
Proof.
  intros Hg. pose proof (roomy_ring c Hg).
  induction n as [|n IH]; cbn [poll_t]; [by apply safe_ret|]. by repeat safe_step.
Qed.

Lemma safe_count_failed : safe (count_failed_t ctx) (fun _ => True).
Proof.
  unfold count_failed_t. safe_step. apply safe_update; [done|by intros].
Qed.
Lemma safe_count_total : safe (count_total_t ctx) (fun _ => True).
Proof.
  unfold count_total_t. safe_step. apply safe_update; [done|by intros].
Qed.

(** What a call returns: one of three codes, and an output buffer of the size
    that it was given. *)
Definition exec_returns (a : exec_args) (r : exec_result) : Prop :=
  er_ret r ∈ [kIOReturnSuccess; kIOReturnTimeout; kIOReturnError] /\
  buf_size <$> er_out r = buf_size <$> ea_out a.

Lemma safe_copy_out c a :
  geometry c = g -> args_ok a ->
  safe (act (copy_out (mbox_pool c) (slot_out_mbox 0) (ea_out a) (ea_out_len a)))
    (fun o => buf_size <$> o = buf_size <$> ea_out a).
Proof.
  intros Hg (_ & _ & Ho). pose proof (roomy_pool c Hg) as Hp. apply safe_gentle.
  - intros w. unfold copy_out. solve_gentle.
  - intros w Hw. destruct (Hp w Hw) as (b & Hb & Hs). unfold copy_out.
    destruct (ea_out a) as [out|]; [|done]. simpl in Ho.
    destruct (Z.ltb_spec 0 (ea_out_len a)) as [H1|]; [|done]. rewrite slot0_out. cbv zeta.
    pose proof (out_copy_len_range (ea_out_len a) ltac:(lia)).
    apply wp_bind. eapply wp_mem_get; [exact Hb|lia..|]. intros b' _ _.
    rewrite (in_bounds_true out 0) by (auto; lia). by apply wp_ret.
Qed.

Lemma safe_exec ctx' a : ctx' = ctx -> args_ok a -> safe (exec_t ctx' a) (exec_returns a).
Proof.
  intros -> Ha. unfold exec_t. cbv zeta. eapply safe_bind; [apply safe_take_token|]. intros tok _.
  repeat safe_step. rename a0 into c. rename H into Hg.
  pose proof (roomy_ring c Hg). pose proof (roomy_pool c Hg).
  eapply safe_bind; [by apply safe_submit|]. intros _ _.
  eapply safe_bind; [by apply safe_poll|]. intros d _. unfold finish_t. repeat safe_step.
  { eapply safe_bind; [apply safe_count_failed|]. intros _ _. safe_step. split; [|done]. set_solver. }
  eapply safe_bind; [apply safe_count_total|]. intros _ _. repeat safe_step.
  { eapply safe_bind; [apply safe_count_failed|]. intros _ _. safe_step. split; [|done]. set_solver. }
  unfold read_response_t. cbv zeta. repeat safe_step.
  { eapply safe_bind; [apply safe_count_failed|]. intros _ _. safe_step. split; [|done]. set_solver. }
  eapply safe_bind; [by apply safe_copy_out|]. intros o Ho. repeat safe_step. split; [|done]. set_solver.
Qed.
End Exec.

(** ** The calls *)

Section CallsSafe.
Context `{P : Platform} (ctx : ptr) (s : held) (g : mlx5_cmd_context) (w0 : world).

#[local] Abbreviation shared := (shared ctx s g w0).
#[local] Abbreviation safe := (safe ctx s g w0).

(** [dev_ctx] in terms of what does not change. *)
Lemma dev_ctx_at w d : shared w -> dev_ctx w d ctx <-> dev_ctx w0 d ctx.
Proof. intros Hw. unfold dev_ctx. by rewrite (sh_ibdev _ _ _ _ _ Hw), (sh_mdev _ _ _ _ _ Hw). Qed.

Lemma safe_to_mdev d : dev_ctx w0 d ctx -> safe (to_mdev_t d) (fun m => mdev_cmd_ctx m = ctx).
Proof.
  intros (x & m & Hx & Hm & Hc). unfold to_mdev_t.
  apply (safe_bind _ _ _ _ _ _ (fun x' => x' = x)).
  - apply safe_gentle; [intros; apply gentle_deref|]. intros w Hw.
    eapply wp_deref; [|done]. simpl. by rewrite (sh_ibdev _ _ _ _ _ Hw).
  - intros x' ->. apply safe_gentle; [intros; apply gentle_deref|]. intros w Hw.
    eapply wp_deref; [|done]. simpl. by rewrite (sh_mdev _ _ _ _ _ Hw).
Qed.

Lemma safe_pd pd :
  is_Some (w_pd w0 !! pd) -> safe (act (deref pd)) (fun p : ib_pd => dev_ctx w0 (pd_device p) ctx).
Proof.
  intros Hp. apply safe_gentle; [intros; apply gentle_deref|]. intros w Hw.
  rewrite <- elem_of_dom, <- (sh_pds _ _ _ _ _ Hw), elem_of_dom in Hp. destruct Hp as [p Hp].
  eapply wp_deref; [exact Hp|]. rewrite <- (dev_ctx_at w) by done.
  by apply (b_pd _ _ _ (sh_base _ _ _ _ _ Hw) pd).
Qed.

Lemma safe_cq cq :
  is_Some (w_cq w0 !! cq) -> safe (act (deref cq)) (fun q : ib_cq => dev_ctx w0 (cq_device q) ctx).
Proof.
  intros Hp. apply safe_gentle; [intros; apply gentle_deref|]. intros w Hw.
  rewrite <- elem_of_dom, <- (sh_cqs _ _ _ _ _ Hw), elem_of_dom in Hp. destruct Hp as [p Hp].
  eapply wp_deref; [exact Hp|]. rewrite <- (dev_ctx_at w) by done.
  by apply (b_cq _ _ _ (sh_base _ _ _ _ _ Hw) cq).
Qed.

Lemma safe_mr mr :
  mr ∈ h_mrs s -> safe (act (deref mr)) (fun m : mlx5_ib_mr => dev_ctx w0 (mr_device (ibmr m)) ctx).
Proof.
  intros Hp. apply safe_gentle; [intros; apply gentle_deref|]. intros w Hw.
  destruct (b_mr _ _ _ (sh_base _ _ _ _ _ Hw) mr Hp) as (m & Hm & Hd).
  eapply wp_deref; [exact Hm|]. by rewrite <- (dev_ctx_at w).
Qed.

(** A write to a local array. *)
Lemma safe_local {A} (m : M A) φ :
  (forall w, exists a, m w = Done a w /\ φ a) -> safe (act m) φ.
Proof.
  intros H. apply safe_act. intros w Hw. destruct (H w) as (a & E & Ha). by apply (wp_done _ _ _ _ _ E).
Qed.

Lemma arr_store_done b o bs w :
  0 <= o -> o + Z.of_nat (length bs) <= buf_size b -> arr_store b o bs w = Done (buf_store b o bs) w.
Proof. intros. unfold arr_store. by rewrite in_bounds_true by lia. Qed.
Lemma arr_load_done b o n w :
  0 <= o -> o + Z.of_nat n <= buf_size b -> arr_load b o n w = Done (buf_bytes b o n) w.
Proof. intros. unfold arr_load. by rewrite in_bounds_true by lia. Qed.

Lemma small_ok opcode op_mod b in_len :
  0 <= in_len -> (forall x, b = Some x -> in_copy_len in_len <= buf_size x) ->
  args_ok (small_command opcode op_mod b in_len).
Proof.
  intros Hl Hb. split; [done|]. split; [|by simpl].
  destruct b as [x|]; [|done]. intros H. simpl in *.
  pose proof (in_copy_len_range in_len Hl). apply in_bounds_true; [lia|lia|]. by apply Hb.
Qed.

Lemma safe_small ctx' opcode op_mod b in_len :
  ctx' = ctx -> 0 <= in_len -> (forall x, b = Some x -> in_copy_len in_len <= buf_size x) ->
  safe (exec_t ctx' (small_command opcode op_mod b in_len))
    (fun r => buf_size (default (buf_zero 16) (er_out r)) = 16).
Proof.
  intros Hc Hl Hb. eapply safe_mono; [apply safe_exec; [done|by apply small_ok]|].
  intros r [_ Ho]. simpl in Ho. destruct (er_out r); [|done]. by injection Ho.
Qed.

Definition returns_code (r : Z) : Prop := r = 0 \/ r = -1.

Lemma safe_code {A} tag args (a : A) φ : φ a -> safe (act (IOLog tag args) ;; mret a) φ.
Proof. intros Ha. eapply safe_bind; [apply safe_log|]. intros _ _. by apply safe_ret. Qed.

Lemma safe_alloc_pd pd u : is_Some (w_pd w0 !! pd) -> safe (alloc_pd_t pd u) returns_code.
Proof.
  intros Hp. unfold alloc_pd_t. eapply safe_bind; [by apply safe_pd|]. intros p Hd.
  eapply safe_bind; [by apply safe_to_mdev|]. intros dev Hdev.
  eapply safe_bind; [by apply safe_small|]. intros res Hsz.
  destruct (negb _); [apply safe_code; by right|].
  apply (safe_bind _ _ _ _ _ _ (fun _ => True)).
  { apply safe_local. intros w. eexists. split; [apply arr_load_done; [done|by rewrite Hsz]|done]. }
  intros l _. cbv zeta. apply (safe_bind _ _ _ _ _ _ (fun _ => True)).
  { apply safe_gentle; [intros w; by apply gentle_modify_pd|]. intros w Hw.
    rewrite <- elem_of_dom, <- (sh_pds _ _ _ _ _ Hw), elem_of_dom in Hp. destruct Hp as [p' Hp].
    by eapply wp_modify; [exact Hp|]. }
  intros _ _. apply safe_code. by left.
Qed.

(** The input of the commands that destroy something. *)
Lemma safe_number v :
  safe (act (arr_store (buf_zero 16) 0 (le_split 4 v))) (fun b => buf_size b = 16).
Proof.
  apply safe_local. intros w. eexists. split; [by apply arr_store_done; rewrite ?length_le_split|done].
Qed.

Lemma in_copy_len_4 : in_copy_len 4 = 4.
Proof. done. Qed.

Lemma safe_destroyer ctx' opcode op_mod b :
  ctx' = ctx -> buf_size b = 16 -> safe (exec_t ctx' (small_command opcode op_mod (Some b) 4)) (fun _ => True).
Proof.
  intros Hc Hb. eapply safe_mono; [apply safe_small; [done|done|]|done].
  intros x [= <-]. rewrite in_copy_len_4. lia.
Qed.

Lemma safe_dealloc_pd pd u : is_Some (w_pd w0 !! pd) -> safe (dealloc_pd_t pd u) returns_code.
Proof.
  intros Hp. unfold dealloc_pd_t. eapply safe_bind; [by apply safe_pd|]. intros p Hd.
  eapply safe_bind; [by apply safe_to_mdev|]. intros dev Hdev. cbv zeta.
  eapply safe_bind; [apply safe_number|]. intros b Hb.
  eapply safe_bind; [by apply safe_destroyer|]. intros res _.
  destruct (negb _); apply safe_code; [by right|by left].
Qed.

Lemma safe_status (b : bool) : safe (mret (if b then 0 else -1)) returns_code.
Proof. apply safe_ret. destruct b; [by left|by right]. Qed.

Lemma safe_destroy_cq cq u : is_Some (w_cq w0 !! cq) -> safe (destroy_cq_t cq u) returns_code.
Proof.
  intros Hp. unfold destroy_cq_t. eapply safe_bind; [by apply safe_cq|]. intros p Hd.
  eapply safe_bind; [by apply safe_to_mdev|]. intros dev Hdev. cbv zeta.
  eapply safe_bind; [apply safe_number|]. intros b Hb.
  eapply safe_bind; [by apply safe_destroyer|]. intros res _.
  eapply safe_bind; [apply safe_when; [|apply safe_log]; done|]. intros _ _. apply safe_status.
Qed.

Lemma safe_dereg_mr mr u : mr ∈ h_mrs s -> safe (dereg_mr_t mr u) returns_code.
Proof.
  intros Hp. unfold dereg_mr_t. eapply safe_bind; [by apply safe_mr|]. intros p Hd.
  eapply safe_bind; [by apply safe_to_mdev|]. intros dev Hdev.
  eapply safe_bind; [apply safe_number|]. intros b Hb.
  eapply safe_bind; [by apply safe_destroyer|]. intros res _. apply safe_status.
Qed.

Lemma safe_query_device d attr u :
  dev_ctx w0 d ctx -> safe (query_device_t d attr u) (fun r => returns_code r.1).
Proof.
  intros Hd. unfold query_device_t. eapply safe_bind; [by apply safe_to_mdev|]. intros dev _.
  destruct attr; [|apply safe_ret; by right]. cbv zeta. apply safe_code. by left.
Qed.

(** ** Queue pairs *)

Lemma rings_wf q q0 h : rings q = rings q0 -> qp_wf q h ->
  ring_wf h (sq_buf q0) (sq_wqe_cnt q0) (sq_wqe_shift q0) (sq_head q) /\
  ring_wf h (rq_buf q0) (rq_wqe_cnt q0) (rq_wqe_shift q0) (rq_head q) /\
  exists d, live_buf h (db_record q0) = Some d /\ 8 <= buf_size d.
Proof.
  intros E [Hs Hr Hd _ _ _]. unfold rings in E. unfold db_wf in Hd.
  by injection E as <- <- <- <- <- <- <- _.
Qed.

Lemma open_roomy p q : p ∈ h_qps s -> open_as w0 p q ->
  roomy ctx s g w0 (sq_buf q) (sq_wqe_cnt q * 2 ^ sq_wqe_shift q) /\
  roomy ctx s g w0 (rq_buf q) (rq_wqe_cnt q * 2 ^ rq_wqe_shift q) /\
  roomy ctx s g w0 (db_record q) 8.
Proof.
  intros Hp (Hr0 & _).
  assert (H : forall w, shared w -> exists q', rings q' = rings q /\ qp_wf q' (w_heap w)).
  { intros w Hw. destruct (sh_qps _ _ _ _ _ Hw p Hp) as (q' & _ & Hwf & _ & Hr).
    rewrite Hr0 in Hr. apply (inj Some) in Hr. by exists q'. }
  split; [|split]; intros w Hw; destruct (H w Hw) as (q' & E & Hwf);
    destruct (rings_wf q' q _ E Hwf) as ([(b1 & ? & ?) _ _ _] & [(b2 & ? & ?) _ _ _] & d & ? & ?).
  - exists b1. split; [done|lia].
  - exists b2. split; [done|lia].
  - by exists d.
Qed.

Lemma qp_wf_set_sq q h x : qp_wf q h -> 0 <= x < sq_wqe_cnt q -> qp_wf (set_sq_head x q) h.
Proof. intros [[? ? ? _] ? ? ? ? ?] Hx. by split. Qed.
Lemma qp_wf_set_rq q h x : qp_wf q h -> 0 <= x < rq_wqe_cnt q -> qp_wf (set_rq_head x q) h.
Proof. intros [? [? ? ? _] ? ? ? ?] Hx. by split. Qed.

Lemma safe_shl x n v : 0 <= n < 32 -> u32 (Z.shiftl x n) = v -> safe (act (shl_u32 x n)) (fun o => o = v).
Proof.
  intros Hn <-. apply safe_local. intros w. unfold shl_u32.
  rewrite (proj2 (Z.leb_le 0 n)), (proj2 (Z.ltb_lt n 32)) by lia. by eexists.
Qed.

Lemma safe_st32 p k o v : roomy ctx s g w0 p k -> 0 <= o -> o + 4 <= k -> safe (act (st32 p o v)) (fun _ => True).
Proof. intros. eapply safe_store; [done..|]. by rewrite length_le_split. Qed.
Lemma safe_st64 p k o v : roomy ctx s g w0 p k -> 0 <= o -> o + 8 <= k -> safe (act (st64 p o v)) (fun _ => True).
Proof. intros. eapply safe_store; [done..|]. by rewrite length_le_split. Qed.

Lemma safe_post_send qp wr bad : qp ∈ h_qps s -> safe (post_send_t qp wr bad) (fun r => r = 0).
Proof.
  intros Hp. unfold post_send_t. eapply safe_bind; [by apply safe_qp|]. intros q Hq. cbv zeta.
  destruct (open_roomy qp q Hp Hq) as (Hrs & _ & _). pose proof Hq as (_ & _ & h & Hwf).
  pose proof (qw_sq _ _ Hwf) as Hring. pose proof (ring_next _ _ _ _ _ Hring) as Hn.
  destruct (ring_cnt_bound _ _ _ _ _ Hring) as [Hc _].
  destruct (ring_offset _ _ _ _ _ _ Hring (rw_head _ _ _ _ _ Hring)) as (Ho & Hsh & Ho1 & Ho2).
  eapply safe_bind; [by apply safe_shl|]. intros o ->. rewrite Hn.
  do 4 (eapply safe_bind; [eapply safe_st32; [exact Hrs|wqe_offs..]|intros _ _]).
  eapply safe_bind.
  { apply (safe_modify_qp _ _ _ _ _ q); [done..|]. intros q1 h1 E Hwf1. split; [|done].
    apply qp_wf_set_sq; [done|]. injection E as _ -> _ _ _ _ _ _. apply next_head_range. lia. }
  intros _ _. eapply safe_bind; [by apply safe_qp|]. intros q1 Hq1.
  destruct (open_roomy qp q1 Hp Hq1) as (_ & _ & Hrd). pose proof Hq1 as (_ & Hu & h1 & Hwf1).
  pose proof (qw_sq _ _ Hwf1) as Hring1.
  destruct (ring_offset _ _ _ _ _ _ Hring1 (rw_head _ _ _ _ _ Hring1)) as (Hs1 & Hsh1 & _ & _).
  eapply safe_bind; [by apply safe_shl|]. intros db _.
  eapply safe_bind; [eapply safe_st32; [exact Hrd|lia..]|intros _ _]. rewrite Hu.
  eapply safe_bind; [by apply (safe_ret _ _ _ _ tt (fun _ => True))|]. intros _ _.
  eapply safe_bind; [apply safe_barrier|]. intros _ _. by apply safe_code.
Qed.

Lemma safe_post_recv qp wr bad : qp ∈ h_qps s -> safe (post_recv_t qp wr bad) (fun r => r = 0).
Proof.
  intros Hp. unfold post_recv_t. eapply safe_bind; [by apply safe_qp|]. intros q Hq. cbv zeta.
  destruct (open_roomy qp q Hp Hq) as (_ & Hrr & _). pose proof Hq as (_ & _ & h & Hwf).
  pose proof (qw_rq _ _ Hwf) as Hring. pose proof (ring_next _ _ _ _ _ Hring) as Hn.
  destruct (ring_cnt_bound _ _ _ _ _ Hring) as [Hc _].
  destruct (ring_offset _ _ _ _ _ _ Hring (rw_head _ _ _ _ _ Hring)) as (Ho & Hsh & Ho1 & Ho2).
  eapply safe_bind; [by apply safe_shl|]. intros o ->. rewrite Hn.
  do 2 (eapply safe_bind; [eapply safe_st32; [exact Hrr|wqe_offs..]|intros _ _]).
  eapply safe_bind; [eapply safe_st64; [exact Hrr|wqe_offs..]|intros _ _].
  eapply safe_bind.
  { apply (safe_modify_qp _ _ _ _ _ q); [done..|]. intros q1 h1 E Hwf1. split; [|done].
    apply qp_wf_set_rq; [done|]. injection E as _ _ _ _ -> _ _ _. apply next_head_range. lia. }
  intros _ _. eapply safe_bind; [by apply safe_qp|]. intros q1 Hq1.
  destruct (open_roomy qp q1 Hp Hq1) as (_ & _ & Hrd).
  eapply safe_bind; [eapply safe_st32; [exact Hrd|lia..]|intros _ _].
  eapply safe_bind; [apply safe_barrier|]. intros _ _. by apply safe_code.
Qed.

Lemma safe_set_state qp q st (k : unit -> proc Z) φ :
  qp ∈ h_qps s -> open_as w0 qp q -> (forall u, safe (k u) φ) ->
  safe ((act (modify qp (set_mqp_state st)) ;;
         act (modify qp (fun q => set_ibqp (set_qp_state st (ibqp q)) q))) ≫= k) φ.
Proof.
  intros Hp Hq Hk. eapply safe_bind; [|intros u _; apply Hk]. eapply safe_bind.
  - apply (safe_modify_qp _ _ _ _ _ q); [done..|]. intros q1 h _ []. split; [by split|done].
  - intros _ _. apply (safe_modify_qp _ _ _ _ _ q); [done..|]. intros q1 h _ []. split; [by split|done].
Qed.

Lemma safe_qpc_state t : safe (act (qpc_state t)) (fun b => buf_size b = 256).
Proof.
  apply safe_local. intros w. unfold qpc_state, arr_or8. cbv [mbind M_bind].
  rewrite arr_store_done by done. rewrite arr_load_done by done.
  rewrite arr_store_done by done. by eexists.
Qed.

Lemma safe_modify qp mask attr : qp ∈ h_qps s -> safe (modify_qp_t qp mask attr ctx) returns_code.
Proof.
  intros Hp. unfold modify_qp_t. eapply safe_bind; [by apply safe_qp|]. intros q Hq.
  destruct (modify_target (mqp_state q)) as [t|]; [|apply safe_code; by right].
  eapply safe_bind; [apply safe_qpc_state|]. intros b Hb.
  eapply safe_bind; [apply safe_small; [done|done|]|].
  { intros x [= <-]. rewrite Hb. done. }
  intros res _. destruct (negb _).
  { eapply safe_bind; [by apply safe_qp|]. intros q1 _. apply safe_code. by right. }
  assert (Hend : forall u : unit, safe (q ← act (deref (T := mlx5_ib_qp) qp);
    act (IOLog "QP state ->" [qpn q; t]) ;; mret 0) returns_code).
  { intros _. eapply safe_bind; [by apply safe_qp|]. intros q1 _. apply safe_code. by left. }
  destruct (t =? MLX5_QPC_QST_INIT); [by eapply safe_set_state|].
  destruct (t =? MLX5_QPC_QST_RTR); [by eapply safe_set_state|].
  destruct (t =? MLX5_QPC_QST_RTS); [by eapply safe_set_state|].
  eapply safe_bind; [by apply (safe_ret _ _ _ _ tt (fun _ => True))|]. intros u _. by apply Hend.
Qed.

(** ** Scripts *)

(** A post succeeds; a command gives 0 or -1. *)
Definition call_returns (c : ccall) (r : Z) : Prop :=
  match c with CPostSend _ _ | CPostRecv _ _ => r = 0 | _ => returns_code r end.

Lemma safe_call c : legal ctx s w0 (as_vcall c) -> safe (call_t ctx c) (call_returns c).
Proof.
  destruct c; cbn [call_t as_vcall legal]; intros Hl.
  - by apply safe_alloc_pd.
  - by apply safe_dealloc_pd.
  - by apply safe_destroy_cq.
  - by apply safe_dereg_mr.
  - eapply safe_bind; [by apply safe_query_device|]. intros r Hr. by apply safe_ret.
  - by apply safe_modify.
  - by apply safe_post_send.
  - by apply safe_post_recv.
Qed.

Lemma safe_client script :
  Forall (fun c => legal ctx s w0 (as_vcall c)) script ->
  safe (client ctx script) (fun rs => Forall2 call_returns script rs).
Proof.
  induction 1 as [|c script Hc _ IH]; cbn [client]; [by apply safe_ret; constructor|].
  eapply safe_bind; [by apply safe_call|]. intros r Hr.
  eapply safe_bind; [exact IH|]. intros rs Hrs. apply safe_ret. by constructor.
Qed.
End CallsSafe.

(** A device in service can be shared. *)
Lemma service_shared `{P : Platform} ctx s w :
  in_service ctx s w -> exists g, shared ctx s g w w.
Proof.
  intros (Hb & c & Hc & Hq). exists (geometry c). split; try done; [by exists c|].
  intros p Hp. destruct (q_open _ _ _ Hq p Hp) as (q & Hpq & Ho). exists q.
  rewrite Hpq. split; [done|]. split; [apply Ho|]. split; [apply Ho|done].
Qed.

Section Pool.
Context `{P : Platform} (ctx : ptr) (s : held) (scripts : list (list ccall)).

Definition clients : list (proc (list Z)) := client ctx <$> scripts.

Definition scripts_legal (w : world) : Prop :=
  Forall (Forall (fun c => legal ctx s w (as_vcall c))) scripts.

(** What a client returns. *)
Definition client_returns (i : nat) (rs : list Z) : Prop :=
  exists script, scripts !! i = Some script /\ Forall2 call_returns script rs.

Lemma clients_sound w ps w' :
  in_service ctx s w -> scripts_legal w -> rtc pool_step (clients, w) (ps, w') ->
  ~ thread_faults (ps, w') /\ forall i rs, ps !! i = Some (PRet rs) -> client_returns i rs.
Proof.
  intros Hs Hl Hsteps. destruct (service_shared ctx s w Hs) as (g & Hsh).
  pose proof (pool_sound (fun _ => unharmed ctx s g w) (fun _ => unharmed ctx s g w)
    (fun i rs w' => shared ctx s g w w' /\ client_returns i rs)) as Hsound.
  destruct (Hsound ltac:(by intros) ltac:(intros _ w1 H; by apply shared_device) (clients, w) (ps, w'))
    as [Hf Hr]; [|done|].
  - intros i p Hi. simpl in Hi. unfold clients in Hi. apply list_lookup_fmap_Some in Hi as (script & -> & Hi).
    eapply rg_mono; [|apply (safe_client ctx s g w script); [by eapply Forall_lookup_1|exact Hsh]].
    intros rs w1 [Hw1 Hrs]. split; [done|]. by exists script.
  - split; [done|]. intros i rs Hi. by apply (Hr i rs).
Qed.
End Pool.

(** Two clients of the simulated card with an open queue pair: one changes its
    state and sends, the other receives and allocates a protection domain.  The
    first accesses of the two, in turn. *)
Definition demo_scripts : list (list ccall) :=
  [[CModifyQp 500 0; CPostSend 500 0]; [CPostRecv 500 0; CAllocPd 300]].
Definition demo_run : pool (list Z) :=
  scheduled (concat (repeat [0%nat; 1%nat] 20)) (@clients (sim_platform 1 2) 100 demo_scripts, demo_state.2).

Lemma demo_run_steps : rtc pool_step (@clients (sim_platform 1 2) 100 demo_scripts, demo_state.2)
  (demo_run.1, demo_run.2).
Proof. rewrite <- surjective_pairing. apply scheduled_steps. vm_compute. reflexivity. Qed.

Lemma demo_serves : @in_service (sim_platform 1 2) 100 demo_state.1 demo_state.2.
Proof. exact (vsteps_keep 100 _ _ demo_steps demo_in_service). Qed.

Lemma demo_scripts_legal : @scripts_legal (sim_platform 1 2) 100 demo_state.1 demo_scripts demo_state.2.
Proof.
  repeat constructor; cbn [as_vcall legal]; apply (bool_decide_unpack _); vm_compute; exact I.
Qed.

(** C6. Any number of clients at once: from a device in service, however the
    accesses of their scripts to shared memory interleave with each other and
    with the card, no access is undefined; and every client that has ended got,
    for each call of its script, a result that the call may return: 0 for a
    post, 0 or -1 for a command. *)
Theorem clients_safe `{P : Platform} ctx s scripts w ps w' :
  in_service ctx s w -> scripts_legal ctx s scripts w ->
  rtc pool_step (clients ctx scripts, w) (ps, w') ->
  ~ thread_faults (ps, w') /\ forall i rs, ps !! i = Some (PRet rs) -> client_returns scripts i rs.
Proof. apply clients_sound. Qed.

Lemma clients_safe_witness :
  ~ thread_faults (demo_run.1, demo_run.2) /\ forall i rs, demo_run.1 !! i = Some (PRet rs) -> client_returns demo_scripts i rs.
Proof.
  exact (@clients_safe (sim_platform 1 2) 100 demo_state.1 demo_scripts demo_state.2 demo_run.1 demo_run.2
    demo_serves demo_scripts_legal demo_run_steps).
Defined.

(** C7. Every client ends: no run has infinitely many turns of the clients,
    however the card acts in between; and at any moment, each client can be run
    to its end. *)
Theorem clients_finish `{P : Platform} ctx s scripts w ps w' :
  in_service ctx s w -> scripts_legal ctx s scripts w ->
  rtc pool_step (clients ctx scripts, w) (ps, w') ->
  Acc (flip turn) (ps, w') /\
  exists ps2 w2, rtc thread_step (ps, w') (ps2, w2) /\
    forall i script, scripts !! i = Some script ->
      exists rs, ps2 !! i = Some (PRet rs) /\ Forall2 call_returns script rs.
Proof.
  intros Hs Hl Hsteps. split; [apply turns_end|].
  destruct (can_finish (ps, w')) as ([ps2 w2] & H2 & Hf).
  { intros [ps1 w1] H1. eapply (clients_sound ctx s scripts w); [done..|]. by etrans; [|apply thread_steps_pool]. }
  exists ps2, w2. split; [done|]. intros i script Hi.
  assert (Hall : rtc pool_step (clients ctx scripts, w) (ps2, w2)) by (by etrans; [|apply thread_steps_pool]).
  destruct (clients_sound ctx s scripts w ps2 w2 Hs Hl Hall) as [_ Hr].
  pose proof (pool_steps_length _ _ Hall) as Hlen. simpl in Hlen. unfold clients in Hlen. rewrite length_fmap in Hlen.
  destruct (lookup_lt_is_Some_2 ps2 i) as [p Hp]; [rewrite Hlen; by eapply lookup_lt_Some|].
  destruct (Hf i p Hp) as [rs ->]. destruct (Hr i rs Hp) as (script' & Hi' & Hrs).
  rewrite Hi in Hi'. injection Hi' as <-. by exists rs.
Qed.

Lemma clients_finish_witness :
  Acc (flip turn) (demo_run.1, demo_run.2) /\
  exists ps2 w2, rtc thread_step (demo_run.1, demo_run.2) (ps2, w2) /\
    forall i script, demo_scripts !! i = Some script ->
      exists rs, ps2 !! i = Some (PRet rs) /\ Forall2 call_returns script rs.
Proof.
  exact (@clients_finish (sim_platform 1 2) 100 demo_state.1 demo_scripts demo_state.2 demo_run.1 demo_run.2
    demo_serves demo_scripts_legal demo_run_steps).
Defined.
