(* ===== verification/QpShared.v ===== *)
(** * A sender and a receiver

    One thread posts sends to a queue pair while another one posts receives to
    it.  Each side has a ring, a head and a word of the doorbell record of its own
    ([view]); what a thread relies on is that the other one leaves its view alone,
    and what it guarantees is that it leaves the other's alone.  So the two need
    no lock: however their accesses interleave, the queue pair ends as two
    logs.  (Two senders do need one: [QpOverlap].) *)

From S2P Require Import Prelude Bytes Registers IbVerbs World Wp Cmd CmdSpec Qp QpSpec QpTheorems QpRing Keep Session Threads CmdThreads QpThreads Clients Sim.

(** The other side. *)
Definition other (x : work) : work := match x with Send => Recv | Recv => Send end.

Definition ring_of (x : work) (q : mlx5_ib_qp) : ptr := match x with Send => sq_buf q | Recv => rq_buf q end.
Definition cnt_of (x : work) (q : mlx5_ib_qp) : Z := match x with Send => sq_wqe_cnt q | Recv => rq_wqe_cnt q end.
Definition shift_of (x : work) (q : mlx5_ib_qp) : Z := match x with Send => sq_wqe_shift q | Recv => rq_wqe_shift q end.
Definition head_of (x : work) (q : mlx5_ib_qp) : Z := match x with Send => sq_head q | Recv => rq_head q end.
Definition set_head (x : work) (h : Z) : mlx5_ib_qp -> mlx5_ib_qp :=
  match x with Send => set_sq_head h | Recv => set_rq_head h end.
(** The offset of the side's word in the doorbell record. *)
Definition word_of (x : work) : Z := match x with Send => 0 | Recv => 4 end.

(** A queue pair without its heads. *)
Definition still (q : mlx5_ib_qp) : mlx5_ib_qp := set_sq_head 0 (set_rq_head 0 q).

Section Sides.
Context `{P : Platform} (qp : ptr) (q0 : mlx5_ib_qp) (w0 : world).
Context (Hq0 : w_qp w0 !! qp = Some q0) (Hwf : qp_wf q0 (w_heap w0)).
Context (Hro : forall p, p ∈ [sq_buf q0; rq_buf q0; db_record q0] -> device_readonly p).

Record frame (w w' : world) : Prop := {
  fr_heap : heap_shape (w_heap w') = heap_shape (w_heap w);
  fr_maps : w_maps w' = w_maps w;
  fr_qp : still <$> w_qp w' !! qp = still <$> w_qp w !! qp
}.

#[global] Instance frame_preorder : PreOrder frame.
Proof.
  split; [by intros w|]. intros w1 w2 w3 [] []. split; congruence.
Qed.

Definition view (x : work) (w : world) : option Z * option buf * option Z :=
  (head_of x <$> w_qp w !! qp, live_buf (w_heap w) (ring_of x q0),
   (fun d => be_at d (word_of x) 4) <$> live_buf (w_heap w) (db_record q0)).

(** What side [x] relies on; its guarantee is the rely of the other side. *)
Definition leaves (x : work) (w w' : world) : Prop := frame w w' /\ view x w' = view x w.

#[global] Instance leaves_preorder x : PreOrder (leaves x).
Proof. split; [by split|]. intros w1 w2 w3 [] []. split; [by etrans|congruence]. Qed.

(** What side [x] knows. *)
Definition knows (x : work) (h : Z) (b : buf) (v : Z) (w : world) : Prop :=
  frame w0 w /\ view x w = (Some h, Some b, Some v).

Lemma knows_stable x h b v : preserved (knows x h b v) (leaves x).
Proof. intros w w' [Hf Hv] [Hf0 E]. split; [by etrans|congruence]. Qed.

Lemma side_ring x : exists h, ring_wf (w_heap w0) (ring_of x q0) (cnt_of x q0) (shift_of x q0) h.
Proof. destruct x; eexists; apply Hwf. Qed.

Lemma side_apart x : ring_of x q0 <> ring_of (other x) q0 /\ ring_of x q0 <> db_record q0.
Proof. pose proof Hwf as [_ _ _ ? ? ?]. destruct x; simpl; split; congruence. Qed.

Lemma knows_ring x h b v w :
  knows x h b v w -> live_buf (w_heap w) (ring_of x q0) = Some b /\
    buf_size b = cnt_of x q0 * 2 ^ shift_of x q0.
Proof.
  intros [Hf Hv]. destruct (side_ring x) as (h' & [(b0 & Hb0 & Hs) _ _ _]).
  destruct (heap_shape_live _ (w_heap w) _ _ (eq_sym (fr_heap _ _ Hf)) Hb0) as (b1 & Hb1 & Hs1).
  injection Hv as _ Hb _. rewrite Hb in Hb1. injection Hb1 as <-. split; [done|lia].
Qed.

Lemma knows_db x h b v w :
  knows x h b v w -> exists d, live_buf (w_heap w) (db_record q0) = Some d /\ 8 <= buf_size d /\
    be_at d (word_of x) 4 = v.
Proof.
  intros [Hf Hv]. destruct (qw_db _ _ Hwf) as (d0 & Hd0 & Hs).
  destruct (heap_shape_live _ (w_heap w) _ _ (eq_sym (fr_heap _ _ Hf)) Hd0) as (d1 & Hd1 & Hs1).
  exists d1. split; [done|]. split; [lia|]. injection Hv as _ _ Hd. rewrite Hd1 in Hd. by injection Hd.
Qed.

Lemma knows_qp x h b v w :
  knows x h b v w -> exists q, w_qp w !! qp = Some q /\ still q = still q0 /\ head_of x q = h.
Proof.
  intros [Hf Hv]. pose proof (fr_qp _ _ Hf) as E. rewrite Hq0 in E. unfold view in Hv.
  destruct (w_qp w !! qp) as [q|]; [|done]. exists q. split; [done|]. apply (inj Some) in E.
  split; [done|]. by injection Hv.
Qed.

(** ** The accesses of a side *)

(** [m] does its work on the side [x] and leaves the other one alone. *)
Definition turns {A} (x : work) h b v (m : proc A) (J : A -> world -> Prop) : Prop :=
  triple (leaves x) (leaves (other x)) (knows x h b v) m J.

Lemma turns_act {A} x h b v (m : M A) (φ : A -> Prop) h' b' v' :
  (forall w, knows x h b v w ->
     wp m (fun a w' => leaves (other x) w w' /\ φ a /\ knows x h' b' v' w') w) ->
  turns x h b v (act m) (fun a w => φ a /\ knows x h' b' v' w).
Proof.
  intros H. apply triple_act; [apply knows_stable| |exact H].
  intros a w w' HR [Ha Hw]. split; [done|]. by eapply knows_stable.
Qed.

Lemma turns_bind {A B} x h b v (p : proc A) (k : A -> proc B) φ h' b' v' J :
  turns x h b v p (fun a w => φ a /\ knows x h' b' v' w) ->
  (forall a, φ a -> turns x h' b' v' (k a) J) -> turns x h b v (p ≫= k) J.
Proof.
  intros Hp Hk.
  apply (triple_bind _ _ p k (knows x h b v) (fun a w => φ a /\ knows x h' b' v' w)); [exact Hp|].
  intros a w [Ha Hw]. by apply Hk.
Qed.

Lemma turns_ret {A} x h b v (a : A) φ : φ a -> turns x h b v (mret a) (fun a w => φ a /\ knows x h b v w).
Proof. intros Ha w Hw w' HR. split; [done|]. by eapply knows_stable. Qed.

Lemma leaves_same x w w' :
  w_heap w' = w_heap w -> w_maps w' = w_maps w -> w_qp w' = w_qp w -> leaves x w w'.
Proof. intros E1 E2 E3. split; [split; congruence|]. unfold view. by rewrite E1, E3. Qed.

Lemma knows_leaves x h b v w w' : knows x h b v w -> leaves x w w' -> knows x h b v w'.
Proof. intros Hw HR. by eapply knows_stable. Qed.

(** What changes neither memory nor queue pairs. *)
Lemma turns_same {A} x h b v (m : M A) φ :
  (forall w, knows x h b v w -> wp m (fun a w' => φ a /\ w_heap w' = w_heap w /\
     w_maps w' = w_maps w /\ w_qp w' = w_qp w) w) ->
  turns x h b v (act m) (fun a w => φ a /\ knows x h b v w).
Proof.
  intros H. apply turns_act. intros w Hw. eapply wp_mono; [by apply H|].
  intros a w' (Ha & E1 & E2 & E3). split; [by apply leaves_same|]. split; [done|].
  eapply knows_leaves; [exact Hw|by apply leaves_same].
Qed.

Lemma turns_emit x h b v e : turns x h b v (act (emit e)) (fun _ w => True /\ knows x h b v w).
Proof. apply turns_same. done. Qed.

Lemma turns_read x h b v :
  turns x h b v (act (deref qp)) (fun q w => (still q = still q0 /\ head_of x q = h) /\ knows x h b v w).
Proof.
  apply turns_same. intros w Hw. destruct (knows_qp _ _ _ _ _ Hw) as (q & Hq & E).
  by eapply wp_deref; [exact Hq|].
Qed.

Lemma turns_shl x h b v y n z :
  0 <= n < 32 -> u32 (Z.shiftl y n) = z ->
  turns x h b v (act (shl_u32 y n)) (fun o w => o = z /\ knows x h b v w).
Proof. intros Hn <-. apply turns_same. intros w _. by apply wp_shl_u32. Qed.

(** A store into the ring. *)
Lemma turns_store x h b v o bs :
  0 <= o -> o + Z.of_nat (length bs) <= cnt_of x q0 * 2 ^ shift_of x q0 ->
  turns x h b v (act (mem_store (ring_of x q0) o bs))
    (fun _ w => True /\ knows x h (buf_store b o bs) v w).
Proof.
  intros Ho Hs. apply (turns_act _ _ _ _ _ (fun _ => True)). intros w Hw.
  destruct (knows_ring _ _ _ _ _ Hw) as [Hb Hbs]. destruct (side_apart x) as [Hne Hnd].
  eapply wp_mem_store; [exact Hb|lia..|].
  assert (Hf : frame w (put_trace (EvStore (ring_of x q0) o bs :: w_trace w)
    (put_heap (upd_buf (ring_of x q0) (fun b => buf_store b o bs) (w_heap w)) w)))
    by (split; [by apply heap_shape_upd|done..]).
  destruct Hw as [Hf0 Hv]. split; [|split; [done|split; [by etrans|]]].
  - split; [done|]. unfold view. simpl. by rewrite !live_buf_upd_ne by congruence.
  - unfold view in *. simpl. rewrite live_buf_upd_eq, (live_buf_upd_ne (ring_of x q0)) by congruence.
    injection Hv as -> -> ->. done.
Qed.

(** The head. *)
Lemma turns_head x h b v h' :
  turns x h b v (act (modify qp (set_head x h'))) (fun _ w => True /\ knows x h' b v w).
Proof.
  apply (turns_act _ _ _ _ _ (fun _ => True)). intros w Hw.
  destruct (knows_qp _ _ _ _ _ Hw) as (q & Hq & E & _). destruct Hw as [Hf0 Hv].
  eapply wp_modify; [exact Hq|]. simpl.
  assert (Hf : frame w (put_qp (<[qp := set_head x h' q]> (w_qp w)) w)).
  { split; [done..|]. simpl. rewrite lookup_insert_eq, Hq. by destruct x, q. }
  split; [|split; [done|split; [by etrans|]]].
  - split; [done|]. unfold view. simpl. rewrite lookup_insert_eq, Hq. by destruct x, q.
  - unfold view in *. simpl. rewrite lookup_insert_eq. injection Hv as _ -> ->. by destruct x, q.
Qed.

(** The word of the doorbell record. *)
Lemma turns_word x h b v y :
  0 <= y < 2 ^ 32 ->
  turns x h b v (act (mem_store (db_record q0) (word_of x) (be_split 4 y)))
    (fun _ w => True /\ knows x h b y w).
Proof.
  intros Hy. apply (turns_act _ _ _ _ _ (fun _ => True)). intros w Hw.
  destruct (knows_db _ _ _ _ _ Hw) as (d & Hd & Hs & _). destruct (side_apart x) as [_ Hnd].
  destruct (side_apart (other x)) as [_ Hnd']. destruct Hw as [Hf0 Hv].
  eapply wp_mem_store; [exact Hd|by destruct x|rewrite length_be_split; destruct x; simpl; lia|].
  assert (Hf : frame w (put_trace (EvStore (db_record q0) (word_of x) (be_split 4 y) :: w_trace w)
    (put_heap (upd_buf (db_record q0) (fun b => buf_store b (word_of x) (be_split 4 y)) (w_heap w)) w)))
    by (split; [by apply heap_shape_upd|done..]).
  split; [|split; [done|split; [by etrans|]]].
  - split; [done|]. unfold view. simpl. rewrite live_buf_upd_eq, Hd, live_buf_upd_ne by congruence.
    simpl. rewrite be_at_store_out; [done|]. rewrite length_be_split. destruct x; simpl; lia.
  - unfold view in *. simpl. rewrite live_buf_upd_eq, Hd, live_buf_upd_ne by congruence.
    simpl. rewrite be_at_store_same. injection Hv as -> -> _. by rewrite Z.mod_small.
Qed.

(** The device only reads the three blocks. *)
Lemma readonly_device p w : device_readonly p -> live_buf (w_heap (device_run w)) p = live_buf (w_heap w) p.
Proof.
  intros Hp. destruct (live_buf (w_heap w) p) as [b|] eqn:E; [exact (stable_device_run _ w (Hp b) E)|].
  destruct (live_buf (w_heap (device_run w)) p) as [b|] eqn:E'; [|done].
  destruct (heap_shape_live _ (w_heap w) _ _ (heap_shape_device_run w) E') as (b' & Hb' & _). congruence.
Qed.

Lemma leaves_device x w : leaves x w (device_run w).
Proof.
  split; [split; [apply heap_shape_device_run|done..]|]. unfold view.
  rewrite !readonly_device; [done|apply Hro; by do 2 right; left|apply Hro; destruct x; [by left|by right; left]].
Qed.

Lemma turns_load x h b v o n :
  0 <= o -> o + Z.of_nat n <= cnt_of x q0 * 2 ^ shift_of x q0 ->
  turns x h b v (act (mem_load (ring_of x q0) o n)) (fun l w => l = buf_bytes b o n /\ knows x h b v w).
Proof.
  intros Ho Hs. apply turns_act. intros w Hw. destruct (knows_ring _ _ _ _ _ Hw) as [Hb Hbs].
  assert (Hw' : knows x h b v (device_run w)) by (eapply knows_leaves; [exact Hw|apply leaves_device]).
  destruct (knows_ring _ _ _ _ _ Hw') as [Hb' _].
  eapply wp_mem_load; [exact Hb|lia..|]. intros b' Hb1 _. rewrite Hb' in Hb1. injection Hb1 as <-.
  split; [apply leaves_device|done].
Qed.

(** The BlueFlame register. *)
Lemma turns_register x h b v n a y :
  mmio_mapped (w_maps w0) a n = true ->
  turns x h b v (act (mmio_write n a y)) (fun _ w => True /\ knows x h b v w).
Proof.
  intros Hm. apply turns_same. intros w [Hf _]. apply wp_mmio_write; [|done].
  by rewrite (fr_maps _ _ Hf).
Qed.

(** ** The two posts *)

Lemma still_fields q : still q = still q0 ->
  (sq_buf q = sq_buf q0 /\ sq_wqe_cnt q = sq_wqe_cnt q0 /\ sq_wqe_shift q = sq_wqe_shift q0) /\
  (rq_buf q = rq_buf q0 /\ rq_wqe_cnt q = rq_wqe_cnt q0 /\ rq_wqe_shift q = rq_wqe_shift q0) /\
  db_record q = db_record q0 /\ uar q = uar q0 /\ qpn q = qpn q0.
Proof. intros E. destruct q, q0. by injection E. Qed.

(** Facts of arithmetic on a side. *)
Lemma side_slots x h : 0 <= h < cnt_of x q0 ->
  u32 (Z.shiftl h (shift_of x q0)) = h * 2 ^ shift_of x q0 /\ 0 <= shift_of x q0 < 32 /\
  0 <= h * 2 ^ shift_of x q0 /\ h * 2 ^ shift_of x q0 + 16 <= cnt_of x q0 * 2 ^ shift_of x q0 /\
  h * 2 ^ shift_of x q0 < 2 ^ 32 /\
  Z.land (u32 (h + 1)) (u32 (cnt_of x q0 - 1)) = (h + 1) mod cnt_of x q0 /\
  0 <= (h + 1) mod cnt_of x q0 < cnt_of x q0.
Proof.
  intros Hh. destruct (side_ring x) as (h' & Hr). destruct (ring_cnt_bound _ _ _ _ _ Hr) as [Hc Hc'].
  destruct (ring_offset _ _ _ _ _ _ Hr Hh) as (H1 & H2 & H3 & H4).
  assert (Hr' : ring_wf (w_heap w0) (ring_of x q0) (cnt_of x q0) (shift_of x q0) h).
  { destruct Hr as [? ? ? _]. by split. }
  split; [done|]. split; [done|]. split; [done|]. split; [done|]. split; [lia|].
  split; [by apply (ring_next _ _ _ _ _ Hr')|apply next_head_range; lia].
Qed.

Definition at_head (h : Z) : mlx5_ib_qp := set_sq_head h q0.

Context (Huar : uar_ok q0 w0).

Lemma turns_doorbell h b v q o :
  still q = still q0 -> 0 <= o -> o + 16 <= cnt_of Send q0 * 2 ^ shift_of Send q0 ->
  turns Send h b v
    (pwhen (negb (uar q =? NULL))
      (l ← act (mem_load (sq_buf q) o 8);
       act (mmio_write64 (uar q) (OSSwapInt64 (le_combine l))) ;;
       act OSSynchronizeIO))
    (fun _ w => True /\ knows Send h b v w).
Proof.
  intros Hq Ho Hs. destruct (still_fields q Hq) as ((-> & _) & _ & _ & -> & _).
  destruct (Z.eqb_spec (uar q0) NULL) as [|Hu]; [by apply turns_ret|]. cbn [negb pwhen].
  destruct Huar as [|[Hm _]]; [done|].
  eapply turns_bind; [apply (turns_load Send); [done|simpl in *; lia]|]. intros l _.
  eapply turns_bind; [by apply turns_register|]. intros _ _. apply turns_emit.
Qed.

Lemma turns_send h b v wr bad :
  0 <= h < sq_wqe_cnt q0 ->
  let h' := (h + 1) mod sq_wqe_cnt q0 in
  turns Send h b v (post_send_t qp wr bad) (fun r w => r = 0 /\
    knows Send h' (sq_stored (at_head h) (h * 2 ^ sq_wqe_shift q0) b) (h' * 2 ^ sq_wqe_shift q0) w).
Proof.
  intros Hh h'. destruct (side_slots Send h Hh) as (Ho & Hsh & Ho1 & Ho2 & _ & Hn & Hh').
  destruct (side_slots Send h' Hh') as (Hd & _ & Hd1 & _ & Hd2 & _). cbn [cnt_of shift_of] in *.
  unfold post_send_t. eapply turns_bind; [apply turns_read|]. intros q [Hq Hqh]. cbv zeta. simpl in Hqh.
  destruct (still_fields q Hq) as ((-> & -> & ->) & _ & _ & _ & ->). rewrite Hqh.
  eapply turns_bind; [by apply turns_shl|]. intros o ->. unfold st32. rewrite !le_split_swap32.
  do 4 (eapply turns_bind; [apply (turns_store Send); wqe_offs|intros _ _]).
  eapply turns_bind; [apply (turns_head Send)|]. intros _ _. rewrite Hn. fold h'.
  eapply turns_bind; [apply turns_read|]. intros q1 [Hq1 Hq1h]. simpl in Hq1h.
  destruct (still_fields q1 Hq1) as ((_ & _ & ->) & _ & -> & _). rewrite Hq1h.
  eapply turns_bind; [by apply turns_shl|]. intros db ->. rewrite le_split_swap32.
  eapply turns_bind; [by apply (turns_word Send)|]. intros _ _.
  eapply turns_bind; [by apply (turns_doorbell _ _ _ q1)|]. intros _ _.
  eapply turns_bind; [apply turns_emit|]. intros _ _.
  eapply turns_bind; [apply turns_emit|]. intros _ _. by apply turns_ret.
Qed.

Lemma turns_recv h b v wr bad :
  0 <= h < rq_wqe_cnt q0 ->
  let h' := (h + 1) mod rq_wqe_cnt q0 in
  turns Recv h b v (post_recv_t qp wr bad) (fun r w => r = 0 /\
    knows Recv h' (rq_stored (h * 2 ^ rq_wqe_shift q0) b) (h' mod 2 ^ 16) w).
Proof.
  intros Hh h'. destruct (side_slots Recv h Hh) as (Ho & Hsh & Ho1 & Ho2 & _ & Hn & Hh').
  cbn [cnt_of shift_of] in *.
  unfold post_recv_t. eapply turns_bind; [apply turns_read|]. intros q [Hq Hqh]. cbv zeta. simpl in Hqh.
  destruct (still_fields q Hq) as (_ & (-> & -> & ->) & _). rewrite Hqh.
  eapply turns_bind; [by apply turns_shl|]. intros o ->. unfold st32, st64. rewrite !le_split_swap32.
  do 3 (eapply turns_bind; [apply (turns_store Recv); wqe_offs|intros _ _]).
  eapply turns_bind; [apply (turns_head Recv)|]. intros _ _. rewrite Hn. fold h'.
  eapply turns_bind; [apply turns_read|]. intros q1 [Hq1 Hq1h]. simpl in Hq1h.
  destruct (still_fields q1 Hq1) as (_ & _ & -> & _). rewrite Hq1h, (land_mask_mod _ 16) by (done || lia).
  rewrite le_split_swap32. pose proof (Z.mod_pos_bound h' (2 ^ 16)).
  eapply turns_bind; [apply (turns_word Recv); lia|]. intros _ _.
  eapply turns_bind; [apply turns_emit|]. intros _ _.
  eapply turns_bind; [apply turns_emit|]. intros _ _. by apply turns_ret.
Qed.

(** ** A thread of posts *)

(** What side [x] knows when its log is that of [l]. *)
Definition logged_at (x : work) (l : logs) (w : world) : Prop :=
  match x with
  | Send => exists b v, knows Send (sent_slot q0 (length (sent l))) b v w /\
      holds_last (ring_ctrl q0 b) (sq_head q0) (sq_wqe_cnt q0) (sent l) /\
      (sent l <> [] -> v = sent_slot q0 (length (sent l)) * 2 ^ sq_wqe_shift q0)
  | Recv => exists b v, knows Recv (recv_slot q0 (length (received l))) b v w /\
      holds_last (ring_data q0 b) (rq_head q0) (rq_wqe_cnt q0) (received l) /\
      (received l <> [] -> v = recv_slot q0 (length (received l)) mod 2 ^ 16)
  end.

Lemma logged_stable x l : preserved (logged_at x l) (leaves x).
Proof.
  intros w w' HR. destruct x; intros (b & v & Hk & H); exists b, v; (split; [by eapply knows_leaves|done]).
Qed.

Definition post_t (x : work) : proc Z :=
  match x with Send => post_send_t qp NULL NULL | Recv => post_recv_t qp NULL NULL end.

Lemma cnt_pos x : 0 < cnt_of x q0.
Proof. destruct (side_ring x) as (h & Hr). destruct (ring_cnt_bound _ _ _ _ _ Hr). lia. Qed.

Lemma shift_min x : 4 <= shift_of x q0.
Proof. destruct (side_ring x) as (h & [_ _ Hs _]). done. Qed.

Lemma send_logged l :
  triple (leaves Send) (leaves Recv) (logged_at Send l) (post_t Send)
    (fun r w => r = 0 /\ logged_at Send (post_log q0 l Send) w).
Proof.
  intros w (b & v & Hk & Hl & _). pose proof (cnt_pos Send) as Hc. simpl in Hc.
  set (k := length (sent l)) in *. set (h := sent_slot q0 k) in *.
  assert (Hh : 0 <= h < sq_wqe_cnt q0) by by apply slot_range.
  pose proof (turns_send h b v NULL NULL Hh) as Ht. cbv zeta in Ht.
  assert (Hnext : (h + 1) mod sq_wqe_cnt q0 = sent_slot q0 (S k)) by apply slot_succ.
  rewrite Hnext in Ht. eapply rg_mono; [|exact (Ht w Hk)].
  intros r w' [-> Hk']. split; [done|]. cbn [logged_at post_log sent]. rewrite length_app, Nat.add_1_r. fold k.
  eexists _, _. split; [exact Hk'|]. split; [|done].
  apply (holds_last_push (ring_ctrl q0 b)); [done..| |].
  - intros s Hs Hne. apply decode_ctrl_other, slots_apart; [apply (shift_min Send)|done].
  - unfold ring_ctrl. fold k. change (slot (sq_head q0) (sq_wqe_cnt q0) k) with h. apply decode_sq_stored.
Qed.

Lemma recv_logged l :
  triple (leaves Recv) (leaves Send) (logged_at Recv l) (post_t Recv)
    (fun r w => r = 0 /\ logged_at Recv (post_log q0 l Recv) w).
Proof.
  intros w (b & v & Hk & Hl & _). pose proof (cnt_pos Recv) as Hc. simpl in Hc.
  set (k := length (received l)) in *. set (h := recv_slot q0 k) in *.
  assert (Hh : 0 <= h < rq_wqe_cnt q0) by by apply slot_range.
  pose proof (turns_recv h b v NULL NULL Hh) as Ht. cbv zeta in Ht.
  assert (Hnext : (h + 1) mod rq_wqe_cnt q0 = recv_slot q0 (S k)) by apply slot_succ.
  rewrite Hnext in Ht. eapply rg_mono; [|exact (Ht w Hk)].
  intros r w' [-> Hk']. split; [done|]. cbn [logged_at post_log received]. rewrite length_app, Nat.add_1_r. fold k.
  eexists _, _. split; [exact Hk'|]. split; [|done].
  apply (holds_last_push (ring_data q0 b)); [done..| |].
  - intros s Hs Hne. apply decode_data_other, slots_apart; [apply (shift_min Recv)|done].
  - unfold ring_data. fold k. change (slot (rq_head q0) (rq_wqe_cnt q0) k) with h. apply decode_rq_stored.
Qed.

(** A script of posts of one kind. *)
Definition posts (x : work) (n : nat) : list ccall :=
  repeat (match x with Send => CPostSend qp NULL | Recv => CPostRecv qp NULL end) n.

Lemma post_logged x l :
  triple (leaves x) (leaves (other x)) (logged_at x l) (post_t x)
    (fun r w => r = 0 /\ logged_at x (post_log q0 l x) w).
Proof. destruct x; [apply send_logged|apply recv_logged]. Qed.

Lemma no_posts_logged {A} x l (a : A) :
  triple (leaves x) (leaves (other x)) (logged_at x l) (mret a) (fun r w => r = a /\ logged_at x l w).
Proof. intros w Hw w' HR. split; [done|]. by eapply logged_stable. Qed.

Lemma posts_logged ctx x n l :
  triple (leaves x) (leaves (other x)) (logged_at x l) (client ctx (posts x n))
    (fun rs w => rs = repeat 0 n /\ logged_at x (foldl (post_log q0) l (repeat x n)) w).
Proof.
  revert l. induction n as [|n IH]; intros l; [apply no_posts_logged|].
  assert (E : client ctx (posts x (S n)) =
    (r ← post_t x; rs ← client ctx (posts x n); mret (r :: rs) : proc (list Z))) by by destruct x.
  rewrite E. eapply triple_bind; [apply _|apply post_logged|]. intros r w [-> Hw]. revert w Hw.
  change (triple (leaves x) (leaves (other x)) (logged_at x (post_log q0 l x))
    (rs ← client ctx (posts x n); mret (0 :: rs) : proc (list Z))
    (fun rs w => rs = repeat 0 (S n) /\ logged_at x (foldl (post_log q0) l (repeat x (S n))) w)).
  eapply triple_bind; [apply _|apply IH|]. intros rs w [-> Hw]. by apply no_posts_logged.
Qed.

(** ** The two sides together *)

Lemma sent_recvs l n : sent (foldl (post_log q0) l (repeat Recv n)) = sent l.
Proof. revert l; induction n as [|n IH]; intros l; [done|]. simpl. by rewrite IH. Qed.
Lemma received_sends l n : received (foldl (post_log q0) l (repeat Send n)) = received l.
Proof. revert l; induction n as [|n IH]; intros l; [done|]. simpl. by rewrite IH. Qed.
Lemma received_recvs l l' n : received l = received l' ->
  received (foldl (post_log q0) l (repeat Recv n)) = received (foldl (post_log q0) l' (repeat Recv n)).
Proof. revert l l'; induction n as [|n IH]; intros l l' E; [done|]. apply IH. simpl. by rewrite E. Qed.

Lemma still_moved q l :
  still q = still q0 -> sq_head q = sent_slot q0 (length (sent l)) ->
  rq_head q = recv_slot q0 (length (received l)) -> q = moved q0 l.
Proof.
  assert (H : forall a b x, set_rq_head a (set_sq_head b x) = set_rq_head a (set_sq_head b (still x))) by done.
  intros E Hs Hr. unfold moved. rewrite <- Hs, <- Hr, (H _ _ q0), <- E. by destruct q.
Qed.

Lemma both_represent l w :
  logged_at Send l w -> logged_at Recv l w -> represents qp q0 l w.
Proof.
  intros (b & v & Hk & Hl & Hv) (b' & v' & Hk' & Hl' & Hv').
  destruct (knows_qp _ _ _ _ _ Hk) as (q & Hq & Hst & Hs).
  destruct (knows_qp _ _ _ _ _ Hk') as (q' & Hq' & _ & Hr). rewrite Hq in Hq'. injection Hq' as <-.
  destruct (knows_db _ _ _ _ _ Hk) as (d & Hd & _ & Hd1).
  destruct (knows_db _ _ _ _ _ Hk') as (d' & Hd' & _ & Hd2). rewrite Hd in Hd'. injection Hd' as <-.
  destruct (knows_ring _ _ _ _ _ Hk) as [Hb _], (knows_ring _ _ _ _ _ Hk') as [Hb' _].
  assert (Hqm : w_qp w !! qp = Some (moved q0 l)) by (rewrite Hq; f_equal; by apply still_moved).
  split; [done| |by exists b|by exists b'|].
  - apply (qp_wf_shape _ (w_heap w0)); [by rewrite (fr_heap _ _ (proj1 Hk))|].
    pose proof Hwf as [[] [] ? ? ? ?].
    split; try done; (split; [done..|]); apply slot_range; [apply (cnt_pos Send)|apply (cnt_pos Recv)].
  - exists d. split; [done|]. split; intros Hne; [rewrite <- Hv by done; exact Hd1|rewrite <- Hv' by done; exact Hd2].
Qed.
End Sides.

Section Pair.
Context `{P : Platform} (ctx qp : ptr) (q0 : mlx5_ib_qp) (n m : nat) (w0 : world).
Context (Hq0 : w_qp w0 !! qp = Some q0) (Hwf : qp_wf q0 (w_heap w0)) (Huar : uar_ok q0 w0).
Context (Hro : forall p, p ∈ [sq_buf q0; rq_buf q0; db_record q0] -> device_readonly p).

Definition sender_and_receiver : list (proc (list Z)) :=
  [client ctx (posts qp Send n); client ctx (posts qp Recv m)].

(** The logs when both are done. *)
Definition both_logs : logs := post_logs q0 (repeat Send n ++ repeat Recv m).

(** Of a third thread nothing would be known. *)
Definition relies (i : nat) : relation world :=
  match i with O => leaves qp q0 Send | 1%nat => leaves qp q0 Recv | _ => fun _ _ => True end.
Definition guarantees (i : nat) : relation world :=
  match i with O => leaves qp q0 Recv | 1%nat => leaves qp q0 Send | _ => eq end.
Definition ends (i : nat) (rs : list Z) (w : world) : Prop :=
  match i with
  | O => rs = repeat 0 n /\ logged_at qp q0 w0 Send (post_logs q0 (repeat Send n)) w
  | 1%nat => rs = repeat 0 m /\ logged_at qp q0 w0 Recv (post_logs q0 (repeat Recv m)) w
  | _ => True
  end.

#[global] Instance relies_preorder i : PreOrder (relies i).
Proof. destruct i as [|[|i]]; simpl; [apply _..|]. by split. Qed.

Lemma guarantees_relies i j w w' : i <> j -> guarantees i w w' -> relies j w w'.
Proof.
  destruct i as [|[|i]], j as [|[|j]]; simpl; try done; intros _ H; by rewrite H.
Qed.

Lemma relies_device i w : relies i w (device_run w).
Proof. destruct i as [|[|i]]; [by apply leaves_device..|done]. Qed.

Lemma logged_start x : logged_at qp q0 w0 x (Logs [] []) w0.
Proof.
  destruct (qw_db _ _ Hwf) as (d & Hd & _).
  destruct (rw_live _ _ _ _ _ (qw_sq _ _ Hwf)) as (b1 & Hb1 & _).
  destruct (rw_live _ _ _ _ _ (qw_rq _ _ Hwf)) as (b2 & Hb2 & _).
  pose proof (rw_head _ _ _ _ _ (qw_sq _ _ Hwf)). pose proof (rw_head _ _ _ _ _ (qw_rq _ _ Hwf)).
  destruct x; simpl; [exists b1, (be_at d 0 4)|exists b2, (be_at d 4 4)].
  - split; [split; [reflexivity|]|split; [intros k e Hk; done|done]].
    unfold view, sent_slot, slot. simpl. rewrite Hq0, Hb1, Hd, Z.add_0_r, Z.mod_small by done. reflexivity.
  - split; [split; [reflexivity|]|split; [intros k e Hk; done|done]].
    unfold view, recv_slot, slot. simpl. rewrite Hq0, Hb2, Hd, Z.add_0_r, Z.mod_small by done. reflexivity.
Qed.

Lemma pair_ok : pool_ok relies guarantees ends (sender_and_receiver, w0).
Proof.
  intros [|[|i]] p Hp; simpl in Hp; [injection Hp as <-|injection Hp as <-|done].
  - by apply (posts_logged qp q0 w0 Hq0 Hwf Hro Huar ctx Send n (Logs [] [])), logged_start.
  - by apply (posts_logged qp q0 w0 Hq0 Hwf Hro Huar ctx Recv m (Logs [] [])), logged_start.
Qed.

Lemma logs_sent l w :
  logged_at qp q0 w0 Send l w -> sent both_logs = sent l -> logged_at qp q0 w0 Send both_logs w.
Proof. simpl. by intros H ->. Qed.
Lemma logs_received l w :
  logged_at qp q0 w0 Recv l w -> received both_logs = received l -> logged_at qp q0 w0 Recv both_logs w.
Proof. simpl. by intros H ->. Qed.

Lemma pair_ends rs1 rs2 w : ends 0 rs1 w -> ends 1 rs2 w ->
  rs1 = repeat 0 n /\ rs2 = repeat 0 m /\ represents qp q0 both_logs w.
Proof.
  intros [-> H1] [-> H2]. split; [done|]. split; [done|].
  apply (both_represent qp q0 w0 Hq0 Hwf).
  - eapply logs_sent; [exact H1|]. unfold both_logs, post_logs. by rewrite foldl_app, sent_recvs.
  - eapply logs_received; [exact H2|]. unfold both_logs, post_logs. rewrite foldl_app.
    apply received_recvs. by rewrite received_sends.
Qed.
End Pair.

Lemma pair_can_finish `{P : Platform} {A} (ps : list (proc A)) w :
  length ps = 2%nat -> (forall c, rtc thread_step (ps, w) c -> ~ thread_faults c) ->
  exists a1 a2 w2, rtc thread_step (ps, w) ([PRet a1; PRet a2], w2).
Proof.
  intros Hl Hsafe. destruct (can_finish (ps, w) Hsafe) as ([ps2 w2] & H2 & Hf).
  pose proof (pool_steps_length _ _ (thread_steps_pool _ _ H2)) as Hl2. simpl in Hl2. rewrite Hl in Hl2.
  destruct ps2 as [|p1 [|p2 [|]]]; try done.
  destruct (Hf 0%nat p1 eq_refl) as [a1 ->], (Hf 1%nat p2 eq_refl) as [a2 ->]. by exists a1, a2, w2.
Qed.

(** C23. One sender and one receiver need no lock: if the device only reads the
    memory of the queue pair, then however the accesses of [n] sends and [m]
    receives on it interleave, with each other and with the device, none is
    undefined, both threads can be run to their ends at any moment and make only
    finitely many turns, and when both have ended all posts have succeeded and
    the queue pair represents the two logs, exactly as if the posts had been made
    one after the other. *)
Theorem sender_receiver_refine `{P : Platform} ctx qp q0 n m w ps w' :
  w_qp w !! qp = Some q0 -> qp_wf q0 (w_heap w) -> uar_ok q0 w ->
  (forall p, p ∈ [sq_buf q0; rq_buf q0; db_record q0] -> device_readonly p) ->
  rtc pool_step (sender_and_receiver ctx qp n m, w) (ps, w') ->
  ~ thread_faults (ps, w') /\
  Acc (flip turn) (ps, w') /\
  (exists rs1 rs2 w2, rtc thread_step (ps, w') ([PRet rs1; PRet rs2], w2)) /\
  forall rs1 rs2, ps = [PRet rs1; PRet rs2] ->
    rs1 = repeat 0 n /\ rs2 = repeat 0 m /\ represents qp q0 (both_logs q0 n m) w'.
Proof.
  intros Hq Hwf Hu Hro Hsteps.
  assert (Hsound : forall c, rtc pool_step (sender_and_receiver ctx qp n m, w) c ->
    ~ thread_faults c /\ forall i rs, c.1 !! i = Some (PRet rs) -> ends qp q0 n m w i rs c.2).
  { intros c Hc. exact (pool_sound (relies qp q0) (guarantees qp q0) (ends qp q0 n m w)
      (guarantees_relies qp q0) (relies_device qp q0 Hro)
      _ _ (pair_ok ctx qp q0 n m w Hq Hwf Hu Hro) Hc). }
  destruct (Hsound _ Hsteps) as [Hf Hr].
  split; [done|]. split; [apply turns_end|]. split.
  - apply pair_can_finish.
    + exact (pool_steps_length _ _ Hsteps).
    + intros c Hc. apply Hsound. by etrans; [|apply thread_steps_pool].
  - intros rs1 rs2 ->.
    apply (pair_ends qp q0 n m w); [done|done|by apply (Hr 0%nat)|by apply (Hr 1%nat)].
Qed.

(** A send and a receive on the simulated card, access by access in turn. *)
Definition pair_start : pool (list Z) :=
  (@sender_and_receiver (sim_platform 1 2) 100 500 1 1, sim_qp_world (sim_fw 0 [])).
Definition pair_end : pool (list Z) :=
  scheduled (concat (repeat [0%nat; 1%nat] 10) ++ repeat 0%nat 5) pair_start.

Lemma pair_end_done : pair_end.1 = [PRet [0]; PRet [0]].
Proof. apply (results_ret pair_end.1 [[0]; [0]]). vm_compute. reflexivity. Qed.

Lemma sender_receiver_refine_witness :
  ~ thread_faults pair_end /\ [0] = repeat 0 1 /\ [0] = repeat 0 1 /\
  represents 500 sim_qp (both_logs sim_qp 1 1) pair_end.2.
Proof.
  destruct (@sender_receiver_refine (sim_platform 1 2) 100 500 sim_qp 1 1 (sim_qp_world (sim_fw 0 []))
    pair_end.1 pair_end.2) as (Hf & _ & _ & Hr).
  - done.
  - apply sim_qp_wf.
  - apply sim_uar_ok.
  - intros p. rewrite !elem_of_cons. intros [->|[->|[->|[]%not_elem_of_nil]]]; by apply sim_readonly.
  - rewrite <- (surjective_pairing pair_end). apply scheduled_steps. vm_compute. reflexivity.
  - rewrite <- (surjective_pairing pair_end) in Hf. split; [exact Hf|]. apply Hr, pair_end_done.
Defined.
