(* ===== verification/Types.v ===== *)
(** * Machine types

    The model computes with [Z] and writes out the wrap-around of each C
    operation.  [world_typed] says that every integer member of every struct fits
    its C type; [has_type m Phi] is a semantic typing judgement: [m] keeps a world
    well-typed, and its result, if it completes, satisfies [Phi].  The judgement
    is derived for the driver's functions by walking over them ([solve_typed]);
    pointers are abstract and carry no type. *)

From S2P Require Import Prelude Bytes Registers IbVerbs World Wp Cmd CmdSpec CmdInit Qp QpSpec Mr Verbs Sim CmdTheorems VerbsTheorems Keep Session.

(** [uintN_t] and [int]. *)
Definition uint (n x : Z) : Prop := 0 <= x < 2 ^ n.
Definition sint32 (x : Z) : Prop := - 2 ^ 31 <= x < 2 ^ 31.

(** The values of a struct type whose members fit. *)
Class CType (T : Type) := ctype : T -> Prop.

#[export] Instance ctype_ctx : CType mlx5_cmd_context := fun c =>
  uint 32 (bar0_size c) /\ uint 64 (cmd_ring_dma c) /\ uint 32 (num_entries c) /\
  uint 32 (entry_stride c) /\ uint 64 (mbox_dma_base c) /\ uint 32 (num_mailboxes c) /\
  uint 8 (next_token c) /\ uint 32 (total_commands c) /\ uint 32 (failed_commands c).

#[export] Instance ctype_ibdev : CType ib_device := fun d => uint 64 (dev_node_guid d).

#[export] Instance ctype_mdev : CType mlx5_ib_dev := fun d =>
  uint 32 (mdev_max_qp d) /\ uint 32 (mdev_max_cq d) /\ uint 32 (mdev_max_mr d) /\
  uint 32 (mdev_max_pd d) /\ uint 32 (mdev_num_ports d) /\ uint 64 (mdev_node_guid d).

#[export] Instance ctype_pd : CType ib_pd := fun p =>
  uint 32 (pd_local_dma_lkey p) /\ uint 32 (pd_flags p) /\ uint 32 (pd_res p).

#[export] Instance ctype_cq : CType ib_cq := fun q => sint32 (cq_cqe q).

#[export] Instance ctype_qp : CType mlx5_ib_qp := fun q =>
  (uint 32 (qp_qp_num (ibqp q)) /\ uint 32 (qp_max_inline_data (ibqp q))) /\
  uint 32 (qpn q) /\
  (uint 64 (sq_dma q) /\ uint 32 (sq_wqe_cnt q) /\ uint 32 (sq_wqe_shift q) /\ uint 32 (sq_head q)) /\
  (uint 64 (rq_dma q) /\ uint 32 (rq_wqe_cnt q) /\ uint 32 (rq_wqe_shift q) /\ uint 32 (rq_head q)) /\
  uint 64 (db_dma q) /\ uint 32 (send_cqn q) /\ uint 32 (recv_cqn q) /\ uint 32 (pdn q).

#[export] Instance ctype_mr : CType mlx5_ib_mr := fun m =>
  (uint 32 (mr_lkey (ibmr m)) /\ uint 32 (mr_rkey (ibmr m)) /\ uint 64 (mr_iova (ibmr m)) /\
   uint 64 (mr_length (ibmr m))) /\
  uint 32 (mkey m) /\ uint 32 (mtt_level m) /\ uint 32 (npages m).

Section Types.
Context `{P : Platform}.

Abbreviation all_typed := (map_Forall (fun _ => ctype)).

Record world_typed (w : world) : Prop := {
  t_ctx : all_typed (w_ctx w);
  t_ibdev : all_typed (w_ibdev w);
  t_mdev : all_typed (w_mdev w);
  t_pd : all_typed (w_pd w);
  t_cq : all_typed (w_cq w);
  t_qp : all_typed (w_qp w);
  t_mr : all_typed (w_mr w);
  t_blk : map_Forall (fun _ b => uint 64 (blk_dma b)) (w_heap w)
}.

(** A store of structs in a typed world. *)
Class TypedCell (T : Type) `{!Cell T, !CType T} : Prop := {
  cell_typed : forall w, world_typed w -> all_typed (cell_get w);
  cell_put_typed : forall m w, world_typed w -> all_typed m -> world_typed (cell_put m w)
}.

Ltac typed_cell := split; [by intros w []|by intros m w [] ?; split].
#[global] Instance typed_cell_ctx : TypedCell mlx5_cmd_context. Proof. typed_cell. Qed.
#[global] Instance typed_cell_ibdev : TypedCell ib_device. Proof. typed_cell. Qed.
#[global] Instance typed_cell_mdev : TypedCell mlx5_ib_dev. Proof. typed_cell. Qed.
#[global] Instance typed_cell_pd : TypedCell ib_pd. Proof. typed_cell. Qed.
#[global] Instance typed_cell_cq : TypedCell ib_cq. Proof. typed_cell. Qed.
#[global] Instance typed_cell_qp : TypedCell mlx5_ib_qp. Proof. typed_cell. Qed.
#[global] Instance typed_cell_mr : TypedCell mlx5_ib_mr. Proof. typed_cell. Qed.

(** ** The judgement *)

Definition has_type {A} (m : M A) (Phi : A -> Prop) : Prop :=
  forall w, world_typed w ->
    match m w with Done a w' => world_typed w' /\ Phi a | Fault _ => True end.

Lemma ty_ret {A} (a : A) (Phi : A -> Prop) : Phi a -> has_type (mret a) Phi.
Proof. by intros H w Hw. Qed.

Lemma ty_bind {A B} (m : M A) (k : A -> M B) Phi Psi :
  has_type m Phi -> (forall a, Phi a -> has_type (k a) Psi) -> has_type (m ≫= k) Psi.
Proof.
  intros Hm Hk w Hw. specialize (Hm w Hw). cbv [mbind M_bind].
  destruct (m w) as [a w1|]; [|done]. destruct Hm as [Hw1 Ha]. by apply (Hk a Ha w1).
Qed.

Lemma ty_mono {A} (m : M A) (Phi Psi : A -> Prop) :
  has_type m Phi -> (forall a, Phi a -> Psi a) -> has_type m Psi.
Proof.
  intros Hm H w Hw. specialize (Hm w Hw). destruct (m w); [|done].
  destruct Hm. split; [done|by apply H].
Qed.

Definition any {A} (a : A) : Prop := True.

(** ** Primitives *)

Lemma ty_deref {T} `{!Cell T, !CType T, !TypedCell T} p : has_type (deref (T := T) p) ctype.
Proof.
  intros w Hw. unfold deref. destruct (cell_get w !! p) as [x|] eqn:Hx; [|done].
  split; [done|]. by eapply (cell_typed w Hw).
Qed.

Lemma ty_modify {T} `{!Cell T, !CType T, !TypedCell T} p (f : T -> T) :
  (forall x, ctype x -> ctype (f x)) -> has_type (modify p f) any.
Proof.
  intros Hf w Hw. unfold modify. destruct (cell_get w !! p) as [x|] eqn:Hx; [|done].
  split; [|done]. apply cell_put_typed; [done|]. pose proof (cell_typed w Hw) as Ht.
  apply map_Forall_insert_2; [|done]. apply Hf. by eapply Ht.
Qed.

Lemma ty_assign {T} `{!Cell T, !CType T, !TypedCell T} p (x : T) :
  ctype x -> has_type (assign p x) any.
Proof.
  intros Hx w Hw. unfold assign. destruct (cell_get w !! p); [|done]. split; [|done].
  apply cell_put_typed; [done|]. apply map_Forall_insert_2; [done|]. by apply cell_typed.
Qed.

Lemma ty_malloc {T} `{!Cell T, !CType T, !TypedCell T} size (x : T) :
  ctype x -> has_type (IOMalloc size x) any.
Proof.
  intros Hx w Hw. unfold IOMalloc. destruct (p_malloc _ _) as [s []].
  - split; [|done]. assert (Hw1 : world_typed (put_next (w_next w + 1) (put_ps s w))) by (by destruct Hw).
    apply cell_put_typed; [done|]. apply map_Forall_insert_2; [done|]. by apply cell_typed.
  - split; [by destruct Hw|done].
Qed.

Lemma typed_io t w w' : io_frame t w w' -> world_typed w -> world_typed w'.
Proof.
  intros (s & h & -> & Hs) []. split; try done. simpl. intros p b Hb.
  destruct (heap_shape_lookup _ _ _ _ Hs Hb) as (b' & Hb' & E). injection E as _ E _.
  rewrite <- E. by eapply t_blk0.
Qed.

(** An action that only does input/output. *)
Lemma ty_io {A} (m : M A) (Phi : A -> Prop) :
  (forall w, match m w with
             | Done a w' => (exists t, io_frame t w w') /\ Phi a | Fault _ => True end) ->
  has_type m Phi.
Proof.
  intros H w Hw. specialize (H w). destruct (m w); [|done].
  destruct H as [[t F] Ha]. split; [by eapply typed_io|done].
Qed.

Lemma io_ps (s : PS) w : exists t, io_frame t w (put_ps s w).
Proof. exists [], s, (w_heap w). by destruct w. Qed.
Lemma io_ps_event (s : PS) e w : exists t, io_frame t w (put_trace (e :: w_trace w) (put_ps s w)).
Proof. exists [e], s, (w_heap w). by destruct w. Qed.
Lemma io_same w : exists t, io_frame t w w.
Proof. exists []. apply io_frame_refl. Qed.
#[local] Hint Resolve io_ps io_ps_event io_same : core.

Lemma ty_emit e : has_type (emit e) any.
Proof. apply ty_io. intros w. split; [|done]. eexists. apply io_frame_emit. Qed.
Lemma ty_run_device : has_type run_device any.
Proof. apply ty_io. intros w. split; [|done]. eexists. apply io_frame_device_run. Qed.
Lemma ty_sleep ms : has_type (IOSleep ms) any.
Proof. eapply ty_bind; [apply ty_emit|]. intros _ _. apply ty_run_device. Qed.
Lemma ty_fail {A} f (Phi : A -> Prop) : has_type (@fail P A f) Phi.
Proof. done. Qed.
Lemma ty_mem_update p o k bs f :
  (forall b, buf_size (f b) = buf_size b) -> has_type (mem_update p o k bs f) any.
Proof.
  intros Hf. apply ty_io. intros w. unfold mem_update.
  destruct (live_buf _ _); [|done]. destruct (in_bounds _ _ _); [|done]. split; [|done].
  exists [EvStore p o bs], (w_ps w), (upd_buf p f (w_heap w)).
  split; [by destruct w|by apply heap_shape_upd].
Qed.
Lemma ty_mem_copy_in p o src so k : has_type (mem_copy_in p o src so k) any.
Proof. unfold mem_copy_in. destruct (in_bounds _ _ _); [by apply ty_mem_update|apply ty_fail]. Qed.
Lemma ty_mem_peek p o k : has_type (mem_peek p o k) any.
Proof.
  apply ty_io. intros w. unfold mem_peek. destruct (live_buf _ _); [|done].
  by destruct (in_bounds _ _ _).
Qed.
Lemma ty_mem_get p o k : has_type (mem_get p o k) any.
Proof. eapply ty_bind; [apply ty_run_device|]. intros _ _. apply ty_mem_peek. Qed.

(** [n] bytes. *)
Definition bytes_of (n : nat) (l : list Z) : Prop := Forall is_byte l /\ length l = n.

Lemma buf_bytes_of b o k : bytes_of k (buf_bytes b o k).
Proof. split; [apply buf_bytes_bytes|apply length_buf_bytes]. Qed.

Lemma ty_mem_load p o k : has_type (mem_load p o k) (bytes_of k).
Proof. eapply ty_bind; [apply ty_mem_get|]. intros b _. apply ty_ret, buf_bytes_of. Qed.
Lemma ty_arr_load b o k : has_type (arr_load b o k) (bytes_of k).
Proof.
  apply ty_io. intros w. unfold arr_load. destruct (in_bounds _ _ _); [|done].
  split; [done|apply buf_bytes_of].
Qed.
Lemma ty_arr_store b o bs : has_type (arr_store b o bs) any.
Proof. apply ty_io. intros w. unfold arr_store. by destruct (in_bounds _ _ _). Qed.
Lemma ty_md_bytes p : has_type (md_getBytesNoCopy p) any.
Proof. apply ty_io. intros w. unfold md_getBytesNoCopy. by destruct (live_buf _ _). Qed.
Lemma ty_md_phys p : has_type (md_getPhysicalAddress p) (uint 64).
Proof.
  intros w Hw. unfold md_getPhysicalAddress. destruct (w_heap w !! p) as [b|] eqn:Hb; [|done].
  destruct (0 <? _); [|done]. split; [done|]. by eapply (t_blk w Hw).
Qed.
Lemma ty_md_alloc size : has_type (md_alloc size) any.
Proof.
  intros w Hw. unfold md_alloc. destruct (p_alloc _ _) as [s [[dma contents]|]].
  - split; [|done]. destruct Hw. split; try done. simpl.
    apply map_Forall_insert_2; [apply u64_range|done].
  - split; [by destruct Hw|done].
Qed.
Lemma ty_md_release p : has_type (md_release p) any.
Proof.
  intros w Hw. unfold md_release. destruct (w_heap w !! p) as [b|] eqn:Hb; [|done].
  destruct (0 <? _); [|done]. split; [|done]. pose proof (t_blk w Hw _ _ Hb).
  destruct Hw. split; try done. simpl. by apply map_Forall_insert_2.
Qed.
Lemma ty_obj_release p : has_type (obj_release p) any.
Proof.
  intros w Hw. unfold obj_release. destruct (_ !! _); [|done]. destruct (0 <? _); [|done].
  split; [by destruct Hw|done].
Qed.
Lemma ty_dma_new size : has_type (IODMACommand_withSpecification size) any.
Proof.
  intros w Hw. unfold IODMACommand_withSpecification.
  destruct (p_dma_withSpecification _ _) as [s []]; (split; [by destruct Hw|done]).
Qed.
Lemma ty_dma_set a b : has_type (IODMACommand_setMemoryDescriptor a b) any.
Proof.
  apply ty_io. intros w. unfold IODMACommand_setMemoryDescriptor.
  by destruct (p_dma_setMemoryDescriptor _ _).
Qed.
Lemma ty_dma_gen a b :
  has_type (IODMACommand_gen64IOVMSegments a b) (fun '(_, k, addr) => uint 64 k /\ uint 64 addr).
Proof.
  apply ty_io. intros w. unfold IODMACommand_gen64IOVMSegments.
  destruct (p_dma_gen64IOVMSegments _ _) as [s [[r k] addr]].
  split; [done|]. split; apply u64_range.
Qed.
Lemma ty_mmio_read32 a : has_type (mmio_read32 a) (uint 32).
Proof.
  apply ty_io. intros w. unfold mmio_read32. destruct (mmio_mapped _ _ _); [|done].
  destruct (p_mmio_read _ _). split; [done|apply u32_range].
Qed.
Lemma ty_mmio_write k a v : has_type (mmio_write k a v) any.
Proof. apply ty_io. intros w. unfold mmio_write. by destruct (mmio_mapped _ _ _). Qed.
Lemma ty_shl_u32 x k : has_type (shl_u32 x k) (uint 32).
Proof.
  apply ty_io. intros w. unfold shl_u32. destruct (_ && _); [|done]. split; [done|apply u32_range].
Qed.
Lemma ty_shl_int1 k : has_type (shl_int1 k) any.
Proof. apply ty_io. intros w. unfold shl_int1. by destruct (_ && _). Qed.
Lemma ty_mwhen c m : has_type m any -> has_type (mwhen c m) any.
Proof. destruct c; [done|]. intros _. by apply ty_ret. Qed.
Lemma ty_for_range k i body :
  (forall j, has_type (body j) any) -> has_type (for_range k i body) any.
Proof.
  intros H. revert i; induction k; intros; [by apply ty_ret|].
  eapply ty_bind; [apply H|]. intros _ _. apply IHk.
Qed.
End Types.

(** ** Automation *)

Lemma uint_u8 x : uint 8 (u8 x). Proof. apply u8_range. Qed.
Lemma uint_u32 x : uint 32 (u32 x). Proof. apply u32_range. Qed.
Lemma uint_u64 x : uint 64 (u64 x). Proof. apply u64_range. Qed.
Lemma sint_i32 x : sint32 (i32 x).
Proof. unfold sint32, i32. pose proof (Z.mod_pos_bound (x + 2 ^ 31) (2 ^ 32)). lia. Qed.
Lemma uint_swap32 x : uint 32 (OSSwapInt32 x). Proof. apply (bswap_range 4). Qed.
Lemma uint_swap64 x : uint 64 (OSSwapInt64 x). Proof. apply (bswap_range 8). Qed.
Lemma uint_land n x y : 0 <= n -> uint n x -> uint n (Z.land x y).
Proof.
  unfold uint. intros Hn Hx.
  assert (E : Z.land x y = Z.land x y mod 2 ^ n).
  { rewrite <- Z.land_ones, <- Z.land_assoc, (Z.land_comm y), Z.land_assoc, Z.land_ones by done.
    by rewrite Z.mod_small. }
  rewrite E. apply Z.mod_pos_bound. lia.
Qed.
Lemma uint_bytes k l : bytes_of k l -> uint (8 * Z.of_nat k) (le_combine l).
Proof.
  intros [Hl <-]. unfold uint. rewrite Z.pow_mul_r by lia. by apply le_combine_range.
Qed.
Lemma uint_const n x : (0 <=? x) && (x <? 2 ^ n) = true -> uint n x.
Proof. intros [H1%Z.leb_le H2%Z.ltb_lt]%andb_prop. by split. Qed.
Lemma uint_pas_npages x : uint 32 (pas_npages x).
Proof. pose proof (pas_npages_range x). unfold uint. lia. Qed.

Create HintDb types.
#[export] Hint Resolve uint_u8 uint_u32 uint_u64 sint_i32 uint_swap32 uint_swap64 uint_land
  uint_pas_npages : types.
#[export] Hint Extern 1 (0 <= _) => lia : types.
#[export] Hint Extern 1 (uint _ _) => apply uint_const; reflexivity : types.
#[export] Hint Extern 1 (sint32 _) => split; vm_compute; congruence : types.
#[export] Hint Resolve ty_deref ty_emit ty_run_device ty_sleep ty_fail ty_mem_peek ty_mem_get
  ty_mem_load ty_mem_copy_in ty_arr_load ty_arr_store ty_md_bytes ty_md_phys ty_md_alloc
  ty_md_release ty_obj_release ty_dma_new ty_dma_set ty_dma_gen ty_mmio_read32 ty_mmio_write
  ty_shl_u32 ty_shl_int1 : types.

(** The members of a struct, each against its type. *)
Ltac solve_ctype :=
  intros; cbv [ctype ctype_ctx ctype_ibdev ctype_mdev ctype_pd ctype_cq ctype_qp ctype_mr] in *;
  destruct_and?; split_and?; simpl; eauto with types.

Ltac ty_step :=
  lazymatch goal with
  | |- forall _, _ => intro
  | |- has_type (mbind _ _) _ =>
      first [ eapply ty_bind; [first [apply ty_deref|solve [eauto with types]]|]
            | apply (ty_bind _ _ any) ]
  | |- has_type (mret _) _ => apply ty_ret; try solve [exact I|repeat case_match; eauto with types]
  | |- has_type (deref _) _ => apply ty_deref
  | |- has_type (IOLog _ _) _ => apply ty_emit
  | |- has_type OSSynchronizeIO _ => apply ty_emit
  | |- has_type (mem_store _ _ _) _ => by apply ty_mem_update
  | |- has_type (mem_fill _ _ _ _) _ => by apply ty_mem_update
  | |- has_type (modify _ _) _ => apply ty_modify; solve [solve_ctype]
  | |- has_type (assign _ _) _ => apply ty_assign; solve [solve_ctype]
  | |- has_type (IOMalloc _ _) _ => apply ty_malloc; solve [solve_ctype]
  | |- has_type (mwhen _ _) _ => apply ty_mwhen
  | |- has_type (for_range _ _ _) _ => apply ty_for_range
  | |- has_type (let '_ := ?x in _) _ => destruct x
  | |- has_type (if ?b then _ else _) _ => destruct b
  | |- has_type (match ?x with _ => _ end) _ => destruct x
  | |- has_type _ _ => first [solve [eauto with types] | progress cbv zeta]
  end.
Ltac solve_typed := repeat ty_step.

(** ** The driver's functions *)

Section Functions.
Context `{P : Platform}.

Lemma ty_ld8 p o : has_type (ld8 p o) (uint 8).
Proof. eapply ty_bind; [apply ty_mem_load|]. intros l Hl. apply ty_ret. by apply (uint_bytes 1). Qed.
Lemma ty_ld32 p o : has_type (ld32 p o) (uint 32).
Proof. eapply ty_bind; [apply ty_mem_load|]. intros l Hl. apply ty_ret. by apply (uint_bytes 4). Qed.
Lemma ty_iseg_read32 s o : has_type (iseg_read32 s o) (uint 32).
Proof. eapply ty_bind; [apply ty_mmio_read32|]. intros v _. apply ty_ret, uint_swap32. Qed.
#[local] Hint Resolve ty_ld8 ty_ld32 ty_iseg_read32 : types.

Lemma ty_take_token ctx : has_type (cmd_take_token ctx) any.
Proof. unfold cmd_take_token. solve_typed. Qed.

Lemma ty_submit c slot token opcode op_mod in_data in_len out_len :
  has_type (cmd_submit c slot token opcode op_mod in_data in_len out_len) any.
Proof.
  unfold cmd_submit, st8, st16, st32, st64, iseg_write32, mmio_write32. cbv zeta. solve_typed.
Qed.

Lemma ty_poll k ring entry : has_type (cmd_poll k ring entry) any.
Proof. induction k as [|k IH]; simpl; solve_typed. Qed.

Lemma ty_finish ctx c slot opcode d out out_len status :
  has_type (cmd_finish ctx c slot opcode d out out_len status) any.
Proof.
  unfold cmd_finish, cmd_read_response, copy_out, count_total, count_failed.
  cbv zeta. solve_typed.
Qed.
#[local] Hint Resolve ty_take_token ty_submit ty_poll ty_finish : types.

Lemma ty_exec ctx opcode op_mod in_data in_len out out_len status :
  has_type (mlx5_cmd_exec ctx opcode op_mod in_data in_len out out_len status) any.
Proof. unfold mlx5_cmd_exec. cbv zeta. solve_typed. Qed.
#[local] Hint Resolve ty_exec : types.

Lemma ty_to_mdev d : has_type (to_mdev d) ctype.
Proof. unfold to_mdev. solve_typed. Qed.
Lemma ty_md_clear md size : has_type (md_clear md size) any.
Proof. unfold md_clear. solve_typed. Qed.
Lemma ty_iseg_write32 s o v : has_type (iseg_write32 s o v) any.
Proof. unfold iseg_write32, mmio_write32. solve_typed. Qed.
#[local] Hint Resolve ty_to_mdev ty_md_clear ty_iseg_write32 : types.

Lemma ty_cmd_init ctx bar0 size : uint 32 size -> has_type (mlx5_cmd_init ctx bar0 size) any.
Proof.
  intros Hs. unfold mlx5_cmd_init, cmd_init_params, cmd_init_ring, cmd_init_entries,
    cmd_init_register, cmd_init_mbox, cmd_map_mbox, cmd_init_doorbells,
    IODMACommand_clearMemoryDescriptor, st8, st32.
  solve_typed.
Qed.
Lemma ty_cleanup ctx : has_type (mlx5_cmd_cleanup ctx) any.
Proof. unfold mlx5_cmd_cleanup. solve_typed. Qed.

Lemma ty_alloc_pd pd udata : has_type (mlx5_ib_alloc_pd pd udata) sint32.
Proof. unfold mlx5_ib_alloc_pd. solve_typed. Qed.
Lemma ty_dealloc_pd pd udata : has_type (mlx5_ib_dealloc_pd pd udata) sint32.
Proof. unfold mlx5_ib_dealloc_pd. solve_typed. Qed.
Lemma ty_create_cq cq attr udata : has_type (mlx5_ib_create_cq cq attr udata) sint32.
Proof. unfold mlx5_ib_create_cq, cq_input. solve_typed. Qed.
Lemma ty_destroy_cq cq udata : has_type (mlx5_ib_destroy_cq cq udata) sint32.
Proof. unfold mlx5_ib_destroy_cq. solve_typed. Qed.
Lemma ty_dereg_mr mr udata : has_type (mlx5_ib_dereg_mr mr udata) sint32.
Proof. unfold mlx5_ib_dereg_mr, dereg_input. solve_typed. Qed.
Lemma ty_query_device d attr uhw : has_type (mlx5_ib_query_device d attr uhw) (fun r => sint32 r.1).
Proof. unfold mlx5_ib_query_device. solve_typed. Qed.

Lemma ty_build_pas base len :
  has_type (build_pas_list base len) (fun '(_, k, _) => uint 32 k).
Proof. unfold build_pas_list, st64. solve_typed. Qed.
#[local] Hint Resolve ty_build_pas : types.

Lemma ty_reg_mr pd start len va flags ctx :
  uint 64 len -> uint 64 va -> has_type (mlx5_ib_reg_user_mr_full pd start len va flags ctx) any.
Proof.
  intros Hl Hv. unfold mlx5_ib_reg_user_mr_full, mkc_input, fill_mr. solve_typed.
Qed.

Lemma ty_modify_qp qp mask attr ctx : has_type (mlx5_ib_modify_qp_full qp mask attr ctx) sint32.
Proof. unfold mlx5_ib_modify_qp_full, qpc_state, arr_or8. solve_typed. Qed.
Lemma ty_destroy_qp qp ctx : has_type (mlx5_ib_destroy_qp_full qp ctx) sint32.
Proof. unfold mlx5_ib_destroy_qp_full. solve_typed. Qed.
Lemma ty_post_send qp wr bad : has_type (mlx5_ib_post_send_full qp wr bad) sint32.
Proof. unfold mlx5_ib_post_send_full, st32, mmio_write64. solve_typed. Qed.
Lemma ty_post_recv qp wr bad : has_type (mlx5_ib_post_recv_full qp wr bad) sint32.
Proof. unfold mlx5_ib_post_recv_full, st32, st64. solve_typed. Qed.

Lemma ty_alloc_qp qp a b c d :
  uint 32 a -> uint 32 b -> uint 32 c -> uint 32 d -> has_type (alloc_qp_resources qp a b c d) any.
Proof. intros. unfold alloc_qp_resources. solve_typed. Qed.
#[local] Hint Resolve ty_alloc_qp : types.

Lemma ty_create_qp qp init ctx : has_type (mlx5_ib_create_qp_full qp init ctx) sint32.
Proof.
  unfold mlx5_ib_create_qp_full, create_command, qpc_sizes, qpc_addresses, arr_or8. solve_typed.
Qed.
End Functions.

(** ** Theorem *)

Definition call_typed (c : vcall) : Prop :=
  match c with RegMr _ _ length virt_addr _ => uint 64 length /\ uint 64 virt_addr | _ => True end.

(** A registration returns a pointer, the other calls an [int]. *)
Definition ret_typed (c : vcall) (r : Z) : Prop :=
  match c with RegMr _ _ _ _ _ => True | _ => sint32 r end.

Lemma ty_call `{P : Platform} ctx c : call_typed c -> has_type (run_call ctx c) (ret_typed c).
Proof.
  intros Hc. destruct c; cbn [run_call ret_typed call_typed] in *.
  - apply ty_alloc_pd.
  - apply ty_dealloc_pd.
  - apply ty_create_cq.
  - apply ty_destroy_cq.
  - apply ty_create_qp.
  - apply ty_modify_qp.
  - apply ty_post_send.
  - apply ty_post_recv.
  - apply ty_destroy_qp.
  - destruct Hc. by apply ty_reg_mr.
  - apply ty_dereg_mr.
  - eapply ty_bind; [apply ty_query_device|]. intros r Hr. by apply ty_ret.
Qed.


Lemma demo_typed : world_typed demo_world.
Proof.
  unfold demo_world, sim_world, sim_world_on. split; wproj.
  8: do 2 (apply map_Forall_insert_2; [apply uint_const; reflexivity|]); apply map_Forall_empty.
  7: apply map_Forall_empty.
  all: apply map_Forall_insert_2; [solve_ctype|apply map_Forall_empty].
Qed.

