(* ===== verification/Printf.v ===== *)
(** * The text the user-space tools print

    The conversions of [printf] that the tools use ([%d], [%u], [%x] with a
    minimum width and leading zeros, [%p], [%s]), as functions into strings,
    and a reader for what the tools print in hexadecimal. *)

From S2P Require Import Prelude.
From stdpp Require Import pretty.

#[local] Open Scope string_scope.
Open Scope Z_scope.

(** The newline, and the quotation of a missing string. *)
Definition nl : string := String (Ascii.ascii_of_nat 10) EmptyString.

(** ** Conversions *)

Definition hex_digit (d : Z) : Ascii.ascii :=
  Ascii.ascii_of_nat (Z.to_nat (if d <? 10 then 48 + d else 87 + d)).

(** Exactly [n] digits, the most significant first. *)
Fixpoint hex_fixed (n : nat) (v : Z) : string :=
  match n with
  | O => EmptyString
  | S n' => hex_fixed n' (v / 16) +:+ String (hex_digit (v mod 16)) EmptyString
  end.

(** The number of digits a value needs. *)
Definition hex_width (v : Z) : nat := Z.to_nat (Z.log2 v / 4 + 1).

(** ["%0<w>x"] of an unsigned value. *)
Definition fmt_x (w : nat) (v : Z) : string := hex_fixed (Nat.max w (hex_width v)) v.

(** ["%d"], ["%u"] *)
Definition fmt_d (v : Z) : string := pretty v.

(** ["%p"] *)
Definition fmt_p (p : Z) : string := "0x" +:+ fmt_x 1 p.

(** ** The reader *)

Definition unhex_digit (c : Ascii.ascii) : option Z :=
  let n := Z.of_nat (Ascii.nat_of_ascii c) in
  if (48 <=? n) && (n <=? 57) then Some (n - 48)
  else if (97 <=? n) && (n <=? 102) then Some (n - 87)
  else None.

(** Separators between bytes: the newline and the colon. *)
Definition is_separator (c : Ascii.ascii) : bool :=
  let n := Ascii.nat_of_ascii c in (n =? 10)%nat || (n =? 58)%nat.

(** The bytes written in a text of two-digit groups. *)
Fixpoint unhex (s : string) : option (list Z) :=
  match s with
  | EmptyString => Some []
  | String c s1 =>
      if is_separator c then unhex s1 else
      match s1 with
      | EmptyString => None
      | String d s2 =>
          a ← unhex_digit c; b ← unhex_digit d; l ← unhex s2; Some (16 * a + b :: l)
      end
  end.

Arguments hex_digit : simpl never.
Arguments unhex_digit : simpl never.
Arguments is_separator : simpl never.
Arguments fmt_x : simpl never.
Arguments fmt_d : simpl never.
Arguments fmt_p : simpl never.

(** ** Lemmas *)

Lemma string_app_nil (s : string) : s +:+ EmptyString = s.
Proof. induction s as [|c s IH]; [done|]. exact (f_equal (String c) IH). Qed.

(** A property of hexadecimal digits, checked on the sixteen of them. *)
Lemma hex_digit_ind (P : Z -> Prop) : Forall P (seqZ 0 16) -> forall d, 0 <= d < 16 -> P d.
Proof. rewrite Forall_forall. intros H d Hd. apply H, elem_of_seqZ. lia. Qed.

Lemma unhex_hex_digit d : 0 <= d < 16 -> unhex_digit (hex_digit d) = Some d.
Proof. revert d. apply hex_digit_ind. by repeat constructor. Qed.

Lemma hex_digit_not_separator d : 0 <= d < 16 -> is_separator (hex_digit d) = false.
Proof. revert d. apply hex_digit_ind. by repeat constructor. Qed.

Lemma nibbles b : 0 <= b < 256 -> 0 <= b / 16 < 16 /\ 0 <= b mod 16 < 16.
Proof. intros. Z.to_euclidean_division_equations. lia. Qed.

(** The width of a byte printed with [%02x]. *)
Lemma fmt_x_byte b : 0 <= b < 256 ->
  fmt_x 2 b = String (hex_digit (b / 16)) (String (hex_digit (b mod 16)) EmptyString).
Proof.
  intros Hb. destruct (nibbles b Hb). unfold fmt_x, hex_width.
  replace (Nat.max 2 _) with 2%nat.
  - simpl. by rewrite (Z.mod_small (b / 16)) by lia.
  - assert (Z.log2 b < 8).
    { destruct (decide (b = 0)) as [->|]; [done|]. apply Z.log2_lt_pow2; lia. }
    pose proof (Z.log2_nonneg b). Z.to_euclidean_division_equations. lia.
Qed.

(** One byte read back. *)
Lemma unhex_byte b s : 0 <= b < 256 -> unhex (fmt_x 2 b +:+ s) = (cons b) <$> unhex s.
Proof.
  intros Hb. rewrite fmt_x_byte by done.
  destruct (nibbles b Hb).
  change (unhex (String (hex_digit (b `div` 16)) (String (hex_digit (b `mod` 16)) s)) = cons b <$> unhex s).
  cbn [unhex]. rewrite hex_digit_not_separator, !unhex_hex_digit by done.
  cbn. destruct (unhex s); [|done]. cbn. do 2 f_equal. Z.to_euclidean_division_equations. lia.
Qed.

Lemma unhex_separator c s :
  is_separator c = true -> unhex (String c s) = unhex s.
Proof. intros H. cbn. by rewrite H. Qed.

Lemma unhex_nl s : unhex (nl +:+ s) = unhex s.
Proof. done. Qed.

#[export] Hint Rewrite string_app_nil unhex_nl : vf.

Lemma string_app_assoc (a b c : string) : (a +:+ b) +:+ c = a +:+ (b +:+ c).
Proof. induction a as [|x a IH]; [done|]. exact (f_equal (String x) IH). Qed.

Lemma unhex_cons2 c d s :
  is_separator c = false ->
  unhex (String c (String d s)) =
    (a ← unhex_digit c; b ← unhex_digit d; l ← unhex s; Some (16 * a + b :: l)).
Proof. intros H. cbn. by rewrite H. Qed.

Lemma fmap_app_nil (o : option (list Z)) : app [] <$> o = o.
Proof. by destruct o. Qed.

(** Texts that are read one after the other. *)
Lemma unhex_app s1 s2 l1 : unhex s1 = Some l1 -> unhex (s1 +:+ s2) = (app l1) <$> unhex s2.
Proof.
  remember (String.length s1) as n eqn:Hn. assert (String.length s1 <= n)%nat as Hle by lia.
  clear Hn. revert s1 l1 Hle. induction n as [|n IH]; intros s1 l1 Hle Hs.
  - destruct s1; [|simpl in Hle; lia]. injection Hs as <-. by rewrite fmap_app_nil.
  - destruct s1 as [|c s1]; [injection Hs as <-; by rewrite fmap_app_nil|].
    change (String c s1 +:+ s2) with (String c (s1 +:+ s2)). simpl in Hle.
    destruct (is_separator c) eqn:Hc.
    + rewrite unhex_separator in Hs |- * by done. apply IH; [lia|done].
    + destruct s1 as [|d s1]; [cbn in Hs; by rewrite Hc in Hs|].
      change (String d s1 +:+ s2) with (String d (s1 +:+ s2)). simpl in Hle.
      rewrite unhex_cons2 in Hs |- * by done.
      destruct (unhex_digit c) as [a|]; [|done]. destruct (unhex_digit d) as [b|]; [|done].
      cbn in Hs |- *. destruct (unhex s1) as [l|] eqn:E; [|done]. injection Hs as <-.
      rewrite (IH s1 l) by (done || lia). by destruct (unhex s2).
Qed.
