(* ===== verification/UserApi.v ===== *)
(** * The user-space programming interface of the tools

    The tools under [tools] are C programs over [libibverbs], the dynamic
    loader and the process's memory, none of which is in the repository.  A
    program is an interaction tree: its nodes are the calls it makes (the type
    [userE]), and each answer selects the rest of the program.

    - [userE]: the calls.  [Undefined] has no answer: it marks what the C
      standard leaves undefined, such as the use of an uninitialised variable.
    - [prog A]: the programs; [sys] makes a call, [load] reads a variable that
      may be uninitialised.
    - the classes [VerbsHeader] and [MachHeader]: the constants and layouts that
      the tools take from the system's headers.

    The state of the interface and the contracts of the calls are in [UserSpec],
    execution in [UserSim]. *)

From ITree Require Import ITree.
From S2P Require Import Prelude.
From S2P Require Import IbVerbs.
From S2P Require Import Printf.

Open Scope Z_scope.

(** ** Data of the interface *)

Inductive stream := Stdout | Stderr.

#[export] Instance stream_eq_dec : EqDecision stream.
Proof. solve_decision. Defined.

(** The argument of [dlsym]. *)
Inductive dl_handle := Handle (h : ptr) | RTLD_NEXT.

(** [Dl_info]; a name can be missing. *)
Record Dl_info := Mk_Dl_info {
  dli_fname : option string;
  dli_fbase : ptr;
  dli_sname : option string
}.

(** What [ibv_get_device_list] returns: the array, its contents and the number
    stored through its argument. *)
Record device_list := Mk_device_list {
  dl_addr : ptr;
  dl_devs : list ptr;
  dl_num : Z
}.

(** The members of the attribute structs that the tools use. *)
Record ibv_device_attr := Mk_ibv_device_attr {
  vendor_id : Z;
  vendor_part_id : Z;
  max_mr : Z;
  max_qp : Z;
  max_cq : Z;
  max_pd : Z;
  max_cqe : Z
}.

Definition zero_ibv_device_attr : ibv_device_attr :=
  Mk_ibv_device_attr 0 0 0 0 0 0 0.

Record ibv_port_attr := Mk_ibv_port_attr {
  port_state : Z;
  port_lid : Z;
  port_active_mtu : Z;
  port_gid_tbl_len : Z
}.

Definition zero_ibv_port_attr : ibv_port_attr := Mk_ibv_port_attr 0 0 0 0.

Record ibv_qp_init_attr := Mk_ibv_qp_init_attr {
  qia_send_cq : ptr;
  qia_recv_cq : ptr;
  qia_max_send_wr : Z;
  qia_max_recv_wr : Z;
  qia_max_send_sge : Z;
  qia_max_recv_sge : Z;
  qia_max_inline_data : Z;
  qia_qp_type : Z
}.

(** The arguments of [mach_msg_overwrite]. *)
Record mach_args := Mk_mach_args {
  ma_msg : ptr;
  ma_option : Z;
  ma_send_size : Z;
  ma_rcv_size : Z;
  ma_rcv_name : Z;
  ma_timeout : Z;
  ma_notify : Z
}.

(** The enumerators of [<infiniband/verbs.h>] that the tools name.  Two labels
    of one [switch] have different values, or the program does not compile. *)
Class VerbsHeader := {
  IBV_PORT_NOP : Z; IBV_PORT_DOWN : Z; IBV_PORT_INIT : Z; IBV_PORT_ARMED : Z;
  IBV_PORT_ACTIVE : Z; IBV_PORT_ACTIVE_DEFER : Z;
  IBV_MTU_256 : Z; IBV_MTU_512 : Z; IBV_MTU_1024 : Z; IBV_MTU_2048 : Z;
  IBV_MTU_4096 : Z;
  IBV_ACCESS_LOCAL_WRITE : Z; IBV_ACCESS_REMOTE_READ : Z;
  IBV_ACCESS_REMOTE_WRITE : Z;
  IBV_QPT_RC : Z;
  port_labels_distinct :
    NoDup [IBV_PORT_NOP; IBV_PORT_DOWN; IBV_PORT_INIT; IBV_PORT_ARMED;
           IBV_PORT_ACTIVE; IBV_PORT_ACTIVE_DEFER];
  mtu_labels_distinct :
    NoDup [IBV_MTU_256; IBV_MTU_512; IBV_MTU_1024; IBV_MTU_2048; IBV_MTU_4096]
}.

(** [<mach/message.h>]: the header struct and two flags. *)
Class MachHeader := {
  sizeof_mach_msg_header_t : Z;
  off_msgh_bits : Z; off_msgh_remote_port : Z; off_msgh_id : Z;
  MACH_MSGH_BITS_COMPLEX : Z; MACH_RCV_MSG : Z;
  header_fields : Forall (fun o => 0 <= o /\ o + 4 <= sizeof_mach_msg_header_t)
                    [off_msgh_bits; off_msgh_remote_port; off_msgh_id]
}.

(** ** The calls *)

Inductive userE : Type -> Type :=
  | Print (to : stream) (text : string) : userE unit
  | Undefined : userE Empty_set
  | Dlopen (path : string) (global : bool) : userE ptr
  | Dlerror : userE string
  | Dlsym (handle : dl_handle) (name : string) : userE ptr
  | Dladdr (addr : ptr) : userE (option Dl_info)
  | Peek (width : nat) (addr : ptr) : userE Z
  | Field (p : ptr) (name : string) : userE Z
  | Local_array (size align : Z) : userE ptr
  | Ibv_get_device_list : userE device_list
  | Ibv_free_device_list (l : ptr) : userE unit
  | Ibv_get_device_name (dev : ptr) : userE (option string)
  | Ibv_open_device (dev : ptr) : userE ptr
  | Ibv_close_device (ctx : ptr) : userE Z
  | Ibv_query_device (ctx : ptr) (before : option ibv_device_attr) :
      userE (Z * option ibv_device_attr)
  | Ibv_query_port (ctx : ptr) (port : Z) (before : option ibv_port_attr) :
      userE (Z * option ibv_port_attr)
  | Ibv_query_gid (ctx : ptr) (port index : Z) (before : option (list Z)) :
      userE (Z * option (list Z))
  | Ibv_alloc_pd (ctx : ptr) : userE ptr
  | Ibv_dealloc_pd (pd : ptr) : userE Z
  | Ibv_reg_mr (pd addr : ptr) (length access : Z) : userE ptr
  | Ibv_dereg_mr (mr : ptr) : userE Z
  | Ibv_create_cq (ctx : ptr) (cqe : Z) (cq_context channel : ptr) (comp_vector : Z) :
      userE ptr
  | Ibv_destroy_cq (cq : ptr) : userE Z
  | Ibv_create_qp (pd : ptr) (attr : ibv_qp_init_attr) : userE ptr
  | Ibv_destroy_qp (qp : ptr) : userE Z
  | Real_mach_msg_overwrite (fn : ptr) (args : mach_args) : userE Z.

(** A call and its answer. *)
Inductive call := Call (X : Type) (e : userE X) (x : X).
Arguments Call {X} e x.

(** A C function. *)
Definition prog : Type -> Type := itree userE.

#[export] Instance prog_ret : MRet prog := fun A x => Ret x.
#[export] Instance prog_bind : MBind prog := fun A B f m => ITree.bind m f.

Definition sys {X} (e : userE X) : prog X := ITree.trigger e.

Definition undefined {A} : prog A :=
  x ← sys Undefined; match x : Empty_set with end.

(** The value of a variable that may be uninitialised. *)
Definition load {A} (v : option A) : prog A :=
  match v with Some x => mret x | None => undefined end.

(** The character string behind ["%s"]: a null pointer is undefined behaviour. *)
Definition string_arg (v : option string) : prog string := load v.

Definition printf (text : string) : prog unit := sys (Print Stdout text).
Definition eprintf (text : string) : prog unit := sys (Print Stderr text).

(** [if (c) { ... }] without an [else]. *)
Definition when (c : bool) (m : prog unit) : prog unit := if c then m else mret ().

(** How the body of a loop ends. *)
Inductive flow := Next | Break.

(** A loop over the values its variable takes. *)
Fixpoint for_each {A} (xs : list A) (body : A -> prog flow) : prog unit :=
  match xs with
  | [] => mret ()
  | x :: xs' =>
      f ← body x;
      match f with Next => for_each xs' body | Break => mret () end
  end.

(** [a[i]] for the array of devices. *)
Definition device_at (l : device_list) (i : Z) : prog ptr :=
  if dl_addr l =? NULL then undefined else load (dl_devs l !! Z.to_nat i).
