(* ===== verification/UserSpec.v ===== *)
(** * What the user-space interface promises, and reasoning about its clients

    - [ustate]: the live objects with the objects they were made from, the loaded
      libraries, and the calls made so far with their answers.
    - [pre], [post]: what each call needs and what it may answer, as documented in
      the manual pages of [libibverbs] and [dlfcn].  The class [UserEnv] narrows
      the answers to those of one system and says which memory it maps.
    - [uwp Q t s]: from [s], whatever the answers, [t] makes no call whose
      precondition fails, ends, and ends in [Q]; with its rules.
    - [ustop F Q t s]: the same, except that [t] may reach such a call where [F]
      holds.
    - [mark]s: what a log says about the devices visited. *)

From ITree Require Import ITree Eq.Shallow.
From S2P Require Import Prelude.
From S2P Require Import Bytes.
From S2P Require Import IbVerbs.
From S2P Require Import Printf.
From S2P Require Import UserApi.

Open Scope list_scope.
Open Scope Z_scope.

(** ** State *)

(** A live object, with the objects it was made from. *)
Inductive obj :=
  | OList (devs : list ptr)
  | OCtx (dev : ptr)
  | OPd (ctx : ptr)
  | OMr (pd : ptr)
  | OCq (ctx : ptr)
  | OQp (pd send_cq recv_cq : ptr).

(** The objects that may not be destroyed before this one. *)
Definition parents (o : obj) : list ptr :=
  match o with
  | OList _ | OCtx _ => []
  | OPd c | OCq c => [c]
  | OMr p => [p]
  | OQp p s r => [p; s; r]
  end.

(** The members of an object that a program reads through its pointer. *)
Definition fields (o : obj) : list string :=
  match o with
  | OCtx _ =>
      ["cmd_fd"; "async_fd"; "ops.poll_cq"; "ops.post_send"; "ops.post_recv";
       "ops.req_notify_cq"; "ops._compat_alloc_pd"; "ops._compat_dealloc_pd";
       "ops._compat_reg_mr"; "ops._compat_dereg_mr"; "ops._compat_create_cq";
       "ops._compat_destroy_cq"; "ops._compat_create_qp"; "ops._compat_modify_qp";
       "ops._compat_destroy_qp"; "ops._compat_query_device";
       "ops._compat_query_port"; "&ops"]
  | OMr _ => ["lkey"; "rkey"]
  | OQp _ _ _ => ["qp_num"]
  | _ => []
  end%string.

Record ustate := Mk_ustate {
  live : gmap Z obj;
  libs : gset Z;
  calls : list call
}.

Definition start_state : ustate := Mk_ustate ∅ ∅ [].

(** The state after calls that only answer. *)
Definition logged (new : list call) (s : ustate) : ustate :=
  Mk_ustate (live s) (libs s) (calls s ++ new).

Definition set_live (m : gmap Z obj) (s : ustate) : ustate :=
  Mk_ustate m (libs s) (calls s).

(** A new object, or a null pointer and no change. *)
Definition created (p : ptr) (o : obj) (s s' : ustate) : Prop :=
  (p = NULL /\ s' = s) \/
  (p <> NULL /\ live s !! p = None /\ s' = set_live (<[p := o]> (live s)) s).

Definition destroyed (p : ptr) (s : ustate) : ustate := set_live (delete p (live s)) s.

Definition unused (p : ptr) (s : ustate) : Prop :=
  map_Forall (fun _ o => p ∉ parents o) (live s).

(** [d] is in a device list that has not been freed. *)
Definition listed (d : ptr) (s : ustate) : Prop :=
  exists l devs, live s !! l = Some (OList devs) /\ d ∈ devs.

Definition is_ctx (c : ptr) (s : ustate) : Prop := exists d, live s !! c = Some (OCtx d).
Definition is_pd (p : ptr) (s : ustate) : Prop := exists c, live s !! p = Some (OPd c).
Definition is_cq (q : ptr) (s : ustate) : Prop := exists c, live s !! q = Some (OCq c).

(** ** The contract *)

(** One system: the memory it maps and the answers it gives. *)
Class UserEnv := {
  readable : Z -> Prop;
  answers : forall X, userE X -> X -> Prop
}.

Section Contract.
Context `{Env : UserEnv}.

Definition pre {X} (e : userE X) (s : ustate) : Prop :=
  match e with
  | Undefined => False
  | Dlsym (Handle h) _ => h ∈ libs s
  | Peek w a => forall i, 0 <= i < Z.of_nat w -> readable (a + i)
  | Field p name => exists o, live s !! p = Some o /\ name ∈ fields o
  | Ibv_free_device_list l => exists devs, live s !! l = Some (OList devs)
  | Ibv_get_device_name d | Ibv_open_device d => listed d s
  | Ibv_query_device c _ | Ibv_query_port c _ _ | Ibv_query_gid c _ _ _
  | Ibv_alloc_pd c | Ibv_create_cq c _ _ _ _ => is_ctx c s
  | Ibv_close_device c => is_ctx c s /\ unused c s
  | Ibv_dealloc_pd p => is_pd p s /\ unused p s
  | Ibv_reg_mr p _ _ _ => is_pd p s
  | Ibv_dereg_mr m => (exists p, live s !! m = Some (OMr p)) /\ unused m s
  | Ibv_destroy_cq q => is_cq q s /\ unused q s
  | Ibv_create_qp p a => is_pd p s /\ is_cq (qia_send_cq a) s /\ is_cq (qia_recv_cq a) s
  | Ibv_destroy_qp q =>
      (exists p r t, live s !! q = Some (OQp p r t)) /\ unused q s
  | Real_mach_msg_overwrite fn _ => fn <> NULL
  | _ => True
  end.

(** A buffer that a query fills: it holds a value after a success, and keeps
    holding one when it did before. *)
Definition filled {A} (before : option A) (r : Z * option A) : Prop :=
  (r.1 = 0 -> is_Some r.2) /\ (is_Some before -> is_Some r.2).

(** The law of an answer, and the state after it (the log apart). *)
Definition law {X} (e : userE X) : X -> ustate -> ustate -> Prop :=
  match e in userE X return X -> ustate -> ustate -> Prop with
  | Dlopen _ _ => fun h s s' =>
      s' = if h =? NULL then s else Mk_ustate (live s) ({[h]} ∪ libs s) (calls s)
  | Peek w _ => fun v s s' => 0 <= v < 256 ^ Z.of_nat w /\ s' = s
  | Ibv_get_device_list => fun r s s' =>
      created (dl_addr r) (OList (dl_devs r)) s s' /\
      (dl_addr r <> NULL -> dl_num r = Z.of_nat (length (dl_devs r)))
  | Ibv_free_device_list l => fun _ s s' => s' = destroyed l s
  | Ibv_open_device d => fun c s s' => created c (OCtx d) s s'
  | Ibv_close_device c => fun _ s s' => s' = destroyed c s
  | Ibv_query_device _ b => fun r s s' => filled b r /\ s' = s
  | Ibv_query_port _ _ b => fun r s s' => filled b r /\ s' = s
  | Ibv_query_gid _ _ _ b => fun r s s' => filled b r /\
      (forall raw, r.2 = Some raw -> length raw = 16%nat /\ Forall is_byte raw) /\ s' = s
  | Ibv_alloc_pd c => fun p s s' => created p (OPd c) s s'
  | Ibv_dealloc_pd p => fun _ s s' => s' = destroyed p s
  | Ibv_reg_mr p _ _ _ => fun m s s' => created m (OMr p) s s'
  | Ibv_dereg_mr m => fun _ s s' => s' = destroyed m s
  | Ibv_create_cq c _ _ _ _ => fun q s s' => created q (OCq c) s s'
  | Ibv_destroy_cq q => fun _ s s' => s' = destroyed q s
  | Ibv_create_qp p a => fun q s s' =>
      created q (OQp p (qia_send_cq a) (qia_recv_cq a)) s s'
  | Ibv_destroy_qp q => fun _ s s' => s' = destroyed q s
  | _ => fun _ s s' => s' = s
  end.

Definition post {X} (e : userE X) (s : ustate) (x : X) (s' : ustate) : Prop :=
  answers X e x /\ law e x (logged [Call e x] s) s'.

(** ** Total correctness *)

Inductive uwp {R} (Q : R -> ustate -> Prop) (t : prog R) (s : ustate) : Prop :=
  | uwp_done r : observe t = RetF r -> Q r s -> uwp Q t s
  | uwp_tau u : observe t = TauF u -> uwp Q u s -> uwp Q t s
  | uwp_call X (e : userE X) k :
      observe t = VisF e k -> pre e s ->
      (forall x s', post e s x s' -> uwp Q (k x) s') -> uwp Q t s.

Lemma uwp_ret {R} (Q : R -> ustate -> Prop) r s : Q r s -> uwp Q (mret r) s.
Proof. by apply uwp_done. Qed.

Lemma uwp_sys {X} (Q : X -> ustate -> Prop) (e : userE X) s :
  pre e s -> (forall x s', post e s x s' -> Q x s') -> uwp Q (sys e) s.
Proof. intros Hp HQ. eapply uwp_call; [done|done|]. intros. by apply uwp_ret, HQ. Qed.

Lemma uwp_mono {R} (Q Q' : R -> ustate -> Prop) t s :
  uwp Q t s -> (forall r s', Q r s' -> Q' r s') -> uwp Q' t s.
Proof.
  intros H HQ. induction H.
  - eapply uwp_done; eauto.
  - eapply uwp_tau; eauto.
  - eapply uwp_call; eauto.
Qed.

Lemma uwp_bind {A B} (Q : B -> ustate -> Prop) (m : prog A) (k : A -> prog B) s :
  uwp (fun x s' => uwp Q (k x) s') m s -> uwp Q (m ≫= k) s.
Proof.
  unfold mbind, prog_bind. induction 1 as [t s r Ho H|t s u Ho _ IH|t s X e k' Ho Hp _ IH].
  - assert (observe (ITree.bind t k) = observe (k r)) as E
      by (rewrite observe_bind, Ho; done).
    destruct H; [eapply uwp_done|eapply uwp_tau|eapply uwp_call]; rewrite ?E; eauto.
  - eapply uwp_tau; [|apply IH]. by rewrite observe_bind, Ho.
  - eapply uwp_call; [by rewrite observe_bind, Ho|done|apply IH].
Qed.

(** ** Correctness up to an undefined call

    [ustop F Q t s]: from [s], whatever the answers, [t] ends in [Q], or reaches a
    call whose precondition fails, in a state that satisfies [F]. *)
Inductive ustop {R} (F : ustate -> Prop) (Q : R -> ustate -> Prop) (t : prog R) (s : ustate)
    : Prop :=
  | ustop_done r : observe t = RetF r -> Q r s -> ustop F Q t s
  | ustop_tau u : observe t = TauF u -> ustop F Q u s -> ustop F Q t s
  | ustop_call X (e : userE X) k :
      observe t = VisF e k -> pre e s ->
      (forall x s', post e s x s' -> ustop F Q (k x) s') -> ustop F Q t s
  | ustop_here X (e : userE X) k : observe t = VisF e k -> ~ pre e s -> F s -> ustop F Q t s.

Lemma ustop_uwp {R} F (Q : R -> ustate -> Prop) t s : uwp Q t s -> ustop F Q t s.
Proof.
  induction 1; [by eapply ustop_done|by eapply ustop_tau|by eapply ustop_call].
Qed.

Lemma ustop_never {R} (Q : R -> ustate -> Prop) t s : ustop (fun _ => False) Q t s -> uwp Q t s.
Proof.
  induction 1; [by eapply uwp_done|by eapply uwp_tau|by eapply uwp_call|done].
Qed.

Lemma ustop_ret {R} F (Q : R -> ustate -> Prop) r s : Q r s -> ustop F Q (mret r) s.
Proof. intros. by apply ustop_uwp, uwp_ret. Qed.

Lemma ustop_mono {R} (F F' : ustate -> Prop) (Q Q' : R -> ustate -> Prop) t s :
  ustop F Q t s -> (forall s', F s' -> F' s') -> (forall r s', Q r s' -> Q' r s') ->
  ustop F' Q' t s.
Proof.
  intros H HF HQ. induction H;
    [eapply ustop_done|eapply ustop_tau|eapply ustop_call|eapply ustop_here]; eauto.
Qed.

Lemma ustop_bind {A B} F (Q : B -> ustate -> Prop) (m : prog A) (k : A -> prog B) s :
  ustop F (fun x s' => ustop F Q (k x) s') m s -> ustop F Q (m ≫= k) s.
Proof.
  unfold mbind, prog_bind.
  induction 1 as [t s r Ho H|t s u Ho _ IH|t s X e k' Ho Hp _ IH|t s X e k' Ho Hp HF].
  - assert (observe (ITree.bind t k) = observe (k r)) as E
      by (rewrite observe_bind, Ho; done).
    destruct H; [eapply ustop_done|eapply ustop_tau|eapply ustop_call|eapply ustop_here];
      rewrite ?E; eauto.
  - eapply ustop_tau; [|apply IH]. by rewrite observe_bind, Ho.
  - eapply ustop_call; [by rewrite observe_bind, Ho|done|apply IH].
  - eapply ustop_here; [by rewrite observe_bind, Ho|done..].
Qed.

Lemma ustop_seq {A B} F (Q : B -> ustate -> Prop) (m : prog A) (k : A -> prog B) s :
  uwp (fun x s' => ustop F Q (k x) s') m s -> ustop F Q (m ≫= k) s.
Proof. intros. by apply ustop_bind, ustop_uwp. Qed.

(** A call that may be undefined. *)
Lemma ustop_refused {X} F (Q : X -> ustate -> Prop) (e : userE X) s :
  ~ pre e s -> F s -> ustop F Q (sys e) s.
Proof. intros. by eapply ustop_here. Qed.

Lemma ustop_undefined {R} (F : ustate -> Prop) (Q : R -> ustate -> Prop) s :
  F s -> ustop F Q undefined s.
Proof. intros. unfold undefined. apply ustop_bind, ustop_refused; [by intros []|done]. Qed.

Lemma ustop_load {A} (F : ustate -> Prop) (Q : A -> ustate -> Prop) v s :
  (forall x, v = Some x -> Q x s) -> (v = None -> F s) -> ustop F Q (load v) s.
Proof. intros HQ HF. destruct v; [by apply ustop_ret, HQ|by apply ustop_undefined, HF]. Qed.

(** A loop, with an invariant over the values already visited. *)
Lemma ustop_for {A} F (Inv : list A -> ustate -> Prop) (Q : unit -> ustate -> Prop) xs body s :
  Inv [] s ->
  (forall before x after s', xs = before ++ x :: after -> Inv before s' ->
     ustop F (fun f s'' => match f with
                       | Next => Inv (before ++ [x]) s''
                       | Break => Q () s''
                       end) (body x) s') ->
  (forall s', Inv xs s' -> Q () s') ->
  ustop F Q (for_each xs body) s.
Proof.
  intros H0 Hb HQ.
  assert (forall rest before s', xs = before ++ rest -> Inv before s' ->
    ustop F Q (for_each rest body) s') as Hgen; [|by apply (Hgen xs [])].
  induction rest as [|x rest IH]; intros before s' E Hi; simpl.
  - apply ustop_ret, HQ. by rewrite E, app_nil_r.
  - apply ustop_bind. eapply ustop_mono; [by eapply Hb|done|].
    intros [|] s'' H; [|by apply ustop_ret].
    apply (IH (before ++ [x])); [|done]. by rewrite <- app_assoc.
Qed.
End Contract.

(** ** Rules *)

Section Rules.
Context `{Env : UserEnv}.

(** A loop, with an invariant over the values already visited. *)
Lemma uwp_for {A} (Inv : list A -> ustate -> Prop) (Q : unit -> ustate -> Prop) xs body s :
  Inv [] s ->
  (forall before x after s', xs = before ++ x :: after -> Inv before s' ->
     uwp (fun f s'' => match f with
                       | Next => Inv (before ++ [x]) s''
                       | Break => Q () s''
                       end) (body x) s') ->
  (forall s', Inv xs s' -> Q () s') ->
  uwp Q (for_each xs body) s.
Proof.
  intros H0 Hb HQ. eapply ustop_never, (ustop_for _ Inv); [done| |done].
  intros. by eapply ustop_uwp, Hb.
Qed.

Lemma uwp_print (Q : unit -> ustate -> Prop) to text s :
  Q () (logged [Call (Print to text) ()] s) -> uwp Q (sys (Print to text)) s.
Proof. intros HQ. apply uwp_sys; [done|]. by intros [] s' [_ ->]. Qed.

Lemma uwp_when (Q : unit -> ustate -> Prop) c m s :
  (c = true -> uwp Q m s) -> (c = false -> Q () s) -> uwp Q (when c m) s.
Proof. destruct c; simpl; intros H1 H2; [by apply H1|by apply uwp_ret, H2]. Qed.

Lemma uwp_load {A} (Q : A -> ustate -> Prop) v x s : v = Some x -> Q x s -> uwp Q (load v) s.
Proof. intros ->. apply uwp_ret. Qed.
End Rules.

(** ** Live objects *)

(** Every parent of a live object is live. *)
Definition rooted (m : gmap Z obj) : Prop :=
  map_Forall (fun _ o => Forall (fun p => is_Some (m !! p)) (parents o)) m.

Lemma rooted_empty : rooted ∅.
Proof. apply map_Forall_empty. Qed.

Lemma rooted_insert m p o :
  rooted m -> m !! p = None -> Forall (fun q => is_Some (m !! q)) (parents o) ->
  rooted (<[p := o]> m).
Proof.
  intros Hm Hp Ho.
  assert (forall q, is_Some (m !! q) -> is_Some (<[p := o]> m !! q)) as Hmono.
  { intros q Hq. apply lookup_insert_is_Some'. by right. }
  apply map_Forall_insert_2; [by eapply Forall_impl|].
  intros q o' Hq. eapply Forall_impl; [apply (Hm q o' Hq)|done].
Qed.

(** A fresh address has no children. *)
Lemma fresh_childless m p o :
  rooted m -> m !! p = None -> p ∉ parents o ->
  map_Forall (fun _ o' => p ∉ parents o') (<[p := o]> m).
Proof.
  intros Hm Hp Ho. apply map_Forall_insert_2; [done|].
  intros q o' Hq Hin. specialize (Hm q o' Hq). rewrite Forall_forall in Hm.
  destruct (Hm p Hin) as [? ?]. congruence.
Qed.

(** The parents of an object made here, when it is fresh itself. *)
Lemma fresh_not_parent (m : gmap Z obj) p o :
  m !! p = None -> Forall (fun q => is_Some (m !! q)) (parents o) -> p ∉ parents o.
Proof. rewrite Forall_forall. intros Hp Ho Hin. destruct (Ho p Hin). congruence. Qed.

#[export] Hint Resolve rooted_empty rooted_insert fresh_childless fresh_not_parent : vf.

(** ** Reports: calls that print or ask, and change nothing *)

(** Of the GID table, the first four entries of port 1. *)
Definition reporting (c : call) : Prop :=
  match c with
  | @Call X e _ =>
      match e with
      | Print _ _ | Dlerror | Dlsym _ _ | Dladdr _ | Peek _ _ | Field _ _
      | Local_array _ _ | Ibv_get_device_name _ | Ibv_query_device _ _ => True
      | Ibv_query_gid _ port i _ => port = 1 /\ 0 <= i < 4
      | _ => False
      end
  end.

Definition reports (s s' : ustate) : Prop :=
  live s' = live s /\ libs s' = libs s /\
  exists new, calls s' = calls s ++ new /\ Forall reporting new.

#[export] Instance reports_refl : Reflexive reports.
Proof. intros s. split_and!; [done..|]. exists []. by rewrite app_nil_r. Qed.

#[export] Instance reports_trans : Transitive reports.
Proof.
  intros s1 s2 s3 (H1 & H2 & n1 & H3 & H4) (H5 & H6 & n2 & H7 & H8).
  split_and!; [congruence..|]. exists (n1 ++ n2). rewrite H7, H3, app_assoc.
  split; [done|]. by apply Forall_app.
Qed.

Lemma reports_logged s c : reporting c -> reports s (logged [c] s).
Proof. intros. split_and!; [done..|]. exists [c]. split; [done|]. by constructor. Qed.

Lemma filled_some {A} (b : A) z o : filled (Some b) (z, o) -> exists a, o = Some a.
Proof. intros [_ H]. destruct (H ltac:(eauto)) as [a Ha]. by exists a. Qed.

Section Reports.
Context `{Env : UserEnv}.

(** A context stays one across reports. *)
Lemma reports_ctx c s s' : reports s s' -> is_ctx c s -> is_ctx c s'.
Proof. intros (E & _) [d Hd]. exists d. by rewrite E. Qed.

Lemma reports_libs h s s' : reports s s' -> h ∈ libs s -> h ∈ libs s'.
Proof. intros (_ & -> & _). done. Qed.

(** A call that reports, in the middle of a part of a program that reports. *)
Lemma uwp_report {X} s0 (Q : X -> ustate -> Prop) (e : userE X) s :
  reports s0 s -> pre e s -> (forall x, reporting (Call e x)) ->
  (forall x s', answers X e x -> law e x s s -> reports s0 s' -> Q x s') ->
  uwp Q (sys e) s.
Proof.
  intros Hr Hp Hrep HQ. apply uwp_sys; [done|]. intros x s' [Ha Hlaw].
  assert (s' = logged [Call e x] s /\ law e x s s) as [-> Hl].
  { specialize (Hrep x). destruct e; simpl in *; try done; destruct_and?; by subst. }
  apply HQ; [done..|]. etrans; [done|]. by apply reports_logged.
Qed.
End Reports.

(** One step through a program whose calls report: [s0] is where it started. *)
Ltac uask :=
  eapply uwp_report;
    [first [eassumption|reflexivity]|cbn; eauto using reports_ctx, reports_libs|cbn; eauto|];
  let Ha := fresh "Hans" in let Hl := fresh "Hlaw" in
  intros ?x ?s Ha Hl ?; cbn in Hl.

Ltac ureport :=
  lazymatch goal with
  | |- uwp _ (mret _) _ => apply uwp_ret
  | |- uwp _ (_ ≫= _) _ => apply uwp_bind
  | |- uwp _ (load (Some _)) _ => apply uwp_ret
  | |- uwp _ (match ?x with pair _ _ => _ end) _ => destruct x
  | |- uwp _ (when true _) _ => unfold when
  | |- uwp _ (when false _) _ => apply uwp_ret
  | |- uwp _ (when _ _) _ => apply uwp_when; intros ?
  | |- uwp _ (if true then _ else _) _ => cbv iota
  | |- uwp _ (if false then _ else _) _ => cbv iota
  | |- uwp _ (if ?c then _ else _) _ => destruct c eqn:?
  | |- uwp _ (sys _) _ => uask
  | |- uwp _ (printf _) _ => uask
  | |- uwp _ (eprintf _) _ => uask
  | |- uwp _ (string_arg _) _ => unfold string_arg
  end.

(** ** Brackets: objects that are made and destroyed *)

(** The steps a run is described by: the listings it obtained, the devices it
    opened (with the context, or a null pointer), and the results of its queries
    of a port. *)
Inductive mark := Listing (l : device_list) | Opened (d c : ptr) | Queried (c : ptr) (ret : Z).

Definition mark_of (c : call) : list mark :=
  match c with
  | @Call X e x =>
      match e in userE X return X -> list mark with
      | Ibv_get_device_list => fun l => [Listing l]
      | Ibv_open_device d => fun c => [Opened d c]
      | Ibv_query_port c _ _ => fun r => [Queried c r.1]
      | _ => fun _ => []
      end x
  end.

Definition marks (cs : list call) : list mark := cs ≫= mark_of.

Lemma marks_app cs cs' : marks (cs ++ cs') = marks cs ++ marks cs'.
Proof. apply bind_app. Qed.

Lemma marks_snoc cs c : marks (cs ++ [c]) = marks cs ++ mark_of c.
Proof. rewrite marks_app. cbn. by rewrite app_nil_r. Qed.

Lemma marks_reports cs : Forall reporting cs -> marks cs = [].
Proof.
  induction 1 as [|[X e x] cs Hc _ IH]; [done|].
  change (mark_of (Call e x) ++ marks cs = []). rewrite IH. by destruct e.
Qed.

(** Nothing is left over, and no mark is made. *)
Definition kept (s s' : ustate) : Prop :=
  live s' = live s /\ libs s' = libs s /\ marks (calls s') = marks (calls s).

(** One more object, and no mark. *)
Definition with_obj (p : ptr) (o : obj) (s s' : ustate) : Prop :=
  live s' = <[p := o]> (live s) /\ libs s' = libs s /\
  marks (calls s') = marks (calls s).

#[export] Instance kept_refl : Reflexive kept.
Proof. done. Qed.

#[export] Instance kept_trans : Transitive kept.
Proof. intros ? ? ? (? & ? & ?) (? & ? & ?). split_and!; congruence. Qed.

Lemma reports_kept s s' : reports s s' -> kept s s'.
Proof.
  intros (H1 & H2 & new & H3 & H4). split_and!; [done..|].
  by rewrite H3, marks_app, (marks_reports new), app_nil_r.
Qed.

Lemma with_obj_kept p o s s1 s2 : with_obj p o s s1 -> kept s1 s2 -> with_obj p o s s2.
Proof. intros (? & ? & ?) (? & ? & ?). split_and!; congruence. Qed.

Lemma kept_with_obj p o s s1 s2 : kept s s1 -> with_obj p o s1 s2 -> with_obj p o s s2.
Proof. intros (? & ? & ?) (? & ? & ?). split_and!; congruence. Qed.

Lemma kept_reports s s1 s2 : kept s s1 -> reports s1 s2 -> kept s s2.
Proof. intros ? ?%reports_kept. by etrans. Qed.

#[export] Hint Resolve kept_reports reports_kept with_obj_kept kept_with_obj : vf.

(** A new object whose parents are live in a rooted state. *)
Record fresh_obj (p : ptr) (o : obj) (s s' : ustate) : Prop := {
  fresh_rooted : rooted (live s);
  fresh_none : live s !! p = None;
  fresh_parents : Forall (fun q => is_Some (live s !! q)) (parents o);
  fresh_with : with_obj p o s s'
}.

Lemma fresh_lookup p o s s' : fresh_obj p o s s' -> live s' !! p = Some o.
Proof. intros [_ _ _ (-> & _)]. apply lookup_insert_eq. Qed.

Lemma fresh_keeps p o s s' q o' :
  fresh_obj p o s s' -> live s !! q = Some o' -> live s' !! q = Some o'.
Proof. intros [_ ? _ (-> & _)] H. rewrite lookup_insert_ne; [done|congruence]. Qed.

Lemma fresh_now_rooted p o s s' : fresh_obj p o s s' -> rooted (live s').
Proof. intros [? ? ? (-> & _)]. eauto with vf. Qed.

Lemma fresh_unused p o s s' : fresh_obj p o s s' -> unused p s'.
Proof. intros [? ? ? (E & _)]. unfold unused. rewrite E. eauto with vf. Qed.

Lemma fresh_step p o s s1 s2 : fresh_obj p o s s1 -> kept s1 s2 -> fresh_obj p o s s2.
Proof. intros [] ?. split; eauto with vf. Qed.

Lemma fresh_destroyed p o s s' :
  fresh_obj p o s s' -> live (destroyed p s') = live s.
Proof. intros [_ ? _ (E & _)]. cbn. rewrite E. by apply delete_insert_id. Qed.

Lemma fresh_report p o s s1 s2 : fresh_obj p o s s1 -> reports s1 s2 -> fresh_obj p o s s2.
Proof. intros ? ?%reports_kept. eauto using fresh_step. Qed.

(** Its members can be read, now and after reports. *)
Lemma fresh_field p o s s1 s2 name :
  fresh_obj p o s s1 -> reports s1 s2 -> name ∈ fields o ->
  exists o', live s2 !! p = Some o' /\ name ∈ fields o'.
Proof. intros Hf Hr Hn. exists o. split; [|done]. eapply fresh_lookup, fresh_report; eauto. Qed.

#[export] Hint Resolve fresh_report fresh_lookup fresh_now_rooted fresh_unused fresh_step : vf.

Section Brackets.
Context `{Env : UserEnv}.

(** A call that makes an object, and one that destroys it. *)
Definition creates (e : userE ptr) (o : obj) : Prop :=
  forall x s s', law e x s s' <-> created x o s s'.

Definition destroys {X} (e : userE X) (p : ptr) : Prop :=
  forall x s s', law e x s s' <-> s' = destroyed p s.

Lemma uwp_create (Q : ptr -> ustate -> Prop) e o s :
  creates e o -> pre e s -> (forall x, mark_of (Call e x) = []) ->
  rooted (live s) -> Forall (fun q => is_Some (live s !! q)) (parents o) ->
  (forall s', kept s s' -> Q NULL s') ->
  (forall p s', p <> NULL -> fresh_obj p o s s' -> Q p s') ->
  uwp Q (sys e) s.
Proof.
  intros Hc Hp Ho Hr Hl H0 H1. apply uwp_sys; [done|]. intros x s' [_ Hlaw].
  assert (marks (calls s ++ [Call e x]) = marks (calls s)) as E.
  { by rewrite marks_snoc, Ho, app_nil_r. }
  destruct (proj1 (Hc _ _ _) Hlaw) as [[-> ->]|(Hx & Hn & ->)].
  - by apply H0.
  - apply H1; [done|]. by split.
Qed.

(** A step that leaves a mark. *)
Definition marked (ms : list mark) (s s' : ustate) : Prop :=
  live s' = live s /\ libs s' = libs s /\ marks (calls s') = marks (calls s) ++ ms.

Lemma uwp_open (Q : ptr -> ustate -> Prop) d s :
  listed d s -> rooted (live s) ->
  (forall s', marked [Opened d NULL] s s' -> Q NULL s') ->
  (forall c s0 s', c <> NULL -> marked [Opened d c] s s0 -> fresh_obj c (OCtx d) s0 s' -> Q c s') ->
  uwp Q (sys (Ibv_open_device d)) s.
Proof.
  intros Hd Hr H0 H1. apply uwp_sys; [done|]. intros x s' [_ Hlaw].
  set (s0 := logged [Call (Ibv_open_device d) x] s).
  assert (marked [Opened d x] s s0) as Ha by (split_and!; [done..|apply (marks_snoc (calls s))]).
  destruct Hlaw as [[-> ->]|(Hx & Hn & ->)]; [by apply H0|].
  by apply (H1 x s0).
Qed.

Lemma uwp_listing (Q : device_list -> ustate -> Prop) s :
  rooted (live s) ->
  (forall l s', answers _ Ibv_get_device_list l -> dl_addr l = NULL -> marked [Listing l] s s' -> Q l s') ->
  (forall l s0 s', answers _ Ibv_get_device_list l -> dl_addr l <> NULL -> dl_num l = Z.of_nat (length (dl_devs l)) ->
     marked [Listing l] s s0 -> fresh_obj (dl_addr l) (OList (dl_devs l)) s0 s' -> Q l s') ->
  uwp Q (sys Ibv_get_device_list) s.
Proof.
  intros Hr H0 H1. apply uwp_sys; [done|]. intros l s' [Hans [Hlaw Hn]].
  set (s0 := logged [Call Ibv_get_device_list l] s).
  assert (marked [Listing l] s s0) as Ha
    by (split_and!; [done..|apply (marks_snoc (calls s))]).
  destruct Hlaw as [[? ->]|(Hx & Hnone & ->)]; [by apply H0|].
  apply (H1 l s0); [done|done|by apply Hn|done|]. by split.
Qed.

(** Loading a library: what is live and the marks stay. *)
Lemma uwp_dlopen (Q : ptr -> ustate -> Prop) path g s :
  (forall h s', live s' = live s -> marks (calls s') = marks (calls s) ->
     (h <> NULL -> h ∈ libs s') -> Q h s') ->
  uwp Q (sys (Dlopen path g)) s.
Proof.
  intros HQ. apply uwp_sys; [done|]. intros h s' [_ Hlaw]. cbn in Hlaw.
  pose proof (marks_snoc (calls s) (Call (Dlopen path g) h)) as Em. rewrite app_nil_r in Em.
  destruct (Z.eqb_spec h NULL); subst s'; apply HQ; try done; set_solver.
Qed.

Lemma uwp_query_port (Q : Z * option ibv_port_attr -> ustate -> Prop) c n b s :
  is_ctx c s ->
  (forall ret o s', answers _ (Ibv_query_port c n b) (ret, o) -> filled b (ret, o) ->
     marked [Queried c ret] s s' -> Q (ret, o) s') ->
  uwp Q (sys (Ibv_query_port c n b)) s.
Proof.
  intros Hc HQ. apply uwp_sys; [done|]. intros [ret o] s' [Ha [Hf ->]]. apply HQ; [done..|].
  split_and!; [done..|apply (marks_snoc (calls s))].
Qed.

(** The same object, with what happened since taken as the past. *)
Lemma fresh_marked p o ms s s1 s2 :
  fresh_obj p o s s1 -> marked ms s1 s2 -> exists s0, marked ms s s0 /\ fresh_obj p o s0 s2.
Proof.
  intros [H1 H2 H3 (H4 & H5 & H6)] (E1 & E2 & E3).
  exists (Mk_ustate (live s) (libs s) (calls s2)). split.
  - split_and!; [done..|]. etrans; [exact E3|by rewrite H6].
  - split; [done..|]. split_and!; [by rewrite E1|by rewrite E2|done].
Qed.

Lemma marked_trans ms ms' s s1 s2 :
  marked ms s s1 -> marked ms' s1 s2 -> marked (ms ++ ms') s s2.
Proof.
  intros (? & ? & E1) (? & ? & E2). split_and!; [congruence..|]. by rewrite E2, E1, app_assoc.
Qed.

Lemma kept_marked s s' : kept s s' <-> marked [] s s'.
Proof. unfold kept, marked. by rewrite app_nil_r. Qed.

Lemma marked_kept ms s s1 s2 : marked ms s s1 -> kept s1 s2 -> marked ms s s2.
Proof. intros (? & ? & E1) (? & ? & E2). split_and!; congruence. Qed.

Lemma kept_then_marked ms s s1 s2 : kept s s1 -> marked ms s1 s2 -> marked ms s s2.
Proof. intros (? & ? & E1) (? & ? & E2). split_and!; congruence. Qed.

Lemma uwp_destroy {X} (Q : X -> ustate -> Prop) (e : userE X) p o s0 s :
  destroys e p -> pre e s -> (forall x, mark_of (Call e x) = []) ->
  fresh_obj p o s0 s -> (forall x s', kept s0 s' -> Q x s') -> uwp Q (sys e) s.
Proof.
  intros Hd Hp Ho Hf HQ. apply uwp_sys; [done|]. intros x s' [_ Hlaw].
  rewrite (proj1 (Hd _ _ _) Hlaw). apply HQ. split_and!.
  - exact (fresh_destroyed p o s0 _ (fresh_step _ _ _ _ (logged [Call e x] s) Hf
      ltac:(split_and!; [done..|]; cbn; by rewrite marks_snoc, Ho, app_nil_r))).
  - by destruct Hf as [_ _ _ (_ & H & _)].
  - destruct Hf as [_ _ _ (_ & _ & H)]. cbn.
    by rewrite marks_snoc, Ho, app_nil_r.
Qed.
End Brackets.

(** A member of the object that [Hf] describes is read. *)
Ltac ufield Hf :=
  lazymatch goal with
  | |- uwp _ (sys (Field _ _)) _ =>
      eapply uwp_report;
      [first [eassumption|reflexivity]
      |cbn; eapply fresh_field; [exact Hf|first [eassumption|reflexivity]|solve [repeat constructor]]
      |done|]; intros ? ? _ _ ?
  end.

(** [ureport] until the program ends or needs more. *)
Ltac ureports Hf := repeat first [ufield Hf|ureport].
