(* ===== verification/Tools.v ===== *)
(** * The C tools of [tools]

    One section per program: [vfinfo.c], [trace_verbs.c], [dump_ops.c],
    [dump_cmd.c], [dump_targets.c], [resolve_got.c], [resolve_dispatch.c] and
    the interposed function of [mach_interpose.c].  A [main] is a [prog Z], the
    value being the exit code.  A loop over an array that ends with a null
    pointer is a loop over the list of its entries; [continue] and [break] are
    the [flow] with which the body of a loop ends. *)

From ITree Require Import ITree.
From S2P Require Import Prelude.
From S2P Require Import IbVerbs.
From S2P Require Import Printf.
From S2P Require Import UserApi.

#[local] Open Scope string_scope.
Open Scope Z_scope.

(** A C condition on a pointer. *)
Definition nonnull (p : ptr) : bool := negb (p =? NULL).

(** ** [vfinfo.c] *)

Section Vfinfo.
Context `{VerbsHeader}.

Definition port_state_str (state : Z) : string :=
  if state =? IBV_PORT_NOP then "NOP"
  else if state =? IBV_PORT_DOWN then "DOWN"
  else if state =? IBV_PORT_INIT then "INIT"
  else if state =? IBV_PORT_ARMED then "ARMED"
  else if state =? IBV_PORT_ACTIVE then "ACTIVE"
  else if state =? IBV_PORT_ACTIVE_DEFER then "ACTIVE_DEFER"
  else "UNKNOWN".

Definition mtu_str (mtu : Z) : string :=
  if mtu =? IBV_MTU_256 then "256"
  else if mtu =? IBV_MTU_512 then "512"
  else if mtu =? IBV_MTU_1024 then "1024"
  else if mtu =? IBV_MTU_2048 then "2048"
  else if mtu =? IBV_MTU_4096 then "4096"
  else "?".

(** "Query device attributes" *)
Definition vfinfo_query_device (ctx : ptr) : prog unit :=
  '(ret, dev_attr) ← sys (Ibv_query_device ctx (Some zero_ibv_device_attr));
  if ret =? 0 then
    a ← load dev_attr;
    printf ("  Vendor ID:     0x" +:+ fmt_x 4 (vendor_id a) +:+ nl);;
    printf ("  Device ID:     0x" +:+ fmt_x 4 (vendor_part_id a) +:+ nl);;
    printf ("  Max MR:        " +:+ fmt_d (max_mr a) +:+ nl);;
    printf ("  Max QP:        " +:+ fmt_d (max_qp a) +:+ nl);;
    printf ("  Max CQ:        " +:+ fmt_d (max_cq a) +:+ nl);;
    printf ("  Max PD:        " +:+ fmt_d (max_pd a) +:+ nl);;
    printf ("  Max CQE:       " +:+ fmt_d (max_cqe a) +:+ nl)
  else
    printf ("  ibv_query_device failed: " +:+ fmt_d ret +:+ nl).

(** "Query port 1"; the attributes are used again below. *)
Definition vfinfo_query_port (ctx : ptr) : prog (option ibv_port_attr) :=
  '(ret, port_attr) ← sys (Ibv_query_port ctx 1 (Some zero_ibv_port_attr));
  (if ret =? 0 then
     a ← load port_attr;
     printf ("  Port 1 state:  " +:+ port_state_str (port_state a) +:+ nl);;
     printf ("  Port 1 LID:    0x" +:+ fmt_x 4 (port_lid a) +:+ nl);;
     printf ("  Port 1 MTU:    " +:+ mtu_str (port_active_mtu a) +:+ nl);;
     printf ("  Port 1 GIDs:   " +:+ fmt_d (port_gid_tbl_len a) +:+ nl)
   else
     printf ("  ibv_query_port(1) failed: " +:+ fmt_d ret +:+ nl));;
  mret port_attr.

(** One group ["%02x%02x"] of a GID, and the eight of them. *)
Definition gid_group (raw : list Z) (k : nat) : string :=
  fmt_x 2 (nth k raw 0) +:+ fmt_x 2 (nth (S k) raw 0).

Definition gid_text (raw : list Z) : string :=
  gid_group raw 0 +:+ ":" +:+ gid_group raw 2 +:+ ":" +:+
  gid_group raw 4 +:+ ":" +:+ gid_group raw 6 +:+ ":" +:+
  gid_group raw 8 +:+ ":" +:+ gid_group raw 10 +:+ ":" +:+
  gid_group raw 12 +:+ ":" +:+ gid_group raw 14.

(** "Query GID table" *)
Definition vfinfo_gid (ctx : ptr) (g : Z) : prog flow :=
  '(ret, gid) ← sys (Ibv_query_gid ctx 1 g (Some (repeat 0 16)));
  when (ret =? 0) (
    raw ← load gid;
    printf ("    GID[" +:+ fmt_d g +:+ "]: " +:+ gid_text raw +:+ nl));;
  mret Next.

Definition vfinfo_gid_table (ctx : ptr) (port_attr : option ibv_port_attr) : prog unit :=
  a ← load port_attr;
  when (0 <? port_gid_tbl_len a) (
    printf ("  GID table:" +:+ nl);;
    for_each (seqZ 0 (Z.min (port_gid_tbl_len a) 4)) (vfinfo_gid ctx)).

(** "Test PD + MR allocation" *)
Definition vfinfo_test_mr (pd : ptr) : prog unit :=
  buf ← sys (Local_array 4096 4096);
  mr ← sys (Ibv_reg_mr pd buf 4096
              (Z.lor (Z.lor IBV_ACCESS_LOCAL_WRITE IBV_ACCESS_REMOTE_READ)
                 IBV_ACCESS_REMOTE_WRITE));
  if nonnull mr then
    lkey ← sys (Field mr "lkey");
    rkey ← sys (Field mr "rkey");
    printf ("  MR register:   OK (lkey=0x" +:+ fmt_x 8 lkey +:+ " rkey=0x" +:+
            fmt_x 8 rkey +:+ ")" +:+ nl);;
    sys (Ibv_dereg_mr mr);;
    mret ()
  else
    printf ("  MR register:   FAILED" +:+ nl).

Definition vfinfo_test_pd (ctx : ptr) : prog unit :=
  pd ← sys (Ibv_alloc_pd ctx);
  if nonnull pd then
    printf ("  PD alloc:      OK" +:+ nl);;
    vfinfo_test_mr pd;;
    sys (Ibv_dealloc_pd pd);;
    mret ()
  else
    printf ("  PD alloc:      FAILED" +:+ nl).

(** "Test CQ creation" *)
Definition vfinfo_test_cq (ctx : ptr) : prog unit :=
  cq ← sys (Ibv_create_cq ctx 64 NULL NULL 0);
  if nonnull cq then
    printf ("  CQ create:     OK" +:+ nl);;
    sys (Ibv_destroy_cq cq);;
    mret ()
  else
    printf ("  CQ create:     FAILED" +:+ nl).

(** The body of the loop over the devices. *)
Definition vfinfo_device (dev_list : device_list) (i : Z) : prog flow :=
  dev ← device_at dev_list i;
  name ← sys (Ibv_get_device_name dev);
  printf ("--- Device " +:+ fmt_d i +:+ ": " +:+ default "(null)" name +:+ " ---" +:+ nl);;
  ctx ← sys (Ibv_open_device dev);
  if ctx =? NULL then
    printf ("  [could not open device]" +:+ nl +:+ nl);;
    mret Next
  else
    vfinfo_query_device ctx;;
    port_attr ← vfinfo_query_port ctx;
    vfinfo_gid_table ctx port_attr;;
    vfinfo_test_pd ctx;;
    vfinfo_test_cq ctx;;
    sys (Ibv_close_device ctx);;
    printf nl;;
    mret Next.

Definition vfinfo_main : prog Z :=
  printf ("Verbifrost — RDMA device info" +:+ nl);;
  printf ("=============================" +:+ nl +:+ nl);;
  dev_list ← sys Ibv_get_device_list;
  if dl_addr dev_list =? NULL then
    eprintf ("Error: ibv_get_device_list failed" +:+ nl);;
    mret 1
  else if dl_num dev_list =? 0 then
    printf ("No RDMA devices found." +:+ nl);;
    printf (nl +:+ "To see ConnectX devices, Verbifrost needs a provider dext." +:+ nl);;
    sys (Ibv_free_device_list (dl_addr dev_list));;
    mret 0
  else
    printf ("Found " +:+ fmt_d (dl_num dev_list) +:+ " RDMA device(s):" +:+ nl +:+ nl);;
    for_each (seqZ 0 (dl_num dev_list)) (vfinfo_device dev_list);;
    sys (Ibv_free_device_list (dl_addr dev_list));;
    mret 0.
End Vfinfo.

(** ** [trace_verbs.c] *)

Section TraceVerbs.
Context `{VerbsHeader}.

Definition extra_syms : list string :=
  ["ibv_register_driver"; "ibv_driver_init"; "verbs_register_provider";
   "ibv_get_device_list_ex"; "ibv_open_device_ex"; "ibv_query_device_ex";
   "rdma_get_devices"; "rdma_create_id"; "rdma_resolve_addr"; "rdma_resolve_route";
   "rdma_connect"; "rdma_listen"; "rdma_accept"].

Definition plugin_paths : list string :=
  ["/usr/lib/rdma/"; "/usr/local/lib/rdma/"; "/opt/rdma/"].

(** ["%s: %s"] of a found symbol: the loops over symbol names of two tools. *)
Definition find_symbol (handle : ptr) (found : string -> ptr -> string) (sym : string) :
    prog flow :=
  s ← sys (Dlsym (Handle handle) sym);
  when (nonnull s) (printf (found sym s));;
  mret Next.

Definition report_found (sym : string) (s : ptr) : string :=
  "  FOUND: " +:+ sym +:+ " at " +:+ fmt_p s +:+ nl.

(** "Get the library info" *)
Definition trace_library (handle : ptr) : prog unit :=
  sym ← sys (Dlsym (Handle handle) "ibv_open_device");
  info ← sys (Dladdr sym);
  match info with
  | Some i =>
      fname ← string_arg (dli_fname i);
      printf ("Library path: " +:+ fname +:+ nl);;
      printf ("Base address: " +:+ fmt_p (dli_fbase i) +:+ nl +:+ nl)
  | None => mret ()
  end.

Definition ok_or_failed (p : ptr) : string := if nonnull p then "OK" else "FAILED".

(** "Try to create a QP" *)
Definition trace_qp_attr (cq : ptr) : ibv_qp_init_attr :=
  {| qia_send_cq := cq; qia_recv_cq := cq;
     qia_max_send_wr := 4; qia_max_recv_wr := 4;
     qia_max_send_sge := 1; qia_max_recv_sge := 1;
     qia_max_inline_data := 64; qia_qp_type := IBV_QPT_RC |}.

Definition trace_qp (pd cq : ptr) : prog unit :=
  qp ← sys (Ibv_create_qp pd (trace_qp_attr cq));
  printf ("  ibv_create_qp: " +:+ ok_or_failed qp +:+ " (" +:+ fmt_p qp +:+ ")" +:+ nl);;
  when (nonnull qp) (
    qp_num ← sys (Field qp "qp_num");
    printf ("    qp_num=" +:+ fmt_d qp_num +:+ nl);;
    sys (Ibv_destroy_qp qp);;
    mret ()).

Definition trace_cq (ctx pd : ptr) : prog unit :=
  cq ← sys (Ibv_create_cq ctx 64 NULL NULL 0);
  printf ("  ibv_create_cq: " +:+ ok_or_failed cq +:+ " (" +:+ fmt_p cq +:+ ")" +:+ nl);;
  when (nonnull cq) (
    trace_qp pd cq;;
    sys (Ibv_destroy_cq cq);;
    mret ()).

Definition trace_active (ctx : ptr) : prog unit :=
  printf (nl +:+ "  ACTIVE device — trying verbs operations:" +:+ nl);;
  pd ← sys (Ibv_alloc_pd ctx);
  printf ("  ibv_alloc_pd: " +:+ ok_or_failed pd +:+ " (" +:+ fmt_p pd +:+ ")" +:+ nl);;
  when (nonnull pd) (
    trace_cq ctx pd;;
    sys (Ibv_dealloc_pd pd);;
    mret ()).

(** The prints of the context's members. *)
Definition trace_context (ctx : ptr) : prog unit :=
  cmd_fd ← sys (Field ctx "cmd_fd");
  printf ("  ctx->cmd_fd = " +:+ fmt_d cmd_fd +:+ nl);;
  async_fd ← sys (Field ctx "async_fd");
  printf ("  ctx->async_fd = " +:+ fmt_d async_fd +:+ nl);;
  poll_cq ← sys (Field ctx "ops.poll_cq");
  printf ("  ops.poll_cq   = " +:+ fmt_p poll_cq +:+ nl);;
  post_send ← sys (Field ctx "ops.post_send");
  printf ("  ops.post_send = " +:+ fmt_p post_send +:+ nl);;
  post_recv ← sys (Field ctx "ops.post_recv");
  printf ("  ops.post_recv = " +:+ fmt_p post_recv +:+ nl).

(** The body of the loop over the devices. *)
Definition trace_device (devs : device_list) (i : Z) : prog flow :=
  dev ← device_at devs i;
  ctx ← sys (Ibv_open_device dev);
  if ctx =? NULL then mret Next
  else
    '(ret, port) ← sys (Ibv_query_port ctx 1 None);
    if negb (ret =? 0) then mret Next
    else
      dev' ← device_at devs i;
      name ← sys (Ibv_get_device_name dev');
      name ← string_arg name;
      port ← load port;
      printf (nl +:+ "Device " +:+ name +:+ " (state=" +:+ fmt_d (port_state port) +:+
              "):" +:+ nl);;
      trace_context ctx;;
      when (port_state port =? IBV_PORT_ACTIVE) (trace_active ctx);;
      sys (Ibv_close_device ctx);;
      mret Next.

(** "Check for librdmacm" *)
Definition trace_librdmacm : prog unit :=
  printf (nl +:+ "=== Checking for librdmacm ===" +:+ nl);;
  cm ← sys (Dlopen "librdmacm.dylib" false);
  if nonnull cm then
    printf ("librdmacm.dylib loaded!" +:+ nl);;
    s ← sys (Dlsym (Handle cm) "rdma_get_devices");
    when (nonnull s) (printf ("  rdma_get_devices found" +:+ nl))
  else
    printf ("librdmacm.dylib not available" +:+ nl).

(** "Check for provider plugins" *)
Definition trace_plugins : prog unit :=
  printf (nl +:+ "=== Checking for provider plugins ===" +:+ nl);;
  for_each plugin_paths (fun path =>
    printf ("  " +:+ path +:+ ": checking..." +:+ nl);; mret Next).

(** "Enumerate all exported symbols we can find" *)
Definition trace_symbols (handle : ptr) : prog unit :=
  printf ("=== Checking for non-ibv symbols ===" +:+ nl);;
  for_each extra_syms (find_symbol handle report_found).

(** "List devices" up to [ibv_free_device_list]. *)
Definition trace_devices : prog unit :=
  printf (nl +:+ "=== ibv_get_device_list ===" +:+ nl);;
  devs ← sys Ibv_get_device_list;
  printf ("Found " +:+ fmt_d (dl_num devs) +:+ " devices" +:+ nl);;
  printf (nl +:+ "=== ibv_open_device ===" +:+ nl);;
  for_each (seqZ 0 (dl_num devs)) (trace_device devs);;
  sys (Ibv_free_device_list (dl_addr devs)).

Definition trace_verbs_main : prog Z :=
  printf ("=== librdma.dylib verbs API trace ===" +:+ nl +:+ nl);;
  handle ← sys (Dlopen "librdma.dylib" true);
  if handle =? NULL then
    err ← sys Dlerror;
    printf ("Cannot load librdma.dylib: " +:+ err +:+ nl);;
    mret 1
  else
    trace_library handle;;
    trace_symbols handle;;
    trace_devices;;
    trace_librdmacm;;
    trace_plugins;;
    printf (nl +:+ "=== Done ===" +:+ nl);;
    mret 0.
End TraceVerbs.

(** ** The dumps of machine code: [dump_ops.c], [dump_cmd.c], [dump_targets.c] *)

(** The loop the three programs share: [n] bytes of [code] in hexadecimal, a
    newline after each 16. *)
Definition dump_byte (code : ptr) (j : Z) : prog flow :=
  b ← sys (Peek 1 (code + j));
  printf (fmt_x 2 b);;
  when ((j + 1) mod 16 =? 0) (printf nl);;
  mret Next.

Definition dump_code (code : ptr) (n : Z) : prog unit :=
  for_each (seqZ 0 n) (dump_byte code);;
  printf (nl +:+ nl).

Section DumpOps.
Context `{VerbsHeader}.

(** The array [ops]: the name that is printed and the member it holds. *)
Definition ops_members : list (string * string) :=
  [("alloc_pd", "ops._compat_alloc_pd"); ("dealloc_pd", "ops._compat_dealloc_pd");
   ("reg_mr", "ops._compat_reg_mr"); ("dereg_mr", "ops._compat_dereg_mr");
   ("create_cq", "ops._compat_create_cq"); ("poll_cq", "ops.poll_cq");
   ("req_notify_cq", "ops.req_notify_cq"); ("destroy_cq", "ops._compat_destroy_cq");
   ("create_qp", "ops._compat_create_qp"); ("modify_qp", "ops._compat_modify_qp");
   ("destroy_qp", "ops._compat_destroy_qp"); ("post_send", "ops.post_send");
   ("post_recv", "ops.post_recv"); ("query_device", "ops._compat_query_device");
   ("query_port", "ops._compat_query_port")].

Fixpoint read_ops (ctx : ptr) (members : list (string * string)) :
    prog (list (string * ptr)) :=
  match members with
  | [] => mret []
  | (name, member) :: rest =>
      p ← sys (Field ctx member); ops ← read_ops ctx rest; mret ((name, p) :: ops)
  end.

Definition dump_op (op : string * ptr) : prog flow :=
  if op.2 =? NULL then mret Next
  else
    printf ("# " +:+ op.1 +:+ " @ " +:+ fmt_p op.2 +:+ nl);;
    dump_code op.2 256;;
    mret Next.

Definition dump_ops_device (devs : device_list) (i : Z) : prog flow :=
  dev ← device_at devs i;
  ctx ← sys (Ibv_open_device dev);
  if ctx =? NULL then mret Next
  else
    '(_, port) ← sys (Ibv_query_port ctx 1 None);
    port ← load port;
    if negb (port_state port =? IBV_PORT_ACTIVE) then
      sys (Ibv_close_device ctx);;
      mret Next
    else
      dev' ← device_at devs i;
      name ← sys (Ibv_get_device_name dev');
      name ← string_arg name;
      printf ("# Device: " +:+ name +:+ nl);;
      ops_addr ← sys (Field ctx "&ops");
      cmd_fd ← sys (Field ctx "cmd_fd");
      printf ("# ops table at " +:+ fmt_p ops_addr +:+ ", cmd_fd=" +:+ fmt_d cmd_fd +:+
              nl +:+ nl);;
      ops ← read_ops ctx ops_members;
      for_each ops dump_op;;
      sys (Ibv_close_device ctx);;
      mret Break.

Definition dump_ops_main : prog Z :=
  devs ← sys Ibv_get_device_list;
  for_each (seqZ 0 (dl_num devs)) (dump_ops_device devs);;
  sys (Ibv_free_device_list (dl_addr devs));;
  mret 0.
End DumpOps.

(** [dump_cmd.c]: the two parallel arrays, as pairs; the loop ends at the first
    null function. *)
Definition cmd_names : list string :=
  ["ibv_cmd_alloc_pd"; "ibv_cmd_create_cq"; "ibv_cmd_create_qp"; "ibv_cmd_reg_mr"].

Fixpoint lookup_all (lib : ptr) (names : list string) : prog (list (string * ptr)) :=
  match names with
  | [] => mret []
  | n :: rest =>
      f ← sys (Dlsym (Handle lib) n); fs ← lookup_all lib rest; mret ((n, f) :: fs)
  end.

Definition dump_cmd_func (func : string * ptr) : prog flow :=
  if func.2 =? NULL then mret Break
  else
    sys (Dladdr func.2);;
    printf ("# " +:+ func.1 +:+ " @ " +:+ fmt_p func.2 +:+ nl);;
    dump_code func.2 512;;
    mret Next.

Definition dump_cmd_main : prog Z :=
  lib ← sys (Dlopen "librdma.dylib" true);
  cmd_funcs ← lookup_all lib cmd_names;
  for_each cmd_funcs dump_cmd_func;;
  mret 0.

(** [dump_targets.c] *)
Definition targets : list (string * Z) :=
  [("target_0b0d8", 0x28af0b0d8); ("target_0af68", 0x28af0af68);
   ("target_0b098", 0x28af0b098); ("target_0afb8", 0x28af0afb8);
   ("target_0afa8", 0x28af0afa8); ("target_0b0ec", 0x28af0b0ec);
   ("target_09e1c", 0x28af09e1c); ("target_0aa2c", 0x28af0aa2c);
   ("target_0a680", 0x28af0a680); ("target_0a610", 0x28af0a610)].

Definition dump_target (t : string * Z) : prog flow :=
  printf ("# " +:+ t.1 +:+ " @ 0x" +:+ fmt_x 1 t.2 +:+ nl);;
  dump_code t.2 48;;
  mret Next.

Definition dump_targets_main : prog Z :=
  for_each targets dump_target;;
  mret 0.

(** ** The resolvers: [resolve_got.c], [resolve_dispatch.c] *)

(** [if (n > 0) ibv_open_device(devs[0]);]: the context is dropped. *)
Definition open_first (devs : device_list) : prog unit :=
  when (0 <? dl_num devs) (
    dev ← device_at devs 0;
    sys (Ibv_open_device dev);;
    mret ()).

Definition got_entries : list (string * Z) :=
  [("target_0b0d8 (first call in alloc_pd)", 0x2a09b6730);
   ("target_0b098 (w0=1, w1=0x650)", 0x2a09b5fb8);
   ("target_0af68 (w5=2)", 0x2a09b6680);
   ("target_0afb8 (w3=16, w5=4)", 0x2a09aa788);
   ("target_0afa8", 0x2a09b6718)].

Definition resolve_entry (e : string * Z) : prog flow :=
  func_addr ← sys (Peek 8 e.2);
  info ← sys (Dladdr func_addr);
  let got := "    GOT[0x" +:+ fmt_x 1 e.2 +:+ "] = 0x" +:+ fmt_x 1 func_addr +:+ nl in
  match info ≫= dli_sname with
  | Some sname =>
      printf ("  " +:+ e.1 +:+ nl);;
      printf got;;
      fname ← string_arg (info ≫= dli_fname);
      printf ("    → " +:+ sname +:+ " (" +:+ fname +:+ ")" +:+ nl +:+ nl)
  | None =>
      printf ("  " +:+ e.1 +:+ nl);;
      printf got;;
      printf ("    → (unresolved)" +:+ nl +:+ nl)
  end;;
  mret Next.

Definition resolve_got_report : prog unit :=
  printf ("=== GOT Entry Resolution ===" +:+ nl +:+ nl);;
  for_each got_entries resolve_entry.

Definition resolve_got_main : prog Z :=
  lib ← sys (Dlopen "librdma.dylib" true);
  if lib =? NULL then
    err ← sys Dlerror;
    printf ("Cannot load librdma: " +:+ err +:+ nl);;
    mret 1
  else
    devs ← sys Ibv_get_device_list;
    open_first devs;;
    resolve_got_report;;
    sys (Ibv_free_device_list (dl_addr devs));;
    mret 0.

Definition dispatch_addrs : list Z := [0x28aeb3b88; 0x28aeb3b48; 0x28aeb3b68].

Definition dispatch_syms : list string :=
  ["ibv_cmd_alloc_pd"; "ibv_cmd_dealloc_pd"; "ibv_cmd_reg_mr"; "ibv_cmd_dereg_mr";
   "ibv_cmd_create_cq"; "ibv_cmd_destroy_cq"; "ibv_cmd_create_qp"; "ibv_cmd_modify_qp";
   "ibv_cmd_destroy_qp"; "ibv_cmd_query_device"; "ibv_cmd_query_port";
   "ibv_cmd_post_send"; "ibv_cmd_post_recv"; "ibv_cmd_poll_cq"; "ibv__init"; "_init"].

Definition dispatch_names : list string :=
  ["ibv_cmd"; "_ibv_write"; "write_to_fd"; "__ibv_write_to_fd"; "ibv_kern_write";
   "ibv_write_to_dev"; "mach_iokit_msg"; "iokit_write"; "rdma_write"; "__rdma_send_cmd"].

(** One of the hard-coded addresses.  [info] is read in the [else] branch too,
    where [dladdr] may have failed and left it uninitialised. *)
Definition resolve_addr (p : Z) : prog flow :=
  info ← sys (Dladdr p);
  match info ≫= dli_sname with
  | Some sname =>
      fname ← string_arg (info ≫= dli_fname);
      printf ("  0x" +:+ fmt_x 1 p +:+ " → " +:+ sname +:+ " (" +:+ fname +:+ ")" +:+ nl)
  | None =>
      i ← load info;
      printf ("  0x" +:+ fmt_x 1 p +:+ " → (unknown, base=" +:+
              default "?" (dli_fname i) +:+ ")" +:+ nl)
  end;;
  mret Next.

(** One of the command functions; the result of [dladdr] is not tested. *)
Definition resolve_sym (lib : ptr) (sym : string) : prog flow :=
  s ← sys (Dlsym (Handle lib) sym);
  when (nonnull s) (
    info ← sys (Dladdr s);
    printf ("  " +:+ sym +:+ " @ " +:+ fmt_p s);;
    i ← load info;
    match dli_sname i with
    | Some sname => printf (" (" +:+ sname +:+ ")")
    | None => mret ()
    end;;
    printf nl);;
  mret Next.

Definition report_dispatch (sym : string) (s : ptr) : string :=
  "  FOUND: " +:+ sym +:+ " @ " +:+ fmt_p s +:+ nl.

Definition resolve_dispatch_report (lib : ptr) : prog unit :=
  printf ("=== Resolving ibv_cmd_alloc_pd dispatch targets ===" +:+ nl +:+ nl);;
  for_each dispatch_addrs resolve_addr;;
  printf (nl +:+ "=== Checking nearby cmd functions ===" +:+ nl);;
  for_each dispatch_syms (resolve_sym lib);;
  printf (nl +:+ "=== Looking for internal dispatch functions ===" +:+ nl);;
  for_each dispatch_names (find_symbol lib report_dispatch).

Definition resolve_dispatch_main : prog Z :=
  lib ← sys (Dlopen "librdma.dylib" true);
  devs ← sys Ibv_get_device_list;
  open_first devs;;
  resolve_dispatch_report lib;;
  sys (Ibv_free_device_list (dl_addr devs));;
  mret 0.

(** ** [mach_interpose.c] *)

Section MachInterpose.
Context `{MachHeader}.

(** [init_real]: the static pointer before and after. *)
Definition init_real (real : ptr) : prog ptr :=
  if real =? NULL then sys (Dlsym RTLD_NEXT "mach_msg_overwrite") else mret real.

Definition is_iokit_msg (msg : ptr) : prog bool :=
  bits ← sys (Peek 4 (msg + off_msgh_bits));
  if negb (Z.land bits MACH_MSGH_BITS_COMPLEX =? 0) then mret false
  else
    remote_port ← sys (Peek 4 (msg + off_msgh_remote_port));
    mret (0x1000 <? remote_port).

(** "Dump first 64 bytes of the message body" *)
Definition log_body (msg : ptr) (send_size : Z) : prog unit :=
  when (sizeof_mach_msg_header_t <? send_size) (
    let body := msg + sizeof_mach_msg_header_t in
    let body_len := Z.min (send_size - sizeof_mach_msg_header_t) 64 in
    eprintf ("  body(" +:+ fmt_d body_len +:+ "): ");;
    for_each (seqZ 0 body_len) (fun i =>
      b ← sys (Peek 1 (body + i)); eprintf (fmt_x 2 b);; mret Next);;
    eprintf nl).

Definition log_request (a : mach_args) : prog unit :=
  iokit ← is_iokit_msg (ma_msg a);
  when (iokit && (0 <? ma_send_size a)) (
    msg_id ← sys (Peek 4 (ma_msg a + off_msgh_id));
    remote_port ← sys (Peek 4 (ma_msg a + off_msgh_remote_port));
    eprintf ("[mach_msg] port=0x" +:+ fmt_x 1 remote_port +:+ " id=" +:+ fmt_d msg_id +:+
             " send=" +:+ fmt_d (ma_send_size a) +:+ " rcv=" +:+ fmt_d (ma_rcv_size a) +:+
             " opt=0x" +:+ fmt_x 1 (u32 (ma_option a)) +:+ nl);;
    log_body (ma_msg a) (ma_send_size a)).

(** The header is read again: it is the reply's, when there is one. *)
Definition log_response (a : mach_args) (ret : Z) : prog unit :=
  iokit ← is_iokit_msg (ma_msg a);
  when (iokit && negb (Z.land (ma_option a) MACH_RCV_MSG =? 0) && (0 <? ma_rcv_size a)) (
    msgh_id ← sys (Peek 4 (ma_msg a + off_msgh_id));
    eprintf ("[mach_msg] RESPONSE id=" +:+ fmt_d msgh_id +:+ " rcv_size=" +:+
             fmt_d (ma_rcv_size a) +:+ " ret=0x" +:+ fmt_x 1 (u32 ret) +:+ nl)).

(** The interposed function, with the static pointer passed through. *)
Definition mach_msg_overwrite (real : ptr) (a : mach_args) : prog (Z * ptr) :=
  real ← init_real real;
  log_request a;;
  ret ← sys (Real_mach_msg_overwrite real a);
  log_response a ret;;
  mret (ret, real).
End MachInterpose.
