(* ===== verification/ToolsSpec.v ===== *)
(** * Shared parts of the tools: lists of devices, dumps, loops over symbols *)

From ITree Require Import ITree.
From S2P Require Import Prelude.
From S2P Require Import Bytes.
From S2P Require Import IbVerbs.
From S2P Require Import Printf.
From S2P Require Import UserApi.
From S2P Require Import UserSpec.
From S2P Require Import Tools.

Open Scope list_scope.
Open Scope Z_scope.
Lemma nonnull_NULL : nonnull NULL = false.
Proof. done. Qed.

Lemma nonnull_true p : p <> NULL -> nonnull p = true.
Proof. intros. apply negb_true_iff. by apply Z.eqb_neq. Qed.

(** The marks of one device: it cannot be opened, or its port is queried. *)
Definition visit (d : ptr) (ms : list mark) : Prop :=
  ms = [Opened d NULL] \/ exists c ret, c <> NULL /\ ms = [Opened d c; Queried c ret].

Lemma seqZ_split n before x after :
  seqZ 0 n = before ++ x :: after ->
  x = Z.of_nat (length before) /\ Z.of_nat (length before) < n.
Proof.
  intros E. assert (seqZ 0 n !! length before = Some x) as H.
  { rewrite E. by apply list_lookup_middle. }
  apply lookup_seqZ in H. lia.
Qed.

Section Shared.
Context `{Env : UserEnv}.

(** A list that has been obtained, and an index into it. *)
Lemma uwp_device_at (Q : ptr -> ustate -> Prop) l i d s :
  dl_addr l <> NULL -> dl_devs l !! Z.to_nat i = Some d -> Q d s ->
  uwp Q (device_at l i) s.
Proof.
  intros Hl Hd HQ. unfold device_at.
  rewrite (proj2 (Z.eqb_neq _ _)), Hd by done. by apply uwp_ret.
Qed.

Lemma listed_at l i d s :
  live s !! dl_addr l = Some (OList (dl_devs l)) -> dl_devs l !! Z.to_nat i = Some d ->
  listed d s.
Proof. intros Hl Hd. exists (dl_addr l), (dl_devs l). eauto using list_elem_of_lookup_2. Qed.


Lemma fresh_is_ctx c d s s' : fresh_obj c (OCtx d) s s' -> is_ctx c s'.
Proof. intros. exists d. eauto with vf. Qed.

(** The loop over a list of devices.  [P] holds after the visits made so far;
    a body that breaks has to establish the end by itself. *)
Lemma ustop_devices F (P : list (list mark) -> ustate -> Prop) (Q : unit -> ustate -> Prop)
    l body s :
  dl_num l = Z.of_nat (length (dl_devs l)) ->
  P [] s ->
  (forall i d mss s', dl_devs l !! Z.to_nat i = Some d ->
     Forall2 visit (take (Z.to_nat i) (dl_devs l)) mss -> P mss s' ->
     ustop F (fun f s'' => match f with
                       | Next => exists ms, visit d ms /\ P (mss ++ [ms]) s''
                       | Break => Q () s''
                       end) (body i) s') ->
  (forall mss s', Forall2 visit (dl_devs l) mss -> P mss s' -> Q () s') ->
  ustop F Q (for_each (seqZ 0 (dl_num l)) body) s.
Proof.
  intros Hn H0 Hb HQ.
  apply (ustop_for F (fun before s' => exists mss,
    Forall2 visit (take (length before) (dl_devs l)) mss /\ P mss s')).
  - by exists [].
  - intros before i after s' E (mss & H1 & H2).
    destruct (seqZ_split _ _ _ _ E) as [-> Hlt].
    destruct (lookup_lt_is_Some_2 (dl_devs l) (length before)) as [d Hd]; [lia|].
    eapply ustop_mono; [apply (Hb (Z.of_nat (length before)) d mss); rewrite ?Nat2Z.id; done|done|].
    intros [|] s''; [|done]. intros (ms & H3 & H4). exists (mss ++ [ms]). split; [|done].
    rewrite length_app, Nat.add_1_r, (take_S_r _ _ d) by done.
    apply Forall2_app; [done|by constructor].
  - intros s' (mss & H1 & H2). rewrite length_seqZ, Hn, Nat2Z.id, firstn_all in H1. eauto.
Qed.

Lemma uwp_devices (P : list (list mark) -> ustate -> Prop) (Q : unit -> ustate -> Prop)
    l body s :
  dl_num l = Z.of_nat (length (dl_devs l)) ->
  P [] s ->
  (forall i d mss s', dl_devs l !! Z.to_nat i = Some d ->
     Forall2 visit (take (Z.to_nat i) (dl_devs l)) mss -> P mss s' ->
     uwp (fun f s'' => match f with
                       | Next => exists ms, visit d ms /\ P (mss ++ [ms]) s''
                       | Break => Q () s''
                       end) (body i) s') ->
  (forall mss s', Forall2 visit (dl_devs l) mss -> P mss s' -> Q () s') ->
  uwp Q (for_each (seqZ 0 (dl_num l)) body) s.
Proof.
  intros Hn H0 Hb HQ. eapply ustop_never, (ustop_devices _ P); [done..| |done].
  intros. by eapply ustop_uwp, Hb.
Qed.

(** The end of a program that has freed everything but the list. *)
Lemma uwp_free_list (Q : unit -> ustate -> Prop) l ms s0 s1 s :
  fresh_obj (dl_addr l) (OList (dl_devs l)) s0 s1 -> marked ms s1 s ->
  (forall s', marked ms s0 s' -> Q () s') ->
  uwp Q (sys (Ibv_free_device_list (dl_addr l))) s.
Proof.
  intros Hf Hm HQ. destruct (fresh_marked _ _ _ _ _ _ Hf Hm) as (s0' & M & Hf').
  eapply uwp_destroy; [done| |done|done|].
  - exists (dl_devs l). eauto with vf.
  - intros [] s' K. apply HQ. by eapply marked_kept.
Qed.
(** A loop whose body reports. *)
Lemma for_each_reports {A} (xs : list A) body s0 s :
  reports s0 s ->
  (forall x s', x ∈ xs -> reports s0 s' ->
     uwp (fun _ s'' => reports s0 s'') (body x) s') ->
  uwp (fun _ s' => reports s0 s') (for_each xs body) s.
Proof.
  intros Hr Hb. apply (uwp_for (fun _ s' => reports s0 s')); [done| |done].
  intros before x after s' -> Hr'. eapply uwp_mono; [apply Hb; [set_solver|done]|].
  by intros [|].
Qed.

Lemma find_symbol_reports h found sym s0 s :
  h ∈ libs s -> reports s0 s ->
  uwp (fun f s' => f = Next /\ reports s0 s') (find_symbol h found sym) s.
Proof. intros Hh Hr. unfold find_symbol. repeat ureport; eauto. Qed.
End Shared.
