(* ===== verification/UserSim.v ===== *)
(** * Running the tools

    [run] executes a program against a function that answers its calls, and is
    stuck where that function has no answer.  A program with a [uwp] is never
    stuck and ends, on every function that keeps the contract ([uwp_run],
    [uwp_not_stuck]); one with a [ustop] ends or is stuck where it may be, on a
    function that answers exactly the legal calls ([ustop_run]).  [answer] is such a function: a small system described by
    a table, on which the tools are run and their undefined calls exhibited. *)

From ITree Require Import ITree.
From S2P Require Import Prelude.
From S2P Require Import Bytes.
From S2P Require Import IbVerbs.
From S2P Require Import Printf.
From S2P Require Import UserApi.
From S2P Require Import UserSpec.

Open Scope list_scope.
Open Scope Z_scope.

Inductive result (R : Type) :=
  | Finished (r : R) (s : ustate)
  | Stuck (s : ustate)
  | Out_of_fuel.
Arguments Finished {R}.
Arguments Stuck {R}.
Arguments Out_of_fuel {R}.

Definition responder : Type := forall X, userE X -> ustate -> option (X * ustate).

Fixpoint run {R} (fuel : nat) (h : responder) (t : prog R) (s : ustate) : result R :=
  match fuel with
  | O => Out_of_fuel
  | S n =>
      match observe (t : itree userE R) with
      | RetF r => Finished r s
      | TauF u => run n h u s
      | VisF e k =>
          match h _ e s with
          | Some (x, s') => run n h (k x) s'
          | None => Stuck s
          end
      end
  end.

Section Adequacy.
Context `{Env : UserEnv}.

(** A function that answers every legal call, as the contract says. *)
Definition lawful (h : responder) : Prop :=
  forall X (e : userE X) s, pre e s -> exists x s', h X e s = Some (x, s') /\ post e s x s'.

Lemma uwp_run {R} h (Q : R -> ustate -> Prop) t s :
  lawful h -> uwp Q t s -> exists fuel r s', run fuel h t s = Finished r s' /\ Q r s'.
Proof.
  intros Hh. induction 1 as [t s r Ho HQ|t s u Ho _ IH|t s X e k Ho Hp _ IH].
  - exists 1%nat, r, s. cbn. by rewrite Ho.
  - destruct IH as (n & r & s' & E & HQ). exists (S n), r, s'. cbn. by rewrite Ho.
  - destruct (Hh X e s Hp) as (x & s1 & Hx & Hpost).
    destruct (IH x s1 Hpost) as (n & r & s' & E & HQ). exists (S n), r, s'. cbn.
    by rewrite Ho, Hx.
Qed.

(** A function that refuses the others. *)
Definition strict (h : responder) : Prop := forall X (e : userE X) s, ~ pre e s -> h X e s = None.

Lemma ustop_run {R} h F (Q : R -> ustate -> Prop) t s :
  lawful h -> strict h -> ustop F Q t s ->
  exists fuel, (exists r s', run fuel h t s = Finished r s' /\ Q r s') \/
               (exists s', run fuel h t s = Stuck s' /\ F s').
Proof.
  intros Hh Hs. induction 1 as [t s r Ho HQ|t s u Ho _ IH|t s X e k Ho Hp _ IH|t s X e k Ho Hp HF].
  - exists 1%nat. left. exists r, s. cbn. by rewrite Ho.
  - destruct IH as (n & IH). exists (S n). cbn. by rewrite Ho.
  - destruct (Hh X e s Hp) as (x & s1 & Hx & Hpost).
    destruct (IH x s1 Hpost) as (n & E). exists (S n). cbn. by rewrite Ho, Hx.
  - exists 1%nat. right. exists s. cbn. by rewrite Ho, (Hs X e s Hp).
Qed.

Lemma uwp_not_stuck {R} h (Q : R -> ustate -> Prop) t s fuel s' :
  lawful h -> uwp Q t s -> run fuel h t s <> Stuck s'.
Proof.
  intros Hh H. revert fuel.
  induction H as [t s r Ho HQ|t s u Ho _ IH|t s X e k Ho Hp _ IH]; intros [|n]; cbn; try done;
    rewrite Ho; [done|apply IH|].
  destruct (Hh X e s Hp) as (x & s1 & -> & Hpost). by apply IH.
Qed.
End Adequacy.

(** Every answer that the contract allows, and all memory readable. *)
Definition any_system : UserEnv := {| readable := fun _ => True; answers := fun _ _ _ => True |}.

(** A system that lists its devices, finds its libraries and symbols, knows the
    names of devices and files, and fills in the attributes of ports. *)
Definition tame_system : UserEnv := {|
  readable := fun _ => True;
  answers := fun X e =>
    match e in userE X return X -> Prop with
    | Ibv_get_device_name _ => fun n => n <> None
    | Dladdr _ => fun i => i <> None /\ (i ≫= dli_fname) <> None
    | Ibv_get_device_list => fun l => dl_addr l <> NULL
    | Ibv_query_port _ _ _ => fun r => r.2 <> None
    | Dlopen _ _ | Dlsym _ _ => fun h => h <> NULL
    | _ => fun _ => True
    end
|}.

(** ** A system described by a table *)

Record demo := Mk_demo {
  dm_devices : list ptr;
  dm_opens : ptr -> bool;                     (** can the device be opened? *)
  dm_port : ptr -> option ibv_port_attr;      (** its port; [None]: the query fails *)
  dm_dladdr : ptr -> option Dl_info
}.

Definition fresh_addr (s : ustate) : ptr :=
  map_fold (fun k _ m => Z.max (k + 16) m) 4096 (live s).

Definition created_by (o : obj) (s : ustate) : option (ptr * ustate) :=
  Some (fresh_addr s, set_live (<[fresh_addr s := o]> (live s)) s).

Definition the_dev (s : ustate) (c : ptr) : ptr :=
  match live s !! c with Some (OCtx d) => d | _ => NULL end.

Section Demo.
Context (D : demo).

(** The answer, from the state in which the call is already in the log. *)
Definition answer_for {X} (e : userE X) : ustate -> option (X * ustate) :=
  match e in userE X return ustate -> option (X * ustate) with
  | Print _ _ => fun s => Some ((), s)
  | Undefined => fun _ => None
  | Dlopen _ _ => fun s => Some (7, Mk_ustate (live s) ({[7]} ∪ libs s) (calls s))
  | Dlerror => fun s => Some ("image not found"%string, s)
  | Dlsym _ _ => fun s => Some (0x7000, s)
  | Dladdr a => fun s => Some (dm_dladdr D a, s)
  | Peek w a => fun s => Some (a mod 256 ^ Z.of_nat w, s)
  | Field _ _ => fun s => Some (5, s)
  | Local_array _ _ => fun s => Some (8192, s)
  | Ibv_get_device_list => fun s =>
      let devs := dm_devices D in
      Some (Mk_device_list (fresh_addr s) devs (Z.of_nat (length devs)),
            set_live (<[fresh_addr s := OList devs]> (live s)) s)
  | Ibv_free_device_list l => fun s => Some ((), destroyed l s)
  | Ibv_get_device_name d => fun s => Some (Some ("mlx" +:+ fmt_d d)%string, s)
  | Ibv_open_device d => fun s => if dm_opens D d then created_by (OCtx d) s else Some (NULL, s)
  | Ibv_close_device c => fun s => Some (0, destroyed c s)
  | Ibv_query_device _ _ => fun s => Some ((0, Some (Mk_ibv_device_attr 5555 4123 1 2 3 4 5)), s)
  | Ibv_query_port c _ b => fun s => 
      Some (match dm_port D (the_dev s c) with Some a => (0, Some a) | None => (5, b) end, s)
  | Ibv_query_gid _ _ _ _ => fun s => Some ((0, Some (seqZ 0 16)), s)
  | Ibv_alloc_pd c => created_by (OPd c)
  | Ibv_dealloc_pd p => fun s => Some (0, destroyed p s)
  | Ibv_reg_mr p _ _ _ => created_by (OMr p)
  | Ibv_dereg_mr m => fun s => Some (0, destroyed m s)
  | Ibv_create_cq c _ _ _ _ => created_by (OCq c)
  | Ibv_destroy_cq q => fun s => Some (0, destroyed q s)
  | Ibv_create_qp p a => created_by (OQp p (qia_send_cq a) (qia_recv_cq a))
  | Ibv_destroy_qp q => fun s => Some (0, destroyed q s)
  | Real_mach_msg_overwrite _ _ => fun s => Some (0, s)
  end.

Definition answer : responder := fun X e s =>
  match answer_for e s with
  | Some (x, s') => Some (x, logged [Call e x] s')
  | None => None
  end.

Lemma fresh_addr_bound s : 4096 <= fresh_addr s /\ forall p, is_Some (live s !! p) -> p < fresh_addr s.
Proof.
  unfold fresh_addr. apply (map_fold_weak_ind (fun r m => 4096 <= r /\
    forall p, is_Some (m !! p) -> p < r)).
  - split; [lia|]. intros p [? H]. by rewrite lookup_empty in H.
  - intros k o m r _ [H1 H2]. split; [lia|]. intros p Hp%lookup_insert_is_Some'.
    destruct Hp as [->|Hp]; [lia|]. specialize (H2 p Hp). lia.
Qed.

Lemma fresh_addr_created o s : created (fresh_addr s) o s (set_live (<[fresh_addr s := o]> (live s)) s).
Proof.
  destruct (fresh_addr_bound s) as [H1 H2]. right. split_and!; [unfold NULL; lia| |done].
  apply eq_None_not_Some. intros H%H2. lia.
Qed.

Lemma filled_value {A} b z (a : A) : filled b (z, Some a).
Proof. split; intros _; by eexists. Qed.

Lemma filled_port {A} b (o : option A) :
  filled b (match o with Some a => (0, Some a) | None => (5, b) end).
Proof. destruct o; [apply filled_value|done]. Qed.

(** The table system keeps the contract. *)
Lemma answer_lawful : lawful (Env := any_system) answer.
Proof.
  intros X e s Hp. unfold answer.
  assert (forall x s', answer_for e s = Some (x, s') ->
    law e x (logged [Call e x] s) (logged [Call e x] s') ->
    exists y s'', match answer_for e s with
      | Some (x, s') => Some (x, logged [Call e x] s') | None => None
      end = Some (y, s'') /\ post (Env := any_system) e s y s'') as Hok.
  { intros x s' -> Hlaw. exists x, (logged [Call e x] s'). done. }
  destruct e as [to text| |path g| |hd n|a|w a|p n|sz al| |l|d|d|c|c b|c po b|c po i b|c|p|p a l ac
    |m|c n cc ch cv|q|p a|q|f a]; try done;
    try (eapply Hok; [reflexivity|reflexivity]).
  - eapply Hok; [done|]. cbn. split; [|done]. apply Z.mod_pos_bound. lia.
  - eapply Hok; [done|]. split; [|done]. apply (fresh_addr_created _ (logged _ s)).
  - cbn in Hok |- *. destruct (dm_opens D d); eapply Hok; try done; [|by left].
    apply (fresh_addr_created _ (logged _ s)).
  - eapply Hok; [done|]. split; [apply filled_value|done].
  - eapply Hok; [done|]. split; [apply filled_port|done].
  - eapply Hok; [done|]. cbn. split; [apply filled_value|]. split; [|done].
    intros raw [= <-]. split; [done|]. by repeat constructor.
  - eapply Hok; [done|]. apply (fresh_addr_created _ (logged _ s)).
  - eapply Hok; [done|]. apply (fresh_addr_created _ (logged _ s)).
  - eapply Hok; [done|]. apply (fresh_addr_created _ (logged _ s)).
  - eapply Hok; [done|]. apply (fresh_addr_created _ (logged _ s)).
Qed.
End Demo.

(** ** The header, with its published values *)

#[refine] Definition published_header : VerbsHeader := {|
  IBV_PORT_NOP := ib_port_state_code IB_PORT_NOP;
  IBV_PORT_DOWN := ib_port_state_code IB_PORT_DOWN;
  IBV_PORT_INIT := ib_port_state_code IB_PORT_INIT;
  IBV_PORT_ARMED := ib_port_state_code IB_PORT_ARMED;
  IBV_PORT_ACTIVE := ib_port_state_code IB_PORT_ACTIVE;
  IBV_PORT_ACTIVE_DEFER := ib_port_state_code IB_PORT_ACTIVE_DEFER;
  IBV_MTU_256 := 1; IBV_MTU_512 := 2; IBV_MTU_1024 := 3; IBV_MTU_2048 := 4;
  IBV_MTU_4096 := 5;
  IBV_ACCESS_LOCAL_WRITE := IB_ACCESS_LOCAL_WRITE;
  IBV_ACCESS_REMOTE_READ := IB_ACCESS_REMOTE_READ;
  IBV_ACCESS_REMOTE_WRITE := IB_ACCESS_REMOTE_WRITE;
  IBV_QPT_RC := ib_qp_type_code IB_QPT_RC
|}.
Proof. all: apply (bool_decide_unpack _); vm_compute; exact I. Defined.

#[refine] Definition published_mach_header : MachHeader := {|
  sizeof_mach_msg_header_t := 24;
  off_msgh_bits := 0; off_msgh_remote_port := 8; off_msgh_id := 20;
  MACH_MSGH_BITS_COMPLEX := 0x80000000; MACH_RCV_MSG := 2
|}.
Proof. by repeat constructor. Defined.
