(* ===== verification/ToolsTheorems.v ===== *)
(** * Theorems about [vfinfo] and [trace_verbs] *)

From ITree Require Import ITree.
From S2P Require Import Prelude.
From S2P Require Import Bytes.
From S2P Require Import IbVerbs.
From S2P Require Import Printf.
From S2P Require Import UserApi.
From S2P Require Import UserSpec.
From S2P Require Import Tools.
From S2P Require Import ToolsSpec.
From S2P Require Import UserSim.

Open Scope list_scope.
Open Scope Z_scope.
Section Vfinfo.
Context `{Env : UserEnv} `{Hdr : VerbsHeader}.

Lemma vfinfo_query_device_reports c s0 s :
  reports s0 s -> is_ctx c s -> uwp (fun _ s' => reports s0 s') (vfinfo_query_device c) s.
Proof.
  intros Hr Hc. unfold vfinfo_query_device.
  do 3 ureport. destruct Hlaw as [[a ->]%filled_some _]. repeat ureport; done.
Qed.

Lemma vfinfo_query_port_marks c s :
  is_ctx c s ->
  uwp (fun o s' => is_Some o /\ exists ret, marked [Queried c ret] s s')
    (vfinfo_query_port c) s.
Proof.
  intros Hc. unfold vfinfo_query_port. ureport.
  apply uwp_query_port; [done|]. intros ret o s1 _ [a ->]%filled_some H1. ureport. ureport.
  1-2: repeat ureport; split; [done|]; exists ret; eapply marked_kept; eauto with vf.
Qed.

Lemma vfinfo_gid_reports c g s0 s :
  0 <= g < 4 -> reports s0 s -> is_ctx c s ->
  uwp (fun f s' => f = Next /\ reports s0 s') (vfinfo_gid c g) s.
Proof.
  intros Hg Hr Hc. unfold vfinfo_gid.
  do 3 ureport. destruct Hlaw as [[a ->]%filled_some _]. repeat ureport; eauto.
Qed.

Lemma vfinfo_gid_table_reports c a s0 s :
  reports s0 s -> is_ctx c s0 ->
  uwp (fun _ s' => reports s0 s') (vfinfo_gid_table c (Some a)) s.
Proof.
  intros Hr Hc. unfold vfinfo_gid_table. repeat ureport; [|done].
  apply (uwp_for (fun _ s' => reports s0 s')); [done| |done].
  intros done g rest s' E Hr'. eapply uwp_mono.
  - apply vfinfo_gid_reports; eauto using reports_ctx.
    assert (g ∈ seqZ 0 (Z.min (port_gid_tbl_len a) 4)) as Hg by (rewrite E; set_solver).
    apply elem_of_seqZ in Hg. lia.
  - intros f s'' [-> ?]. done.
Qed.

Lemma vfinfo_test_mr_kept p s :
  rooted (live s) -> is_pd p s -> uwp (fun _ s' => kept s s') (vfinfo_test_mr p) s.
Proof.
  intros Hm [c Hp]. assert (reports s s) as Hr by done. unfold vfinfo_test_mr.
  do 2 ureport. apply uwp_bind.
  apply (uwp_create _ _ (OMr p)); [done| |done| | | |].
  - exists c. by rewrite (proj1 H).
  - by rewrite (proj1 H).
  - rewrite (proj1 H). by repeat constructor.
  - intros s1 H1. rewrite nonnull_NULL. repeat ureport. etrans; eauto with vf.
  - intros m s1 Hm0 Hf. rewrite nonnull_true by done.
    ureport. eapply uwp_report; [reflexivity|cbn; eapply fresh_field; eauto; set_solver|done|].
    intros lkey s2 _ _ H2. ureport.
    eapply uwp_report; [exact H2|cbn; eapply fresh_field; eauto; set_solver|done|].
    intros rkey s3 _ _ H3. do 3 ureport.
    eapply uwp_destroy; [done| |done|eauto with vf|].
    + split; [exists p|]; eauto with vf.
    + intros. ureport. etrans; eauto with vf.
Qed.

Lemma vfinfo_test_pd_kept c s :
  rooted (live s) -> is_ctx c s -> uwp (fun _ s' => kept s s') (vfinfo_test_pd c) s.
Proof.
  intros Hm [d Hc]. unfold vfinfo_test_pd. ureport.
  apply (uwp_create _ _ (OPd c)); [done|by exists d|done|done|by repeat constructor| |].
  - intros s1 H1. rewrite nonnull_NULL. repeat ureport. eauto with vf.
  - intros p s1 Hp Hf. rewrite nonnull_true by done. do 3 ureport.
    eapply uwp_mono; [apply vfinfo_test_mr_kept; [|exists c]; eauto with vf|].
    intros [] s3 H3. ureport. assert (fresh_obj p (OPd c) s s3) by eauto with vf.
    eapply uwp_destroy; [done| |done|done|].
    + split; [exists c|]; eauto with vf.
    + intros. by ureport.
Qed.

Lemma vfinfo_test_cq_kept c s :
  rooted (live s) -> is_ctx c s -> uwp (fun _ s' => kept s s') (vfinfo_test_cq c) s.
Proof.
  intros Hm [d Hc]. unfold vfinfo_test_cq. ureport.
  apply (uwp_create _ _ (OCq c)); [done|by exists d|done|done|by repeat constructor| |].
  - intros s1 H1. rewrite nonnull_NULL. repeat ureport. eauto with vf.
  - intros q s1 Hq Hf. rewrite nonnull_true by done. do 3 ureport.
    eapply uwp_destroy; [done| |done|eauto with vf|].
    + split; [exists c|]; eauto with vf.
    + intros. by ureport.
Qed.

Lemma vfinfo_device_visits l i d s :
  rooted (live s) -> dl_addr l <> NULL ->
  live s !! dl_addr l = Some (OList (dl_devs l)) -> dl_devs l !! Z.to_nat i = Some d ->
  uwp (fun f s' => f = Next /\ exists ms, visit d ms /\ marked ms s s') (vfinfo_device l i) s.
Proof.
  intros Hm Hn Hl Hd. pose proof (listed_at _ _ _ _ Hl Hd) as Hls. unfold vfinfo_device.
  ureport. eapply uwp_device_at; [done..|]. ureport.
  eapply uwp_report; [reflexivity|done|done|]. intros name s1 _ _ H1. do 3 ureport.
  assert (kept s s0) as K0 by eauto with vf. assert (live s0 = live s) as E by apply K0.
  apply uwp_open; [by unfold listed; rewrite E|by rewrite E| |].
  - intros s2 H2. rewrite Z.eqb_refl. do 3 ureport. split; [done|].
    exists [Opened d NULL]. split; [by left|].
    eapply kept_then_marked; [done|]. eapply marked_kept; eauto with vf.
  - intros c s2 s3 Hc H2 Hf. rewrite (proj2 (Z.eqb_neq _ _)) by done.
    pose proof (fresh_is_ctx _ _ _ _ Hf). ureport.
    eapply uwp_mono; [by apply (vfinfo_query_device_reports c s3)|]. intros [] s4 H4. ureport.
    eapply uwp_mono; [apply vfinfo_query_port_marks; eauto using reports_ctx|].
    intros o s5 [[a ->] [ret H5]]. ureport.
    destruct (fresh_marked c (OCtx d) _ s2 s4 s5 ltac:(eauto with vf) H5) as (s2' & M2 & Hf5).
    eapply uwp_mono; [apply (vfinfo_gid_table_reports c a s5); [done|by eapply fresh_is_ctx]|].
    intros [] s6 H6. ureport. assert (fresh_obj c (OCtx d) s2' s6) as Hf6 by eauto with vf.
    eapply uwp_mono; [apply vfinfo_test_pd_kept; eauto using fresh_is_ctx with vf|].
    intros [] s7 H7. ureport. assert (fresh_obj c (OCtx d) s2' s7) as Hf7 by eauto with vf.
    eapply uwp_mono; [apply vfinfo_test_cq_kept; eauto using fresh_is_ctx with vf|].
    intros [] s8 H8. ureport. assert (fresh_obj c (OCtx d) s2' s8) as Hf8 by eauto with vf.
    eapply uwp_destroy; [done| |done|done|].
    + split; eauto using fresh_is_ctx with vf.
    + intros r s9 H9. do 3 ureport. split; [done|].
      exists [Opened d c; Queried c ret]. split; [right; eauto|].
      eapply kept_then_marked; [done|]. eapply (marked_trans [_] [_]); [done|].
      eapply marked_kept; eauto with vf.
Qed.

(** C15. [vfinfo], on every system and whatever each call answers, makes no call
    whose documented precondition fails, ends, and leaves nothing open: list,
    contexts, domains, regions and queues are all released, also when a device
    cannot be opened or a query or an allocation fails.  It exits with 1 exactly
    when the devices cannot be listed; otherwise it visits each device of the
    list, once and in order: it opens it, and queries its port if that worked. *)
Theorem vfinfo_balanced :
  uwp (fun rc s' => live s' = ∅ /\ exists l,
         (dl_addr l = NULL /\ rc = 1 /\ marks (calls s') = [Listing l]) \/
         (dl_addr l <> NULL /\ rc = 0 /\ exists visits,
            Forall2 visit (dl_devs l) visits /\
            marks (calls s') = Listing l :: concat visits))
      vfinfo_main start_state.
Proof.
  unfold vfinfo_main. do 5 ureport.
  assert (kept start_state s0) as K0 by eauto with vf. pose proof K0 as (E1 & _ & E2).
  apply uwp_listing; [rewrite E1; apply rooted_empty| |].
  - intros l s1 _ Hl H1. rewrite Hl, Z.eqb_refl. do 3 ureport.
    assert (marked [Listing l] start_state s2) as (K1 & _ & K2).
    { eapply kept_then_marked; [done|]. eapply marked_kept; eauto with vf. }
    split; [done|]. exists l. by left.
  - intros l s1 s2 _ Hl Hn H1 Hf. rewrite (proj2 (Z.eqb_neq _ _)) by done.
    destruct (Z.eqb_spec (dl_num l) 0) as [Hz|Hz].
    + cbv iota. do 5 ureport. apply (uwp_free_list _ _ [] s1 s2); [done| |].
      { apply kept_marked. eauto with vf. }
      intros s5 H5. ureport.
      pose proof (kept_then_marked _ _ _ _ K0 (marked_trans _ _ _ _ _ H1 H5)) as (K1 & _ & K2).
      split; [done|]. exists l. right. split_and!; [done|done|]. exists [].
      destruct (dl_devs l); [done|simpl in *; lia].
    + cbv iota. do 3 ureport. assert (kept s2 s3) as K3 by eauto with vf.
      assert (fresh_obj (dl_addr l) (OList (dl_devs l)) s1 s3) as Hf3 by eauto with vf.
      apply (uwp_devices (fun mss s4 => marked (concat mss) s3 s4)); [done| | |].
      * by apply kept_marked.
      * intros i d mss s4 Hd _ M4. pose proof M4 as (E4 & _).
        eapply uwp_mono; [apply (vfinfo_device_visits l i d s4); rewrite ?E4; eauto with vf|].
        intros f s5 [-> (ms & Hv & M5)]. exists ms. split; [done|].
        rewrite concat_app. cbn. rewrite app_nil_r. by eapply marked_trans.
      * intros visits s4 Hv M4. ureport.
        eapply (uwp_free_list _ _ _ s1 s3); [done|done|].
        intros s5 H5. ureport.
        pose proof (kept_then_marked _ _ _ _ K0 (marked_trans _ _ _ _ _ H1 H5)) as (K1 & _ & K2).
        split; [done|]. exists l. right. eauto.
Qed.
End Vfinfo.

(** [p] is a context whose port query failed. *)
Definition query_failed (ms : list mark) (p : ptr) : Prop :=
  exists ret, ret <> 0 /\ Queried p ret ∈ ms.

(** Where [trace_verbs] makes an undefined call.  The last answer it got is that
    of a [dladdr] without a file name, or of an [ibv_get_device_name] that is
    null, and the name goes to a ["%s"]; or the listing it obtained is null, and
    it reads [devs[0]] or frees the list. *)
Definition trace_undefined (s : ustate) : Prop :=
  (exists a i, last (calls s) = Some (Call (Dladdr a) (Some i)) /\ dli_fname i = None) \/
  (exists d, last (calls s) = Some (Call (Ibv_get_device_name d) None)) \/
  (exists l, marks (calls s) = [Listing l] /\ dl_addr l = NULL).

Section TraceVerbs.
Context `{Env : UserEnv} `{Hdr : VerbsHeader}.

Lemma trace_context_reports c d s0 s :
  fresh_obj c (OCtx d) s0 s -> uwp (fun _ s' => reports s s') (trace_context c) s.
Proof.
  intros Hf. assert (reports s s) as Hr by done. unfold trace_context.
  ureports Hf. done.
Qed.

Lemma trace_qp_kept c p q s :
  rooted (live s) -> live s !! p = Some (OPd c) -> live s !! q = Some (OCq c) ->
  uwp (fun _ s' => kept s s') (trace_qp p q) s.
Proof.
  intros Hm Hp Hq. unfold trace_qp. ureport.
  apply (uwp_create _ _ (OQp p q q)); [done| |done|done| | |].
  - split_and!; [by exists c..].
  - repeat constructor; eauto.
  - intros s1 H1. rewrite nonnull_NULL. repeat ureport. eauto with vf.
  - intros qp s1 Hqp Hf. rewrite nonnull_true by done. ureports Hf.
    eapply uwp_destroy; [done| |done|eauto with vf|].
    + split; [exists p, q, q|]; eauto with vf.
    + intros. by ureport.
Qed.

Lemma trace_cq_kept c d p s :
  rooted (live s) -> live s !! c = Some (OCtx d) -> live s !! p = Some (OPd c) ->
  uwp (fun _ s' => kept s s') (trace_cq c p) s.
Proof.
  intros Hm Hc Hp. unfold trace_cq. ureport.
  apply (uwp_create _ _ (OCq c)); [done|by exists d|done|done|by repeat constructor| |].
  - intros s1 H1. rewrite nonnull_NULL. repeat ureport. eauto with vf.
  - intros q s1 Hq Hf. rewrite nonnull_true by done. do 4 ureport.
    assert (fresh_obj q (OCq c) s s0) as Hf0 by eauto with vf.
    eapply uwp_mono; [apply (trace_qp_kept c p q s0); eauto using fresh_keeps with vf|].
    intros [] s2 H2. ureport. assert (fresh_obj q (OCq c) s s2) as Hf2 by eauto with vf.
    eapply uwp_destroy; [done| |done|done|].
    + split; [exists c|]; eauto with vf.
    + intros. by ureport.
Qed.

Lemma trace_active_kept c d s :
  rooted (live s) -> live s !! c = Some (OCtx d) ->
  uwp (fun _ s' => kept s s') (trace_active c) s.
Proof.
  intros Hm Hc. assert (reports s s) as Hr by done. unfold trace_active. do 3 ureport.
  assert (live s0 = live s) as E by apply H.
  apply (uwp_create _ _ (OPd c)); [done|exists d; by rewrite E|done|by rewrite E| | |].
  - rewrite E. by repeat constructor.
  - intros s1 H1. rewrite nonnull_NULL. repeat ureport. etrans; eauto with vf.
  - intros p s1 Hp Hf. rewrite nonnull_true by done. do 4 ureport.
    assert (fresh_obj p (OPd c) s0 s2) as Hf2 by eauto with vf.
    eapply uwp_mono; [apply (trace_cq_kept c d p s2)|].
    + eauto with vf.
    + eapply fresh_keeps; [done|]. by rewrite E.
    + eauto with vf.
    + intros [] s3 H3. ureport. assert (fresh_obj p (OPd c) s0 s3) as Hf3 by eauto with vf.
      eapply uwp_destroy; [done| |done|done|].
      * split; [exists c|]; eauto with vf.
      * intros. ureport. etrans; eauto with vf.
Qed.

Lemma trace_library_reports h s :
  h ∈ libs s -> ustop trace_undefined (fun _ s' => reports s s') (trace_library h) s.
Proof.
  intros Hh. assert (reports s s) as Hr by done. unfold trace_library. apply ustop_seq. ureport.
  apply ustop_seq, uwp_sys; [done|]. intros info s1 [_ ->].
  match goal with |- ustop _ _ _ ?x => assert (reports s x) as H1 by (etrans; [done|by apply reports_logged]) end.
  destruct info as [i|]; [|by apply ustop_ret]. apply ustop_bind, ustop_load.
  - intros f _. apply ustop_uwp. repeat ureport. done.
  - intros E. left. exists x, i. split; [apply last_snoc|done].
Qed.

(** One device: either everything is given back, or its port query failed and
    its context stays open. *)
Lemma trace_device_outcome l i d s :
  rooted (live s) -> dl_addr l <> NULL ->
  live s !! dl_addr l = Some (OList (dl_devs l)) -> dl_devs l !! Z.to_nat i = Some d ->
  ustop trace_undefined (fun f s' => f = Next /\ exists ms, visit d ms /\
         ((forall p, ~ query_failed ms p) /\ marked ms s s' \/
          exists c ret s1, ret <> 0 /\ ms = [Opened d c; Queried c ret] /\ marked ms s s1 /\
            fresh_obj c (OCtx d) s1 s')) (trace_device l i) s.
Proof.
  intros Hm Hn Hl Hd. pose proof (listed_at _ _ _ _ Hl Hd) as Hls. unfold trace_device.
  apply ustop_seq. eapply uwp_device_at; [done..|]. apply ustop_seq, uwp_open; [done|done| |].
  - intros s1 H1. rewrite Z.eqb_refl. apply ustop_ret. split; [done|].
    exists [Opened d NULL]. split; [by left|]. left. split; [|done].
    by intros p (ret & _ & Hin%list_elem_of_singleton).
  - intros c s1 s2 Hc H1 Hf. rewrite (proj2 (Z.eqb_neq _ _)) by done.
    apply ustop_seq, uwp_query_port; [by eapply fresh_is_ctx|]. intros ret o s3 _ Ho H3.
    destruct (fresh_marked _ _ _ _ _ _ Hf H3) as (s1' & M1 & Hf3).
    assert (marked [Opened d c; Queried c ret] s s1') as M by by eapply (marked_trans [_] [_]).
    assert (visit d [Opened d c; Queried c ret]) as Hv by (right; eauto). cbv beta iota.
    destruct (Z.eqb_spec ret 0) as [->|Hret]; cbn [negb]; cbv iota.
    + destruct Ho as [Ho _]. destruct (Ho eq_refl) as [port Hport]. cbn in Hport. subst o.
      apply ustop_seq. eapply uwp_device_at; [done..|]. apply ustop_seq, uwp_sys.
      { exists (dl_addr l), (dl_devs l). split; [|by eapply list_elem_of_lookup_2].
        rewrite (proj1 H3). eapply fresh_keeps; [done|]. by rewrite (proj1 H1). }
      intros name s4 [_ ->].
      match goal with |- ustop _ _ _ ?x => assert (reports s3 x) as H4 by by apply reports_logged end.
      apply ustop_bind, ustop_load; [|intros ->; right; left; exists d; apply last_snoc].
      intros text _. apply ustop_uwp. do 5 ureport.
      match goal with |- uwp _ _ ?x => assert (fresh_obj c (OCtx d) s1' x) as Hf0 by eauto with vf end.
      eapply uwp_mono; [by eapply trace_context_reports|]. intros [] s5 H5. ureport.
      assert (fresh_obj c (OCtx d) s1' s5) as Hf5 by eauto with vf.
      eapply (uwp_mono (fun _ s' => kept s5 s')).
      { ureport; [|done]. eapply trace_active_kept; eauto with vf. }
      intros [] s6 H6. ureport. assert (fresh_obj c (OCtx d) s1' s6) as Hf6 by eauto with vf.
      eapply uwp_destroy; [done| |done|done|].
      * split; eauto using fresh_is_ctx with vf.
      * intros r s7 H7. ureport. split; [done|]. eexists. split; [done|]. left.
        split; [|by eapply marked_kept].
        intros p (ret & Hret & Hin). by apply list_elem_of_In in Hin as [?|[[= -> <-]|[]]].
    + apply ustop_ret. split; [done|]. eexists. split; [done|]. right. by exists c, ret, s1'.
Qed.

(** Between two devices: [ms] are the marks so far, from [sb] on; the objects of
    [sb] are there, and the others are the contexts of failed queries. *)
Record leaking (sb : ustate) (ms : list mark) (s : ustate) : Prop := {
  lk_libs : libs s = libs sb;
  lk_marks : marks (calls s) = marks (calls sb) ++ ms;
  lk_rooted : rooted (live s);
  lk_live : forall p, match live sb !! p with
                      | Some o => live s !! p = Some o /\ ~ query_failed ms p
                      | None => is_Some (live s !! p) <-> query_failed ms p
                      end
}.

Lemma query_failed_app ms ms' p :
  query_failed (ms ++ ms') p <-> query_failed ms p \/ query_failed ms' p.
Proof.
  unfold query_failed. setoid_rewrite elem_of_app. split.
  - intros (r & ? & [?|?]); eauto.
  - intros [(r & ? & ?)|(r & ? & ?)]; eauto.
Qed.

Lemma query_failed_nil p : ~ query_failed [] p.
Proof. by intros (? & _ & ?%elem_of_nil). Qed.

Lemma leaking_start s : rooted (live s) -> leaking s [] s.
Proof.
  intros Hm. pose proof query_failed_nil as Hn. split; [done|by rewrite app_nil_r|done|]. intros p.
  destruct (live s !! p) as [o|] eqn:E; [done|]. split; [|by intros []%Hn].
  by intros [? ?]; congruence.
Qed.

Lemma leaking_clean sb ms ms' s s' :
  leaking sb ms s -> (forall p, ~ query_failed ms' p) -> marked ms' s s' ->
  leaking sb (ms ++ ms') s'.
Proof.
  intros [H1 H2 H3 H4] Hn (E1 & E2 & E3). split; [congruence| |by rewrite E1|].
  - by rewrite E3, H2, <- app_assoc.
  - intros p. specialize (H4 p). specialize (Hn p).
    destruct (live sb !! p); rewrite E1, query_failed_app; tauto.
Qed.

Lemma leaking_leak sb ms d c ret s s1 s' :
  leaking sb ms s -> ret <> 0 -> marked [Opened d c; Queried c ret] s s1 ->
  fresh_obj c (OCtx d) s1 s' -> leaking sb (ms ++ [Opened d c; Queried c ret]) s'.
Proof.
  intros [H1 H2 H3 H4] Hret (E1 & E2 & E3) Hf.
  pose proof Hf as [F1 F2 _ (F3 & F4 & F5)].
  assert (forall p, query_failed [Opened d c; Queried c ret] p <-> p = c) as Hq.
  { intros p. split.
    - intros (r & _ & Hin). by apply list_elem_of_In in Hin as [?|[[= ->]|[]]].
    - intros ->. exists ret. split; [done|]. by repeat constructor. }
  split; [congruence|by rewrite F5, E3, H2, <- app_assoc|by eapply fresh_now_rooted|].
  intros p. specialize (H4 p). specialize (Hq p). 
  pose proof (query_failed_app ms [Opened d c; Queried c ret] p) as Ha.
  rewrite Hq in Ha. rewrite F3, E1. rewrite E1 in F2. destruct (decide (p = c)) as [->|Hpc].
  - rewrite F2 in H4. rewrite lookup_insert_eq. destruct (live sb !! c).
    + by destruct H4.
    + split; [by intros _; apply Ha; right|by eexists].
  - rewrite lookup_insert_ne by done. destruct (live sb !! p); tauto.
Qed.

Lemma trace_librdmacm_keeps s :
  uwp (fun _ s' => live s' = live s /\ marks (calls s') = marks (calls s))
    trace_librdmacm s.
Proof.
  unfold trace_librdmacm. do 3 ureport. assert (kept s s0) as (E1 & E2 & E3) by eauto with vf.
  apply uwp_dlopen. intros cm s1 L1 M1 Hcm. rewrite <- E1, <- E3, <- L1, <- M1.
  apply (uwp_mono (fun _ s' => reports s1 s')).
  - ureport; [|by ureports I]. apply negb_true_iff, Z.eqb_neq in Heqb.
    specialize (Hcm Heqb). assert (reports s1 s1) as Hr by done. repeat ureport; done.
  - intros [] s2 (-> & _ & E)%reports_kept. done.
Qed.

Lemma trace_symbols_reports h s :
  h ∈ libs s -> uwp (fun _ s' => reports s s') (trace_symbols h) s.
Proof.
  intros Hh. assert (reports s s) as Hr by done. unfold trace_symbols. do 2 ureport.
  apply for_each_reports; [done|]. intros sym s1 _ R1.
  eapply uwp_mono; [apply find_symbol_reports; [|done]|by intros ? ? []].
  eauto using reports_libs.
Qed.

Lemma trace_plugins_reports s : uwp (fun _ s' => reports s s') trace_plugins s.
Proof.
  assert (reports s s) as Hr by done. unfold trace_plugins. do 2 ureport.
  apply for_each_reports; [done|]. intros path s1 _ R1. by repeat ureport.
Qed.

Lemma leaking_end sb ms s l o p :
  leaking sb ms s -> live sb = <[dl_addr l := o]> ∅ -> marks (calls sb) = [Listing l] ->
  is_Some (delete (dl_addr l) (live s) !! p) <-> query_failed (marks (calls s)) p.
Proof.
  intros [_ H2 _ H4] Hl Hm. specialize (H4 p).
  rewrite H2, Hm, query_failed_app.
  assert (~ query_failed [Listing l] p) as Hn by by intros (? & _ & ?%list_elem_of_singleton).
  rewrite Hl in H4. destruct (decide (p = dl_addr l)) as [->|Hp].
  - rewrite lookup_insert_eq in H4. rewrite lookup_delete_eq. split; [by intros []|tauto].
  - rewrite lookup_insert_ne in H4 by done. rewrite lookup_empty in H4.
    rewrite lookup_delete_ne by done. tauto.
Qed.

(** The loop and the release of the list, when there is none. *)
Lemma trace_no_list Q l s :
  dl_addr l = NULL -> live s = ∅ -> marks (calls s) = [Listing l] ->
  ustop trace_undefined Q
    (for_each (seqZ 0 (dl_num l)) (trace_device l);; sys (Ibv_free_device_list (dl_addr l))) s.
Proof.
  intros Hl Es Em. assert (trace_undefined s) as HF by (right; right; by exists l).
  apply ustop_bind. destruct (decide (0 < dl_num l)) as [Hn|Hn].
  - rewrite seqZ_cons by lia. simpl. apply ustop_bind, ustop_bind. unfold device_at. rewrite Hl.
    by apply ustop_undefined.
  - rewrite seqZ_nil by lia. apply ustop_ret, ustop_refused; [|done].
    intros [devs H]. by rewrite Es, lookup_empty in H.
Qed.

(** All devices: the list is freed, and the contexts of the failed queries are
    what is left. *)
Definition all_visited (s : ustate) : Prop :=
  exists l visits, dl_addr l <> NULL /\ Forall2 visit (dl_devs l) visits /\
    marks (calls s) = Listing l :: concat visits /\
    forall p, is_Some (live s !! p) <-> query_failed (marks (calls s)) p.

Lemma trace_devices_leak s :
  live s = ∅ -> marks (calls s) = [] ->
  ustop trace_undefined (fun _ s' => all_visited s') trace_devices s.
Proof.
  intros Es Em. unfold trace_devices. apply ustop_seq. do 1 ureport.
  assert (kept s s0) as (E1 & _ & E2) by eauto with vf.
  apply ustop_seq, uwp_listing; [rewrite E1, Es; apply rooted_empty| |].
  - intros l s1 _ Hl (L1 & _ & M1). do 2 (apply ustop_seq; ureport).
    assert (kept s1 s3) as (L3 & _ & M3) by eauto with vf.
    apply trace_no_list; [done|congruence|]. by rewrite M3, M1, E2, Em.
  - intros l s1 s2 _ Hl Hn H1 Hf. do 2 (apply ustop_seq; ureport).
    assert (fresh_obj (dl_addr l) (OList (dl_devs l)) s1 s4) as Hf4 by eauto with vf.
    pose proof (fresh_lookup _ _ _ _ Hf4) as Hlook.
    assert (marks (calls s4) = [Listing l]) as M4.
    { destruct Hf4 as [_ _ _ (_ & _ & ->)]. by rewrite (proj2 (proj2 H1)), E2, Em. }
    apply ustop_bind, (ustop_devices _ (fun mss s5 => leaking s4 (concat mss) s5)); [done| | |].
    + apply leaking_start. eauto with vf.
    + intros i d mss s5 Hd _ Hlk. pose proof (lk_live _ _ _ Hlk (dl_addr l)) as Hl5.
      rewrite Hlook in Hl5.
      eapply ustop_mono; [apply (trace_device_outcome l i d s5); [apply Hlk|done|apply Hl5|done]|done|].
      intros f s6 (-> & ms & Hv & Hout). exists ms. split; [done|].
      rewrite concat_app. cbn. rewrite app_nil_r.
      destruct Hout as [[Hc M]|(c & ret & s5' & Hret & -> & M & Hc)].
      * by eapply leaking_clean.
      * by eapply leaking_leak.
    + intros mss s5 Hv Hlk. apply ustop_uwp, uwp_sys.
      { exists (dl_devs l). pose proof (lk_live _ _ _ Hlk (dl_addr l)) as Hl5.
        rewrite Hlook in Hl5. apply Hl5. }
      intros [] s6 [_ ->]. exists l, mss. split; [done|]. split; [done|].
      change (calls (destroyed _ _)) with (calls s5 ++ [Call (Ibv_free_device_list (dl_addr l)) ()]).
      rewrite marks_snoc, app_nil_r. split; [by rewrite (lk_marks _ _ _ Hlk), M4|]. intros p.
      apply (leaking_end s4 (concat mss) s5 l (OList (dl_devs l))); [done| |done].
      destruct Hf4 as [_ _ _ (-> & _)]. by rewrite (proj1 H1), E1, Es.
Qed.

(** C28. [trace_verbs], on every system and whatever each call answers, ends, or
    makes an undefined call at one of three places: it prints the file name of
    a successful [dladdr] that names none, or the null name of a device, or it
    uses a null device list.  If the library cannot be loaded it exits with 1 and
    has opened nothing.  Otherwise it exits with 0 and has visited each device of
    a list, once and in order, and what it leaves open is exactly the contexts
    whose port query failed: the [continue] after that query skips
    [ibv_close_device]. *)
Theorem trace_verbs_leaks :
  ustop trace_undefined (fun rc s' =>
         (rc = 1 /\ live s' = ∅) \/
         (rc = 0 /\ exists l visits, dl_addr l <> NULL /\ Forall2 visit (dl_devs l) visits /\
            marks (calls s') = Listing l :: concat visits /\
            forall p, is_Some (live s' !! p) <-> query_failed (marks (calls s')) p))
      trace_verbs_main start_state.
Proof.
  unfold trace_verbs_main. apply ustop_seq. do 1 ureport.
  assert (kept start_state s) as (E1 & _ & E2) by eauto with vf.
  apply ustop_seq, uwp_dlopen. intros h s1 L1 M1 Hh. rewrite E1 in L1. rewrite E2 in M1.
  destruct (Z.eqb_spec h NULL) as [->|Hn].
  { apply ustop_uwp. repeat ureport. left. split; [done|].
    assert (kept s1 s2) as (-> & _) by eauto with vf. done. }
  specialize (Hh Hn). cbv iota. apply ustop_bind.
  eapply ustop_mono; [by apply trace_library_reports|done|]. intros [] s2 R2. apply ustop_seq.
  eapply uwp_mono; [apply trace_symbols_reports; eauto using reports_libs|]. intros [] s3 R3.
  assert (kept s1 s3) as (L3 & _ & M3) by eauto with vf. apply ustop_bind.
  eapply ustop_mono; [apply trace_devices_leak; [by rewrite L3, L1|by rewrite M3, M1]|done|].
  intros [] s4 (l & visits & H4). apply ustop_uwp. ureport.
  eapply uwp_mono; [apply trace_librdmacm_keeps|]. intros [] s5 [L5 M5]. ureport.
  eapply uwp_mono; [apply trace_plugins_reports|]. intros [] s6 R6. do 3 ureport.
  right. split; [done|]. exists l, visits.
  assert (kept s5 s0) as (L7 & _ & M7) by eauto with vf.
  rewrite L7, M7, L5, M5. done.
Qed.
End TraceVerbs.

(** Two devices, one of which does not answer about its port: its context is
    what [trace_verbs] leaves open, and [vfinfo] leaves nothing. *)
Definition two_devices : demo :=
  Mk_demo [100; 101] (fun _ => true)
    (fun d => if d =? 100 then Some (Mk_ibv_port_attr 4 7 5 2) else None) (fun _ => None).

Definition left_open {R} (r : result R) : option (list ptr) :=
  match r with Finished _ s => Some (map fst (map_to_list (live s))) | _ => None end.

Example trace_verbs_run :
  left_open (run 500 (answer two_devices) (trace_verbs_main (H := published_header)) start_state)
  = Some [4112].
Proof. vm_compute. reflexivity. Qed.

(** A library without a file name: the run stops after its 3 calls and the
    [dladdr]. *)
Definition nameless : demo :=
  Mk_demo [100] (fun _ => true) (fun _ => None) (fun _ => Some (Mk_Dl_info None 0 None)).

Example trace_verbs_stuck :
  match run 500 (answer nameless) (trace_verbs_main (H := published_header)) start_state with
  | Stuck s => Some (length (calls s))
  | _ => None
  end = Some 4%nat.
Proof. vm_compute. reflexivity. Qed.

Example vfinfo_run :
  left_open (run 500 (answer two_devices) (vfinfo_main (H := published_header)) start_state)
  = Some [].
Proof. vm_compute. reflexivity. Qed.

(** ** Texts *)

(** The text of a GID: 39 characters, eight groups of four digits, from
    which the sixteen bytes can be read back. *)
Theorem gid_text_roundtrip raw :
  length raw = 16%nat -> Forall is_byte raw ->
  unhex (gid_text raw) = Some raw /\ String.length (gid_text raw) = 39%nat.
Proof.
  intros Hlen Hb. do 16 (destruct raw as [|? raw]; [done|]). destruct raw; [|done].
  repeat match goal with H : Forall _ (_ :: _) |- _ => inversion_clear H end.
  unfold gid_text, gid_group. cbn [nth]. rewrite !string_app_assoc. split.
  - repeat first [rewrite unhex_byte by done
      |match goal with |- context [unhex (":" +:+ ?s)] =>
         change (unhex (":" +:+ s)) with (unhex s) end].
    rewrite <- (string_app_nil (fmt_x 2 _)), unhex_byte by done. reflexivity.
  - rewrite !fmt_x_byte by done. reflexivity.
Qed.

Lemma gid_text_roundtrip_witness :
  unhex (gid_text (seqZ 0 16)) = Some (seqZ 0 16) /\
  String.length (gid_text (seqZ 0 16)) = 39%nat.
Proof. apply gid_text_roundtrip; [done|]. by repeat constructor. Defined.

(** The two [switch]es: each label has its text, every other value the default. *)
Ltac distinct_labels H :=
  repeat match type of H with NoDup (_ :: _) =>
    let Hx := fresh in apply NoDup_cons in H; destruct H as [Hx H];
    rewrite ?not_elem_of_cons in Hx; destruct_and? end.

Ltac switch_cases :=
  repeat match goal with |- context [?a =? ?b] =>
    destruct (Z.eqb_spec a b); try (exfalso; congruence) end.

Lemma port_state_str_table `{Hdr : VerbsHeader} :
  map port_state_str [IBV_PORT_NOP; IBV_PORT_DOWN; IBV_PORT_INIT; IBV_PORT_ARMED;
                      IBV_PORT_ACTIVE; IBV_PORT_ACTIVE_DEFER] =
    ["NOP"; "DOWN"; "INIT"; "ARMED"; "ACTIVE"; "ACTIVE_DEFER"]%string.
Proof.
  pose proof port_labels_distinct as H. distinct_labels H. cbn [map].
  unfold port_state_str. by switch_cases.
Qed.

Lemma mtu_str_table `{Hdr : VerbsHeader} :
  map mtu_str [IBV_MTU_256; IBV_MTU_512; IBV_MTU_1024; IBV_MTU_2048; IBV_MTU_4096] =
    ["256"; "512"; "1024"; "2048"; "4096"]%string.
Proof.
  pose proof mtu_labels_distinct as H. distinct_labels H. cbn [map].
  unfold mtu_str. by switch_cases.
Qed.
