(* ===== verification/DumpTheorems.v ===== *)
(** * Theorems about the dumps and the resolvers *)

From ITree Require Import ITree.
From S2P Require Import Prelude.
From S2P Require Import Bytes.
From S2P Require Import IbVerbs.
From S2P Require Import Printf.
From S2P Require Import UserApi.
From S2P Require Import UserSpec.
From S2P Require Import Tools.
From S2P Require Import ToolsSpec.
From S2P Require Import UserSim.

Open Scope list_scope.
Open Scope Z_scope.

(** ** Hexadecimal dumps *)

(** What a log has on the standard output, and the single bytes it reads. *)
Definition text_of (c : call) : string :=
  match c with
  | @Call X e _ => match e with Print Stdout t => t | _ => EmptyString end
  end.

Fixpoint stdout_of (cs : list call) : string :=
  match cs with [] => EmptyString | c :: cs' => text_of c +:+ stdout_of cs' end.

Definition byte_read (c : call) : list (ptr * Z) :=
  match c with
  | @Call X e x =>
      match e in userE X return X -> list (ptr * Z) with
      | Peek 1 a => fun v => [(a, v)]
      | _ => fun _ => []
      end x
  end.

Definition bytes_read (cs : list call) : list (ptr * Z) := cs ≫= byte_read.

Lemma stdout_app cs cs' : stdout_of (cs ++ cs') = stdout_of cs +:+ stdout_of cs'.
Proof.
  induction cs as [|c cs IH]; [done|].
  change (text_of c +:+ stdout_of (cs ++ cs') = (text_of c +:+ stdout_of cs) +:+ stdout_of cs').
  by rewrite IH, string_app_assoc.
Qed.

Lemma bytes_read_app cs cs' : bytes_read (cs ++ cs') = bytes_read cs ++ bytes_read cs'.
Proof. apply bind_app. Qed.

(** The bytes of the memory from [a] on, with their addresses. *)
Definition from_address (a : ptr) (bs : list Z) : list (ptr * Z) :=
  imap (fun k b => (a + Z.of_nat k, b)) bs.

(** A dump only reads bytes and prints. *)
Definition dump_call (c : call) : Prop :=
  match c with
  | @Call X e _ => match e with Print Stdout _ | Peek 1 _ => True | _ => False end
  end.

(** The calls of a dump that has read [bs] from [a] on: its text reads back. *)
Record dumped (a : ptr) (bs : list Z) (cs : list call) : Prop := {
  dumped_only : Forall dump_call cs;
  dumped_text : unhex (stdout_of cs) = Some bs;
  dumped_reads : bytes_read cs = from_address a bs
}.

(** One byte more, and perhaps a newline. *)
Lemma dumped_snoc a bs cs b (ln : list call) :
  dumped a bs cs -> is_byte b ->
  Forall dump_call ln -> unhex (stdout_of ln) = Some [] -> bytes_read ln = [] ->
  dumped a (bs ++ [b])
    (cs ++ [Call (Peek 1 (a + Z.of_nat (length bs))) b;
            Call (Print Stdout (fmt_x 2 b)) ()] ++ ln).
Proof.
  intros [Ho Ht Hr] Hb Hl0 Hl1 Hl2. split.
  - apply Forall_app. split; [done|]. by repeat constructor.
  - rewrite !stdout_app. rewrite (unhex_app _ _ _ Ht).
    change (stdout_of [_; _]) with (EmptyString +:+ (fmt_x 2 b +:+ EmptyString)).
    rewrite string_app_nil. change (EmptyString +:+ fmt_x 2 b) with (fmt_x 2 b).
    by rewrite unhex_byte, Hl1.
  - rewrite !bytes_read_app, Hr, Hl2, app_nil_r. unfold from_address.
    rewrite imap_app. cbn. by rewrite Nat.add_0_r.
Qed.

Section Dumps.
Context `{Env : UserEnv}.

Lemma dump_code_spec code n s :
  (forall i, 0 <= i < n -> readable (code + i)) ->
  uwp (fun _ s' => live s' = live s /\ libs s' = libs s /\
         exists bs new, length bs = Z.to_nat n /\ calls s' = calls s ++ new /\
           dumped code bs new)
      (dump_code code n) s.
Proof.
  intros Hread. unfold dump_code. ureport.
  apply (uwp_for (fun before s' => live s' = live s /\ libs s' = libs s /\
    exists bs new, length bs = length before /\ calls s' = calls s ++ new /\
      dumped code bs new)).
  - split_and!; [done..|]. exists [], []. split_and!; [done|by rewrite app_nil_r|by split].
  - intros before j after s1 E (L & B & bs & new & Hlen & Hc & Hd).
    destruct (seqZ_split _ _ _ _ E) as [-> Hj]. unfold dump_byte. ureport.
    apply uwp_sys.
    { intros i Hi. replace (_ + i) with (code + Z.of_nat (length before)) by lia.
      apply Hread. lia. }
    intros b s2 [_ [Hb ->]]. ureport. apply uwp_print. do 2 ureport.
    + apply uwp_print. ureport. split_and!; [done..|]. exists (bs ++ [b]). eexists.
      split_and!; [by rewrite !length_app, Hlen| |].
      * cbn. by rewrite Hc, <- !app_assoc.
      * rewrite <- Hlen. apply (dumped_snoc _ _ _ _ [Call (Print Stdout nl) ()]); try done.
        by repeat constructor.
    + ureport. split_and!; [done..|]. exists (bs ++ [b]). eexists.
      split_and!; [by rewrite !length_app, Hlen| |].
      * cbn. by rewrite Hc, <- !app_assoc.
      * rewrite <- Hlen. by apply (dumped_snoc _ _ _ _ []); try done.
  - intros s1 (L & B & bs & new & Hlen & Hc & Hd). apply uwp_print.
    split_and!; [done..|]. exists bs, (new ++ [Call (Print Stdout (nl +:+ nl)) ()]).
    split_and!; [by rewrite Hlen, length_seqZ|cbn; by rewrite Hc, <- app_assoc|].
    destruct Hd as [Ho Ht Hr]. split.
    + apply Forall_app. split; [done|]. by repeat constructor.
    + rewrite stdout_app, (unhex_app _ _ _ Ht). exact (f_equal Some (app_nil_r bs)).
    + by rewrite bytes_read_app, Hr, app_nil_r.
Qed.

(** C27. A dump of [n] bytes from [code] reads each of the [n] bytes once, in
    order, and nothing else; and what it prints, newlines after each 16 bytes
    included, reads back as those bytes. *)
Theorem dump_code_reads_back code n s :
  (forall i, 0 <= i < n -> readable (code + i)) ->
  uwp (fun _ s' => live s' = live s /\ exists bs new,
         length bs = Z.to_nat n /\ calls s' = calls s ++ new /\
         bytes_read new = from_address code bs /\ unhex (stdout_of new) = Some bs)
      (dump_code code n) s.
Proof.
  intros Hr. eapply uwp_mono; [by apply dump_code_spec|].
  intros [] s' (L & _ & bs & new & Hlen & E & [_ Ht Hb]). eauto 10.
Qed.

(** ** [dump_cmd.c] *)

(** The symbols that were asked for, with the answers. *)
Definition symbol_of (c : call) : list (string * ptr) :=
  match c with
  | @Call X e x =>
      match e in userE X return X -> list (string * ptr) with
      | Dlsym _ n => fun p => [(n, p)]
      | _ => fun _ => []
      end x
  end.

Definition symbols (cs : list call) : list (string * ptr) := cs ≫= symbol_of.

Lemma symbols_app cs cs' : symbols (cs ++ cs') = symbols cs ++ symbols cs'.
Proof. apply bind_app. Qed.

Lemma dump_no_symbols cs : Forall dump_call cs -> symbols cs = [].
Proof.
  induction 1 as [|[X e x] cs Hc _ IH]; [done|].
  change (symbol_of (Call e x) ++ symbols cs = []). rewrite IH. by destruct e.
Qed.

Lemma from_address_fst a bs : map fst (from_address a bs) = seqZ a (Z.of_nat (length bs)).
Proof.
  unfold from_address. apply list_eq. intros i. change (map fst) with (fmap (M:=list) (@fst Z Z)).
  rewrite list_lookup_fmap, list_lookup_imap.
  destruct (bs !! i) as [b|] eqn:E; cbn.
  - apply lookup_lt_Some in E. symmetry. apply lookup_seqZ. lia.
  - apply lookup_ge_None in E. symmetry. apply lookup_seqZ_ge. lia.
Qed.

(** The functions before the first null pointer. *)
Fixpoint until_null (fs : list (string * ptr)) : list ptr :=
  match fs with
  | [] => []
  | (_, f) :: fs' => if f =? NULL then [] else f :: until_null fs'
  end.

Lemma lookup_all_symbols lib names s :
  lib ∈ libs s ->
  uwp (fun fs s' => map fst fs = names /\ live s' = live s /\ libs s' = libs s /\
         symbols (calls s') = symbols (calls s) ++ fs /\
         bytes_read (calls s') = bytes_read (calls s) /\
         Forall (fun x => exists n, answers _ (Dlsym (Handle lib) n) x.2) fs)
      (lookup_all lib names) s.
Proof.
  revert s. induction names as [|n names IH]; intros s Hlib; cbn [lookup_all].
  - ureport. split_and!; [done..|by rewrite app_nil_r|done|done].
  - ureport. apply uwp_sys; [done|]. intros f s1 [Ha ->]. ureport.
    eapply uwp_mono; [by apply IH|]. intros fs s2 (H1 & H2 & H3 & H4 & H5 & H6). ureport.
    split_and!; [cbn; congruence|done|done| |rewrite H5|constructor; [by exists n|done]].
    + rewrite H4. cbn. by rewrite symbols_app, <- app_assoc.
    + cbn. by rewrite bytes_read_app, app_nil_r.
Qed.

Lemma dump_code_addresses code n s :
  (forall i, 0 <= i < n -> readable (code + i)) -> 0 <= n ->
  uwp (fun _ s' => symbols (calls s') = symbols (calls s) /\
         map fst (bytes_read (calls s')) = map fst (bytes_read (calls s)) ++ seqZ code n)
      (dump_code code n) s.
Proof.
  intros Hr Hn. eapply uwp_mono; [by apply dump_code_spec|].
  intros [] s' (_ & _ & bs & new & Hlen & E & [Ho _ Hb]). rewrite E. split.
  - by rewrite symbols_app, (dump_no_symbols new), app_nil_r.
  - rewrite bytes_read_app, map_app, Hb, from_address_fst, Hlen. f_equal. f_equal. lia.
Qed.

Lemma dump_cmd_funcs fs s :
  (forall f i, f ∈ until_null fs -> 0 <= i < 512 -> readable (f + i)) ->
  uwp (fun _ s' => symbols (calls s') = symbols (calls s) /\
         map fst (bytes_read (calls s')) =
           map fst (bytes_read (calls s)) ++
           concat (map (fun f => seqZ f 512) (until_null fs)))
      (for_each fs dump_cmd_func) s.
Proof.
  revert s. induction fs as [|[n f] fs IH]; intros s Hr; cbn [for_each].
  - ureport. by rewrite app_nil_r.
  - ureport. unfold dump_cmd_func. cbn [fst snd]. cbn [until_null] in Hr |- *.
    destruct (Z.eqb_spec f NULL) as [->|Hf]; cbv iota.
    + do 2 ureport. by rewrite app_nil_r.
    + ureport. apply uwp_sys; [done|]. intros i s1 [_ ->]. ureport. apply uwp_print. ureport.
      eapply uwp_mono; [apply dump_code_addresses; [|lia]|].
      { intros k Hk. apply Hr; [by left|lia]. }
      intros [] s2 [S2 B2]. ureport.
      eapply uwp_mono; [apply IH; intros f' k Hf' Hk; apply Hr; [by right|lia]|].
      intros [] s3 [S3 B3]. rewrite S3, B3, S2, B2. cbn [calls logged].
      rewrite !symbols_app, !bytes_read_app. cbn. by rewrite !app_nil_r, <- app_assoc.
Qed.

(** [dump_cmd], where the library loads and its functions can be read: it
    asks for its four functions in order and dumps 512 bytes of each of them up
    to the first that is missing.  The loop ends at a null pointer, so a missing
    symbol hides the ones after it. *)
Theorem dump_cmd_prefix :
  (forall p g h, answers _ (Dlopen p g) h -> h <> NULL) ->
  (forall h n f i, answers _ (Dlsym h n) f -> f <> NULL -> 0 <= i < 512 -> readable (f + i)) ->
  uwp (fun rc s' => rc = 0 /\ map fst (symbols (calls s')) = cmd_names /\
         map fst (bytes_read (calls s')) =
           concat (map (fun f => seqZ f 512) (until_null (symbols (calls s')))))
      dump_cmd_main start_state.
Proof.
  intros Hlib Hcode. unfold dump_cmd_main. ureport. apply uwp_sys; [done|].
  intros lib s1 [Ha Hlaw]. cbn in Hlaw. rewrite (proj2 (Z.eqb_neq _ _)) in Hlaw by eauto.
  subst s1. ureport.
  eapply uwp_mono; [apply lookup_all_symbols; cbn; set_solver|].
  intros fs s2 (H1 & _ & _ & H4 & H5 & H6). cbn in H4, H5. ureport.
  assert (forall f, f ∈ until_null fs -> f <> NULL /\ exists n, answers _ (Dlsym (Handle lib) n) f)
    as Hfs.
  { clear H1 H4. induction H6 as [|[n f] fs Hf _ IH]; cbn [until_null]; [by intros f ?%elem_of_nil|].
    destruct (Z.eqb_spec f NULL); [by intros ? ?%elem_of_nil|].
    intros f' [->|Hin]%elem_of_cons; [done|by apply IH]. }
  eapply uwp_mono; [apply dump_cmd_funcs|].
  - intros f i (Hf & n & Hn)%Hfs Hi. by eapply Hcode.
  - intros [] s3 [S3 B3]. ureport. rewrite S3, B3, H4, H5. done.
Qed.
End Dumps.

Lemma dump_code_reads_back_witness :
  uwp (Env := any_system) (fun _ s' => live s' = live start_state /\ exists bs new,
         length bs = Z.to_nat 32 /\ calls s' = calls start_state ++ new /\
         bytes_read new = from_address 4096 bs /\ unhex (stdout_of new) = Some bs)
      (dump_code 4096 32) start_state.
Proof. by apply (dump_code_reads_back (Env := any_system)). Defined.

Lemma dump_cmd_prefix_witness :
  uwp (Env := tame_system) (fun rc s' => rc = 0 /\ map fst (symbols (calls s')) = cmd_names /\
         map fst (bytes_read (calls s')) =
           concat (map (fun f => seqZ f 512) (until_null (symbols (calls s')))))
      dump_cmd_main start_state.
Proof.
  apply (dump_cmd_prefix (Env := tame_system)).
  - by intros p g h H.
  - by intros.
Defined.

(** ** [dump_ops.c] *)

Section DumpOps.
Context `{Env : UserEnv} `{Hdr : VerbsHeader}.
Hypothesis names_known : forall d, ~ answers _ (Ibv_get_device_name d) None.
Hypothesis listing_works : forall l, answers _ Ibv_get_device_list l -> dl_addr l <> NULL.
(** A query of a port always fills in its attributes. *)
Hypothesis queries_fill : forall c n b r, answers _ (Ibv_query_port c n b) r -> is_Some r.2.
(** The functions of a context can be read. *)
Hypothesis code_readable : forall c m p i,
  m ∈ map snd ops_members -> answers _ (Field c m) p -> p <> NULL -> 0 <= i < 256 ->
  readable (p + i).

Lemma dump_code_reports code n s :
  (forall i, 0 <= i < n -> readable (code + i)) ->
  uwp (fun _ s' => reports s s') (dump_code code n) s.
Proof.
  intros Hr. eapply uwp_mono; [by apply dump_code_spec|].
  intros [] s' (L & B & bs & new & _ & E & [Ho _ _]). split_and!; [done..|].
  exists new. split; [done|]. eapply Forall_impl; [exact Ho|]. by intros [X []].
Qed.

Lemma read_ops_reports c d s0 s members :
  fresh_obj c (OCtx d) s0 s ->
  Forall (fun m => m ∈ fields (OCtx d)) (map snd members) ->
  uwp (fun ops s' => reports s s' /\
         Forall (fun op => exists m, m ∈ map snd members /\ answers _ (Field c m) op.2) ops)
      (read_ops c members) s.
Proof.
  revert s. induction members as [|[n m] ms IH]; intros s Hf Hm; cbn [read_ops].
  - by ureport.
  - inversion_clear Hm as [|? ? Hm1 Hm2]. ureport. eapply uwp_report; [reflexivity| |done|].
    { cbn. exists (OCtx d). split; [by eapply fresh_lookup|done]. }
    intros p s1 Ha _ R1. ureport. eapply uwp_mono; [apply IH; eauto with vf|].
    intros ops s2 [R2 Ho]. ureport. split; [by etrans|]. constructor.
    + exists m. split; [by left|done].
    + eapply Forall_impl; [exact Ho|]. intros op (m' & ? & ?). exists m'. split; [by right|done].
Qed.

(** The part for an active device, its context open. *)
Lemma dump_op_reports c op s :
  (exists m, m ∈ map snd ops_members /\ answers _ (Field c m) op.2) ->
  uwp (fun _ s' => reports s s') (dump_op op) s.
Proof.
  intros (m & Hm & Ha). assert (reports s s) as Hr by done. unfold dump_op.
  destruct (Z.eqb_spec op.2 NULL); [by ureport|]. do 3 ureport.
  eapply uwp_mono; [apply dump_code_reports; intros i Hi; by eapply code_readable|].
  intros [] s1 R1. ureport. by etrans.
Qed.

Lemma dump_ops_device_outcome l i d s :
  rooted (live s) -> dl_addr l <> NULL ->
  live s !! dl_addr l = Some (OList (dl_devs l)) -> dl_devs l !! Z.to_nat i = Some d ->
  uwp (fun _ s' => exists ms, visit d ms /\ marked ms s s') (dump_ops_device l i) s.
Proof.
  intros Hm Hn Hl Hd. pose proof (listed_at _ _ _ _ Hl Hd) as Hls. unfold dump_ops_device.
  ureport. eapply uwp_device_at; [done..|]. ureport. apply uwp_open; [done|done| |].
  - intros s1 H1. rewrite Z.eqb_refl. ureport. exists [Opened d NULL]. split; [by left|done].
  - intros c s1 s2 Hc H1 Hf. rewrite (proj2 (Z.eqb_neq _ _)) by done. ureport.
    apply uwp_query_port; [by eapply fresh_is_ctx|]. intros ret o s3 Ha _ H3.
    destruct (queries_fill _ _ _ _ Ha) as [port Hport]. cbn in Hport. subst o.
    destruct (fresh_marked _ _ _ _ _ _ Hf H3) as (s1' & M1 & Hf3).
    assert (marked [Opened d c; Queried c ret] s s1') as M by by eapply (marked_trans [_] [_]).
    assert (visit d [Opened d c; Queried c ret]) as Hv by (right; eauto).
    cbv beta iota. do 2 ureport.
    assert (forall s4 f, reports s3 s4 ->
      uwp (fun _ s' => exists ms, visit d ms /\ marked ms s s')
        (sys (Ibv_close_device c);; mret (f : flow)) s4) as Hclose.
    { intros s4 f R4. ureport. assert (fresh_obj c (OCtx d) s1' s4) as Hf4 by eauto with vf.
      eapply uwp_destroy; [done|split; eauto using fresh_is_ctx with vf|done|done|].
      intros r s5 K5. ureport. eexists. split; [done|]. by eapply marked_kept. }
    destruct (port_state port =? IBV_PORT_ACTIVE); cbn [negb]; cbv iota; [|by apply Hclose].
    ureport. eapply uwp_device_at; [done..|]. ureport. eapply uwp_report; [reflexivity| |done|].
    { exists (dl_addr l), (dl_devs l). split; [|by eapply list_elem_of_lookup_2].
      rewrite (proj1 H3). eapply fresh_keeps; [done|]. by rewrite (proj1 H1). }
    intros name s4 Hname _ R4. destruct name as [name|]; [|by destruct (names_known d)].
    do 2 ureport. ureports Hf3.
    eapply uwp_mono; [apply (read_ops_reports c d s1'); [eauto with vf|by repeat constructor]|].
    intros ops s6 [R6 Hops]. ureport.
    eapply uwp_mono; [apply (for_each_reports _ _ s3 s6); [by etrans|]|].
    { intros op s7 Hop R7. rewrite Forall_forall in Hops.
      eapply uwp_mono; [apply (dump_op_reports c); by apply Hops|]. intros f s8 R8. by etrans. }
    intros [] s7 R7. by apply Hclose.
Qed.

(** [dump_ops], where the devices can be listed and their names are known,
    port queries fill in their attributes and the context's functions can be
    read: it makes no undefined call, exits with 0 and leaves nothing open,
    whether or not there is an active device.  It visits a prefix of the list:
    the search ends at the first active device. *)
Theorem dump_ops_balanced :
  uwp (fun rc s' => rc = 0 /\ live s' = ∅ /\ exists l k visits,
         Forall2 visit (take k (dl_devs l)) visits /\
         marks (calls s') = Listing l :: concat visits)
      dump_ops_main start_state.
Proof.
  unfold dump_ops_main. ureport. apply uwp_listing; [apply rooted_empty| |].
  - intros l s1 Ha Hl. by destruct (listing_works l).
  - intros l s1 s2 _ Hl Hn H1 Hf. ureport.
    assert (forall k mss s3, Forall2 visit (take k (dl_devs l)) mss -> marked (concat mss) s2 s3 ->
      uwp (fun rc s' => rc = 0 /\ live s' = ∅ /\ exists l k visits,
             Forall2 visit (take k (dl_devs l)) visits /\
             marks (calls s') = Listing l :: concat visits)
        (sys (Ibv_free_device_list (dl_addr l));; mret 0) s3) as Hend.
    { intros k mss s3 Hv M. ureport. eapply uwp_free_list; [done|done|].
      intros s4 H4. ureport. pose proof (marked_trans _ _ _ _ _ H1 H4) as (K1 & _ & K2).
      split_and!; [done|done|]. by exists l, k, mss. }
    apply (uwp_devices (fun mss s4 => marked (concat mss) s2 s4)); [done| | |].
    + by apply kept_marked.
    + intros i d mss s4 Hd Hv M4. pose proof M4 as (E4 & _).
      eapply uwp_mono; [apply (dump_ops_device_outcome l i d s4); rewrite ?E4; eauto with vf|].
      intros f s5 (ms & Hms & M5).
      assert (marked (concat (mss ++ [ms])) s2 s5) as M6.
      { rewrite concat_app. cbn. rewrite app_nil_r. by eapply marked_trans. }
      destruct f; [by exists ms|]. apply (Hend (S (Z.to_nat i)) (mss ++ [ms])); [|done].
      rewrite (take_S_r _ _ d) by done. apply Forall2_app; [done|by constructor].
    + intros mss s4 Hv M4. apply (Hend (length (dl_devs l)) mss); [by rewrite firstn_all|done].
Qed.
End DumpOps.

Lemma dump_ops_balanced_witness :
  uwp (Env := tame_system) (fun rc s' => rc = 0 /\ live s' = ∅ /\ exists l k visits,
         Forall2 visit (take k (dl_devs l)) visits /\
         marks (calls s') = Listing l :: concat visits)
      (dump_ops_main (H := published_header)) start_state.
Proof.
  apply (dump_ops_balanced (Env := tame_system) (Hdr := published_header)).
  - by intros d H.
  - by intros l H.
  - intros c n b [ret [a|]] H; [by exists a|by destruct H].
  - by intros.
Defined.

(** [dump_ops] ignores the result of [ibv_query_port]: on a system where that
    query may fail without writing the attributes, which the interface allows,
    it uses an uninitialised variable, whatever the values of the header. *)
Theorem dump_ops_uninitialised (Hdr : VerbsHeader) :
  ~ uwp (Env := any_system) (fun _ _ => True) dump_ops_main start_state.
Proof.
  intros H. set (D := Mk_demo [100] (fun _ => true) (fun _ => None) (fun _ => None)).
  eapply (uwp_not_stuck _ _ _ _ 20 _ (answer_lawful D) H). vm_compute. reflexivity.
Qed.

(** ** The resolvers *)

(** What is left open by a program that lists the devices and opens the first. *)
Definition leftover (ms : list mark) : gmap Z obj :=
  match ms with
  | [Listing _; Opened d c] => if c =? NULL then ∅ else {[c := OCtx d]}
  | _ => ∅
  end.

Section Resolvers.
Context `{Env : UserEnv}.
Hypothesis listing_works : forall l, answers _ Ibv_get_device_list l -> dl_addr l <> NULL.

Lemma open_first_outcome l s :
  dl_addr l <> NULL -> dl_num l = Z.of_nat (length (dl_devs l)) ->
  live s = {[dl_addr l := OList (dl_devs l)]} -> marks (calls s) = [Listing l] ->
  uwp (fun _ s' => libs s' = libs s /\
         live s' !! dl_addr l = Some (OList (dl_devs l)) /\
         delete (dl_addr l) (live s') = leftover (marks (calls s')))
      (open_first l) s.
Proof.
  intros Hl Hn Es Em.
  assert (live s !! dl_addr l = Some (OList (dl_devs l))) as Hls
    by (rewrite Es; apply lookup_singleton_eq).
  unfold open_first. destruct (dl_devs l) as [|d devs] eqn:Hdevs; cbn in Hn; rewrite Hn.
  { apply uwp_ret. rewrite Em. split_and!; [done|done|]. rewrite Es. apply delete_singleton_eq. }
  rewrite (proj2 (Z.ltb_lt _ _)) by lia. unfold when. ureport.
  eapply uwp_device_at; [done|by rewrite Hdevs|]. ureport. apply uwp_open.
  - exists (dl_addr l), (d :: devs). split; [done|by left].
  - rewrite Es. apply map_Forall_singleton. constructor.
  - intros s1 (E1 & B1 & M1). ureport. rewrite E1, M1, Em, Es.
    split_and!; [done|apply lookup_singleton_eq|apply delete_singleton_eq].
  - intros c s0 s1 Hc (E0 & B0 & M0) [_ Hf _ (E1 & B1 & M1)]. ureport.
    rewrite E1, M1, M0, Em, E0, Es, B1, B0. rewrite E0, Es in Hf.
    assert (c <> dl_addr l) as Hca by (intros ->; by rewrite lookup_singleton_eq in Hf).
    split_and!; [done|by rewrite lookup_insert_ne, lookup_singleton_eq|].
    rewrite delete_insert_ne, delete_singleton_eq by done. cbn.
    by rewrite (proj2 (Z.eqb_neq _ _)).
Qed.

(** Listing, opening the first device, a report, freeing the list: the frame of
    both programs. *)
Lemma uwp_open_first (Q : Z -> ustate -> Prop) (report : prog unit) s :
  live s = ∅ -> marks (calls s) = [] ->
  (forall s', libs s' = libs s -> uwp (fun _ s'' => reports s' s'') report s') ->
  (forall s', live s' = leftover (marks (calls s')) -> Q 0 s') ->
  uwp Q (devs ← sys Ibv_get_device_list; open_first devs;; report;;
         sys (Ibv_free_device_list (dl_addr devs));; mret 0) s.
Proof.
  intros Es Em Hrep HQ. ureport. apply uwp_listing; [rewrite Es; apply rooted_empty| |].
  { intros l s1 Ha Hl. by destruct (listing_works l). }
  intros l s1 s2 _ Hl Hn (E1 & B1 & M1) [_ _ _ (E2 & B2 & M2)]. ureport.
  eapply uwp_mono; [apply open_first_outcome; [done|done| |]|].
  { rewrite E2, E1, Es. apply insert_empty. }
  { by rewrite M2, M1, Em. }
  intros [] s3 (B3 & L3 & D3). ureport.
  eapply uwp_mono; [apply Hrep; congruence|].
  intros [] s4 (E4 & _ & M4)%reports_kept. ureport. apply uwp_sys.
  { exists (dl_devs l). by rewrite E4. }
  intros [] s5 [_ ->]. ureport. apply HQ. cbn [live destroyed set_live logged].
  rewrite E4, D3, <- M4. change (marks _) with (marks (calls s4)) at 1.
  f_equal. symmetry. etrans; [apply marks_snoc|]. by rewrite app_nil_r.
Qed.

(** [resolve_got], where the table entries can be read and a known symbol has a
    known file: as [resolve_dispatch] below, or it exits with 1 and has opened
    nothing when the library cannot be loaded. *)
Theorem resolve_got_leaves_open :
  (forall e i, e ∈ got_entries -> 0 <= i < 8 -> readable (e.2 + i)) ->
  (forall a i, answers _ (Dladdr a) (Some i) -> dli_fname i <> None) ->
  uwp (fun rc s' => (rc = 0 \/ rc = 1) /\ live s' = leftover (marks (calls s')))
    resolve_got_main start_state.
Proof.
  intros Hgot Hfile. unfold resolve_got_main. ureport. apply uwp_dlopen. intros h s1 L1 M1 _.
  destruct (Z.eqb_spec h NULL) as [->|Hn]; cbv iota.
  { repeat ureport. split; [by right|].
    match goal with R : reports s1 ?s |- context [live ?s] =>
      destruct (reports_kept _ _ R) as (-> & _ & ->) end.
    by rewrite L1, M1. }
  apply uwp_open_first; [done|done| |intros; by split; [left|]].
  intros s Hs. assert (reports s s) as Hr by done. unfold resolve_got_report. do 2 ureport.
  apply for_each_reports; [done|]. intros e s2 He R2. unfold resolve_entry. ureport.
  eapply uwp_report; [exact R2|intros i Hi; by apply Hgot|done|].
  intros func s3 _ _ R3. ureport. eapply uwp_report; [exact R3|done|done|].
  intros info s4 Ha _ R4. cbv zeta. ureport.
  destruct info as [i|]; cbn [mbind option_bind]; [|repeat ureport; done].
  specialize (Hfile _ _ Ha).
  destruct (dli_sname i), (dli_fname i); repeat ureport; done.
Qed.

(** [dladdr] finds every address, and names its file. *)
Hypothesis addresses_known : forall a r, answers _ (Dladdr a) r ->
  exists i, r = Some i /\ dli_fname i <> None.

Lemma uwp_dladdr (Q : option Dl_info -> ustate -> Prop) a s0 s :
  reports s0 s ->
  (forall i f s', dli_fname i = Some f -> reports s0 s' -> Q (Some i) s') ->
  uwp Q (sys (Dladdr a)) s.
Proof.
  intros Hr HQ. eapply uwp_report; [exact Hr|done|done|]. intros r s' Ha _ R.
  destruct (addresses_known _ _ Ha) as (i & -> & Hf). destruct (dli_fname i) as [f|] eqn:E; [|done].
  by eapply HQ.
Qed.

Lemma resolve_addr_reports p s0 s :
  reports s0 s -> uwp (fun _ s' => reports s0 s') (resolve_addr p) s.
Proof.
  intros Hr. unfold resolve_addr. ureport. eapply uwp_dladdr; [done|].
  intros i f s1 Hf R1. ureport. cbn [mbind option_bind]. rewrite Hf.
  destruct (dli_sname i); repeat ureport; done.
Qed.

Lemma resolve_sym_reports lib sym s0 s :
  lib ∈ libs s -> reports s0 s -> uwp (fun _ s' => reports s0 s') (resolve_sym lib sym) s.
Proof.
  intros Hl Hr. unfold resolve_sym. do 4 ureport; [|by ureport]. ureport.
  eapply uwp_dladdr; [done|]. intros i f si Hf Ri. do 4 ureport.
  destruct (dli_sname i); repeat ureport; done.
Qed.

Lemma resolve_dispatch_reports lib s :
  lib ∈ libs s -> uwp (fun _ s' => reports s s') (resolve_dispatch_report lib) s.
Proof.
  intros Hl. assert (reports s s) as Hr by done. unfold resolve_dispatch_report. do 3 ureport.
  eapply uwp_mono; [apply for_each_reports; [done|]; intros; by apply resolve_addr_reports|].
  intros [] s1 R1. do 3 ureport.
  eapply uwp_mono; [apply for_each_reports; [done|]; intros; apply resolve_sym_reports;
    eauto using reports_libs|].
  intros [] s9 R9. do 2 ureport.
  apply for_each_reports; [done|]. intros sym s4 _ R4.
  eapply uwp_mono; [apply find_symbol_reports; eauto using reports_libs|by intros ? ? []].
Qed.

(** [resolve_dispatch], where the library loads, the devices can be listed
    and [dladdr] finds every address and names its file: it makes no undefined
    call and exits with 0; the list is freed, and the context of the first
    device, if it could be opened, is left open: its handle is dropped. *)
Theorem resolve_dispatch_leaves_open :
  (forall p g h, answers _ (Dlopen p g) h -> h <> NULL) ->
  uwp (fun rc s' => rc = 0 /\ live s' = leftover (marks (calls s')))
    resolve_dispatch_main start_state.
Proof.
  intros Hlib. unfold resolve_dispatch_main. ureport. eapply uwp_sys; [done|].
  intros h s1 [Ha Hlaw]. cbn in Hlaw. rewrite (proj2 (Z.eqb_neq _ _)) in Hlaw by eauto. subst s1.
  apply uwp_open_first; [done|done| |done].
  intros s' Hs. apply resolve_dispatch_reports. rewrite Hs.
  by apply elem_of_union_l, elem_of_singleton.
Qed.
End Resolvers.

Lemma resolve_dispatch_leaves_open_witness :
  uwp (Env := tame_system) (fun rc s' => rc = 0 /\ live s' = leftover (marks (calls s')))
    resolve_dispatch_main start_state.
Proof.
  apply (resolve_dispatch_leaves_open (Env := tame_system)).
  - by intros l H.
  - intros a [i|] [H1 H2]; [by exists i|done].
  - by intros p g h H.
Defined.

(** [resolve_dispatch] reads [info.dli_fname] also where [dladdr] failed and
    did not write [info]: on a system that does not know the hard-coded
    addresses it uses an uninitialised variable. *)
Theorem resolve_dispatch_uninitialised :
  ~ uwp (Env := any_system) (fun _ _ => True) resolve_dispatch_main start_state.
Proof.
  intros H. set (D := Mk_demo [] (fun _ => true) (fun _ => None) (fun _ => None)).
  eapply (uwp_not_stuck _ _ _ _ 20 _ (answer_lawful D) H). vm_compute. reflexivity.
Qed.
