(* ===== verification/InterposeTheorems.v ===== *)
(** * The interposed [mach_msg_overwrite]: transparency and bounds *)

From ITree Require Import ITree.
From S2P Require Import Prelude.
From S2P Require Import Bytes.
From S2P Require Import IbVerbs.
From S2P Require Import Printf.
From S2P Require Import UserApi.
From S2P Require Import UserSpec.
From S2P Require Import Tools.
From S2P Require Import ToolsSpec.
From S2P Require Import UserSim.

Open Scope list_scope.
Open Scope Z_scope.

Section Interposed.
Context `{Env : UserEnv} `{Hdr : MachHeader}.

(** Where the calls of the interposer may read for a message of [n] bytes: the
    header, and at most 64 bytes of the body. *)
Definition reads_to (n : Z) : Z :=
  sizeof_mach_msg_header_t + Z.max 0 (Z.min (n - sizeof_mach_msg_header_t) 64).

(** The calls that observe: prints to the error stream, reads of the message. *)
Definition observing (msg n : Z) (c : call) : Prop :=
  match c with
  | @Call X e _ =>
      match e with
      | Print Stderr _ => True
      | Peek w p => msg <= p /\ p + Z.of_nat w <= msg + reads_to n
      | _ => False
      end
  end.

(** [s'] comes from [s] by calls that observe. *)
Definition observes (msg n : Z) (s s' : ustate) : Prop :=
  exists new, s' = logged new s /\ Forall (observing msg n) new.

#[export] Instance observes_refl msg n : Reflexive (observes msg n).
Proof. intros [l b c]. exists []. split; [|done]. unfold logged. cbn. by rewrite app_nil_r. Qed.

Lemma observes_snoc msg n s0 s c :
  observes msg n s0 s -> observing msg n c -> observes msg n s0 (logged [c] s).
Proof.
  intros (new & -> & Hn) Hc. exists (new ++ [c]). split.
  - unfold logged. cbn. by rewrite app_assoc.
  - apply Forall_app. split; [done|by constructor].
Qed.

Context (msg n : Z).
Hypothesis message_readable : forall i, 0 <= i < reads_to n -> readable (msg + i).

Lemma uwp_observe_print (Q : unit -> ustate -> Prop) t s0 s :
  observes msg n s0 s -> (forall s', observes msg n s0 s' -> Q () s') ->
  uwp Q (eprintf t) s.
Proof. intros Ho HQ. apply uwp_print, HQ. by apply observes_snoc. Qed.

Lemma uwp_observe_peek (Q : Z -> ustate -> Prop) w o s0 s :
  0 <= o -> o + Z.of_nat w <= reads_to n ->
  observes msg n s0 s -> (forall v s', observes msg n s0 s' -> Q v s') ->
  uwp Q (sys (Peek w (msg + o))) s.
Proof.
  intros H1 H2 Ho HQ. apply uwp_sys.
  - intros i Hi. rewrite <- Z.add_assoc. apply message_readable. lia.
  - intros v s' [_ [_ ->]]. apply HQ, observes_snoc; [done|]. cbn. lia.
Qed.

(** The header is not empty. *)
Lemma header_size : 4 <= sizeof_mach_msg_header_t.
Proof. pose proof header_fields as H. inversion_clear H. lia. Qed.

(** The fields of the header lie in what may be read. *)
Lemma header_field o :
  o ∈ [off_msgh_bits; off_msgh_remote_port; off_msgh_id] ->
  0 <= o /\ o + Z.of_nat 4 <= reads_to n.
Proof.
  intros Ho. pose proof header_fields as H. rewrite Forall_forall in H.
  specialize (H o Ho). unfold reads_to. cbn. lia.
Qed.

Lemma uwp_observe_header (Q : Z -> ustate -> Prop) o s0 s :
  o ∈ [off_msgh_bits; off_msgh_remote_port; off_msgh_id] ->
  observes msg n s0 s -> (forall v s', observes msg n s0 s' -> Q v s') ->
  uwp Q (sys (Peek 4 (msg + o))) s.
Proof. intros Ho. destruct (header_field o Ho). by apply uwp_observe_peek. Qed.
End Interposed.

(** A step through the interposer. *)
Ltac uobserve :=
  lazymatch goal with
  | |- uwp _ (_ ≫= _) _ => apply uwp_bind
  | |- uwp _ (eprintf _) _ => eapply uwp_observe_print; [eassumption|intros ?s ?]
  | |- uwp _ (sys (Peek 4 _)) _ =>
      eapply uwp_observe_header; [eassumption|apply list_elem_of_In; cbn; tauto|eassumption|intros ?v ?s ?]
  | |- uwp _ (mret _) _ => apply uwp_ret
  | |- uwp _ (when _ _) _ => apply uwp_when; intros ?
  | |- uwp _ (if ?c then _ else _) _ => destruct c eqn:?
  end.

Section Interposer.
Context `{Env : UserEnv} `{Hdr : MachHeader}.

Lemma is_iokit_msg_observes msg n s0 s :
  (forall i, 0 <= i < reads_to n -> readable (msg + i)) -> observes msg n s0 s ->
  uwp (fun _ s' => observes msg n s0 s') (is_iokit_msg msg) s.
Proof. intros Hm Ho. unfold is_iokit_msg. repeat uobserve; done. Qed.

Lemma log_body_observes msg n s0 s :
  (forall i, 0 <= i < reads_to n -> readable (msg + i)) -> observes msg n s0 s ->
  uwp (fun _ s' => observes msg n s0 s') (log_body msg n) s.
Proof.
  intros Hm Ho. unfold log_body. uobserve; [|done]. cbv zeta. do 3 uobserve.
  apply (uwp_for (fun _ s' => observes msg n s0 s')); [done| |intros; by uobserve].
  intros before i after s2 E Ho2. destruct (seqZ_split _ _ _ _ E) as [-> Hi]. uobserve.
  rewrite <- Z.add_assoc. apply Z.ltb_lt in H.
  pose proof header_size.
  eapply uwp_observe_peek; [done|lia|unfold reads_to; lia|done|].
  intros b s3 Ho3. do 2 uobserve. by uobserve.
Qed.

Lemma log_request_observes a s :
  (forall i, 0 <= i < reads_to (ma_send_size a) -> readable (ma_msg a + i)) ->
  uwp (fun _ s' => observes (ma_msg a) (ma_send_size a) s s') (log_request a) s.
Proof.
  intros Hm. assert (observes (ma_msg a) (ma_send_size a) s s) as Ho by done.
  unfold log_request. uobserve. eapply uwp_mono; [by apply is_iokit_msg_observes|].
  intros iokit s1 Ho1. cbv beta in Ho1. uobserve; [|done]. do 6 uobserve. by apply log_body_observes.
Qed.

Lemma log_response_observes a ret s :
  (forall i, 0 <= i < reads_to (ma_send_size a) -> readable (ma_msg a + i)) ->
  uwp (fun _ s' => observes (ma_msg a) (ma_send_size a) s s') (log_response a ret) s.
Proof.
  intros Hm. assert (observes (ma_msg a) (ma_send_size a) s s) as Ho by done.
  unfold log_response. uobserve. eapply uwp_mono; [by apply is_iokit_msg_observes|].
  intros iokit s1 Ho1. cbv beta in Ho1. uobserve; [|done]. do 3 uobserve. done.
Qed.

(** C20. The interposed [mach_msg_overwrite] is transparent: whatever the message,
    it calls the real function exactly once, with the arguments it was given, and
    returns its result; the pointer to the real function is looked up once and
    then kept.  All it does besides is to print on the error stream and to read
    the header and at most 64 bytes of the body, never past [send_size]. *)
Theorem mach_msg_overwrite_transparent real a s :
  (forall i, 0 <= i < reads_to (ma_send_size a) -> readable (ma_msg a + i)) ->
  (forall f, answers _ (Dlsym RTLD_NEXT "mach_msg_overwrite") f -> f <> NULL) ->
  uwp (fun r s' => exists lookup before after,
         live s' = live s /\ libs s' = libs s /\
         calls s' = calls s ++ lookup ++ before ++
                    [Call (Real_mach_msg_overwrite r.2 a) r.1] ++ after /\
         lookup = (if real =? NULL then [Call (Dlsym RTLD_NEXT "mach_msg_overwrite") r.2]
                   else []) /\
         (real <> NULL -> r.2 = real) /\
         Forall (observing (ma_msg a) (ma_send_size a)) before /\
         Forall (observing (ma_msg a) (ma_send_size a)) after)
      (mach_msg_overwrite real a) s.
Proof.
  intros Hm Hreal. unfold mach_msg_overwrite. ureport.
  apply (uwp_mono (fun f s1 => f <> NULL /\ (real <> NULL -> f = real) /\
    s1 = logged (if real =? NULL then [Call (Dlsym RTLD_NEXT "mach_msg_overwrite") f]
                 else []) s)).
  { unfold init_real. destruct (Z.eqb_spec real NULL) as [->|Hn].
    - apply uwp_sys; [done|]. intros f s1 [Ha ->]. split_and!; [by apply Hreal|done|done].
    - apply uwp_ret. split_and!; [done|done|]. destruct s. unfold logged. cbn.
      by rewrite app_nil_r. }
  intros f s1 (Hf & Hfr & ->). ureport.
  eapply uwp_mono; [by apply log_request_observes|]. intros [] s2 (before & -> & Hb). ureport.
  apply uwp_sys; [done|]. intros ret s3 [_ ->]. ureport.
  eapply uwp_mono; [by apply log_response_observes|]. intros [] s4 (after & -> & Ha). ureport.
  eexists _, before, after. split_and!; [done|done| |reflexivity|done|done|done].
  cbn. by rewrite <- !app_assoc.
Qed.
End Interposer.

(** A message of 100 bytes, the real function not looked up yet. *)
Definition sample_message : mach_args := Mk_mach_args 4096 1 100 0 0 0 0.

Lemma mach_msg_overwrite_transparent_witness :
  uwp (Env := tame_system) (fun r s' => exists lookup before after,
         live s' = live start_state /\ libs s' = libs start_state /\
         calls s' = calls start_state ++ lookup ++ before ++
                    [Call (Real_mach_msg_overwrite r.2 sample_message) r.1] ++ after /\
         lookup = (if NULL =? NULL then [Call (Dlsym RTLD_NEXT "mach_msg_overwrite") r.2]
                   else []) /\
         (NULL <> NULL -> r.2 = NULL) /\
         Forall (observing (Hdr := published_mach_header) (ma_msg sample_message)
                   (ma_send_size sample_message)) before /\
         Forall (observing (Hdr := published_mach_header) (ma_msg sample_message)
                   (ma_send_size sample_message)) after)
      (mach_msg_overwrite (H := published_mach_header) NULL sample_message) start_state.
Proof.
  apply (mach_msg_overwrite_transparent (Env := tame_system) (Hdr := published_mach_header)).
  - done.
  - by intros f H.
Defined.
